(* ===== verification/_CoqProject ===== *)
-Q . S2P
Prelude.v
Riscv.v
PmmState.v
Dlist.v
Buddy.v
Pmm.v
Tiles.v
BuddyInv.v
BuddyProofs.v
BuddyFree.v
BuddyInit.v
PmmProofs.v
PmmSpec.v
Mem.v
Str.v
Snprintf.v
Dts.v
DtsProofs.v
DtsClients.v
DtsMemory.v
DtsTheorems.v
Sync.v
Typing.v
Vmm.v
VmmProofs.v
VmmSpec.v
KernVm.v
VmTheorems.v
ProcState.v
Csr.v
Sched.v
Process.v
Trap.v
SchedProofs.v
TrapProofs.v
HeapProofs.v
SpaceProofs.v
AllocProcess.v
Fork.v
ForkProofs.v
ForkSpec.v
ForkViews.v
Spike.v
SpikeProofs.v
SpikeFile.v
SpikeFileProofs.v
Console.v
Elf.v
Hosted.v
HostFiles.v
SpikeTheorems.v
ElfProofs.v
ElfSpec.v
Kernel.v
KernelTypes.v
PmmTypes.v
ProcTypes.v
StartTypes.v
VmPrint.v
Machine.v
MachineProofs.v
ExMachine.v
MachineTheorems.v
KernelTheorems.v
ExKernel.v
ProcTheorems.v
TrapTheorems.v
ExHost.v
User.v
UserProofs.v
UserTheorems.v
TrapPrint.v
Loader.v
LoaderSpec.v
FirstProcess.v
ExLoader.v
LoaderTheorems.v
FirstTheorems.v
TypesTheorems.v
