(* ===== verification/Prelude.v ===== *)
(** * PKE: a verification library for the proxy kernel under src/work/

    PKE is a small teaching kernel for one RISC-V hart (RV64, Sv39) under the
    Spike emulator: a buddy allocator with per-CPU page caches, Sv39 address
    spaces, a process pool with copy-on-write fork, a ready queue, a trap
    handler with eleven system calls, an ELF loader, and an interface to the
    emulator's host.  This library translates the C code, function by
    function, to executable definitions and proves what they do.

    ** Method

    An operation is a function [M S A] from a state to an [outcome]: a value
    and a new state, or a [stop], the way control leaves the code for good
    (panic, kassert, shutdown, an access outside every object, a busy-wait no
    other hart can end, the return to user mode).  [wp m Q E s] says that [m]
    from [s] returns with [Q] or stops with [E]; [E := no_stop] says that [m]
    returns.  A loop of the code is structural where its bound is, and has
    fuel otherwise; fuel that runs out is the stop [OutOfFuel], which no
    theorem below allows but the one on types (it says nothing of why the
    kernel stops), so each theorem about such a loop is also a proof that it
    ends.  The fuel is the number of iterations (table sizes, header
    counts), one step per byte of memory for scans of strings and of the
    device tree, or the size of the pool for the ready queue.  Integers are
    [Z] with the wrap-around of their C type written out ([u64], [u32], [u8],
    [s64], [s32]).  Memory that C reads through computed pointers is a finite
    map from addresses to bytes (Mem.v); the allocator's structures, which are
    only reached through typed pointers, are records and maps (PmmState.v).

    ** Files

    Common ground
    - Prelude.v: monad, [wp] rules, word arithmetic, tactics, hints.
    - Riscv.v: kernel/riscv.h, memlayout.h, config.h, util/functions.h; Csr.v:
      the rest of riscv.h and the layout of the saved registers.
    - Mem.v: byte memory, little-endian access, frames.
    - Typing.v: [types I X m R], runs that keep an invariant, with rules that
      follow the monad and a hint database.

    Physical memory: kernel/pmm.c
    - PmmState.v (data), Buddy.v, Pmm.v: the operations.
    - Dlist.v: the intrusive lists as abstract lists.
    - Tiles.v: blocks and tilings, and the abstract steps [alloc_step] and
      [free_spec], independent of the code.
    - BuddyInv.v, BuddyProofs.v, BuddyFree.v, BuddyInit.v, PmmProofs.v:
      [buddy_inv] and the caches' invariant, each operation against its
      abstract step; PmmSpec.v: the theorems.

    Libraries: Str.v (util/string.c), Snprintf.v (util/snprintf.c), Sync.v
    (kernel/sync_utils.c, with the spinlock and the LR/SC loop as programs of
    several harts run interleaved).

    Address spaces: kernel/vmm.c
    - Vmm.v: the operations, over the class [Allocator].
    - VmmProofs.v: [AllocatorSpec], the contract of a page allocator, and a
      page table as a tree of pages; VmmSpec.v: mapping and unmapping as
      changes of the map from pages to leaf entries; KernVm.v: kernel/pmm.c as
      an instance of the contract, and the kernel's page table;
      VmTheorems.v: the theorems.

    Processes and traps: kernel/process.c, sched.c, strap.c, syscall.c
    - ProcState.v (process.h), Process.v, Sched.v, Trap.v: the operations.
    - SchedProofs.v, TrapProofs.v, HeapProofs.v: queue, traps, user heap.
    - SpaceProofs.v, AllocProcess.v: the address space of a new process.
    - Fork.v, ForkProofs.v, ForkSpec.v, ForkViews.v: two page tables in one
      memory, region by region.
    - ExKernel.v: a concrete kernel state; ProcTheorems.v, TrapTheorems.v: the
      theorems; TrapPrint.v: the print system call, through the host.

    User programs: user/
    - User.v (user_lib.c, app_semaphore.c, app_semaphore2.c): programs as
      interaction trees over the memory of the process, an ecall being an
      event; the slots of the stack are arguments.  UserProofs.v: [serve], what
      the kernel's system calls do to a program that never waits, and
      [follows], the actions of a program under it; UserTheorems.v.

    The host: spike_interface/
    - Dts.v (dts_parse.c, spike_memory.c, query_htif of spike_htif.c),
      DtsProofs.v (encoded trees and their structural walk, the reference for
      the scanner), DtsClients.v, DtsMemory.v (query_mem over a tree),
      DtsTheorems.v.
    - Spike.v (spike_htif.c, spike_utils.c, the spinlock of atomic.h),
      SpikeFile.v (spike_file.c), SpikeProofs.v ([HostSpec], the contract of
      the emulator's host), SpikeFileProofs.v (the two tables of files as
      columns of memory), SpikeTheorems.v.
    - Console.v (spike_utils.c, htif_poweroff): text on stderr, shutdown,
      panic; [ConsoleHost], what the host promises of them, and the theorem.
      VmPrint.v: print_proc_vmspace of kernel/vmm.c.
    - Hosted.v: [FrontendSpec], what a client may assume of a host call;
      HostFiles.v: [HostFiles] and the proof that the host interface keeps
      that promise; ExHost.v: a concrete host with a file.

    Loading and start-up
    - Elf.v (kernel/elf.c), ElfProofs.v, ElfSpec.v: the segments of a file;
      Loader.v: [LoaderHost], what the host does with the command line and with
      the name of a file, and the steps around the segments; LoaderSpec.v:
      [loaded], [refusal] and the whole of it; ExLoader.v: a concrete host,
      command line and kernel; LoaderTheorems.v.
    - Machine.v (kernel/machine/minit.c, mtrap.c): the machine's CSRs as a
      record, sie and sip as views of mie and mip; which bits mideleg and
      medeleg hold is a parameter.  MachineProofs.v, ExMachine.v,
      MachineTheorems.v.
    - Kernel.v, KernelTheorems.v (kernel/kernel.c).  FirstProcess.v,
      FirstTheorems.v: the part of s_start after paging, composed from process
      creation, the loader, the ready queue and the scheduler over any
      allocator and host.

    Types of the state: KernelTypes.v (registers, memory, vmm.c, and
    [TypedMachine], what is needed of the allocator), PmmTypes.v (kernel/pmm.c
    is one), ProcTypes.v (processes, scheduling, traps, under any invariant
    that is a [kinv]), StartTypes.v (host, loader, start-up), TypesTheorems.v
    ([life], the system as a step relation: start-up, then user mode and traps
    in turn; the theorem by induction on it).

    ** Interfaces

    kernel/vmm.c and all above it use pages through [Allocator] and are proved
    against [AllocatorSpec] ([al_inv n U s]: at least [n] pages can still be
    had, [U] are in use); KernVm.v discharges it for kernel/pmm.c on one hart
    as long as the page cache lasts.  The loader uses the host through
    [Frontend] and is proved against [FrontendSpec]; HostFiles.v discharges it
    for spike_interface/ over any host that keeps [HostSpec] and [HostFiles].
    Code that reads the hart's registers uses [Harts]/[HartsSpec].

    ** What the theorems show

    - Physical memory: allocation and freeing refine the abstract steps, the
      blocks in use stay disjoint and aligned, giving everything back restores
      the free blocks, start-up establishes the invariant; and the two errors
      of the page cache, a page handed out twice and a store past the array.
    - Address spaces: mapping changes exactly the pages of its range and stops
      only for lack of pages or on a mapped page; unmapping undoes it;
      translation is the map; the kernel's table is the identity with the
      intended permissions, if 66 pages can be had.
    - Processes: what a new process owns, what fork shares and copies, the
      queue is first in first out, what scheduling runs.
    - Traps: the copy-on-write fault, the user heap, one system call from
      ecall to sret, exit, and which traps the kernel does not survive.
    - Types: for the whole life of the system registers, words, arrays and
      process pointers keep their C types, every trap ends by leaving the
      kernel, and user mode is entered only in the running process.
    - Host: what a failed check shows before the host is asked to exit,
      one call of the host per [frontend_syscall], the scanner equals
      the walk of the tree, the two queries; closing a file leaks it.
    - Loader: from the command line to the entry point, exactly what the
      program's file adds to an address space, and the panic of each check.
    - Machine mode: [m_start] hands over to [s_start] with the device tree
      read and traps delegated; [handle_mtrap] serves the timer only.
    - Start-up: from power-on the kernel does not come up, because
      [alloc_page] takes [buddy_lock] twice when the page cache is empty; over
      an allocator that keeps its contract the same start-up ends in user mode
      at the entry point of the program.
    - User programs: what app_semaphore.c prints on this kernel.
    - Libraries: copying with overlap, formatting with truncation, reading
      back what was printed, mutual exclusion of the spinlock.

    ** Not modelled

    - Text of the kernel's own messages: where kernel/ calls [sprint] or
      [putstring] only to report, the arguments are evaluated and nothing is
      printed; [panic], [kassert], [assert] and [shutdown] are stops.  Console.v
      has the functions themselves, and the print system call goes through to
      the host.
    - Assembly (strap_vector.S, mentry.S, mtrap_vector.S, load_store.S) and
      the linker script: the entry into the trap handler and the return to
      user mode are the boundary of the model ([ToUser]).
    - [get_page], [get_page_ref], [atomic_read], [atomic_set] and
      [atomic_binop], which the repository uses and does not define: they are
      parameters.  So is the emulator's host.
    - flush_tlb and the fences (one hart, no cached translation in the model),
      read_sp (no stack pointer).  The layout of struct stat, a system header,
      is a parameter of copy_stat. *)
From stdpp Require Import base gmap list strings.
From Stdlib Require Import ZArith Lia.

Declare Scope pke_scope.
Delimit Scope pke_scope with pke.
#[global] Open Scope Z_scope.

(** ** Outcomes and the kernel monad

    A kernel operation either returns a value and a new state, or control
    leaves it for good.  [stop] lists the ways control leaves. *)
Inductive stop : Type :=
  | Panicked (site : string)      (* do_panic: message, then shutdown(-1) *)
  | KassertFailed (cond : string) (* kassert: kassert_fail, then shutdown(-1) *)
  | AssertFailed (cond : string)  (* assert: die, then poweroff(-1) *)
  | ShutDown (code : Z)           (* shutdown(code) *)
  | Spins (lock : string)         (* a busy-wait no other hart can end *)
  | WildAccess                    (* access outside every object: undefined in C *)
  | OutOfFuel                     (* a loop bound of the model was reached *)
  | ToUser (tf satp : Z).         (* return_to_user: sret, never returns *)

#[export] Instance stop_eq_dec : EqDecision stop.
Proof. solve_decision. Defined.

Inductive outcome (S A : Type) : Type :=
  | Ret (a : A) (s : S)
  | Halt (h : stop) (s : S).
Arguments Ret {S A} a s.
Arguments Halt {S A} h s.

Definition M (S A : Type) : Type := S -> outcome S A.

Definition ret {S A} (a : A) : M S A := fun s => Ret a s.
Definition halt {S A} (h : stop) : M S A := fun s => Halt h s.
Definition bind {S A B} (m : M S A) (k : A -> M S B) : M S B :=
  fun s => match m s with Ret a s' => k a s' | Halt h s' => Halt h s' end.
Definition gets {S A} (f : S -> A) : M S A := fun s => Ret (f s) s.
Definition modify {S} (f : S -> S) : M S unit := fun s => Ret tt (f s).

(** [kassert(cond)] and [assert(cond)]: spike_utils.h defines DEBUG, so both
    checks are compiled in. *)
Definition kassert {S} (cond : bool) (text : string) : M S unit :=
  if cond then ret tt else halt (KassertFailed text).
Definition kernel_assert {S} (cond : bool) (text : string) : M S unit :=
  if cond then ret tt else halt (AssertFailed text).
Definition panic {S A} (site : string) : M S A := halt (Panicked site).

(** A read through a partial function: no object, no access. *)
Definition read_opt {S A} (f : S -> option A) : M S A :=
  fun s => match f s with Some a => Ret a s | None => Halt WildAccess s end.

Notation "'let*' x ':=' m 'in' k" := (bind m (fun x => k))
  (at level 10, x name, m at level 100, k at level 200) : pke_scope.
Notation "m ;;; k" := (bind m (fun _ => k))
  (at level 100, right associativity) : pke_scope.
#[global] Open Scope pke_scope.

(** Run an operation of a part on a state that contains the part. *)
Definition zoom {S T A} (get : S -> T) (put : T -> S -> S) (m : M T A) : M S A :=
  fun s => match m (get s) with
           | Ret a t => Ret a (put t s)
           | Halt h t => Halt h (put t s)
           end.

(** ** Weakest preconditions

    [wp m Q E s]: run from [s], [m] either returns with [Q] or leaves with
    [E].  Total correctness is [E := no_stop]. *)
Definition wp {S A} (m : M S A) (Q : A -> S -> Prop) (E : stop -> S -> Prop) (s : S) : Prop :=
  match m s with Ret a s' => Q a s' | Halt h s' => E h s' end.

#[global] Arguments wp : simpl never.
#[global] Arguments bind : simpl never.
#[global] Arguments modify : simpl never.
#[global] Arguments gets : simpl never.

Definition no_stop {S} : stop -> S -> Prop := fun _ _ => False.

Section wp_rules.
Context {S : Type}.
Implicit Types (s : S) (E : stop -> S -> Prop).

Lemma wp_ret {A} (a : A) Q E s : Q a s -> wp (ret a) Q E s.
Proof. done. Qed.

Lemma wp_bind {A B} (m : M S A) (k : A -> M S B) Q E s :
  wp m (fun a s' => wp (k a) Q E s') E s -> wp (bind m k) Q E s.
Proof. unfold wp, bind. destruct (m s); done. Qed.

Lemma wp_bind_inv {A B} (m : M S A) (k : A -> M S B) Q E s :
  wp (bind m k) Q E s -> wp m (fun a s' => wp (k a) Q E s') E s.
Proof. unfold wp, bind. destruct (m s); done. Qed.

Lemma wp_mono {A} (m : M S A) (Q Q' : A -> S -> Prop) E E' s :
  wp m Q E s -> (forall a s', Q a s' -> Q' a s') -> (forall h s', E h s' -> E' h s') ->
  wp m Q' E' s.
Proof. unfold wp. destruct (m s); eauto. Qed.

Lemma wp_gets {A} (f : S -> A) Q E s : Q (f s) s -> wp (gets f) Q E s.
Proof. done. Qed.

Lemma wp_modify (f : S -> S) Q E s : Q tt (f s) -> wp (modify f) Q E s.
Proof. done. Qed.

Lemma wp_halt {A} h (Q : A -> S -> Prop) E s : E h s -> wp (halt h) Q E s.
Proof. done. Qed.

Lemma wp_read_opt {A} (f : S -> option A) a Q E s :
  f s = Some a -> Q a s -> wp (read_opt f) Q E s.
Proof. unfold wp, read_opt. by intros ->. Qed.

Lemma wp_kassert b text Q E s : b = true -> Q tt s -> wp (kassert b text) Q E s.
Proof. by intros ->. Qed.

Lemma wp_kernel_assert b text Q E s : b = true -> Q tt s -> wp (kernel_assert b text) Q E s.
Proof. by intros ->. Qed.

(** From a total specification to the run itself. *)
Lemma wp_returns {A} (m : M S A) Q s :
  wp m Q no_stop s -> exists a s', m s = Ret a s' /\ Q a s'.
Proof. unfold wp, no_stop. destruct (m s); [eauto | done]. Qed.

Lemma wp_run {A} (m : M S A) Q E s a s' : wp m Q E s -> m s = Ret a s' -> Q a s'.
Proof. unfold wp. intros H Hr. by rewrite Hr in H. Qed.

Lemma wp_of_run {A} (m : M S A) (Q : A -> S -> Prop) E s a s' :
  m s = Ret a s' -> Q a s' -> wp m Q E s.
Proof. unfold wp. by intros ->. Qed.
End wp_rules.

Lemma wp_zoom {S T A} (get : S -> T) (put : T -> S -> S) (m : M T A) Q E s :
  wp m (fun a t => Q a (put t s)) (fun h t => E h (put t s)) (get s) ->
  wp (zoom get put m) Q E s.
Proof. unfold wp, zoom. destruct (m (get s)); done. Qed.

Lemma bind_Ret {S A B} (m : M S A) (k : A -> M S B) s b s2 :
  bind m k s = Ret b s2 -> exists a s1, m s = Ret a s1 /\ k a s1 = Ret b s2.
Proof. unfold bind. destruct (m s) as [a s1|]; [eauto | done]. Qed.

Create HintDb wp discriminated.
#[export] Hint Resolve wp_ret wp_gets wp_modify : wp.

(** One step of a symbolic run: peel a bind, or run a primitive. *)
Ltac wp_step :=
  lazymatch goal with
  | |- wp (bind _ _) _ _ _ => apply wp_bind
  | |- wp (ret _) _ _ _ => apply wp_ret
  | |- wp (gets _) _ _ _ => apply wp_gets
  | |- wp (modify _) _ _ _ => apply wp_modify
  | |- wp (halt _) _ _ _ => apply wp_halt
  end.
Ltac wp_steps := repeat (wp_step; cbn beta).

(** ** Machine integers

    A [uint64] is a [Z] in [0, 2^64); [u64] is the conversion to it.  Narrow
    signed types are read with [s32]/[s64] (two's complement). *)
Definition u64 (x : Z) : Z := x mod 2 ^ 64.
Definition u32 (x : Z) : Z := x mod 2 ^ 32.
Definition u8 (x : Z) : Z := x mod 2 ^ 8.
Definition s64 (x : Z) : Z := (x + 2 ^ 63) mod 2 ^ 64 - 2 ^ 63.
Definition s32 (x : Z) : Z := (x + 2 ^ 31) mod 2 ^ 32 - 2 ^ 31.

Definition is_u64 (x : Z) : Prop := 0 <= x < 2 ^ 64.

Lemma u64_id x : is_u64 x -> u64 x = x.
Proof. apply Z.mod_small. Qed.
Lemma u32_id x : 0 <= x < 2 ^ 32 -> u32 x = x.
Proof. apply Z.mod_small. Qed.
Lemma u64_range x : is_u64 (u64 x).
Proof. apply Z.mod_pos_bound. lia. Qed.
Lemma s64_id x : - 2 ^ 63 <= x < 2 ^ 63 -> s64 x = x.
Proof. intros. unfold s64. rewrite Z.mod_small; lia. Qed.
Lemma s32_id x : - 2 ^ 31 <= x < 2 ^ 31 -> s32 x = x.
Proof. intros. unfold s32. rewrite Z.mod_small; lia. Qed.
Create Rewrite HintDb width.
#[export] Hint Rewrite u64_id u32_id s64_id s32_id using (unfold is_u64 in *; lia) : width.

(** Linear arithmetic with division and remainder by constants. *)
Ltac zlia := Z.to_euclidean_division_equations; lia.

(** Masks and shifts as division and remainder. *)
Lemma land_low x k : 0 <= k -> Z.land x (2 ^ k - 1) = x mod 2 ^ k.
Proof. intros. rewrite <- Z.land_ones by lia. f_equal. rewrite Z.ones_equiv. lia. Qed.

Lemma land_high x k n :
  0 <= k <= n -> 0 <= x < 2 ^ n -> Z.land x (2 ^ n - 2 ^ k) = x - x mod 2 ^ k.
Proof.
  intros Hk Hx. rewrite <- land_low by lia.
  rewrite (Z.sub_nocarry_ldiff x).
  2: { apply Z.bits_inj'. intros i Hi. rewrite Z.ldiff_spec, Z.land_spec, Z.bits_0.
       by destruct (Z.testbit x i), (Z.testbit _ i). }
  apply Z.bits_inj'. intros i Hi.
  replace (2 ^ n - 2 ^ k) with (Z.ones (n - k) * 2 ^ k).
  2: { rewrite Z.ones_equiv. replace n with ((n - k) + k) at 2 by lia.
       rewrite Z.pow_add_r by lia. lia. }
  replace (2 ^ k - 1) with (Z.ones k) by (rewrite Z.ones_equiv; lia).
  rewrite <- Z.shiftl_mul_pow2, Z.ldiff_spec, !Z.land_spec, Z.shiftl_spec by lia.
  destruct (decide (i < n)) as [Hn|Hn].
  - destruct (decide (i < k)) as [Hlt|Hge].
    + rewrite (Z.testbit_neg_r _ (i - k)), (Z.ones_spec_low k) by lia.
      by destruct (Z.testbit x i).
    + rewrite (Z.ones_spec_low (n - k)), (Z.ones_spec_high k) by lia.
      by destruct (Z.testbit x i).
  - rewrite <- (Z.mod_small x (2 ^ n)), !Z.mod_pow2_bits_high by lia. done.
Qed.

Lemma lor_low x p k : 0 <= k -> 0 <= p < 2 ^ k -> Z.lor (x * 2 ^ k) p = x * 2 ^ k + p.
Proof.
  intros Hk Hp.
  assert (Hd : Z.land (x * 2 ^ k) p = 0).
  { apply Z.bits_inj'. intros i Hi. rewrite Z.land_spec, Z.bits_0.
    destruct (decide (i < k)).
    - by rewrite Z.mul_pow2_bits_low by lia.
    - rewrite <- (Z.mod_small p (2 ^ k)), Z.mod_pow2_bits_high by lia.
      by destruct (Z.testbit _ i). }
  rewrite (Z.add_nocarry_lxor _ _ Hd). symmetry. by apply Z.lxor_lor.
Qed.

Lemma pow2_pos k : 0 <= k -> 0 < 2 ^ k.
Proof. intros. by apply Z.pow_pos_nonneg. Qed.

Lemma mod_mod_pow2 x a b : 0 <= a <= b -> (x mod 2 ^ b) mod 2 ^ a = x mod 2 ^ a.
Proof.
  intros. apply Z.mod_mod_divide.
  exists (2 ^ (b - a)). rewrite <- Z.pow_add_r by lia. f_equal. lia.
Qed.

Lemma mod0_pow2_le x a b : 0 <= a <= b -> x mod 2 ^ b = 0 -> x mod 2 ^ a = 0.
Proof. intros ? Hx. by rewrite <- (mod_mod_pow2 x a b), Hx, Z.mod_0_l by lia. Qed.

(** A run that never stops satisfies any stop condition. *)
Lemma wp_no_stop {S A} (m : M S A) Q E s : wp m Q no_stop s -> wp m Q E s.
Proof. unfold wp, no_stop. by destruct (m s). Qed.

(** The state a run ends in. *)
Definition run_state {S A} (m : M S A) (s : S) : S :=
  match m s with Ret _ s' => s' | Halt _ s' => s' end.

Lemma wp_run_state {S A} (m : M S A) (P : S -> Prop) s :
  wp m (fun _ s' => P s') no_stop s -> P (run_state m s).
Proof. unfold wp, no_stop, run_state. by destruct (m s). Qed.

Lemma wp_assoc {S A B C} (m : M S A) (f : A -> M S B) (k : B -> M S C) Q E s :
  wp (bind (bind m f) k) Q E s -> wp (bind m (fun a => bind (f a) k)) Q E s.
Proof. unfold wp, bind. by destruct (m s). Qed.

(** Re-association of the first four operations of a sequence. *)
Lemma wp_bind_assoc4 {S A B C D G} (m1 : M S A) (m2 : M S B) (m3 : M S C) (m4 : M S D) (k : M S G)
    Q E s :
  wp ((m1 ;;; m2 ;;; m3 ;;; m4) ;;; k) Q E s -> wp (m1 ;;; m2 ;;; m3 ;;; m4 ;;; k) Q E s.
Proof.
  unfold wp, bind. destruct (m1 s) as [? s1|]; [|done]. destruct (m2 s1) as [? s2|]; [|done].
  destruct (m3 s2) as [? s3|]; [|done]. by destruct (m4 s3).
Qed.
