(* ===== verification/Riscv.v ===== *)
(** * Machine constants and word macros

    The constants of kernel/riscv.h, kernel/memlayout.h and kernel/config.h,
    the rounding macros of util/functions.h, the Sv39 address and page-table
    entry macros, and the hart registers the kernel reads and writes. *)
From stdpp Require Import base gmap list strings.
From Stdlib Require Import ZArith Lia.
From S2P Require Import Prelude.

Definition PGSIZE : Z := 4096.
Definition PGSHIFT : Z := 12.

(** memlayout.h and config.h *)
Definition DRAM_BASE : Z := 2147483648.        (* 0x80000000 *)
Definition KERN_BASE : Z := 2147483648.
Definition USER_STACK_TOP : Z := 2147479552.   (* 0x7ffff000 *)
Definition USER_FREE_ADDRESS_START : Z := 0 + PGSIZE * 1024.
Definition NCPU : Z := 1.
Definition PKE_MAX_ALLOWABLE_RAM : Z := 128 * 1024 * 1024.
Definition PHYS_TOP : Z := DRAM_BASE + PKE_MAX_ALLOWABLE_RAM.

(** functions.h: [ROUNDUP(a, b)] and [ROUNDDOWN(a, b)] at type uint64, the
    mask [~((b)-1)] converted to uint64. *)
Definition ROUNDUP (a b : Z) : Z := Z.land (u64 (a + b - 1)) (u64 (Z.lnot (b - 1))).
Definition ROUNDDOWN (a b : Z) : Z := Z.land a (u64 (Z.lnot (b - 1))).
Definition MIN (a b : Z) : Z := if a <? b then a else b.

(** Page-table entries (riscv.h). *)
Definition PTE_V : Z := 1.
Definition PTE_R : Z := 2.
Definition PTE_W : Z := 4.
Definition PTE_X : Z := 8.
Definition PTE_U : Z := 16.
Definition PTE_G : Z := 32.
Definition PTE_A : Z := 64.
Definition PTE_D : Z := 128.
Definition PTE_COW : Z := 256.

Definition PA2PTE (pa : Z) : Z := u64 (Z.shiftl (Z.shiftr pa 12) 10).
Definition PTE2PA (pte : Z) : Z := u64 (Z.shiftl (Z.shiftr pte 10) 12).
Definition PTE_FLAGS (pte : Z) : Z := Z.land pte 1023.
Definition PXMASK : Z := 511.
Definition PXSHIFT (level : Z) : Z := PGSHIFT + 9 * level.
Definition PX (level va : Z) : Z := Z.land (Z.shiftr va (PXSHIFT level)) PXMASK.
Definition MAXVA : Z := Z.shiftl 1 (9 + 9 + 9 + 12 - 1).

Definition SATP_SV39 : Z := Z.shiftl 8 60.
Definition MAKE_SATP (pagetable : Z) : Z := Z.lor SATP_SV39 (Z.shiftr pagetable 12).

(** sstatus fields *)
Definition SSTATUS_SPP : Z := 256.
Definition SSTATUS_SPIE : Z := 32.
Definition SSTATUS_SIE : Z := 2.

(** Traps *)
Definition CAUSE_USER_ECALL : Z := 8.
Definition CAUSE_LOAD_PAGE_FAULT : Z := 13.
Definition CAUSE_STORE_PAGE_FAULT : Z := 15.
Definition CAUSE_MTIMER_S_TRAP : Z := 9223372036854775809. (* 0x8000000000000001 *)

(** The registers of the hart that kernel code reads and writes. *)
Record hart := mkHart {
  tp : Z;       (* thread pointer, read by read_tp *)
  sstatus : Z;
  satp : Z;
  stvec : Z;
  sepc : Z;
  scause : Z;
  stval : Z
}.

Definition set_tp v h := mkHart v (sstatus h) (satp h) (stvec h) (sepc h) (scause h) (stval h).
Definition set_sstatus v h := mkHart (tp h) v (satp h) (stvec h) (sepc h) (scause h) (stval h).
Definition set_satp v h := mkHart (tp h) (sstatus h) v (stvec h) (sepc h) (scause h) (stval h).
Definition set_stvec v h := mkHart (tp h) (sstatus h) (satp h) v (sepc h) (scause h) (stval h).
Definition set_sepc v h := mkHart (tp h) (sstatus h) (satp h) (stvec h) v (scause h) (stval h).

(** [disable_irqsave] (csrrc of SIE, returning the old bit) and
    [enable_irqrestore]. *)
Definition disable_irqsave (h : hart) : Z * hart :=
  (Z.land (sstatus h) 2, set_sstatus (Z.ldiff (sstatus h) 2) h).
Definition enable_irqrestore (flags : Z) (h : hart) : hart :=
  if flags =? 0 then h else set_sstatus (Z.lor (sstatus h) 2) h.

(** ** Lemmas *)
Lemma ROUNDDOWN_page a : is_u64 a -> ROUNDDOWN a PGSIZE = a - a mod PGSIZE.
Proof.
  intros Ha. unfold ROUNDDOWN, PGSIZE.
  change (u64 (Z.lnot (4096 - 1))) with (2 ^ 64 - 2 ^ 12). by apply land_high.
Qed.

Lemma ROUNDUP_page a :
  0 <= a -> a + PGSIZE - 1 < 2 ^ 64 ->
  ROUNDUP a PGSIZE = (a + PGSIZE - 1) - (a + PGSIZE - 1) mod PGSIZE.
Proof.
  intros Ha Hb. unfold ROUNDUP, PGSIZE in *. rewrite u64_id by (unfold is_u64; lia).
  change (u64 (Z.lnot (4096 - 1))) with (2 ^ 64 - 2 ^ 12). by apply land_high; lia.
Qed.

Lemma ROUNDUP_8 a :
  0 <= a -> a + 7 < 2 ^ 64 -> ROUNDUP a 8 = (a + 7) - (a + 7) mod 8.
Proof.
  intros Ha Hb. unfold ROUNDUP. rewrite u64_id by (unfold is_u64; lia).
  change (u64 (Z.lnot (8 - 1))) with (2 ^ 64 - 2 ^ 3).
  replace (a + 8 - 1) with (a + 7) by lia. by apply land_high; lia.
Qed.

Lemma ROUNDDOWN_bounds a :
  is_u64 a -> ROUNDDOWN a PGSIZE <= a < ROUNDDOWN a PGSIZE + PGSIZE /\
              ROUNDDOWN a PGSIZE mod PGSIZE = 0.
Proof.
  intros Ha. rewrite ROUNDDOWN_page by done. unfold PGSIZE. split; [zlia|].
  rewrite Zminus_mod, Z.mod_mod, Z.sub_diag by lia. done.
Qed.

Lemma ROUNDUP_bounds a :
  0 <= a -> a + PGSIZE - 1 < 2 ^ 64 ->
  a <= ROUNDUP a PGSIZE < a + PGSIZE /\ ROUNDUP a PGSIZE mod PGSIZE = 0.
Proof.
  intros Ha Hb. rewrite ROUNDUP_page by done. unfold PGSIZE in *. split; [zlia|].
  rewrite Zminus_mod, Z.mod_mod, Z.sub_diag by lia. done.
Qed.

Lemma PA2PTE_eq pa : is_u64 pa -> PA2PTE pa = pa / 4096 * 1024.
Proof.
  intros. unfold PA2PTE, is_u64 in *.
  rewrite Z.shiftl_mul_pow2, Z.shiftr_div_pow2 by lia. rewrite u64_id; [done|].
  unfold is_u64. change (2 ^ 12) with 4096. change (2 ^ 10) with 1024. zlia.
Qed.

Lemma PTE2PA_eq pte : 0 <= pte < 2 ^ 62 -> PTE2PA pte = pte / 1024 * 4096.
Proof.
  intros. unfold PTE2PA.
  rewrite Z.shiftl_mul_pow2, Z.shiftr_div_pow2 by lia. rewrite u64_id; [done|].
  unfold is_u64. change (2 ^ 12) with 4096. change (2 ^ 10) with 1024. zlia.
Qed.

(** The entry built for a page: address field and flag bits do not interfere. *)
Lemma pte_build pa fl :
  0 <= pa < 2 ^ 62 -> 0 <= fl < 1024 -> Z.lor (PA2PTE pa) fl = pa / 4096 * 1024 + fl.
Proof.
  intros. rewrite PA2PTE_eq by (unfold is_u64; lia).
  apply (lor_low _ _ 10); lia.
Qed.

Lemma PTE2PA_build pa fl :
  0 <= pa < 2 ^ 62 -> pa mod 4096 = 0 -> 0 <= fl < 1024 ->
  PTE2PA (Z.lor (PA2PTE pa) fl) = pa.
Proof.
  intros Hpa Hal Hfl. rewrite pte_build by done. rewrite PTE2PA_eq by zlia. zlia.
Qed.

Lemma land_build pa fl m :
  0 <= pa < 2 ^ 62 -> 0 <= fl < 1024 -> 0 <= m < 1024 ->
  Z.land (Z.lor (PA2PTE pa) fl) m = Z.land fl m.
Proof.
  intros. rewrite Z.land_lor_distr_l, PA2PTE_eq by (unfold is_u64; lia).
  replace (Z.land (pa / 4096 * 1024) m) with 0; [done|].
  symmetry. apply Z.bits_inj'. intros i Hi. rewrite Z.land_spec, Z.bits_0.
  change 1024 with (2 ^ 10). destruct (decide (i < 10)).
  - by rewrite Z.mul_pow2_bits_low by lia.
  - rewrite <- (Z.mod_small m (2 ^ 10)), Z.mod_pow2_bits_high by lia.
    by destruct (Z.testbit _ i).
Qed.

Lemma PX_eq level va : 0 <= level -> PX level va = va / 2 ^ (12 + 9 * level) mod 512.
Proof.
  intros. unfold PX, PXMASK, PXSHIFT, PGSHIFT. rewrite Z.shiftr_div_pow2 by lia.
  by apply (land_low _ 9).
Qed.

Lemma PX_range level va : 0 <= level -> 0 <= PX level va < 512.
Proof. intros. rewrite PX_eq by done. apply Z.mod_pos_bound. lia. Qed.

(** A virtual address below 2^39 is determined, up to its page offset, by its
    three table indices. *)
Lemma PX_inj va vb :
  0 <= va < 2 ^ 39 -> 0 <= vb < 2 ^ 39 ->
  PX 2 va = PX 2 vb -> PX 1 va = PX 1 vb -> PX 0 va = PX 0 vb ->
  va / 4096 = vb / 4096.
Proof.
  intros Ha Hb. rewrite !PX_eq by lia. cbn [Z.mul Z.add Pos.add Pos.mul].
  change (2 ^ (12 + 9 * 2)) with (4096 * 512 * 512).
  change (2 ^ (12 + 9 * 1)) with (4096 * 512). change (2 ^ (12 + 9 * 0)) with 4096.
  rewrite <- !Z.div_div by lia. zlia.
Qed.

Lemma MAXVA_val : MAXVA = 2 ^ 38.
Proof. done. Qed.
