(* ===== verification/PmmState.v ===== *)
(** * The state of the physical memory manager (kernel/pmm.c)

    The page descriptors [page_t], the buddy system with its free lists, the
    per-CPU caches and the address bounds, with the three intrusive list
    operations.  A pointer to a [page_t] is its index in [pages]; a pointer to
    a [list_node] is a [node_ptr]: one of the list heads of [main_buddy], or
    the node field of a page. *)
From stdpp Require Import base gmap list strings.
From Stdlib Require Import ZArith Lia.
From S2P Require Import Prelude Riscv.

Definition MAX_ORDER : Z := 11.
Definition PCPU_CACHE_SIZE : Z := 32.

Inductive node_ptr : Type :=
  | NArea (o : Z)     (* &main_buddy.free_area[o] *)
  | NPage (pfn : Z).  (* &pages[pfn].node *)
#[export] Instance node_ptr_eq_dec : EqDecision node_ptr.
Proof. solve_decision. Defined.

(** A NULL pointer is [None]. *)
Record list_node := mkNode { prev : option node_ptr; next : option node_ptr }.

Record page_status := mkStatus {
  is_free : Z;   (* 1 bit *)
  is_head : Z;   (* 1 bit *)
  order : Z;     (* 5 bits *)
  alloc : Z;     (* 3 bits *)
  cpu_id : Z;    (* 6 bits *)
  ref : Z;       (* 16 bits *)
  color : Z      (* 8 bits *)
}.

Record page_t := mkPage { status : page_status; node : list_node }.

Record buddy_system := mkBuddy {
  buddy_lock : Z;
  free_area : gmap Z list_node   (* indices 0 .. MAX_ORDER-1 *)
}.

(** [objs] has PCPU_CACHE_SIZE entries; [count] is a uint32. *)
Record percpu_cache_t := mkCache { objs : list (option Z); count : Z }.

Record pmm_state := mkPmm {
  pages : gmap Z page_t;                (* indices 0 .. nr_pages-1 *)
  nr_pages : Z;
  main_buddy : buddy_system;
  pcpu_caches : gmap Z percpu_cache_t;  (* indices 0 .. NCPU-1 *)
  free_mem_start_addr : Z;
  free_mem_end_addr : Z;
  buddy_start : Z;
  buddy_end : Z;
  g_mem_size : Z;
  cpu : hart
}.

Definition set_pages v s := mkPmm v (nr_pages s) (main_buddy s) (pcpu_caches s)
  (free_mem_start_addr s) (free_mem_end_addr s) (buddy_start s) (buddy_end s) (g_mem_size s) (cpu s).
Definition set_nr_pages v s := mkPmm (pages s) v (main_buddy s) (pcpu_caches s)
  (free_mem_start_addr s) (free_mem_end_addr s) (buddy_start s) (buddy_end s) (g_mem_size s) (cpu s).
Definition set_main_buddy v s := mkPmm (pages s) (nr_pages s) v (pcpu_caches s)
  (free_mem_start_addr s) (free_mem_end_addr s) (buddy_start s) (buddy_end s) (g_mem_size s) (cpu s).
Definition set_pcpu_caches v s := mkPmm (pages s) (nr_pages s) (main_buddy s) v
  (free_mem_start_addr s) (free_mem_end_addr s) (buddy_start s) (buddy_end s) (g_mem_size s) (cpu s).
Definition set_bounds fs fe bs be gm s := mkPmm (pages s) (nr_pages s) (main_buddy s)
  (pcpu_caches s) fs fe bs be gm (cpu s).
Definition set_cpu v s := mkPmm (pages s) (nr_pages s) (main_buddy s) (pcpu_caches s)
  (free_mem_start_addr s) (free_mem_end_addr s) (buddy_start s) (buddy_end s) (g_mem_size s) v.
Definition set_buddy_lock v s := set_main_buddy (mkBuddy v (free_area (main_buddy s))) s.
Definition set_free_area v s := set_main_buddy (mkBuddy (buddy_lock (main_buddy s)) v) s.

(** Bit-field stores keep the field's width. *)
Definition with_is_free v st := mkStatus (v mod 2 ^ 1) (is_head st) (order st) (alloc st) (cpu_id st) (ref st) (color st).
Definition with_is_head v st := mkStatus (is_free st) (v mod 2 ^ 1) (order st) (alloc st) (cpu_id st) (ref st) (color st).
Definition with_order v st := mkStatus (is_free st) (is_head st) (v mod 2 ^ 5) (alloc st) (cpu_id st) (ref st) (color st).
Definition with_alloc v st := mkStatus (is_free st) (is_head st) (order st) (v mod 2 ^ 3) (cpu_id st) (ref st) (color st).

(** Index and address conversions. *)
Definition PFN_TO_ADDR (pfn : Z) : Z := u64 (pfn * PGSIZE + DRAM_BASE).
Definition ADDR_TO_PFN (addr : Z) : Z := u64 (addr - DRAM_BASE) / PGSIZE.
(** [(page_t * )((char * )ptr - 8)]: the page whose node field [ptr] is. *)
Definition NODE_TO_PAGE (n : option node_ptr) : option Z :=
  match n with Some (NPage p) => Some p | _ => None end.

(** ** Field accesses *)
Definition lookup_node (s : pmm_state) (n : node_ptr) : option list_node :=
  match n with
  | NArea o => free_area (main_buddy s) !! o
  | NPage p => node <$> pages s !! p
  end.
Definition store_node (n : node_ptr) (x : list_node) (s : pmm_state) : pmm_state :=
  match n with
  | NArea o => set_free_area (<[o := x]> (free_area (main_buddy s))) s
  | NPage p => set_pages (alter (fun pg => mkPage (status pg) x) p (pages s)) s
  end.
Definition pstatus (s : pmm_state) (p : Z) : option page_status := status <$> pages s !! p.

Definition load_node (n : option node_ptr) : M pmm_state list_node :=
  read_opt (fun s => n ≫= lookup_node s).
Definition set_prev (n : option node_ptr) (v : option node_ptr) : M pmm_state unit :=
  let* x := load_node n in
  modify (fun s => from_option (fun n => store_node n (mkNode v (next x)) s) s n).
Definition set_next (n : option node_ptr) (v : option node_ptr) : M pmm_state unit :=
  let* x := load_node n in
  modify (fun s => from_option (fun n => store_node n (mkNode (prev x) v) s) s n).

Definition load_status (p : Z) : M pmm_state page_status := read_opt (fun s => pstatus s p).
Definition store_status (p : Z) (st : page_status) (s : pmm_state) : pmm_state :=
  set_pages (alter (fun pg => mkPage st (node pg)) p (pages s)) s.
(** [pages[p].status.field = v] *)
Definition upd_status (f : page_status -> page_status) (p : Z) : M pmm_state unit :=
  let* st := load_status p in modify (store_status p (f st)).

(** ** The list operations *)
Definition __list_del (n : node_ptr) : M pmm_state unit :=
  let* x := load_node (Some n) in
  set_next (prev x) (next x) ;;;
  let* x := load_node (Some n) in
  set_prev (next x) (prev x).

Definition __list_add (pv new_head new_tail : node_ptr) : M pmm_state unit :=
  set_prev (Some new_head) (Some pv) ;;;
  let* x := load_node (Some pv) in
  set_next (Some new_tail) (next x) ;;;
  let* x := load_node (Some pv) in
  set_prev (next x) (Some new_tail) ;;;
  set_next (Some pv) (Some new_head).

Definition __list_pop (head : node_ptr) : M pmm_state (option node_ptr) :=
  let* x := load_node (Some head) in
  match next x with
  | None => halt WildAccess
  | Some n => __list_del n ;;; ret (Some n)
  end.
