(* ===== verification/Dlist.v ===== *)
(** * Circular doubly linked lists

    What the list operations of kernel/pmm.c do to the free lists, stated on
    the sequence of nodes of a ring ([path]) and then on the abstract lists
    of page indices ([free_lists]). *)
From stdpp Require Import base gmap list strings.
From Stdlib Require Import ZArith Lia.
From S2P Require Import Prelude Riscv PmmState.

Definition nx (s : pmm_state) (n : node_ptr) : option node_ptr := lookup_node s n ≫= next.
Definition pv (s : pmm_state) (n : node_ptr) : option node_ptr := lookup_node s n ≫= prev.
Definition has_node (s : pmm_state) (n : node_ptr) : Prop := is_Some (lookup_node s n).

(** Everything but the contents of the nodes. *)
Definition rest (s : pmm_state) :=
  (nr_pages s, buddy_lock (main_buddy s), pcpu_caches s,
   (free_mem_start_addr s, free_mem_end_addr s, buddy_start s, buddy_end s, g_mem_size s), cpu s).

(** [s'] has the nodes of [s], with other contents in the nodes only. *)
Record nodes_frame (s s' : pmm_state) : Prop := {
  nf_status p : pstatus s' p = pstatus s p;
  nf_rest : rest s' = rest s;
  nf_has n : has_node s n -> has_node s' n
}.
#[export] Instance nodes_frame_pre : PreOrder nodes_frame.
Proof.
  split.
  - intros s. by split.
  - intros s1 s2 s3 [A1 B1 C1] [A2 B2 C2]. split.
    + intros p. by rewrite A2, A1.
    + by rewrite B2, B1.
    + auto.
Qed.

Section stores.
Implicit Types (s : pmm_state) (n m : node_ptr).

Lemma lookup_store_eq s n x : has_node s n -> lookup_node (store_node n x s) n = Some x.
Proof.
  unfold has_node. destruct n as [o|p]; cbn.
  - intros _. by rewrite lookup_insert_eq.
  - intros [y Hy]. rewrite lookup_alter_eq. by destruct (pages s !! p).
Qed.

Lemma lookup_store_ne s n m x : n <> m -> lookup_node (store_node n x s) m = lookup_node s m.
Proof.
  intros Hne. destruct n as [o|p], m as [o'|p']; cbn; try done.
  - rewrite lookup_insert_ne; [done|congruence].
  - rewrite lookup_alter_ne; [done|congruence].
Qed.

Lemma node_frame s n x : nodes_frame s (store_node n x s).
Proof.
  split.
  - intros p. destruct n as [o|q]; [done|]. unfold pstatus; cbn.
    destruct (decide (q = p)) as [->|Hne].
    + rewrite lookup_alter_eq. by destruct (pages s !! p).
    + by rewrite lookup_alter_ne.
  - by destruct n.
  - intros m Hm. destruct (decide (n = m)) as [->|Hne].
    + exists x. by apply lookup_store_eq.
    + unfold has_node. by rewrite lookup_store_ne.
Qed.

Lemma nx_has s n m : nx s n = Some m -> has_node s n.
Proof. unfold nx, has_node. destruct (lookup_node s n); [eauto | done]. Qed.
Lemma pv_has s n m : pv s n = Some m -> has_node s n.
Proof. unfold pv, has_node. destruct (lookup_node s n); [eauto | done]. Qed.

(** The effect of one pointer store. *)
Lemma wp_set_prev s n v Q :
  has_node s n ->
  (forall s', nodes_frame s s' ->
     (forall m, nx s' m = nx s m) ->
     (forall m, pv s' m = if decide (m = n) then v else pv s m) -> Q tt s') ->
  wp (set_prev (Some n) v) Q no_stop s.
Proof.
  intros [x Hx] HQ. unfold set_prev. apply wp_bind.
  eapply wp_read_opt; [exact Hx|]. apply wp_modify. cbn.
  apply HQ; [apply node_frame| |]; intros m; unfold nx, pv.
  - destruct (decide (n = m)) as [<-|].
    + by rewrite lookup_store_eq, Hx by (by exists x).
    + by rewrite lookup_store_ne.
  - case_decide as Hm; [subst m; by rewrite lookup_store_eq by (by exists x)|].
    by rewrite lookup_store_ne by congruence.
Qed.

Lemma wp_set_next s n v Q :
  has_node s n ->
  (forall s', nodes_frame s s' ->
     (forall m, pv s' m = pv s m) ->
     (forall m, nx s' m = if decide (m = n) then v else nx s m) -> Q tt s') ->
  wp (set_next (Some n) v) Q no_stop s.
Proof.
  intros [x Hx] HQ. unfold set_next. apply wp_bind.
  eapply wp_read_opt; [exact Hx|]. apply wp_modify. cbn.
  apply HQ; [apply node_frame| |]; intros m; unfold nx, pv.
  - destruct (decide (n = m)) as [<-|].
    + by rewrite lookup_store_eq, Hx by (by exists x).
    + by rewrite lookup_store_ne.
  - case_decide as Hm; [subst m; by rewrite lookup_store_eq by (by exists x)|].
    by rewrite lookup_store_ne by congruence.
Qed.

Lemma wp_load_node s n Q :
  has_node s n ->
  (forall x, next x = nx s n -> prev x = pv s n -> Q x s) ->
  wp (load_node (Some n)) Q no_stop s.
Proof.
  intros [x Hx] HQ. eapply wp_read_opt; [exact Hx|].
  apply HQ; unfold nx, pv; by rewrite Hx.
Qed.
End stores.

(** ** Paths of nodes *)
Definition edge (s : pmm_state) (a b : node_ptr) : Prop := nx s a = Some b /\ pv s b = Some a.

Fixpoint path (s : pmm_state) (l : list node_ptr) : Prop :=
  match l with
  | a :: (b :: _) as l' => edge s a b /\ path s l'
  | _ => True
  end.

Lemma path_cons2 s a b l : path s (a :: b :: l) <-> edge s a b /\ path s (b :: l).
Proof. done. Qed.

Lemma path_app s l1 a l2 : path s (l1 ++ a :: l2) <-> path s (l1 ++ [a]) /\ path s (a :: l2).
Proof.
  induction l1 as [|b l1 IH]; cbn [app].
  - cbn. tauto.
  - destruct l1 as [|c l1]; cbn [app] in *; rewrite !path_cons2; [cbn; tauto|].
    rewrite IH. tauto.
Qed.

Lemma path_ext s s' l :
  (forall n, n ∈ removelast l -> nx s' n = nx s n) ->
  (forall n, n ∈ tail l -> pv s' n = pv s n) ->
  path s l -> path s' l.
Proof.
  induction l as [|a l IH]; [done|]. destruct l as [|b l]; [done|].
  intros Hn Hp. rewrite !path_cons2. intros [[E1 E2] Hl]. split.
  - split.
    + rewrite Hn; [done|]. change (removelast (a :: b :: l)) with (a :: removelast (b :: l)).
      apply list_elem_of_here.
    + rewrite Hp; [done|]. apply list_elem_of_here.
  - apply IH; [| |done].
    + intros n Hin. apply Hn.
      change (removelast (a :: b :: l)) with (a :: removelast (b :: l)). by apply list_elem_of_further.
    + intros n Hin. apply Hp. cbn in *. by apply list_elem_of_further.
Qed.

(** A ring through head [h] and nodes [l]. *)
Definition ring (s : pmm_state) (h : node_ptr) (l : list node_ptr) : Prop :=
  path s (h :: l ++ [h]).

Lemma cons_snoc_split (h : node_ptr) l : exists L a, h :: l = L ++ [a].
Proof.
  destruct (exists_last (l := h :: l)) as (L & a & Hla); [done|]. by exists L, a.
Qed.

Lemma snoc_cons_split (h : node_ptr) l : exists b L, l ++ [h] = b :: L.
Proof. destruct l as [|b l]; [by exists h, []|]. by exists b, (l ++ [h]). Qed.

Lemma ring_head_has s h l : ring s h l -> has_node s h.
Proof.
  unfold ring. destruct (snoc_cons_split h l) as (b & L & ->).
  rewrite path_cons2. intros [[E _] _]. by eapply nx_has.
Qed.

Lemma ring_frame s s' h l :
  (forall n, n ∈ h :: l -> nx s' n = nx s n /\ pv s' n = pv s n) -> ring s h l -> ring s' h l.
Proof.
  intros Hf. apply path_ext; intros n Hn; apply Hf.
  - change (h :: l ++ [h]) with ((h :: l) ++ [h]) in Hn. by rewrite removelast_last in Hn.
  - cbn in Hn. set_solver.
Qed.

(** Insertion after the head. *)
Lemma wp_list_add s h x l Q :
  ring s h l -> NoDup (h :: l) -> x ∉ h :: l -> has_node s x ->
  (forall s', nodes_frame s s' -> ring s' h (x :: l) ->
     (forall n, n ∉ x :: h :: l -> nx s' n = nx s n /\ pv s' n = pv s n) -> Q tt s') ->
  wp (__list_add h x x) Q no_stop s.
Proof.
  intros Hr Hnd Hx Hhx HQ.
  pose proof (ring_head_has _ _ _ Hr) as Hh.
  unfold ring in Hr. destruct (snoc_cons_split h l) as (b & L & HbL).
  rewrite HbL, path_cons2 in Hr. destruct Hr as [[Enx Epv] Hp].
  assert (Hb : b ∈ h :: l).
  { assert (Hin : b ∈ l ++ [h]) by (rewrite HbL; apply list_elem_of_here). set_solver. }
  assert (HndL : NoDup (b :: L)).
  { rewrite <- HbL. apply NoDup_app. apply NoDup_cons in Hnd. set_solver by (apply NoDup_singleton). }
  apply NoDup_cons in HndL as [HbL' _].
  pose proof (pv_has _ _ _ Epv) as Hhb.
  unfold __list_add.
  apply wp_bind, wp_set_prev; [done|]. intros s1 F1 N1 P1.
  apply wp_bind, wp_load_node; [by apply F1|]. intros y Hy _.
  apply wp_bind, wp_set_next; [by apply F1|]. intros s2 F2 P2 N2.
  apply wp_bind, wp_load_node; [by apply F2, F1|]. intros z Hz _.
  rewrite N2, decide_False, N1, Enx in Hz by set_solver. rewrite N1, Enx in Hy. rewrite Hz.
  apply wp_bind, wp_set_prev; [by apply F2, F1|]. intros s3 F3 N3 P3.
  apply wp_set_next; [by apply F3, F2, F1|]. intros s4 F4 P4 N4.
  assert (Hnx : forall m, nx s4 m = if decide (m = h) then Some x
                                   else if decide (m = x) then Some b else nx s m).
  { intros m. rewrite N4. case_decide; [done|]. rewrite N3, N2. case_decide; [done|]. apply N1. }
  assert (Hpv : forall m, pv s4 m = if decide (m = b) then Some x
                                   else if decide (m = x) then Some h else pv s m).
  { intros m. rewrite P4, P3. case_decide; [done|]. by rewrite P2, P1. }
  apply HQ.
  - by do 3 (etrans; [eassumption|]).
  - unfold ring. cbn [app]. rewrite HbL, !path_cons2. split; [|split].
    + split; [rewrite Hnx; by rewrite decide_True|]. rewrite Hpv.
      rewrite decide_False by set_solver. by rewrite decide_True.
    + split; [rewrite Hnx|rewrite Hpv].
      * rewrite decide_False by set_solver. by rewrite decide_True.
      * by rewrite decide_True.
    + revert Hp. apply path_ext; intros n Hn.
      * rewrite <- HbL, removelast_last in Hn. rewrite Hnx.
        apply NoDup_cons in Hnd as [Hhl _].
        rewrite !decide_False; [done| |]; set_solver.
      * cbn in Hn. rewrite Hpv. rewrite !decide_False; [done| |set_solver].
        intros ->. assert (x ∈ l ++ [h]) by (rewrite HbL; by apply list_elem_of_further). set_solver.
  - intros n Hn. rewrite Hnx, Hpv. rewrite !decide_False by set_solver. done.
Qed.

(** The neighbours of an element in a ring, and what they differ from. *)
Lemma ring_split (h : node_ptr) l1 x l2 : NoDup (h :: l1 ++ x :: l2) -> exists L1 a b L2,
  h :: l1 = L1 ++ [a] /\ l2 ++ [h] = b :: L2 /\ h :: (l1 ++ x :: l2) ++ [h] = L1 ++ a :: x :: b :: L2 /\
  x <> a /\ x <> b /\ a ∉ L1 /\ b ∉ l1 /\ a ∉ l2 /\ b ∉ L2.
Proof.
  intros Hnd. destruct (cons_snoc_split h l1) as (L1 & a & H1). destruct (snoc_cons_split h l2) as (b & L2 & H2).
  exists L1, a, b, L2. split; [done|]. split; [done|]. split.
  { rewrite <- H2, <- app_assoc. cbn. rewrite app_comm_cons, H1, <- app_assoc. done. }
  assert (Ha : a ∈ h :: l1) by (rewrite H1; set_solver). assert (Hb : b ∈ l2 ++ [h]) by (rewrite H2; apply list_elem_of_here).
  rewrite app_comm_cons in Hnd. apply NoDup_app in Hnd as (ND1 & Hdis & ND2). apply NoDup_cons in ND2 as [Hxl2 ND2].
  assert (HL1 : a ∉ L1). { rewrite H1 in ND1. apply NoDup_app in ND1 as (_ & Hd & _). intros Hin. apply (Hd a Hin). set_solver. }
  assert (Hh : h ∉ l1) by by apply NoDup_cons in ND1 as [? _].
  assert (HL2 : b ∉ L2).
  { assert (HndbL : NoDup (l2 ++ [h])); [|rewrite H2 in HndbL; by apply NoDup_cons in HndbL as [? _]].
    apply NoDup_app. split; [done|]. split; [|apply NoDup_singleton]. intros c Hc ->%list_elem_of_singleton. apply (Hdis h); set_solver. }
  split_and!; try done.
  - intros ->. apply (Hdis a); set_solver.
  - intros <-. apply elem_of_app in Hb as [Hb|Hb%list_elem_of_singleton]; [done|]. subst x. apply (Hdis h); set_solver.
  - intros Hin. apply elem_of_app in Hb as [Hb|Hb%list_elem_of_singleton]; [|by subst b]. apply (Hdis b); set_solver.
  - intros Hin. apply (Hdis a Ha). by apply list_elem_of_further.
Qed.

(** Deletion of a node other than the head. *)
Lemma wp_list_del s h l1 x l2 Q :
  ring s h (l1 ++ x :: l2) -> NoDup (h :: l1 ++ x :: l2) ->
  (forall s', nodes_frame s s' -> ring s' h (l1 ++ l2) ->
     (forall n, n ∉ h :: l1 ++ l2 -> nx s' n = nx s n /\ pv s' n = pv s n) -> Q tt s') ->
  wp (__list_del x) Q no_stop s.
Proof.
  intros Hr Hnd HQ. unfold ring in Hr.
  destruct (ring_split h l1 x l2 Hnd) as (L1 & a & b & L2 & H1 & H2 & Hl & Hxa & Hxb & N1 & N2 & N3 & N4).
  assert (Ha : a ∈ h :: l1) by (rewrite H1; set_solver).
  assert (Hb : b ∈ l2 ++ [h]) by (rewrite H2; apply list_elem_of_here).
  rewrite Hl, path_app, !path_cons2 in Hr. destruct Hr as (Hp1 & [Ea Ex] & [Ex' Eb] & Hp2).
  unfold __list_del. apply wp_bind, wp_load_node; [by eapply nx_has|]. intros y Hy Hy'.
  rewrite Ex, Ex' in *. rewrite Hy', Hy.
  apply wp_bind, wp_set_next; [by eapply nx_has|]. intros s1 F1 P1 X1.
  apply wp_bind, wp_load_node; [apply F1; by eapply nx_has|]. intros z Hz Hz'.
  rewrite X1, decide_False, Ex' in Hz by done. rewrite P1, Ex in Hz'. rewrite Hz, Hz'.
  apply wp_set_prev; [apply F1; by eapply pv_has|]. intros s2 F2 X2 P2.
  assert (Hnx : forall m, nx s2 m = if decide (m = a) then Some b else nx s m) by (intros m; by rewrite X2, X1).
  assert (Hpv : forall m, pv s2 m = if decide (m = b) then Some a else pv s m) by (intros m; by rewrite P2, P1).
  apply HQ; [by etrans| |].
  - unfold ring. rewrite <- app_assoc, H2, app_comm_cons, H1, <- app_assoc. cbn [app]. rewrite path_app, path_cons2. split; [|split].
    + revert Hp1. apply path_ext; intros n Hn.
      * rewrite removelast_last in Hn. rewrite Hnx, decide_False; [done|]. by intros ->.
      * rewrite <- H1 in Hn. cbn in Hn. rewrite Hpv, decide_False; [done|]. by intros ->.
    + split; [rewrite Hnx|rewrite Hpv]; by rewrite decide_True.
    + revert Hp2. apply path_ext; intros n Hn.
      * rewrite <- H2, removelast_last in Hn. rewrite Hnx, decide_False; [done|]. by intros ->.
      * cbn in Hn. rewrite Hpv, decide_False; [done|]. by intros ->.
  - intros n Hn. rewrite Hnx, Hpv. rewrite !decide_False; [done| |]; set_solver.
Qed.

(** ** The free lists as lists of page indices *)
Definition fl_set (o : Z) (l : list Z) (fl : Z -> list Z) : Z -> list Z :=
  fun o' => if decide (o' = o) then l else fl o'.

Lemma fl_set_eq o l fl : fl_set o l fl o = l.
Proof. unfold fl_set. by rewrite decide_True. Qed.
Lemma fl_set_ne o o' l fl : o' <> o -> fl_set o l fl o' = fl o'.
Proof. intros. unfold fl_set. by rewrite decide_False. Qed.

Record free_lists (s : pmm_state) (fl : Z -> list Z) : Prop := {
  fls_ring o : 0 <= o < MAX_ORDER -> ring s (NArea o) (NPage <$> fl o);
  fls_nodup o : NoDup (fl o);
  fls_disj o1 o2 p : p ∈ fl o1 -> p ∈ fl o2 -> o1 = o2
}.

Lemma ring_nodes_nodup o l : NoDup l -> NoDup (NArea o :: (NPage <$> l)).
Proof.
  intros Hl. apply NoDup_cons. split.
  - rewrite list_elem_of_fmap. by intros (? & ? & ?).
  - apply NoDup_fmap_2; [|done]. intros x y E. congruence.
Qed.

Lemma free_lists_next s fl o :
  free_lists s fl -> 0 <= o < MAX_ORDER ->
  nx s (NArea o) = Some (match fl o with [] => NArea o | p :: _ => NPage p end).
Proof.
  intros Hf Ho. pose proof (fls_ring _ _ Hf o Ho) as Hr. unfold ring in Hr.
  destruct (fl o) as [|p l]; cbn [fmap list_fmap app] in Hr; rewrite path_cons2 in Hr;
    by destruct Hr as [[? _] _].
Qed.

Lemma free_lists_has s fl o : free_lists s fl -> 0 <= o < MAX_ORDER -> has_node s (NArea o).
Proof. intros Hf Ho. eapply nx_has. by eapply free_lists_next. Qed.

(** Rings other than the one that changes are untouched. *)
Lemma free_lists_ring_other s s' fl o o' p l :
  free_lists s fl -> 0 <= o' < MAX_ORDER -> o' <> o -> (forall q, q ∈ l -> q ∈ fl o \/ q = p) ->
  p ∉ fl o' ->
  (forall n, n ∉ NArea o :: (NPage <$> l) -> nx s' n = nx s n /\ pv s' n = pv s n) ->
  ring s' (NArea o') (NPage <$> fl o').
Proof.
  intros Hf Ho Hne Hl Hp Hfr. apply (ring_frame s); [|by apply Hf].
  intros n Hn. apply Hfr. intros Hn'. apply elem_of_cons in Hn, Hn'.
  destruct Hn as [->|Hn], Hn' as [Hn'|Hn'].
  - congruence.
  - apply list_elem_of_fmap in Hn' as (? & ? & ?). done.
  - subst n. apply list_elem_of_fmap in Hn as (? & ? & ?). done.
  - apply list_elem_of_fmap in Hn as (q & -> & Hq).
    apply list_elem_of_fmap in Hn' as (q' & [= <-] & Hq').
    destruct (Hl _ Hq') as [Hq2| ->]; [|done].
    apply Hne. by eapply (fls_disj _ _ Hf).
Qed.

Lemma wp_free_add s fl o p Q :
  free_lists s fl -> 0 <= o < MAX_ORDER -> (forall o', p ∉ fl o') -> has_node s (NPage p) ->
  (forall s', nodes_frame s s' -> free_lists s' (fl_set o (p :: fl o) fl) -> Q tt s') ->
  wp (__list_add (NArea o) (NPage p) (NPage p)) Q no_stop s.
Proof.
  intros Hf Ho Hp Hh HQ.
  eapply wp_list_add; [by apply (fls_ring _ _ Hf)| | |done|].
  - apply ring_nodes_nodup, Hf.
  - rewrite elem_of_cons, list_elem_of_fmap.
    intros [?|(q & [= <-] & Hq)]; [done|]. by apply (Hp o).
  - intros s' Hfr Hr Hno. apply HQ; [done|]. split.
    + intros o' Ho'. unfold fl_set. case_decide as Hd; [by subst o'|].
      apply (free_lists_ring_other s s' fl o o' p (p :: fl o)); try done.
      * intros q. rewrite elem_of_cons. tauto.
      * intros n Hn. apply Hno. cbn in Hn. set_solver.
    + intros o'. unfold fl_set. case_decide as Hd; [|apply Hf].
      apply NoDup_cons. split; [apply Hp|apply Hf].
    + intros o1 o2 q. unfold fl_set.
      pose proof (fls_disj _ _ Hf o1 o2 q) as Hdj.
      pose proof (Hp o1) as Hp1. pose proof (Hp o2) as Hp2.
      repeat case_decide; subst; rewrite ?elem_of_cons; naive_solver.
Qed.

Lemma wp_free_del s fl o p l1 l2 Q :
  free_lists s fl -> 0 <= o < MAX_ORDER -> fl o = l1 ++ p :: l2 ->
  (forall s', nodes_frame s s' -> free_lists s' (fl_set o (l1 ++ l2) fl) -> Q tt s') ->
  wp (__list_del (NPage p)) Q no_stop s.
Proof.
  intros Hf Ho Hl HQ.
  pose proof (fls_ring _ _ Hf o Ho) as Hr.
  pose proof (ring_nodes_nodup o _ (fls_nodup _ _ Hf o)) as Hnd.
  rewrite Hl, fmap_app, fmap_cons in Hr, Hnd.
  eapply wp_list_del; [exact Hr|exact Hnd|].
  intros s' Hfr Hr' Hno. apply HQ; [done|]. rewrite <- fmap_app in *.
  assert (Hsub : forall q, q ∈ l1 ++ l2 -> q ∈ fl o) by (intros q; rewrite Hl; set_solver).
  split.
  - intros o' Ho'. unfold fl_set. case_decide as Hd; [by subst o'|].
    apply (free_lists_ring_other s s' fl o o' p (l1 ++ l2)); try done.
    + intros q Hq. left. auto.
    + intros Hp. apply Hd. symmetry. apply (fls_disj _ _ Hf _ _ p); [|done].
      rewrite Hl. set_solver.
  - intros o'. unfold fl_set. case_decide; [|apply Hf].
    pose proof (fls_nodup _ _ Hf o) as Hn. rewrite Hl in Hn.
    apply NoDup_app in Hn as (H1 & H2 & H3). apply NoDup_cons in H3 as [H3 H4].
    apply NoDup_app. set_solver.
  - intros o1 o2 q. unfold fl_set.
    pose proof (fls_disj _ _ Hf o1 o2 q) as Hdj. pose proof (Hsub q).
    repeat case_decide; subst; naive_solver.
Qed.

Lemma wp_free_pop s fl o p l Q :
  free_lists s fl -> 0 <= o < MAX_ORDER -> fl o = p :: l ->
  (forall s', nodes_frame s s' -> free_lists s' (fl_set o l fl) -> Q (Some (NPage p)) s') ->
  wp (__list_pop (NArea o)) Q no_stop s.
Proof.
  intros Hf Ho Hl HQ. unfold __list_pop.
  apply wp_bind, wp_load_node; [by eapply free_lists_has|]. intros x Hx _.
  rewrite (free_lists_next _ _ _ Hf Ho), Hl in Hx. rewrite Hx.
  apply wp_bind. apply (wp_free_del s fl o p [] l); [done..|]. cbn. auto.
Qed.
