(* ===== verification/Buddy.v ===== *)
(** * The buddy allocator of kernel/pmm.c: operations

    [buddy_system_init], [buddy_split], [buddy_alloc], [__buddy_merge_inner]
    and [buddy_free], with the spinlock as one hart sees it (NCPU is 1: a lock
    found taken is never released while the hart spins on it). *)
From stdpp Require Import base gmap list strings.
From Stdlib Require Import ZArith Lia.
From S2P Require Import Prelude Riscv PmmState.

(** sync_utils.c: the lock word of [main_buddy]. *)
Definition lock_acquire : M pmm_state unit :=
  let* l := gets (fun s => buddy_lock (main_buddy s)) in
  if l =? 0 then modify (set_buddy_lock 1) else halt (Spins "main_buddy.buddy_lock").
Definition lock_release : M pmm_state unit := modify (set_buddy_lock 0).

(** The compiler's bit-count builtins at a non-zero argument. *)
Fixpoint ctz_pos (p : positive) : Z :=
  match p with xO q => 1 + ctz_pos q | _ => 0 end.
Definition builtin_ctzll (x : Z) : Z := match x with Zpos p => ctz_pos p | _ => 64 end.
Definition builtin_clzll (x : Z) : Z := 63 - Z.log2 x.

(** ** buddy_system_init *)
Definition init_order (curr_addr stop_addr : Z) : Z :=
  let align_order := builtin_ctzll (curr_addr / PGSIZE) in
  let remaining_pages := u64 (stop_addr - curr_addr) / PGSIZE in
  let limit_order := 63 - builtin_clzll remaining_pages in
  let ord := if align_order <? limit_order then align_order else limit_order in
  if MAX_ORDER <=? ord then MAX_ORDER - 1 else ord.

Fixpoint init_loop (fuel : nat) (curr_addr stop_addr : Z) : M pmm_state unit :=
  if curr_addr <? stop_addr then
    match fuel with
    | O => halt OutOfFuel
    | S fuel =>
        let ord := init_order curr_addr stop_addr in
        let p := ADDR_TO_PFN curr_addr in
        upd_status (with_alloc 0) p ;;;
        upd_status (with_is_head 1) p ;;;
        upd_status (with_is_free 1) p ;;;
        upd_status (with_order ord) p ;;;
        __list_add (NArea ord) (NPage p) (NPage p) ;;;
        init_loop fuel (u64 (curr_addr + 2 ^ ord * PGSIZE)) stop_addr
    end
  else ret tt.

(** Each head points to itself: an empty ring. *)
Definition init_heads : gmap Z list_node :=
  foldr (fun i m => <[i := mkNode (Some (NArea i)) (Some (NArea i))]> m) ∅ (seqZ 0 MAX_ORDER).

Definition buddy_system_init (start_addr end_addr : Z) : M pmm_state unit :=
  modify (set_free_area init_heads) ;;;
  modify (set_buddy_lock 0) ;;;
  let curr_addr := ROUNDUP start_addr PGSIZE in
  let stop_addr := ROUNDDOWN end_addr PGSIZE in
  init_loop (Z.to_nat ((stop_addr - curr_addr) / PGSIZE)) curr_addr stop_addr.

(** ** buddy_split *)
Definition split_step (i : Z) : M pmm_state unit :=
  let* n := __list_pop (NArea i) in
  match n, NODE_TO_PAGE n with
  | Some np, Some p =>
      let bud := p + 2 ^ (i - 1) in
      upd_status (with_alloc 0) bud ;;;
      upd_status (with_is_free 1) bud ;;;
      upd_status (with_is_head 1) bud ;;;
      upd_status (with_order (i - 1)) bud ;;;
      __list_add (NArea (i - 1)) (NPage bud) (NPage bud) ;;;
      upd_status (with_order (i - 1)) p ;;;
      __list_add (NArea (i - 1)) np np
  | _, _ => halt WildAccess
  end.

(** [for (int i = big_order; i > target_order; i--)]: [n] iterations from [i]. *)
Fixpoint split_loop (n : nat) (i : Z) : M pmm_state unit :=
  match n with
  | O => ret tt
  | S n => split_step i ;;; split_loop n (i - 1)
  end.
Definition buddy_split (big_order target_order : Z) : M pmm_state unit :=
  split_loop (Z.to_nat (big_order - target_order)) big_order.

(** ** buddy_alloc *)
Definition take_block (ord : Z) : M pmm_state Z :=
  let* n := __list_pop (NArea ord) in
  match NODE_TO_PAGE n with
  | None => halt WildAccess
  | Some p =>
      lock_release ;;;
      upd_status (with_is_free 0) p ;;;
      upd_status (with_alloc 1) p ;;;
      ret (PFN_TO_ADDR p)
  end.

(** [for (int i = order; i < MAX_ORDER; ++i)]: [n] orders left to look at. *)
Fixpoint alloc_scan (n : nat) (i ord : Z) : M pmm_state Z :=
  match n with
  | O => lock_release ;;; panic "buddy_alloc : Out of required size of memory!"
  | S n =>
      let* x := load_node (Some (NArea i)) in
      if decide (next x = Some (NArea i)) then alloc_scan n (i + 1) ord
      else
        (if ord <? i then buddy_split i ord else ret tt) ;;;
        take_block ord
  end.

Definition buddy_alloc (ord : Z) : M pmm_state Z :=
  kassert ((0 <=? ord) && (ord <? MAX_ORDER)) "likely(order >= 0 && order < MAX_ORDER)" ;;;
  lock_acquire ;;;
  alloc_scan (Z.to_nat (MAX_ORDER - ord)) ord ord.

(** ** __buddy_merge_inner and buddy_free *)
Fixpoint merge_loop (fuel : nat) (p ord : Z) : M pmm_state (Z * Z) :=
  if ord <? MAX_ORDER - 1 then
    match fuel with
    | O => halt OutOfFuel
    | S fuel =>
        let my_buddy := Z.lxor p (2 ^ ord) in
        let* st := load_status my_buddy in
        if negb (order st =? ord) || negb (is_free st =? 1) || negb (is_head st =? 1)
        then ret (p, ord)
        else
          __list_del (NPage my_buddy) ;;;
          upd_status (with_is_free 0) my_buddy ;;;
          upd_status (with_is_head 0) my_buddy ;;;
          let p := Z.ldiff p (2 ^ ord) in
          upd_status (with_order (ord + 1)) p ;;;
          merge_loop fuel p (ord + 1)
    end
  else ret (p, ord).

Definition __buddy_merge_inner (p : Z) : M pmm_state unit :=
  let* st := load_status p in
  upd_status (with_is_free 0) p ;;;
  upd_status (with_is_head 0) p ;;;
  upd_status (with_alloc 0) p ;;;
  let* r := merge_loop (Z.to_nat MAX_ORDER) p (order st) in
  let '(p, ord) := r in
  upd_status (with_is_free 1) p ;;;
  upd_status (with_is_head 1) p ;;;
  upd_status (with_alloc 0) p ;;;
  __list_add (NArea ord) (NPage p) (NPage p).

Definition buddy_free (addr : Z) : M pmm_state unit :=
  let* s := gets id in
  kassert ((buddy_start s <=? addr) || (addr <? buddy_end s))
          "addr >= buddy_start || addr < buddy_end" ;;;
  lock_acquire ;;;
  __buddy_merge_inner (ADDR_TO_PFN addr) ;;;
  lock_release.
