(* ===== verification/Pmm.v ===== *)
(** * Per-CPU page caches and pmm_init (kernel/pmm.c)

    [alloc_page], [pfree] and [pmm_init]. *)
From stdpp Require Import base gmap list strings.
From Stdlib Require Import ZArith Lia.
From S2P Require Import Prelude Riscv PmmState Buddy.

(** [pcpu_caches[cpu_id]]: NCPU entries. *)
Definition load_cache (id : Z) : M pmm_state percpu_cache_t :=
  read_opt (fun s => pcpu_caches s !! id).
Definition store_cache (id : Z) (c : percpu_cache_t) : M pmm_state unit :=
  modify (fun s => set_pcpu_caches (<[id := c]> (pcpu_caches s)) s).

(** [objs[i]] for the array's own indices, nothing else. *)
Definition load_obj (id i : Z) : M pmm_state (option Z) :=
  let* c := load_cache id in
  if i <? 0 then halt WildAccess else read_opt (fun _ => objs c !! Z.to_nat i).
Definition store_obj (id i : Z) (p : option Z) : M pmm_state unit :=
  let* c := load_cache id in
  if (0 <=? i) && (i <? PCPU_CACHE_SIZE)
  then store_cache id (mkCache (<[Z.to_nat i := p]> (objs c)) (count c))
  else halt WildAccess.
Definition store_count (id v : Z) : M pmm_state unit :=
  let* c := load_cache id in store_cache id (mkCache (objs c) (u32 v)).

Definition read_tp : M pmm_state Z := gets (fun s => tp (cpu s)).

(** The body of alloc_page's refill loop, [n] times:
    [objs[count++] = PFN_TO_PAGE(ADDR_TO_PFN(buddy_alloc(0)))]. *)
Fixpoint refill_loop (n : nat) (id : Z) : M pmm_state unit :=
  match n with
  | O => ret tt
  | S n =>
      let* a := buddy_alloc 0 in
      let* c := load_cache id in
      store_count id (count c + 1) ;;;
      store_obj id (count c) (Some (ADDR_TO_PFN a)) ;;;
      refill_loop n id
  end.

Definition alloc_page : M pmm_state Z :=
  let* id := read_tp in
  let* c := load_cache id in
  (if count c =? 0 then
     lock_acquire ;;; refill_loop 16 id ;;; lock_release
   else ret tt) ;;;
  let* c := load_cache id in
  store_count id (count c - 1) ;;;
  let* o := load_obj id (u32 (count c - 1)) in
  match o with
  | Some p => ret (PFN_TO_ADDR p)
  | None => halt WildAccess
  end.

(** pfree's flush loop: [__buddy_merge_inner(objs[--count])], [n] times. *)
Fixpoint flush_loop (n : nat) (id : Z) : M pmm_state unit :=
  match n with
  | O => ret tt
  | S n =>
      let* c := load_cache id in
      store_count id (count c - 1) ;;;
      let* o := load_obj id (u32 (count c - 1)) in
      match o with
      | Some p => __buddy_merge_inner p ;;; flush_loop n id
      | None => halt WildAccess
      end
  end.

Definition irq_save : M pmm_state Z :=
  let* h := gets cpu in
  let '(fl, h') := disable_irqsave h in modify (set_cpu h') ;;; ret fl.
Definition irq_restore (fl : Z) : M pmm_state unit :=
  let* h := gets cpu in modify (set_cpu (enable_irqrestore fl h)).

Definition pfree (addr : Z) : M pmm_state unit :=
  let p := ADDR_TO_PFN addr in
  let* st := load_status p in
  if negb (order st =? 0) then
    let* fl := irq_save in
    lock_acquire ;;; __buddy_merge_inner p ;;; lock_release ;;;
    irq_restore fl
  else
    let* fl := irq_save in
    let* id := read_tp in
    let* c := load_cache id in
    (if count c =? PCPU_CACHE_SIZE then
       lock_acquire ;;; flush_loop 16 id ;;; lock_release
     else ret tt) ;;;
    let* c := load_cache id in
    store_count id (count c + 1) ;;;
    store_obj id (u32 (count c + 1)) (Some p) ;;;
    irq_restore fl.

(** ** pmm_init *)
Definition zero_status : page_status := mkStatus 0 0 0 0 0 0 0.
(** [memset(pages, 0, metaspace)], then [alloc = 3] everywhere. *)
Definition fresh_page : page_t := mkPage (with_alloc 3 zero_status) (mkNode None None).
Fixpoint init_pages (n : nat) (i : Z) : gmap Z page_t :=
  match n with
  | O => ∅
  | S n => <[i := fresh_page]> (init_pages n (i + 1))
  end.

(** The inner loop that fills one cache: [objs[j] = ...buddy_alloc(0)...]. *)
Fixpoint fill_loop (n : nat) (id j : Z) : M pmm_state unit :=
  match n with
  | O => ret tt
  | S n =>
      let* a := buddy_alloc 0 in
      store_obj id j (Some (ADDR_TO_PFN a)) ;;;
      fill_loop n id (j + 1)
  end.
Fixpoint fill_caches (ncpu : nat) (id : Z) : M pmm_state unit :=
  match ncpu with
  | O => ret tt
  | S ncpu =>
      fill_loop (Z.to_nat PCPU_CACHE_SIZE) id 0 ;;;
      store_count id PCPU_CACHE_SIZE ;;;
      fill_caches ncpu (id + 1)
  end.

(** sizeof(page_t): a 8-byte status and two pointers. *)
Definition sizeof_page_t : Z := 24.

Definition pmm_init (_end : Z) : M pmm_state unit :=
  let* s := gets id in
  let g_kernel_start := KERN_BASE in
  let g_kernel_end := _end in
  let pke_kernel_size := u64 (g_kernel_end - g_kernel_start) in
  let mem := MIN PKE_MAX_ALLOWABLE_RAM (g_mem_size s) in
  let fstart := ROUNDUP g_kernel_end PGSIZE in
  modify (set_bounds fstart (free_mem_end_addr s) (buddy_start s) (buddy_end s) mem) ;;;
  (if mem <? pke_kernel_size
   then panic "Error when recomputing physical memory size (g_mem_size)." else ret tt) ;;;
  let fend := u64 (mem + DRAM_BASE) in
  let pages_addr := ROUNDUP _end 8 in
  let nr := mem / PGSIZE in
  let metaspace := nr * sizeof_page_t in
  let bstart := ROUNDUP (u64 (metaspace + pages_addr)) PGSIZE in
  let bend := ROUNDDOWN fend PGSIZE in
  modify (set_bounds fstart fend bstart bend mem) ;;;
  modify (set_nr_pages nr) ;;;
  modify (set_pages (init_pages (Z.to_nat nr) 0)) ;;;
  buddy_system_init bstart bend ;;;
  fill_caches (Z.to_nat NCPU) 0.

(** The machine as the kernel image is loaded: zeroed .bss, [mem] bytes of
    memory found in the device tree, hart id 0 in tp. *)
Definition boot_state (mem : Z) : pmm_state :=
  mkPmm ∅ 0 (mkBuddy 0 (gset_to_gmap (mkNode None None) (list_to_set (seqZ 0 MAX_ORDER))))
    (gset_to_gmap (mkCache (replicate (Z.to_nat PCPU_CACHE_SIZE) None) 0)
       (list_to_set (seqZ 0 NCPU)))
    0 0 0 0 mem (mkHart 0 0 0 0 0 0 0).
