(* ===== verification/Tiles.v ===== *)
(** * Blocks of pages

    The arithmetic of the buddy system without its data structures: blocks of
    [2^o] pages at aligned indices, sets of blocks that tile an interval of
    pages, splitting a block in two buddies and joining two buddies, and the
    abstract specification of freeing ([coalesce]). *)
From stdpp Require Import base gmap list strings.
From Stdlib Require Import ZArith Lia.
From S2P Require Import Prelude Riscv PmmState.

(** A block: index of its first page, and order. *)
Abbreviation block := (Z * Z)%type.
Definition in_block (q : Z) (b : block) : Prop := b.1 <= q < b.1 + 2 ^ b.2.
Definition buddy_of (p o : Z) : Z := Z.lxor p (2 ^ o).
Definition parent_of (p o : Z) : Z := Z.ldiff p (2 ^ o).

Section arith.
Implicit Types p o : Z.

Lemma testbit_pow2 o i : 0 <= o -> 0 <= i -> Z.testbit (2 ^ o) i = bool_decide (i = o).
Proof.
  intros. case_bool_decide; [subst; by apply Z.pow2_bits_true|].
  apply Z.pow2_bits_false; lia.
Qed.

(** An aligned index has its [o]-th bit clear or set: left or right buddy. *)
Lemma aligned_cases p o :
  0 <= o -> p mod 2 ^ o = 0 ->
  (p mod 2 ^ (o + 1) = 0 /\ Z.testbit p o = false) \/
  (p mod 2 ^ (o + 1) = 2 ^ o /\ Z.testbit p o = true).
Proof.
  intros Ho Hp. pose proof (pow2_pos o Ho) as Hpos.
  assert (E : p = 2 ^ o * (p / 2 ^ o)) by (apply Z.div_exact; lia).
  assert (Hm : p mod 2 ^ (o + 1) = 2 ^ o * ((p / 2 ^ o) mod 2)).
  { rewrite Z.pow_add_r, Z.pow_1_r, Z.rem_mul_r by lia. rewrite Hp. lia. }
  rewrite Hm. pose proof (Z.mod_pos_bound (p / 2 ^ o) 2 ltac:(lia)).
  assert (Ht : Z.testbit p o = bool_decide ((p / 2 ^ o) mod 2 = 1)).
  { rewrite Z.testbit_eqb by lia. by case_bool_decide; lia. }
  rewrite Ht. destruct (decide ((p / 2 ^ o) mod 2 = 1)) as [E1|E1].
  - right. rewrite E1. split; [lia|]. by apply bool_decide_eq_true.
  - left. replace ((p / 2 ^ o) mod 2) with 0 by lia. split; [lia|].
    apply bool_decide_eq_false. lia.
Qed.

Lemma buddy_left p o : 0 <= o -> p mod 2 ^ (o + 1) = 0 ->
  buddy_of p o = p + 2 ^ o /\ parent_of p o = p.
Proof.
  intros Ho Hp.
  assert (Hp' : p mod 2 ^ o = 0) by (eapply mod0_pow2_le; [|exact Hp]; lia).
  destruct (aligned_cases p o Ho Hp') as [[_ Hb]|[Hb _]]; [|pose proof (pow2_pos o Ho); lia].
  assert (Hand : Z.land p (2 ^ o) = 0).
  { apply Z.bits_inj'. intros i Hi. rewrite Z.land_spec, Z.bits_0, testbit_pow2 by lia.
    case_bool_decide; [subst; by rewrite Hb|apply andb_false_r]. }
  split.
  - unfold buddy_of. by rewrite <- Z.add_nocarry_lxor.
  - unfold parent_of. apply Z.bits_inj'. intros i Hi.
    rewrite Z.ldiff_spec, testbit_pow2 by lia.
    case_bool_decide; [subst; by rewrite Hb|by rewrite andb_true_r].
Qed.

Lemma buddy_right p o : 0 <= o -> p mod 2 ^ (o + 1) = 2 ^ o ->
  buddy_of p o = p - 2 ^ o /\ parent_of p o = p - 2 ^ o.
Proof.
  intros Ho Hp. pose proof (pow2_pos o Ho) as Hpos.
  set (q := p - 2 ^ o).
  assert (Hq : q mod 2 ^ (o + 1) = 0).
  { unfold q. rewrite Zminus_mod, Hp, (Z.mod_small (2 ^ o)), Z.sub_diag, Z.mod_0_l;
      rewrite ?Z.pow_add_r by lia; lia. }
  destruct (buddy_left q o Ho Hq) as [Hbq Hpq].
  assert (Ep : p = Z.lxor q (2 ^ o)) by (fold (buddy_of q o); unfold q in *; lia).
  split.
  - unfold buddy_of. rewrite Ep, Z.lxor_assoc, Z.lxor_nilpotent, Z.lxor_0_r. unfold q. lia.
  - unfold parent_of. rewrite Ep. transitivity q; [|unfold q; lia].
    rewrite <- Hpq at 2. unfold parent_of.
    apply Z.bits_inj'. intros i Hi. rewrite !Z.ldiff_spec, Z.lxor_spec.
    by destruct (Z.testbit q i), (Z.testbit (2 ^ o) i).
Qed.

Lemma buddy_cases p o : 0 <= o -> p mod 2 ^ o = 0 ->
  (p mod 2 ^ (o + 1) = 0 /\ buddy_of p o = p + 2 ^ o /\ parent_of p o = p) \/
  (p mod 2 ^ (o + 1) = 2 ^ o /\ buddy_of p o = p - 2 ^ o /\ parent_of p o = p - 2 ^ o).
Proof.
  intros Ho Hp. destruct (aligned_cases p o Ho Hp) as [[H _]|[H _]]; [left|right];
    (split; [done|]); [by apply buddy_left|by apply buddy_right].
Qed.

Lemma parent_aligned p o : 0 <= o -> p mod 2 ^ o = 0 -> parent_of p o mod 2 ^ (o + 1) = 0.
Proof.
  intros Ho Hp. destruct (buddy_cases p o Ho Hp) as [(H & _ & ->)|(H & _ & ->)]; [done|].
  pose proof (pow2_pos o Ho).
  rewrite Zminus_mod, H, (Z.mod_small (2 ^ o)), Z.sub_diag, Z.mod_0_l;
    rewrite ?Z.pow_add_r by lia; lia.
Qed.

Lemma buddy_aligned p o : 0 <= o -> p mod 2 ^ o = 0 -> buddy_of p o mod 2 ^ o = 0.
Proof.
  intros Ho Hp. pose proof (pow2_pos o Ho).
  destruct (buddy_cases p o Ho Hp) as [(_ & -> & _)|(_ & -> & _)].
  - rewrite Zplus_mod, Hp, Z.mod_same, Z.mod_0_l; lia.
  - rewrite Zminus_mod, Hp, Z.mod_same, Z.mod_0_l; lia.
Qed.

Lemma buddy_invol p o : buddy_of (buddy_of p o) o = p.
Proof. unfold buddy_of. by rewrite Z.lxor_assoc, Z.lxor_nilpotent, Z.lxor_0_r. Qed.

Lemma buddy_ne p o : 0 <= o -> p mod 2 ^ o = 0 -> buddy_of p o <> p.
Proof.
  intros Ho Hp. pose proof (pow2_pos o Ho).
  destruct (buddy_cases p o Ho Hp) as [(_ & -> & _)|(_ & -> & _)]; lia.
Qed.

(** The parent block is the two buddies side by side. *)
Lemma parent_extent p o q : 0 <= o -> p mod 2 ^ o = 0 ->
  in_block q (parent_of p o, o + 1) <-> in_block q (p, o) \/ in_block q (buddy_of p o, o).
Proof.
  intros Ho Hp. unfold in_block. cbn. rewrite Z.pow_add_r, Z.pow_1_r by lia.
  destruct (buddy_cases p o Ho Hp) as [(_ & -> & ->)|(_ & -> & ->)]; lia.
Qed.

(** A buddy stays inside an interval that ends at a multiple of 2^(o+1). *)
Lemma buddy_bound p o n : 0 <= o -> p mod 2 ^ o = 0 -> 0 <= p < n -> n mod 2 ^ (o + 1) = 0 ->
  0 <= buddy_of p o < n.
Proof.
  intros Ho Hp Hr Hn. pose proof (pow2_pos o Ho).
  assert (Hpow : 2 ^ (o + 1) = 2 * 2 ^ o) by (rewrite Z.pow_add_r; lia).
  destruct (buddy_cases p o Ho Hp) as [(Hm & -> & _)|(Hm & -> & _)].
  - split; [lia|].
    pose proof (Z.div_exact p (2 ^ (o + 1)) ltac:(lia)) as [_ E1].
    pose proof (Z.div_exact n (2 ^ (o + 1)) ltac:(lia)) as [_ E2].
    specialize (E1 Hm). specialize (E2 Hn).
    assert (p / 2 ^ (o + 1) < n / 2 ^ (o + 1)) by nia. nia.
  - pose proof (Z.mod_le p (2 ^ (o + 1))). lia.
Qed.
End arith.

(** ** Tilings *)
Record tiles (lo hi : Z) (X : gset block) : Prop := {
  tl_wf b : b ∈ X ->
    0 <= b.2 < MAX_ORDER /\ b.1 mod 2 ^ b.2 = 0 /\ lo <= b.1 /\ b.1 + 2 ^ b.2 <= hi;
  tl_disj b1 b2 q : b1 ∈ X -> b2 ∈ X -> in_block q b1 -> in_block q b2 -> b1 = b2;
  tl_cover q : lo <= q < hi -> exists b, b ∈ X /\ in_block q b
}.

Lemma in_block_start p o : 0 <= o -> in_block p (p, o).
Proof. intros. unfold in_block. cbn. pose proof (pow2_pos o). lia. Qed.

Section tiles.
Context (lo hi : Z).
Implicit Types (X : gset block) (p o q : Z).

Lemma tiles_start_inj X b1 b2 : tiles lo hi X -> b1 ∈ X -> b2 ∈ X -> b1.1 = b2.1 -> b1 = b2.
Proof.
  intros HX H1 H2 E. destruct b1 as [p o], b2 as [p' o']; cbn in E; subst p'.
  destruct (tl_wf _ _ _ HX _ H1) as [Ho _], (tl_wf _ _ _ HX _ H2) as [Ho' _]; cbn in *.
  apply (tl_disj _ _ _ HX _ _ p); try done; apply in_block_start; lia.
Qed.

(** Replacing blocks by others with the same extent. *)
Lemma tiles_replace X Y Z' :
  tiles lo hi X -> Y ⊆ X ->
  (forall b, b ∈ Z' ->
     0 <= b.2 < MAX_ORDER /\ b.1 mod 2 ^ b.2 = 0 /\ lo <= b.1 /\ b.1 + 2 ^ b.2 <= hi) ->
  (forall b1 b2 q, b1 ∈ Z' -> b2 ∈ Z' -> in_block q b1 -> in_block q b2 -> b1 = b2) ->
  (forall q, (exists b, b ∈ Y /\ in_block q b) <-> (exists b, b ∈ Z' /\ in_block q b)) ->
  tiles lo hi ((X ∖ Y) ∪ Z').
Proof.
  intros HX HY Hwf Hdisj Hext.
  assert (Hout : forall b1 b2 q, b1 ∈ X ∖ Y -> b2 ∈ Z' -> in_block q b1 -> in_block q b2 -> False).
  { intros b1 b2 q H1 H2 I1 I2. destruct (proj2 (Hext q)) as (b & Hb & Ib); [by exists b2|].
    apply elem_of_difference in H1 as [H1 H1']. apply H1'.
    rewrite (tl_disj _ _ _ HX b1 b q); auto. }
  split.
  - intros b Hb. apply elem_of_union in Hb as [Hb|Hb]; [|by apply Hwf].
    apply (tl_wf _ _ _ HX). set_solver.
  - intros b1 b2 q H1 H2 I1 I2.
    apply elem_of_union in H1 as [H1|H1], H2 as [H2|H2].
    + apply (tl_disj _ _ _ HX _ _ q); set_solver.
    + by destruct (Hout b1 b2 q).
    + by destruct (Hout b2 b1 q).
    + by apply (Hdisj b1 b2 q).
  - intros q Hq. destruct (tl_cover _ _ _ HX q Hq) as (b & Hb & Ib).
    destruct (decide (b ∈ Y)) as [HbY|HbY].
    + destruct (proj1 (Hext q)) as (b' & Hb' & Ib'); [by exists b|]. exists b'. set_solver.
    + exists b. set_solver.
Qed.

Lemma tiles_split X p o :
  tiles lo hi X -> (p, o) ∈ X -> 0 < o ->
  tiles lo hi ((X ∖ {[(p, o)]}) ∪ {[(p, o - 1); (p + 2 ^ (o - 1), o - 1)]}).
Proof.
  intros HX Hp Ho. destruct (tl_wf _ _ _ HX _ Hp) as (Hor & Hal & Hlo & Hhi); cbn in *.
  assert (Hpow : 2 ^ o = 2 * 2 ^ (o - 1)).
  { replace o with ((o - 1) + 1) at 1 by lia. rewrite Z.pow_add_r; lia. }
  pose proof (pow2_pos (o - 1) ltac:(lia)) as Hpos.
  assert (Hal1 : p mod 2 ^ (o - 1) = 0) by (apply (mod0_pow2_le _ _ o); [lia|done]).
  apply tiles_replace; [done|set_solver| | |].
  - intros b Hb. apply elem_of_union in Hb as [->%elem_of_singleton| ->%elem_of_singleton]; cbn.
    + repeat split; lia.
    + repeat split; try lia. rewrite Zplus_mod, Hal1, Z.mod_same, Z.mod_0_l; lia.
  - intros b1 b2 q H1 H2. unfold in_block.
    apply elem_of_union in H1 as [->%elem_of_singleton| ->%elem_of_singleton],
      H2 as [->%elem_of_singleton| ->%elem_of_singleton]; cbn; (done || lia).
  - intros q. unfold in_block. split.
    + intros (b & ->%elem_of_singleton & I); cbn in *.
      destruct (decide (q < p + 2 ^ (o - 1))).
      * exists (p, o - 1). cbn. split; [set_solver|lia].
      * exists (p + 2 ^ (o - 1), o - 1). cbn. split; [set_solver|lia].
    + intros (b & Hb & I). exists (p, o). split; [set_solver|].
      apply elem_of_union in Hb as [->%elem_of_singleton| ->%elem_of_singleton]; cbn in *; lia.
Qed.

Lemma tiles_join X p o :
  tiles lo hi X -> (p, o) ∈ X -> (buddy_of p o, o) ∈ X -> o < MAX_ORDER - 1 ->
  tiles lo hi ((X ∖ {[(p, o); (buddy_of p o, o)]}) ∪ {[(parent_of p o, o + 1)]}).
Proof.
  intros HX Hp Hb Ho. destruct (tl_wf _ _ _ HX _ Hp) as (Hor & Hal & Hlo & Hhi).
  destruct (tl_wf _ _ _ HX _ Hb) as (_ & _ & Hlo' & Hhi'). cbn in *.
  pose proof (parent_extent p o) as Hpe.
  apply tiles_replace; [done|set_solver| | |].
  - intros b ->%elem_of_singleton; cbn.
    pose proof (parent_aligned p o ltac:(lia) Hal).
    assert (2 ^ (o + 1) = 2 * 2 ^ o) by (rewrite Z.pow_add_r; lia).
    destruct (buddy_cases p o ltac:(lia) Hal) as [(_ & Eb & Ep)|(_ & Eb & Ep)];
      rewrite Ep in *; rewrite Eb in *; repeat split; (done || lia).
  - set_solver.
  - intros q. specialize (Hpe q ltac:(lia) Hal). split.
    + intros (b & Hb' & I). exists (parent_of p o, o + 1). split; [set_solver|]. apply Hpe.
      apply elem_of_union in Hb' as [->%elem_of_singleton| ->%elem_of_singleton]; auto.
    + intros (b & ->%elem_of_singleton & I). apply Hpe in I as [I|I]; eexists;
        (split; [|exact I]); set_solver.
Qed.
End tiles.

(** ** The blocks a split leaves behind

    Splitting [(p, t+n)] down to order [t] leaves the right halves
    [(p + 2^t, t), ..., (p + 2^(t+n-1), t+n-1)]. *)
Fixpoint halves (p t : Z) (n : nat) : gset block :=
  match n with
  | O => ∅
  | S n => {[(p + 2 ^ t, t)]} ∪ halves p (t + 1) n
  end.

Lemma elem_of_halves p t n b :
  b ∈ halves p t n <-> exists j, t <= j < t + Z.of_nat n /\ b = (p + 2 ^ j, j).
Proof.
  revert t. induction n as [|n IH]; intros t; cbn [halves].
  - split; [set_solver|]. intros (j & ? & _). lia.
  - rewrite elem_of_union, elem_of_singleton, IH. split.
    + intros [-> |(j & ? & ->)]; [exists t|exists j]; (split; [lia|done]).
    + intros (j & ? & ->). destruct (decide (j = t)) as [->|]; [by left|].
      right. exists j. split; [lia|done].
Qed.

Lemma halves_snoc p t n :
  halves p t (S n) = halves p t n ∪ {[(p + 2 ^ (t + Z.of_nat n), t + Z.of_nat n)]}.
Proof.
  apply set_eq. intros b. rewrite elem_of_union, elem_of_singleton, !elem_of_halves. split.
  - intros (j & ? & ->). destruct (decide (j = t + Z.of_nat n)) as [->|]; [by right|].
    left. exists j. split; [lia|done].
  - intros [(j & ? & ->)| ->]; eexists; (split; [|done]); lia.
Qed.

(** ** Freeing, abstractly *)
Fixpoint coalesce (fuel : nat) (F : gset block) (p o : Z) : gset block * block :=
  match fuel with
  | O => (F, (p, o))
  | S fuel =>
      if decide ((buddy_of p o, o) ∈ F)
      then coalesce fuel (F ∖ {[(buddy_of p o, o)]}) (parent_of p o) (o + 1)
      else (F, (p, o))
  end.

Definition free_spec (F : gset block) (p o : Z) : gset block :=
  let r := coalesce (Z.to_nat (MAX_ORDER - 1 - o)) F p o in r.1 ∪ {[r.2]}.

(** No two free buddies: everything that can be joined has been. *)
Definition coalesced (F : gset block) : Prop :=
  forall p o, (p, o) ∈ F -> o < MAX_ORDER - 1 -> (buddy_of p o, o) ∉ F.

Section coalesce.
Implicit Types (F : gset block) (p o : Z).

Lemma coalesce_result fuel F p o F' p' o' :
  0 <= o -> p mod 2 ^ o = 0 -> coalesce fuel F p o = (F', (p', o')) ->
  F' ⊆ F /\ p' mod 2 ^ o' = 0 /\ o <= o' <= o + Z.of_nat fuel /\
  (o' = o + Z.of_nat fuel \/ (buddy_of p' o', o') ∉ F').
Proof.
  revert F p o. induction fuel as [|fuel IH]; cbn [coalesce]; intros F p o Ho Hp E.
  - injection E as <- <- <-. repeat split; [set_solver|done|lia..|]. left. lia.
  - case_decide as Hb.
    + apply IH in E as (H1 & H2 & H3 & H4); [|lia|by apply parent_aligned].
      repeat split; [set_solver|done|lia..|]. destruct H4 as [->|]; [left; lia|by right].
    + injection E as <- <- <-. repeat split; [set_solver|done|lia..|]. by right.
Qed.

Lemma coalesced_free F p o :
  0 <= o < MAX_ORDER -> p mod 2 ^ o = 0 -> coalesced F -> coalesced (free_spec F p o).
Proof.
  intros Ho Hp HF. unfold free_spec.
  destruct (coalesce _ F p o) as [F' [p' o']] eqn:E.
  apply coalesce_result in E as (Hsub & Hp' & Ho' & Hb); [|lia|done]. cbn.
  intros q k Hq Hk Hbq. unfold MAX_ORDER in *.
  apply elem_of_union in Hq as [Hq|Hq], Hbq as [Hbq|Hbq].
  - by apply (HF q k); [set_solver|unfold MAX_ORDER; lia|set_solver].
  - apply elem_of_singleton in Hbq. injection Hbq as <- <-.
    rewrite buddy_invol in Hb. destruct Hb; [lia|done].
  - apply elem_of_singleton in Hq. injection Hq as -> ->. destruct Hb; [lia|done].
  - apply elem_of_singleton in Hq, Hbq. injection Hq as -> ->.
    injection Hbq as E. by apply (buddy_ne p' o') in E; [|lia|done].
Qed.

(** Freeing the first piece of a split joins all the pieces again. *)
Lemma coalesce_halves n fuel G p t :
  0 <= t -> p mod 2 ^ (t + Z.of_nat n) = 0 -> (n <= fuel)%nat ->
  (forall b, b ∈ halves p t n -> b ∉ G) ->
  (fuel = n \/ (buddy_of p (t + Z.of_nat n), t + Z.of_nat n) ∉ G) ->
  coalesce fuel (G ∪ halves p t n) p t = (G, (p, t + Z.of_nat n)).
Proof.
  revert fuel t. induction n as [|n IH]; intros fuel t Ht Hp Hf HG Hstop.
  - cbn [halves] in *. rewrite union_empty_r_L. replace (t + Z.of_nat 0) with t in * by lia.
    destruct fuel as [|fuel]; [done|]. cbn. case_decide; [|done].
    by destruct Hstop.
  - destruct fuel as [|fuel]; [lia|]. cbn [coalesce].
    assert (Hal : p mod 2 ^ (t + 1) = 0) by (eapply mod0_pow2_le; [|exact Hp]; lia).
    destruct (buddy_left p t Ht Hal) as [Hb Hpar]. rewrite Hb, Hpar.
    rewrite decide_True by (cbn [halves]; set_solver).
    assert (Hset : (G ∪ halves p t (S n)) ∖ {[(p + 2 ^ t, t)]} = G ∪ halves p (t + 1) n).
    { apply set_eq. intros b. cbn [halves].
      assert (Hnot : (p + 2 ^ t, t) ∉ halves p (t + 1) n).
      { rewrite elem_of_halves. intros (j & ? & E). injection E. lia. }
      pose proof (HG (p + 2 ^ t, t) ltac:(cbn [halves]; set_solver)). set_solver. }
    rewrite Hset. replace (t + Z.of_nat (S n)) with (t + 1 + Z.of_nat n) in * by lia.
    apply IH; [lia|done|lia| |].
    + intros b Hb'. apply HG. cbn [halves]. set_solver.
    + destruct Hstop as [?|?]; [left; lia|by right].
Qed.

Lemma coalesced_halves lo hi F A p i t n :
  tiles lo hi (F ∪ A) -> coalesced F -> (p, i) ∈ F -> 0 <= t -> i = t + Z.of_nat n ->
  coalesced ((F ∖ {[(p, i)]}) ∪ halves p t n).
Proof.
  intros HT HF Hp Ht Hi q k Hq Hk Hb.
  destruct (tl_wf _ _ _ HT (p, i) ltac:(set_solver)) as (Hr & Hal & _); cbn in *.
  assert (Hpk : forall j, t <= j < i -> buddy_of p j = p + 2 ^ j /\ buddy_of (p + 2 ^ j) j = p).
  { intros j Hj. assert (Ha : p mod 2 ^ (j + 1) = 0) by (eapply mod0_pow2_le; [|exact Hal]; lia).
    destruct (buddy_left p j ltac:(lia) Ha) as [E _]. split; [done|].
    by rewrite <- E, buddy_invol. }
  assert (Hnot : forall j, t <= j < i -> (p, j) ∉ F).
  { intros j Hj Hin.
    assert (E : (p, j) = (p, i)) by (apply (tiles_start_inj lo hi (F ∪ A)); set_solver).
    injection E. lia. }
  apply elem_of_union in Hq as [Hq|Hq].
  - apply elem_of_union in Hb as [Hb|Hb]; [apply (HF q k); set_solver|].
    apply elem_of_halves in Hb as (j & Hj & E). injection E as E ->.
    destruct (Hpk j ltac:(lia)) as [_ E2]. rewrite <- E, buddy_invol in E2. subst q.
    apply (Hnot j); [lia|set_solver].
  - apply elem_of_halves in Hq as (j & Hj & E). injection E as -> ->.
    destruct (Hpk j ltac:(lia)) as [_ E2]. rewrite E2 in Hb.
    apply elem_of_union in Hb as [Hb|Hb]; [apply (Hnot j); [lia|set_solver]|].
    apply elem_of_halves in Hb as (j' & Hj' & E). injection E as E E'.
    pose proof (pow2_pos j'). lia.
Qed.
End coalesce.

(** ** A coalesced tiling is unique *)
Lemma aligned_nested p o q k x :
  0 <= o <= k -> p mod 2 ^ o = 0 -> q mod 2 ^ k = 0 -> in_block x (p, o) -> in_block x (q, k) ->
  q <= p /\ p + 2 ^ o <= q + 2 ^ k.
Proof.
  intros Ho Hp Hq [H1 H2] [H3 H4]. cbn in *. pose proof (pow2_pos o ltac:(lia)).
  apply (mod0_pow2_le q o k) in Hq; [|done].
  replace k with (o + (k - o)) in * by lia. rewrite Z.pow_add_r in * by lia.
  pose proof (pow2_pos (k - o) ltac:(lia)).
  apply Z.mod_divide in Hp as [a ->], Hq as [c ->]; [|lia..].
  set (t := 2 ^ o) in *. set (m := 2 ^ (k - o)) in *.
  assert (c < a + 1) by (apply (Z.mul_lt_mono_pos_r t); lia).
  assert (a < c + m) by (apply (Z.mul_lt_mono_pos_r t); lia).
  split; [apply Z.mul_le_mono_nonneg_r; lia|].
  replace (a * t + t) with ((a + 1) * t) by lia. replace (c * t + t * m) with ((c + m) * t) by lia.
  apply Z.mul_le_mono_nonneg_r; lia.
Qed.

Section unique.
Context (lo hi : Z).
Implicit Types (F G B : gset block).

(** Blocks of a fixed set [B] meet no block of the other part. *)
Lemma tiles_meet F B b b' x :
  tiles lo hi (F ∪ B) -> F ## B -> b ∈ F -> b' ∈ F ∪ B -> in_block x b -> in_block x b' -> b' = b.
Proof. intros HT HD Hb Hb' Hx Hx'. apply (tl_disj _ _ _ HT _ _ x); set_solver. Qed.

Lemma coalesced_order B F G p o p' o' x :
  tiles lo hi (F ∪ B) -> tiles lo hi (G ∪ B) -> F ## B -> G ## B -> coalesced F -> (p, o) ∈ F -> (p', o') ∈ G ->
  in_block x (p, o) -> in_block x (p', o') -> o' <= o.
Proof.
  intros HF HG DF DG HC Hp Hp'.
  destruct (tl_wf _ _ _ HF (p, o) ltac:(set_solver)) as (H0 & _).
  assert (Ho : exists n, o = Z.of_nat n) by (exists (Z.to_nat o); cbn in *; lia).
  destruct Ho as [n ->]. clear H0. revert p x Hp.
  induction n as [n IH] using lt_wf_ind. intros p x Hp Hx Hx'.
  destruct (Z_le_gt_dec o' (Z.of_nat n)) as [|Hgt]; [done|exfalso]. set (o := Z.of_nat n) in *.
  destruct (tl_wf _ _ _ HF (p, o) ltac:(set_solver)) as (Ho & Hal & _).
  destruct (tl_wf _ _ _ HG (p', o') ltac:(set_solver)) as (Ho' & Hal' & Hlo' & Hhi').
  cbn in *. pose proof (pow2_pos o ltac:(lia)) as Hpos.
  set (b := buddy_of p o).
  pose proof (parent_aligned p o ltac:(lia) Hal) as Hpar.
  assert (Hpin : in_block x (parent_of p o, o + 1)) by (apply (parent_extent p o x); [lia|done|by left]).
  destruct (aligned_nested (parent_of p o) (o + 1) p' o' x) as [N1 N2]; [lia|done|done|done|done|].
  assert (Hb : in_block b (parent_of p o, o + 1)).
  { apply (parent_extent p o b); [lia|done|right]. apply in_block_start. lia. }
  assert (Hbp : in_block b (p', o')) by (unfold in_block in *; cbn in *; lia).
  destruct (tl_cover _ _ _ HF b) as ([q k] & Hq & Hbq); [unfold in_block in *; cbn in *; lia|].
  destruct (tl_wf _ _ _ HF _ Hq) as (Hk & Halq & _). cbn in *.
  apply elem_of_union in Hq as [Hq|Hq].
  2: { assert (E : (q, k) = (p', o')) by (apply (tiles_meet G B _ _ b); set_solver).
       rewrite E in Hq. set_solver. }
  destruct (Z.lt_trichotomy k o) as [Hlt|[->|Hlt]].
  - assert (Hn : k = Z.of_nat (Z.to_nat k)) by lia. rewrite Hn in Hq, Hbq.
    pose proof (IH (Z.to_nat k) ltac:(lia) q b Hq Hbq Hbp). lia.
  - destruct (aligned_nested b o q o b) as [M1 M2]; [lia|by apply buddy_aligned; [lia|]|done|apply in_block_start; lia|done|].
    assert (q = b) as -> by lia. by apply (HC p o Hp); [lia|].
  - destruct (aligned_nested (parent_of p o) (o + 1) q k b) as [M1 M2]; [lia|done|done|done|done|].
    assert (E : (q, k) = (p, o)).
    { apply (tl_disj _ _ _ HF _ _ x); [set_solver..| |done]. unfold in_block in *; cbn in *. lia. }
    injection E. lia.
Qed.

Lemma coalesced_subset B F G :
  tiles lo hi (F ∪ B) -> tiles lo hi (G ∪ B) -> F ## B -> G ## B -> coalesced F -> coalesced G ->
  G ⊆ F.
Proof.
  intros HF HG DF DG CF CG [p o] Hp.
  destruct (tl_wf _ _ _ HG (p, o) ltac:(set_solver)) as (Ho & Hal & Hlo & Hhi). cbn in *.
  pose proof (pow2_pos o ltac:(lia)).
  destruct (tl_cover _ _ _ HF p ltac:(lia)) as ([q k] & Hq & Hpq).
  destruct (tl_wf _ _ _ HF _ Hq) as (Hk & Halq & _). cbn in *.
  assert (Hpp : in_block p (p, o)) by (apply in_block_start; lia).
  apply elem_of_union in Hq as [Hq|Hq].
  2: { assert (E : (q, k) = (p, o)) by (apply (tiles_meet G B _ _ p); set_solver).
       rewrite E in Hq. set_solver. }
  pose proof (coalesced_order B F G q k p o p HF HG DF DG CF Hq Hp Hpq Hpp).
  pose proof (coalesced_order B G F p o q k p HG HF DG DF CG Hp Hq Hpp Hpq).
  assert (k = o) as -> by lia.
  destruct (aligned_nested p o q o p) as [M1 M2]; [lia|done..|]. by assert (q = p) as -> by lia.
Qed.

Lemma coalesced_unique B F G :
  tiles lo hi (F ∪ B) -> tiles lo hi (G ∪ B) -> F ## B -> G ## B -> coalesced F -> coalesced G ->
  F = G.
Proof. intros. apply set_eq. intros b. split; apply (coalesced_subset B); done. Qed.
End unique.
