(* ===== verification/BuddyInv.v ===== *)
(** * The invariant of the buddy system and its rules

    [lists_inv s fl F E]: the rings of [s] hold the lists [fl], which hold
    exactly the free blocks [F]; the status words agree, except that the pages
    of [E] may be marked free while in no list.  [buddy_inv] adds that the
    free blocks [F] and the blocks in use [A] tile the managed pages. *)
From stdpp Require Import base gmap list strings.
From Stdlib Require Import ZArith Lia.
From S2P Require Import Prelude Riscv PmmState Dlist Buddy Tiles.

(** One status word changed, nothing else. *)
Record status_frame (s s' : pmm_state) (p : Z) (st' : page_status) : Prop := {
  sf_status q : pstatus s' q = if decide (q = p) then Some st' else pstatus s q;
  sf_nodes n : lookup_node s' n = lookup_node s n;
  sf_rest : rest s' = rest s
}.

Lemma status_frame_trans s1 s2 s3 p st2 st3 :
  status_frame s1 s2 p st2 -> status_frame s2 s3 p st3 -> status_frame s1 s3 p st3.
Proof.
  intros [A1 A2 A3] [B1 B2 B3]. split.
  - intros q. rewrite B1, A1. by case_decide.
  - intros n. by rewrite B2, A2.
  - by rewrite B3, A3.
Qed.

Lemma wp_upd_status s f p st Q :
  pstatus s p = Some st ->
  (forall s', status_frame s s' p (f st) -> Q tt s') -> wp (upd_status f p) Q no_stop s.
Proof.
  intros Hp HQ. unfold upd_status. apply wp_bind. eapply wp_read_opt; [exact Hp|].
  apply wp_modify, HQ. unfold store_status. split.
  - intros q. unfold pstatus in *; cbn. case_decide as Hq; [subst|].
    + rewrite lookup_alter_eq. by destruct (pages s !! p).
    + by rewrite lookup_alter_ne.
  - intros [o|q]; [done|]. cbn. destruct (decide (q = p)) as [->|].
    + rewrite lookup_alter_eq. by destruct (pages s !! p).
    + by rewrite lookup_alter_ne.
  - done.
Qed.

Lemma sf_self s s' p st : status_frame s s' p st -> pstatus s' p = Some st.
Proof. intros Hf. rewrite (sf_status _ _ _ _ Hf). by rewrite decide_True. Qed.

(** A run of stores to the fields of one page. *)
Fixpoint upd_all (fs : list (page_status -> page_status)) (p : Z) : M pmm_state unit :=
  match fs with
  | [] => ret tt
  | f :: fs => upd_status f p ;;; upd_all fs p
  end.

Lemma wp_upd_all fs f s p st Q :
  pstatus s p = Some st ->
  (forall s', status_frame s s' p (foldl (fun st f => f st) (f st) fs) -> Q tt s') ->
  wp (upd_all (f :: fs) p) Q no_stop s.
Proof.
  revert f s st. induction fs as [|g fs IH]; intros f s st Hp HQ.
  - cbn. apply wp_bind. eapply wp_upd_status; [exact Hp|]. intros s' Hs'. by apply wp_ret, HQ.
  - change (upd_all (f :: g :: fs) p) with (upd_status f p ;;; upd_all (g :: fs) p).
    apply wp_bind. eapply wp_upd_status; [exact Hp|]. intros s1 H1.
    eapply IH; [by eapply sf_self|]. intros s2 H2. apply HQ. by eapply status_frame_trans.
Qed.

(** Peel [n] status stores off a sequence. *)
Lemma wp_upd_seq {B} fs f p (k : M pmm_state B) s st Q :
  pstatus s p = Some st ->
  (forall s', status_frame s s' p (foldl (fun st f => f st) (f st) fs) -> wp k Q no_stop s') ->
  wp (foldr (fun f k => upd_status f p ;;; k) k (f :: fs)) Q no_stop s.
Proof.
  revert f s st. induction fs as [|g fs IH]; intros f s st Hp HQ; cbn [foldr];
    apply wp_bind; (eapply wp_upd_status; [exact Hp|]); intros s1 H1.
  - by apply HQ.
  - eapply IH; [by eapply sf_self|]. intros s2 H2. apply HQ. by eapply status_frame_trans.
Qed.

(** ** lists_inv *)
Record lists_inv (s : pmm_state) (fl : Z -> list Z) (F : gset block) (E : gset Z) : Prop := {
  li_fl : free_lists s fl;
  li_link p o : p ∈ fl o <-> (p, o) ∈ F;
  li_order p o : (p, o) ∈ F -> 0 <= o < MAX_ORDER;
  li_free p st : pstatus s p = Some st -> is_free st = 1 -> (exists o, (p, o) ∈ F) \/ p ∈ E;
  li_head p o : (p, o) ∈ F ->
    exists st, pstatus s p = Some st /\ is_free st = 1 /\ is_head st = 1 /\ order st = o
}.

Section rules.
Implicit Types (s : pmm_state) (fl : Z -> list Z) (F A : gset block) (E : gset Z).

Lemma free_lists_ext s s' fl :
  (forall n, lookup_node s' n = lookup_node s n) -> free_lists s fl -> free_lists s' fl.
Proof.
  intros Hn [H1 H2 H3]. split; [|done..]. intros o Ho. apply (ring_frame s); [|by apply H1].
  intros n _. unfold nx, pv. by rewrite Hn.
Qed.

Lemma li_unique s fl F E p o o' : lists_inv s fl F E -> (p, o) ∈ F -> (p, o') ∈ F -> o = o'.
Proof.
  intros HI H1 H2. destruct (li_head _ _ _ _ HI _ _ H1) as (st & E1 & _ & _ & <-).
  destruct (li_head _ _ _ _ HI _ _ H2) as (st' & E2 & _ & _ & <-). congruence.
Qed.

(** A change of a status word that heads no free block. *)
Lemma li_status s s' fl F E E' p st' :
  lists_inv s fl F E -> (forall o, (p, o) ∉ F) -> status_frame s s' p st' ->
  (is_free st' = 1 -> p ∈ E') -> (forall q, q ∈ E -> q <> p -> q ∈ E') ->
  lists_inv s' fl F E'.
Proof.
  intros HI Hp Hs HE HE'. split; try apply HI.
  - eapply free_lists_ext; [apply Hs|apply HI].
  - intros q st. rewrite (sf_status _ _ _ _ Hs). case_decide as Hq.
    + intros [= <-] ?. subst. auto.
    + intros H1 H2. destruct (li_free _ _ _ _ HI q st H1 H2); auto.
  - intros q o Hq. rewrite (sf_status _ _ _ _ Hs). case_decide as Hqp.
    + subst. by destruct (Hp o).
    + by apply HI.
Qed.

Lemma li_frame s s' fl F E :
  lists_inv s fl F E -> nodes_frame s s' -> free_lists s' fl -> lists_inv s' fl F E.
Proof.
  intros HI Hf Hfl. split; [done|apply (li_link _ _ _ _ HI)|apply (li_order _ _ _ _ HI)| |].
  - intros q st. rewrite (nf_status _ _ Hf). apply HI.
  - intros q o. rewrite (nf_status _ _ Hf). apply HI.
Qed.

Lemma has_page s p st : pstatus s p = Some st -> has_node s (NPage p).
Proof. unfold pstatus, has_node. cbn. destruct (pages s !! p); [by eauto|done]. Qed.

(** Linking a page marked as a free head of order [o]. *)
Lemma wp_li_add s fl F E p o st Q :
  lists_inv s fl F E -> 0 <= o < MAX_ORDER -> (forall o', (p, o') ∉ F) ->
  pstatus s p = Some st -> is_free st = 1 -> is_head st = 1 -> order st = o ->
  (forall s', nodes_frame s s' ->
     lists_inv s' (fl_set o (p :: fl o) fl) (F ∪ {[(p, o)]}) (E ∖ {[p]}) -> Q tt s') ->
  wp (__list_add (NArea o) (NPage p) (NPage p)) Q no_stop s.
Proof.
  intros HI Ho Hp Hst H1 H2 H3 HQ.
  eapply wp_free_add; [apply HI|done| |by eapply has_page|].
  - intros o'. rewrite (li_link _ _ _ _ HI). apply Hp.
  - intros s' Hf Hfl. apply HQ; [done|]. split; [done|..].
    + intros q o'. unfold fl_set. rewrite elem_of_union, elem_of_singleton. case_decide as Hd.
      * subst o'. rewrite elem_of_cons, (li_link _ _ _ _ HI). naive_solver.
      * rewrite (li_link _ _ _ _ HI). naive_solver.
    + intros q o'. rewrite elem_of_union, elem_of_singleton.
      intros [Hq|[= -> ->]]; [by apply (li_order _ _ _ _ HI) in Hq|done].
    + intros q st'. rewrite (nf_status _ _ Hf). intros Hq Hfree.
      destruct (decide (q = p)) as [->|Hne]; [left; exists o; set_solver|].
      destruct (li_free _ _ _ _ HI q st' Hq Hfree) as [[o' ?]|?]; [left; exists o'|right]; set_solver.
    + intros q o'. rewrite (nf_status _ _ Hf), elem_of_union, elem_of_singleton.
      intros [Hq|[= -> ->]]; [by apply (li_head _ _ _ _ HI)|by exists st].
Qed.

(** Unlinking a free block. *)
Lemma lists_inv_del s s' fl F E p o l1 l2 :
  lists_inv s fl F E -> fl o = l1 ++ p :: l2 ->
  nodes_frame s s' -> free_lists s' (fl_set o (l1 ++ l2) fl) ->
  lists_inv s' (fl_set o (l1 ++ l2) fl) (F ∖ {[(p, o)]}) (E ∪ {[p]}).
Proof.
  intros HI Hl Hf Hfl.
  assert (Hpo : (p, o) ∈ F) by (apply (li_link _ _ _ _ HI); rewrite Hl; set_solver).
  split; [done|..].
  - intros q o'. unfold fl_set. rewrite elem_of_difference, elem_of_singleton.
    case_decide as Hd; rewrite <- (li_link _ _ _ _ HI); [|naive_solver]. subst o'.
    pose proof (fls_nodup _ _ (li_fl _ _ _ _ HI) o) as Hn. rewrite Hl in *.
    apply NoDup_app in Hn as (_ & Hn1 & Hn2). apply NoDup_cons in Hn2 as [Hn2 _].
    specialize (Hn1 q). rewrite !elem_of_app, elem_of_cons in *.
    destruct (decide (q = p)) as [->|]; naive_solver.
  - intros q o'. rewrite elem_of_difference. intros [Hq _]. by apply (li_order _ _ _ _ HI) in Hq.
  - intros q st. rewrite (nf_status _ _ Hf). intros Hq Hfree.
    destruct (decide (q = p)) as [->|Hne]; [right; set_solver|].
    destruct (li_free _ _ _ _ HI q st Hq Hfree) as [[o' ?]|?]; [left; exists o'|right]; set_solver.
  - intros q o'. rewrite (nf_status _ _ Hf), elem_of_difference. intros [Hq _]. by apply (li_head _ _ _ _ HI).
Qed.

Lemma wp_li_del s fl F E p o Q :
  lists_inv s fl F E -> (p, o) ∈ F ->
  (forall s' fl', nodes_frame s s' -> lists_inv s' fl' (F ∖ {[(p, o)]}) (E ∪ {[p]}) -> Q tt s') ->
  wp (__list_del (NPage p)) Q no_stop s.
Proof.
  intros HI Hp HQ. pose proof (li_order _ _ _ _ HI _ _ Hp) as Ho.
  apply (li_link _ _ _ _ HI) in Hp. apply list_elem_of_split in Hp as (l1 & l2 & Hl).
  eapply wp_free_del; [apply HI|done|exact Hl|]. intros s' Hf Hfl.
  eapply HQ; [done|]. by apply lists_inv_del with (s := s).
Qed.

Lemma wp_li_pop s fl F E p o l Q :
  lists_inv s fl F E -> 0 <= o < MAX_ORDER -> fl o = p :: l ->
  (forall s', nodes_frame s s' ->
     lists_inv s' (fl_set o l fl) (F ∖ {[(p, o)]}) (E ∪ {[p]}) -> Q (Some (NPage p)) s') ->
  wp (__list_pop (NArea o)) Q no_stop s.
Proof.
  intros HI Ho Hl HQ. eapply wp_free_pop; [apply HI|done|exact Hl|].
  intros s' Hf Hfl. apply HQ; [done|].
  by apply (lists_inv_del s s' fl F E p o [] l).
Qed.
End rules.

(** ** buddy_inv *)
Record buddy_inv (lo hi : Z) (s : pmm_state) (fl : Z -> list Z) (F A : gset block) : Prop := {
  bi_lists : lists_inv s fl F ∅;
  bi_tiles : tiles lo hi (F ∪ A);
  bi_disj : F ## A;
  bi_alloc p o : (p, o) ∈ A -> exists st, pstatus s p = Some st /\ order st = o;
  bi_pages p : is_Some (pstatus s p) <-> 0 <= p < nr_pages s;
  bi_range : 0 <= lo /\ hi <= nr_pages s /\ nr_pages s mod 2 ^ (MAX_ORDER - 1) = 0
}.

Section inv_facts.
Context (lo hi : Z).
Implicit Types (s : pmm_state) (F A : gset block).

Lemma bi_wf_free s fl F A p o : buddy_inv lo hi s fl F A -> (p, o) ∈ F ->
  0 <= o < MAX_ORDER /\ p mod 2 ^ o = 0 /\ lo <= p /\ p + 2 ^ o <= hi.
Proof. intros HI Hp. apply (tl_wf _ _ _ (bi_tiles _ _ _ _ _ _ HI) (p, o)). set_solver. Qed.

Lemma bi_wf_used s fl F A p o : buddy_inv lo hi s fl F A -> (p, o) ∈ A ->
  0 <= o < MAX_ORDER /\ p mod 2 ^ o = 0 /\ lo <= p /\ p + 2 ^ o <= hi.
Proof. intros HI Hp. apply (tl_wf _ _ _ (bi_tiles _ _ _ _ _ _ HI) (p, o)). set_solver. Qed.

(** A block in use heads no free block of any order. *)
Lemma bi_used_not_free s fl F A p o o' :
  buddy_inv lo hi s fl F A -> (p, o) ∈ A -> (p, o') ∉ F.
Proof.
  intros HI Hp Hp'. pose proof (bi_disj _ _ _ _ _ _ HI).
  assert (E : (p, o') = (p, o)).
  { apply (tiles_start_inj lo hi (F ∪ A)); [apply HI|set_solver..|done]. }
  rewrite E in Hp'. set_solver.
Qed.

(** A block of one order contains no other block's first page. *)
Lemma bi_start_unique s fl F A p o b :
  buddy_inv lo hi s fl F A -> (p, o) ∈ F ∪ A -> b ∈ F ∪ A -> in_block b.1 (p, o) -> b = (p, o).
Proof.
  intros HI Hp Hb Hin. apply (tl_disj _ _ _ (bi_tiles _ _ _ _ _ _ HI) _ _ b.1); try done.
  destruct (tl_wf _ _ _ (bi_tiles _ _ _ _ _ _ HI) b Hb) as [Ho _].
  destruct b as [q k]. apply in_block_start. cbn in *. lia.
Qed.
End inv_facts.

(** ** Frames: which status words an operation touches *)
Record touches (s s' : pmm_state) (T : gset Z) : Prop := {
  to_status q : q ∉ T -> pstatus s' q = pstatus s q;
  to_some q : is_Some (pstatus s' q) <-> is_Some (pstatus s q);
  to_rest : rest s' = rest s
}.

Section touches.
Implicit Types (s : pmm_state) (T : gset Z).

Lemma touches_refl s T : touches s s T.
Proof. by split. Qed.

Lemma touches_nodes s s' T : nodes_frame s s' -> touches s s' T.
Proof. intros Hf. split; [intros q _|intros q|]; by rewrite ?(nf_status _ _ Hf), ?(nf_rest _ _ Hf). Qed.

Lemma touches_st s s' p st st' T :
  pstatus s p = Some st -> status_frame s s' p st' -> p ∈ T -> touches s s' T.
Proof.
  intros Hp Hf HpT. split; [| |apply Hf]; intros q; rewrite (sf_status _ _ _ _ Hf); case_decide.
  - by subst.
  - done.
  - subst. rewrite Hp. split; eauto.
  - done.
Qed.

Lemma touches_trans s1 s2 s3 T : touches s1 s2 T -> touches s2 s3 T -> touches s1 s3 T.
Proof.
  intros [A1 A2 A3] [B1 B2 B3]. split.
  - intros q Hq. by rewrite B1, A1.
  - intros q. by rewrite B2, A2.
  - by rewrite B3, A3.
Qed.

Lemma touches_mono s s' T T' : touches s s' T -> T ⊆ T' -> touches s s' T'.
Proof. intros [A1 A2 A3] HT. split; [|done..]. intros q Hq. apply A1. set_solver. Qed.

Lemma rest_nr s s' : rest s' = rest s -> nr_pages s' = nr_pages s.
Proof. unfold rest. by intros [= ?]. Qed.

Lemma bi_rebuild lo hi s s' fl fl' F F' A A' T :
  buddy_inv lo hi s fl F A -> lists_inv s' fl' F' ∅ -> touches s s' T ->
  tiles lo hi (F' ∪ A') -> F' ## A' ->
  (forall q o, (q, o) ∈ A' ->
     ((q, o) ∈ A /\ q ∉ T) \/ exists st, pstatus s' q = Some st /\ order st = o) ->
  buddy_inv lo hi s' fl' F' A'.
Proof.
  intros HI HL [HT1 HT2 HT3] Htl Hd HA. split; try done.
  - intros q o Hq. destruct (HA _ _ Hq) as [[Hq' Hn]|?]; [|done].
    rewrite HT1 by done. by apply (bi_alloc _ _ _ _ _ _ HI).
  - intros q. rewrite HT2, (rest_nr _ _ HT3). apply (bi_pages _ _ _ _ _ _ HI).
  - rewrite (rest_nr _ _ HT3). apply (bi_range _ _ _ _ _ _ HI).
Qed.
End touches.
