(* ===== verification/BuddyProofs.v ===== *)
(** * The buddy allocator: proofs

    Each operation of Buddy.v preserves [buddy_inv] and has the effect of its
    abstract counterpart on the sets of free and used blocks. *)
From stdpp Require Import base gmap list strings.
From Stdlib Require Import ZArith Lia.
From S2P Require Import Prelude Riscv PmmState Dlist Buddy Tiles BuddyInv.

Section proofs.
Context (lo hi : Z).
Implicit Types (s : pmm_state) (fl : Z -> list Z) (F A : gset block).

Lemma page_in_use_status s fl F A p :
  buddy_inv lo hi s fl F A -> lo <= p < hi -> exists st, pstatus s p = Some st.
Proof.
  intros HI Hp. destruct (bi_range _ _ _ _ _ _ HI) as (? & ? & _).
  assert (Hs : is_Some (pstatus s p)) by (apply (bi_pages _ _ _ _ _ _ HI); lia). exact Hs.
Qed.

(** The right half of a free block heads no free block. *)
Lemma right_half_free s fl F A p i o' :
  buddy_inv lo hi s fl F A -> (p, i) ∈ F -> 0 < i -> (p + 2 ^ (i - 1), o') ∉ F.
Proof.
  intros HI Hp Hi Hb. pose proof (pow2_pos (i - 1) ltac:(lia)).
  assert (Hpow : 2 ^ i = 2 * 2 ^ (i - 1)).
  { replace i with ((i - 1) + 1) at 1 by lia. rewrite Z.pow_add_r; lia. }
  assert (E : (p + 2 ^ (i - 1), o') = (p, i)).
  { eapply bi_start_unique; [exact HI|set_solver..|]. unfold in_block; cbn. lia. }
  injection E. lia.
Qed.

Definition split_free F (p i : Z) : gset block :=
  (F ∖ {[(p, i)]}) ∪ {[(p, i - 1); (p + 2 ^ (i - 1), i - 1)]}.

(** One step of a split at the level of the lists: the head [p] of list [i]
    and its right half [bud] end up in front of list [i-1]. *)
Lemma wp_split_links s fl F p i l stb Q :
  lists_inv s fl F ∅ -> 0 < i < MAX_ORDER -> fl i = p :: l ->
  (forall o', (p + 2 ^ (i - 1), o') ∉ F) -> pstatus s (p + 2 ^ (i - 1)) = Some stb ->
  (forall s' fl', lists_inv s' fl' (split_free F p i) ∅ ->
     touches s s' {[p; p + 2 ^ (i - 1)]} ->
     fl' (i - 1) = p :: (p + 2 ^ (i - 1)) :: fl (i - 1) -> Q tt s') ->
  wp (split_step i) Q no_stop s.
Proof.
  intros HL Hi Hl. pose proof (pow2_pos (i - 1) ltac:(lia)) as Hpos.
  set (bud := p + 2 ^ (i - 1)). intros Hbud Hstb HQ.
  assert (HpF : (p, i) ∈ F) by (apply (li_link _ _ _ _ HL); rewrite Hl; set_solver).
  assert (Hpo : forall o', (p, o') ∈ F -> o' = i) by (intros; eapply li_unique; eauto).
  destruct (li_head _ _ _ _ HL _ _ HpF) as (stp & Hstp & Hf1 & Hh1 & _).
  assert (Hmod : (i - 1) mod 2 ^ 5 = i - 1) by (apply Z.mod_small; unfold MAX_ORDER in *; lia).
  unfold split_step.
  apply wp_bind. eapply wp_li_pop; [exact HL|lia|exact Hl|]. intros s1 F1 L1. cbn [NODE_TO_PAGE].
  fold bud. rewrite <- (nf_status _ _ F1) in Hstb, Hstp.
  apply (wp_upd_seq [with_is_free 1; with_is_head 1; with_order (i - 1)] _ _ _ _ _ _ Hstb).
  intros s2 S2.
  assert (L2 : lists_inv s2 (fl_set i l fl) (F ∖ {[(p, i)]}) {[p; bud]}).
  { eapply li_status; [exact L1| |exact S2|intros _; set_solver|set_solver].
    intros o'; specialize (Hbud o'); set_solver. }
  assert (Hstp2 : pstatus s2 p = Some stp).
  { rewrite (sf_status _ _ _ _ S2), decide_False; [done|unfold bud; lia]. }
  apply wp_bind. eapply (wp_li_add _ _ _ _ bud (i - 1)); [exact L2|lia| | |..].
  { intros o'; specialize (Hbud o'); set_solver. }
  { by eapply sf_self. } { done. } { done. } { cbn. by rewrite Hmod. } intros s3 F3 L3.
  apply wp_bind. eapply wp_upd_status; [by rewrite (nf_status _ _ F3)|]. intros s4 S4.
  assert (HpF3 : forall o', (p, o') ∉ F ∖ {[(p, i)]} ∪ {[(bud, i - 1)]}).
  { intros o' [[Hin Hne]%elem_of_difference|Hin]%elem_of_union; [|unfold bud in Hin; set_unfold; injection Hin; lia].
    rewrite (Hpo o' Hin) in Hne. set_solver. }
  assert (L4 : lists_inv s4 (fl_set (i - 1) (bud :: fl (i - 1)) (fl_set i l fl))
                 (F ∖ {[(p, i)]} ∪ {[(bud, i - 1)]}) {[p]}).
  { rewrite <- (fl_set_ne i (i - 1) l fl) by lia.
    eapply li_status; [exact L3|done|exact S4|intros _; set_solver|set_solver]. }
  eapply (wp_li_add _ _ _ _ p (i - 1)); [exact L4|lia|done|by eapply sf_self|done|done| |].
  { cbn. by rewrite Hmod. }
  intros s5 F5 L5. replace (_ ∖ {[p]}) with (∅ : gset Z) in L5 by set_solver.
  replace (F ∖ {[(p, i)]} ∪ {[(bud, i - 1)]} ∪ {[(p, i - 1)]}) with (split_free F p i) in L5
    by (unfold split_free, bud; set_solver).
  rewrite fl_set_eq in L5.
  eapply HQ; [exact L5| |by rewrite fl_set_eq].
  eapply touches_trans; [by apply touches_nodes|].
  eapply touches_trans; [eapply touches_st; [exact Hstb|exact S2|set_solver]|].
  eapply touches_trans; [by apply touches_nodes|].
  eapply touches_trans; [|by apply touches_nodes].
  eapply touches_st; [by rewrite (nf_status _ _ F3)|exact S4|set_solver].
Qed.

(** The blocks after one step of a split. *)
Lemma split_blocks s fl F A p i :
  buddy_inv lo hi s fl F A -> (p, i) ∈ F -> 0 < i ->
  tiles lo hi (split_free F p i ∪ A) /\ split_free F p i ## A /\
  (forall q o', (q, o') ∈ A -> q ∉ ({[p; p + 2 ^ (i - 1)]} : gset Z)) /\
  lo <= p + 2 ^ (i - 1) < hi.
Proof.
  intros HI HpF Hi. pose proof (bi_disj _ _ _ _ _ _ HI) as Hd.
  destruct (bi_wf_free _ _ _ _ _ _ _ _ HI HpF) as (_ & _ & Hlo & Hhi).
  pose proof (pow2_pos (i - 1) ltac:(lia)) as Hpos.
  assert (Hpow : 2 ^ i = 2 * 2 ^ (i - 1)).
  { replace i with ((i - 1) + 1) at 1 by lia. rewrite Z.pow_add_r; lia. }
  set (bud := p + 2 ^ (i - 1)).
  assert (HpA : forall o', (p, o') ∉ A) by (intros o' ?; eapply bi_used_not_free; eauto).
  assert (HbA : forall o', (bud, o') ∉ A).
  { intros o' Hb. assert (E : (bud, o') = (p, i)).
    { eapply bi_start_unique; [exact HI|set_solver..|]. unfold in_block, bud; cbn. lia. }
    injection E. unfold bud. lia. }
  split_and!; [| |set_solver|unfold bud; lia..].
  - replace (split_free F p i ∪ A) with ((F ∪ A) ∖ {[(p, i)]} ∪ {[(p, i - 1); (bud, i - 1)]}).
    + apply tiles_split; [apply HI|set_solver|lia].
    + unfold split_free, bud. set_solver.
  - unfold split_free, bud in *. set_solver.
Qed.

Lemma wp_split_step s fl F A p i l Q :
  buddy_inv lo hi s fl F A -> 0 < i < MAX_ORDER -> fl i = p :: l ->
  (forall s' fl', buddy_inv lo hi s' fl' (split_free F p i) A -> rest s' = rest s ->
     fl' (i - 1) = p :: (p + 2 ^ (i - 1)) :: fl (i - 1) -> Q tt s') ->
  wp (split_step i) Q no_stop s.
Proof.
  intros HI Hi Hl HQ. pose proof (bi_lists _ _ _ _ _ _ HI) as HL.
  assert (HpF : (p, i) ∈ F) by (apply (li_link _ _ _ _ HL); rewrite Hl; set_solver).
  destruct (split_blocks _ _ _ _ _ _ HI HpF) as (Ht & Hd & HA & Hr); [lia|].
  destruct (page_in_use_status _ _ _ _ _ HI Hr) as [stb Hstb].
  eapply wp_split_links; [exact HL|done|exact Hl| |exact Hstb|].
  - intros o'. eapply right_half_free; eauto; lia.
  - intros s' fl' HL' HT Hfl'. eapply HQ; [|apply HT|exact Hfl'].
    eapply bi_rebuild; [exact HI|exact HL'|exact HT|exact Ht|exact Hd|].
    intros q o' Hq. left. split; [done|]. by eapply HA.
Qed.

(** The whole split: [n] steps from order [t + n] down to [t]. *)
Lemma wp_split_loop n s fl F A p t l Q :
  buddy_inv lo hi s fl F A -> 0 <= t -> t + Z.of_nat n < MAX_ORDER -> fl (t + Z.of_nat n) = p :: l ->
  (forall s' fl' l', buddy_inv lo hi s' fl'
       ((F ∖ {[(p, t + Z.of_nat n)]}) ∪ {[(p, t)]} ∪ halves p t n) A ->
     rest s' = rest s -> fl' t = p :: l' -> Q tt s') ->
  wp (split_loop n (t + Z.of_nat n)) Q no_stop s.
Proof.
  revert s fl F l. induction n as [|n IH]; intros s fl F l HI Ht Hn Hl HQ.
  - replace (t + Z.of_nat 0) with t in * by lia. apply wp_ret. eapply HQ; [|done|exact Hl].
    assert (HpF : (p, t) ∈ F).
    { apply (li_link _ _ _ _ (bi_lists _ _ _ _ _ _ HI)). rewrite Hl. set_solver. }
    cbn [halves]. replace (_ ∪ ∅) with F; [done|].
    apply set_eq. intros b. destruct (decide (b = (p, t))); set_solver.
  - cbn [split_loop]. apply wp_bind.
    eapply wp_split_step; [exact HI|lia|exact Hl|]. intros s1 fl1 HI1 Hr1 Hl1.
    replace (t + Z.of_nat (S n) - 1) with (t + Z.of_nat n) in * by lia.
    eapply IH; [exact HI1|done|lia|exact Hl1|]. intros s2 fl2 l2 HI2 Hr2 Hl2.
    eapply HQ; [|by rewrite Hr2|exact Hl2].
    assert (HpF : (p, t + Z.of_nat (S n)) ∈ F).
    { apply (li_link _ _ _ _ (bi_lists _ _ _ _ _ _ HI)). rewrite Hl. set_solver. }
    assert (Hno : (p, t + Z.of_nat n) ∉ F).
    { intros Hin. apply (li_unique _ _ _ _ _ _ _ (bi_lists _ _ _ _ _ _ HI) HpF) in Hin. lia. }
    replace (F ∖ {[(p, t + Z.of_nat (S n))]} ∪ {[(p, t)]} ∪ halves p t (S n))
      with (split_free F p (t + Z.of_nat (S n)) ∖ {[(p, t + Z.of_nat n)]}
            ∪ {[(p, t)]} ∪ halves p t n); [done|].
    rewrite halves_snoc. unfold split_free.
    replace (t + Z.of_nat (S n) - 1) with (t + Z.of_nat n) by lia.
    pose proof (pow2_pos (t + Z.of_nat n) ltac:(lia)).
    assert ((p + 2 ^ (t + Z.of_nat n), t + Z.of_nat n) <> (p, t + Z.of_nat n))
      by (intros E; injection E; lia).
    set_solver.
Qed.

(** ** Locks and other state outside the lists *)
Lemma lists_inv_ext s s' fl F E :
  (forall n, lookup_node s' n = lookup_node s n) -> (forall p, pstatus s' p = pstatus s p) ->
  lists_inv s fl F E -> lists_inv s' fl F E.
Proof.
  intros Hn Hp HL. split; [eapply free_lists_ext; [exact Hn|apply HL]|exact (li_link _ _ _ _ HL)|exact (li_order _ _ _ _ HL)|..].
  - intros p st. rewrite Hp. apply (li_free _ _ _ _ HL).
  - intros p o. rewrite Hp. apply (li_head _ _ _ _ HL).
Qed.

Lemma buddy_inv_ext s s' fl F A :
  (forall n, lookup_node s' n = lookup_node s n) -> (forall p, pstatus s' p = pstatus s p) ->
  nr_pages s' = nr_pages s -> buddy_inv lo hi s fl F A -> buddy_inv lo hi s' fl F A.
Proof.
  intros Hn Hp Hr HI. split; [|apply HI|apply HI| | |].
  - eapply lists_inv_ext; [done..|apply HI].
  - intros p o. rewrite Hp. apply (bi_alloc _ _ _ _ _ _ HI).
  - intros p. rewrite Hp, Hr. apply (bi_pages _ _ _ _ _ _ HI).
  - rewrite Hr. apply (bi_range _ _ _ _ _ _ HI).
Qed.

Lemma buddy_inv_lock s v fl F A :
  buddy_inv lo hi s fl F A -> buddy_inv lo hi (set_buddy_lock v s) fl F A.
Proof. apply buddy_inv_ext; [by intros []|done|done]. Qed.

Lemma rest_lock s s' v : rest s' = rest s -> rest (set_buddy_lock v s') = rest (set_buddy_lock v s).
Proof. unfold rest. cbn. by intros [= -> _ -> -> -> -> -> -> ->]. Qed.

(** ** Taking the first block of a list *)
Lemma wp_take_block s fl F A p o l Q :
  buddy_inv lo hi s fl F A -> 0 <= o < MAX_ORDER -> fl o = p :: l ->
  (forall s' fl', buddy_inv lo hi s' fl' (F ∖ {[(p, o)]}) (A ∪ {[(p, o)]}) ->
     rest s' = rest (set_buddy_lock 0 s) -> Q (PFN_TO_ADDR p) s') ->
  wp (take_block o) Q no_stop s.
Proof.
  intros HI Ho Hl HQ. pose proof (bi_lists _ _ _ _ _ _ HI) as HL.
  assert (HpF : (p, o) ∈ F) by (apply (li_link _ _ _ _ HL); rewrite Hl; set_solver).
  destruct (li_head _ _ _ _ HL _ _ HpF) as (st & Hst & _ & _ & Hord).
  unfold take_block. apply wp_bind.
  eapply wp_li_pop; [exact HL|done|exact Hl|]. intros s1 F1 L1. cbn [NODE_TO_PAGE].
  unfold lock_release. apply wp_bind, wp_modify.
  set (s2 := set_buddy_lock 0 s1).
  assert (L2 : lists_inv s2 (fl_set o l fl) (F ∖ {[(p, o)]}) (∅ ∪ {[p]}))
    by (eapply lists_inv_ext; [..|exact L1]; [by intros []|done]).
  assert (Hst2 : pstatus s2 p = Some st) by (rewrite <- (nf_status _ _ F1) in Hst; exact Hst).
  apply (wp_upd_seq [with_alloc 1] _ _ _ _ _ _ Hst2). intros s3 S3. apply wp_ret.
  assert (HpF' : forall o', (p, o') ∉ F ∖ {[(p, o)]}).
  { intros o' Hin. apply elem_of_difference in Hin as [Hin Hne].
    apply (li_unique _ _ _ _ _ _ _ HL HpF) in Hin. set_solver. }
  assert (T3 : touches (set_buddy_lock 0 s) s3 {[p]}).
  { eapply touches_trans; [|eapply touches_st; [exact Hst2|exact S3|set_solver]].
    split; [intros q _|intros q|by apply rest_lock, F1];
      change (pstatus s2 q) with (pstatus s1 q);
      change (pstatus (set_buddy_lock 0 s) q) with (pstatus s q);
      by rewrite (nf_status _ _ F1). }
  eapply HQ; [|apply T3].
  eapply bi_rebuild; [by apply (buddy_inv_lock s 0)| |exact T3| | |].
  - eapply (li_status s2); [exact L2|done|exact S3|done|set_solver].
  - replace (F ∖ {[(p, o)]} ∪ (A ∪ {[(p, o)]})) with (F ∪ A); [apply HI|].
    apply set_eq. intros b. destruct (decide (b = (p, o))); set_solver.
  - pose proof (bi_disj _ _ _ _ _ _ HI). set_solver.
  - intros q o' Hq. apply elem_of_union in Hq as [Hq|Hq].
    + left. split; [done|]. intros ->%elem_of_singleton. by eapply bi_used_not_free.
    + apply elem_of_singleton in Hq. injection Hq as -> ->. right.
      eexists. split; [by eapply sf_self|done].
Qed.

(** ** buddy_alloc *)

(** What a successful request for order [o] does: block [(p, i)], the head
    of the first non-empty list from [o] up, gives [(p, o)]. *)
Record alloc_post (s s' : pmm_state) (fl : Z -> list Z) (F A : gset block) (o p i : Z) : Prop := {
  ap_order : o <= i < MAX_ORDER;
  ap_head : head (fl i) = Some p;
  ap_first j : o <= j < i -> fl j = [];
  ap_inv : exists fl', buddy_inv lo hi s' fl'
             ((F ∖ {[(p, i)]}) ∪ halves p o (Z.to_nat (i - o))) (A ∪ {[(p, o)]});
  ap_rest : rest s' = rest (set_buddy_lock 0 s)
}.

Lemma wp_split_take s fl F A o p i l Q :
  buddy_inv lo hi s fl F A -> 0 <= o <= i -> i < MAX_ORDER -> fl i = p :: l ->
  (forall s' fl', buddy_inv lo hi s' fl'
             ((F ∖ {[(p, i)]}) ∪ halves p o (Z.to_nat (i - o))) (A ∪ {[(p, o)]}) ->
     rest s' = rest (set_buddy_lock 0 s) -> Q (PFN_TO_ADDR p) s') ->
  wp ((if o <? i then buddy_split i o else ret tt) ;;; take_block o) Q no_stop s.
Proof.
  intros HI Ho Hi Hl HQ. apply wp_bind.
  assert (HpF : (p, i) ∈ F).
  { apply (li_link _ _ _ _ (bi_lists _ _ _ _ _ _ HI)). rewrite Hl. set_solver. }
  destruct (Z.ltb_spec o i) as [Hlt|Hge].
  - unfold buddy_split. set (n := Z.to_nat (i - o)) in *.
    replace i with (o + Z.of_nat n) in * by lia.
    eapply wp_split_loop; [exact HI|lia|lia|exact Hl|]. intros s1 fl1 l1 HI1 Hr1 Hl1.
    eapply wp_take_block; [exact HI1|lia|exact Hl1|]. intros s2 fl2 HI2 Hr2.
    eapply HQ; [|by rewrite Hr2; apply rest_lock].
    replace (F ∖ {[(p, o + Z.of_nat n)]} ∪ halves p o n)
      with ((F ∖ {[(p, o + Z.of_nat n)]} ∪ {[(p, o)]} ∪ halves p o n) ∖ {[(p, o)]});
      [exact HI2|].
    assert ((p, o) ∉ F).
    { intros Hin. apply (li_unique _ _ _ _ _ _ _ (bi_lists _ _ _ _ _ _ HI) HpF) in Hin. lia. }
    assert ((p, o) ∉ halves p o n).
    { rewrite elem_of_halves. intros (j & ? & E). injection E. pose proof (pow2_pos j). lia. }
    set_solver.
  - replace i with o in * by lia. apply wp_ret.
    eapply wp_take_block; [exact HI|lia|exact Hl|]. intros s2 fl2 HI2 Hr2.
    eapply HQ; [|exact Hr2]. rewrite Z.sub_diag.
    change (halves p o (Z.to_nat 0)) with (∅ : gset block). by rewrite union_empty_r_L.
Qed.

Lemma wp_alloc_scan n s fl F A o i :
  buddy_inv lo hi s fl F A -> 0 <= o <= i -> i + Z.of_nat n = MAX_ORDER ->
  (forall j, o <= j < i -> fl j = []) ->
  wp (alloc_scan n i o)
     (fun a s' => exists p k, a = PFN_TO_ADDR p /\ alloc_post s s' fl F A o p k)
     (fun h s' => h = Panicked "buddy_alloc : Out of required size of memory!" /\
        s' = set_buddy_lock 0 s /\ forall j, o <= j < MAX_ORDER -> fl j = []) s.
Proof.
  revert i. induction n as [|n IH]; intros i HI Ho Hn Hnone; cbn [alloc_scan].
  - unfold lock_release. apply wp_bind, wp_modify, wp_halt.
    split_and!; [done|done|]. intros j Hj. apply Hnone. lia.
  - pose proof (li_fl _ _ _ _ (bi_lists _ _ _ _ _ _ HI)) as Hfl.
    apply wp_bind, wp_no_stop, wp_load_node; [eapply free_lists_has; [done|lia]|].
    intros x Hx _. rewrite (free_lists_next _ _ _ Hfl) in Hx by lia.
    destruct (fl i) as [|p l] eqn:Hl.
    + rewrite decide_True by done. apply IH; [done|lia|lia|].
      intros j Hj. destruct (decide (j = i)) as [->|]; [done|]. apply Hnone. lia.
    + rewrite decide_False by congruence. apply wp_no_stop.
      eapply wp_split_take; [exact HI|lia|lia|exact Hl|]. intros s' fl' HI' Hr'.
      exists p, i. split; [done|]. split; [lia|by rewrite Hl|done|by exists fl'|done].
Qed.

Lemma wp_buddy_alloc s fl F A o :
  buddy_inv lo hi s fl F A -> 0 <= o < MAX_ORDER -> buddy_lock (main_buddy s) = 0 ->
  wp (buddy_alloc o)
     (fun a s' => exists p k, a = PFN_TO_ADDR p /\ alloc_post s s' fl F A o p k)
     (fun h s' => h = Panicked "buddy_alloc : Out of required size of memory!" /\
        forall j, o <= j < MAX_ORDER -> fl j = []) s.
Proof.
  intros HI Ho Hlk. unfold buddy_alloc.
  apply wp_bind, wp_kassert; [apply andb_true_intro; lia|].
  apply wp_bind. unfold lock_acquire. apply wp_bind, wp_gets. rewrite Hlk, Z.eqb_refl.
  apply wp_modify. eapply wp_mono; [apply (wp_alloc_scan _ _ fl F A o o); [|lia..]| |].
  - by apply buddy_inv_lock.
  - intros a s' (p & k & -> & [H1 H2 H3 H4 H5]). exists p, k. by split.
  - intros h s' (-> & _ & H). done.
Qed.
End proofs.
