(* ===== verification/BuddyFree.v ===== *)
(** * Freeing a block: proofs

    [__buddy_merge_inner] and [buddy_free] implement [free_spec], keep the
    invariant and keep the free blocks coalesced; allocating and freeing again
    restores the free blocks. *)
From stdpp Require Import base gmap list strings.
From Stdlib Require Import ZArith Lia.
From S2P Require Import Prelude Riscv PmmState Dlist Buddy Tiles BuddyInv BuddyProofs.

Section free.
Context (lo hi : Z).
Implicit Types (s : pmm_state) (fl : Z -> list Z) (F A : gset block).

Lemma nr_aligned s fl F A o :
  buddy_inv lo hi s fl F A -> 0 <= o < MAX_ORDER - 1 -> nr_pages s mod 2 ^ (o + 1) = 0.
Proof.
  intros HI Ho. destruct (bi_range _ _ _ _ _ _ HI) as (_ & _ & Hn).
  eapply mod0_pow2_le; [|exact Hn]. lia.
Qed.

(** The status word of the buddy says whether the buddy is a free block. *)
Lemma buddy_test s fl F A p o :
  buddy_inv lo hi s fl F (A ∪ {[(p, o)]}) -> o < MAX_ORDER - 1 ->
  exists st, pstatus s (buddy_of p o) = Some st /\
    ((order st = o /\ is_free st = 1 /\ is_head st = 1) <-> (buddy_of p o, o) ∈ F).
Proof.
  intros HI Ho. destruct (bi_wf_used _ _ _ _ _ _ p o HI ltac:(set_solver)) as (Ho' & Hal & Hlo & Hhi).
  destruct (bi_range _ _ _ _ _ _ HI) as (H0 & Hhn & _).
  pose proof (pow2_pos o ltac:(lia)).
  assert (Hb : 0 <= buddy_of p o < nr_pages s).
  { apply buddy_bound; [lia|done|lia|]. eapply nr_aligned; [exact HI|lia]. }
  apply (bi_pages _ _ _ _ _ _ HI) in Hb as [st Hst]. exists st. split; [done|].
  pose proof (bi_lists _ _ _ _ _ _ HI) as HL. split.
  - intros (E1 & E2 & _). destruct (li_free _ _ _ _ HL _ _ Hst E2) as [[o' Hin]|Hin]; [|set_solver].
    destruct (li_head _ _ _ _ HL _ _ Hin) as (st' & Hst' & _ & _ & E). congruence.
  - intros Hin. destruct (li_head _ _ _ _ HL _ _ Hin) as (st' & Hst' & ? & ? & ?).
    rewrite Hst in Hst'. injection Hst' as <-. done.
Qed.

(** The blocks after one join. *)
Lemma join_blocks s fl F A p o :
  buddy_inv lo hi s fl F (A ∪ {[(p, o)]}) -> (p, o) ∉ A -> o < MAX_ORDER - 1 ->
  (buddy_of p o, o) ∈ F ->
  tiles lo hi (F ∖ {[(buddy_of p o, o)]} ∪ (A ∪ {[(parent_of p o, o + 1)]})) /\
  F ∖ {[(buddy_of p o, o)]} ## A ∪ {[(parent_of p o, o + 1)]} /\
  (forall k, (parent_of p o, k) ∉ F ∖ {[(buddy_of p o, o)]}) /\
  (forall k, (parent_of p o, k) ∉ A) /\
  (forall k, (buddy_of p o, k) ∉ A) /\ lo <= parent_of p o < hi.
Proof.
  intros HI HpA Ho Hb. set (b := buddy_of p o) in *.
  destruct (bi_wf_used _ _ _ _ _ _ p o HI ltac:(set_solver)) as (Ho' & Hal & Hlo & Hhi).
  pose proof (bi_disj _ _ _ _ _ _ HI) as Hd. pose proof (bi_tiles _ _ _ _ _ _ HI) as HT.
  pose proof (pow2_pos o ltac:(lia)) as Hpos.
  pose proof (buddy_ne p o ltac:(lia) Hal) as Hne. fold b in Hne.
  assert (Hstart : forall q k k', (q, k) ∈ F ∪ (A ∪ {[(p, o)]}) ->
            (q, k') ∈ F ∪ (A ∪ {[(p, o)]}) -> k = k').
  { intros q k k' H1 H2. assert (E : (q, k) = (q, k')) by (eapply tiles_start_inj; eauto).
    by injection E. }
  assert (Hpar : parent_of p o = p \/ parent_of p o = b).
  { destruct (buddy_cases p o ltac:(lia) Hal) as [(_ & _ & ->)|(_ & E & ->)]; [by left|].
    right. unfold b. lia. }
  assert (Hp1 : forall k, (p, k) ∈ F -> False).
  { intros k Hk. rewrite (Hstart p k o) in Hk by set_solver. set_solver. }
  assert (Hp2 : forall k, (p, k) ∈ A -> False).
  { intros k Hk. rewrite (Hstart p k o) in Hk by set_solver. done. }
  assert (Hb1 : forall k, (b, k) ∈ F -> k = o) by (intros k Hk; apply (Hstart b); set_solver).
  assert (Hb2 : forall k, (b, k) ∈ A -> False).
  { intros k Hk. rewrite (Hstart b k o) in Hk by set_solver. set_solver. }
  assert (HparF : forall k, (parent_of p o, k) ∉ F ∖ {[(b, o)]}).
  { intros k Hk. destruct Hpar as [E|E]; rewrite E in Hk; apply elem_of_difference in Hk as [Hk Hk'].
    - by eapply Hp1.
    - rewrite (Hb1 _ Hk) in Hk'. set_solver. }
  assert (HparA : forall k, (parent_of p o, k) ∉ A).
  { intros k Hk. destruct Hpar as [E|E]; rewrite E in Hk; [by eapply Hp2|by eapply Hb2]. }
  destruct (tl_wf _ _ _ HT (b, o) ltac:(set_solver)) as (_ & _ & Hblo & Hbhi); cbn in *.
  split_and!; [| |done|done|exact Hb2|destruct Hpar as [-> | ->]; lia..].
  - replace (F ∖ {[(b, o)]} ∪ (A ∪ {[(parent_of p o, o + 1)]}))
      with ((F ∪ (A ∪ {[(p, o)]})) ∖ {[(p, o); (b, o)]} ∪ {[(parent_of p o, o + 1)]}).
    + by apply tiles_join; [exact HT|set_solver|set_solver|].
    + pose proof (Hp1 o). pose proof (Hb2 o). set_solver.
  - pose proof (HparF (o + 1)). set_solver.
Qed.

Lemma wp_merge_step s fl F A p o Q :
  buddy_inv lo hi s fl F (A ∪ {[(p, o)]}) -> (p, o) ∉ A -> o < MAX_ORDER - 1 ->
  (buddy_of p o, o) ∈ F ->
  (forall s' fl', buddy_inv lo hi s' fl' (F ∖ {[(buddy_of p o, o)]})
                    (A ∪ {[(parent_of p o, o + 1)]}) ->
     (parent_of p o, o + 1) ∉ A -> rest s' = rest s -> Q tt s') ->
  wp (__list_del (NPage (buddy_of p o)) ;;;
      upd_status (with_is_free 0) (buddy_of p o) ;;;
      upd_status (with_is_head 0) (buddy_of p o) ;;;
      upd_status (with_order (o + 1)) (parent_of p o)) Q no_stop s.
Proof.
  intros HI HpA Ho HbF HQ. pose proof (bi_lists _ _ _ _ _ _ HI) as HL.
  destruct (join_blocks _ _ _ _ _ _ HI HpA Ho HbF) as (Ht & Hd & HparF & HparA & HbA & Hpr).
  destruct (li_head _ _ _ _ HL _ _ HbF) as (stb & Hstb & _).
  assert (Hbo : forall k, (buddy_of p o, k) ∉ F ∖ {[(buddy_of p o, o)]}).
  { intros k Hk. apply elem_of_difference in Hk as [Hk Hk'].
    apply (li_unique _ _ _ _ _ _ _ HL HbF) in Hk. subst k. set_solver. }
  pose proof (li_order _ _ _ _ HL _ _ HbF) as Hor.
  apply wp_bind. eapply wp_li_del; [exact HL|exact HbF|]. intros s1 fl1 F1 L1.
  rewrite <- (nf_status _ _ F1) in Hstb.
  apply (wp_upd_seq [with_is_head 0] _ _ _ _ _ _ Hstb). intros s2 S2.
  assert (L2 : lists_inv s2 fl1 (F ∖ {[(buddy_of p o, o)]}) ∅).
  { eapply li_status; [exact L1|exact Hbo|exact S2|done|set_solver]. }
  assert (T2 : touches s s2 {[buddy_of p o; parent_of p o]}).
  { eapply touches_trans; [by apply touches_nodes|].
    eapply touches_st; [exact Hstb|exact S2|set_solver]. }
  destruct (page_in_use_status _ _ _ _ _ _ _ HI Hpr) as [stp Hstp].
  assert (Hsome : is_Some (pstatus s2 (parent_of p o))) by (apply (to_some _ _ _ T2); eauto).
  destruct Hsome as [stp2 Hstp2].
  eapply wp_upd_status; [exact Hstp2|]. intros s3 S3.
  assert (T3 : touches s s3 {[buddy_of p o; parent_of p o]}).
  { eapply touches_trans; [exact T2|]. eapply touches_st; [exact Hstp2|exact S3|set_solver]. }
  eapply HQ; [|apply HparA|apply T3].
  eapply bi_rebuild; [exact HI| |exact T3|exact Ht|exact Hd|].
  - eapply li_status; [exact L2|exact HparF|exact S3| |set_solver].
    cbn. intros Hf. destruct (li_free _ _ _ _ L2 _ _ Hstp2 Hf) as [[k Hk]|Hk]; [|done].
    by destruct (HparF k).
  - intros q k Hq. apply elem_of_union in Hq as [Hq|Hq].
    + left. split; [set_solver|]. intros Hin.
      apply elem_of_union in Hin as [->%elem_of_singleton| ->%elem_of_singleton];
        [by eapply HbA|by eapply HparA].
    + apply elem_of_singleton in Hq. injection Hq as -> ->. right.
      eexists. split; [by eapply sf_self|]. cbn. apply Z.mod_small. unfold MAX_ORDER in *. lia.
Qed.

(** The loop is [coalesce]. *)
Lemma wp_merge_loop fuel s fl F A p o Q :
  buddy_inv lo hi s fl F (A ∪ {[(p, o)]}) -> (p, o) ∉ A ->
  MAX_ORDER - 1 - o <= Z.of_nat fuel ->
  (forall s' fl', let r := coalesce (Z.to_nat (MAX_ORDER - 1 - o)) F p o in
     buddy_inv lo hi s' fl' r.1 (A ∪ {[r.2]}) -> r.2 ∉ A -> rest s' = rest s -> Q r.2 s') ->
  wp (merge_loop fuel p o) Q no_stop s.
Proof.
  revert s fl F p o. induction fuel as [|fuel IH]; intros s fl F p o HI HpA Hfuel HQ;
    destruct (bi_wf_used _ _ _ _ _ _ p o HI ltac:(set_solver)) as (Ho & _);
    cbn [merge_loop]; destruct (Z.ltb_spec o (MAX_ORDER - 1)) as [Hlt|Hge]; try lia.
  1, 3: replace (Z.to_nat (MAX_ORDER - 1 - o)) with 0%nat in HQ by lia;
    by apply wp_ret, (HQ s fl).
  replace (Z.to_nat (MAX_ORDER - 1 - o)) with (S (Z.to_nat (MAX_ORDER - 1 - (o + 1)))) in HQ by lia.
  cbn [coalesce] in HQ. fold (buddy_of p o). fold (parent_of p o).
  destruct (buddy_test _ _ _ _ _ _ HI Hlt) as (st & Hst & Htest).
  apply wp_bind. eapply wp_read_opt; [exact Hst|].
  case_decide as Hb.
  - destruct (proj2 Htest Hb) as (-> & -> & ->). rewrite !Z.eqb_refl. cbn [negb orb].
    apply wp_bind_assoc4. apply wp_bind.
    eapply wp_merge_step; [exact HI|done|lia|done|].
    intros s' fl' HI' HpA' Hr'. eapply IH; [exact HI'|done|lia|].
    intros s2 fl2 r HI2 Hr Hr2. eapply HQ; [exact HI2|done|]. by rewrite Hr2.
  - destruct (negb (order st =? o) || negb (is_free st =? 1) || negb (is_head st =? 1)) eqn:Et.
    + by apply wp_ret, (HQ s fl).
    + exfalso. apply Hb, Htest. apply orb_false_iff in Et as [Et E3].
      apply orb_false_iff in Et as [E1 E2].
      apply negb_false_iff, Z.eqb_eq in E1, E2, E3. done.
Qed.

(** ** __buddy_merge_inner *)

(** The stores at its start: the block is still in use, its head unmarked. *)
Lemma wp_detach {B} s fl F A p o (k : M pmm_state B) Q :
  buddy_inv lo hi s fl F A -> (p, o) ∈ A ->
  (forall s', buddy_inv lo hi s' fl F A -> rest s' = rest s -> wp k Q no_stop s') ->
  wp (upd_status (with_is_free 0) p ;;; upd_status (with_is_head 0) p ;;;
      upd_status (with_alloc 0) p ;;; k) Q no_stop s.
Proof.
  intros HI HpA HQ. destruct (bi_alloc _ _ _ _ _ _ HI _ _ HpA) as (st & Hst & Hord).
  apply (wp_upd_seq [with_is_head 0; with_alloc 0] _ _ _ _ _ _ Hst). intros s1 S1.
  assert (T1 : touches s s1 {[p]}) by (eapply touches_st; [exact Hst|exact S1|set_solver]).
  apply HQ; [|apply T1]. eapply bi_rebuild; [exact HI| |exact T1|apply HI|apply HI|].
  - eapply li_status; [apply HI| |exact S1|done|set_solver].
    intros k'. by eapply bi_used_not_free.
  - intros q k' Hq. destruct (decide (q = p)) as [->|Hne]; [|left; set_solver].
    right. eexists. split; [by eapply sf_self|]. cbn.
    assert (E : (p, k') = (p, o)) by (eapply tiles_start_inj; [apply HI|set_solver..|done]).
    injection E as ->. done.
Qed.

(** The stores at its end: a block in use becomes a free block. *)
Lemma wp_link s fl F A p o Q :
  buddy_inv lo hi s fl F (A ∪ {[(p, o)]}) -> (p, o) ∉ A ->
  (forall s' fl', buddy_inv lo hi s' fl' (F ∪ {[(p, o)]}) A -> rest s' = rest s -> Q tt s') ->
  wp (upd_status (with_is_free 1) p ;;; upd_status (with_is_head 1) p ;;;
      upd_status (with_alloc 0) p ;;; __list_add (NArea o) (NPage p) (NPage p)) Q no_stop s.
Proof.
  intros HI HpA HQ.
  destruct (bi_alloc _ _ _ _ _ _ HI p o ltac:(set_solver)) as (st & Hst & Hord).
  destruct (bi_wf_used _ _ _ _ _ _ p o HI ltac:(set_solver)) as (Ho & _).
  assert (HpF : forall k, (p, k) ∉ F).
  { intros k. apply (bi_used_not_free lo hi s fl F _ p o k HI). set_solver. }
  apply (wp_upd_seq [with_is_head 1; with_alloc 0] _ _ _ _ _ _ Hst). intros s1 S1.
  eapply (wp_li_add _ _ _ {[p]} p o); [|lia|done|by eapply sf_self|done|done|done|].
  { eapply li_status; [apply HI|done|exact S1|set_solver|set_solver]. }
  intros s2 F2 L2. replace ({[p]} ∖ {[p]}) with (∅ : gset Z) in L2 by set_solver.
  assert (T2 : touches s s2 {[p]}).
  { eapply touches_trans; [eapply touches_st; [exact Hst|exact S1|set_solver]|].
    by apply touches_nodes. }
  eapply HQ; [|apply T2]. eapply bi_rebuild; [exact HI|exact L2|exact T2| | |].
  - replace (F ∪ {[(p, o)]} ∪ A) with (F ∪ (A ∪ {[(p, o)]})) by set_solver. apply HI.
  - pose proof (bi_disj _ _ _ _ _ _ HI). set_solver.
  - intros q k Hq. left. split; [set_solver|]. intros ->%elem_of_singleton.
    assert (E : (p, k) = (p, o)) by (eapply tiles_start_inj; [apply HI|set_solver..|done]).
    by rewrite E in Hq.
Qed.

Lemma wp_merge_inner s fl F A p o Q :
  buddy_inv lo hi s fl F A -> (p, o) ∈ A ->
  (forall s' fl', buddy_inv lo hi s' fl' (free_spec F p o) (A ∖ {[(p, o)]}) ->
     rest s' = rest s -> Q tt s') ->
  wp (__buddy_merge_inner p) Q no_stop s.
Proof.
  intros HI HpA HQ. destruct (bi_alloc _ _ _ _ _ _ HI _ _ HpA) as (st & Hst & Hord).
  unfold __buddy_merge_inner. apply wp_bind. eapply wp_read_opt; [exact Hst|]. rewrite Hord.
  eapply wp_detach; [exact HI|exact HpA|]. intros s1 HI1 Hr1.
  set (A0 := A ∖ {[(p, o)]}) in *. assert (EA : A = A0 ∪ {[(p, o)]}).
  { apply set_eq. intros b. unfold A0. destruct (decide (b = (p, o))); set_solver. }
  rewrite EA in HI1.
  destruct (bi_wf_used _ _ _ _ _ _ _ _ HI HpA) as (Ho & _).
  apply wp_bind. eapply wp_merge_loop; [exact HI1|unfold A0; set_solver|unfold MAX_ORDER; lia|].
  intros s2 fl2 r HI2 HrA Hr2.
  assert (Efs : free_spec F p o = r.1 ∪ {[r.2]}) by done.
  destruct r as [F' [p' o']]. cbn in *.
  eapply wp_link; [exact HI2|done|]. intros s3 fl3 HI3 Hr3.
  eapply HQ; [by rewrite Efs|]. by rewrite Hr3, Hr2.
Qed.

Lemma pfn_addr p : 0 <= p -> p * PGSIZE + DRAM_BASE < 2 ^ 64 -> ADDR_TO_PFN (PFN_TO_ADDR p) = p.
Proof.
  unfold ADDR_TO_PFN, PFN_TO_ADDR, PGSIZE, DRAM_BASE. intros.
  rewrite (u64_id (p * 4096 + 2147483648)) by (unfold is_u64; lia).
  rewrite u64_id by (unfold is_u64; lia). zlia.
Qed.

Lemma wp_buddy_free s fl F A p o Q :
  buddy_inv lo hi s fl F A -> (p, o) ∈ A -> buddy_lock (main_buddy s) = 0 ->
  hi * PGSIZE + DRAM_BASE < 2 ^ 64 ->
  buddy_start s <= PFN_TO_ADDR p \/ PFN_TO_ADDR p < buddy_end s ->
  (forall s' fl', buddy_inv lo hi s' fl' (free_spec F p o) (A ∖ {[(p, o)]}) ->
     rest s' = rest s -> Q tt s') ->
  wp (buddy_free (PFN_TO_ADDR p)) Q no_stop s.
Proof.
  intros HI HpA Hlk Hhi Hka HQ.
  destruct (bi_wf_used _ _ _ _ _ _ _ _ HI HpA) as (Ho & _ & Hlo & Hp).
  destruct (bi_range _ _ _ _ _ _ HI) as (H0 & _). pose proof (pow2_pos o ltac:(lia)).
  unfold buddy_free. apply wp_bind, wp_gets. apply wp_bind, wp_kassert.
  { apply orb_true_iff. destruct Hka as [Hka|Hka]; [left; by apply Z.leb_le|right; by apply Z.ltb_lt]. }
  apply wp_bind. unfold lock_acquire. apply wp_bind, wp_gets. rewrite Hlk, Z.eqb_refl.
  apply wp_modify, wp_bind. rewrite pfn_addr by (unfold PGSIZE in *; lia).
  eapply wp_merge_inner; [by apply buddy_inv_lock|exact HpA|]. intros s1 fl1 HI1 Hr1.
  unfold lock_release. apply wp_modify. eapply HQ; [by apply buddy_inv_lock|].
  rewrite (rest_lock _ _ 0 Hr1). unfold rest; cbn. by rewrite Hlk.
Qed.

(** What is freed right after its allocation leaves the free blocks as they
    were. *)
Lemma free_alloc_blocks s s' fl F A o p i :
  buddy_inv lo hi s fl F A -> coalesced F -> 0 <= o -> alloc_post lo hi s s' fl F A o p i ->
  free_spec (F ∖ {[(p, i)]} ∪ halves p o (Z.to_nat (i - o))) p o = F /\ (p, o) ∉ A.
Proof.
  intros HI HF Ho [Hoi Hhd _ _ _].
  assert (HpF : (p, i) ∈ F).
  { apply (li_link _ _ _ _ (bi_lists _ _ _ _ _ _ HI)).
    destruct (fl i); [done|]. injection Hhd as ->. set_solver. }
  destruct (bi_wf_free _ _ _ _ _ _ _ _ HI HpF) as (_ & Hal & _).
  set (n := Z.to_nat (i - o)). assert (Hi : i = o + Z.of_nat n) by lia.
  split.
  - unfold free_spec. rewrite coalesce_halves; rewrite <- ?Hi; cbn.
    + apply set_eq. intros b. destruct (decide (b = (p, i))); set_solver.
    + done.
    + done.
    + lia.
    + intros b Hb. apply elem_of_halves in Hb as (j & Hj & ->). intros Hin.
      assert (E : (p + 2 ^ j, j) = (p, i)).
      { eapply bi_start_unique; [exact HI|set_solver..|]. unfold in_block. cbn.
        pose proof (Z.pow_lt_mono_r 2 j i ltac:(lia) ltac:(lia) ltac:(lia)).
        pose proof (pow2_pos j ltac:(lia)). lia. }
      injection E. lia.
    + destruct (decide (i = MAX_ORDER - 1)) as [->|]; [left; lia|right].
      intros Hin. apply elem_of_difference in Hin as [Hin _].
      by apply (HF p i HpF); [lia|].
  - intros HpA. eapply bi_used_not_free; [exact HI|exact HpA|exact HpF].
Qed.
End free.
