(* ===== verification/BuddyInit.v ===== *)
(** * buddy_system_init: proofs

    The initial cut of the managed memory into blocks: the loop ends, the
    blocks tile the interval, every block is the largest the alignment and the
    remaining space allow, and no two free buddies are left apart. *)
From stdpp Require Import base gmap list strings.
From Stdlib Require Import ZArith Lia.
From S2P Require Import Prelude Riscv PmmState Dlist Buddy Tiles BuddyInv.

(** ** Trailing zeros *)
Lemma ctz_pos_spec p :
  0 <= ctz_pos p /\ Z.pos p mod 2 ^ ctz_pos p = 0 /\
  forall k, 0 <= k -> Z.pos p mod 2 ^ k = 0 -> k <= ctz_pos p.
Proof.
  assert (Hone : forall k, 0 <= k -> 2 ^ k = 1 \/ (2 <= 2 ^ k /\ 2 ^ k = 2 * 2 ^ (k - 1) /\ 0 < 2 ^ (k - 1))).
  { intros k Hk. destruct (decide (k = 0)) as [->|]; [by left|right].
    pose proof (pow2_pos (k - 1) ltac:(lia)).
    assert (2 ^ k = 2 * 2 ^ (k - 1)) by (rewrite <- Z.pow_succ_r by lia; f_equal; lia). lia. }
  induction p as [p IH|p (IH0 & IH1 & IH2)|]; cbn [ctz_pos].
  - split_and!; [lia|by rewrite Z.pow_0_r, Z.mod_1_r|]. intros k Hk Hm.
    destruct (Hone k Hk) as [E|(_ & E & Hp)].
    + destruct (decide (k = 0)); [lia|]. pose proof (Z.pow_gt_1 2 k). lia.
    + exfalso. apply Z.div_exact in Hm; [|lia]. rewrite E in Hm. lia.
  - rewrite Pos2Z.inj_xO. split_and!; [lia| |].
    + rewrite Z.pow_add_r, Z.pow_1_r, Z.mul_mod_distr_l by lia. lia.
    + intros k Hk Hm. destruct (decide (k = 0)); [lia|].
      destruct (Hone k Hk) as [E|(_ & E & Hp)]; [pose proof (Z.pow_gt_1 2 k); lia|].
      rewrite E, Z.mul_mod_distr_l in Hm by lia. specialize (IH2 (k - 1) ltac:(lia)). lia.
  - split_and!; [lia|done|]. intros k Hk Hm. destruct (Hone k Hk) as [E|(H2 & _)].
    + destruct (decide (k = 0)); [lia|]. pose proof (Z.pow_gt_1 2 k). lia.
    + rewrite Z.mod_small in Hm; lia.
Qed.

Lemma ctzll_spec x : 0 < x ->
  0 <= builtin_ctzll x /\ x mod 2 ^ builtin_ctzll x = 0 /\
  forall k, 0 <= k -> x mod 2 ^ k = 0 -> k <= builtin_ctzll x.
Proof. destruct x as [|p|p]; [lia| |lia]. intros _. apply ctz_pos_spec. Qed.

(** ** The order chosen for a block *)

(** The address of a page and the order at page [p] when pages end at [e]. *)
Definition page_addr (p : Z) : Z := p * PGSIZE + DRAM_BASE.
Definition order_at (p e : Z) : Z := init_order (page_addr p) (page_addr e).

Lemma dram_aligned p k : 0 <= k <= 19 -> (p + 2 ^ 19) mod 2 ^ k = p mod 2 ^ k.
Proof.
  intros Hk. rewrite Zplus_mod. rewrite (mod0_pow2_le (2 ^ 19) k 19) by (done || lia).
  rewrite Z.add_0_r. apply Z.mod_mod. pose proof (pow2_pos k). lia.
Qed.

Lemma order_at_spec p e :
  0 <= p < e -> page_addr e < 2 ^ 64 ->
  0 <= order_at p e < MAX_ORDER /\ p mod 2 ^ order_at p e = 0 /\ p + 2 ^ order_at p e <= e /\
  forall k, 0 <= k < MAX_ORDER -> p mod 2 ^ k = 0 -> p + 2 ^ k <= e -> k <= order_at p e.
Proof.
  intros Hp He. unfold order_at, init_order, page_addr, builtin_clzll, PGSIZE, DRAM_BASE in *.
  replace ((p * 4096 + 2147483648) / 4096) with (p + 2 ^ 19) by zlia.
  rewrite u64_id by (unfold is_u64; lia).
  replace ((e * 4096 + 2147483648 - (p * 4096 + 2147483648)) / 4096) with (e - p) by zlia.
  replace (63 - (63 - Z.log2 (e - p))) with (Z.log2 (e - p)) by lia.
  destruct (ctzll_spec (p + 2 ^ 19) ltac:(lia)) as (C0 & C1 & C2).
  set (al := builtin_ctzll (p + 2 ^ 19)) in *. clearbody al.
  destruct (Z.log2_spec (e - p) ltac:(lia)) as [L1 L2].
  pose proof (Z.log2_nonneg (e - p)) as L0.
  assert (L3 : forall k, 0 <= k -> 2 ^ k <= e - p -> k <= Z.log2 (e - p)).
  { intros k Hk Hle. apply Z.log2_le_pow2; lia. }
  set (lg := Z.log2 (e - p)) in *. clearbody lg.
  set (m := if al <? lg then al else lg).
  assert (Hm : m <= al /\ m <= lg /\ 0 <= m /\ forall k, k <= al -> k <= lg -> k <= m).
  { unfold m. destruct (Z.ltb_spec al lg); repeat split; lia. }
  clearbody m. destruct Hm as (M1 & M2 & M3 & M4).
  set (o := if MAX_ORDER <=? m then MAX_ORDER - 1 else m).
  assert (Ho : o <= m /\ 0 <= o < MAX_ORDER /\ forall k, k <= m -> k < MAX_ORDER -> k <= o).
  { unfold o, MAX_ORDER. destruct (Z.leb_spec 11 m); repeat split; lia. }
  clearbody o. destruct Ho as (O1 & O2 & O3). unfold MAX_ORDER in *.
  split_and!; [lia|lia| | |].
  - rewrite <- dram_aligned by lia. apply (mod0_pow2_le _ _ al); [lia|done].
  - pose proof (Z.pow_le_mono_r 2 o lg). lia.
  - intros k Hk Hpk Hek. apply O3; [|lia]. apply M4; [|apply L3; lia].
    apply C2; [lia|]. by rewrite dram_aligned by lia.
Qed.

(** Every block of [F] is as large as it can be. *)
Definition greedy (e : Z) (F : gset block) : Prop := forall p o, (p, o) ∈ F -> o = order_at p e.

Lemma greedy_coalesced lo e F :
  0 <= lo -> page_addr e < 2 ^ 64 -> tiles lo e F -> greedy e F -> coalesced F.
Proof.
  intros Hlo He HT HG p o Hp Ho Hb.
  destruct (tl_wf _ _ _ HT _ Hp) as (H1 & H2 & H3 & H4).
  destruct (tl_wf _ _ _ HT _ Hb) as (_ & _ & H5 & H6). cbn in *.
  pose proof (pow2_pos o ltac:(lia)) as Hpos.
  assert (Hpow : 2 ^ (o + 1) = 2 * 2 ^ o) by (rewrite Z.pow_add_r; lia).
  assert (Hleft : forall q, (q, o) ∈ F -> q mod 2 ^ (o + 1) = 0 -> lo <= q ->
             q + 2 ^ o + 2 ^ o <= e -> False).
  { intros q Hq Hal Hql Hqe. destruct (order_at_spec q e) as (_ & _ & _ & Hmax); [lia|done|].
    rewrite <- (HG _ _ Hq) in Hmax. specialize (Hmax (o + 1)). lia. }
  destruct (buddy_cases p o ltac:(lia) H2) as [(Hm & E & _)|(Hm & E & _)]; rewrite E in *.
  - apply (Hleft p); [done..|lia].
  - apply (Hleft (p - 2 ^ o)); [done| |lia|lia].
    rewrite Zminus_mod, Hm, (Z.mod_small (2 ^ o)), Z.sub_diag, Z.mod_0_l; lia.
Qed.

(** ** The loop *)
Lemma tiles_empty lo : tiles lo lo ∅.
Proof. split; [set_solver|set_solver|lia]. Qed.

Lemma tiles_extend lo hi X o :
  tiles lo hi X -> lo <= hi -> 0 <= o < MAX_ORDER -> hi mod 2 ^ o = 0 ->
  tiles lo (hi + 2 ^ o) (X ∪ {[(hi, o)]}).
Proof.
  intros HX Hle Ho Hal. pose proof (pow2_pos o ltac:(lia)) as Hpos.
  assert (Hin : forall b q, b ∈ X -> in_block q b -> q < hi).
  { intros b q Hb Hq. destruct (tl_wf _ _ _ HX b Hb) as (_ & _ & _ & ?).
    unfold in_block in Hq. lia. }
  split.
  - intros b Hb. apply elem_of_union in Hb as [Hb| ->%elem_of_singleton].
    + destruct (tl_wf _ _ _ HX b Hb) as (? & ? & ? & ?). repeat split; (done || lia).
    + cbn. repeat split; (done || lia).
  - intros b1 b2 q H1 H2 I1 I2.
    apply elem_of_union in H1 as [H1| ->%elem_of_singleton],
      H2 as [H2| ->%elem_of_singleton].
    + by apply (tl_disj _ _ _ HX _ _ q).
    + specialize (Hin _ _ H1 I1). unfold in_block in I2; cbn in I2. lia.
    + specialize (Hin _ _ H2 I2). unfold in_block in I1; cbn in I1. lia.
    + done.
  - intros q Hq. destruct (decide (q < hi)).
    + destruct (tl_cover _ _ _ HX q ltac:(lia)) as (b & ? & ?). exists b. set_solver.
    + exists (hi, o). split; [set_solver|]. unfold in_block; cbn. lia.
Qed.

Lemma wp_init_loop fuel lo e c s fl F Q :
  buddy_inv lo c s fl F ∅ -> lo <= c <= e -> e <= nr_pages s -> page_addr e < 2 ^ 64 ->
  e - c <= Z.of_nat fuel -> greedy e F ->
  (forall s' fl' F', buddy_inv lo e s' fl' F' ∅ -> greedy e F' -> rest s' = rest s -> Q tt s') ->
  wp (init_loop fuel (page_addr c) (page_addr e)) Q no_stop s.
Proof.
  revert c s fl F. induction fuel as [|fuel IH]; intros c s fl F HI Hc Hnr He Hf HG HQ;
    cbn [init_loop]; destruct (Z.ltb_spec (page_addr c) (page_addr e)) as [Hlt|Hge];
    unfold page_addr, PGSIZE, DRAM_BASE in Hlt || unfold page_addr, PGSIZE, DRAM_BASE in Hge; try lia.
  1, 3: apply wp_ret; replace c with e in * by lia; by eapply HQ.
  destruct (bi_range _ _ _ _ _ _ HI) as (H0 & _ & Hal).
  fold (order_at c e). destruct (order_at_spec c e) as (Ho & Hca & Hce & _); [lia|done|].
  set (o := order_at c e) in *. pose proof (pow2_pos o ltac:(lia)) as Hpos.
  assert (Hpfn : ADDR_TO_PFN (page_addr c) = c).
  { unfold ADDR_TO_PFN, page_addr, PGSIZE, DRAM_BASE in *. rewrite u64_id by (unfold is_u64; lia). zlia. }
  assert (Hnext : u64 (page_addr c + 2 ^ o * PGSIZE) = page_addr (c + 2 ^ o)).
  { unfold page_addr, PGSIZE, DRAM_BASE in *. rewrite u64_id by (unfold is_u64; lia). lia. }
  rewrite Hpfn, Hnext.
  assert (Hst : is_Some (pstatus s c)) by (apply (bi_pages _ _ _ _ _ _ HI); lia).
  destruct Hst as [st Hst].
  assert (HcF : forall k, (c, k) ∉ F).
  { intros k Hk. destruct (bi_wf_free _ _ _ _ _ _ _ _ HI Hk) as (? & _ & _ & ?).
    pose proof (pow2_pos k). lia. }
  apply (wp_upd_seq [with_is_head 1; with_is_free 1; with_order o] _ _ _ _ _ _ Hst).
  intros s1 S1. apply wp_bind.
  eapply (wp_li_add _ _ _ {[c]} c o); [|done|done|by eapply sf_self|done|done| |].
  { eapply li_status; [apply HI|done|exact S1|set_solver|set_solver]. }
  { cbn. apply Z.mod_small. unfold MAX_ORDER in *. lia. }
  intros s2 F2 L2. replace ({[c]} ∖ {[c]}) with (∅ : gset Z) in L2 by set_solver.
  assert (T2 : touches s s2 {[c]}).
  { eapply touches_trans; [eapply touches_st; [exact Hst|exact S1|set_solver]|].
    by apply touches_nodes. }
  pose proof (rest_nr _ _ (to_rest _ _ _ T2)) as Hnr2.
  eapply IH; [|lia|by rewrite Hnr2|done|lia| |].
  - split; [exact L2| |set_solver|set_solver| |rewrite Hnr2; split_and!; (done || lia)].
    + rewrite union_empty_r_L. apply tiles_extend; [|lia|done|done].
      pose proof (bi_tiles _ _ _ _ _ _ HI) as HT. by rewrite union_empty_r_L in HT.
    + intros p. rewrite (to_some _ _ _ T2), Hnr2. apply (bi_pages _ _ _ _ _ _ HI).
  - intros p k Hp. apply elem_of_union in Hp as [Hp|Hp]; [by apply HG|].
    apply elem_of_singleton in Hp. by injection Hp as -> ->.
  - intros s' fl' F' HI' HG' Hr'. eapply HQ; [exact HI'|done|]. rewrite Hr'. apply T2.
Qed.

(** ** The start: empty rings *)
Lemma order_range o : 0 <= o < MAX_ORDER ->
  o = 0 \/ o = 1 \/ o = 2 \/ o = 3 \/ o = 4 \/ o = 5 \/ o = 6 \/ o = 7 \/ o = 8 \/ o = 9 \/ o = 10.
Proof. unfold MAX_ORDER. lia. Qed.

Lemma init_heads_lookup o : 0 <= o < MAX_ORDER ->
  init_heads !! o = Some (mkNode (Some (NArea o)) (Some (NArea o))).
Proof. intros Ho. apply order_range in Ho. destruct_or! Ho; subst o; reflexivity. Qed.

Lemma init_inv lo s :
  free_area (main_buddy s) = init_heads ->
  (forall p st, pstatus s p = Some st -> is_free st <> 1) ->
  (forall p, is_Some (pstatus s p) <-> 0 <= p < nr_pages s) ->
  0 <= lo <= nr_pages s -> nr_pages s mod 2 ^ (MAX_ORDER - 1) = 0 ->
  buddy_inv lo lo s (fun _ => []) ∅ ∅.
Proof.
  intros Hfa Hfree Hpages Hlo Hal. split; [|by rewrite union_empty_r_L; apply tiles_empty|done|set_solver|done|lia].
  assert (Hnil : forall p : Z, p ∉ ([] : list Z)) by (intros p; apply not_elem_of_nil).
  split; [|intros p o; cbn; split; [intros []%Hnil|set_solver]|set_solver| |set_solver].
  - split; [|intros o; apply NoDup_nil_2|intros o1 o2 p []%Hnil]. intros o Ho. unfold ring, path, edge, nx, pv.
    cbn. rewrite Hfa, init_heads_lookup by done. done.
  - intros p st Hp Hf. by apply Hfree in Hp.
Qed.

Lemma wp_buddy_system_init lo e s Q :
  (forall p st, pstatus s p = Some st -> is_free st <> 1) ->
  (forall p, is_Some (pstatus s p) <-> 0 <= p < nr_pages s) ->
  0 <= lo <= e -> e <= nr_pages s -> nr_pages s mod 2 ^ (MAX_ORDER - 1) = 0 ->
  page_addr e < 2 ^ 63 ->
  (forall s' fl F, buddy_inv lo e s' fl F ∅ -> coalesced F -> rest s' = rest (set_buddy_lock 0 s) ->
     Q tt s') ->
  wp (buddy_system_init (page_addr lo) (page_addr e)) Q no_stop s.
Proof.
  intros Hfree Hpages Hlo He Hal Hmax HQ. unfold buddy_system_init.
  apply wp_bind, wp_modify, wp_bind, wp_modify.
  assert (E1 : ROUNDUP (page_addr lo) PGSIZE = page_addr lo).
  { rewrite ROUNDUP_page; unfold page_addr, PGSIZE, DRAM_BASE in *; [zlia|lia|lia]. }
  assert (E2 : ROUNDDOWN (page_addr e) PGSIZE = page_addr e).
  { rewrite ROUNDDOWN_page; unfold page_addr, PGSIZE, DRAM_BASE, is_u64 in *; [zlia|lia]. }
  rewrite E1, E2. set (s0 := set_buddy_lock 0 (set_free_area init_heads s)).
  eapply (wp_init_loop _ lo e lo s0); [|lia|done|lia| |intros p o Hp; by apply not_elem_of_empty in Hp|].
  - apply init_inv; [done|exact Hfree|exact Hpages|cbn; lia|done].
  - unfold page_addr, PGSIZE, DRAM_BASE. zlia.
  - intros s' fl F HI HG Hr. eapply HQ; [exact HI| |exact Hr].
    apply (greedy_coalesced lo e F); [lia|lia| |exact HG].
    pose proof (bi_tiles _ _ _ _ _ _ HI) as HT. by rewrite union_empty_r_L in HT.
Qed.
