(* ===== verification/PmmProofs.v ===== *)
(** * Page caches and pmm_init: invariant and specifications

    The entries of a cache below [count] are the cached pages; the entries
    from [count] on are stale.  [alloc_page] keeps this shape, [pfree] does
    not: it fills the entry above the first stale one. *)
From stdpp Require Import base gmap list strings.
From Stdlib Require Import ZArith Lia.
From S2P Require Import Prelude Riscv PmmState Dlist Buddy Pmm Tiles BuddyInv BuddyProofs BuddyFree BuddyInit.

(** Order-0 blocks at the pages [ps]. *)
Definition used (ps : list Z) : gset block := list_to_set ((fun p => (p, 0)) <$> ps).

Lemma elem_of_used ps b : b ∈ used ps <-> exists p, p ∈ ps /\ b = (p, 0).
Proof.
  unfold used. rewrite elem_of_list_to_set, list_elem_of_fmap. naive_solver.
Qed.

Lemma used_snoc ps p : used (ps ++ [p]) = used ps ∪ {[(p, 0)]}.
Proof. unfold used. rewrite fmap_app, list_to_set_app_L. cbn. set_solver. Qed.

(** Order-0 blocks that tile a range are as many as its pages. *)
Lemma used_tiles lo hi ps : tiles lo hi (used ps) -> hi - lo <= Z.of_nat (length ps).
Proof.
  intros HT. assert (Hsub : seqZ lo (hi - lo) ⊆+ ps).
  { apply NoDup_submseteq; [apply NoDup_seqZ|]. intros q Hq. apply elem_of_seqZ in Hq.
    destruct (tl_cover _ _ _ HT q ltac:(lia)) as (b & Hb & Hin).
    apply elem_of_used in Hb as (p & Hp & ->). unfold in_block in Hin; cbn in Hin.
    change (2 ^ 0) with 1 in Hin. by replace q with p by lia. }
  apply submseteq_length in Hsub. rewrite length_seqZ in Hsub. lia.
Qed.

(** An exhausted buddy system has no free block at all. *)
Lemma no_free_block s fl F E :
  lists_inv s fl F E -> (forall j, 0 <= j < MAX_ORDER -> fl j = []) -> F = ∅.
Proof.
  intros HL Hnil. apply set_eq. intros [p o]. split; [|set_solver]. intros Hp.
  pose proof (li_order _ _ _ _ HL _ _ Hp) as Ho. apply (li_link _ _ _ _ HL) in Hp.
  rewrite Hnil in Hp by done. by apply not_elem_of_nil in Hp.
Qed.

Section caches.
Context (lo hi : Z).
Implicit Types (s : pmm_state) (F A : gset block) (ps : list Z) (stale : list (option Z)).

Definition cache_of ps stale : percpu_cache_t :=
  mkCache ((Some <$> ps) ++ stale) (Z.of_nat (length ps)).

Record pmm_inv s fl F A ps stale : Prop := {
  pi_buddy : buddy_inv lo hi s fl F A;
  pi_coalesced : coalesced F;
  pi_lock : buddy_lock (main_buddy s) = 0;
  pi_cache : pcpu_caches s !! tp (cpu s) = Some (cache_of ps stale);
  pi_size : Z.of_nat (length ps + length stale) = PCPU_CACHE_SIZE;
  pi_used p : p ∈ ps -> (p, 0) ∈ A;
  pi_nodup : NoDup ps;
  pi_top : hi * PGSIZE + DRAM_BASE < 2 ^ 63
}.

Lemma buddy_inv_caches s c fl F A :
  buddy_inv lo hi s fl F A -> buddy_inv lo hi (set_pcpu_caches c s) fl F A.
Proof. apply buddy_inv_ext; done. Qed.

(** The next request takes a block that nobody uses. *)
Lemma alloc_post_facts s s' fl F A o p i :
  buddy_inv lo hi s fl F A -> coalesced F -> 0 <= o -> alloc_post lo hi s s' fl F A o p i ->
  (p, o) ∉ A /\ coalesced ((F ∖ {[(p, i)]}) ∪ halves p o (Z.to_nat (i - o))).
Proof.
  intros HI HF Ho HP. pose proof (ap_order _ _ _ _ _ _ _ _ _ _ HP) as Hoi.
  split; [by apply (free_alloc_blocks lo hi s s' fl F A o p i)|].
  apply (coalesced_halves lo hi F A); [apply HI|done| |lia|lia].
  apply (li_link _ _ _ _ (bi_lists _ _ _ _ _ _ HI)).
  pose proof (ap_head _ _ _ _ _ _ _ _ _ _ HP) as Hhd.
  destruct (fl i); [done|]. injection Hhd as ->. set_solver.
Qed.

Lemma cache_insert ps x stale p :
  <[length ps := Some p]> ((Some <$> ps) ++ x :: stale) = (Some <$> (ps ++ [p])) ++ stale.
Proof.
  rewrite <- (length_fmap Some ps) at 1. rewrite <- (Nat.add_0_r (length _)).
  rewrite insert_app_r, fmap_app, <- app_assoc. done.
Qed.

Lemma wp_store_obj id i p c s Q :
  pcpu_caches s !! id = Some c -> 0 <= i < PCPU_CACHE_SIZE ->
  Q tt (set_pcpu_caches (<[id := mkCache (<[Z.to_nat i := p]> (objs c)) (count c)]> (pcpu_caches s)) s) ->
  wp (store_obj id i p) Q no_stop s.
Proof.
  intros Hc Hi HQ. unfold store_obj. apply wp_bind. eapply wp_read_opt; [exact Hc|].
  rewrite (proj2 (Z.leb_le _ _)), (proj2 (Z.ltb_lt _ _)) by lia. cbn [andb].
  apply wp_modify, HQ.
Qed.

Lemma wp_store_count id v c s Q :
  pcpu_caches s !! id = Some c ->
  Q tt (set_pcpu_caches (<[id := mkCache (objs c) (u32 v)]> (pcpu_caches s)) s) ->
  wp (store_count id v) Q no_stop s.
Proof.
  intros Hc HQ. unfold store_count. apply wp_bind. eapply wp_read_opt; [exact Hc|].
  apply wp_modify, HQ.
Qed.
Lemma rest_caches s s' c : rest s' = rest s ->
  pcpu_caches s' = pcpu_caches s /\ cpu s' = cpu s /\ buddy_lock (main_buddy s') = buddy_lock (main_buddy s) /\
  rest (set_pcpu_caches c s') = rest (set_pcpu_caches c s).
Proof. unfold rest; cbn. intros [= -> -> -> -> -> -> -> -> ->]. done. Qed.

Lemma rest_unlocked s s' : buddy_lock (main_buddy s) = 0 ->
  rest s' = rest (set_buddy_lock 0 s) -> rest s' = rest s.
Proof. intros Hl ->. unfold rest; cbn. by rewrite Hl. Qed.

Lemma set_caches_twice c1 c2 s : set_pcpu_caches c2 (set_pcpu_caches c1 s) = set_pcpu_caches c2 s.
Proof. done. Qed.

(** An order-0 request while pages are left. *)
Lemma wp_buddy_alloc_page s fl F ps Q :
  buddy_inv lo hi s fl F (used ps) -> coalesced F -> buddy_lock (main_buddy s) = 0 ->
  Z.of_nat (length ps) < hi - lo ->
  (forall s' fl' F' p, buddy_inv lo hi s' fl' F' (used (ps ++ [p])) -> coalesced F' -> p ∉ ps ->
     lo <= p < hi -> rest s' = rest s -> Q (PFN_TO_ADDR p) s') ->
  wp (buddy_alloc 0) Q no_stop s.
Proof.
  intros HI HF Hl Hroom HQ.
  eapply wp_mono; [apply (wp_buddy_alloc lo hi s fl F (used ps) 0 HI); [done|done]|..].
  - intros a s' (p & k & -> & HP).
    destruct (alloc_post_facts _ _ _ _ _ _ _ _ HI HF (Z.le_refl 0) HP) as [Hp HF'].
    destruct (ap_inv _ _ _ _ _ _ _ _ _ _ HP) as (fl' & HI'). rewrite <- used_snoc in HI'.
    eapply HQ; [exact HI'|exact HF'| | |].
    + intros Hin. apply Hp, elem_of_used. by exists p.
    + assert (Hin : (p, 0) ∈ used (ps ++ [p])) by (apply elem_of_used; exists p; set_solver).
      destruct (bi_wf_used _ _ _ _ _ _ _ _ HI' Hin) as (_ & _ & ? & ?).
      change (2 ^ 0) with 1 in *. lia.
    + apply rest_unlocked; [done|]. exact (ap_rest _ _ _ _ _ _ _ _ _ _ HP).
  - intros h s' [_ Hnil]. pose proof (no_free_block _ _ _ _ (bi_lists _ _ _ _ _ _ HI) Hnil) as ->.
    pose proof (bi_tiles _ _ _ _ _ _ HI) as HT. rewrite union_empty_l_L in HT.
    apply used_tiles in HT. lia.
Qed.

Lemma wp_fill_loop n id s fl F ps stale cnt Q :
  buddy_inv lo hi s fl F (used ps) -> coalesced F -> buddy_lock (main_buddy s) = 0 ->
  pcpu_caches s !! id = Some (mkCache ((Some <$> ps) ++ stale) cnt) ->
  (n <= length stale)%nat -> Z.of_nat (length ps + length stale) = PCPU_CACHE_SIZE -> NoDup ps ->
  0 <= lo -> hi * PGSIZE + DRAM_BASE < 2 ^ 63 -> Z.of_nat (length ps + n) <= hi - lo ->
  (forall s' fl' F' ps' c, buddy_inv lo hi s' fl' F' (used ps') -> coalesced F' -> NoDup ps' ->
     length ps' = (length ps + n)%nat ->
     pcpu_caches s' !! id = Some (mkCache ((Some <$> ps') ++ drop n stale) cnt) ->
     rest s' = rest (set_pcpu_caches c s) -> Q tt s') ->
  wp (fill_loop n id (Z.of_nat (length ps))) Q no_stop s.
Proof.
  revert s fl F ps stale Q. induction n as [|n IH]; intros s fl F ps stale Q HI HF Hl Hc Hn Hsz Hnd Hlo Htop Hroom HQ;
    cbn [fill_loop].
  - apply wp_ret. apply (HQ s fl F ps (pcpu_caches s)); try done.
  - apply wp_bind. eapply wp_buddy_alloc_page; [exact HI|done|done|lia|].
    intros s1 fl1 F1 p HI1 HF1 Hp Hpr Hr1.
    destruct (rest_caches _ _ (pcpu_caches s) Hr1) as (Ec & _ & El & _).
    rewrite pfn_addr by (unfold PGSIZE in *; lia).
    destruct stale as [|x stale]; [cbn in Hn; lia|].
    apply wp_bind. eapply wp_store_obj; [by rewrite Ec|unfold PCPU_CACHE_SIZE in *; cbn in *; lia|].
    cbn [objs count]. rewrite Nat2Z.id, cache_insert.
    assert (Elen : Z.of_nat (length ps) + 1 = Z.of_nat (length (ps ++ [p]))) by (rewrite length_app; cbn; lia).
    rewrite Elen. eapply (IH _ fl1 F1 (ps ++ [p]) stale).
    + by apply buddy_inv_caches.
    + done.
    + cbn. congruence.
    + cbn. by rewrite lookup_insert_eq.
    + cbn in Hn. lia.
    + rewrite length_app. cbn in *. lia.
    + apply NoDup_app. split_and!; [done| |apply NoDup_singleton]. intros q Hq ->%list_elem_of_singleton. done.
    + done.
    + done.
    + rewrite length_app. cbn. lia.
    + intros s' fl' F' ps' c HI' HF' Hnd' Hlen' Hc' Hr'. apply (HQ s' fl' F' ps' c); try done.
      * rewrite Hlen', length_app. cbn. lia.
      * rewrite Hr', set_caches_twice. by destruct (rest_caches _ _ c Hr1) as (_ & _ & _ & ->).
Qed.
End caches.

(** ** pmm_init *)
Lemma init_pages_lookup n i p :
  init_pages n i !! p = if decide (i <= p < i + Z.of_nat n) then Some fresh_page else None.
Proof.
  revert i. induction n as [|n IH]; intros i; cbn [init_pages].
  - rewrite lookup_empty. case_decide; [lia|done].
  - destruct (decide (i = p)) as [->|Hne].
    + rewrite lookup_insert_eq. case_decide; [done|lia].
    + rewrite lookup_insert_ne, IH by done. repeat case_decide; (done || lia).
Qed.

(** The kernel image of [_end - KERN_BASE] bytes, the page descriptors and
    PCPU_CACHE_SIZE pages fit in the managed memory, which is a multiple of
    the largest block. *)
Record boot_fits (s : pmm_state) (_end : Z) : Prop := {
  bf_end : KERN_BASE <= _end;
  bf_mem : 0 <= MIN PKE_MAX_ALLOWABLE_RAM (g_mem_size s);
  bf_align : MIN PKE_MAX_ALLOWABLE_RAM (g_mem_size s) mod (PGSIZE * 2 ^ (MAX_ORDER - 1)) = 0;
  bf_room : _end + 7 + MIN PKE_MAX_ALLOWABLE_RAM (g_mem_size s) / PGSIZE * sizeof_page_t + (PGSIZE - 1)
            + PCPU_CACHE_SIZE * PGSIZE <= DRAM_BASE + MIN PKE_MAX_ALLOWABLE_RAM (g_mem_size s)
}.

(** First page of the buddy system: the first one above the descriptors. *)
Definition first_page (s : pmm_state) (_end : Z) : Z :=
  let mem := MIN PKE_MAX_ALLOWABLE_RAM (g_mem_size s) in
  (ROUNDUP (ROUNDUP _end 8 + mem / PGSIZE * sizeof_page_t) PGSIZE - DRAM_BASE) / PGSIZE.

Lemma boot_arith s _end :
  boot_fits s _end ->
  let mem := MIN PKE_MAX_ALLOWABLE_RAM (g_mem_size s) in
  let nr := mem / PGSIZE in
  let lo := first_page s _end in
  mem <= PKE_MAX_ALLOWABLE_RAM /\ mem = nr * PGSIZE /\ nr mod 2 ^ (MAX_ORDER - 1) = 0 /\
  u64 (_end - KERN_BASE) = _end - KERN_BASE /\ _end - KERN_BASE <= mem /\
  u64 (mem + DRAM_BASE) = mem + DRAM_BASE /\
  ROUNDDOWN (mem + DRAM_BASE) PGSIZE = page_addr nr /\
  ROUNDUP (u64 (nr * sizeof_page_t + ROUNDUP _end 8)) PGSIZE = page_addr lo /\
  0 <= lo /\ lo + PCPU_CACHE_SIZE <= nr /\ _end + nr * sizeof_page_t <= page_addr lo.
Proof.
  intros [H1 H2 H3 H4] mem nr lo. fold mem in H2, H3, H4. fold nr in H4.
  assert (Hm : mem <= PKE_MAX_ALLOWABLE_RAM).
  { unfold mem, MIN. destruct (Z.ltb_spec PKE_MAX_ALLOWABLE_RAM (g_mem_size s)); lia. }
  assert (Elo : lo = (ROUNDUP (ROUNDUP _end 8 + nr * 24) PGSIZE - DRAM_BASE) / PGSIZE) by done.
  assert (Hnr : nr = mem / PGSIZE) by done. clearbody lo nr mem.
  unfold PKE_MAX_ALLOWABLE_RAM, KERN_BASE, DRAM_BASE, sizeof_page_t, PCPU_CACHE_SIZE in *.
  change (PGSIZE * 2 ^ (MAX_ORDER - 1)) with 4194304 in H3.
  change (2 ^ (MAX_ORDER - 1)) with 1024.
  assert (Hmem : mem = nr * 4096 /\ nr mod 1024 = 0) by (unfold PGSIZE in Hnr; zlia).
  destruct Hmem as [Hmem Hnr2]. clear Hnr. unfold PGSIZE in H4.
  pose proof (ROUNDUP_8 _end ltac:(lia) ltac:(lia)) as E8.
  assert (B8 : _end <= ROUNDUP _end 8 <= _end + 7) by zlia.
  assert (Ebs : u64 (nr * 24 + ROUNDUP _end 8) = ROUNDUP _end 8 + nr * 24).
  { rewrite u64_id; [lia|]. unfold is_u64. lia. }
  destruct (ROUNDUP_bounds (ROUNDUP _end 8 + nr * 24)) as [B1 B2]; [lia|unfold PGSIZE; lia|].
  set (b := ROUNDUP (ROUNDUP _end 8 + nr * 24) PGSIZE) in *.
  assert (Eb : b = page_addr lo) by (unfold page_addr, DRAM_BASE, PGSIZE in *; zlia).
  rewrite Ebs. fold b. rewrite Eb. unfold page_addr, PGSIZE, DRAM_BASE in Eb, B1. split_and!; try done; try lia.
  - rewrite u64_id; [done|unfold is_u64; lia].
  - rewrite u64_id; [done|unfold is_u64; lia].
  - rewrite ROUNDDOWN_page by (unfold is_u64; lia). unfold page_addr, PGSIZE, DRAM_BASE. zlia.
  - unfold page_addr, PGSIZE, DRAM_BASE. lia.
Qed.

(** Filling the one cache. *)
Lemma wp_fill_first lo hi s fl F c0 cnt Q :
  buddy_inv lo hi s fl F ∅ -> coalesced F -> buddy_lock (main_buddy s) = 0 -> pcpu_caches s !! 0 = Some (mkCache c0 cnt) ->
  Z.of_nat (length c0) = PCPU_CACHE_SIZE -> tp (cpu s) = 0 -> 0 <= lo -> hi * PGSIZE + DRAM_BASE < 2 ^ 63 -> PCPU_CACHE_SIZE <= hi - lo ->
  (forall s' fl' F' ps, pmm_inv lo hi s' fl' F' (used ps) ps [] ->
     (buddy_start s', buddy_end s', g_mem_size s', cpu s') = (buddy_start s, buddy_end s, g_mem_size s, cpu s) -> Q tt s') ->
  wp (fill_caches 1 0) Q no_stop s.
Proof.
  intros HI HF Hl Hc Hlen Htp Hlo Htop Hroom HQ. cbn [fill_caches]. apply wp_bind. change 0 with (Z.of_nat (length (@nil Z))) at 2.
  eapply (wp_fill_loop lo hi _ _ s fl F []); [exact HI|exact HF|exact Hl|exact Hc| | |apply NoDup_nil_2|exact Hlo|exact Htop| |].
  1-3: unfold PCPU_CACHE_SIZE in *; cbn [length]; lia.
  intros s2 fl2 F2 ps c HI2 HF2 Hnd Hl2 Hc2 Hr2. apply wp_bind. eapply wp_store_count; [exact Hc2|]. apply wp_ret.
  rewrite drop_ge by (unfold PCPU_CACHE_SIZE in *; lia). cbn [objs]. change (u32 PCPU_CACHE_SIZE) with PCPU_CACHE_SIZE.
  cbn in Hl2. unfold rest in Hr2. cbn in Hr2. injection Hr2 as S1 S2 S3 S4 S5 S6 S7 S8 S9.
  apply (HQ _ fl2 F2 ps); [split|cbn; congruence].
  - by apply buddy_inv_caches.
  - done.
  - cbn. congruence.
  - cbn. rewrite S9, Htp, lookup_insert_eq. unfold cache_of. by rewrite Hl2.
  - by rewrite Hl2.
  - intros p Hp. apply elem_of_used. by exists p.
  - done.
  - done.
Qed.

Lemma wp_pmm_init s _end c0 cnt Q :
  boot_fits s _end -> pcpu_caches s !! 0 = Some (mkCache c0 cnt) ->
  Z.of_nat (length c0) = PCPU_CACHE_SIZE -> tp (cpu s) = 0 ->
  (forall s' fl F ps,
     let mem := MIN PKE_MAX_ALLOWABLE_RAM (g_mem_size s) in
     let lo := first_page s _end in
     pmm_inv lo (mem / PGSIZE) s' fl F (used ps) ps [] ->
     buddy_start s' = page_addr lo -> buddy_end s' = page_addr (mem / PGSIZE) ->
     g_mem_size s' = mem -> cpu s' = cpu s -> Q tt s') ->
  wp (pmm_init _end) Q no_stop s.
Proof.
  intros HB Hc Hlen Htp HQ. cbv zeta in HQ.
  pose proof (boot_arith s _end HB) as HA. cbv zeta in HA.
  destruct HA as (A1 & A2 & A3 & A4 & A5 & A6 & A7 & A8 & A9 & A10 & A11).
  unfold pmm_init. apply wp_bind, wp_gets. unfold id. apply wp_bind, wp_modify. cbv zeta.
  set (mem := MIN PKE_MAX_ALLOWABLE_RAM (g_mem_size s)) in *.
  set (nr := mem / PGSIZE) in *. set (lo := first_page s _end) in *.
  rewrite A4, A6, A7, A8. rewrite (proj2 (Z.ltb_ge _ _)) by lia.
  apply wp_bind, wp_ret, wp_bind, wp_modify, wp_bind, wp_modify, wp_bind, wp_modify, wp_bind.
  match goal with |- wp _ _ _ ?x => set (s0 := x) end.
  assert (Hps : forall p, pstatus s0 p = if decide (0 <= p < nr) then Some (with_alloc 3 zero_status) else None).
  { intros p. unfold pstatus, s0; cbn. rewrite init_pages_lookup.
    assert (0 <= nr) by (unfold PGSIZE in *; lia).
    rewrite Z2Nat.id, Z.add_0_l by done. by case_decide. }
  assert (Htop : page_addr nr < 2 ^ 63).
  { unfold page_addr, PKE_MAX_ALLOWABLE_RAM, PGSIZE, DRAM_BASE in *. lia. }
  eapply (wp_buddy_system_init lo nr s0).
  - intros p st. rewrite Hps. case_decide; [|done]. intros [= <-]. done.
  - intros p. rewrite Hps. cbn. case_decide; split; try done; by intros [].
  - unfold PCPU_CACHE_SIZE in *. lia.
  - cbn. lia.
  - done.
  - done.
  - intros s1 fl F HI HF Hr. change (Z.to_nat NCPU) with 1%nat. unfold rest in Hr. cbn in Hr. injection Hr as R1 R2 R3 R4 R5 R6 R7 R8 R9.
    eapply wp_fill_first; [exact HI|exact HF|exact R2|by rewrite R3|exact Hlen|by rewrite R9|done|done|unfold PCPU_CACHE_SIZE in *; lia|].
    intros s2 fl2 F2 ps HI2 Hsame. injection Hsame as S6 S7 S8 S9. apply (HQ s2 fl2 F2 ps); [exact HI2|congruence..].
Qed.

(** ** alloc_page and pfree *)
Section pages.
Context (lo hi : Z).
Implicit Types (s : pmm_state) (F A : gset block) (ps : list Z) (stale : list (option Z)).

Definition set_cache s ps stale : pmm_state :=
  set_pcpu_caches (<[tp (cpu s) := cache_of ps stale]> (pcpu_caches s)) s.

Lemma run_alloc_page s ps p stale :
  pcpu_caches s !! tp (cpu s) = Some (cache_of (ps ++ [p]) stale) ->
  Z.of_nat (length (ps ++ [p]) + length stale) = PCPU_CACHE_SIZE ->
  alloc_page s = Ret (PFN_TO_ADDR p) (set_cache s ps (Some p :: stale)).
Proof.
  intros Hc Hsz. unfold PCPU_CACHE_SIZE in Hsz. rewrite length_app in Hsz. cbn in Hsz.
  assert (Hn : Z.of_nat (length (ps ++ [p])) = Z.of_nat (length ps) + 1) by (rewrite length_app; cbn; lia).
  unfold alloc_page, store_count, load_obj, load_cache, store_cache, read_tp, bind, read_opt, gets, modify.
  cbn beta iota zeta. rewrite !Hc. cbn [count cache_of]. rewrite !Hn.
  rewrite (proj2 (Z.eqb_neq _ _)) by lia. unfold ret. cbn beta iota. rewrite !Hc. cbn [count objs cache_of].
  rewrite !Hn.
  replace (Z.of_nat (length ps) + 1 - 1) with (Z.of_nat (length ps)) by lia.
  rewrite u32_id by lia. cbn [set_pcpu_caches pcpu_caches]. rewrite lookup_insert_eq. cbn [objs].
  rewrite (proj2 (Z.ltb_ge _ _)) by lia. rewrite Nat2Z.id, fmap_app, <- app_assoc.
  rewrite lookup_app_r by (rewrite length_fmap; lia). rewrite length_fmap, Nat.sub_diag. cbn.
  unfold set_cache, cache_of. done.
Qed.
(** No entry left: the hart takes [buddy_lock] and waits for it again
    inside buddy_alloc. *)
Lemma wp_lock_taken s (Q : unit -> pmm_state -> Prop) :
  (buddy_lock (main_buddy s) = 0 -> Q tt (set_buddy_lock 1 s)) ->
  wp lock_acquire Q (fun h _ => h = Spins "main_buddy.buddy_lock") s.
Proof.
  intros HQ. unfold lock_acquire. apply wp_bind, wp_gets.
  destruct (Z.eqb_spec (buddy_lock (main_buddy s)) 0); [by apply wp_modify, HQ|by apply wp_halt].
Qed.

Lemma run_alloc_page_empty s stale :
  pcpu_caches s !! tp (cpu s) = Some (cache_of [] stale) ->
  wp alloc_page (fun _ _ => False) (fun h _ => h = Spins "main_buddy.buddy_lock") s.
Proof.
  intros Hc. unfold alloc_page, read_tp. apply wp_bind, wp_gets, wp_bind.
  eapply wp_read_opt; [exact Hc|]. change (count (cache_of [] stale) =? 0) with true. cbv iota.
  apply wp_bind, wp_bind, wp_lock_taken. intros _. cbn [refill_loop].
  apply wp_bind, wp_bind. unfold buddy_alloc. apply wp_bind, wp_kassert; [done|].
  apply wp_bind, wp_lock_taken. done.
Qed.

(** Interrupts are restored to what they were. *)
Lemma irq_roundtrip h :
  let '(fl, h') := disable_irqsave h in enable_irqrestore fl h' = h.
Proof.
  destruct h as [tp ss sa sv se sc st]. unfold disable_irqsave, enable_irqrestore, set_sstatus. cbn.
  assert (H : forall i, 0 <= i -> Z.testbit 2 i = bool_decide (i = 1)).
  { intros i Hi. change 2 with (2 ^ 1). by apply testbit_pow2. }
  destruct (Z.eqb_spec (Z.land ss 2) 0) as [E|E]; f_equal; apply Z.bits_inj'; intros i Hi.
  - rewrite Z.ldiff_spec, H by done. case_bool_decide as Hd; [|by rewrite andb_true_r].
    subst i. assert (Z.testbit (Z.land ss 2) 1 = false) as Hz by by rewrite E, Z.bits_0.
    rewrite Z.land_spec, H, bool_decide_true, andb_true_r in Hz by done. by rewrite Hz.
  - rewrite Z.lor_spec, Z.ldiff_spec, H by done. case_bool_decide as Hd; cycle 1.
    + by rewrite andb_true_r, orb_false_r.
    + subst i. rewrite orb_true_r. destruct (Z.testbit ss 1) eqn:Hb; [done|]. exfalso. apply E.
      apply Z.bits_inj'. intros i Hi'. rewrite Z.land_spec, H, Z.bits_0 by done.
      case_bool_decide; [|by rewrite andb_false_r]. subst i. by rewrite Hb.
Qed.

Lemma set_cpu_self s : set_cpu (cpu s) s = s.
Proof. by destruct s. Qed.

(** A block of order 0 into a cache with room: the entry above the first
    stale one takes the page, and the stale one becomes cached. *)
Lemma wp_irq_save s (Q : Z -> pmm_state -> Prop) E :
  (forall fl h', disable_irqsave (cpu s) = (fl, h') -> tp h' = tp (cpu s) ->
     enable_irqrestore fl h' = cpu s -> Q fl (set_cpu h' s)) -> wp irq_save Q E s.
Proof.
  intros HQ. unfold irq_save. apply wp_bind, wp_gets.
  pose proof (irq_roundtrip (cpu s)) as Hr.
  destruct (disable_irqsave (cpu s)) as [fl h'] eqn:E0. apply wp_bind, wp_modify, wp_ret.
  apply HQ; [done| |done]. unfold disable_irqsave in E0. by injection E0 as <- <-.
Qed.

Lemma insert_second ps q x stale p :
  <[Z.to_nat (Z.of_nat (length ps) + 1) := Some p]> ((Some <$> ps) ++ Some q :: x :: stale) =
  (Some <$> (ps ++ [q])) ++ Some p :: stale.
Proof.
  rewrite fmap_app, <- app_assoc. cbn.
  replace (Z.to_nat (Z.of_nat (length ps) + 1)) with (length (Some <$> ps) + 1)%nat
    by (rewrite length_fmap; lia).
  by rewrite insert_app_r.
Qed.

Lemma wp_pfree s addr ps q x stale st (Q : unit -> pmm_state -> Prop) :
  pstatus s (ADDR_TO_PFN addr) = Some st -> order st = 0 ->
  pcpu_caches s !! tp (cpu s) = Some (cache_of ps (Some q :: x :: stale)) ->
  Z.of_nat (length ps + length (Some q :: x :: stale)) = PCPU_CACHE_SIZE ->
  Q tt (set_cache s (ps ++ [q]) (Some (ADDR_TO_PFN addr) :: stale)) ->
  wp (pfree addr) Q no_stop s.
Proof.
  intros Hst Ho Hc Hsz HQ. unfold PCPU_CACHE_SIZE in Hsz. cbn in Hsz.
  unfold pfree. apply wp_bind. eapply wp_read_opt; [exact Hst|]. rewrite Ho. cbn [Z.eqb negb].
  apply wp_bind, wp_irq_save. intros fl h' _ Etp Er. unfold read_tp.
  apply wp_bind, wp_gets. cbn [cpu set_cpu]. rewrite Etp.
  apply wp_bind. eapply wp_read_opt; [exact Hc|].
  rewrite (proj2 (Z.eqb_neq _ _)) by (unfold PCPU_CACHE_SIZE; cbn; lia).
  apply wp_bind, wp_ret, wp_bind. eapply wp_read_opt; [exact Hc|].
  apply wp_bind. eapply wp_store_count; [exact Hc|].
  apply wp_bind. eapply wp_store_obj.
  { cbn. apply lookup_insert_eq. }
  { cbn. rewrite u32_id by lia. unfold PCPU_CACHE_SIZE. lia. }
  cbn [objs count cache_of]. rewrite u32_id, insert_second by lia.
  unfold irq_restore. apply wp_bind, wp_gets. cbn. rewrite Er. apply wp_modify. cbn.
  rewrite insert_insert_eq. unfold set_cache, cache_of in HQ. rewrite length_app in HQ. cbn in HQ.
  replace (Z.of_nat (length ps + 1)) with (Z.of_nat (length ps) + 1) in HQ by lia. exact HQ.
Qed.
(** One entry of room: the store goes past the array. *)
Lemma wp_pfree_last s addr ps x st :
  pstatus s (ADDR_TO_PFN addr) = Some st -> order st = 0 ->
  pcpu_caches s !! tp (cpu s) = Some (cache_of ps [x]) ->
  Z.of_nat (length ps + 1) = PCPU_CACHE_SIZE ->
  wp (pfree addr) (fun _ _ => False) (fun h _ => h = WildAccess) s.
Proof.
  intros Hst Ho Hc Hsz. unfold PCPU_CACHE_SIZE in Hsz.
  unfold pfree. apply wp_bind. eapply wp_read_opt; [exact Hst|]. rewrite Ho. cbn [Z.eqb negb].
  apply wp_bind, wp_irq_save. intros fl h' _ Etp Er. unfold read_tp.
  apply wp_bind, wp_gets. cbn [cpu set_cpu]. rewrite Etp.
  apply wp_bind. eapply wp_read_opt; [exact Hc|].
  rewrite (proj2 (Z.eqb_neq _ _)) by (unfold PCPU_CACHE_SIZE; cbn; lia).
  apply wp_bind, wp_ret, wp_bind. eapply wp_read_opt; [exact Hc|].
  apply wp_bind, wp_no_stop. eapply wp_store_count; [exact Hc|].
  apply wp_bind. unfold store_obj. apply wp_bind. eapply wp_read_opt; [cbn; apply lookup_insert_eq|].
  cbn [count cache_of]. rewrite u32_id by lia.
  rewrite (proj2 (Z.ltb_ge _ _)) by (unfold PCPU_CACHE_SIZE; lia). rewrite andb_false_r. by apply wp_halt.
Qed.

(** Sixteen entries back to the buddy system. *)
Lemma wp_flush_loop ps2 : forall s fl F A ps1 stale Q,
  buddy_inv lo hi s fl F A -> NoDup ps2 -> (forall p, p ∈ ps2 -> (p, 0) ∈ A) ->
  pcpu_caches s !! tp (cpu s) = Some (cache_of (ps1 ++ ps2) stale) ->
  Z.of_nat (length (ps1 ++ ps2)) <= PCPU_CACHE_SIZE ->
  (forall s' fl' c, buddy_inv lo hi s' fl' (foldr (fun p F => free_spec F p 0) F ps2) (A ∖ used ps2) ->
     pcpu_caches s' !! tp (cpu s) = Some (cache_of ps1 ((Some <$> ps2) ++ stale)) ->
     rest s' = rest (set_pcpu_caches c s) -> Q tt s') ->
  wp (flush_loop (length ps2) (tp (cpu s))) Q no_stop s.
Proof.
  induction ps2 as [|p ps2 IH] using rev_ind; intros s fl F A ps1 stale Q HI HN HA Hc Hsz HQ.
  - apply wp_ret. rewrite app_nil_r in Hc. eapply (HQ s fl (pcpu_caches s)); [|done|by destruct s].
    cbn. by replace (A ∖ used []) with A by (unfold used; cbn; set_solver).
  - unfold PCPU_CACHE_SIZE in Hsz. rewrite app_assoc in *. set (ps := ps1 ++ ps2) in *.
    apply NoDup_app in HN as (HN & Hp & _).
    assert (Hlen : length (ps2 ++ [p]) = S (length ps2)) by (rewrite length_app; cbn; lia).
    rewrite Hlen. cbn [flush_loop].
    assert (Hn : Z.of_nat (length (ps ++ [p])) = Z.of_nat (length ps) + 1) by (rewrite length_app; cbn; lia).
    apply wp_bind. eapply wp_read_opt; [exact Hc|]. apply wp_bind. eapply wp_store_count; [exact Hc|].
    cbn [count cache_of objs]. rewrite Hn. replace (Z.of_nat (length ps) + 1 - 1) with (Z.of_nat (length ps)) by lia.
    rewrite u32_id by lia. set (c1 := <[_ := _]> (pcpu_caches s)).
    assert (Hc1 : c1 !! tp (cpu s) = Some (cache_of ps (Some p :: stale))).
    { unfold c1. rewrite lookup_insert_eq. unfold cache_of. by rewrite fmap_app, <- app_assoc. }
    apply wp_bind. unfold load_obj. apply wp_bind. eapply wp_read_opt; [exact Hc1|].
    rewrite (proj2 (Z.ltb_ge _ _)) by lia. rewrite Nat2Z.id.
    eapply (wp_read_opt _ (Some p)).
    { cbn [objs cache_of]. rewrite lookup_app_r by (rewrite length_fmap; lia).
      by rewrite length_fmap, Nat.sub_diag. }
    apply wp_bind. eapply wp_merge_inner; [by apply buddy_inv_caches|apply HA; set_solver|].
    intros s2 fl2 HI2 Hr2. destruct (rest_caches _ _ ∅ Hr2) as (Ec & Ecpu & _). cbn in Ec, Ecpu.
    rewrite <- Ecpu. eapply (IH s2 fl2); [exact HI2|done| |by rewrite Ec, Ecpu| |].
    + intros q Hq. apply elem_of_difference. split; [apply HA; set_solver|].
      intros E%elem_of_singleton. injection E as ->. apply (Hp p Hq). set_solver.
    + unfold PCPU_CACHE_SIZE. unfold ps in Hn, Hsz. lia.
    + intros s' fl' c HI' Hc' Hr'. rewrite Ecpu in Hc'. eapply (HQ s' fl' c).
      * rewrite foldr_app. cbn [foldr].
        replace (A ∖ used (ps2 ++ [p])) with (A ∖ {[(p, 0)]} ∖ used ps2); [exact HI'|].
        rewrite used_snoc. set_solver.
      * rewrite Hc', fmap_app, <- app_assoc. done.
      * rewrite Hr'. destruct (rest_caches _ _ c Hr2) as (_ & _ & _ & ->). done.
Qed.
End pages.
