(* ===== verification/PmmSpec.v ===== *)
(** * The physical memory manager: contract and theorems

    The abstract allocator: a set of free blocks and a set of blocks in use
    that tile the managed pages.  [alloc_step] and [free_spec] (Tiles.v) say
    what one request does to it; the theorems say that kernel/pmm.c does just
    that, and what its page caches do. *)
From stdpp Require Import base gmap list strings.
From Stdlib Require Import ZArith Lia.
From S2P Require Import Prelude Riscv PmmState Dlist Buddy Pmm Tiles BuddyInv BuddyProofs BuddyFree BuddyInit PmmProofs.

(** A request for order [o] takes a smallest free block that is large enough
    and splits off its first [2^o] pages. *)
Inductive alloc_step (F A : gset block) (o : Z) : Z -> gset block -> gset block -> Prop :=
  | alloc_step_intro p i :
      (p, i) ∈ F -> o <= i -> (forall q j, (q, j) ∈ F -> o <= j -> i <= j) ->
      alloc_step F A o p ((F ∖ {[(p, i)]}) ∪ halves p o (Z.to_nat (i - o))) (A ∪ {[(p, o)]}).

Definition oom : stop := Panicked "buddy_alloc : Out of required size of memory!".

(** ** A concrete machine for the examples: 8 MiB, a 64 KiB kernel image *)
Definition ex_end : Z := KERN_BASE + 65536.
Definition ex_boot : pmm_state := boot_state (2 ^ 23).
Definition ex_pmm : pmm_state := run_state (pmm_init ex_end) ex_boot.
Definition ex_lo : Z := first_page ex_boot ex_end.

Lemma ex_boot_fits : boot_fits ex_boot ex_end.
Proof. split; vm_compute; congruence. Qed.

Lemma ex_pmm_inv : exists fl F ps, pmm_inv ex_lo 2048 ex_pmm fl F (used ps) ps [].
Proof.
  apply (wp_run_state (pmm_init ex_end)
           (fun s' => exists fl F ps, pmm_inv ex_lo 2048 s' fl F (used ps) ps [])).
  eapply wp_pmm_init; [exact ex_boot_fits|reflexivity|reflexivity|reflexivity|].
  intros s' fl F ps mem lo HI _ _ _ _. exists fl, F, ps.
  assert (E : mem / PGSIZE = 2048) by (vm_compute; reflexivity).
  rewrite E in HI. exact HI.
Qed.

Lemma ex_pmm_bounds : buddy_start ex_pmm <= buddy_end ex_pmm.
Proof. vm_compute. congruence. Qed.
Opaque ex_pmm.

Section contract.
Context (lo hi : Z).
Implicit Types (s : pmm_state) (F A : gset block).

(** The block that buddy_alloc's scan meets first is a smallest one. *)
Lemma alloc_post_step s s' fl F A o p i :
  buddy_inv lo hi s fl F A -> 0 <= o -> alloc_post lo hi s s' fl F A o p i ->
  alloc_step F A o p ((F ∖ {[(p, i)]}) ∪ halves p o (Z.to_nat (i - o))) (A ∪ {[(p, o)]}).
Proof.
  intros HI Ho [H1 H2 H3 _ _]. pose proof (bi_lists _ _ _ _ _ _ HI) as HL. constructor.
  - apply (li_link _ _ _ _ HL). destruct (fl i); [done|]. injection H2 as ->. set_solver.
  - lia.
  - intros q j Hq Hj. destruct (Z_lt_le_dec j i) as [Hlt|]; [|done].
    apply (li_link _ _ _ _ HL) in Hq. rewrite H3 in Hq by lia. by apply not_elem_of_nil in Hq.
Qed.

Lemma run_buddy_alloc s fl F A o :
  buddy_inv lo hi s fl F A -> 0 <= o < MAX_ORDER -> buddy_lock (main_buddy s) = 0 ->
  wp (buddy_alloc o)
     (fun a s' => exists p F' A' fl', a = PFN_TO_ADDR p /\ alloc_step F A o p F' A' /\
        buddy_inv lo hi s' fl' F' A' /\ rest s' = rest s)
     (fun h _ => h = oom /\ forall q j, (q, j) ∈ F -> j < o) s.
Proof.
  intros HI Ho Hl. eapply wp_mono; [by apply (wp_buddy_alloc lo hi s fl F A o)|..].
  - intros a s' (p & k & -> & HP). destruct (ap_inv _ _ _ _ _ _ _ _ _ _ HP) as (fl' & HI').
    exists p, ((F ∖ {[(p, k)]}) ∪ halves p o (Z.to_nat (k - o))), (A ∪ {[(p, o)]}), fl'.
    split_and!; [done|by eapply alloc_post_step; [..|exact HP]; [|lia]|done|].
    apply rest_unlocked; [done|]. exact (ap_rest _ _ _ _ _ _ _ _ _ _ HP).
  - intros h s' [-> Hnil]. split; [done|]. intros q j Hq.
    destruct (Z_lt_le_dec j o) as [|Hge]; [done|exfalso].
    pose proof (bi_lists _ _ _ _ _ _ HI) as HL. pose proof (li_order _ _ _ _ HL _ _ Hq).
    apply (li_link _ _ _ _ HL) in Hq. rewrite Hnil in Hq by lia. by apply not_elem_of_nil in Hq.
Qed.

(** What a step promises the caller: an aligned block inside the range that
    meets no block in use, and coalescing kept. *)
Lemma alloc_step_safe F A o p F' A' :
  tiles lo hi (F ∪ A) -> F ## A -> 0 <= o -> alloc_step F A o p F' A' ->
  A' = A ∪ {[(p, o)]} /\ (p, o) ∉ A /\ p mod 2 ^ o = 0 /\ lo <= p /\ p + 2 ^ o <= hi /\
  (forall b q, b ∈ A -> in_block q b -> ~ in_block q (p, o)) /\
  (coalesced F -> coalesced F').
Proof.
  intros HT Hd Ho H. destruct H as [p i Hp Hi Hmin].
  destruct (tl_wf _ _ _ HT (p, i) ltac:(set_solver)) as (Hr & Hal & Hlo & Hhi). cbn in *.
  pose proof (Z.pow_le_mono_r 2 o i ltac:(lia) Hi) as Hpow.
  assert (Hno : forall b q, b ∈ A -> in_block q b -> ~ in_block q (p, o)).
  { intros b q Hb Hq Hq'.
    assert (b = (p, i)) as ->; [|set_solver]. apply (tl_disj _ _ _ HT _ _ q); [set_solver..|done|].
    unfold in_block in *. cbn in *. lia. }
  split_and!; [done| |by eapply mod0_pow2_le; [|exact Hal]|done|lia|exact Hno|].
  - intros Hin. pose proof (pow2_pos o Ho).
    apply (Hno (p, o) p Hin); unfold in_block; cbn; lia.
  - intros HF. apply (coalesced_halves lo hi F A); [done|done|done|lia|lia].
Qed.
End contract.

(** ** A client of buddy_alloc and buddy_free

    [Alloc o] asks for a block, [Free k] gives back the [k]-th block held. *)
Inductive request := Alloc (o : Z) | Free (k : nat).

Fixpoint serve (rs : list request) (live : list block) : M pmm_state (list block) :=
  match rs with
  | [] => ret live
  | Alloc o :: rs =>
      let* a := buddy_alloc o in serve rs ((ADDR_TO_PFN a, o) :: live)
  | Free k :: rs =>
      match live !! k with
      | Some (p, o) => buddy_free (PFN_TO_ADDR p) ;;; serve rs (delete k live)
      | None => serve rs live
      end
  end.

Definition valid_request (r : request) : Prop :=
  match r with Alloc o => 0 <= o < MAX_ORDER | Free _ => True end.

Section client.
Context (lo hi : Z) (B : gset block).
Implicit Types (s : pmm_state) (F : gset block) (live : list block).

(** The state between two requests: besides the client's blocks, those of
    [B] are in use. *)
Record client_inv s F live : Prop := {
  ci_inv : exists fl, buddy_inv lo hi s fl F (B ∪ list_to_set live);
  ci_base : B ## list_to_set live;
  ci_coalesced : coalesced F;
  ci_nodup : NoDup live;
  ci_lock : buddy_lock (main_buddy s) = 0;
  ci_bounds : buddy_start s <= buddy_end s;
  ci_top : hi * PGSIZE + DRAM_BASE < 2 ^ 63
}.

Lemma client_rest s s' F F' live live' fl :
  client_inv s F live -> buddy_inv lo hi s' fl F' (B ∪ list_to_set live') -> B ## list_to_set live' ->
  coalesced F' -> NoDup live' -> rest s' = rest s -> client_inv s' F' live'.
Proof.
  intros [_ _ _ _ H4 H5 H6] HI HB HF HN Hr. unfold rest in Hr. injection Hr as R1 R2 R3 R4 R5 R6 R7 R8 R9.
  split; [by exists fl|done|done|done|congruence|lia|done].
Qed.

Lemma wp_client_alloc s F live o Q E :
  client_inv s F live -> 0 <= o < MAX_ORDER ->
  (forall s' F' p, client_inv s' F' ((p, o) :: live) -> 0 <= p -> ADDR_TO_PFN (PFN_TO_ADDR p) = p ->
     Q (PFN_TO_ADDR p) s') ->
  (forall s', (forall q j, (q, j) ∈ F -> j < o) -> E oom s') ->
  wp (buddy_alloc o) Q E s.
Proof.
  intros HC Ho HQ HE. destruct (ci_inv _ _ _ HC) as (fl & HI).
  eapply wp_mono; [apply (run_buddy_alloc lo hi s fl F _ o HI Ho), HC|..].
  - intros a s' (p & F' & A' & fl' & -> & Hst & HI' & Hr).
    destruct (alloc_step_safe lo hi F (B ∪ list_to_set live) o p F' A')
      as (-> & Hp & _ & Hlo & Hhi & _ & HF'); [apply HI|apply HI|lia|done|].
    destruct (bi_range _ _ _ _ _ _ HI) as (H0 & _). pose proof (pow2_pos o ltac:(lia)).
    eapply HQ; [eapply client_rest; [exact HC| | |by apply HF', HC| |exact Hr]|..].
    + cbn [list_to_set].
      by replace (B ∪ ({[(p, o)]} ∪ list_to_set live)) with (B ∪ list_to_set live ∪ {[(p, o)]}) by set_solver.
    + pose proof (ci_base _ _ _ HC). cbn. set_solver.
    + apply NoDup_cons. split; [|apply HC]. intros Hin. apply Hp. set_solver.
    + lia.
    + pose proof (ci_top _ _ _ HC). apply pfn_addr; unfold PGSIZE in *; lia.
  - intros h s' [-> Hn]. by apply HE.
Qed.

Lemma delete_live live k b :
  NoDup live -> live !! k = Some b ->
  (list_to_set live : gset block) ∖ {[b]} = list_to_set (delete k live) /\ NoDup (delete k live).
Proof.
  intros HN Hk. pose proof (delete_Permutation _ _ _ Hk) as HP.
  rewrite HP in HN. apply NoDup_cons in HN as [Hb HN]. split; [|done].
  rewrite (list_to_set_perm_L _ _ HP). cbn.
  assert (b ∉ (list_to_set (delete k live) : gset block)) by by rewrite elem_of_list_to_set.
  set_solver.
Qed.

Lemma wp_client_free s F live k p o Q :
  client_inv s F live -> live !! k = Some (p, o) ->
  (forall s', client_inv s' (free_spec F p o) (delete k live) -> Q tt s') ->
  wp (buddy_free (PFN_TO_ADDR p)) Q no_stop s.
Proof.
  intros HC Hk HQ. destruct (ci_inv _ _ _ HC) as (fl & HI).
  assert (Hl : (p, o) ∈ live) by by apply list_elem_of_lookup_2 with k.
  assert (Hp : (p, o) ∈ B ∪ list_to_set live) by set_solver.
  destruct (bi_wf_used _ _ _ _ _ _ _ _ HI Hp) as (Ho & Hal & _).
  destruct (delete_live live k (p, o)) as [Es HN]; [apply HC|done|].
  pose proof (ci_bounds _ _ _ HC). pose proof (ci_top _ _ _ HC).
  eapply wp_buddy_free; [exact HI|exact Hp|apply HC|lia|lia|].
  pose proof (ci_base _ _ _ HC) as HB.
  intros s' fl' HI' Hr'. apply HQ.
  replace ((B ∪ list_to_set live) ∖ {[(p, o)]}) with (B ∪ list_to_set (delete k live)) in HI'
    by (rewrite <- Es; set_solver).
  eapply client_rest; [exact HC|exact HI'|rewrite <- Es; set_solver| |done|exact Hr'].
  apply coalesced_free; [done|done|apply HC].
Qed.

Lemma wp_serve rs s F live :
  client_inv s F live -> Forall valid_request rs ->
  wp (serve rs live) (fun live' s' => exists F', client_inv s' F' live') (fun h _ => h = oom) s.
Proof.
  revert s F live. induction rs as [|[o|k] rs IH]; intros s F live HC Hv; cbn [serve];
    [apply wp_ret; eauto|apply Forall_cons in Hv as [Hr Hv]..].
  - apply wp_bind. eapply wp_client_alloc; [exact HC|exact Hr| |done].
    intros s' F' p HC' H0 Ep. rewrite Ep. by eapply IH.
  - destruct (live !! k) as [[p o]|] eqn:Hk; [|by eapply IH].
    apply wp_bind, wp_no_stop. eapply wp_client_free; [exact HC|exact Hk|].
    intros s' HC'. by eapply IH.
Qed.
End client.


(** ** Pages from the cache *)
Fixpoint alloc_pages (n : nat) : M pmm_state (list Z) :=
  match n with
  | O => ret []
  | S n => let* a := alloc_page in let* l := alloc_pages n in ret (a :: l)
  end.

Lemma wp_alloc_pages qs : forall s ps stale Q E,
  pcpu_caches s !! tp (cpu s) = Some (cache_of (ps ++ reverse qs) stale) ->
  Z.of_nat (length (ps ++ reverse qs) + length stale) = PCPU_CACHE_SIZE ->
  Q (PFN_TO_ADDR <$> qs) (set_cache s ps ((Some <$> reverse qs) ++ stale)) ->
  wp (alloc_pages (length qs)) Q E s.
Proof.
  induction qs as [|q qs IH]; intros s ps stale Q E Hc Hsz HQ; cbn [length alloc_pages].
  - apply wp_ret. cbn in *. rewrite app_nil_r in Hc. unfold set_cache in HQ.
    rewrite insert_id in HQ by done. by destruct s.
  - rewrite reverse_cons in Hc, Hsz, HQ. rewrite app_assoc in Hc, Hsz.
    apply wp_bind. eapply wp_of_run; [by apply run_alloc_page|].
    apply wp_bind. eapply (IH _ ps (Some q :: stale)).
    + cbn. by rewrite lookup_insert_eq.
    + revert Hsz. rewrite !length_app. cbn. lia.
    + apply wp_ret. rewrite fmap_app, <- app_assoc in HQ. unfold set_cache in *. cbn in *.
      by rewrite insert_insert_eq.
Qed.

Lemma wp_pfree_block lo hi s fl F A p o (Q : unit -> pmm_state -> Prop) :
  buddy_inv lo hi s fl F A -> (p, o) ∈ A -> o <> 0 -> buddy_lock (main_buddy s) = 0 ->
  hi * PGSIZE + DRAM_BASE < 2 ^ 64 ->
  (forall s' fl', buddy_inv lo hi s' fl' (free_spec F p o) (A ∖ {[(p, o)]}) -> rest s' = rest s -> Q tt s') ->
  wp (pfree (PFN_TO_ADDR p)) Q no_stop s.
Proof.
  intros HI HpA Ho Hlk Hhi HQ. destruct (bi_alloc _ _ _ _ _ _ HI _ _ HpA) as (st & Hst & Hord).
  destruct (bi_wf_used _ _ _ _ _ _ _ _ HI HpA) as (Hor & _ & Hlo & Hp).
  destruct (bi_range _ _ _ _ _ _ HI) as (H0 & _). pose proof (pow2_pos o ltac:(lia)).
  assert (Epfn : ADDR_TO_PFN (PFN_TO_ADDR p) = p) by (apply pfn_addr; unfold PGSIZE in *; lia).
  unfold pfree. rewrite Epfn. apply wp_bind. eapply wp_read_opt; [exact Hst|].
  rewrite Hord, (proj2 (Z.eqb_neq _ _)) by done. cbn [negb].
  apply wp_bind, wp_irq_save. intros fl0 h' _ Etp Er.
  apply wp_bind. unfold lock_acquire. apply wp_bind, wp_gets. cbn. rewrite Hlk, Z.eqb_refl. apply wp_modify.
  apply wp_bind. eapply (wp_merge_inner lo hi _ fl F A p o); [|exact HpA|].
  { eapply buddy_inv_ext; [..|exact HI]; done. }
  intros s1 fl1 HI1 Hr1. unfold rest in Hr1; cbn in Hr1. injection Hr1 as R1 R2 R3 R4 R5 R6 R7 R8 R9.
  apply wp_bind. unfold lock_release. apply wp_modify.
  unfold irq_restore. apply wp_bind, wp_gets, wp_modify. eapply HQ.
  - eapply buddy_inv_ext; [..|exact HI1]; done.
  - unfold rest; cbn. rewrite R1, R3, R4, R5, R6, R7, R8, R9, Er, Hlk. done.
Qed.

Lemma pmm_inv_client lo hi s fl F A ps stale :
  pmm_inv lo hi s fl F A ps stale -> buddy_start s <= buddy_end s -> client_inv lo hi A s F [].
Proof.
  intros HI Hb. split; try apply HI; try done.
  - exists fl. cbn. rewrite union_empty_r_L. apply HI.
  - apply NoDup_nil_2.
Qed.

Lemma ex_client : exists B F, client_inv ex_lo 2048 B ex_pmm F [].
Proof.
  destruct ex_pmm_inv as (fl & F & ps & HI). exists (used ps), F.
  eapply pmm_inv_client; [exact HI|exact ex_pmm_bounds].
Qed.

(** ** More concrete states *)
Lemma page_in_range lo hi s fl F A p :
  buddy_inv lo hi s fl F A -> (p, 0) ∈ A -> hi * PGSIZE + DRAM_BASE < 2 ^ 63 ->
  lo <= p < hi /\ PFN_TO_ADDR p = page_addr p /\ ADDR_TO_PFN (PFN_TO_ADDR p) = p.
Proof.
  intros HI Hp Htop. destruct (bi_wf_used _ _ _ _ _ _ _ _ HI Hp) as (_ & _ & Hlo & Hhi).
  destruct (bi_range _ _ _ _ _ _ HI) as (H0 & _). change (2 ^ 0) with 1 in Hhi.
  split_and!; [lia|lia| |apply pfn_addr; unfold PGSIZE in *; lia].
  unfold PFN_TO_ADDR, page_addr. apply u64_id. unfold is_u64, PGSIZE, DRAM_BASE in *. lia.
Qed.

Lemma pstatus_set_cache s ps stale p : pstatus (set_cache s ps stale) p = pstatus s p.
Proof. done. Qed.
Lemma cache_set_cache s ps stale :
  pcpu_caches (set_cache s ps stale) !! tp (cpu (set_cache s ps stale)) = Some (cache_of ps stale).
Proof. apply lookup_insert_eq. Qed.

(** The last two pages of the full cache, and the status of the last one. *)
Lemma ex_pmm_split : exists fl F ps b a,
  pmm_inv ex_lo 2048 ex_pmm fl F (used (ps ++ [b; a])) (ps ++ [b; a]) [] /\
  exists st, pstatus ex_pmm (ADDR_TO_PFN (PFN_TO_ADDR a)) = Some st /\ order st = 0 /\
    Z.of_nat (length ps + 2) = PCPU_CACHE_SIZE.
Proof.
  destruct ex_pmm_inv as (fl & F & ps & HI). pose proof (pi_size _ _ _ _ _ _ _ _ HI) as Hsz.
  destruct ps as [|a ps] using rev_ind; [discriminate Hsz|].
  destruct ps as [|b ps] using rev_ind; [discriminate Hsz|]. clear IHps IHps0.
  rewrite <- app_assoc in HI. cbn in HI. exists fl, F, ps, b, a. split; [exact HI|].
  assert (Ha : (a, 0) ∈ used (ps ++ [b; a])) by (apply elem_of_used; exists a; set_solver).
  destruct (bi_alloc _ _ _ _ _ _ (pi_buddy _ _ _ _ _ _ _ _ HI) _ _ Ha) as (st & Hst & Ho).
  destruct (page_in_range _ _ _ _ _ _ _ (pi_buddy _ _ _ _ _ _ _ _ HI) Ha (pi_top _ _ _ _ _ _ _ _ HI)) as (_ & _ & ->).
  exists st. split_and!; [done|done|]. rewrite <- Hsz, !length_app. cbn. lia.
Qed.

(** A block of eight pages in use. *)
Definition ex_block : pmm_state := run_state (buddy_alloc 3) ex_pmm.

Lemma ex_block_inv : exists p fl F A,
  buddy_inv ex_lo 2048 ex_block fl F A /\ (p, 3) ∈ A /\ buddy_lock (main_buddy ex_block) = 0.
Proof.
  destruct ex_pmm_inv as (fl & F & ps & HI).
  pose proof (run_buddy_alloc _ _ _ _ _ _ 3 (pi_buddy _ _ _ _ _ _ _ _ HI) ltac:(unfold MAX_ORDER; lia)
    (pi_lock _ _ _ _ _ _ _ _ HI)) as H.
  assert (Hret : match buddy_alloc 3 ex_pmm with Ret _ _ => true | Halt _ _ => false end = true) by (vm_compute; reflexivity).
  unfold ex_block, run_state. unfold wp in H. destruct (buddy_alloc 3 ex_pmm) as [a s'|]; [|discriminate Hret].
  destruct H as (p & F' & A' & fl' & _ & Hst & HI' & Hr). exists p, fl', F', A'. split_and!; [done| |].
  - destruct Hst. by apply elem_of_union_r, elem_of_singleton_2.
  - destruct (rest_caches _ _ ∅ Hr) as (_ & _ & -> & _). exact (pi_lock _ _ _ _ _ _ _ _ HI).
Qed.
Opaque ex_block.

(** ** Theorems *)

(** C1: a call of [buddy_alloc] between requests implements [alloc_step]: it
    returns the address of the first page of a smallest free block that is
    large enough, splits the rest off as free blocks, leaves everything
    outside the buddy system as it was, and panics only when no free block is
    large enough. *)
Theorem buddy_alloc_refines lo hi s fl F A o :
  buddy_inv lo hi s fl F A -> 0 <= o < MAX_ORDER -> buddy_lock (main_buddy s) = 0 ->
  wp (buddy_alloc o)
     (fun a s' => exists p F' A' fl', a = PFN_TO_ADDR p /\ alloc_step F A o p F' A' /\
        buddy_inv lo hi s' fl' F' A' /\ rest s' = rest s)
     (fun h _ => h = oom /\ forall q j, (q, j) ∈ F -> j < o) s.
Proof. apply run_buddy_alloc. Qed.

Lemma buddy_alloc_refines_witness : exists F A : gset block,
  wp (buddy_alloc 3)
     (fun a s' => exists p F' A' fl', a = PFN_TO_ADDR p /\ alloc_step F A 3 p F' A' /\
        buddy_inv ex_lo 2048 s' fl' F' A' /\ rest s' = rest ex_pmm)
     (fun h _ => h = oom /\ forall q j, (q, j) ∈ F -> j < 3) ex_pmm.
Proof.
  destruct ex_pmm_inv as (fl & F & ps & HI). exists F, (used ps).
  apply (buddy_alloc_refines ex_lo 2048 ex_pmm fl F (used ps) 3); [exact (pi_buddy _ _ _ _ _ _ _ _ HI)|unfold MAX_ORDER; lia|exact (pi_lock _ _ _ _ _ _ _ _ HI)].
Defined.

(** The block [buddy_alloc] returns is inside the managed pages, aligned
    to its size, and shares no page with a block in use. *)
Lemma buddy_alloc_disjoint lo hi s fl F A o :
  buddy_inv lo hi s fl F A -> 0 <= o < MAX_ORDER -> buddy_lock (main_buddy s) = 0 ->
  wp (buddy_alloc o)
     (fun a s' => exists p, a = PFN_TO_ADDR p /\ lo <= p /\ p + 2 ^ o <= hi /\ p mod 2 ^ o = 0 /\
        forall b q, b ∈ A -> in_block q b -> ~ in_block q (p, o))
     (fun h _ => h = oom) s.
Proof.
  intros HI Ho Hl. eapply wp_mono; [by apply (run_buddy_alloc lo hi s fl F A o)| |by intros h s' [-> _]].
  intros a s' (p & F' & A' & fl' & -> & Hst & _).
  destruct (alloc_step_safe lo hi F A o p F' A') as (_ & _ & ? & ? & ? & ? & _);
    [apply HI|apply HI|lia|done|]. by exists p.
Qed.

(** C2: [buddy_free] of a block in use implements [free_spec]: the block is
    joined with its free buddy as long as it has one, order by order, and the
    result is a free block. *)
Theorem buddy_free_refines lo hi s fl F A p o :
  buddy_inv lo hi s fl F A -> (p, o) ∈ A -> buddy_lock (main_buddy s) = 0 ->
  hi * PGSIZE + DRAM_BASE < 2 ^ 64 ->
  buddy_start s <= PFN_TO_ADDR p \/ PFN_TO_ADDR p < buddy_end s ->
  wp (buddy_free (PFN_TO_ADDR p))
     (fun _ s' => (exists fl', buddy_inv lo hi s' fl' (free_spec F p o) (A ∖ {[(p, o)]})) /\
        rest s' = rest s /\ (coalesced F -> coalesced (free_spec F p o))) no_stop s.
Proof.
  intros HI Hp Hl Htop Hk. eapply wp_buddy_free; [exact HI|done..|]. intros s' fl' HI' Hr.
  destruct (bi_wf_used _ _ _ _ _ _ _ _ HI Hp) as (Ho & Hal & _).
  split_and!; [by exists fl'|done|]. by apply coalesced_free.
Qed.

Lemma buddy_free_refines_witness : exists (p : Z) (F A : gset block), (p, 0) ∈ A /\
  wp (buddy_free (PFN_TO_ADDR p))
     (fun _ s' => (exists fl', buddy_inv ex_lo 2048 s' fl' (free_spec F p 0) (A ∖ {[(p, 0)]})) /\
        rest s' = rest ex_pmm /\ (coalesced F -> coalesced (free_spec F p 0))) no_stop ex_pmm.
Proof.
  destruct ex_pmm_inv as (fl & F & ps & HI). destruct ps as [|p ps]; [discriminate (pi_size _ _ _ _ _ _ _ _ HI)|].
  assert (Hp : (p, 0) ∈ used (p :: ps)) by (apply elem_of_used; exists p; set_solver).
  pose proof ex_pmm_bounds as Hb.
  pose proof (pi_top _ _ _ _ _ _ _ _ HI).
  exists p, F, (used (p :: ps)). split; [exact Hp|].
  apply (buddy_free_refines ex_lo 2048 ex_pmm fl F (used (p :: ps)) p 0); [exact (pi_buddy _ _ _ _ _ _ _ _ HI)|exact Hp|exact (pi_lock _ _ _ _ _ _ _ _ HI)|lia|lia].
Defined.

(** Freeing the block that [buddy_alloc] has just returned restores the
    free blocks and the blocks in use. *)
Lemma buddy_alloc_free_restores lo hi s fl F A o :
  buddy_inv lo hi s fl F A -> coalesced F -> 0 <= o < MAX_ORDER ->
  buddy_lock (main_buddy s) = 0 -> buddy_start s <= buddy_end s -> hi * PGSIZE + DRAM_BASE < 2 ^ 63 ->
  wp (let* a := buddy_alloc o in buddy_free a)
     (fun _ s' => (exists fl', buddy_inv lo hi s' fl' F A) /\ rest s' = rest s)
     (fun h _ => h = oom) s.
Proof.
  intros HI HF Ho Hl Hb Htop. apply wp_bind.
  eapply wp_mono; [by apply (wp_buddy_alloc lo hi s fl F A o)| |by intros h s' [-> _]].
  intros a s' (p & i & -> & HP). destruct (ap_inv _ _ _ _ _ _ _ _ _ _ HP) as (fl' & HI').
  destruct (free_alloc_blocks lo hi s s' fl F A o p i) as [Efree Hp]; [done|done|lia|done|].
  assert (Hr : rest s' = rest s).
  { apply rest_unlocked; [done|]. exact (ap_rest _ _ _ _ _ _ _ _ _ _ HP). }
  pose proof Hr as Hr2. unfold rest in Hr2. injection Hr2 as R1 R2 R3 R4 R5 R6 R7 R8 R9.
  apply wp_no_stop. eapply (wp_buddy_free lo hi s' fl' _ _ p o);
    [exact HI'|by apply elem_of_union_r, elem_of_singleton_2|congruence|lia|lia|].
  intros s2 fl2 HI2 Hr3. rewrite Efree in HI2. split; [exists fl2|by rewrite Hr3].
  by replace ((A ∪ {[(p, o)]}) ∖ {[(p, o)]}) with A in HI2 by set_solver.
Qed.

(** C4: whatever valid requests a client makes, it holds disjoint aligned
    blocks inside the managed pages at every end of a run, disjoint also from
    the blocks others use, and the only way a run stops is the panic for lack
    of memory. *)
Theorem serve_safe lo hi B s F rs :
  client_inv lo hi B s F [] -> Forall valid_request rs ->
  wp (serve rs [])
     (fun live s' => NoDup live /\
        (forall b, b ∈ live -> b.1 mod 2 ^ b.2 = 0 /\ lo <= b.1 /\ b.1 + 2 ^ b.2 <= hi) /\
        (forall b1 b2 q, b1 ∈ live -> b2 ∈ B ∪ list_to_set live -> in_block q b1 -> in_block q b2 -> b1 = b2))
     (fun h _ => h = oom) s.
Proof.
  intros HC Hv. eapply wp_mono; [by apply (wp_serve lo hi B rs s F)| |done].
  intros live s' (F' & HC'). destruct (ci_inv _ _ _ _ _ _ HC') as (fl & HI).
  pose proof (bi_tiles _ _ _ _ _ _ HI) as HT. split_and!; [apply HC'| |].
  - intros b Hb. destruct (tl_wf _ _ _ HT b) as (_ & ? & ? & ?); [set_solver|done].
  - intros b1 b2 q H1 H2. apply (tl_disj _ _ _ HT); set_solver.
Qed.

Lemma serve_safe_witness : exists B : gset block,
  wp (serve [Alloc 0; Alloc 4; Free 0; Alloc 2] [])
     (fun live s' => NoDup live /\
        (forall b, b ∈ live -> b.1 mod 2 ^ b.2 = 0 /\ ex_lo <= b.1 /\ b.1 + 2 ^ b.2 <= 2048) /\
        (forall b1 b2 q, b1 ∈ live -> b2 ∈ B ∪ list_to_set live -> in_block q b1 -> in_block q b2 -> b1 = b2))
     (fun h _ => h = oom) ex_pmm.
Proof.
  destruct ex_client as (B & F & HC). exists B.
  apply (serve_safe ex_lo 2048 B ex_pmm F); [exact HC|repeat constructor; unfold MAX_ORDER; cbn; lia].
Defined.

(** C3: no fragmentation survives a client: when it has given back all it
    took, in whatever order, the free blocks are those of the beginning. *)
Theorem serve_restores lo hi B s F rs :
  client_inv lo hi B s F [] -> Forall valid_request rs ->
  wp (serve rs [])
     (fun live s' => live = [] -> exists fl', buddy_inv lo hi s' fl' F B)
     (fun h _ => h = oom) s.
Proof.
  intros HC Hv. eapply wp_mono; [by apply (wp_serve lo hi B rs s F)| |done].
  intros live s' (F' & HC') ->.
  destruct (ci_inv _ _ _ _ _ _ HC) as (fl & HI), (ci_inv _ _ _ _ _ _ HC') as (fl' & HI').
  cbn in HI, HI'. rewrite union_empty_r_L in HI, HI'. exists fl'.
  by rewrite (coalesced_unique lo hi B F F'); [|apply HI|apply HI'|apply HI|apply HI'|apply HC|apply HC'].
Qed.

Lemma serve_restores_witness : exists F B : gset block,
  wp (serve [Alloc 0; Alloc 4; Alloc 1; Free 1; Free 1; Free 0] [])
     (fun live s' => live = [] -> exists fl', buddy_inv ex_lo 2048 s' fl' F B)
     (fun h _ => h = oom) ex_pmm.
Proof.
  destruct ex_client as (B & F & HC). exists F, B.
  apply (serve_restores ex_lo 2048 B ex_pmm F); [exact HC|repeat constructor; unfold MAX_ORDER; cbn; lia].
Defined.

(** The memory [pmm_init] manages, and what it keeps for itself at the bottom:
    the kernel image and the page descriptors. *)
Definition managed (s : pmm_state) : Z := MIN PKE_MAX_ALLOWABLE_RAM (g_mem_size s).
Definition kernel_top (s : pmm_state) (_end : Z) : Z := _end + managed s / PGSIZE * sizeof_page_t.

Record boot_post (s s' : pmm_state) (_end : Z) (ps : list Z) : Prop := {
  bp_inv : exists fl F, pmm_inv (first_page s _end) (managed s / PGSIZE) s' fl F (used ps) ps [];
  bp_start : kernel_top s _end <= buddy_start s';
  bp_end : buddy_end s' = DRAM_BASE + managed s
}.

Lemma wp_boot s _end c0 cnt :
  boot_fits s _end -> pcpu_caches s !! 0 = Some (mkCache c0 cnt) ->
  Z.of_nat (length c0) = PCPU_CACHE_SIZE -> tp (cpu s) = 0 ->
  wp (pmm_init _end) (fun _ s' => exists ps, boot_post s s' _end ps) no_stop s.
Proof.
  intros HB Hc Hl Ht. pose proof (boot_arith s _end HB) as HA. cbv zeta in HA.
  destruct HA as (A1 & A2 & _ & _ & _ & _ & _ & _ & _ & _ & A11).
  eapply wp_pmm_init; [exact HB|exact Hc|exact Hl|exact Ht|].
  intros s' fl F ps mem' lo HI Hs He Hm _. exists ps. split.
  - by exists fl, F.
  - rewrite Hs. exact A11.
  - rewrite He. unfold page_addr, managed, mem' in *. lia.
Qed.

(** C6: from the state the boot loader leaves, [pmm_init] always returns.  It
    builds the buddy system over all pages above the kernel image and the page
    descriptors, fully coalesced, and fills the page cache with
    PCPU_CACHE_SIZE distinct pages taken from it. *)
Theorem pmm_init_correct s _end c0 cnt :
  boot_fits s _end -> pcpu_caches s !! 0 = Some (mkCache c0 cnt) ->
  Z.of_nat (length c0) = PCPU_CACHE_SIZE -> tp (cpu s) = 0 ->
  wp (pmm_init _end)
     (fun _ s' => exists fl F ps, let lo := first_page s _end in let hi := managed s / PGSIZE in
        buddy_inv lo hi s' fl F (used ps) /\ coalesced F /\ NoDup ps /\
        pcpu_caches s' !! 0 = Some (mkCache (Some <$> ps) PCPU_CACHE_SIZE) /\
        buddy_lock (main_buddy s') = 0 /\
        kernel_top s _end <= buddy_start s' /\ buddy_end s' = DRAM_BASE + managed s) no_stop s.
Proof.
  intros HB Hc Hl Ht. eapply wp_pmm_init; [exact HB|exact Hc|exact Hl|exact Ht|].
  pose proof (boot_arith s _end HB) as HA. cbv zeta in HA.
  destruct HA as (_ & A2 & _ & _ & _ & _ & _ & _ & _ & _ & A11).
  intros s' fl F ps mem lo HI Hs He _ Hcpu. exists fl, F, ps. cbv zeta.
  split_and!; [apply HI|apply HI|apply HI| |apply HI|by rewrite Hs|].
  - pose proof (pi_cache _ _ _ _ _ _ _ _ HI) as Hca. pose proof (pi_size _ _ _ _ _ _ _ _ HI) as Hsz.
    rewrite Hcpu, Ht in Hca. rewrite Hca. unfold cache_of. rewrite app_nil_r. cbn in Hsz.
    rewrite Nat.add_0_r in Hsz. by rewrite Hsz.
  - rewrite He. unfold page_addr, managed, mem in *. lia.
Qed.

Lemma pmm_init_correct_witness :
  wp (pmm_init ex_end)
     (fun _ s' => exists fl F ps, let lo := first_page ex_boot ex_end in let hi := managed ex_boot / PGSIZE in
        buddy_inv lo hi s' fl F (used ps) /\ coalesced F /\ NoDup ps /\
        pcpu_caches s' !! 0 = Some (mkCache (Some <$> ps) PCPU_CACHE_SIZE) /\
        buddy_lock (main_buddy s') = 0 /\
        kernel_top ex_boot ex_end <= buddy_start s' /\ buddy_end s' = DRAM_BASE + managed ex_boot)
     no_stop ex_boot.
Proof.
  apply (pmm_init_correct ex_boot ex_end (replicate (Z.to_nat PCPU_CACHE_SIZE) None) 0);
    [exact ex_boot_fits|reflexivity|reflexivity|reflexivity].
Defined.

(** After [pmm_init], the first [n] calls of [alloc_page] return [n]
    distinct page addresses, each page inside the managed memory and above the
    kernel image and the page descriptors, as long as [n] is at most
    PCPU_CACHE_SIZE. *)
Lemma boot_pages_distinct s _end c0 cnt n :
  boot_fits s _end -> pcpu_caches s !! 0 = Some (mkCache c0 cnt) ->
  Z.of_nat (length c0) = PCPU_CACHE_SIZE -> tp (cpu s) = 0 -> Z.of_nat n <= PCPU_CACHE_SIZE ->
  wp (pmm_init _end ;;; alloc_pages n)
     (fun l _ => length l = n /\ NoDup l /\ forall a, a ∈ l ->
        a mod PGSIZE = 0 /\ kernel_top s _end <= a /\ a + PGSIZE <= DRAM_BASE + managed s) no_stop s.
Proof.
  intros HB Hc Hl Ht Hn. pose proof (boot_arith s _end HB) as HA. cbv zeta in HA.
  destruct HA as (_ & A2 & _ & _ & _ & _ & _ & _ & _ & _ & A11). fold (managed s) in A2, A11.
  apply wp_bind. eapply wp_mono; [eapply wp_boot; [exact HB|exact Hc|exact Hl|exact Ht]| |done].
  intros _ s' (ps & [(fl & F & HI) _ _]).
  pose proof (pi_size _ _ _ _ _ _ _ _ HI) as Hsz. cbn in Hsz. rewrite Nat.add_0_r in Hsz.
  set (qs := take n (reverse ps)).
  assert (Hqs : length qs = n) by (unfold qs; rewrite length_take, length_reverse; lia).
  assert (Hps : ps = reverse (drop n (reverse ps)) ++ reverse qs).
  { unfold qs. by rewrite <- reverse_app, take_drop, reverse_involutive. }
  assert (Hin : forall q, q ∈ qs -> (q, 0) ∈ used ps).
  { intros q Hq. apply elem_of_used. exists q. split; [|done]. rewrite Hps. set_solver. }
  rewrite <- Hqs at 1. eapply (wp_alloc_pages qs s' (reverse (drop n (reverse ps))) []).
  - rewrite <- Hps. apply HI.
  - rewrite <- Hps. cbn. lia.
  - split_and!; [by rewrite length_fmap| |].
    + apply NoDup_fmap_2_strong.
      * intros p q Hp Hq E.
        destruct (page_in_range _ _ _ _ _ _ p (pi_buddy _ _ _ _ _ _ _ _ HI) (Hin p Hp) (pi_top _ _ _ _ _ _ _ _ HI)) as (_ & Ep & _).
        destruct (page_in_range _ _ _ _ _ _ q (pi_buddy _ _ _ _ _ _ _ _ HI) (Hin q Hq) (pi_top _ _ _ _ _ _ _ _ HI)) as (_ & Eq & _).
        rewrite Ep, Eq in E. unfold page_addr, PGSIZE in E. lia.
      * pose proof (pi_nodup _ _ _ _ _ _ _ _ HI) as HN. rewrite Hps in HN.
        apply NoDup_app in HN as (_ & _ & HN). by rewrite reverse_Permutation in HN.
    + intros a Ha. apply list_elem_of_fmap in Ha as (p & -> & Hp).
      destruct (page_in_range _ _ _ _ _ _ p (pi_buddy _ _ _ _ _ _ _ _ HI) (Hin p Hp) (pi_top _ _ _ _ _ _ _ _ HI)) as (Hr & -> & _).
      unfold kernel_top. unfold page_addr, PGSIZE, DRAM_BASE in *. split_and!; [zlia|lia|lia].
Qed.

(** With an empty page cache [alloc_page] never returns: it takes
    [buddy_lock] and calls [buddy_alloc], which waits for the same lock. *)
Lemma alloc_page_empty_spins s c :
  pcpu_caches s !! tp (cpu s) = Some c -> count c = 0 ->
  wp alloc_page (fun _ _ => False) (fun h _ => h = Spins "main_buddy.buddy_lock") s.
Proof.
  intros Hc Hn. apply (run_alloc_page_empty s (objs c)). rewrite Hc. destruct c as [l n]. cbn in Hn. by subst n.
Qed.

(** [pfree] of a block of order above 0 implements [free_spec] and leaves
    the interrupt-enable bit, the caches and the lock as they were. *)
Lemma pfree_block_refines lo hi s fl F A p o :
  buddy_inv lo hi s fl F A -> (p, o) ∈ A -> o <> 0 -> buddy_lock (main_buddy s) = 0 ->
  hi * PGSIZE + DRAM_BASE < 2 ^ 64 ->
  wp (pfree (PFN_TO_ADDR p))
     (fun _ s' => (exists fl', buddy_inv lo hi s' fl' (free_spec F p o) (A ∖ {[(p, o)]})) /\
        rest s' = rest s) no_stop s.
Proof.
  intros HI Hp Ho Hl Htop. eapply wp_pfree_block; [exact HI|exact Hp|exact Ho|exact Hl|exact Htop|].
  intros s' fl' HI' Hr. split; [by exists fl'|exact Hr].
Qed.

(** With room in the cache, [pfree] of a single page does not put that
    page on top of the cache: it makes the stale entry above the cached ones
    cached again and stores the page over the entry after it. *)
Lemma pfree_caches_stale_entry s addr ps q x stale st :
  pstatus s (ADDR_TO_PFN addr) = Some st -> order st = 0 ->
  pcpu_caches s !! tp (cpu s) = Some (cache_of ps (Some q :: x :: stale)) ->
  Z.of_nat (length ps + length (Some q :: x :: stale)) = PCPU_CACHE_SIZE ->
  pfree addr s = Ret tt (set_cache s (ps ++ [q]) (Some (ADDR_TO_PFN addr) :: stale)).
Proof.
  intros Hst Ho Hc Hsz.
  destruct (wp_returns (pfree addr)
      (fun _ s' => s' = set_cache s (ps ++ [q]) (Some (ADDR_TO_PFN addr) :: stale)) s) as ([] & s' & -> & ->);
    [|done].
  by eapply wp_pfree.
Qed.

(** C7: a page can be in use twice.  When [alloc_page] has returned [a] and
    then [b], and [a] is given back with [pfree], the next [alloc_page]
    returns [b] although nobody has given it back. *)
Theorem pfree_double_allocation lo hi s fl F A ps a b stale :
  pmm_inv lo hi s fl F A (ps ++ [b; a]) stale ->
  wp (let* x := alloc_page in let* y := alloc_page in pfree x ;;; let* z := alloc_page in ret (x, y, z))
     (fun r _ => r = (PFN_TO_ADDR a, PFN_TO_ADDR b, PFN_TO_ADDR b)) no_stop s.
Proof.
  intros HI. pose proof (pi_cache _ _ _ _ _ _ _ _ HI) as Hc. pose proof (pi_size _ _ _ _ _ _ _ _ HI) as Hsz.
  assert (Ha : (a, 0) ∈ A) by (apply (pi_used _ _ _ _ _ _ _ _ HI); set_solver).
  destruct (bi_alloc _ _ _ _ _ _ (pi_buddy _ _ _ _ _ _ _ _ HI) _ _ Ha) as (st & Hst & Hord).
  pose proof (pi_top _ _ _ _ _ _ _ _ HI) as Htop.
  destruct (page_in_range _ _ _ _ _ _ a (pi_buddy _ _ _ _ _ _ _ _ HI) Ha Htop) as (_ & _ & Epfn).
  change ([b; a]) with ([b] ++ [a]) in Hc, Hsz. rewrite app_assoc in Hc, Hsz.
  apply wp_bind. eapply wp_of_run; [by apply run_alloc_page|].
  apply wp_bind. eapply wp_of_run; [eapply (run_alloc_page _ ps b (Some a :: stale))|].
  { cbn. by rewrite lookup_insert_eq. }
  { revert Hsz. rewrite !length_app. cbn. lia. }
  apply wp_bind. eapply (wp_pfree _ _ ps b (Some a) stale st).
  - by rewrite Epfn.
  - done.
  - cbn. by rewrite lookup_insert_eq.
  - revert Hsz. rewrite !length_app. cbn. lia.
  - apply wp_bind. eapply wp_of_run; [eapply (run_alloc_page _ ps b (Some _ :: stale))|].
    + cbn. by rewrite lookup_insert_eq.
    + revert Hsz. rewrite !length_app. cbn. lia.
    + by apply wp_ret.
Qed.

Lemma pfree_double_allocation_witness : exists a b,
  wp (let* x := alloc_page in let* y := alloc_page in pfree x ;;; let* z := alloc_page in ret (x, y, z))
     (fun r _ => r = (PFN_TO_ADDR a, PFN_TO_ADDR b, PFN_TO_ADDR b)) no_stop ex_pmm.
Proof.
  destruct ex_pmm_split as (fl & F & ps & b & a & HI & _). exists a, b.
  apply (pfree_double_allocation ex_lo 2048 ex_pmm fl F (used (ps ++ [b; a])) ps a b []). exact HI.
Defined.

(** C15: [pfree] into a cache with exactly one unused entry stores past the
    end of [objs]. *)
Theorem pfree_last_entry_overruns s addr ps x st :
  pstatus s (ADDR_TO_PFN addr) = Some st -> order st = 0 ->
  pcpu_caches s !! tp (cpu s) = Some (cache_of ps [x]) ->
  Z.of_nat (length ps + 1) = PCPU_CACHE_SIZE ->
  wp (pfree addr) (fun _ _ => False) (fun h _ => h = WildAccess) s.
Proof. apply wp_pfree_last. Qed.

Lemma pfree_last_entry_overruns_witness : exists (addr : Z) (ps : list Z) (x : option Z),
  wp (pfree addr) (fun _ _ => False) (fun h _ => h = WildAccess) (set_cache ex_pmm ps [x]).
Proof.
  destruct ex_pmm_split as (fl & F & ps & b & a & HI & st & Hst & Ho & Hsz).
  exists (PFN_TO_ADDR a), (ps ++ [b]), (Some a).
  apply (pfree_last_entry_overruns _ (PFN_TO_ADDR a) (ps ++ [b]) (Some a) st);
    [by rewrite pstatus_set_cache|exact Ho|apply cache_set_cache|rewrite <- Hsz, length_app; cbn; lia].
Defined.
