(* ===== verification/Mem.v ===== *)
(** * Physical memory as bytes

    The memory the kernel reads and writes through pointers: a finite map
    from addresses to bytes.  An access outside its domain is [WildAccess].
    Wider accesses are little-endian, as on RISC-V. *)
From stdpp Require Import base gmap list strings.
From Stdlib Require Import ZArith Lia.
From S2P Require Import Prelude.

Abbreviation mem := (gmap Z Z).

Definition byte_of (v i : Z) : Z := v / 2 ^ (8 * i) mod 256.

Fixpoint load_le (n : nat) (a : Z) (m : mem) : option Z :=
  match n with
  | O => Some 0
  | S n => b ← m !! a; v ← load_le n (a + 1) m; Some (b + 256 * v)
  end.

Fixpoint store_le (n : nat) (a v : Z) (m : mem) : option mem :=
  match n with
  | O => Some m
  | S n =>
      match m !! a with
      | Some _ => store_le n (a + 1) (v / 256) (<[a := v mod 256]> m)
      | None => None
      end
  end.

Definition load (n : nat) (a : Z) : M mem Z := read_opt (load_le n a).
Definition store (n : nat) (a v : Z) : M mem unit :=
  fun m => match store_le n a v m with Some m' => Ret tt m' | None => Halt WildAccess m end.

Abbreviation load8 := (load 1).
Abbreviation store8 := (store 1).
Abbreviation load32 := (load 4).
Abbreviation store32 := (store 4).
Abbreviation load64 := (load 8).
Abbreviation store64 := (store 8).

(** All of [a, a + n) is memory. *)
Definition has (m : mem) (a n : Z) : Prop := forall x, a <= x < a + n -> is_Some (m !! x).
Definition bytes_ok (m : mem) : Prop := forall x b, m !! x = Some b -> 0 <= b < 256.

Section le.
Implicit Types (m : mem) (a v x : Z).

Lemma byte_of_0 v : byte_of v 0 = v mod 256.
Proof. unfold byte_of. change (2 ^ (8 * 0)) with 1. by rewrite Z.div_1_r. Qed.

Lemma byte_of_succ v i : 0 <= i -> byte_of v (i + 1) = byte_of (v / 256) i.
Proof.
  intros Hi. unfold byte_of. rewrite Z.div_div by (try apply Z.pow_pos_nonneg; lia).
  change 256 with (2 ^ 8) at 2. rewrite <- Z.pow_add_r by lia. do 3 f_equal. lia.
Qed.

Lemma byte_of_range v i : 0 <= byte_of v i < 256.
Proof. apply Z.mod_pos_bound. lia. Qed.

Lemma store_le_lookup n a v m m' x :
  store_le n a v m = Some m' ->
  m' !! x = if decide (a <= x < a + Z.of_nat n) then Some (byte_of v (x - a)) else m !! x.
Proof.
  revert a v m. induction n as [|n IH]; intros a v m H; cbn [store_le] in H.
  - injection H as <-. case_decide; [lia|done].
  - destruct (m !! a); [|done]. rewrite (IH _ _ _ H). destruct (decide (x = a)) as [->|Hx].
    + rewrite decide_False, decide_True by lia. by rewrite lookup_insert_eq, Z.sub_diag, byte_of_0.
    + case_decide; case_decide; try lia.
      * replace (x - a) with (x - (a + 1) + 1) by lia. by rewrite byte_of_succ by lia.
      * by rewrite lookup_insert_ne.
Qed.

Lemma has_insert m a n x b : has m a n -> has (<[x := b]> m) a n.
Proof.
  intros H y Hy. destruct (decide (x = y)) as [->|]; [by rewrite lookup_insert_eq|].
  rewrite lookup_insert_ne by done. by apply H.
Qed.

Lemma store_le_has n a v m : has m a (Z.of_nat n) -> exists m', store_le n a v m = Some m'.
Proof.
  revert a v m. induction n as [|n IH]; intros a v m H; cbn [store_le]; [by eexists|].
  destruct (H a ltac:(lia)) as [b ->]. apply IH. apply has_insert. intros x Hx. apply H. lia.
Qed.

Lemma load_le_has n a m : has m a (Z.of_nat n) -> exists v, load_le n a m = Some v.
Proof.
  revert a. induction n as [|n IH]; intros a H; cbn [load_le]; [by eexists|].
  destruct (H a ltac:(lia)) as [b ->]. destruct (IH (a + 1)) as [v Hv]; [intros x Hx; apply H; lia|].
  cbn. rewrite Hv. by eexists.
Qed.

Lemma load_le_ext n a m m' :
  (forall x, a <= x < a + Z.of_nat n -> m' !! x = m !! x) -> load_le n a m' = load_le n a m.
Proof.
  revert a. induction n as [|n IH]; intros a H; cbn [load_le]; [done|].
  rewrite H by lia. destruct (m !! a); [|done]. cbn. rewrite IH; [done|]. intros x Hx. apply H. lia.
Qed.

(** What a load of known bytes yields, and conversely. *)
Lemma load_le_bytes n a m v :
  (forall x, a <= x < a + Z.of_nat n -> m !! x = Some (byte_of v (x - a))) ->
  load_le n a m = Some (v mod 2 ^ (8 * Z.of_nat n)).
Proof.
  revert a v. induction n as [|n IH]; intros a v H; cbn [load_le].
  - change (2 ^ (8 * Z.of_nat 0)) with 1. by rewrite Z.mod_1_r.
  - rewrite H by lia. cbn. rewrite Z.sub_diag, byte_of_0.
    rewrite (IH (a + 1) (v / 256)).
    + cbn. f_equal. replace (8 * Z.of_nat (S n)) with (8 + 8 * Z.of_nat n) by lia.
      rewrite Z.pow_add_r by lia. change (2 ^ 8) with 256.
      rewrite (Z.rem_mul_r v 256) by (try apply Z.pow_pos_nonneg; lia). done.
    + intros x Hx. rewrite H by lia. rewrite <- byte_of_succ by lia. do 2 f_equal. lia.
Qed.

Lemma bytes_of_load n a m v x :
  bytes_ok m -> load_le n a m = Some v -> a <= x < a + Z.of_nat n -> m !! x = Some (byte_of v (x - a)).
Proof.
  intros Hok. revert a v. induction n as [|n IH]; intros a v H Hx; cbn [load_le] in H; [lia|].
  destruct (m !! a) as [b|] eqn:Hb; [|done]. cbn in H.
  destruct (load_le n (a + 1) m) as [w|] eqn:Hw; [|done]. injection H as <-.
  pose proof (Hok _ _ Hb). destruct (decide (x = a)) as [->|].
  - rewrite Hb, Z.sub_diag, byte_of_0. f_equal. zlia.
  - rewrite (IH _ _ Hw) by lia. replace (x - a) with (x - (a + 1) + 1) by lia.
    rewrite byte_of_succ by lia. do 2 f_equal. zlia.
Qed.

Lemma load_store_same n a v m m' :
  store_le n a v m = Some m' -> load_le n a m' = Some (v mod 2 ^ (8 * Z.of_nat n)).
Proof. intros H. apply load_le_bytes. intros x Hx. rewrite (store_le_lookup _ _ _ _ _ _ H). by rewrite decide_True. Qed.

Lemma load_store_other n a v m m' k b :
  store_le n a v m = Some m' -> b + Z.of_nat k <= a \/ a + Z.of_nat n <= b ->
  load_le k b m' = load_le k b m.
Proof.
  intros H Hd. apply load_le_ext. intros x Hx. rewrite (store_le_lookup _ _ _ _ _ _ H).
  rewrite decide_False; [done|lia].
Qed.

Lemma load_le_range n a m v : bytes_ok m -> load_le n a m = Some v -> 0 <= v < 2 ^ (8 * Z.of_nat n).
Proof.
  intros Hok. revert a v. induction n as [|n IH]; intros a v H; cbn [load_le] in H.
  - injection H as <-. done.
  - destruct (m !! a) as [b|] eqn:Hb; [|done]. cbn in H.
    destruct (load_le n (a + 1) m) as [w|] eqn:Hw; [|done]. injection H as <-.
    pose proof (Hok _ _ Hb). pose proof (IH _ _ Hw).
    replace (8 * Z.of_nat (S n)) with (8 + 8 * Z.of_nat n) by lia. rewrite Z.pow_add_r by lia. lia.
Qed.
End le.

(** ** Frames

    [upd m m' P f]: [m'] has [f x] at the addresses [P] and is [m] elsewhere. *)
Definition upd (m m' : mem) (P : Z -> bool) (f : Z -> Z) : Prop :=
  forall x, m' !! x = if P x then Some (f x) else m !! x.

Definition inside (a n x : Z) : bool := (a <=? x) && (x <? a + n).

Lemma inside_spec a n x : reflect (a <= x < a + n) (inside a n x).
Proof. apply iff_reflect. unfold inside. rewrite andb_true_iff, Z.leb_le, Z.ltb_lt. lia. Qed.

Section wp_mem.
Implicit Types (m : mem) (E : stop -> mem -> Prop).

Lemma wp_load n a m v (Q : Z -> mem -> Prop) E :
  load_le n a m = Some v -> Q v m -> wp (load n a) Q E m.
Proof. intros H HQ. by eapply wp_read_opt. Qed.

Lemma wp_store n a v m (Q : unit -> mem -> Prop) E :
  has m a (Z.of_nat n) ->
  (forall m', store_le n a v m = Some m' -> upd m m' (inside a (Z.of_nat n)) (fun x => byte_of v (x - a)) -> Q tt m') ->
  wp (store n a v) Q E m.
Proof.
  intros Hh HQ. destruct (store_le_has n a v m Hh) as [m' Hm]. unfold wp, store. rewrite Hm.
  apply HQ; [done|]. intros x. rewrite (store_le_lookup _ _ _ _ _ _ Hm).
  case_decide; destruct (inside_spec a (Z.of_nat n) x); (done || lia).
Qed.

Lemma upd_has m m' P f a n : upd m m' P f -> has m a n -> has m' a n.
Proof. intros Hu Hh x Hx. rewrite Hu. destruct (P x); [by eexists|by apply Hh]. Qed.

Lemma upd_bytes m m' P f : upd m m' P f -> (forall x, P x = true -> 0 <= f x < 256) -> bytes_ok m -> bytes_ok m'.
Proof.
  intros Hu Hf Hm x b. rewrite Hu. destruct (P x) eqn:HP; [|by apply Hm]. intros [= <-]. by apply Hf.
Qed.

(** A store adds and removes no address. *)
Lemma store_dom n a v m m' x : store_le n a v m = Some m' -> is_Some (m' !! x) <-> is_Some (m !! x).
Proof.
  revert a v m. induction n as [|n IH]; intros a v m H; cbn [store_le] in H; [by injection H as <-|].
  destruct (m !! a) as [b|] eqn:E; [|done]. rewrite (IH _ _ _ H). destruct (decide (x = a)) as [->|Hne].
  - rewrite lookup_insert_eq, E. split; intros _; by eexists.
  - by rewrite lookup_insert_ne.
Qed.

Lemma store_bytes_ok n a v m m' : store_le n a v m = Some m' -> bytes_ok m -> bytes_ok m'.
Proof.
  intros H Hm x b. rewrite (store_le_lookup _ _ _ _ _ _ H). case_decide; [|by apply Hm].
  intros [= <-]. apply byte_of_range.
Qed.
End wp_mem.

(** ** Lengths as integers *)
Definition lenZ {A} (l : list A) : Z := Z.of_nat (length l).

Lemma lenZ_app {A} (l1 l2 : list A) : lenZ (l1 ++ l2) = lenZ l1 + lenZ l2.
Proof. unfold lenZ. rewrite length_app. lia. Qed.

(** ** Bytes in memory *)
Definition bytes_at (m : mem) (a : Z) (l : list Z) : Prop := forall (i : nat) b, l !! i = Some b -> m !! (a + Z.of_nat i) = Some b.

Lemma bytes_at_app m a l1 l2 : bytes_at m a (l1 ++ l2) <-> bytes_at m a l1 /\ bytes_at m (a + Z.of_nat (length l1)) l2.
Proof.
  split.
  - intros Hb. split; intros i b Hi.
    + apply Hb. rewrite lookup_app_l; [done|]. by eapply lookup_lt_Some.
    + rewrite <- Z.add_assoc, <- Nat2Z.inj_add. apply Hb. by rewrite lookup_app_r, Nat.add_comm, Nat.add_sub by lia.
  - intros [H1 H2] i b Hi. apply lookup_app_Some in Hi as [Hi|[Hge Hi]]; [by apply H1|].
    replace (a + Z.of_nat i) with (a + Z.of_nat (length l1) + Z.of_nat (i - length l1)) by lia. by apply H2.
Qed.

(** The [n]-byte little-endian value at offset [k] of [l]. *)
Fixpoint le_value (l : list Z) : Z := match l with [] => 0 | b :: l => b + 256 * le_value l end.
Definition le_at (l : list Z) (k : Z) (n : nat) : Z := le_value (take n (drop (Z.to_nat k) l)).

Lemma load_bytes n : forall m a l, bytes_at m a l -> (n <= length l)%nat -> load_le n a m = Some (le_value (take n l)).
Proof.
  induction n as [|n IH]; intros m a l Hb Hl; [done|]. destruct l as [|b l]; [cbn in Hl; lia|]. cbn [load_le take le_value].
  pose proof (Hb 0%nat b eq_refl) as H0. change (Z.of_nat 0) with 0 in H0. rewrite Z.add_0_r in H0. rewrite H0. cbn [mbind option_bind].
  rewrite (IH m (a + 1) l); [done| |cbn in Hl; lia]. intros i c Hi. replace (a + 1 + Z.of_nat i) with (a + Z.of_nat (S i)) by lia. by apply Hb.
Qed.

Lemma load_le_at n m a l k : bytes_at m a l -> 0 <= k -> k + Z.of_nat n <= lenZ l -> load_le n (a + k) m = Some (le_at l k n).
Proof.
  intros Hb Hk Hl. apply load_bytes; [|rewrite length_drop; unfold lenZ in Hl; lia]. intros i c Hi. rewrite lookup_drop in Hi.
  replace (a + k + Z.of_nat i) with (a + Z.of_nat (Z.to_nat k + i)) by lia. by apply Hb.
Qed.

Lemma le_value_range l : (forall b, b ∈ l -> 0 <= b < 256) -> 0 <= le_value l < 2 ^ (8 * lenZ l).
Proof.
  induction l as [|b l IH]; intros Hl; cbn [le_value]; [by vm_compute|]. pose proof (Hl b ltac:(by left)).
  destruct IH as [H1 H2]; [intros c Hc; apply Hl; by right|]. replace (8 * lenZ (b :: l)) with (8 + 8 * lenZ l) by (unfold lenZ; cbn [length]; lia).
  rewrite Z.pow_add_r by (unfold lenZ; lia). change (2 ^ 8) with 256. lia.
Qed.

Lemma le_at_range l k n : (forall b, b ∈ l -> 0 <= b < 256) -> 0 <= le_at l k n < 2 ^ (8 * Z.of_nat n).
Proof.
  intros Hl. unfold le_at. destruct (le_value_range (take n (drop (Z.to_nat k) l))) as [H1 H2].
  { intros b Hb. apply Hl. apply elem_of_take in Hb as (i & Hi & _). rewrite lookup_drop in Hi. by eapply list_elem_of_lookup_2. }
  split; [done|]. eapply Z.lt_le_trans; [exact H2|]. apply Z.pow_le_mono_r; [lia|]. unfold lenZ. rewrite length_take. lia.
Qed.

(** The same, decided. *)
Fixpoint bytes_atb (m : mem) (a : Z) (l : list Z) : bool :=
  match l with
  | [] => true
  | b :: l => bool_decide (m !! a = Some b) && bytes_atb m (a + 1) l
  end.
Lemma bytes_atb_ok m l : forall a, bytes_atb m a l = true -> bytes_at m a l.
Proof.
  induction l as [|b l IH]; intros a Hb i c Hi; [done|]. cbn in Hb. apply andb_prop in Hb as [H1 H2]. apply bool_decide_eq_true in H1.
  destruct i as [|i]; cbn in Hi; [injection Hi as <-; by rewrite Z.add_0_r|]. apply (IH _ H2) in Hi.
  by replace (a + Z.of_nat (S i)) with (a + 1 + Z.of_nat i) by lia.
Qed.

