(* ===== verification/Str.v ===== *)
(** * util/string.c

    [memcpy], [memset], [memmove], [strlen], [strcmp], [strcpy],
    [safestrcpy] and [atol] over byte memory, with their word and byte loops.
    A [char] is an unsigned byte, as in the RISC-V ABI.  Scans for a
    terminator get one step per byte of memory and one more. *)
From stdpp Require Import base gmap list strings.
From Stdlib Require Import ZArith Lia.
From S2P Require Import Prelude Mem.

(** ** Copying *)
Fixpoint memcpy_words (fuel : nat) (d s e : Z) : M mem (Z * Z) :=
  if d <? e then
    match fuel with
    | O => halt OutOfFuel
    | S fuel =>
        let* w := load64 s in
        store64 d w ;;;
        memcpy_words fuel (u64 (d + 8)) (u64 (s + 8)) e
    end
  else ret (d, s).

Fixpoint memcpy_bytes (fuel : nat) (d s e : Z) : M mem unit :=
  if d <? e then
    match fuel with
    | O => halt OutOfFuel
    | S fuel =>
        let* b := load8 s in
        store8 d b ;;;
        memcpy_bytes fuel (u64 (d + 1)) (u64 (s + 1)) e
    end
  else ret tt.

Definition memcpy (dest src len : Z) : M mem Z :=
  let* r := (if Z.land (Z.lor dest src) 7 =? 0
             then memcpy_words (Z.to_nat (len / 8)) dest src (u64 (dest + len - 7))
             else ret (dest, src)) in
  let '(d, s) := r in
  memcpy_bytes (Z.to_nat len) d s (u64 (dest + len)) ;;;
  ret dest.

(** [while (n-- > 0) *d++ = *s++] and [while (n-- > 0) *--d = *--s]. *)
Fixpoint move_up (n : nat) (d s : Z) : M mem unit :=
  match n with
  | O => ret tt
  | S n => let* b := load8 s in store8 d b ;;; move_up n (u64 (d + 1)) (u64 (s + 1))
  end.
Fixpoint move_down (n : nat) (d s : Z) : M mem unit :=
  match n with
  | O => ret tt
  | S n => let* b := load8 (u64 (s - 1)) in store8 (u64 (d - 1)) b ;;; move_down n (u64 (d - 1)) (u64 (s - 1))
  end.
Definition memmove (dst src n : Z) : M mem Z :=
  (if (src <? dst) && (dst <? u64 (src + n))
   then move_down (Z.to_nat n) (u64 (dst + n)) (u64 (src + n))
   else move_up (Z.to_nat n) dst src) ;;;
  ret dst.

(** ** Filling *)
Fixpoint memset_words (fuel : nat) (d e word : Z) : M mem unit :=
  if d <? e then
    match fuel with
    | O => halt OutOfFuel
    | S fuel => store64 d word ;;; memset_words fuel (u64 (d + 8)) e word
    end
  else ret tt.
Fixpoint memset_bytes (fuel : nat) (d e byte : Z) : M mem unit :=
  if d <? e then
    match fuel with
    | O => halt OutOfFuel
    | S fuel => store8 d byte ;;; memset_bytes fuel (u64 (d + 1)) e byte
    end
  else ret tt.
Definition memset_word (byte : Z) : Z :=
  let word := Z.land byte 255 in
  let word := Z.lor word (u64 (Z.shiftl word 8)) in
  let word := Z.lor word (u64 (Z.shiftl word 16)) in
  Z.lor word (u64 (Z.shiftl (u64 (Z.shiftl word 16)) 16)).
Definition memset (dest byte len : Z) : M mem Z :=
  (if Z.land (Z.lor dest len) 7 =? 0
   then memset_words (Z.to_nat (len / 8)) dest (u64 (dest + len)) (memset_word byte)
   else memset_bytes (Z.to_nat len) dest (u64 (dest + len)) byte) ;;;
  ret dest.

(** ** Strings *)
Definition scan_fuel : M mem nat := gets (fun m => S (size m)).

Fixpoint strlen_loop (fuel : nat) (p : Z) : M mem Z :=
  match fuel with
  | O => halt OutOfFuel
  | S fuel => let* c := load8 p in if c =? 0 then ret p else strlen_loop fuel (u64 (p + 1))
  end.
Definition strlen (s : Z) : M mem Z :=
  let* f := scan_fuel in let* p := strlen_loop f s in ret (u64 (p - s)).

Fixpoint strcmp_loop (fuel : nat) (s1 s2 : Z) : M mem Z :=
  match fuel with
  | O => halt OutOfFuel
  | S fuel =>
      let* c1 := load8 s1 in
      let* c2 := load8 s2 in
      if negb (c1 =? 0) && (c1 =? c2) then strcmp_loop fuel (u64 (s1 + 1)) (u64 (s2 + 1))
      else ret (c1 - c2)
  end.
Definition strcmp (s1 s2 : Z) : M mem Z := let* f := scan_fuel in strcmp_loop f s1 s2.

Fixpoint strcpy_loop (fuel : nat) (d s : Z) : M mem unit :=
  match fuel with
  | O => halt OutOfFuel
  | S fuel =>
      let* c := load8 s in
      store8 d c ;;;
      if c =? 0 then ret tt else strcpy_loop fuel (u64 (d + 1)) (u64 (s + 1))
  end.
Definition strcpy (dest src : Z) : M mem Z :=
  let* f := scan_fuel in strcpy_loop f dest src ;;; ret dest.

(** [while (--n > 0 && ( *s++ = *t++ ) != 0)]: where [s] ends. *)
Fixpoint safestrcpy_loop (n : nat) (s t : Z) : M mem Z :=
  match n with
  | O => ret s
  | S n =>
      let* c := load8 t in
      store8 s c ;;;
      if c =? 0 then ret (u64 (s + 1)) else safestrcpy_loop n (u64 (s + 1)) (u64 (t + 1))
  end.
Definition safestrcpy (s t n : Z) : M mem Z :=
  if n <=? 0 then ret s
  else let* e := safestrcpy_loop (Z.to_nat (n - 1)) s t in store8 e 0 ;;; ret s.

Fixpoint skip_spaces (fuel : nat) (p : Z) : M mem Z :=
  match fuel with
  | O => halt OutOfFuel
  | S fuel => let* c := load8 p in if c =? 32 then skip_spaces fuel (u64 (p + 1)) else ret p
  end.
Fixpoint atol_digits (fuel : nat) (p res : Z) : M mem Z :=
  match fuel with
  | O => halt OutOfFuel
  | S fuel =>
      let* c := load8 p in
      if c =? 0 then ret res
      else atol_digits fuel (u64 (p + 1)) (s64 (s64 (res * 10) + (c - 48)))
  end.
Definition atol (str : Z) : M mem Z :=
  let* f := scan_fuel in
  let* p := skip_spaces f str in
  let* c := load8 p in
  let sign := (c =? 45) in
  let p := if (c =? 45) || (c =? 43) then u64 (p + 1) else p in
  let* res := atol_digits f p 0 in
  ret (if sign then s64 (- res) else res).

(** ** Specifications *)
Definition copied (m m' : mem) (d s n : Z) : Prop :=
  forall x, m' !! x = if inside d n x then m !! (s + (x - d)) else m !! x.

Definition filled (m m' : mem) (d n b : Z) : Prop := upd m m' (inside d n) (fun _ => b mod 256).

(** A string of the bytes [l] at [a]. *)
Record cstr (m : mem) (a : Z) (l : list Z) : Prop := {
  cs_byte i c : l !! i = Some c -> m !! (a + Z.of_nat i) = Some c;
  cs_char c : c ∈ l -> 0 < c < 256;
  cs_end : m !! (a + Z.of_nat (length l)) = Some 0
}.

Section copying.
Implicit Types (m : mem) (d s n : Z).

Lemma copied_0 m d s n : n <= 0 -> copied m m d s n.
Proof. intros Hn x. destruct (inside_spec d n x); [lia|done]. Qed.

Ltac cases := repeat match goal with
  | |- context [inside ?a ?n ?x] => destruct (inside_spec a n x)
  end.

(** Chunk by chunk upwards; chunk by chunk downwards. *)
Lemma copied_up m m1 m' d s k n :
  0 <= k -> 0 <= n -> d <= s \/ s + (k + n) <= d ->
  copied m m1 d s k -> copied m1 m' (d + k) (s + k) n -> copied m m' d s (k + n).
Proof.
  intros Hk Hn Hd H1 H2 x. rewrite H2. cases; try lia; rewrite ?H1; cases; try lia; try done.
  f_equal. lia.
Qed.

Lemma copied_down m m1 m' d s k n :
  0 <= k -> 0 <= n -> s <= d \/ d + (k + n) <= s ->
  copied m m1 (d + n) (s + n) k -> copied m1 m' d s n -> copied m m' d s (k + n).
Proof.
  intros Hk Hn Hd H1 H2 x. rewrite H2. cases; try lia; rewrite ?H1; cases; try lia; try done.
  f_equal. lia.
Qed.

Lemma copied_has m m' d s n a k :
  copied m m' d s n -> has m s n -> has m a k -> has m' a k.
Proof.
  intros Hc Hs Ha x Hx. rewrite Hc. cases; [|by apply Ha]. apply Hs. lia.
Qed.

Lemma copied_bytes m m' d s n : copied m m' d s n -> bytes_ok m -> bytes_ok m'.
Proof. intros Hc Hm x b. rewrite Hc. cases; apply Hm. Qed.

(** One load and one store of [k] bytes. *)
Lemma wp_move k m d s (Q : unit -> mem -> Prop) E :
  bytes_ok m -> has m d (Z.of_nat k) -> has m s (Z.of_nat k) ->
  (forall m', copied m m' d s (Z.of_nat k) -> Q tt m') ->
  wp (let* v := load k s in store k d v) Q E m.
Proof.
  intros Hm Hd Hs HQ. destruct (load_le_has k s m Hs) as [v Hv].
  apply wp_bind. eapply wp_load; [exact Hv|]. apply wp_store; [done|]. intros m' _ Hu.
  apply HQ. intros x. rewrite Hu. cases; [|done].
  rewrite (bytes_of_load k s m v) by (done || lia). do 2 f_equal. lia.
Qed.

(** Same, inside a longer sequence. *)
Lemma wp_move_then {B} k m d s (cont : M mem B) (Q : B -> mem -> Prop) E :
  bytes_ok m -> has m d (Z.of_nat k) -> has m s (Z.of_nat k) ->
  (forall m', copied m m' d s (Z.of_nat k) -> bytes_ok m' -> wp cont Q E m') ->
  wp (let* v := load k s in store k d v ;;; cont) Q E m.
Proof.
  intros Hm Hd Hs HQ.
  assert (H : wp (let* v := load k s in store k d v) (fun _ m' => wp cont Q E m') E m).
  { apply wp_move; [done..|]. intros m' Hc. apply HQ; [done|]. by eapply copied_bytes. }
  revert H. unfold wp, bind. destruct (load k s m) as [v m1|]; [|done]. by destruct (store k d v m1).
Qed.
End copying.

Ltac unwrap := rewrite ?u64_id by (unfold is_u64 in *; lia).

Section loops.
Implicit Types (m : mem) (d s : Z).

Lemma has_sub m a k b (n : Z) : has m a k -> a <= b -> b + n <= a + k -> has m b n.
Proof. intros H H1 H2 x Hx. apply H. lia. Qed.

Lemma wp_move_up (n : nat) : forall m d s (Q : unit -> mem -> Prop) E,
  bytes_ok m -> has m d (Z.of_nat n) -> has m s (Z.of_nat n) ->
  0 <= d -> 0 <= s -> d + Z.of_nat n < 2 ^ 64 -> s + Z.of_nat n < 2 ^ 64 ->
  d <= s \/ s + Z.of_nat n <= d ->
  (forall m', copied m m' d s (Z.of_nat n) -> Q tt m') -> wp (move_up n d s) Q E m.
Proof.
  induction n as [|n IH]; intros m d s Q E Hm Hd Hs Hd0 Hs0 Hdt Hst Hov HQ; cbn [move_up].
  - apply wp_ret, HQ, copied_0. lia.
  - apply wp_move_then; [done|by eapply has_sub; [exact Hd|lia..]|by eapply has_sub; [exact Hs|lia..]|].
    intros m1 Hc1 Hm1. unwrap. apply IH; try lia; try done.
    + eapply has_sub; [eapply copied_has; [exact Hc1| |exact Hd]|lia..]. eapply has_sub; [exact Hs|lia..].
    + eapply has_sub; [eapply copied_has; [exact Hc1| |exact Hs]|lia..]. eapply has_sub; [exact Hs|lia..].
    + intros m' Hc'. apply HQ. replace (Z.of_nat (S n)) with (1 + Z.of_nat n) by lia.
      apply (copied_up m m1); (done || lia).
Qed.

Lemma wp_move_down (n : nat) : forall m d s (Q : unit -> mem -> Prop) E,
  bytes_ok m -> has m d (Z.of_nat n) -> has m s (Z.of_nat n) ->
  0 <= d -> 0 <= s -> d + Z.of_nat n < 2 ^ 64 -> s + Z.of_nat n < 2 ^ 64 ->
  s <= d \/ d + Z.of_nat n <= s ->
  (forall m', copied m m' d s (Z.of_nat n) -> Q tt m') ->
  wp (move_down n (d + Z.of_nat n) (s + Z.of_nat n)) Q E m.
Proof.
  induction n as [|n IH]; intros m d s Q E Hm Hd Hs Hd0 Hs0 Hdt Hst Hov HQ; cbn [move_down].
  - apply wp_ret, HQ, copied_0. lia.
  - replace (d + Z.of_nat (S n) - 1) with (d + Z.of_nat n) by lia.
    replace (s + Z.of_nat (S n) - 1) with (s + Z.of_nat n) by lia. unwrap.
    apply wp_move_then; [done|by eapply has_sub; [exact Hd|lia..]|by eapply has_sub; [exact Hs|lia..]|].
    intros m1 Hc1 Hm1. apply IH; try lia; try done.
    + eapply has_sub; [eapply copied_has; [exact Hc1| |exact Hd]|lia..]. eapply has_sub; [exact Hs|lia..].
    + eapply has_sub; [eapply copied_has; [exact Hc1| |exact Hs]|lia..]. eapply has_sub; [exact Hs|lia..].
    + intros m' Hc'. apply HQ. replace (Z.of_nat (S n)) with (1 + Z.of_nat n) by lia.
      apply (copied_down m m1); (done || lia).
Qed.

Lemma wp_memcpy_bytes (n : nat) : forall m d s (Q : unit -> mem -> Prop) E,
  bytes_ok m -> has m d (Z.of_nat n) -> has m s (Z.of_nat n) ->
  0 <= d -> 0 <= s -> d + Z.of_nat n < 2 ^ 64 -> s + Z.of_nat n < 2 ^ 64 ->
  d <= s \/ s + Z.of_nat n <= d ->
  (forall m', copied m m' d s (Z.of_nat n) -> Q tt m') ->
  forall fuel, (n <= fuel)%nat -> wp (memcpy_bytes fuel d s (d + Z.of_nat n)) Q E m.
Proof.
  induction n as [|n IH]; intros m d s Q E Hm Hd Hs Hd0 Hs0 Hdt Hst Hov HQ fuel Hf.
  - destruct fuel; cbn [memcpy_bytes]; (rewrite (proj2 (Z.ltb_ge _ _)) by lia); apply wp_ret, HQ, copied_0; lia.
  - destruct fuel as [|fuel]; [lia|]. cbn [memcpy_bytes]. rewrite (proj2 (Z.ltb_lt _ _)) by lia.
    apply wp_move_then; [done|by eapply has_sub; [exact Hd|lia..]|by eapply has_sub; [exact Hs|lia..]|].
    intros m1 Hc1 Hm1. unwrap. replace (d + Z.of_nat (S n)) with ((d + 1) + Z.of_nat n) by lia.
    apply IH; try lia; try done.
    + eapply has_sub; [eapply copied_has; [exact Hc1| |exact Hd]|lia..]. eapply has_sub; [exact Hs|lia..].
    + eapply has_sub; [eapply copied_has; [exact Hc1| |exact Hs]|lia..]. eapply has_sub; [exact Hs|lia..].
    + intros m' Hc'. apply HQ. replace (Z.of_nat (S n)) with (1 + Z.of_nat n) by lia.
      apply (copied_up m m1); (done || lia).
Qed.

(** The word loop copies whole words and leaves fewer than eight bytes. *)
Lemma wp_memcpy_words (k : nat) : forall m d s len (Q : Z * Z -> mem -> Prop) E,
  bytes_ok m -> 8 * Z.of_nat k <= len < 8 * Z.of_nat k + 8 ->
  has m d len -> has m s len -> 0 <= d -> 0 <= s -> 7 <= d + len < 2 ^ 64 -> s + len < 2 ^ 64 ->
  d <= s \/ s + len <= d ->
  (forall m', copied m m' d s (8 * Z.of_nat k) -> Q (d + 8 * Z.of_nat k, s + 8 * Z.of_nat k) m') ->
  wp (memcpy_words k d s (d + len - 7)) Q E m.
Proof.
  induction k as [|k IH]; intros m d s len Q E Hm Hl Hd Hs Hd0 Hs0 Hdt Hst Hov HQ; cbn [memcpy_words].
  - rewrite (proj2 (Z.ltb_ge _ _)) by lia. apply wp_ret.
    assert (Hc : copied m m d s (8 * Z.of_nat 0)) by (apply copied_0; lia). specialize (HQ m Hc).
    by replace (d + 8 * Z.of_nat 0) with d in HQ by lia; replace (s + 8 * Z.of_nat 0) with s in HQ by lia.
  - rewrite (proj2 (Z.ltb_lt _ _)) by lia.
    apply wp_move_then; [done|by eapply has_sub; [exact Hd|lia..]|by eapply has_sub; [exact Hs|lia..]|].
    intros m1 Hc1 Hm1. change (Z.of_nat 8) with 8 in Hc1. unwrap.
    assert (Hs1 : has m s 8) by (eapply has_sub; [exact Hs|lia..]).
    replace (d + len - 7) with ((d + 8) + (len - 8) - 7) by lia.
    apply IH; try lia; try done.
    + eapply has_sub; [eapply copied_has; [exact Hc1|done|exact Hd]|lia..].
    + eapply has_sub; [eapply copied_has; [exact Hc1|done|exact Hs]|lia..].
    + intros m' Hc'.
      replace (d + 8 + 8 * Z.of_nat k) with (d + 8 * Z.of_nat (S k)) by lia.
      replace (s + 8 + 8 * Z.of_nat k) with (s + 8 * Z.of_nat (S k)) by lia.
      apply HQ. replace (8 * Z.of_nat (S k)) with (8 + 8 * Z.of_nat k) by lia.
      apply (copied_up m m1); (done || lia).
Qed.

Lemma wp_memcpy m d s len (Q : Z -> mem -> Prop) E :
  bytes_ok m -> 0 <= len -> has m d len -> has m s len -> 7 <= d -> 0 <= s -> d + len < 2 ^ 64 -> s + len < 2 ^ 64 ->
  d <= s \/ s + len <= d -> (forall m', copied m m' d s len -> Q d m') -> wp (memcpy d s len) Q E m.
Proof.
  intros Hm Hl Hd Hs Hd0 Hs0 Hdt Hst Hov HQ. unfold memcpy. apply wp_bind. unwrap.
  destruct (Z.land (Z.lor d s) 7 =? 0).
  - set (k := Z.to_nat (len / 8)).
    assert (Hk : 8 * Z.of_nat k <= len < 8 * Z.of_nat k + 8) by (unfold k; zlia).
    apply (wp_memcpy_words k m d s len); try done; try lia. intros m1 Hc1. cbv iota. apply wp_bind.
    replace (d + len) with ((d + 8 * Z.of_nat k) + Z.of_nat (Z.to_nat (len - 8 * Z.of_nat k))) by lia.
    assert (Hs1 : has m s (8 * Z.of_nat k)) by (eapply has_sub; [exact Hs|lia..]).
    apply wp_memcpy_bytes; try lia.
    + by eapply copied_bytes.
    + eapply has_sub; [eapply copied_has; [exact Hc1|done|exact Hd]|lia..].
    + eapply has_sub; [eapply copied_has; [exact Hc1|done|exact Hs]|lia..].
    + intros m' Hc'. apply wp_ret, HQ. replace len with (8 * Z.of_nat k + (len - 8 * Z.of_nat k)) by lia.
      rewrite Z2Nat.id in Hc' by lia. apply (copied_up m m1); (done || lia).
  - apply wp_ret. cbv iota. apply wp_bind.
    replace (d + len) with (d + Z.of_nat (Z.to_nat len)) by lia.
    apply wp_memcpy_bytes; rewrite ?Z2Nat.id by lia; try done; try lia.
Qed.

Lemma wp_memmove m d s len (Q : Z -> mem -> Prop) E :
  bytes_ok m -> 0 <= len -> has m d len -> has m s len -> 0 <= d -> 0 <= s -> d + len < 2 ^ 64 -> s + len < 2 ^ 64 ->
  (forall m', copied m m' d s len -> Q d m') -> wp (memmove d s len) Q E m.
Proof.
  intros Hm Hl Hd Hs Hd0 Hs0 Hdt Hst HQ. unfold memmove. apply wp_bind. unwrap.
  destruct (Z.ltb_spec s d), (Z.ltb_spec d (s + len)); cbn [andb].
  1: replace (d + len) with (d + Z.of_nat (Z.to_nat len)) by lia;
     replace (s + len) with (s + Z.of_nat (Z.to_nat len)) by lia; apply wp_move_down.
  all: try apply wp_move_up.
  all: rewrite ?Z2Nat.id by lia; try done; try lia.
Qed.
End loops.

Section filling.
Implicit Types (m : mem) (d : Z).

Lemma memset_word_bytes b i : 0 <= i < 8 -> byte_of (memset_word b) i = b mod 256.
Proof.
  intros Hi. set (c := b mod 256).
  assert (Hc : 0 <= c < 256) by (apply Z.mod_pos_bound; lia).
  assert (E : memset_word b = memset_word c).
  { unfold memset_word. assert (El : Z.land b 255 = Z.land c 255); [|by rewrite El].
    change 255 with (2 ^ 8 - 1). rewrite !land_low by lia. unfold c. by rewrite Z.mod_mod by lia. }
  rewrite E. clearbody c. clear E.
  assert (H : forallb (fun c => forallb (fun i => byte_of (memset_word c) i =? c) (seqZ 0 8)) (seqZ 0 256) = true)
    by (vm_compute; reflexivity).
  rewrite forallb_forall in H. specialize (H c). rewrite forallb_forall in H.
  assert (Hin : forall k n, 0 <= k < n -> In k (seqZ 0 n)).
  { intros k n Hk. apply list_elem_of_In, elem_of_seqZ. lia. }
  specialize (H (Hin _ _ Hc) i (Hin _ _ Hi)). by apply Z.eqb_eq in H.
Qed.

Lemma filled_0 m d b : filled m m d 0 b.
Proof. intros x. destruct (inside_spec d 0 x); [lia|done]. Qed.

Lemma filled_step m m1 m' d k n b :
  0 <= k -> 0 <= n -> filled m m1 d k b -> filled m1 m' (d + k) n b -> filled m m' d (k + n) b.
Proof.
  intros Hk Hn H1 H2 x. rewrite H2, H1.
  destruct (inside_spec (d + k) n x), (inside_spec d k x), (inside_spec d (k + n) x); (done || lia).
Qed.

Lemma wp_memset_bytes (n : nat) : forall m d b (Q : unit -> mem -> Prop) E,
  has m d (Z.of_nat n) -> 0 <= d -> d + Z.of_nat n < 2 ^ 64 ->
  (forall m', filled m m' d (Z.of_nat n) b -> Q tt m') ->
  forall fuel, (n <= fuel)%nat -> wp (memset_bytes fuel d (d + Z.of_nat n) b) Q E m.
Proof.
  induction n as [|n IH]; intros m d b Q E Hd Hd0 Hdt HQ fuel Hf.
  - destruct fuel; cbn [memset_bytes]; (rewrite (proj2 (Z.ltb_ge _ _)) by lia); apply wp_ret, HQ, filled_0.
  - destruct fuel as [|fuel]; [lia|]. cbn [memset_bytes]. rewrite (proj2 (Z.ltb_lt _ _)) by lia.
    apply wp_bind, wp_store; [by eapply has_sub; [exact Hd|lia..]|]. intros m1 _ Hu. unwrap.
    replace (d + Z.of_nat (S n)) with ((d + 1) + Z.of_nat n) by lia.
    apply IH; [eapply has_sub; [eapply upd_has; [exact Hu|exact Hd]|lia..]|lia|lia| |lia].
    intros m' Hm'. apply HQ. replace (Z.of_nat (S n)) with (1 + Z.of_nat n) by lia.
    apply (filled_step m m1); [lia..| |done]. intros x. rewrite Hu. change (Z.of_nat 1) with 1.
    destruct (inside_spec d 1 x); [|done]. by replace (x - d) with 0 by lia; rewrite byte_of_0.
Qed.

Lemma wp_memset_words (k : nat) : forall m d b (Q : unit -> mem -> Prop) E,
  has m d (8 * Z.of_nat k) -> 0 <= d -> d + 8 * Z.of_nat k < 2 ^ 64 ->
  (forall m', filled m m' d (8 * Z.of_nat k) b -> Q tt m') ->
  wp (memset_words k d (d + 8 * Z.of_nat k) (memset_word b)) Q E m.
Proof.
  induction k as [|k IH]; intros m d b Q E Hd Hd0 Hdt HQ; cbn [memset_words].
  - rewrite (proj2 (Z.ltb_ge _ _)) by lia. apply wp_ret, HQ, filled_0.
  - rewrite (proj2 (Z.ltb_lt _ _)) by lia.
    apply wp_bind, wp_store; [by eapply has_sub; [exact Hd|lia..]|]. intros m1 _ Hu. unwrap.
    replace (d + 8 * Z.of_nat (S k)) with ((d + 8) + 8 * Z.of_nat k) by lia.
    apply IH; [eapply has_sub; [eapply upd_has; [exact Hu|exact Hd]|lia..]|lia|lia|].
    intros m' Hm'. apply HQ. replace (8 * Z.of_nat (S k)) with (8 + 8 * Z.of_nat k) by lia.
    apply (filled_step m m1); [lia..| |done]. intros x. rewrite Hu. change (Z.of_nat 8) with 8.
    destruct (inside_spec d 8 x); [|done]. rewrite memset_word_bytes by lia. done.
Qed.

Lemma wp_memset m d b len (Q : Z -> mem -> Prop) E :
  0 <= len -> has m d len -> 0 <= d -> d + len < 2 ^ 64 ->
  (forall m', filled m m' d len b -> Q d m') -> wp (memset d b len) Q E m.
Proof.
  intros Hl Hd Hd0 Hdt HQ. unfold memset. apply wp_bind. unwrap.
  destruct (Z.eqb_spec (Z.land (Z.lor d len) 7) 0) as [Hal|_].
  - assert (H8 : len mod 8 = 0).
    { apply Z.bits_inj'. intros i Hi. rewrite Z.bits_0.
      change 8 with (2 ^ 3). rewrite <- land_low, Z.land_spec by lia. change (2 ^ 3 - 1) with 7.
      assert (Hb : Z.testbit (Z.land (Z.lor d len) 7) i = false) by by rewrite Hal, Z.bits_0.
      rewrite Z.land_spec, Z.lor_spec in Hb. by destruct (Z.testbit d i), (Z.testbit len i), (Z.testbit 7 i). }
    assert (E8 : len = 8 * Z.of_nat (Z.to_nat (len / 8))) by zlia.
    rewrite E8 at 2. apply wp_memset_words; rewrite <- ?E8; try done.
  - replace (d + len) with (d + Z.of_nat (Z.to_nat len)) by lia.
    apply wp_memset_bytes; rewrite ?Z2Nat.id by lia; try done; lia.
Qed.
End filling.

Section strs.
Implicit Types (m : mem) (a : Z) (l : list Z).

Lemma has_size m a (n : nat) : has m a (Z.of_nat n) -> (n <= size m)%nat.
Proof.
  intros Hh. rewrite <- (size_dom (D := gset Z)).
  assert (Hsub : (list_to_set (seqZ a (Z.of_nat n)) : gset Z) ⊆ dom m).
  { intros x Hx. apply elem_of_list_to_set, elem_of_seqZ in Hx. apply elem_of_dom, Hh. lia. }
  apply subseteq_size in Hsub. rewrite size_list_to_set in Hsub by apply NoDup_seqZ.
  rewrite length_seqZ in Hsub. lia.
Qed.

Lemma cstr_has m a l : cstr m a l -> has m a (Z.of_nat (S (length l))).
Proof.
  intros [H1 _ H3] x Hx. destruct (decide (x = a + Z.of_nat (length l))) as [->|]; [by eexists|].
  destruct (lookup_lt_is_Some_2 l (Z.to_nat (x - a))) as [c Hc]; [lia|].
  apply H1 in Hc. rewrite Z2Nat.id in Hc by lia. replace (a + (x - a)) with x in Hc by lia. by eexists.
Qed.

Lemma cstr_fuel m a l : cstr m a l -> (length l < S (size m))%nat.
Proof. intros H%cstr_has%has_size. lia. Qed.

Lemma cstr_cons m a c l : cstr m a (c :: l) -> m !! a = Some c /\ 0 < c < 256 /\ cstr m (a + 1) l.
Proof.
  intros [H1 H2 H3]. split_and!.
  - rewrite <- (Z.add_0_r a). by apply (H1 0%nat).
  - apply H2, list_elem_of_here.
  - apply H2, list_elem_of_here.
  - split.
    + intros i c' Hi. replace (a + 1 + Z.of_nat i) with (a + Z.of_nat (S i)) by lia. by apply H1.
    + intros c' Hc. by apply H2, list_elem_of_further.
    + cbn in H3. by replace (a + 1 + Z.of_nat (length l)) with (a + Z.of_nat (S (length l))) by lia.
Qed.

Lemma cstr_nil m a : cstr m a [] -> m !! a = Some 0.
Proof. intros [_ _ H]. cbn in H. by rewrite Z.add_0_r in H. Qed.

Lemma wp_load8 m a b (Q : Z -> mem -> Prop) E : m !! a = Some b -> Q b m -> wp (load8 a) Q E m.
Proof.
  intros Hb HQ. apply (wp_load _ _ _ b); [|done]. cbn. rewrite Hb. cbn. f_equal. lia.
Qed.

Lemma wp_strlen_loop l : forall m p fuel (Q : Z -> mem -> Prop) E,
  cstr m p l -> 0 <= p -> p + Z.of_nat (length l) < 2 ^ 64 -> (length l < fuel)%nat ->
  Q (p + Z.of_nat (length l)) m -> wp (strlen_loop fuel p) Q E m.
Proof.
  induction l as [|c l IH]; intros m p fuel Q E Hc Hp Ht Hf HQ; (destruct fuel as [|fuel]; [cbn in Hf; lia|]);
    cbn [strlen_loop]; apply wp_bind.
  - eapply wp_load8; [by apply cstr_nil|]. apply wp_ret. cbn in HQ. by rewrite Z.add_0_r in HQ.
  - apply cstr_cons in Hc as (H1 & H2 & H3). cbn [length] in *. eapply wp_load8; [exact H1|].
    rewrite (proj2 (Z.eqb_neq _ _)) by lia. unwrap. apply IH; [done|lia..|].
    by replace (p + 1 + Z.of_nat (length l)) with (p + Z.of_nat (S (length l))) by lia.
Qed.

Lemma wp_strlen l m p (Q : Z -> mem -> Prop) E :
  cstr m p l -> 0 <= p -> p + Z.of_nat (length l) < 2 ^ 64 -> Q (Z.of_nat (length l)) m -> wp (strlen p) Q E m.
Proof.
  intros Hc Hp Ht HQ. unfold strlen, scan_fuel. apply wp_bind, wp_gets, wp_bind.
  apply (wp_strlen_loop l); [done|done|lia|by eapply cstr_fuel|]. apply wp_ret.
  replace (p + Z.of_nat (length l) - p) with (Z.of_nat (length l)) by lia. by rewrite u64_id by (unfold is_u64; lia).
Qed.

(** strcmp's answer, on the strings themselves. *)
Fixpoint str_cmp l1 l2 : Z :=
  match l1, l2 with
  | c1 :: l1, c2 :: l2 => if c1 =? c2 then str_cmp l1 l2 else c1 - c2
  | c1 :: _, [] => c1
  | [], c2 :: _ => - c2
  | [], [] => 0
  end.

Lemma str_cmp_eq l1 l2 :
  (forall c, c ∈ l1 -> 0 < c) -> (forall c, c ∈ l2 -> 0 < c) -> str_cmp l1 l2 = 0 <-> l1 = l2.
Proof.
  revert l2. induction l1 as [|c1 l1 IH]; intros [|c2 l2] H1 H2; cbn.
  - done.
  - specialize (H2 c2 ltac:(apply list_elem_of_here)). split; [lia|done].
  - specialize (H1 c1 ltac:(apply list_elem_of_here)). split; [lia|done].
  - destruct (Z.eqb_spec c1 c2) as [->|Hne].
    + rewrite IH; [split; [by intros ->|by intros [= ->]]|..]; intros c Hc;
        [apply H1|apply H2]; by apply list_elem_of_further.
    + split; [lia|]. by intros [= ? _].
Qed.

Lemma wp_strcmp_loop l1 : forall l2 m p q fuel (Q : Z -> mem -> Prop) E,
  cstr m p l1 -> cstr m q l2 -> 0 <= p -> 0 <= q ->
  p + Z.of_nat (length l1) < 2 ^ 64 -> q + Z.of_nat (length l2) < 2 ^ 64 -> (length l1 < fuel)%nat ->
  Q (str_cmp l1 l2) m -> wp (strcmp_loop fuel p q) Q E m.
Proof.
  induction l1 as [|c1 l1 IH]; intros l2 m p q fuel Q E H1 H2 Hp Hq Ht1 Ht2 Hf HQ;
    (destruct fuel as [|fuel]; [cbn in Hf; lia|]); cbn [strcmp_loop]; apply wp_bind.
  - eapply wp_load8; [by apply cstr_nil|]. apply wp_bind. destruct l2 as [|c2 l2].
    + eapply wp_load8; [by apply cstr_nil|]. by apply wp_ret.
    + apply cstr_cons in H2 as (E2 & _). eapply wp_load8; [exact E2|]. by apply wp_ret.
  - apply cstr_cons in H1 as (E1 & R1 & H1). eapply wp_load8; [exact E1|]. apply wp_bind.
    rewrite (proj2 (Z.eqb_neq c1 0)) by lia. cbn [negb andb]. destruct l2 as [|c2 l2].
    + eapply wp_load8; [by apply cstr_nil|]. rewrite (proj2 (Z.eqb_neq c1 0)) by lia. apply wp_ret.
      rewrite Z.sub_0_r. exact HQ.
    + apply cstr_cons in H2 as (E2 & R2 & H2). eapply wp_load8; [exact E2|]. cbn [length str_cmp] in *.
      destruct (c1 =? c2); [|by apply wp_ret]. unwrap. eapply IH; [exact H1|exact H2|lia..|done].
Qed.

Lemma wp_strcpy_loop l : forall m d s fuel (Q : unit -> mem -> Prop) E,
  cstr m s l -> has m d (Z.of_nat (S (length l))) -> bytes_ok m ->
  0 <= d -> 0 <= s -> d + Z.of_nat (S (length l)) < 2 ^ 64 -> s + Z.of_nat (S (length l)) < 2 ^ 64 ->
  d + Z.of_nat (S (length l)) <= s \/ s + Z.of_nat (S (length l)) <= d -> (length l < fuel)%nat ->
  (forall m', copied m m' d s (Z.of_nat (S (length l))) -> Q tt m') ->
  wp (strcpy_loop fuel d s) Q E m.
Proof.
  induction l as [|c l IH]; intros m d s fuel Q E Hc Hd Hm Hd0 Hs0 Hdt Hst Hov Hf HQ;
    (destruct fuel as [|fuel]; [cbn in Hf; lia|]); cbn [strcpy_loop]; pose proof (cstr_has _ _ _ Hc) as Hs.
  all: assert (Hstep : forall m', upd m m' (inside d (Z.of_nat 1)) (fun x => byte_of (default 0 (m !! s)) (x - d)) ->
    copied m m' d s 1).
  1, 3: intros m' Hu x; rewrite Hu; change (Z.of_nat 1) with 1; destruct (inside_spec d 1 x); [|done];
      replace (x - d) with 0 by lia; rewrite byte_of_0, Z.add_0_r;
      destruct (Hs s ltac:(lia)) as [b Hb]; rewrite Hb; cbn; f_equal;
      apply Z.mod_small; by apply Hm in Hb.
  - apply cstr_nil in Hc. apply wp_bind. eapply wp_load8; [exact Hc|]. rewrite Hc in Hstep.
    apply wp_bind, wp_store; [by eapply has_sub; [exact Hd|cbn; lia..]|]. intros m' _ Hu. apply wp_ret, HQ, Hstep, Hu.
  - pose proof Hc as Hc0. apply cstr_cons in Hc as (H1 & R & Hc). apply wp_bind. eapply wp_load8; [exact H1|].
    rewrite H1 in Hstep. cbn [length] in *.
    apply wp_bind, wp_store; [by eapply has_sub; [exact Hd|lia..]|]. intros m1 Hst1 Hu.
    pose proof (Hstep m1 Hu) as Hcp. rewrite (proj2 (Z.eqb_neq _ _)) by lia. unwrap.
    eapply IH; [|eapply has_sub; [eapply upd_has; [exact Hu|exact Hd]|lia..]|by eapply store_bytes_ok|lia..|].
    + assert (Hsame : forall i : nat, (i <= length l)%nat -> m1 !! (s + 1 + Z.of_nat i) = m !! (s + 1 + Z.of_nat i)).
      { intros i Hi. rewrite Hcp. destruct (inside_spec d 1 (s + 1 + Z.of_nat i)); [lia|done]. }
      destruct Hc as [C1 C2 C3]. split; [|done|by rewrite Hsame].
      intros i c' Hi. rewrite Hsame; [by apply C1|]. apply lookup_lt_Some in Hi. lia.
    + intros m' Hc'. apply HQ.
      replace (Z.of_nat (S (S (length l)))) with (1 + Z.of_nat (S (length l))) by lia.
      apply (copied_up m m1); (done || lia).
Qed.
End strs.

Section more_strs.
Implicit Types (m : mem) (a : Z) (l : list Z).

Lemma wp_move8_then {B} m d s c (cont : M mem B) (Q : B -> mem -> Prop) E :
  m !! s = Some c -> bytes_ok m -> has m d 1 ->
  (forall m', copied m m' d s 1 -> bytes_ok m' -> wp cont Q E m') ->
  wp (store8 d c ;;; cont) Q E m.
Proof.
  intros Hc Hm Hd HQ. apply wp_bind, wp_store; [exact Hd|]. intros m' Hs Hu.
  apply HQ; [|by eapply store_bytes_ok]. intros x. rewrite Hu. change (Z.of_nat 1) with 1.
  destruct (inside_spec d 1 x); [|done]. replace (x - d) with 0 by lia.
  rewrite byte_of_0, Z.add_0_r, Hc. f_equal. apply Z.mod_small. by apply Hm in Hc.
Qed.

(** A string is still there after a write elsewhere. *)
Lemma cstr_frame m m' a l :
  cstr m a l -> (forall x, a <= x <= a + Z.of_nat (length l) -> m' !! x = m !! x) -> cstr m' a l.
Proof.
  intros [H1 H2 H3] H. split; [|done|rewrite H by lia; done].
  intros i c Hi. rewrite H; [by apply H1|]. apply lookup_lt_Some in Hi. lia.
Qed.

(** The loop copies [n] bytes, or the string with its terminator if shorter. *)
Lemma wp_safestrcpy_loop (n : nat) : forall l m d s (Q : Z -> mem -> Prop) E,
  cstr m s l -> has m d (Z.of_nat n) -> bytes_ok m ->
  0 <= d -> 0 <= s -> d + Z.of_nat n < 2 ^ 64 -> s + Z.of_nat (S (length l)) < 2 ^ 64 ->
  d + Z.of_nat n <= s \/ s + Z.of_nat (S (length l)) <= d ->
  (forall m' k, k = Nat.min n (S (length l)) -> copied m m' d s (Z.of_nat k) -> bytes_ok m' ->
     Q (d + Z.of_nat k) m') ->
  wp (safestrcpy_loop n d s) Q E m.
Proof.
  induction n as [|n IH]; intros l m d s Q E Hc Hd Hm Hd0 Hs0 Hdt Hst Hov HQ; cbn [safestrcpy_loop].
  - apply wp_ret. rewrite <- (Z.add_0_r d). apply (HQ m 0%nat); [done|apply copied_0; lia|done].
  - apply wp_bind. destruct l as [|c l].
    + apply cstr_nil in Hc. eapply wp_load8; [exact Hc|].
      eapply wp_move8_then; [exact Hc|done|by eapply has_sub; [exact Hd|lia..]|]. intros m1 Hc1 Hm1.
      apply wp_ret. cbn in Hst. unwrap. apply (HQ m1 1%nat); [cbn; lia|done|done].
    + pose proof (cstr_has _ _ _ Hc) as Hh. apply cstr_cons in Hc as (H1 & R & Hc). cbn [length] in *.
      eapply wp_load8; [exact H1|].
      eapply wp_move8_then; [exact H1|done|by eapply has_sub; [exact Hd|lia..]|]. intros m1 Hc1 Hm1.
      rewrite (proj2 (Z.eqb_neq _ _)) by lia. unwrap. apply (IH l); try lia; try done.
      * eapply cstr_frame; [exact Hc|]. intros x Hx. rewrite Hc1. destruct (inside_spec d 1 x); [lia|done].
      * eapply has_sub; [eapply copied_has; [exact Hc1| |exact Hd]|lia..]. eapply has_sub; [exact Hh|lia..].
      * intros m' k Hk Hc' Hm'. replace (d + 1 + Z.of_nat k) with (d + Z.of_nat (S k)) by lia.
        apply HQ; [lia| |done]. replace (Z.of_nat (S k)) with (1 + Z.of_nat k) by lia.
        apply (copied_up m m1); (done || lia).
Qed.

Lemma wp_safestrcpy m l d s n (Q : Z -> mem -> Prop) E :
  cstr m s l -> 0 < n -> has m d n -> bytes_ok m ->
  0 <= d -> 0 <= s -> d + n < 2 ^ 64 -> s + Z.of_nat (S (length l)) < 2 ^ 64 ->
  d + n <= s \/ s + Z.of_nat (S (length l)) <= d ->
  (forall m', cstr m' d (take (Z.to_nat (n - 1)) l) ->
     (forall x, ~ (d <= x < d + n) -> m' !! x = m !! x) -> Q d m') ->
  wp (safestrcpy d s n) Q E m.
Proof.
  intros Hc Hn Hd Hm Hd0 Hs0 Hdt Hst Hov HQ. unfold safestrcpy. rewrite (proj2 (Z.leb_gt _ _)) by lia.
  set (k0 := Z.to_nat (n - 1)) in *.
  pose proof (cstr_has _ _ _ Hc) as Hh. pose proof Hc as [C1 C2 C3].
  apply wp_bind. apply (wp_safestrcpy_loop k0 l); try lia; try done.
  { eapply has_sub; [exact Hd|lia..]. }
  intros m1 k Hk Hcp Hm1. apply wp_bind, wp_store.
  { eapply has_sub; [eapply copied_has; [exact Hcp| |exact Hd]|lia..]. eapply has_sub; [exact Hh|lia..]. }
  intros m2 _ Hu. change (Z.of_nat 1) with 1 in Hu. apply wp_ret, HQ.
  - assert (Hold : forall i c, (i < k)%nat -> m !! (s + Z.of_nat i) = Some c -> m2 !! (d + Z.of_nat i) = Some c).
    { intros i c Hi Hmi. rewrite Hu. destruct (inside_spec (d + Z.of_nat k) 1 (d + Z.of_nat i)); [lia|].
      rewrite Hcp. destruct (inside_spec d (Z.of_nat k) (d + Z.of_nat i)); [|lia]. rewrite <- Hmi. f_equal. lia. }
    split.
    + intros i c Hi. apply lookup_take_Some in Hi as [Hi Hik]. pose proof (lookup_lt_Some _ _ _ Hi).
      apply Hold; [lia|by apply C1].
    + intros c Hin. apply C2. apply list_elem_of_lookup in Hin as (i & Hi). apply lookup_take_Some in Hi as [Hi _].
      by apply list_elem_of_lookup_2 with i.
    + rewrite length_take. destruct (decide (k0 <= length l)%nat).
      * rewrite Hu. replace (Nat.min k0 (length l)) with k by lia.
        destruct (inside_spec (d + Z.of_nat k) 1 (d + Z.of_nat k)); [|lia].
        by replace (d + Z.of_nat k - (d + Z.of_nat k)) with 0 by lia.
      * apply Hold; [lia|]. by replace (Nat.min k0 (length l)) with (length l) by lia.
  - intros x Hx. rewrite Hu. destruct (inside_spec (d + Z.of_nat k) 1 x); [lia|].
    rewrite Hcp. by destruct (inside_spec d (Z.of_nat k) x); [lia|].
Qed.
End more_strs.

(** ** Decimal notation and atol *)

(** The digits of [n], most significant first; 20 digits are enough for 64
    bits. *)
Fixpoint dec (fuel : nat) (n : Z) : list Z :=
  match fuel with
  | O => []
  | S fuel => if n <? 10 then [48 + n] else dec fuel (n / 10) ++ [48 + n mod 10]
  end.
Definition decimal (z : Z) : list Z := if z <? 0 then 45 :: dec 20 (- z) else dec 20 z.

Definition atol_value (l : list Z) (res : Z) : Z :=
  fold_left (fun r c => s64 (s64 (r * 10) + (c - 48))) l res.
Fixpoint strip_spaces (l : list Z) : list Z :=
  match l with c :: l' => if c =? 32 then strip_spaces l' else l | [] => [] end.
Definition atol_spec (l : list Z) : Z :=
  match strip_spaces l with
  | c :: l' => if c =? 45 then s64 (- atol_value l' 0)
               else if c =? 43 then atol_value l' 0 else atol_value (c :: l') 0
  | [] => 0
  end.

Section atol.
Implicit Types (m : mem) (l : list Z).

Lemma wp_skip_spaces l : forall m p fuel (Q : Z -> mem -> Prop) E,
  cstr m p l -> 0 <= p -> p + Z.of_nat (length l) < 2 ^ 64 -> (length l < fuel)%nat ->
  (forall p', cstr m p' (strip_spaces l) -> p <= p' -> p' + Z.of_nat (length (strip_spaces l)) = p + Z.of_nat (length l) ->
     Q p' m) -> wp (skip_spaces fuel p) Q E m.
Proof.
  induction l as [|c l IH]; intros m p fuel Q E Hc Hp Ht Hf HQ; (destruct fuel as [|fuel]; [cbn in Hf; lia|]);
    cbn [skip_spaces]; apply wp_bind.
  - eapply wp_load8; [by apply cstr_nil|]. apply wp_ret. by apply HQ.
  - pose proof Hc as Hc0. apply cstr_cons in Hc as (H1 & H2 & H3). cbn [length strip_spaces] in *.
    eapply wp_load8; [exact H1|]. destruct (Z.eqb_spec c 32) as [->|Hne].
    + unwrap. apply IH; [done|lia..|]. intros p' Hp' Hle Hlen. apply HQ; [done|lia|lia].
    + apply wp_ret, HQ; [done|lia|done].
Qed.

Lemma wp_atol_digits l : forall m p res fuel (Q : Z -> mem -> Prop) E,
  cstr m p l -> 0 <= p -> p + Z.of_nat (length l) < 2 ^ 64 -> (length l < fuel)%nat ->
  Q (atol_value l res) m -> wp (atol_digits fuel p res) Q E m.
Proof.
  induction l as [|c l IH]; intros m p res fuel Q E Hc Hp Ht Hf HQ; (destruct fuel as [|fuel]; [cbn in Hf; lia|]);
    cbn [atol_digits]; apply wp_bind.
  - eapply wp_load8; [by apply cstr_nil|]. by apply wp_ret.
  - apply cstr_cons in Hc as (H1 & H2 & H3). cbn [length] in *. eapply wp_load8; [exact H1|].
    rewrite (proj2 (Z.eqb_neq _ _)) by lia. unwrap. apply IH; [done|lia..|done].
Qed.

Lemma strip_length l : (length (strip_spaces l) <= length l)%nat.
Proof. induction l as [|c l IH]; cbn; [done|]. destruct (c =? 32); cbn; lia. Qed.

Lemma wp_atol m a l (Q : Z -> mem -> Prop) E :
  cstr m a l -> 0 <= a -> a + Z.of_nat (length l) < 2 ^ 64 -> Q (atol_spec l) m -> wp (atol a) Q E m.
Proof.
  intros Hc Ha Ht HQ. unfold atol, scan_fuel. apply wp_bind, wp_gets.
  pose proof (cstr_fuel _ _ _ Hc) as Hf. pose proof (strip_length l).
  apply wp_bind. apply (wp_skip_spaces l); [done..|]. intros p Hp Hle Hlen. apply wp_bind.
  unfold atol_spec in HQ. destruct (strip_spaces l) as [|c l'] eqn:El.
  - eapply wp_load8; [by apply cstr_nil|]. change ((0 =? 45) || (0 =? 43)) with false. cbv iota.
    apply wp_bind, (wp_atol_digits []); [done|lia|cbn in Hlen |- *; lia|apply Nat.lt_0_succ|].
    by apply wp_ret.
  - pose proof Hp as Hp0. apply cstr_cons in Hp as (H1 & H2 & H3). eapply wp_load8; [exact H1|]. cbn [length] in *.
    destruct (Z.eqb_spec c 45) as [->|N1]; cbn [orb].
    + unwrap. apply wp_bind, (wp_atol_digits l'); [done|lia..|]. by apply wp_ret.
    + destruct (Z.eqb_spec c 43) as [->|N2].
      * unwrap. apply wp_bind, (wp_atol_digits l'); [done|lia..|]. by apply wp_ret.
      * apply wp_bind, (wp_atol_digits (c :: l')); [done|lia|cbn [length]; lia|cbn [length]; lia|]. by apply wp_ret.
Qed.

Lemma atol_value_dec fuel n : 0 <= n < 2 ^ 63 -> n < 10 ^ Z.of_nat fuel -> atol_value (dec fuel n) 0 = n.
Proof.
  revert n. induction fuel as [|fuel IH]; intros n Hn Hf; cbn [dec].
  - cbn in Hf. cbn. lia.
  - destruct (Z.ltb_spec n 10).
    + unfold atol_value. cbn [fold_left]. rewrite (s64_id (0 * 10)) by lia. rewrite s64_id by lia. lia.
    + unfold atol_value. rewrite fold_left_app. cbn [fold_left].
      replace (Z.of_nat (S fuel)) with (1 + Z.of_nat fuel) in Hf by lia.
      rewrite Z.pow_add_r in Hf by lia. change (10 ^ 1) with 10 in Hf.
      fold (atol_value (dec fuel (n / 10)) 0). rewrite IH; [|zlia|apply Z.div_lt_upper_bound; lia].
      rewrite (s64_id (n / 10 * 10)) by zlia. rewrite s64_id by zlia. zlia.
Qed.

Lemma dec_head fuel n : 0 <= n -> dec (S fuel) n <> [] /\ forall c, c ∈ dec (S fuel) n -> 48 <= c < 58.
Proof.
  revert n. induction fuel as [|fuel IH]; intros n Hn; cbn [dec].
  - destruct (Z.ltb_spec n 10); (split; [done|]); intros c Hc; apply list_elem_of_singleton in Hc as ->; [lia|].
    pose proof (Z.mod_pos_bound n 10). lia.
  - destruct (Z.ltb_spec n 10); split; try done.
    + intros c ->%list_elem_of_singleton. lia.
    + intros E%(f_equal length). rewrite length_app in E. cbn in E. lia.
    + intros c Hc. apply elem_of_app in Hc as [Hc| ->%list_elem_of_singleton]; [|zlia].
      apply (IH (n / 10)); [zlia|exact Hc].
Qed.

Lemma strip_replicate k l : (forall c l', l = c :: l' -> c <> 32) -> strip_spaces (replicate k 32 ++ l) = l.
Proof.
  intros Hl. induction k as [|k IH]; cbn; [|done]. destruct l as [|c l]; [done|]. cbn.
  by rewrite (proj2 (Z.eqb_neq _ _)) by (by eapply Hl).
Qed.

Lemma atol_decimal k z : - 2 ^ 63 < z < 2 ^ 63 -> atol_spec (replicate k 32 ++ decimal z) = z.
Proof.
  intros Hz. unfold atol_spec, decimal. destruct (Z.ltb_spec z 0).
  - pose proof (atol_value_dec 20 (- z) ltac:(lia) ltac:(change (Z.of_nat 20) with 20; lia)) as Ev.
    generalize dependent (dec 20 (- z)). intros l Ev.
    rewrite strip_replicate by (intros c l' [= <- _]; lia). rewrite Z.eqb_refl, Ev, s64_id by lia. lia.
  - destruct (dec_head 19 z ltac:(lia)) as [Hne Hd].
    destruct (dec 20 z) as [|c l] eqn:E; [done|].
    pose proof (Hd c ltac:(apply list_elem_of_here)).
    rewrite strip_replicate by (intros c' l' [= <- _]; lia).
    rewrite !(proj2 (Z.eqb_neq _ _)) by lia. rewrite <- E, atol_value_dec by (cbn; lia). done.
Qed.
End atol.

(** ** Checking the hypotheses on a concrete memory *)
Definition mem_at (a : Z) (l : list Z) : mem := list_to_map (zip (seqZ a (Z.of_nat (length l))) l).
Definition has_b (m : mem) (a n : Z) : bool :=
  forallb (fun x => match m !! x with Some _ => true | None => false end) (seqZ a n).
Definition bytes_b (m : mem) : bool := forallb (fun p => (0 <=? p.2) && (p.2 <? 256)) (map_to_list m).
Definition byte_is (m : mem) (a c : Z) : bool :=
  match m !! a with Some b => b =? c | None => false end.
Fixpoint cstr_b (m : mem) (a : Z) (l : list Z) : bool :=
  match l with
  | [] => byte_is m a 0
  | c :: l => byte_is m a c && (0 <? c) && (c <? 256) && cstr_b m (a + 1) l
  end.

Lemma mem_at_lookup (l : list Z) : forall a x, mem_at a l !! x = if inside a (lenZ l) x then l !! Z.to_nat (x - a) else None.
Proof.
  induction l as [|b l IH]; intros a x; unfold mem_at.
  - cbn. destruct (inside_spec a (lenZ (@nil Z)) x) as [Hx|]; [unfold lenZ in Hx; cbn in Hx; lia|apply lookup_empty].
  - assert (El : lenZ (b :: l) = 1 + lenZ l) by (unfold lenZ; cbn [length]; lia). rewrite El. assert (0 <= lenZ l) by (unfold lenZ; lia).
    rewrite seqZ_cons by (cbn [length]; lia). cbn [zip zip_with list_to_map foldr fst snd].
    replace (Z.pred (Z.of_nat (length (b :: l)))) with (Z.of_nat (length l)) by (cbn [length]; lia).
    change (Z.succ a) with (a + 1). destruct (decide (x = a)) as [->|Hne].
    + rewrite lookup_insert_eq. destruct (inside_spec a (1 + lenZ l) a); [|lia]. by rewrite Z.sub_diag.
    + rewrite lookup_insert_ne by done. change (list_to_map _) with (mem_at (a + 1) l). rewrite IH.
      destruct (inside_spec (a + 1) (lenZ l) x); destruct (inside_spec a (1 + lenZ l) x); try lia; [|done].
      replace (Z.to_nat (x - a)) with (S (Z.to_nat (x - (a + 1)))) by lia. done.
Qed.

Lemma mem_at_union a l m x : (mem_at a l ∪ m) !! x = if inside a (lenZ l) x then l !! Z.to_nat (x - a) else m !! x.
Proof.
  destruct (inside_spec a (lenZ l) x) as [Hx|Hx].
  - destruct (lookup_lt_is_Some_2 l (Z.to_nat (x - a))) as [c Hc]; [unfold lenZ in Hx; lia|]. rewrite Hc.
    apply lookup_union_Some_l. rewrite mem_at_lookup. by destruct (inside_spec a (lenZ l) x).
  - rewrite lookup_union_r; [done|]. rewrite mem_at_lookup. by destruct (inside_spec a (lenZ l) x).
Qed.

Lemma overlay_upd a l m : upd m (mem_at a l ∪ m) (inside a (lenZ l)) (fun x => nth (Z.to_nat (x - a)) l 0).
Proof.
  intros x. rewrite mem_at_union. destruct (inside_spec a (lenZ l) x) as [Hx|]; [|done].
  destruct (lookup_lt_is_Some_2 l (Z.to_nat (x - a))) as [c Hc]; [unfold lenZ in Hx; lia|].
  rewrite Hc. f_equal. symmetry. by apply nth_lookup_Some.
Qed.

Lemma has_b_spec m a n : has_b m a n = true -> has m a n.
Proof.
  unfold has_b. rewrite forallb_forall. intros H x Hx.
  specialize (H x ltac:(apply list_elem_of_In, elem_of_seqZ; lia)). destruct (m !! x); [by eexists|done].
Qed.

Lemma bytes_b_spec m : bytes_b m = true -> bytes_ok m.
Proof.
  unfold bytes_b. rewrite forallb_forall. intros H x b Hx.
  specialize (H (x, b) ltac:(by apply list_elem_of_In, elem_of_map_to_list)). cbn in H. lia.
Qed.

Lemma byte_is_spec m a c : byte_is m a c = true -> m !! a = Some c.
Proof. unfold byte_is. destruct (m !! a); [|done]. by intros ->%Z.eqb_eq. Qed.

Lemma cstr_b_spec m a l : cstr_b m a l = true -> cstr m a l.
Proof.
  revert a. induction l as [|c l IH]; intros a H; cbn in H.
  - apply byte_is_spec in H. split; [done|by intros c Hc%not_elem_of_nil|]. cbn. by rewrite Z.add_0_r.
  - apply andb_true_iff in H as [H HI]. apply andb_true_iff in H as [H H3].
    apply andb_true_iff in H as [H1 H2]. apply byte_is_spec in H1. destruct (IH _ HI) as [C1 C2 C3]. split.
    + intros [|i] c' Hi; [injection Hi as <-; by rewrite Z.add_0_r|].
      replace (a + Z.of_nat (S i)) with (a + 1 + Z.of_nat i) by lia. by apply C1.
    + intros c' Hc. apply elem_of_cons in Hc as [->|Hc]; [lia|by apply C2].
    + cbn [length]. by replace (a + Z.of_nat (S (length l))) with (a + 1 + Z.of_nat (length l)) by lia.
Qed.

(** Thirty-two bytes at address 4096. *)
Definition ex_mem : mem :=
  mem_at 4096 [32; 45; 49; 50; 51; 0; 7; 8; 9; 10; 11; 12; 13; 14; 15; 16;
               65; 66; 67; 0; 65; 66; 68; 0; 1; 2; 3; 4; 5; 6; 7; 8].

Ltac by_check :=
  first [apply has_b_spec; vm_compute; reflexivity | apply bytes_b_spec; vm_compute; reflexivity
        | apply cstr_b_spec; vm_compute; reflexivity | vm_compute; reflexivity | cbn; lia].

(** ** Theorems *)

(** [memcpy] of regions that do not overlap, or whose destination is the
    lower one, leaves in the destination what the source held and changes
    nothing else, on its word path and on its byte path. *)
Lemma memcpy_copies m dest src len :
  bytes_ok m -> 0 <= len -> has m dest len -> has m src len ->
  7 <= dest -> 0 <= src -> dest + len < 2 ^ 64 -> src + len < 2 ^ 64 ->
  dest <= src \/ src + len <= dest ->
  wp (memcpy dest src len)
     (fun r m' => r = dest /\
        forall x, m' !! x = if inside dest len x then m !! (src + (x - dest)) else m !! x) no_stop m.
Proof. intros. by apply wp_memcpy. Qed.

(** C39: [memmove] leaves in the destination what the source held before the
    call, whatever the overlap, and changes nothing else. *)
Theorem memmove_copies m dst src n :
  bytes_ok m -> 0 <= n -> has m dst n -> has m src n ->
  0 <= dst -> 0 <= src -> dst + n < 2 ^ 64 -> src + n < 2 ^ 64 ->
  wp (memmove dst src n)
     (fun r m' => r = dst /\
        forall x, m' !! x = if inside dst n x then m !! (src + (x - dst)) else m !! x) no_stop m.
Proof. intros. by apply wp_memmove. Qed.

Lemma memmove_copies_witness :
  wp (memmove 4099 4096 10)
     (fun r m' => r = 4099 /\
        forall x, m' !! x = if inside 4099 10 x then ex_mem !! (4096 + (x - 4099)) else ex_mem !! x) no_stop ex_mem.
Proof. apply (memmove_copies ex_mem 4099 4096 10); by_check. Defined.

(** [memset] sets exactly the bytes of the region to the low byte of its
    argument, with eight-byte stores when address and length are multiples of
    eight and with byte stores otherwise. *)
Lemma memset_fills m dest byte len :
  0 <= len -> has m dest len -> 0 <= dest -> dest + len < 2 ^ 64 ->
  wp (memset dest byte len)
     (fun r m' => r = dest /\
        forall x, m' !! x = if inside dest len x then Some (byte mod 256) else m !! x) no_stop m.
Proof. intros. by apply wp_memset. Qed.

(** [strcmp] of two strings returns 0 exactly when they are equal, and
    otherwise the difference of their first differing bytes (the terminator
    counts as 0); memory is unchanged. *)
Lemma strcmp_decides m s1 s2 l1 l2 :
  cstr m s1 l1 -> cstr m s2 l2 -> 0 <= s1 -> 0 <= s2 ->
  s1 + Z.of_nat (length l1) < 2 ^ 64 -> s2 + Z.of_nat (length l2) < 2 ^ 64 ->
  wp (strcmp s1 s2) (fun r m' => r = str_cmp l1 l2 /\ (r = 0 <-> l1 = l2) /\ m' = m) no_stop m.
Proof.
  intros H1 H2 P1 P2 T1 T2. unfold strcmp, scan_fuel. apply wp_bind, wp_gets.
  eapply wp_strcmp_loop; [exact H1|exact H2|done..|by eapply cstr_fuel|]. split_and!; [done| |done].
  apply str_cmp_eq; intros c Hc; [by apply (cs_char _ _ _ H1)|by apply (cs_char _ _ _ H2)].
Qed.

(** [strcpy] copies a string and its terminator when the destination does
    not overlap it; [strlen] of the copy is its length. *)
Lemma strcpy_strlen m dest src l :
  cstr m src l -> has m dest (Z.of_nat (S (length l))) -> bytes_ok m -> 0 <= dest -> 0 <= src ->
  dest + Z.of_nat (S (length l)) < 2 ^ 64 -> src + Z.of_nat (S (length l)) < 2 ^ 64 ->
  dest + Z.of_nat (S (length l)) <= src \/ src + Z.of_nat (S (length l)) <= dest ->
  wp (strcpy dest src ;;; strlen dest)
     (fun r m' => r = Z.of_nat (length l) /\ cstr m' dest l /\ cstr m' src l) no_stop m.
Proof.
  intros Hc Hd Hm P1 P2 T1 T2 Hov. unfold strcpy, strlen, scan_fuel. apply wp_bind, wp_bind, wp_gets.
  apply wp_bind, (wp_strcpy_loop l); try done; [by eapply cstr_fuel|]. intros m' Hcp. apply wp_ret.
  assert (Hsrc : cstr m' src l).
  { eapply cstr_frame; [exact Hc|]. intros x Hx. rewrite Hcp. destruct (inside_spec dest (Z.of_nat (S (length l))) x); [lia|done]. }
  assert (Hdst : cstr m' dest l).
  { destruct Hc as [C1 C2 C3]. split; [|done|].
    - intros i c Hi. rewrite Hcp. pose proof (lookup_lt_Some _ _ _ Hi).
      destruct (inside_spec dest (Z.of_nat (S (length l))) (dest + Z.of_nat i)); [|lia].
      rewrite <- (C1 i c Hi). f_equal. lia.
    - rewrite Hcp. destruct (inside_spec dest (Z.of_nat (S (length l))) (dest + Z.of_nat (length l))); [|lia].
      rewrite <- C3. f_equal. lia. }
  apply wp_bind, wp_gets. apply wp_bind, (wp_strlen_loop l); [done|done|lia|by eapply cstr_fuel|].
  apply wp_ret. split_and!; [|done|done]. rewrite u64_id; unfold is_u64; lia.
Qed.

(** [safestrcpy] with room for [n > 0] bytes always leaves a terminated
    string: the first [n - 1] characters of the source; no byte outside the
    [n] bytes of the destination changes. *)
Lemma safestrcpy_terminates m s t n l :
  cstr m t l -> 0 < n -> has m s n -> bytes_ok m -> 0 <= s -> 0 <= t ->
  s + n < 2 ^ 64 -> t + Z.of_nat (S (length l)) < 2 ^ 64 ->
  s + n <= t \/ t + Z.of_nat (S (length l)) <= s ->
  wp (safestrcpy s t n)
     (fun r m' => r = s /\ cstr m' s (take (Z.to_nat (n - 1)) l) /\
        forall x, ~ (s <= x < s + n) -> m' !! x = m !! x) no_stop m.
Proof. intros. by eapply wp_safestrcpy. Qed.

(** [atol] reads back decimal notation: for every number between the
    limits of a long, with any number of blanks before it. *)
Lemma atol_reads_decimal m str k z :
  cstr m str (replicate k 32 ++ decimal z) -> - 2 ^ 63 < z < 2 ^ 63 ->
  0 <= str -> str + Z.of_nat (length (replicate k 32 ++ decimal z)) < 2 ^ 64 ->
  wp (atol str) (fun r m' => r = z /\ m' = m) no_stop m.
Proof.
  intros Hc Hz P T. eapply wp_atol; [exact Hc|done|done|]. by rewrite atol_decimal.
Qed.
