(* ===== verification/Snprintf.v ===== *)
(** * util/snprintf.c

    [vsnprintf] over byte memory.  The variadic arguments are the list of the
    register values passed; reading past its end is [WildAccess].  A [char] is
    unsigned, as on RISC-V.  [num = -num] of the smallest [long] is taken to
    wrap, as the machine's negation does. *)
From stdpp Require Import base gmap list strings.
From Stdlib Require Import ZArith Lia.
From S2P Require Import Prelude Mem Str.

(** [if (++pos < n) out[pos - 1] = c;] and the new [pos]. *)
Definition emit (out n pos c : Z) : M mem Z :=
  let pos := u64 (pos + 1) in
  (if pos <? n then store8 (u64 (out + pos - 1)) c else ret tt) ;;; ret pos.

Definition va_arg (vl : list Z) : M mem (Z * list Z) :=
  match vl with [] => halt WildAccess | a :: vl => ret (a, vl) end.

(** [for (int i = k - 1; i >= 0; i--)] of the 'x' case. *)
Fixpoint hex_loop (k : nat) (out n pos num : Z) : M mem Z :=
  match k with
  | O => ret pos
  | S k =>
      let d := Z.land (Z.shiftr num (4 * Z.of_nat k)) 15 in
      let* pos := emit out n pos (if d <? 10 then 48 + d else 97 + d - 10) in
      hex_loop k out n pos num
  end.

(** [for (long nn = num; nn /= 10; digits++)] *)
Fixpoint digits_loop (fuel : nat) (nn digits : Z) : Z :=
  match fuel with
  | O => digits
  | S fuel =>
      let nn := Z.quot nn 10 in
      if nn =? 0 then digits else digits_loop fuel nn (digits + 1)
  end.

(** [for (int i = digits - 1; i >= 0; i--)] of the 'd' case. *)
Fixpoint dec_loop (k : nat) (out n pos num : Z) : M mem unit :=
  match k with
  | O => ret tt
  | S i =>
      (if u64 (pos + Z.of_nat i + 1) <? n
       then store8 (u64 (out + pos + Z.of_nat i)) (48 + Z.rem num 10) else ret tt) ;;;
      dec_loop i out n pos (Z.quot num 10)
  end.

(** [while ( *s2 )] of the 's' case. *)
Fixpoint str_loop (fuel : nat) (out n pos s2 : Z) : M mem Z :=
  match fuel with
  | O => halt OutOfFuel
  | S fuel =>
      let* c := load8 s2 in
      if c =? 0 then ret pos
      else let* pos := emit out n pos c in str_loop fuel out n pos (u64 (s2 + 1))
  end.

(** The local variables of [vsnprintf] that outlive one character. *)
Record fmt_state := mkFmt { format : bool; longarg : bool; pos : Z; vl : list Z }.

Definition int_arg (longarg : bool) (a : Z) : Z := if longarg then s64 a else s32 a.

Definition conv_x (out n : Z) (longarg : bool) (pos : Z) (vl : list Z) : M mem fmt_state :=
  let* r := va_arg vl in
  let* pos := hex_loop (if longarg then 16 else 8) out n pos (int_arg longarg (fst r)) in
  ret (mkFmt false false pos (snd r)).

Definition conv_d (out n : Z) (longarg : bool) (pos : Z) (vl : list Z) : M mem fmt_state :=
  let* r := va_arg vl in
  let num := int_arg longarg (fst r) in
  let neg := num <? 0 in
  let num := if neg then s64 (- num) else num in
  let* pos := if neg then emit out n pos 45 else ret pos in
  let digits := digits_loop 20 num 1 in
  dec_loop (Z.to_nat digits) out n pos num ;;;
  ret (mkFmt false false (u64 (pos + digits)) (snd r)).

Definition conv_s (out n pos : Z) (vl : list Z) : M mem fmt_state :=
  let* r := va_arg vl in
  let* f := scan_fuel in
  let* pos := str_loop f out n pos (fst r) in
  ret (mkFmt false false pos (snd r)).

(** The 'c' case takes its argument only when there is room for it. *)
Definition conv_c (out n pos : Z) (vl : list Z) : M mem fmt_state :=
  let pos := u64 (pos + 1) in
  let* vl :=
    if pos <? n then let* r := va_arg vl in store8 (u64 (out + pos - 1)) (u8 (fst r)) ;;; ret (snd r)
    else ret vl in
  ret (mkFmt false false pos vl).

(** The body of the loop over the format. *)
Definition fmt_char (out n c : Z) (st : fmt_state) : M mem fmt_state :=
  if format st then
    if c =? 108 then ret (mkFmt true true (pos st) (vl st))
    else if c =? 112 then
      let* pos := emit out n (pos st) 48 in
      let* pos := emit out n pos 120 in
      conv_x out n true pos (vl st)
    else if c =? 120 then conv_x out n (longarg st) (pos st) (vl st)
    else if c =? 100 then conv_d out n (longarg st) (pos st) (vl st)
    else if c =? 115 then conv_s out n (pos st) (vl st)
    else if c =? 99 then conv_c out n (pos st) (vl st)
    else ret st
  else if c =? 37 then ret (mkFmt true (longarg st) (pos st) (vl st))
  else let* pos := emit out n (pos st) c in ret (mkFmt false (longarg st) pos (vl st)).

Fixpoint fmt_loop (fuel : nat) (out n s : Z) (st : fmt_state) : M mem fmt_state :=
  match fuel with
  | O => halt OutOfFuel
  | S fuel =>
      let* c := load8 s in
      if c =? 0 then ret st
      else let* st := fmt_char out n c st in fmt_loop fuel out n (u64 (s + 1)) st
  end.

Definition vsnprintf (out n s : Z) (vl : list Z) : M mem Z :=
  let* f := scan_fuel in
  let* st := fmt_loop f out n s (mkFmt false false 0 vl) in
  (if pos st <? n then store8 (u64 (out + pos st)) 0
   else if negb (n =? 0) then store8 (u64 (out + n - 1)) 0 else ret tt) ;;;
  ret (s32 (pos st)).

(** ** What is to be printed *)
Inductive arg := AInt (z : Z) | AStr (a : Z) (l : list Z).
Definition raw (x : arg) : Z := match x with AInt z => z | AStr a _ => a end.

Definition hex_char (d : Z) : Z := if d <? 10 then 48 + d else 87 + d.
(** The [k] low hexadecimal digits. *)
Fixpoint hex (k : nat) (x : Z) : list Z :=
  match k with O => [] | S k => hex k (x / 16) ++ [hex_char (x mod 16)] end.

(** The text of a format with its arguments, in format mode [fm] with the 'l'
    flag [lg]; [None] where an argument is missing, has the wrong type, or is
    the smallest [long]. *)
Fixpoint render (fmt : list Z) (fm lg : bool) (args : list arg) : option (list Z) :=
  match fmt with
  | [] => Some []
  | c :: fmt =>
      if fm then
        if c =? 108 then render fmt true true args
        else if c =? 112 then
          match args with
          | AInt z :: args => app (48 :: 120 :: hex 16 (s64 z)) <$> render fmt false false args
          | _ => None
          end
        else if c =? 120 then
          match args with
          | AInt z :: args => app (hex (if lg then 16 else 8) (int_arg lg z)) <$> render fmt false false args
          | _ => None
          end
        else if c =? 100 then
          match args with
          | AInt z :: args =>
              if int_arg lg z =? - 2 ^ 63 then None
              else app (decimal (int_arg lg z)) <$> render fmt false false args
          | _ => None
          end
        else if c =? 115 then
          match args with AStr _ l :: args => app l <$> render fmt false false args | _ => None end
        else if c =? 99 then
          match args with AInt z :: args => cons (u8 z) <$> render fmt false false args | _ => None end
        else render fmt true lg args
      else if c =? 37 then render fmt true lg args
      else cons c <$> render fmt false lg args
  end.

(** A conversion with 'c' occurs. *)
Fixpoint prints_char (fmt : list Z) (fm : bool) : bool :=
  match fmt with
  | [] => false
  | c :: fmt =>
      if fm then
        (c =? 99) || prints_char fmt (negb ((c =? 112) || (c =? 120) || (c =? 100) || (c =? 115)))
      else prints_char fmt (c =? 37)
  end.

(** ** Output so far

    The text [l] has been printed into a buffer of [n] bytes at [out]: memory
    is [m] but for the characters that fit in [n - 1] bytes. *)
Definition spot (out n x : Z) : bool := x - out + 1 <? n.
Definition printed (m m' : mem) (out n : Z) (l : list Z) : Prop :=
  upd m m' (fun x => inside out (Z.of_nat (length l)) x && spot out n x)
      (fun x => nth (Z.to_nat (x - out)) l 0).

Definition chars (l : list Z) : Prop := forall c, c ∈ l -> 0 <= c < 256.

Section printed.
Implicit Types (m : mem) (out n : Z) (l : list Z).

Lemma printed_nil m out n : printed m m out n [].
Proof. intros x. by destruct (inside_spec out (Z.of_nat (length (@nil Z))) x); [cbn in *; lia|]. Qed.

(** Printing [k] follows printing [l]. *)
Lemma printed_app m m1 m' out n l k :
  printed m m1 out n l ->
  upd m1 m' (fun x => inside (out + Z.of_nat (length l)) (Z.of_nat (length k)) x && spot out n x)
      (fun x => nth (Z.to_nat (x - out - Z.of_nat (length l))) k 0) ->
  printed m m' out n (l ++ k).
Proof.
  intros H1 H2 x. rewrite H2, H1, length_app.
  destruct (spot out n x); rewrite ?andb_true_r, ?andb_false_r; [|done].
  destruct (inside_spec (out + Z.of_nat (length l)) (Z.of_nat (length k)) x),
    (inside_spec out (Z.of_nat (length l)) x), (inside_spec out (Z.of_nat (length l + length k)) x);
    try lia; try done.
  - rewrite app_nth2 by lia. do 2 f_equal. lia.
  - rewrite app_nth1 by lia. done.
Qed.

Lemma printed_has m m' out n l a k : printed m m' out n l -> has m a k -> has m' a k.
Proof. apply upd_has. Qed.

Lemma printed_cstr m m' out n l a t :
  printed m m' out n l -> cstr m a t -> a + Z.of_nat (length t) < out \/ out + n <= a -> cstr m' a t.
Proof.
  intros H Hc Hd. eapply cstr_frame; [exact Hc|]. intros x Hx. rewrite H.
  destruct (inside_spec out (Z.of_nat (length l)) x); [|done].
  unfold spot. destruct (Z.ltb_spec (x - out + 1) n); [lia|done].
Qed.

(** The buffer and the text fit the address space. *)
Record room m out n : Prop := {
  rm_n : 0 <= n;
  rm_out : 0 <= out;
  rm_top : out + n < 2 ^ 64;
  rm_has : has m out n
}.

Lemma room_printed m m' out n l : printed m m' out n l -> room m out n -> room m' out n.
Proof. intros H [A B C D]. split; try done. by eapply printed_has. Qed.

Lemma wp_emit m m1 out n l c (Q : Z -> mem -> Prop) E :
  printed m m1 out n l -> room m out n -> 0 <= c < 256 -> Z.of_nat (length l) + 1 < 2 ^ 64 ->
  (forall m', printed m m' out n (l ++ [c]) -> Q (Z.of_nat (length (l ++ [c]))) m') ->
  wp (emit out n (Z.of_nat (length l)) c) Q E m1.
Proof.
  intros Hp Hr Hc Hl HQ. destruct Hr as [R1 R2 R3 R4]. unfold emit. rewrite u64_id by (unfold is_u64; lia).
  specialize (HQ) as HQ'. rewrite length_app in HQ'. cbn [length] in HQ'.
  replace (Z.of_nat (length l + 1)) with (Z.of_nat (length l) + 1) in HQ' by lia.
  apply wp_bind. destruct (Z.ltb_spec (Z.of_nat (length l) + 1) n) as [Hlt|Hge].
  - rewrite u64_id by (unfold is_u64; lia).
    apply wp_store.
    { eapply printed_has; [exact Hp|]. intros x Hx. apply R4. lia. }
    intros m' _ Hu. apply wp_ret, HQ'. eapply printed_app; [exact Hp|]. intros x. rewrite Hu. cbn [length].
    destruct (inside_spec (out + (Z.of_nat (length l) + 1) - 1) (Z.of_nat 1) x),
      (inside_spec (out + Z.of_nat (length l)) (Z.of_nat 1) x); try lia; cbn [andb]; [|done].
    unfold spot. rewrite (proj2 (Z.ltb_lt _ _)) by lia. replace (x - out - Z.of_nat (length l)) with 0 by lia.
    cbn. replace (x - _) with 0 by lia. rewrite byte_of_0, Z.mod_small by lia. done.
  - apply wp_ret, wp_ret, HQ'. eapply printed_app; [exact Hp|]. intros x. cbn [length].
    destruct (inside_spec (out + Z.of_nat (length l)) (Z.of_nat 1) x); cbn [andb]; [|done].
    unfold spot. rewrite (proj2 (Z.ltb_ge _ _)) by lia. done.
Qed.

Lemma hex_nibble num k : Z.land (Z.shiftr num (4 * Z.of_nat k)) 15 = num / 16 ^ Z.of_nat k mod 16.
Proof.
  rewrite Z.shiftr_div_pow2 by lia. change 15 with (2 ^ 4 - 1). rewrite land_low by lia.
  rewrite Z.pow_mul_r by lia. done.
Qed.

Lemma hex_S k num : hex (S k) num = hex_char (num / 16 ^ Z.of_nat k mod 16) :: hex k num.
Proof.
  revert num. induction k as [|k IH]; intros num.
  - cbn. by rewrite Z.div_1_r.
  - change (hex (S (S k)) num) with (hex (S k) (num / 16) ++ [hex_char (num mod 16)]).
    rewrite IH. cbn [app]. f_equal. f_equal. f_equal. rewrite Z.div_div by (try apply Z.pow_pos_nonneg; lia).
    f_equal. rewrite Nat2Z.inj_succ, Z.pow_succ_r by lia. done.
Qed.

Lemma hex_char_range d : 0 <= d < 16 -> 0 <= hex_char d < 256.
Proof. unfold hex_char. destruct (Z.ltb_spec d 10); lia. Qed.

Lemma wp_hex_loop k : forall m m1 out n l num (Q : Z -> mem -> Prop) E,
  printed m m1 out n l -> room m out n -> Z.of_nat (length (l ++ hex k num)) < 2 ^ 64 ->
  (forall m', printed m m' out n (l ++ hex k num) -> Q (Z.of_nat (length (l ++ hex k num))) m') ->
  wp (hex_loop k out n (Z.of_nat (length l)) num) Q E m1.
Proof.
  induction k as [|k IH]; intros m m1 out n l num Q E Hp Hr Hl HQ; cbn [hex_loop].
  - apply wp_ret. cbn [hex] in HQ. rewrite app_nil_r in HQ. by apply HQ.
  - rewrite hex_S in Hl, HQ. rewrite hex_nibble. rewrite length_app in Hl. cbn [length] in Hl.
    pose proof (Z.mod_pos_bound (num / 16 ^ Z.of_nat k) 16 ltac:(lia)) as Hd.
    set (d := num / 16 ^ Z.of_nat k mod 16) in *.
    replace (if d <? 10 then 48 + d else 97 + d - 10) with (hex_char d) by (unfold hex_char; destruct (d <? 10); lia).
    apply wp_bind. eapply wp_emit; [exact Hp|done|by apply hex_char_range|lia|]. intros m2 H2.
    eapply IH; [exact H2|done|rewrite !length_app; cbn [length]; lia|]. intros m' H'.
    rewrite <- app_assoc in *. by apply HQ.
Qed.

Lemma wp_str_loop t : forall m m1 out n l s fuel (Q : Z -> mem -> Prop) E,
  printed m m1 out n l -> room m out n -> cstr m s t -> 0 <= s -> s + Z.of_nat (length t) < 2 ^ 64 ->
  s + Z.of_nat (length t) < out \/ out + n <= s -> (length t < fuel)%nat ->
  Z.of_nat (length (l ++ t)) < 2 ^ 64 ->
  (forall m', printed m m' out n (l ++ t) -> Q (Z.of_nat (length (l ++ t))) m') ->
  wp (str_loop fuel out n (Z.of_nat (length l)) s) Q E m1.
Proof.
  induction t as [|c t IH]; intros m m1 out n l s fuel Q E Hp Hr Hc Hs Ht Hd Hf Hl HQ;
    (destruct fuel as [|fuel]; [cbn in Hf; lia|]); cbn [str_loop]; apply wp_bind;
    pose proof (printed_cstr _ _ _ _ _ _ _ Hp Hc Hd) as Hc1.
  - eapply wp_load8; [by apply cstr_nil|]. apply wp_ret. rewrite app_nil_r in HQ. by apply HQ.
  - apply cstr_cons in Hc1 as (E1 & R1 & _). apply cstr_cons in Hc as (_ & _ & Hc). cbn [length] in *.
    eapply wp_load8; [exact E1|]. rewrite (proj2 (Z.eqb_neq _ _)) by lia. rewrite length_app in Hl. cbn [length] in Hl.
    apply wp_bind. eapply wp_emit; [exact Hp|done|lia|lia|]. intros m2 H2. rewrite u64_id by (unfold is_u64; lia).
    eapply (IH m); [exact H2|done|done|lia|lia|lia|lia|rewrite !length_app; cbn [length]; lia|].
    intros m' H'. rewrite <- app_assoc in *. by apply HQ.
Qed.

(** Decimal digits: how many, and which. *)
Lemma dec_length fuel num d : 0 <= num -> num < 10 ^ Z.of_nat fuel -> (0 < fuel)%nat ->
  digits_loop fuel num d = d + Z.of_nat (length (dec fuel num)) - 1.
Proof.
  revert num d. induction fuel as [|fuel IH]; intros num d H0 Hf Hp; [lia|]. cbn [digits_loop dec].
  rewrite Z.quot_div_nonneg by lia. destruct (Z.ltb_spec num 10).
  - rewrite Z.div_small, Z.eqb_refl by lia. cbn. lia.
  - rewrite (proj2 (Z.eqb_neq _ _)) by zlia. rewrite Nat2Z.inj_succ, Z.pow_succ_r in Hf by lia.
    assert (Hq : num / 10 < 10 ^ Z.of_nat fuel) by (apply Z.div_lt_upper_bound; lia).
    rewrite IH; [|zlia|exact Hq|destruct fuel; [cbn in Hq; zlia|lia]]. rewrite length_app. cbn. lia.
Qed.

Lemma wp_dec_loop fuel : forall m out n p num (Q : unit -> mem -> Prop) E,
  room m out n -> 0 <= num -> num < 10 ^ Z.of_nat fuel -> (0 < fuel)%nat -> 0 <= p ->
  p + Z.of_nat (length (dec fuel num)) < 2 ^ 64 ->
  (forall m', upd m m' (fun x => inside (out + p) (Z.of_nat (length (dec fuel num))) x && spot out n x)
                (fun x => nth (Z.to_nat (x - out - p)) (dec fuel num) 0) -> Q tt m') ->
  wp (dec_loop (length (dec fuel num)) out n p num) Q E m.
Proof.
  induction fuel as [|fuel IH]; intros m out n p num Q E Hr H0 Hf Hpos Hp Hl HQ; [lia|]. pose proof Hr as [R1 R2 R3 R4].
  assert (Hdig : forall k (Q : unit -> mem -> Prop), p + Z.of_nat (S k) < 2 ^ 64 ->
    (forall m1, upd m m1 (fun x => inside (out + (p + Z.of_nat k)) 1 x && spot out n x) (fun _ => 48 + num mod 10) ->
       room m1 out n -> Q tt m1) ->
    wp (if u64 (p + Z.of_nat k + 1) <? n then store8 (u64 (out + p + Z.of_nat k)) (48 + Z.rem num 10) else ret tt) Q E m).
  { clear Q HQ Hl. intros k Q Hl HQ. rewrite u64_id by (unfold is_u64; lia).
    rewrite Z.rem_mod_nonneg by lia. pose proof (Z.mod_pos_bound num 10 ltac:(lia)) as Hm.
    destruct (Z.ltb_spec (p + Z.of_nat k + 1) n).
    - rewrite u64_id by (unfold is_u64; lia). apply wp_store; [intros x Hx; apply R4; lia|]. intros m1 _ Hu.
      apply HQ; [|split; try done; by eapply upd_has]. intros x. rewrite Hu.
      destruct (inside_spec (out + p + Z.of_nat k) (Z.of_nat 1) x), (inside_spec (out + (p + Z.of_nat k)) 1 x);
        try lia; cbn [andb]; [|done]. unfold spot. rewrite (proj2 (Z.ltb_lt _ _)) by lia.
      replace (x - _) with 0 by lia. rewrite byte_of_0, Z.mod_small by lia. done.
    - apply wp_ret, HQ; [|done]. intros x. destruct (inside_spec (out + (p + Z.of_nat k)) 1 x); cbn [andb]; [|done].
      unfold spot. rewrite (proj2 (Z.ltb_ge _ _)) by lia. done. }
  cbn [dec] in *. destruct (Z.ltb_spec num 10) as [Hlt|Hge].
  - cbn [length dec_loop] in *. apply wp_bind. apply (Hdig O); [lia|]. intros m1 H1 _. apply wp_ret, HQ.
    intros x. rewrite H1, Z.add_0_r, (Z.mod_small num 10) by lia. change (Z.of_nat 1) with 1.
    destruct (inside_spec (out + p) 1 x); [|done]. replace (x - out - p) with 0 by lia. done.
  - rewrite length_app, Nat.add_1_r in *. cbn [length dec_loop] in *. rewrite Z.quot_div_nonneg by lia.
    rewrite Nat2Z.inj_succ, Z.pow_succ_r in Hf by lia.
    assert (Hq : num / 10 < 10 ^ Z.of_nat fuel) by (apply Z.div_lt_upper_bound; lia).
    apply wp_bind. apply Hdig; [lia|]. intros m1 H1 Hr1.
    apply IH; [done|zlia|exact Hq|destruct fuel; [cbn in Hq; zlia|lia]|done|lia|]. intros m' H2. apply HQ.
    intros x. rewrite H2, H1. destruct (spot out n x); rewrite ?andb_true_r, ?andb_false_r; [|done].
    set (k := length (dec fuel (num / 10))) in *.
    destruct (inside_spec (out + p) (Z.of_nat k) x), (inside_spec (out + (p + Z.of_nat k)) 1 x),
      (inside_spec (out + p) (Z.of_nat (S k)) x); try lia; try done.
    + rewrite app_nth1 by lia. done.
    + rewrite app_nth2 by lia. replace (Z.to_nat (x - out - p) - length _)%nat with O by lia. done.
Qed.
End printed.

Section vsnprintf.
Implicit Types (m : mem) (out n : Z) (l t fmt : list Z) (lg fm : bool) (E : stop -> mem -> Prop).

Definition arg_ok m out n (x : arg) : Prop :=
  match x with
  | AInt _ => True
  | AStr a t => cstr m a t /\ 0 <= a /\ a + Z.of_nat (length t) < 2 ^ 64 /\
                (a + Z.of_nat (length t) < out \/ out + n <= a)
  end.

Lemma int_arg_range lg z : - 2 ^ 63 <= int_arg lg z < 2 ^ 63.
Proof. unfold int_arg, s64, s32. destruct lg; [pose proof (Z.mod_pos_bound (z + 2 ^ 63) (2 ^ 64))|pose proof (Z.mod_pos_bound (z + 2 ^ 31) (2 ^ 32))]; lia. Qed.

Lemma u8_range z : 0 <= u8 z < 256.
Proof. apply Z.mod_pos_bound. lia. Qed.

Lemma wp_conv_x m m1 out n l lg z args (Q : fmt_state -> mem -> Prop) E :
  let t := hex (if lg then 16 else 8) (int_arg lg z) in
  printed m m1 out n l -> room m out n -> Z.of_nat (length (l ++ t)) < 2 ^ 64 ->
  (forall m', printed m m' out n (l ++ t) -> Q (mkFmt false false (Z.of_nat (length (l ++ t))) args) m') ->
  wp (conv_x out n lg (Z.of_nat (length l)) (z :: args)) Q E m1.
Proof.
  intros t Hp Hr Hl HQ. unfold conv_x, va_arg. apply wp_bind, wp_ret. cbn [fst snd]. apply wp_bind.
  eapply wp_hex_loop; [exact Hp|done|done|]. intros m' H'. by apply wp_ret, HQ.
Qed.

Lemma wp_conv_d m m1 out n l lg z args (Q : fmt_state -> mem -> Prop) E :
  let t := decimal (int_arg lg z) in
  printed m m1 out n l -> room m out n -> int_arg lg z <> - 2 ^ 63 -> Z.of_nat (length (l ++ t)) < 2 ^ 64 ->
  (forall m', printed m m' out n (l ++ t) -> Q (mkFmt false false (Z.of_nat (length (l ++ t))) args) m') ->
  wp (conv_d out n lg (Z.of_nat (length l)) (z :: args)) Q E m1.
Proof.
  intros t Hp Hr Hne Hl HQ. pose proof (int_arg_range lg z) as Hz. unfold conv_d, va_arg.
  apply wp_bind, wp_ret. cbn [fst snd]. set (num := int_arg lg z) in *.
  assert (Hd : forall m2 l2 k, l2 ++ dec 20 k = l ++ t -> 0 <= k < 2 ^ 63 -> printed m m2 out n l2 ->
    wp (dec_loop (Z.to_nat (digits_loop 20 k 1)) out n (Z.of_nat (length l2)) k ;;;
        ret (mkFmt false false (u64 (Z.of_nat (length l2) + digits_loop 20 k 1)) args)) Q E m2).
  { intros m2 l2 k Hlt Hk H2. assert (Hlen := f_equal length Hlt). rewrite length_app in Hlen.
    assert (Hk20 : k < 10 ^ Z.of_nat 20) by (cbn; lia).
    rewrite (dec_length 20 k 1) by (lia || exact Hk20).
    replace (1 + Z.of_nat (length (dec 20 k)) - 1) with (Z.of_nat (length (dec 20 k))) by lia. rewrite Nat2Z.id.
    pose proof (room_printed _ _ _ _ _ H2 Hr) as Hr2.
    apply wp_bind, wp_dec_loop; [done|lia|exact Hk20|lia|lia|lia|]. intros m' Hu.
    rewrite u64_id by (unfold is_u64; lia). apply wp_ret. rewrite <- Nat2Z.inj_add, Hlen. apply HQ.
    rewrite <- Hlt. by eapply printed_app. }
  apply wp_bind. unfold t, decimal in *. destruct (Z.ltb_spec num 0) as [Hneg|Hpos].
  - rewrite s64_id by lia. eapply wp_emit; [exact Hp|done|lia| |].
    { rewrite length_app in Hl. cbn [length] in Hl. lia. }
    intros m2 H2. apply (Hd m2 (l ++ [45]) (- num)); [|lia|done]. by rewrite <- app_assoc.
  - apply wp_ret. apply (Hd m1 l num); [done|lia|done].
Qed.

Lemma wp_conv_c m m1 out n l z args (Q : fmt_state -> mem -> Prop) E :
  printed m m1 out n l -> room m out n -> Z.of_nat (length (l ++ [u8 z])) < n ->
  (forall m', printed m m' out n (l ++ [u8 z]) -> Q (mkFmt false false (Z.of_nat (length (l ++ [u8 z]))) args) m') ->
  wp (conv_c out n (Z.of_nat (length l)) (z :: args)) Q E m1.
Proof.
  intros Hp Hr Hl HQ. rewrite length_app in Hl. cbn [length] in Hl. pose proof Hr as [R1 R2 R3 R4].
  assert (He : wp (emit out n (Z.of_nat (length l)) (u8 z)) (fun p m' => p = Z.of_nat (length l) + 1 /\ printed m m' out n (l ++ [u8 z])) E m1).
  { eapply wp_emit; [exact Hp|done|apply u8_range|lia|]. intros m' H'. split; [|done]. rewrite length_app. cbn [length]. lia. }
  unfold emit in He. unfold conv_c. rewrite u64_id in * by (unfold is_u64; lia).
  rewrite (proj2 (Z.ltb_lt _ _)) in * by lia. apply wp_bind_inv in He. apply wp_bind, wp_bind.
  unfold va_arg. apply wp_ret, wp_bind. cbn [fst snd]. eapply wp_mono; [exact He| |done].
  intros _ m' [_ H']. apply wp_ret, wp_ret. specialize (HQ m' H'). rewrite length_app in HQ. cbn [length] in HQ.
  by replace (Z.of_nat (length l) + 1) with (Z.of_nat (length l + 1)) by lia.
Qed.

(** A character that is printed as it is, or starts a conversion. *)
Lemma wp_fmt_literal m m1 out n l c fmt lg args r (Q : fmt_state -> mem -> Prop) E :
  printed m m1 out n l -> room m out n -> 0 < c < 256 -> Forall (arg_ok m out n) args ->
  render (c :: fmt) false lg args = Some r -> Z.of_nat (length (l ++ r)) < 2 ^ 64 ->
  (Z.of_nat (length (l ++ r)) < n \/ prints_char (c :: fmt) false = false) ->
  (forall m' l' r' fm' lg' args', printed m m' out n l' -> l' ++ r' = l ++ r -> Forall (arg_ok m out n) args' ->
     render fmt fm' lg' args' = Some r' -> (Z.of_nat (length (l ++ r)) < n \/ prints_char fmt fm' = false) ->
     Q (mkFmt fm' lg' (Z.of_nat (length l')) (raw <$> args')) m') ->
  wp (fmt_char out n c (mkFmt false lg (Z.of_nat (length l)) (raw <$> args))) Q E m1.
Proof.
  intros Hp Hr Hc Ha Hren Hl Hcc HQ. unfold fmt_char. cbn [format longarg pos vl].
  cbn [render prints_char] in Hren, Hcc. rewrite length_app in Hl. destruct (Z.eqb_spec c 37) as [->|Hne].
  - apply wp_ret. eapply (HQ _ l r); [done..|]. destruct Hcc; [by left|by right].
  - apply fmap_Some in Hren as (r' & Hren & ->). cbn [length] in Hl. apply wp_bind.
    eapply wp_emit; [exact Hp|done|lia|lia|]. intros m2 H2. apply wp_ret.
    eapply (HQ _ (l ++ [c]) r'); [done|by rewrite <- app_assoc|done..].
Qed.

(** One character of the format. *)
Lemma wp_fmt_char m m1 out n l c fmt fm lg args r (Q : fmt_state -> mem -> Prop) E :
  printed m m1 out n l -> room m out n -> 0 < c < 256 -> Forall (arg_ok m out n) args ->
  render (c :: fmt) fm lg args = Some r -> Z.of_nat (length (l ++ r)) < 2 ^ 64 ->
  (Z.of_nat (length (l ++ r)) < n \/ prints_char (c :: fmt) fm = false) ->
  (forall m' l' r' fm' lg' args', printed m m' out n l' -> l' ++ r' = l ++ r -> Forall (arg_ok m out n) args' ->
     render fmt fm' lg' args' = Some r' -> (Z.of_nat (length (l ++ r)) < n \/ prints_char fmt fm' = false) ->
     Q (mkFmt fm' lg' (Z.of_nat (length l')) (raw <$> args')) m') ->
  wp (fmt_char out n c (mkFmt fm lg (Z.of_nat (length l)) (raw <$> args))) Q E m1.
Proof.
  destruct fm; [|by apply wp_fmt_literal].
  intros Hp Hr Hc Ha Hren Hl Hcc HQ. unfold fmt_char. cbn [format longarg pos vl].
  cbn [render prints_char] in Hren, Hcc. rewrite length_app in Hl.
  destruct (Z.eqb_spec c 108) as [->|N1]; [apply wp_ret; by eapply (HQ _ l r)|].
  destruct (Z.eqb_spec c 112) as [->|N2].
  { destruct args as [|[z|] args]; try done. apply fmap_Some in Hren as (r' & Hren & ->).
    rewrite length_app in Hl. cbn [length] in Hl. apply wp_bind. eapply wp_emit; [exact Hp|done|lia|lia|]. intros m2 H2.
    apply wp_bind. eapply wp_emit; [exact H2|done|lia|rewrite length_app; cbn [length]; lia|]. intros m3 H3.
    cbn [fmap list_fmap raw]. eapply wp_conv_x; [exact H3|done|rewrite !length_app; cbn [length int_arg] in *; lia|].
    intros m4 H4. eapply (HQ _ _ r'); [exact H4| | |done|].
    - by rewrite <- !app_assoc.
    - by inversion Ha.
    - destruct Hcc; [by left|by right]. }
  destruct (Z.eqb_spec c 120) as [->|N3].
  { destruct args as [|[z|] args]; try done. apply fmap_Some in Hren as (r' & Hren & ->). rewrite length_app in Hl.
    cbn [fmap list_fmap raw]. eapply wp_conv_x; [exact Hp|done|rewrite !length_app; lia|].
    intros m4 H4. eapply (HQ _ _ r'); [exact H4|by rewrite <- !app_assoc|by inversion Ha|done|].
    destruct Hcc; [by left|by right]. }
  destruct (Z.eqb_spec c 100) as [->|N4].
  { destruct args as [|[z|] args]; try done. destruct (Z.eqb_spec (int_arg lg z) (- 2 ^ 63)) as [|Hne]; [done|].
    apply fmap_Some in Hren as (r' & Hren & ->). rewrite length_app in Hl.
    cbn [fmap list_fmap raw]. eapply wp_conv_d; [exact Hp|done|done|rewrite !length_app; lia|].
    intros m4 H4. eapply (HQ _ _ r'); [exact H4|by rewrite <- !app_assoc|by inversion Ha|done|].
    destruct Hcc; [by left|by right]. }
  destruct (Z.eqb_spec c 115) as [->|N5].
  { destruct args as [|[|a t] args]; try done. apply fmap_Some in Hren as (r' & Hren & ->). rewrite length_app in Hl.
    cbn [fmap list_fmap raw]. apply Forall_cons in Ha as [(A1 & A2 & A3 & A4) Ha'].
    unfold conv_s, va_arg, scan_fuel. apply wp_bind, wp_ret, wp_bind, wp_gets. cbn [fst snd]. apply wp_bind.
    eapply wp_str_loop; [exact Hp|done|exact A1|done..| |rewrite length_app; lia|].
    { eapply cstr_fuel, printed_cstr; [exact Hp|exact A1|done]. }
    intros m4 H4. apply wp_ret. eapply (HQ _ _ r'); [exact H4|by rewrite <- !app_assoc|done|done|].
    destruct Hcc; [by left|by right]. }
  destruct (Z.eqb_spec c 99) as [->|N6].
  { destruct args as [|[z|] args]; try done. apply fmap_Some in Hren as (r' & Hren & ->). cbn [length] in Hl.
    cbn [fmap list_fmap raw]. destruct Hcc as [Hn|]; [|done].
    eapply wp_conv_c; [exact Hp|done|rewrite !length_app in *; cbn [length] in *; lia|]. intros m4 H4.
    eapply (HQ _ _ r'); [exact H4|by rewrite <- !app_assoc|by inversion Ha|done|by left]. }
  apply wp_ret. eapply (HQ _ l r); done.
Qed.

Lemma wp_fmt_loop fmt : forall m m1 out n s l fm lg args r fuel (Q : fmt_state -> mem -> Prop) E,
  printed m m1 out n l -> room m out n -> cstr m s fmt -> 0 <= s -> s + Z.of_nat (length fmt) < 2 ^ 64 ->
  s + Z.of_nat (length fmt) < out \/ out + n <= s -> (length fmt < fuel)%nat ->
  Forall (arg_ok m out n) args -> render fmt fm lg args = Some r -> Z.of_nat (length (l ++ r)) < 2 ^ 64 ->
  (Z.of_nat (length (l ++ r)) < n \/ prints_char fmt fm = false) ->
  (forall m' st, printed m m' out n (l ++ r) -> pos st = Z.of_nat (length (l ++ r)) -> Q st m') ->
  wp (fmt_loop fuel out n s (mkFmt fm lg (Z.of_nat (length l)) (raw <$> args))) Q E m1.
Proof.
  induction fmt as [|c fmt IH]; intros m m1 out n s l fm lg args r fuel Q E Hp Hr Hc Hs Ht Hd Hf Ha Hren Hl Hcc HQ;
    (destruct fuel as [|fuel]; [cbn in Hf; lia|]); cbn [fmt_loop]; apply wp_bind;
    pose proof (printed_cstr _ _ _ _ _ _ _ Hp Hc Hd) as Hc1.
  - eapply wp_load8; [by apply cstr_nil|]. apply wp_ret. injection Hren as <-. rewrite app_nil_r in HQ. by apply HQ.
  - apply cstr_cons in Hc1 as (E1 & R1 & _). apply cstr_cons in Hc as (_ & _ & Hc).
    eapply wp_load8; [exact E1|]. rewrite (proj2 (Z.eqb_neq _ _)) by lia. apply wp_bind.
    eapply wp_fmt_char; [exact Hp|done..|]. intros m2 l' r' fm' lg' args' H2 El Ha' Hren' Hcc'. cbn [length] in *.
    rewrite u64_id by (unfold is_u64; lia). rewrite <- El in *.
    eapply IH; [exact H2|done|exact Hc|lia|lia|lia|lia|done|exact Hren'|lia|done|done].
Qed.

(** What [vsnprintf] leaves in the buffer for the text [r]. *)
Definition truncated (n : Z) (r : list Z) : list Z :=
  if n =? 0 then [] else take (Z.to_nat (n - 1)) r ++ [0].

Lemma wp_vsnprintf m out n s fmt args r (Q : Z -> mem -> Prop) E :
  room m out n -> cstr m s fmt -> 0 <= s -> s + Z.of_nat (length fmt) < 2 ^ 64 ->
  s + Z.of_nat (length fmt) < out \/ out + n <= s -> Forall (arg_ok m out n) args ->
  render fmt false false args = Some r -> Z.of_nat (length r) < 2 ^ 31 ->
  (Z.of_nat (length r) < n \/ prints_char fmt false = false) ->
  (forall m', upd m m' (inside out (Z.of_nat (length (truncated n r))))
                (fun x => nth (Z.to_nat (x - out)) (truncated n r) 0) -> Q (Z.of_nat (length r)) m') ->
  wp (vsnprintf out n s (raw <$> args)) Q E m.
Proof.
  intros Hr Hc Hs Ht Hd Ha Hren Hl Hcc HQ. unfold vsnprintf, scan_fuel. apply wp_bind, wp_gets, wp_bind.
  eapply (wp_fmt_loop fmt m m out n s []);
    [apply printed_nil|done|exact Hc|done|done|done|by eapply cstr_fuel|done|exact Hren|cbn [app]; lia|done|].
  cbn [app]. intros m1 st H1 ->. pose proof Hr as [R1 R2 R3 R4].
  rewrite s32_id by lia. unfold truncated in HQ. apply wp_bind.
  assert (Hend : forall p, 0 < n -> p = Z.min (Z.of_nat (length r)) (n - 1) ->
    wp (store8 (u64 (out + p)) 0) (fun _ m' => wp (ret (Z.of_nat (length r))) Q E m') E m1).
  { intros p Hn Ep. rewrite u64_id by (unfold is_u64; lia). apply wp_store.
    { eapply printed_has; [exact H1|]. intros x Hx. apply R4. lia. }
    intros m' _ Hu. apply wp_ret, HQ. rewrite (proj2 (Z.eqb_neq _ _)) by lia.
    intros x. rewrite Hu, H1, length_app, length_take. cbn [length]. unfold spot.
    destruct (inside_spec (out + p) (Z.of_nat 1) x), (inside_spec out (Z.of_nat (length r)) x), (Z.ltb_spec (x - out + 1) n),
      (inside_spec out (Z.of_nat (Init.Nat.min (Z.to_nat (n - 1)) (length r) + 1)) x); cbn [andb]; try lia; try done.
    all: try (rewrite app_nth2 by (rewrite length_take; lia); rewrite length_take;
      replace (Z.to_nat (x - out) - _)%nat with O by lia; replace (x - (out + p)) with 0 by lia; done).
    all: rewrite app_nth1 by (rewrite length_take; lia); rewrite !nth_lookup, lookup_take_lt by lia; done. }
  destruct (Z.ltb_spec (Z.of_nat (length r)) n) as [Hlt|Hge]; [|destruct (Z.eqb_spec n 0) as [->|Hn]; cbn [negb]].
  - apply Hend; lia.
  - apply wp_ret, wp_ret, HQ. intros x. rewrite H1. cbn [length].
    destruct (inside_spec out (Z.of_nat (length r)) x), (inside_spec out (Z.of_nat 0) x); cbn [andb]; try lia; try done.
    unfold spot. destruct (Z.ltb_spec (x - out + 1) 0); [lia|done].
  - replace (out + n - 1) with (out + (n - 1)) by lia. apply Hend; lia.
Qed.
End vsnprintf.

Lemma dec_short fuel k z : 0 <= z -> z < 10 ^ Z.of_nat k -> (0 < k)%nat -> (length (dec fuel z) <= k)%nat.
Proof.
  revert k z. induction fuel as [|fuel IH]; intros k z H0 Hk Hp; cbn [dec]; [cbn; lia|].
  destruct (Z.ltb_spec z 10); [cbn; lia|]. rewrite length_app. cbn [length].
  destruct k as [|k]; [lia|]. rewrite Nat2Z.inj_succ, Z.pow_succ_r in Hk by lia.
  assert (z / 10 < 10 ^ Z.of_nat k) by (apply Z.div_lt_upper_bound; lia).
  destruct k; [cbn in *; zlia|]. specialize (IH (S k) (z / 10)). zlia.
Qed.

Lemma decimal_chars z : - 2 ^ 63 < z < 2 ^ 63 ->
  (length (decimal z) <= 20)%nat /\ forall c, c ∈ decimal z -> 45 <= c < 58.
Proof.
  intros Hz. unfold decimal. destruct (Z.ltb_spec z 0).
  - destruct (dec_head 19 (- z) ltac:(lia)) as [_ Hd]. split.
    + pose proof (dec_short 20 19 (- z) ltac:(lia) ltac:(cbn; lia) ltac:(lia)). cbn [length]. lia.
    + intros c [->|Hc]%elem_of_cons; [lia|]. pose proof (Hd c Hc). lia.
  - destruct (dec_head 19 z ltac:(lia)) as [_ Hd]. split.
    + pose proof (dec_short 20 19 z ltac:(lia) ltac:(cbn; lia) ltac:(lia)). lia.
    + intros c Hc. pose proof (Hd c Hc). lia.
Qed.

(** "%d:%s %x", "up" and a buffer of ten bytes. *)
Definition ex_print : mem :=
  mem_at 4096 [37; 100; 58; 37; 115; 32; 37; 120; 0; 117; 112; 0] ∪ mem_at 4112 [37; 108; 100; 0] ∪ mem_at 8192 (replicate 24 7).

Lemma ex_room n : has_b ex_print 8192 n = true -> 0 <= n < 32 -> room ex_print 8192 n.
Proof. intros H Hn. split; [lia..|by apply has_b_spec]. Qed.

(** ** Theorems *)

(** C37: [vsnprintf] puts into the buffer the first [n - 1] characters of the
    text the format and its arguments stand for and a terminator, touches no
    byte beyond them, and returns the length of the whole text.  When the text
    does not fit, this needs that the format has no 'c' conversion (whose
    argument is then not consumed). *)
Theorem vsnprintf_truncates m out n s fmt args r :
  room m out n -> cstr m s fmt -> 0 <= s -> s + Z.of_nat (length fmt) < 2 ^ 64 ->
  s + Z.of_nat (length fmt) < out \/ out + n <= s -> Forall (arg_ok m out n) args ->
  render fmt false false args = Some r -> Z.of_nat (length r) < 2 ^ 31 ->
  Z.of_nat (length r) < n \/ prints_char fmt false = false ->
  wp (vsnprintf out n s (raw <$> args))
     (fun ret m' => ret = Z.of_nat (length r) /\
        forall x, m' !! x = if inside out (Z.of_nat (length (truncated n r))) x
                            then Some (nth (Z.to_nat (x - out)) (truncated n r) 0) else m !! x) no_stop m.
Proof. intros. by eapply wp_vsnprintf. Qed.

Lemma vsnprintf_truncates_witness :
  let r := [45; 53; 58; 117; 112; 32; 48; 48; 48; 48; 48; 48; 102; 102] in
  wp (vsnprintf 8192 10 4096 (raw <$> [AInt (-5); AStr 4105 [117; 112]; AInt 255]))
     (fun ret m' => ret = Z.of_nat (length r) /\
        forall x, m' !! x = if inside 8192 (Z.of_nat (length (truncated 10 r))) x
                            then Some (nth (Z.to_nat (x - 8192)) (truncated 10 r) 0) else ex_print !! x) no_stop ex_print.
Proof.
  intros r.
  apply (vsnprintf_truncates ex_print 8192 10 4096 [37; 100; 58; 37; 115; 32; 37; 120]
           [AInt (-5); AStr 4105 [117; 112]; AInt 255] r).
  - apply ex_room; [vm_compute; reflexivity|lia].
  - apply cstr_b_spec; vm_compute; reflexivity.
  - lia.
  - cbn; lia.
  - left; cbn; lia.
  - apply Forall_cons. split; [exact I|]. apply Forall_cons. split; [|by apply Forall_singleton].
    split; [apply cstr_b_spec; vm_compute; reflexivity|cbn; lia].
  - vm_compute; reflexivity.
  - cbn; lia.
  - right. reflexivity.
Defined.

(** C38: [atol] reads back what [vsnprintf] prints with "%ld", for every number
    but the smallest [long], in a buffer of at least 21 bytes. *)
Theorem print_read_long m out n s z :
  room m out n -> bytes_ok m -> 20 < n -> cstr m s [37; 108; 100] -> 0 <= s -> s + 3 < 2 ^ 64 ->
  s + 3 < out \/ out + n <= s -> - 2 ^ 63 < z < 2 ^ 63 ->
  wp (vsnprintf out n s [z] ;;; atol out) (fun r _ => r = z) no_stop m.
Proof.
  intros Hr Hb Hn Hc Hs Ht Hd Hz. destruct (decimal_chars z Hz) as [Hlen Hch]. pose proof Hr as [R1 R2 R3 R4].
  apply wp_bind. change [z] with (raw <$> [AInt z]).
  eapply (wp_vsnprintf m out n s [37; 108; 100] [AInt z] (decimal z)); try done.
  - by apply Forall_singleton.
  - cbn [render]. change (37 =? 37) with true. change (108 =? 108) with true. change (100 =? 108) with false.
    change (100 =? 112) with false. change (100 =? 120) with false. change (100 =? 100) with true. cbv iota.
    cbn [int_arg]. rewrite s64_id by lia. rewrite (proj2 (Z.eqb_neq _ _)) by lia. cbn. by rewrite app_nil_r.
  - lia.
  - right. reflexivity.
  - intros m' Hu. unfold truncated in Hu. rewrite (proj2 (Z.eqb_neq _ _)) in Hu by lia.
    rewrite take_ge in Hu by lia. rewrite length_app in Hu. cbn [length] in Hu.
    eapply (wp_atol m' out (decimal z)); [|done|lia|exact (atol_decimal 0 z Hz)].
    split.
    + intros i c Hi. pose proof (lookup_lt_Some _ _ _ Hi). rewrite Hu.
      destruct (inside_spec out (Z.of_nat (length (decimal z) + 1)) (out + Z.of_nat i)); [|lia].
      rewrite app_nth1 by lia. rewrite nth_lookup. replace (Z.to_nat (out + Z.of_nat i - out)) with i by lia. by rewrite Hi.
    + intros c Hin. pose proof (Hch c Hin). lia.
    + rewrite Hu. destruct (inside_spec out (Z.of_nat (length (decimal z) + 1)) (out + Z.of_nat (length (decimal z)))); [|lia].
      rewrite app_nth2 by lia. replace (Z.to_nat _ - _)%nat with O by lia. done.
Qed.

Lemma print_read_long_witness : wp (vsnprintf 8192 24 4112 [-9223372036854775807] ;;; atol 8192)
  (fun r _ => r = -9223372036854775807) no_stop ex_print.
Proof.
  apply (print_read_long ex_print 8192 24 4112 (-9223372036854775807)); try lia.
  - apply ex_room; [vm_compute; reflexivity|lia].
  - apply bytes_b_spec; vm_compute; reflexivity.
  - apply cstr_b_spec; vm_compute; reflexivity.
Defined.
