(* ===== verification/Dts.v ===== *)
(** * The flattened device tree (spike_interface/dts_parse.c, spike_memory.c,
    spike_htif.c)

    The scanner walks the token words of the structure block and calls back.
    A node on the scanner's stack is a record; the list of a node and its
    ancestors stands for the pointer to it, [ [] ] for NULL.  A scan runs on
    byte memory and the client's own data [X] (the globals and the [extra]
    structure). *)
From stdpp Require Import base gmap list strings.
From Stdlib Require Import ZArith Lia.
From S2P Require Import Prelude Mem Str.

Definition bswap (x : Z) : Z :=
  let y := Z.lor (u32 (Z.shiftl (Z.land x 16711935) 8)) (Z.shiftr (Z.land x 4278255360) 8) in
  Z.lor (u32 (Z.shiftl (Z.land y 65535) 16)) (Z.shiftr (Z.land y 4294901760) 16).

Definition FDT_MAGIC : Z := 3490578157.
Definition FDT_VERSION : Z := 17.
Definition FDT_BEGIN_NODE : Z := 1.
Definition FDT_END_NODE : Z := 2.
Definition FDT_PROP : Z := 3.
Definition FDT_NOP : Z := 4.

(** Offsets in [struct fdt_header]. *)
Definition FH_MAGIC : Z := 0.
Definition FH_OFF_DT_STRUCT : Z := 8.
Definition FH_OFF_DT_STRINGS : Z := 12.
Definition FH_LAST_COMP_VERSION : Z := 24.

(** The field [parent] is the rest of the list of ancestors. *)
Record fdt_scan_node := mkNode { node_name : Z; address_cells : Z; size_cells : Z }.
Abbreviation nodes := (list fdt_scan_node).

Record fdt_scan_prop := mkProp { prop_node : nodes; prop_name : Z; prop_value : Z; prop_len : Z }.

Record scan_state (X : Type) := mkScan { sc_mem : mem; sc_extra : X }.
Arguments mkScan {X} _ _.
Arguments sc_mem {X} _.
Arguments sc_extra {X} _.

(** A NULL callback is [None]. *)
Record fdt_cb (X : Type) := mkCb {
  cb_open : option (nodes -> M (scan_state X) unit);
  cb_prop : option (fdt_scan_prop -> M (scan_state X) unit);
  cb_done : option (nodes -> M (scan_state X) unit);
  cb_close : option (nodes -> M (scan_state X) Z)
}.
Arguments mkCb {X} _ _ _ _.
Arguments cb_open {X} _.
Arguments cb_prop {X} _.
Arguments cb_done {X} _.
Arguments cb_close {X} _.

(** Where the string literals of the three files are. *)
Record literals := mkLiterals {
  lit_address_cells : Z; lit_size_cells : Z;
  lit_device_type : Z; lit_memory : Z; lit_reg : Z;
  lit_compatible : Z; lit_htif : Z
}.

Section scanner.
Context {X : Type} (lit : literals).

Definition on_fdt {A} (m : M mem A) : M (scan_state X) A :=
  zoom sc_mem (fun m s => mkScan m (sc_extra s)) m.

(** [bswap(lex[i])] *)
Definition word_at (lex i : Z) : M (scan_state X) Z :=
  let* w := on_fdt (load32 (u64 (lex + 4 * i))) in ret (bswap w).

(** [if (node && !strcmp(prop.name, "#...-cells")) node->... = bswap(lex[3]);] *)
Definition set_cells (name lex key : Z) (upd : Z -> fdt_scan_node -> fdt_scan_node) (node : nodes) : M (scan_state X) nodes :=
  match node with
  | [] => ret []
  | n :: up =>
      let* r := on_fdt (strcmp name key) in
      if r =? 0 then let* v := word_at lex 3 in ret (upd (s32 v) n :: up) else ret (n :: up)
  end.
Definition with_address_cells (v : Z) (n : fdt_scan_node) := mkNode (node_name n) v (size_cells n).
Definition with_size_cells (v : Z) (n : fdt_scan_node) := mkNode (node_name n) (address_cells n) v.

(** [if (!last && node && cb->done) cb->done(node, cb->extra);] *)
Definition call_done (cb : fdt_cb X) (last : bool) (node : nodes) : M (scan_state X) unit :=
  match cb_done cb, node with
  | Some f, _ :: _ => if last then ret tt else f node
  | _, _ => ret tt
  end.

(** [while (lex != lex_next) *lex++ = bswap(FDT_NOP);] *)
Fixpoint nop_out (fuel : nat) (lex lex_next : Z) : M (scan_state X) unit :=
  if lex =? lex_next then ret tt
  else match fuel with
       | O => halt OutOfFuel
       | S fuel => on_fdt (store32 lex (bswap FDT_NOP)) ;;; nop_out fuel (u64 (lex + 4)) lex_next
       end.

(** The property token: the new [lex] and the node with its cells set. *)
Definition scan_prop (cb : fdt_cb X) (lex strings : Z) (node : nodes) : M (scan_state X) (Z * nodes) :=
  let* off := word_at lex 2 in
  let name := u64 (strings + off) in
  let* l := word_at lex 1 in
  let len := s32 l in
  let value := u64 (lex + 12) in
  let* node := set_cells name lex (lit_address_cells lit) with_address_cells node in
  let* node := set_cells name lex (lit_size_cells lit) with_size_cells node in
  let lex := u64 (lex + 4 * (3 + Z.quot (len + 3) 4)) in
  match cb_prop cb with
  | None => halt WildAccess
  | Some f => f (mkProp node name value len) ;;; ret (lex, node)
  end.

(** [fdt_scan_helper]: the loop from [lex] on, with its local [child] and
    [last]; the result is the pointer it returns and [*node] as it leaves it.
    Nested calls and iterations both use up [fuel]. *)
Fixpoint scan_loop (fuel : nat) (cb : fdt_cb X) (lex strings : Z) (node : nodes) (child : fdt_scan_node) (last : bool)
    : M (scan_state X) (Z * nodes) :=
  match fuel with
  | O => halt OutOfFuel
  | S fuel =>
      let* tag := word_at lex 0 in
      if tag =? FDT_NOP then scan_loop fuel cb (u64 (lex + 4)) strings node child last
      else if tag =? FDT_PROP then
        (if last then halt (AssertFailed "!last") else ret tt) ;;;
        let* r := scan_prop cb lex strings node in
        let '(lex, node) := r in
        scan_loop fuel cb lex strings node child last
      else if tag =? FDT_BEGIN_NODE then
        call_done cb last node ;;;
        let child := mkNode (u64 (lex + 4)) (address_cells child) (size_cells child) in
        match cb_open cb with Some f => f (child :: node) | None => ret tt end ;;;
        let* n := on_fdt (strlen (node_name child)) in
        let* r := scan_loop fuel cb (u64 (lex + 4 * (2 + n / 4))) strings (child :: node) (mkNode 0 2 1) false in
        let '(lex_next, sub) := r in
        let child := default child (head sub) in
        (match cb_close cb with
         | Some f =>
             let* c := f (child :: node) in
             if c =? -1 then
               let* fuel := gets (fun s => S (size (sc_mem s))) in nop_out fuel lex lex_next
             else ret tt
         | None => ret tt
         end) ;;;
        scan_loop fuel cb lex_next strings node child true
      else if tag =? FDT_END_NODE then call_done cb last node ;;; ret (u64 (lex + 4), node)
      else call_done cb last node ;;; ret (lex, node)
  end.

Definition fdt_scan_helper (lex strings : Z) (node : nodes) (cb : fdt_cb X) : M (scan_state X) (Z * nodes) :=
  let* fuel := gets (fun s => S (size (sc_mem s))) in
  scan_loop fuel cb lex strings node (mkNode 0 2 1) false.

Definition fdt_scan (fdt : Z) (cb : fdt_cb X) : M (scan_state X) unit :=
  let* magic := on_fdt (load32 (u64 (fdt + FH_MAGIC))) in
  if negb (bswap magic =? FDT_MAGIC) then ret tt
  else
    let* version := on_fdt (load32 (u64 (fdt + FH_LAST_COMP_VERSION))) in
    if FDT_VERSION <? bswap version then ret tt
    else
      let* off := on_fdt (load32 (u64 (fdt + FH_OFF_DT_STRINGS))) in
      let strings := u64 (fdt + bswap off) in
      let* off := on_fdt (load32 (u64 (fdt + FH_OFF_DT_STRUCT))) in
      let lex := u64 (fdt + bswap off) in
      let* _ := fdt_scan_helper lex strings [] cb in
      ret tt.

(** Both loops of [fdt_get_address] and [fdt_get_size]: the words from
    [value] on are shifted into the result. *)
Fixpoint read_cells (cells : nat) (value result : Z) : M (scan_state X) (Z * Z) :=
  match cells with
  | O => ret (value, result)
  | S cells =>
      let* w := on_fdt (load32 value) in
      read_cells cells (u64 (value + 4)) (u64 (u64 (Z.shiftl result 32) + bswap w))
  end.
Definition fdt_get_address (node : fdt_scan_node) (value : Z) : M (scan_state X) (Z * Z) :=
  read_cells (Z.to_nat (address_cells node)) value 0.
Definition fdt_get_size (node : fdt_scan_node) (value : Z) : M (scan_state X) (Z * Z) :=
  read_cells (Z.to_nat (size_cells node)) value 0.
End scanner.

(** ** spike_memory.c: the size of the memory *)
Record mem_scan := mkMemScan {
  ms_memory : Z; ms_reg_value : Z; ms_reg_len : Z;  (* struct mem_scan *)
  ms_g_mem_size : Z                                   (* the global *)
}.

Section memory.
Context (lit : literals).
(** The address of the function [mem_done] itself. *)
Context (self : Z).

Definition mem_open (node : nodes) : M (scan_state mem_scan) unit :=
  modify (fun s => mkScan (sc_mem s) (mkMemScan 0 0 0 (ms_g_mem_size (sc_extra s)))).

Definition mem_prop (p : fdt_scan_prop) : M (scan_state mem_scan) unit :=
  let* r := on_fdt (strcmp (prop_name p) (lit_device_type lit)) in
  let* is_memory := (if r =? 0 then let* r := on_fdt (strcmp (prop_value p) (lit_memory lit)) in ret (r =? 0) else ret false) in
  if (is_memory : bool) then
    modify (fun s => let x := sc_extra s in mkScan (sc_mem s) (mkMemScan 1 (ms_reg_value x) (ms_reg_len x) (ms_g_mem_size x)))
  else
    let* r := on_fdt (strcmp (prop_name p) (lit_reg lit)) in
    if r =? 0 then
      modify (fun s => let x := sc_extra s in mkScan (sc_mem s) (mkMemScan (ms_memory x) (prop_value p) (prop_len p) (ms_g_mem_size x)))
    else ret tt.

(** [while (end - value > 0)]: the last bank that holds the kernel's code
    gives the size. *)
Fixpoint banks_loop (fuel : nat) (parent : nodes) (value end_ : Z) : M (scan_state mem_scan) Z :=
  if 0 <? Z.quot (s64 (end_ - value)) 4 then
    match fuel, parent with
    | O, _ => halt OutOfFuel
    | _, [] => halt WildAccess
    | S fuel, up :: _ =>
        let* r := fdt_get_address up value in
        let '(value, base) := r in
        let* r := fdt_get_size up value in
        let '(value, size) := r in
        (if (base <=? self) && (self <=? u64 (base + size)) then
           modify (fun s => let x := sc_extra s in mkScan (sc_mem s) (mkMemScan (ms_memory x) (ms_reg_value x) (ms_reg_len x) size))
         else ret tt) ;;;
        banks_loop fuel parent value end_
    end
  else ret value.

Definition mem_done (node : nodes) : M (scan_state mem_scan) unit :=
  let* scan := gets sc_extra in
  let value := ms_reg_value scan in
  let end_ := u64 (value + 4 * Z.quot (ms_reg_len scan) 4) in
  if ms_memory scan =? 0 then ret tt
  else
    (if negb (value =? 0) && (Z.rem (ms_reg_len scan) 4 =? 0) then ret tt
     else halt (AssertFailed "scan->reg_value && scan->reg_len % 4 == 0")) ;;;
    let* value := banks_loop (Z.to_nat (ms_reg_len scan)) (tail node) value end_ in
    if end_ =? value then ret tt else halt (AssertFailed "end == value").

Definition mem_cb : fdt_cb mem_scan := mkCb (Some mem_open) (Some mem_prop) (Some mem_done) None.

Definition query_mem (fdt : Z) : M (scan_state mem_scan) unit :=
  modify (fun s => let x := sc_extra s in mkScan (sc_mem s) (mkMemScan (ms_memory x) (ms_reg_value x) (ms_reg_len x) 0)) ;;;
  fdt_scan lit fdt mem_cb ;;;
  let* x := gets sc_extra in
  if 0 <? ms_g_mem_size x then ret tt else halt (AssertFailed "g_mem_size > 0").
End memory.

(** ** spike_htif.c: is there a host interface? *)
Record htif_scan := mkHtifScan { hs_compat : Z; hs_htif : Z (* the global *) }.

Section htif.
Context (lit : literals).

Definition htif_open (node : nodes) : M (scan_state htif_scan) unit :=
  modify (fun s => mkScan (sc_mem s) (mkHtifScan 0 (hs_htif (sc_extra s)))).
Definition htif_prop (p : fdt_scan_prop) : M (scan_state htif_scan) unit :=
  let* r := on_fdt (strcmp (prop_name p) (lit_compatible lit)) in
  if r =? 0 then
    let* r := on_fdt (strcmp (prop_value p) (lit_htif lit)) in
    if r =? 0 then modify (fun s => mkScan (sc_mem s) (mkHtifScan 1 (hs_htif (sc_extra s)))) else ret tt
  else ret tt.
Definition htif_done (node : nodes) : M (scan_state htif_scan) unit :=
  modify (fun s => if hs_compat (sc_extra s) =? 0 then s else mkScan (sc_mem s) (mkHtifScan (hs_compat (sc_extra s)) 1)).

Definition htif_cb : fdt_cb htif_scan := mkCb (Some htif_open) (Some htif_prop) (Some htif_done) None.
Definition query_htif (fdt : Z) : M (scan_state htif_scan) unit := fdt_scan lit fdt htif_cb.
End htif.
