(* ===== verification/DtsProofs.v ===== *)
(** * The device tree: its encoding, and what a scan does with it

    A tree is a list of items; [enc_items] is its place in the structure
    block.  [visit_items] walks the tree itself, by structural recursion, and
    is the reference for the scanner. *)
From stdpp Require Import base gmap list strings.
From Stdlib Require Import ZArith Lia.
From S2P Require Import Prelude Mem Str Dts.

#[local] Arguments load_le : simpl never.

(** ** Words are stored most significant byte first *)
Definition be32 (v : Z) : list Z := [v / 2 ^ 24 mod 256; v / 2 ^ 16 mod 256; v / 2 ^ 8 mod 256; v mod 256].

Definition swap_step (c d k x : Z) : Z := Z.lor (u32 (Z.shiftl (Z.land x c) k)) (Z.shiftr (Z.land x d) k).

Lemma swap_step_lor c d k x y : swap_step c d k (Z.lor x y) = Z.lor (swap_step c d k x) (swap_step c d k y).
Proof.
  unfold swap_step, u32. rewrite <- !Z.land_ones by lia.
  rewrite !Z.land_lor_distr_l, Z.shiftl_lor, Z.shiftr_lor, Z.land_lor_distr_l.
  set (p := Z.land (Z.shiftl (Z.land x c) k) _). set (q := Z.land (Z.shiftl (Z.land y c) k) _).
  rewrite !Z.lor_assoc. f_equal. rewrite <- !Z.lor_assoc. f_equal. apply Z.lor_comm.
Qed.

Lemma bswap_lor x y : bswap (Z.lor x y) = Z.lor (bswap x) (bswap y).
Proof.
  change (bswap ?z) with (swap_step 65535 4294901760 16 (swap_step 16711935 4278255360 8 z)).
  by rewrite !swap_step_lor.
Qed.

Lemma bswap_byte b k : 0 <= b < 256 -> 0 <= k < 4 -> bswap (b * 2 ^ (8 * k)) = b * 2 ^ (24 - 8 * k).
Proof.
  intros Hb Hk.
  assert (Hc : forallb (fun k => forallb (fun b => bswap (b * 2 ^ (8 * k)) =? b * 2 ^ (24 - 8 * k)) (seqZ 0 256)) (seqZ 0 4) = true)
    by (vm_compute; reflexivity).
  rewrite forallb_forall in Hc. specialize (Hc k). rewrite <- list_elem_of_In, elem_of_seqZ, forallb_forall in Hc.
  specialize (Hc ltac:(lia) b). rewrite <- list_elem_of_In, elem_of_seqZ in Hc. apply Z.eqb_eq, Hc. lia.
Qed.

(** The scanner's view of four bytes. *)
Lemma bswap_bytes b0 b1 b2 b3 : 0 <= b0 < 256 -> 0 <= b1 < 256 -> 0 <= b2 < 256 -> 0 <= b3 < 256 ->
  bswap (b0 + 256 * (b1 + 256 * (b2 + 256 * (b3 + 256 * 0)))) = b0 * 2 ^ 24 + b1 * 2 ^ 16 + b2 * 2 ^ 8 + b3.
Proof.
  intros H0 H1 H2 H3.
  assert (E1 : b0 + 256 * (b1 + 256 * (b2 + 256 * (b3 + 256 * 0))) =
    Z.lor (b3 * 2 ^ (8 * 3)) (Z.lor (b2 * 2 ^ (8 * 2)) (Z.lor (b1 * 2 ^ (8 * 1)) (b0 * 2 ^ (8 * 0))))).
  { rewrite (lor_low b1 _ 8), (lor_low b2 _ 16), (lor_low b3 _ 24) by lia. lia. }
  rewrite E1, !bswap_lor, !bswap_byte by lia. rewrite (Z.lor_comm (b1 * _)), (Z.lor_comm (b2 * _)), (Z.lor_comm (b3 * _)).
  change (2 ^ (24 - 8 * 3)) with (2 ^ 0). change (24 - 8 * 2) with 8. change (24 - 8 * 1) with 16. change (24 - 8 * 0) with 24.
  rewrite (lor_low b0 _ 24) by lia.
  replace (b0 * 2 ^ 24 + b1 * 2 ^ 16) with ((b0 * 2 ^ 8 + b1) * 2 ^ 16) by lia. rewrite (lor_low _ _ 16) by lia.
  replace ((b0 * 2 ^ 8 + b1) * 2 ^ 16 + b2 * 2 ^ 8) with (((b0 * 2 ^ 8 + b1) * 2 ^ 8 + b2) * 2 ^ 8) by lia.
  rewrite (lor_low _ _ 8) by lia. lia.
Qed.

Lemma bytes_at_word m a v l : bytes_at m a (be32 v ++ l) -> 0 <= v < 2 ^ 32 -> exists w, load_le 4 a m = Some w /\ bswap w = v.
Proof.
  intros [Hb _]%bytes_at_app Hv. pose proof (Hb 0%nat _ eq_refl) as H0. pose proof (Hb 1%nat _ eq_refl) as H1.
  pose proof (Hb 2%nat _ eq_refl) as H2. pose proof (Hb 3%nat _ eq_refl) as H3.
  unfold load_le. change (Z.of_nat 0) with 0 in H0. rewrite Z.add_0_r in H0. rewrite H0. cbn [mbind option_bind].
  replace (a + 1 + 1) with (a + 2) by lia. replace (a + 2 + 1) with (a + 3) by lia.
  change (Z.of_nat 1) with 1 in H1. change (Z.of_nat 2) with 2 in H2. change (Z.of_nat 3) with 3 in H3.
  rewrite H1, H2, H3. cbn [mbind option_bind]. eexists. split; [reflexivity|].
  rewrite bswap_bytes by zlia. zlia.
Qed.

(** ** Trees *)
Inductive item :=
  | INop
  | IProp (off : Z) (val : list Z)
  | INode (name : list Z) (body : list item).

(** Filled with zeros to a whole number of words. *)
Definition pad4 (l : list Z) : list Z := l ++ replicate (Z.to_nat ((- Z.of_nat (length l)) mod 4)) 0.

Fixpoint enc_item (it : item) : list Z :=
  match it with
  | INop => be32 FDT_NOP
  | IProp off val => be32 FDT_PROP ++ be32 (Z.of_nat (length val)) ++ be32 off ++ pad4 val
  | INode name body => be32 FDT_BEGIN_NODE ++ pad4 (name ++ [0]) ++ flat_map enc_item body ++ be32 FDT_END_NODE
  end.
Definition enc_items (l : list item) : list Z := flat_map enc_item l.

(** The same step for each element, from left to right. *)
Definition each {S A V} (f : A -> V -> M S V) : list A -> V -> M S V :=
  fix go l v := match l with [] => ret v | a :: l => let* v := f a v in go l v end.

Lemma pad4_len l : lenZ (pad4 l) = 4 * ((lenZ l + 3) / 4).
Proof. unfold pad4. rewrite lenZ_app. unfold lenZ. rewrite length_replicate. zlia. Qed.

(** ** The reference walk *)
Record vis := mkVis { v_at : Z; v_node : nodes; v_child : fdt_scan_node; v_last : bool }.

(** "#address-cells", "#size-cells" *)
Definition address_cells_str : list Z := [35; 97; 100; 100; 114; 101; 115; 115; 45; 99; 101; 108; 108; 115].
Definition size_cells_str : list Z := [35; 115; 105; 122; 101; 45; 99; 101; 108; 108; 115].
Definition be_value (l : list Z) : Z := foldl (fun r b => r * 256 + b) 0 l.

Section visit.
Context {X : Type} (lit : literals) (cb : fdt_cb X) (strings : Z).
(** The string at each offset of the strings block. *)
Context (names : Z -> list Z).

Definition ref_cells (off : Z) (val : list Z) (node : nodes) : nodes :=
  match node with
  | [] => []
  | n :: up =>
      let v := s32 (be_value (take 4 val)) in
      let n := if decide (names off = address_cells_str) then with_address_cells v n else n in
      let n := if decide (names off = size_cells_str) then with_size_cells v n else n in
      n :: up
  end.

Definition call_open (node : nodes) : M (scan_state X) unit :=
  match cb_open cb with Some f => f node | None => ret tt end.
Definition call_prop (p : fdt_scan_prop) : M (scan_state X) unit :=
  match cb_prop cb with Some f => f p | None => halt WildAccess end.

Fixpoint visit_item (it : item) (v : vis) {struct it} : M (scan_state X) vis :=
  match it with
  | INop => ret (mkVis (v_at v + 4) (v_node v) (v_child v) (v_last v))
  | IProp off val =>
      if v_last v then halt (AssertFailed "!last")
      else
        let node := ref_cells off val (v_node v) in
        call_prop (mkProp node (strings + off) (v_at v + 12) (lenZ val)) ;;;
        ret (mkVis (v_at v + 12 + lenZ (pad4 val)) node (v_child v) (v_last v))
  | INode name body =>
      call_done cb (v_last v) (v_node v) ;;;
      let child := mkNode (v_at v + 4) (address_cells (v_child v)) (size_cells (v_child v)) in
      call_open (child :: v_node v) ;;;
      let* w := each visit_item body
                  (mkVis (v_at v + 4 + lenZ (pad4 (name ++ [0]))) (child :: v_node v) (mkNode 0 2 1) false) in
      call_done cb (v_last w) (v_node w) ;;;
      ret (mkVis (v_at w + 4) (v_node v) (default child (head (v_node w))) true)
  end.
Definition visit_items (l : list item) (v : vis) : M (scan_state X) vis := each visit_item l v.

(** What the encoding needs of an item. *)
Fixpoint item_ok (m : mem) (it : item) : Prop :=
  match it with
  | INop => True
  | IProp off val =>
      0 <= off < 2 ^ 32 /\ lenZ val < 2 ^ 31 - 4 /\ (forall b, b ∈ val -> 0 <= b < 256) /\
      cstr m (strings + off) (names off) /\ 0 <= strings + off /\ strings + off + lenZ (names off) < 2 ^ 64 /\
      (names off = address_cells_str \/ names off = size_cells_str -> 4 <= lenZ val)
  | INode name body => (forall c, c ∈ name -> 0 < c < 256) /\ fold_right and True (map (item_ok m) body)
  end.

(** Callbacks leave memory alone. *)
Definition keeps {A} (f : M (scan_state X) A) : Prop := forall s,
  match f s with Ret _ s' => sc_mem s' = sc_mem s | Halt _ _ => True end.
Record cb_ok : Prop := {
  ok_open f node : cb_open cb = Some f -> keeps (f node);
  ok_prop f p : cb_prop cb = Some f -> keeps (f p);
  ok_done f node : cb_done cb = Some f -> keeps (f node);
  ok_close : cb_close cb = None
}.

Lemma wp_keeps {A} (f : M (scan_state X) A) Q E s : keeps f -> wp f Q E s -> wp f (fun a s' => sc_mem s' = sc_mem s /\ Q a s') E s.
Proof. intros Hk. unfold wp. specialize (Hk s). by destruct (f s). Qed.

Lemma keeps_done (H : cb_ok) last node : keeps (call_done cb last node).
Proof.
  unfold call_done. destruct (cb_done cb) as [f|] eqn:Ef; [|done]. destruct node as [|n up]; [done|].
  destruct last; [done|]. by apply (ok_done H).
Qed.

Lemma keeps_open (H : cb_ok) node : keeps (call_open node).
Proof. unfold call_open. destruct (cb_open cb) as [f|] eqn:Ef; [by apply (ok_open H)|done]. Qed.
Lemma keeps_prop (H : cb_ok) p : keeps (call_prop p).
Proof. unfold call_prop. destruct (cb_prop cb) as [f|] eqn:Ef; [by apply (ok_prop H)|done]. Qed.

Lemma wp_on_fdt {A} (f : M mem A) (Q : A -> scan_state X -> Prop) E s m :
  sc_mem s = m -> wp f (fun a m' => m' = m /\ Q a s) no_stop m -> wp (on_fdt f) Q E s.
Proof.
  intros Hm Hf. apply wp_zoom. rewrite Hm. eapply wp_mono; [exact Hf| |done].
  intros a m' [-> HQ]. rewrite <- Hm. destruct s. exact HQ.
Qed.

Lemma wp_word_at (Q : Z -> scan_state X -> Prop) E s m lex i v l :
  sc_mem s = m -> bytes_at m (lex + 4 * i) (be32 v ++ l) -> 0 <= v < 2 ^ 32 -> 0 <= lex + 4 * i < 2 ^ 64 -> Q v s ->
  wp (word_at lex i) Q E s.
Proof.
  intros Hm Hb Hv Ha HQ. destruct (bytes_at_word _ _ _ _ Hb Hv) as (w & Hw & Ew). unfold word_at. apply wp_bind.
  eapply wp_on_fdt; [exact Hm|]. rewrite u64_id by (unfold is_u64; lia). apply wp_load with (v := w); [exact Hw|]. split; [done|].
  apply wp_ret. by rewrite Ew.
Qed.

(** *** One property *)
Record lit_ok (m : mem) (a : Z) (l : list Z) : Prop := {
  lo_str : cstr m a l;
  lo_low : 0 <= a;
  lo_high : a + lenZ l < 2 ^ 64
}.

Lemma strcmp_run m a b l1 l2 : lit_ok m a l1 -> lit_ok m b l2 -> exists r, strcmp a b m = Ret r m /\ (r = 0 <-> l1 = l2).
Proof.
  intros [A1 A2 A3] [B1 B2 B3]. pose proof (strcmp_decides m a b l1 l2 A1 B1 A2 B2 A3 B3) as Hw.
  apply wp_returns in Hw as (r & m' & Hr & _ & Hd & ->). by exists r.
Qed.

Lemma be_value_4 b0 b1 b2 b3 l : be_value (take 4 (b0 :: b1 :: b2 :: b3 :: l)) = b0 * 2 ^ 24 + b1 * 2 ^ 16 + b2 * 2 ^ 8 + b3.
Proof. unfold be_value. change (take 4 (b0 :: b1 :: b2 :: b3 :: l)) with [b0; b1; b2; b3]. cbn [foldl]. lia. Qed.

Lemma value_word m a val l : bytes_at m a (val ++ l) -> 4 <= lenZ val -> (forall b, b ∈ val -> 0 <= b < 256) ->
  exists w, load_le 4 a m = Some w /\ bswap w = be_value (take 4 val).
Proof.
  intros Hb Hl Hr. destruct val as [|b0 [|b1 [|b2 [|b3 val]]]]; try (unfold lenZ in Hl; cbn in Hl; lia).
  rewrite be_value_4. pose proof (Hb 0%nat _ eq_refl) as H0. pose proof (Hb 1%nat _ eq_refl) as H1.
  pose proof (Hb 2%nat _ eq_refl) as H2. pose proof (Hb 3%nat _ eq_refl) as H3.
  change (Z.of_nat 0) with 0 in H0. change (Z.of_nat 1) with 1 in H1. change (Z.of_nat 2) with 2 in H2. change (Z.of_nat 3) with 3 in H3.
  rewrite Z.add_0_r in H0. unfold load_le. rewrite H0. cbn [mbind option_bind].
  replace (a + 1 + 1) with (a + 2) by lia. replace (a + 2 + 1) with (a + 3) by lia. rewrite H1, H2, H3. cbn [mbind option_bind].
  eexists. split; [reflexivity|]. apply bswap_bytes; apply Hr; repeat first [apply list_elem_of_here|apply list_elem_of_further].
Qed.

Lemma wp_set_cells m s off val rest key keystr upd n up lex (Q : nodes -> scan_state X -> Prop) E :
  sc_mem s = m -> lit_ok m (strings + off) (names off) -> lit_ok m key keystr ->
  (names off = keystr -> 4 <= lenZ val) -> (forall b, b ∈ val -> 0 <= b < 256) ->
  bytes_at m (lex + 12) (val ++ rest) -> 0 <= lex -> lex + 12 < 2 ^ 64 ->
  Q ((if decide (names off = keystr) then upd (s32 (be_value (take 4 val))) n else n) :: up) s ->
  wp (set_cells (strings + off) lex key upd (n :: up)) Q E s.
Proof.
  intros Hm Hname Hkey Hlen Hval Hb Hl0 Hl1 HQ. destruct (strcmp_run _ _ _ _ _ Hname Hkey) as (r & Hr & Hd).
  unfold set_cells. apply wp_bind. eapply wp_on_fdt; [exact Hm|]. eapply wp_of_run; [exact Hr|]. split; [done|].
  destruct (Z.eqb_spec r 0) as [E0|E0].
  - apply Hd in E0. rewrite decide_True in HQ by done. destruct (value_word _ _ _ _ Hb (Hlen E0) Hval) as (w & Hw & Ew).
    unfold word_at. apply wp_bind, wp_bind. eapply wp_on_fdt; [exact Hm|].
    rewrite u64_id by (unfold is_u64; lia). apply wp_load with (v := w); [exact Hw|]. split; [done|]. apply wp_ret, wp_ret. by rewrite Ew.
  - rewrite decide_False in HQ by (intros E1; by apply E0, Hd). by apply wp_ret.
Qed.

Record lits_ok (m : mem) : Prop := {
  lk_address : lit_ok m (lit_address_cells lit) address_cells_str;
  lk_size : lit_ok m (lit_size_cells lit) size_cells_str
}.

Lemma strs_differ : address_cells_str <> size_cells_str.
Proof. done. Qed.

Lemma wp_scan_prop m s off val rest lex node (Q : Z * nodes -> scan_state X -> Prop) E :
  sc_mem s = m -> lits_ok m -> item_ok m (IProp off val) ->
  bytes_at m lex (enc_item (IProp off val) ++ rest) -> 0 <= lex -> lex + lenZ (enc_item (IProp off val)) < 2 ^ 64 ->
  wp (call_prop (mkProp (ref_cells off val node) (strings + off) (lex + 12) (lenZ val)))
     (fun _ s' => Q (lex + 12 + lenZ (pad4 val), ref_cells off val node) s') E s ->
  wp (scan_prop lit cb lex strings node) Q E s.
Proof.
  intros Hm [LA LS] (Hoff & Hlen & Hval & Hstr & Hs0 & Hs1 & Hcell) Hb Hl0 Hl1 HQ. cbn [enc_item] in Hb, Hl1.
  rewrite !lenZ_app in Hl1. assert (Eb : forall v, lenZ (be32 v) = 4) by done. rewrite !Eb in Hl1.
  assert (Hpl : 0 <= lenZ (pad4 val)) by (unfold lenZ; lia). assert (Hv0 : 0 <= lenZ val) by (unfold lenZ; lia).
  assert (Hname : lit_ok m (strings + off) (names off)) by (by split).
  rewrite <- !(assoc_L (++)) in Hb. apply bytes_at_app in Hb as [_ Hb]. change (Z.of_nat (length (be32 FDT_PROP))) with 4 in Hb.
  pose proof Hb as Hb1. apply bytes_at_app in Hb1 as [_ Hb2]. change (Z.of_nat (length (be32 _))) with 4 in Hb2.
  pose proof Hb2 as Hb3. apply bytes_at_app in Hb3 as [_ Hb3]. change (Z.of_nat (length (be32 _))) with 4 in Hb3.
  unfold pad4 in Hb3. rewrite <- (assoc_L (++)) in Hb3. replace (lex + 4 + 4 + 4) with (lex + 12) in Hb3 by lia.
  unfold scan_prop. apply wp_bind. eapply (wp_word_at _ _ s m lex 2 off); [exact Hm|replace (lex + 4 * 2) with (lex + 4 + 4) by lia; exact Hb2|lia|lia|].
  rewrite (u64_id (strings + off)) by (unfold is_u64; unfold lenZ in Hs1; lia).
  apply wp_bind. eapply (wp_word_at _ _ s m lex 1 (Z.of_nat (length val))); [exact Hm|exact Hb|unfold lenZ in *; lia|lia|].
  fold (lenZ val). rewrite (s32_id (lenZ val)) by lia. rewrite (u64_id (lex + 12)) by (unfold is_u64; lia).
  assert (Hlex : u64 (lex + 4 * (3 + Z.quot (lenZ val + 3) 4)) = lex + 12 + lenZ (pad4 val)).
  { rewrite pad4_len in *. rewrite Z.quot_div_nonneg by lia. rewrite u64_id by (unfold is_u64; lia). lia. }
  assert (Hend : forall node', node' = ref_cells off val node ->
    wp (match cb_prop cb with None => halt WildAccess
        | Some f => f (mkProp node' (strings + off) (lex + 12) (lenZ val)) ;;;
                    ret (u64 (lex + 4 * (3 + Z.quot (lenZ val + 3) 4)), node') end) Q E s).
  { intros node' ->. rewrite Hlex. unfold call_prop in HQ. destruct (cb_prop cb); [|exact HQ].
    apply wp_bind. eapply wp_mono; [exact HQ| |done]. intros a s' Hq. by apply wp_ret. }
  destruct node as [|n up].
  - apply wp_bind, wp_ret, wp_bind, wp_ret, Hend. done.
  - apply wp_bind. eapply wp_set_cells; [exact Hm|exact Hname|exact LA|intros E1; apply Hcell; by left|exact Hval|exact Hb3|done|lia|].
    apply wp_bind. eapply wp_set_cells; [exact Hm|exact Hname|exact LS|intros E1; apply Hcell; by right|exact Hval|exact Hb3|done|lia|].
    apply Hend. done.
Qed.

(** *** The walk over a list of items *)
Definition items_ok (m : mem) (l : list item) : Prop := forall it, it ∈ l -> item_ok m it.

Lemma fold_and_ok m l : fold_right and True (map (item_ok m) l) <-> items_ok m l.
Proof.
  induction l as [|it l IH]; cbn.
  - split; [intros _ it Hit; by apply elem_of_nil in Hit|done].
  - rewrite IH. split.
    + intros [H1 H2] it' [->|Hit]%elem_of_cons; [done|by apply H2].
    + intros H. split; [apply H; by left|intros it' Hit; apply H; by right].
Qed.

Lemma cstr_padded m a name rest : bytes_at m a (pad4 (name ++ [0]) ++ rest) -> (forall c, c ∈ name -> 0 < c < 256) -> cstr m a name.
Proof.
  intros Hb Hn. unfold pad4 in Hb. rewrite <- !(assoc_L (++)) in Hb. apply bytes_at_app in Hb as [H1 H2]. split; [exact H1|exact Hn|].
  specialize (H2 0%nat 0 eq_refl). change (Z.of_nat 0) with 0 in H2. by rewrite Z.add_0_r in H2.
Qed.

Lemma strlen_run m a l : lit_ok m a l -> strlen a m = Ret (lenZ l) m.
Proof.
  intros [H1 H2 H3]. unfold lenZ in *.
  assert (Hw : wp (strlen a) (fun r m' => r = Z.of_nat (length l) /\ m' = m) no_stop m).
  { unfold strlen. apply wp_bind, wp_gets, wp_bind. eapply wp_strlen_loop; [exact H1|exact H2|exact H3|by eapply cstr_fuel|].
    apply wp_ret. split; [|done]. rewrite u64_id by (unfold is_u64; lia). lia. }
  apply wp_returns in Hw as (r & m' & Hr & -> & ->). exact Hr.
Qed.

Lemma enc_len_pos it : 4 <= lenZ (enc_item it).
Proof. destruct it; cbn [enc_item]; rewrite ?lenZ_app; unfold lenZ; cbn [be32 length]; lia. Qed.

(** The scanner at the first token of [l] does what the walk does, and goes on
    behind [l]. *)
Definition scan_at fuel (v : vis) : M (scan_state X) (Z * nodes) :=
  scan_loop lit fuel cb (v_at v) strings (v_node v) (v_child v) (v_last v).

Lemma scan_nop fuel v s m rest (Q : Z * nodes -> scan_state X -> Prop) E : sc_mem s = m ->
  bytes_at m (v_at v) (enc_item INop ++ rest) -> 0 <= v_at v -> v_at v + 4 < 2 ^ 64 ->
  wp (scan_at fuel (mkVis (v_at v + 4) (v_node v) (v_child v) (v_last v))) Q E s ->
  wp (scan_at (Datatypes.S fuel) v) Q E s.
Proof.
  intros Hm Hb H0 H1 HQ. unfold scan_at in *. cbn [scan_loop]. apply wp_bind.
  eapply (wp_word_at _ _ s m (v_at v) 0 FDT_NOP); [exact Hm|rewrite Z.add_0_r; exact Hb|done|lia|].
  cbn [Z.eqb FDT_NOP Pos.eqb]. by rewrite u64_id by (unfold is_u64; lia).
Qed.

Lemma scan_one_prop fuel v s m off val rest (Q : Z * nodes -> scan_state X -> Prop) E : cb_ok -> sc_mem s = m -> lits_ok m ->
  item_ok m (IProp off val) -> bytes_at m (v_at v) (enc_item (IProp off val) ++ rest) ->
  0 <= v_at v -> v_at v + lenZ (enc_item (IProp off val)) < 2 ^ 64 ->
  wp (visit_item (IProp off val) v) (fun w s' => sc_mem s' = m -> wp (scan_at fuel w) Q E s') E s ->
  wp (scan_at (Datatypes.S fuel) v) Q E s.
Proof.
  intros Hcb Hm HL Hok Hb H0 H1 HQ. unfold scan_at. cbn [scan_loop]. apply wp_bind.
  eapply (wp_word_at _ _ s m (v_at v) 0 FDT_PROP); [exact Hm| |done| |].
  { rewrite Z.add_0_r. cbn [enc_item] in Hb. rewrite <- !(assoc_L (++)) in Hb. exact Hb. }
  { pose proof (enc_len_pos (IProp off val)). lia. }
  change (FDT_PROP =? FDT_NOP) with false. change (FDT_PROP =? FDT_PROP) with true. cbv iota. cbn [visit_item] in HQ.
  apply wp_bind. destruct (v_last v); [exact HQ|]. apply wp_ret, wp_bind. eapply wp_scan_prop; [exact Hm|exact HL|exact Hok|exact Hb|done..|].
  apply wp_bind_inv in HQ. eapply wp_mono; [exact (wp_keeps _ _ _ _ (keeps_prop Hcb _) HQ)| |done].
  intros a s' [Hm' Hq]. apply Hq. congruence.
Qed.

Lemma scan_end fuel v s m rest (Q : Z * nodes -> scan_state X -> Prop) E : sc_mem s = m ->
  bytes_at m (v_at v) (be32 FDT_END_NODE ++ rest) -> 0 <= v_at v -> v_at v + 4 < 2 ^ 64 ->
  wp (call_done cb (v_last v) (v_node v)) (fun _ s' => Q (v_at v + 4, v_node v) s') E s ->
  wp (scan_at (Datatypes.S fuel) v) Q E s.
Proof.
  intros Hm Hb H0 H1 HQ. unfold scan_at. cbn [scan_loop]. apply wp_bind.
  eapply (wp_word_at _ _ s m (v_at v) 0 FDT_END_NODE); [exact Hm|rewrite Z.add_0_r; exact Hb|done|lia|].
  change (FDT_END_NODE =? FDT_NOP) with false. change (FDT_END_NODE =? FDT_PROP) with false.
  change (FDT_END_NODE =? FDT_BEGIN_NODE) with false. change (FDT_END_NODE =? FDT_END_NODE) with true. cbv iota.
  apply wp_bind. eapply wp_mono; [exact HQ| |done]. intros [] s' Hq. apply wp_ret. by rewrite u64_id by (unfold is_u64; lia).
Qed.

Lemma scan_one_node fuel v s m name body rest (Q : Z * nodes -> scan_state X -> Prop) E : cb_ok -> sc_mem s = m ->
  (forall c, c ∈ name -> 0 < c < 256) -> bytes_at m (v_at v) (enc_item (INode name body) ++ rest) ->
  0 <= v_at v -> v_at v + lenZ (enc_item (INode name body)) < 2 ^ 64 ->
  (forall v' s' Q', sc_mem s' = m -> v_at v' = v_at v + 4 + lenZ (pad4 (name ++ [0])) ->
     wp (visit_items body v') (fun w s2 => sc_mem s2 = m ->
       wp (call_done cb (v_last w) (v_node w)) (fun _ s3 => Q' (v_at w + 4, v_node w) s3) E s2) E s' ->
     wp (scan_at fuel v') Q' E s') ->
  wp (visit_item (INode name body) v) (fun w s' => sc_mem s' = m -> wp (scan_at fuel w) Q E s') E s ->
  wp (scan_at (Datatypes.S fuel) v) Q E s.
Proof.
  intros Hcb Hm Hn Hb H0 H1 Hbody HQ. cbn [enc_item] in Hb, H1. rewrite !lenZ_app in H1. change (lenZ (be32 _)) with 4 in H1.
  assert (Hnn : 0 <= lenZ (flat_map enc_item body)) by (unfold lenZ; lia).
  rewrite <- !(assoc_L (++)) in Hb. pose proof Hb as Hb1. apply bytes_at_app in Hb1 as [_ Hb1].
  change (Z.of_nat (length (be32 _))) with 4 in Hb1. pose proof (cstr_padded _ _ _ _ Hb1 Hn) as Hstr.
  pose proof (pad4_len (name ++ [0])) as Hpl. rewrite lenZ_app in Hpl. change (lenZ [0]) with 1 in Hpl.
  assert (Hn0 : 0 <= lenZ name) by (unfold lenZ; lia). assert (Hp0 : 0 <= lenZ (pad4 (name ++ [0]))) by (unfold lenZ; lia).
  unfold scan_at. cbn [scan_loop]. apply wp_bind.
  eapply (wp_word_at _ _ s m (v_at v) 0 FDT_BEGIN_NODE); [exact Hm|rewrite Z.add_0_r; exact Hb|done|lia|].
  change (FDT_BEGIN_NODE =? FDT_NOP) with false. change (FDT_BEGIN_NODE =? FDT_PROP) with false.
  change (FDT_BEGIN_NODE =? FDT_BEGIN_NODE) with true. cbv iota. cbn [visit_item] in HQ.
  rewrite (u64_id (v_at v + 4)) by (unfold is_u64; lia). set (child := mkNode (v_at v + 4) _ _) in *.
  apply wp_bind. apply wp_bind_inv in HQ. eapply wp_mono; [exact (wp_keeps _ _ _ _ (keeps_done Hcb _ _) HQ)| |done].
  intros [] s1 [Hm1 HQ1]. cbv beta in HQ1. apply wp_bind. fold (call_open (child :: v_node v)). apply wp_bind_inv in HQ1.
  eapply wp_mono; [exact (wp_keeps _ _ _ _ (keeps_open Hcb _) HQ1)| |done]. intros [] s2 [Hm2 HQ2]. cbv beta in HQ2.
  assert (Hms : sc_mem s2 = m) by congruence. apply wp_bind. eapply wp_on_fdt; [exact Hms|].
  eapply wp_of_run; [apply (strlen_run m (v_at v + 4) name); split; [exact Hstr|lia|zlia]|]. split; [done|].
  assert (Elex : u64 (v_at v + 4 * (2 + lenZ name / 4)) = v_at v + 4 + lenZ (pad4 (name ++ [0]))).
  { rewrite Hpl in *. replace (lenZ name + 1 + 3) with (lenZ name + 1 * 4) in * by lia. rewrite Z.div_add in * by done.
    rewrite u64_id by (unfold is_u64; lia). lia. }
  rewrite Elex. apply wp_bind. apply wp_bind_inv in HQ2.
  apply (Hbody (mkVis (v_at v + 4 + lenZ (pad4 (name ++ [0]))) (child :: v_node v) (mkNode 0 2 1) false)); [exact Hms|done|].
  eapply wp_mono; [exact HQ2| |done]. intros w s3 HQ3 Hm3. apply wp_bind_inv in HQ3.
  eapply wp_mono; [exact (wp_keeps _ _ _ _ (keeps_done Hcb _ _) HQ3)| |done]. intros [] s4 [Hm4 HQ4].
  apply wp_bind. rewrite (ok_close Hcb). apply wp_ret. apply HQ4. congruence.
Qed.

Lemma enc_items_cons it l : enc_items (it :: l) = enc_item it ++ enc_items l.
Proof. done. Qed.

(** The walk knows where it is. *)
Lemma visit_at_node (P : list item -> Prop) :
  (forall l v s w s', P l -> visit_items l v s = Ret w s' -> v_at w = v_at v + lenZ (enc_items l)) ->
  forall it v s w s', (match it with INode _ body => P body | _ => True end) ->
  visit_item it v s = Ret w s' -> v_at w = v_at v + lenZ (enc_item it).
Proof.
  intros HP it v s w s' Hit Hr. destruct it as [|off val|name body]; cbn [visit_item enc_item] in *.
  - injection Hr as <- _. done.
  - rewrite !lenZ_app. change (lenZ (be32 _)) with 4. destruct (v_last v); [done|].
    apply bind_Ret in Hr as ([] & s1 & _ & Hr). injection Hr as <- _. cbn. change (lenZ (be32 _)) with 4. lia.
  - rewrite !lenZ_app. change (lenZ (be32 FDT_BEGIN_NODE)) with 4. change (lenZ (be32 FDT_END_NODE)) with 4.
    apply bind_Ret in Hr as ([] & s1 & _ & Hr). apply bind_Ret in Hr as ([] & s2 & _ & Hr).
    apply bind_Ret in Hr as (w1 & s3 & Hb & Hr). apply bind_Ret in Hr as ([] & s4 & _ & Hr). injection Hr as <- _.
    cbn [v_at]. apply HP in Hb; [|done]. unfold enc_items in Hb. cbn [v_at] in Hb. lia.
Qed.

Lemma visit_items_at (N : nat) : forall l v s w s', (length (enc_items l) <= N)%nat ->
  visit_items l v s = Ret w s' -> v_at w = v_at v + lenZ (enc_items l).
Proof.
  induction N as [|N IH]; intros l v s w s' HN Hr.
  - destruct l as [|it l]; [injection Hr as <- _; unfold lenZ; cbn; lia|].
    pose proof (enc_len_pos it). rewrite enc_items_cons, length_app in HN. unfold lenZ in *. lia.
  - destruct l as [|it l]; [injection Hr as <- _; unfold lenZ; cbn; lia|]. pose proof (enc_len_pos it) as Hp.
    rewrite enc_items_cons, lenZ_app in *. rewrite length_app in HN. unfold visit_items in Hr. cbn [each] in Hr.
    apply bind_Ret in Hr as (w1 & s1 & H1 & H2).
    apply (visit_at_node (fun l => (length (enc_items l) <= N)%nat)) in H1; [|intros; by eapply IH|].
    + fold visit_items in H2. apply IH in H2; [lia|]. unfold lenZ in Hp. lia.
    + destruct it as [| |name body]; [done|done|]. cbn [enc_item] in HN. rewrite !length_app in HN. cbn in HN. unfold enc_items. lia.
Qed.

Lemma wp_visit_at it v (Q : vis -> scan_state X -> Prop) E s : wp (visit_item it v) Q E s ->
  wp (visit_item it v) (fun w s' => v_at w = v_at v + lenZ (enc_item it) /\ Q w s') E s.
Proof.
  unfold wp. destruct (visit_item it v s) as [w s'|h s'] eqn:Hr; [|done]. intros HQ. split; [|exact HQ].
  eapply (visit_at_node (fun _ => True)); [intros; by eapply visit_items_at|by destruct it|exact Hr].
Qed.

(** The walk leaves the stack of nodes as deep as it was. *)
Lemma visit_item_depth it v s w s' : visit_item it v s = Ret w s' -> length (v_node w) = length (v_node v).
Proof.
  destruct it as [|off val|name body]; cbn [visit_item]; intros Hr.
  - by injection Hr as <- _.
  - destruct (v_last v); [done|]. apply bind_Ret in Hr as ([] & s1 & _ & Hr). injection Hr as <- _. by destruct (v_node v).
  - apply bind_Ret in Hr as ([] & s1 & _ & Hr). apply bind_Ret in Hr as ([] & s2 & _ & Hr).
    apply bind_Ret in Hr as (w1 & s3 & _ & Hr). apply bind_Ret in Hr as ([] & s4 & _ & Hr). by injection Hr as <- _.
Qed.

Lemma visit_items_depth l : forall v s w s', visit_items l v s = Ret w s' -> length (v_node w) = length (v_node v).
Proof.
  induction l as [|it l IH]; intros v s w s' Hr; [by injection Hr as <- _|].
  unfold visit_items in Hr. cbn [each] in Hr. apply bind_Ret in Hr as (w1 & s1 & H1 & H2).
  apply visit_item_depth in H1. apply IH in H2. congruence.
Qed.

Lemma wp_visit_depth l v (Q : vis -> scan_state X -> Prop) E s : wp (visit_items l v) Q E s ->
  wp (visit_items l v) (fun w s' => length (v_node w) = length (v_node v) /\ Q w s') E s.
Proof.
  unfold wp. destruct (visit_items l v s) as [w s'|h s'] eqn:Hr; [|done]. intros HQ. split; [|exact HQ]. by eapply visit_items_depth.
Qed.

(** The whole list. *)
Lemma scan_items m : cb_ok -> lits_ok m -> forall (N : nat) l fuel k v s rest (Q : Z * nodes -> scan_state X -> Prop) E,
  (length (enc_items l) <= N)%nat -> sc_mem s = m -> items_ok m l -> bytes_at m (v_at v) (enc_items l ++ rest) ->
  0 <= v_at v -> v_at v + lenZ (enc_items l) < 2 ^ 64 - 4 -> (length (enc_items l) + k <= fuel)%nat ->
  wp (visit_items l v) (fun w s' => sc_mem s' = m -> v_at w = v_at v + lenZ (enc_items l) ->
     forall fuel', (k <= fuel')%nat -> wp (scan_at fuel' w) Q E s') E s ->
  wp (scan_at fuel v) Q E s.
Proof.
  intros Hcb HL. induction N as [|N IH]; intros l fuel k v s rest Q E HN Hm Hok Hb H0 H1 Hf HQ.
  - destruct l as [|it l].
    + apply HQ; [exact Hm|unfold lenZ; cbn; lia|cbn in Hf; lia].
    + exfalso. pose proof (enc_len_pos it). rewrite enc_items_cons, length_app in HN. unfold lenZ in *. lia.
  - destruct l as [|it l]; [apply HQ; [exact Hm|unfold lenZ; cbn; lia|cbn in Hf; lia]|].
    rewrite enc_items_cons in *. rewrite lenZ_app in *. rewrite length_app in *.
    rewrite <- (assoc_L (++)) in Hb. pose proof Hb as Hb2. apply bytes_at_app in Hb2 as [_ Hb2]. fold (lenZ (enc_item it)) in Hb2.
    pose proof (enc_len_pos it) as Hpos. pose proof Hpos as Hpos2. unfold lenZ in Hpos2.
    assert (Hl0 : 0 <= lenZ (enc_items l)) by (unfold lenZ; lia).
    destruct fuel as [|fuel]; [lia|].
    assert (Hrest : forall w s', v_at w = v_at v + lenZ (enc_item it) ->
      (sc_mem s' = m -> wp (visit_items l w) (fun w2 s2 => sc_mem s2 = m -> v_at w2 = v_at v + (lenZ (enc_item it) + lenZ (enc_items l)) ->
         forall fuel', (k <= fuel')%nat -> wp (scan_at fuel' w2) Q E s2) E s') ->
      sc_mem s' = m -> wp (scan_at fuel w) Q E s').
    { intros w s' Ew Hw Hm'. eapply (IH l fuel k w s' rest); [lia|exact Hm'|intros it' Hit; apply Hok; by right|by rewrite Ew|lia|lia|lia|].
      eapply wp_mono; [exact (Hw Hm')| |done]. intros w2 s2 H2 Hm2 Ew2. apply H2; [exact Hm2|lia]. }
    unfold visit_items in HQ. cbn [each] in HQ. apply wp_bind_inv in HQ. fold visit_items in HQ. pose proof (Hok it ltac:(by left)) as Hit.
    destruct it as [|off val|name body].
    + eapply scan_nop; [exact Hm|exact Hb|exact H0|lia|]. apply Hrest; [done| |exact Hm]. intros _. exact HQ.
    + eapply scan_one_prop; [exact Hcb|exact Hm|exact HL|exact Hit|exact Hb|exact H0|lia|].
      eapply wp_mono; [exact (wp_visit_at _ _ _ _ _ HQ)| |done]. intros w s' [Ew Hw] Hm'. eapply Hrest; [exact Ew| |exact Hm'].
      intros _. exact Hw.
    + destruct Hit as [Hn Hbody]. apply fold_and_ok in Hbody.
      pose proof Hb as Hb3. cbn [enc_item] in Hb3. rewrite <- !(assoc_L (++)) in Hb3. apply bytes_at_app in Hb3 as [_ Hb3].
      apply bytes_at_app in Hb3 as [_ Hb3]. change (Z.of_nat (length (be32 _))) with 4 in Hb3. fold (lenZ (pad4 (name ++ [0]))) in Hb3.
      assert (Elen : lenZ (enc_item (INode name body)) = 8 + lenZ (pad4 (name ++ [0])) + lenZ (enc_items body)).
      { cbn [enc_item]. rewrite !lenZ_app. change (lenZ (be32 _)) with 4. change (lenZ (be32 FDT_END_NODE)) with 4. unfold enc_items. lia. }
      assert (Hp0 : 0 <= lenZ (pad4 (name ++ [0]))) by (unfold lenZ; lia). assert (Hbl : 0 <= lenZ (enc_items body)) by (unfold lenZ; lia).
      eapply scan_one_node; [exact Hcb|exact Hm|exact Hn|exact Hb|exact H0|lia| |].
      * intros v' s' Q' Hm' Ev' HQ'.
        eapply (IH body fuel 1%nat v' s' (be32 FDT_END_NODE ++ enc_items l ++ rest)); [unfold lenZ in *; lia|exact Hm'|exact Hbody| |lia|lia|unfold lenZ in *; lia|].
        { rewrite Ev'. exact Hb3. }
        eapply wp_mono; [exact HQ'| |done]. intros w s2 H2 Hm2 Ew fuel' Hf'. destruct fuel' as [|fuel']; [lia|].
        eapply (scan_end fuel' w s2 m (enc_items l ++ rest)); [exact Hm2| |lia|lia|exact (H2 Hm2)].
        apply bytes_at_app in Hb3 as [_ Hb3]. fold (enc_items body) in Hb3. fold (lenZ (enc_items body)) in Hb3. rewrite Ew, Ev'. exact Hb3.
      * eapply wp_mono; [exact (wp_visit_at _ _ _ _ _ HQ)| |done]. intros w s' [Ew Hw] Hm'. eapply Hrest; [exact Ew| |exact Hm'].
        intros _. exact Hw.
Qed.
End visit.
