(* ===== verification/DtsClients.v ===== *)
(** * The device tree: its two clients

    What [query_htif] and [query_mem] compute of a tree, on the walk. *)
From stdpp Require Import base gmap list strings.
From Stdlib Require Import ZArith Lia.
From S2P Require Import Prelude Mem Str Dts DtsProofs.

#[local] Arguments load_le : simpl never.

(** ** Reads leave memory alone *)
Definition reads {A} (f : M mem A) : Prop := forall m, match f m with Ret _ m' => m' = m | Halt _ m' => m' = m end.

Lemma reads_bind {A B} (f : M mem A) (k : A -> M mem B) : reads f -> (forall a, reads (k a)) -> reads (bind f k).
Proof. intros Hf Hk m. unfold bind. specialize (Hf m). destruct (f m) as [a m'|h m']; [subst; apply Hk|exact Hf]. Qed.

Lemma reads_load n a : reads (load n a).
Proof. intros m. unfold load, read_opt. by destruct (load_le n a m). Qed.

Lemma reads_strcmp a b : reads (strcmp a b).
Proof.
  unfold strcmp. apply reads_bind; [done|]. intros fuel. revert a b. induction fuel as [|fuel IH]; intros a b; [done|]. cbn [strcmp_loop].
  apply reads_bind; [apply reads_load|]. intros c1. apply reads_bind; [apply reads_load|]. intros c2. by case_match.
Qed.

Section keeps.
Context {X : Type}.
Implicit Types s : scan_state X.

Lemma keeps_bind {A B} (f : M (scan_state X) A) (k : A -> M (scan_state X) B) : keeps f -> (forall a, keeps (k a)) -> keeps (bind f k).
Proof.
  intros Hf Hk s. unfold bind. specialize (Hf s). destruct (f s) as [a s'|]; [|done]. specialize (Hk a s').
  destruct (k a s'); [congruence|done].
Qed.

Lemma keeps_on_fdt {A} (f : M mem A) : reads f -> keeps (X := X) (on_fdt f).
Proof. intros Hf s. unfold on_fdt, zoom. specialize (Hf (sc_mem s)). by destruct (f (sc_mem s)); cbn. Qed.

Lemma wp_strcmp_on (Q : Z -> scan_state X -> Prop) E s m a b l1 l2 : sc_mem s = m -> lit_ok m a l1 -> lit_ok m b l2 ->
  (forall r, (r = 0 <-> l1 = l2) -> Q r s) -> wp (on_fdt (strcmp a b)) Q E s.
Proof.
  intros Hm H1 H2 HQ. destruct (strcmp_run _ _ _ _ _ H1 H2) as (r & Hr & Hd). eapply wp_on_fdt; [exact Hm|].
  eapply wp_of_run; [exact Hr|]. split; [done|]. by apply HQ.
Qed.
End keeps.

Lemma htif_cb_ok lit : cb_ok (htif_cb lit).
Proof.
  split; [intros f node [= <-]; by intros s|intros f p [= <-]|intros f node [= <-]; intros s|done].
  - unfold htif_prop. apply keeps_bind; [apply keeps_on_fdt, reads_strcmp|]. intros r. case_match; [|done].
    apply keeps_bind; [apply keeps_on_fdt, reads_strcmp|]. intros r2. by case_match.
  - unfold htif_done, modify. by case_match.
Qed.

Lemma mem_cb_open_ok lit node : keeps (mem_open node) /\ forall p, keeps (mem_prop lit p).
Proof.
  split; [by intros s|]. intros p. unfold mem_prop. apply keeps_bind; [apply keeps_on_fdt, reads_strcmp|]. intros r.
  apply keeps_bind.
  - case_match; [|done]. apply keeps_bind; [apply keeps_on_fdt, reads_strcmp|]. by intros r2.
  - intros []; [done|]. apply keeps_bind; [apply keeps_on_fdt, reads_strcmp|]. intros r2. by case_match.
Qed.

(** Where the value of a property and the body of a node are. *)
Lemma prop_bytes m a off val rest : bytes_at m a (enc_item (IProp off val) ++ rest) ->
  (exists rest', bytes_at m (a + 12) (val ++ rest')) /\ lenZ (enc_item (IProp off val)) = 12 + lenZ (pad4 val) /\ 0 <= lenZ val <= lenZ (pad4 val).
Proof.
  intros Hb. cbn [enc_item] in *. rewrite <- !(assoc_L (++)) in Hb. apply bytes_at_app in Hb as [_ Hb]. apply bytes_at_app in Hb as [_ Hb].
  apply bytes_at_app in Hb as [_ Hb]. change (Z.of_nat (length (be32 _))) with 4 in Hb.
  change (Z.of_nat (length (be32 off))) with 4 in Hb. replace (a + 4 + 4 + 4) with (a + 12) in Hb by lia.
  unfold pad4 in Hb at 1. rewrite <- (assoc_L (++)) in Hb. split; [by eexists|]. split; [|rewrite pad4_len; unfold lenZ; zlia].
  rewrite !lenZ_app. change (lenZ (be32 _)) with 4. change (lenZ (be32 off)) with 4. change (lenZ (be32 (Z.of_nat (length val)))) with 4. lia.
Qed.

Lemma node_bytes m a name body rest : bytes_at m a (enc_item (INode name body) ++ rest) ->
  bytes_at m (a + 4 + lenZ (pad4 (name ++ [0]))) (enc_items body ++ be32 FDT_END_NODE ++ rest) /\
  lenZ (enc_item (INode name body)) = 8 + lenZ (pad4 (name ++ [0])) + lenZ (enc_items body) /\
  0 <= lenZ (pad4 (name ++ [0])) /\ 0 <= lenZ (enc_items body).
Proof.
  intros Hb. cbn [enc_item] in *. rewrite !lenZ_app. change (lenZ (be32 FDT_BEGIN_NODE)) with 4. change (lenZ (be32 FDT_END_NODE)) with 4.
  rewrite <- !(assoc_L (++)) in Hb. apply bytes_at_app in Hb as [_ Hb]. apply bytes_at_app in Hb as [_ Hb].
  change (Z.of_nat (length (be32 _))) with 4 in Hb. fold (lenZ (pad4 (name ++ [0]))) in Hb. fold (enc_items body) in *.
  split; [exact Hb|]. split; [lia|]. unfold lenZ; lia.
Qed.

(** ** The host interface *)
(** "compatible", "ucb,htif0" *)
Definition compatible_str : list Z := [99; 111; 109; 112; 97; 116; 105; 98; 108; 101].
Definition htif_str : list Z := [117; 99; 98; 44; 104; 116; 105; 102; 48].

(** The bytes before the first zero. *)
Fixpoint c_string (l : list Z) : list Z :=
  match l with
  | [] => []
  | c :: l => if c =? 0 then [] else c :: c_string l
  end.

Fixpoint item_htif (names : Z -> list Z) (it : item) : bool :=
  match it with
  | INop => false
  | IProp off val => bool_decide (names off = compatible_str) && bool_decide (c_string val = htif_str)
  | INode _ body => existsb (item_htif names) body
  end.
Definition is_node (it : item) : bool := match it with INode _ _ => true | _ => false end.
(** Some node has the property. *)
Definition tree_htif (names : Z -> list Z) (items : list item) : bool :=
  existsb (fun it => is_node it && item_htif names it) items.

(** Properties come before the nodes, and the strings have their terminator. *)
Fixpoint item_well (names : Z -> list Z) (it : item) : Prop :=
  match it with
  | INop => True
  | IProp off val => names off = compatible_str -> 0 ∈ val
  | INode _ body =>
      (fix go (last : bool) l := match l with
         | [] => True
         | it :: l => item_well names it /\ (last = true -> match it with IProp _ _ => False | _ => True end) /\ go (last || is_node it) l
         end) false body
  end.
Fixpoint items_well (names : Z -> list Z) (last : bool) (l : list item) : Prop :=
  match l with
  | [] => True
  | it :: l => item_well names it /\ (last = true -> match it with IProp _ _ => False | _ => True end) /\ items_well names (last || is_node it) l
  end.

Lemma items_well_node names body : item_well names (INode [] body) -> items_well names false body.
Proof.
  cbn. generalize false. induction body as [|it l IH]; intros last; cbn; [done|]. intros (H1 & H2 & H3). repeat split; [done|done|by apply IH].
Qed.

Lemma item_nest_ind (P : item -> Prop) : P INop -> (forall off val, P (IProp off val)) ->
  (forall name body, Forall P body -> P (INode name body)) -> forall it, P it.
Proof.
  intros H1 H2 H3. fix IH 1. intros [|off val|name body]; [exact H1|apply H2|apply H3].
  induction body as [|it l IHl]; constructor; [apply IH|exact IHl].
Qed.

Lemma c_string_split l : 0 ∈ l -> exists rest, l = c_string l ++ 0 :: rest.
Proof.
  induction l as [|c l IH]; intros Hin; [by apply elem_of_nil in Hin|]. cbn. destruct (Z.eqb_spec c 0) as [->|Hc]; [by exists l|].
  apply elem_of_cons in Hin as [|Hin]; [congruence|]. destruct (IH Hin) as [rest E]. exists rest. cbn. by rewrite <- E.
Qed.

Lemma c_string_bytes l : (forall b, b ∈ l -> 0 <= b < 256) -> forall c, c ∈ c_string l -> 0 < c < 256.
Proof.
  induction l as [|b l IH]; intros Hl c Hc; cbn in Hc; [by apply elem_of_nil in Hc|].
  pose proof (Hl b ltac:(by left)). destruct (Z.eqb_spec b 0) as [E|E]; [by apply elem_of_nil in Hc|].
  apply elem_of_cons in Hc as [->|Hc]; [lia|]. apply IH; [|done]. intros b' Hb'. apply Hl. by right.
Qed.

Lemma value_str m a val rest : bytes_at m a (val ++ rest) -> (forall b, b ∈ val -> 0 <= b < 256) -> 0 ∈ val ->
  0 <= a -> a + lenZ val < 2 ^ 64 -> lit_ok m a (c_string val).
Proof.
  intros Hb Hv Hz H0 H1. apply bytes_at_app in Hb as [Hb _]. destruct (c_string_split val Hz) as [r E].
  assert (Hl : lenZ val = lenZ (c_string val) + lenZ (0 :: r)) by (rewrite E at 1; apply lenZ_app).
  rewrite E in Hb. apply bytes_at_app in Hb as [Hb1 Hb2]. split; [split|exact H0|].
  - exact Hb1.
  - by apply c_string_bytes.
  - specialize (Hb2 0%nat 0 eq_refl). change (Z.of_nat 0) with 0 in Hb2. by rewrite Z.add_0_r in Hb2.
  - assert (0 <= lenZ (0 :: r)) by (unfold lenZ; lia). lia.
Qed.

Section htif.
Context (lit : literals) (strings : Z) (names : Z -> list Z) (m : mem).
Context (Hcompat : lit_ok m (lit_compatible lit) compatible_str) (Hhtif : lit_ok m (lit_htif lit) htif_str).

Abbreviation st := (scan_state htif_scan).

Definition raise_if (b : bool) (h : Z) : Z := if b then 1 else h.
Definition nested (node : nodes) : bool := match node with [] => false | _ => true end.
(** The global as it will be once the node is done. *)
Definition htif_due (v : vis) (s : st) : Z :=
  raise_if (negb (v_last v) && nested (v_node v) && negb (hs_compat (sc_extra s) =? 0)) (hs_htif (sc_extra s)).

Lemma htif_done_wp last node (Q : unit -> st -> Prop) E s :
  (forall s', sc_mem s' = sc_mem s -> hs_htif (sc_extra s') = raise_if (negb last && nested node && negb (hs_compat (sc_extra s) =? 0)) (hs_htif (sc_extra s)) -> Q tt s') ->
  wp (call_done (htif_cb lit) last node) Q E s.
Proof.
  intros HQ. unfold call_done. cbn [cb_done htif_cb]. destruct node as [|n up]; [apply wp_ret, HQ; [done|by destruct last]|].
  destruct last; [by apply wp_ret, HQ|]. unfold htif_done. apply wp_modify. cbn in HQ.
  destruct (Z.eqb_spec (hs_compat (sc_extra s)) 0); by apply HQ.
Qed.

Lemma htif_prop_wp node off val a rest (Q : unit -> st -> Prop) E s : sc_mem s = m ->
  item_ok strings names m (IProp off val) -> (names off = compatible_str -> 0 ∈ val) ->
  bytes_at m a (val ++ rest) -> 0 <= a -> a + lenZ val < 2 ^ 64 ->
  (forall s', sc_mem s' = m -> hs_htif (sc_extra s') = hs_htif (sc_extra s) ->
     negb (hs_compat (sc_extra s') =? 0) = item_htif names (IProp off val) || negb (hs_compat (sc_extra s) =? 0) -> Q tt s') ->
  wp (call_prop (htif_cb lit) (mkProp node (strings + off) a (lenZ val))) Q E s.
Proof.
  intros Hm (Ho & Hl & Hv & Hs & Hs0 & Hs1 & _) Hz Hb H0 H1 HQ. unfold call_prop, htif_prop. cbn [cb_prop htif_cb prop_name prop_value item_htif] in *.
  apply wp_bind. eapply (wp_strcmp_on _ _ _ m); [exact Hm|split; [exact Hs|exact Hs0|exact Hs1]|exact Hcompat|]. intros r Hr.
  destruct (Z.eqb_spec r 0) as [E0|E0].
  - apply Hr in E0. rewrite (bool_decide_eq_true_2 _ E0) in HQ. apply wp_bind.
    eapply (wp_strcmp_on _ _ _ m); [exact Hm|eapply value_str; [exact Hb|exact Hv|by apply Hz|done|done]|exact Hhtif|]. intros r2 Hr2.
    destruct (Z.eqb_spec r2 0) as [E2|E2].
    + apply Hr2 in E2. rewrite (bool_decide_eq_true_2 _ E2) in HQ. apply wp_modify, HQ; [exact Hm|done|done].
    + rewrite (bool_decide_eq_false_2 (c_string val = htif_str)) in HQ by (intros E3; by apply E2, Hr2). by apply wp_ret, HQ.
  - rewrite (bool_decide_eq_false_2 (names off = compatible_str)) in HQ by (intros E3; by apply E0, Hr). by apply wp_ret, HQ.
Qed.

Definition seen (node : nodes) (it : item) : bool := (is_node it || nested node) && item_htif names it.

Abbreviation cb := (htif_cb lit).

(** The walk of one item finds what [seen] says. *)
Definition walks (it : item) : Prop := forall v s (Q : vis -> st -> Prop) E rest,
  sc_mem s = m -> item_ok strings names m it -> item_well names it -> (v_last v = true -> match it with IProp _ _ => False | _ => True end) ->
  bytes_at m (v_at v) (enc_item it ++ rest) -> 0 <= v_at v -> v_at v + lenZ (enc_item it) < 2 ^ 64 ->
  (forall w s', sc_mem s' = m -> v_at w = v_at v + lenZ (enc_item it) -> nested (v_node w) = nested (v_node v) ->
     v_last w = v_last v || is_node it -> htif_due w s' = raise_if (seen (v_node v) it) (htif_due v s) -> Q w s') ->
  wp (visit_item cb strings names it v) Q E s.

Lemma raise_if_or a b h : raise_if a (raise_if b h) = raise_if (b || a) h.
Proof. by destruct a, b. Qed.

Lemma walks_list l : Forall walks l -> forall v s (Q : vis -> st -> Prop) E rest,
  sc_mem s = m -> items_ok strings names m l -> items_well names (v_last v) l ->
  bytes_at m (v_at v) (enc_items l ++ rest) -> 0 <= v_at v -> v_at v + lenZ (enc_items l) < 2 ^ 64 ->
  (forall w s', sc_mem s' = m -> v_at w = v_at v + lenZ (enc_items l) -> nested (v_node w) = nested (v_node v) ->
     htif_due w s' = raise_if (existsb (seen (v_node v)) l) (htif_due v s) -> Q w s') ->
  wp (visit_items cb strings names l v) Q E s.
Proof.
  induction 1 as [|it l Hit Hl IH]; intros v s Q E rest Hm Hok Hwell Hb H0 H1 HQ; [apply wp_ret, HQ; [done|unfold lenZ; cbn; lia|done..]|].
  rewrite enc_items_cons, lenZ_app in *. rewrite <- (assoc_L (++)) in Hb. destruct Hwell as (W1 & W2 & W3).
  assert (Hl0 : 0 <= lenZ (enc_items l)) by (unfold lenZ; lia). pose proof (enc_len_pos it).
  unfold visit_items. cbn [each]. apply wp_bind. eapply Hit; [exact Hm|apply Hok; by left|exact W1|exact W2|exact Hb|exact H0|lia|].
  intros w s' Hm' Ew Hnw Elast Edue. fold (visit_items cb strings names). apply bytes_at_app in Hb as [_ Hb]. fold (lenZ (enc_item it)) in Hb.
  apply (IH w s' Q E rest); [exact Hm'|intros it' Hit'; apply Hok; by right|by rewrite Elast|by rewrite Ew|lia|lia|].
  intros w2 s2 Hm2 Ew2 Hn2 Edue2. apply HQ; [exact Hm2|lia|congruence|]. rewrite Edue2, Edue, raise_if_or. cbn [existsb].
  do 2 f_equal. clear - Hnw. induction l as [|it' l IH]; cbn; [done|]. by rewrite IH; unfold seen; rewrite Hnw.
Qed.

Lemma walks_prop off val : walks (IProp off val).
Proof.
  intros v s Q E rest Hm Hok Hwell Hlast Hb H0 H1 HQ. cbn [visit_item]. destruct (v_last v) eqn:El; [by destruct (Hlast eq_refl)|].
  destruct (prop_bytes _ _ _ _ _ Hb) as ([rest' Hb'] & Hlen & Hv). rewrite Hlen in *.
  apply wp_bind. eapply htif_prop_wp; [exact Hm|exact Hok|exact Hwell|exact Hb'|lia|lia|].
  intros s' Hm' Eh Ec. apply wp_ret. assert (En : nested (ref_cells names off val (v_node v)) = nested (v_node v)) by (by destruct (v_node v)).
  apply HQ; [exact Hm'|cbn; lia|exact En|done|].
  unfold htif_due, seen. cbn [v_node v_last is_node]. rewrite En, El, Ec, Eh.
  by destruct (nested (v_node v)), (item_htif names (IProp off val)), (hs_compat (sc_extra s) =? 0).
Qed.

Lemma walks_node name body : Forall walks body -> walks (INode name body).
Proof.
  intros Hbody v s Q E rest Hm [Hn Hok] Hwell _ Hb H0 H1 HQ. apply fold_and_ok in Hok.
  destruct (node_bytes _ _ _ _ _ Hb) as (Hb' & Hlen & Hpl & Hel). rewrite Hlen in *. cbn [visit_item].
  apply wp_bind, htif_done_wp. intros s1 Hm1 E1. apply wp_bind. unfold call_open. cbn [cb_open htif_cb]. unfold htif_open. apply wp_modify.
  apply wp_bind. rewrite Hm in Hm1. apply (walks_list body Hbody _ _ _ _ (be32 FDT_END_NODE ++ rest)); [exact Hm1|exact Hok| |exact Hb'|cbn; lia|cbn; lia|].
  { by apply items_well_node. }
  intros w s2 Hm2 Ew Hn2 E2. cbn [v_at] in Ew. apply wp_bind, htif_done_wp. intros s3 Hm3 E3. apply wp_ret.
  apply HQ; [congruence|cbn [v_at]; lia|done|by destruct (v_last v)|].
  unfold htif_due at 1. cbn [v_last negb andb raise_if v_node]. rewrite E3. fold (htif_due w s2). rewrite E2. unfold seen. cbn [is_node v_node nested orb item_htif].
  unfold htif_due. cbn [v_last v_node nested negb andb sc_extra hs_compat hs_htif]. change (0 =? 0) with true. cbn [negb andb raise_if].
  rewrite E1. f_equal. clear. induction body as [|it l IH]; cbn; [done|]. rewrite IH. unfold seen. cbn. by destruct (is_node it).
Qed.

Lemma walks_all it : walks it.
Proof.
  induction it as [|off val|name body IH] using item_nest_ind; [|apply walks_prop|by apply walks_node].
  intros v s Q E rest Hm _ _ _ _ _ _ HQ. apply wp_ret, HQ; [exact Hm|done|done|by destruct (v_last v)|].
  unfold seen. cbn. by destruct (nested (v_node v)).
Qed.

Lemma walk_finds items lex s (Q : unit -> st -> Prop) E rest :
  sc_mem s = m -> items_ok strings names m items -> items_well names false items ->
  bytes_at m lex (enc_items items ++ rest) -> 0 <= lex -> lex + lenZ (enc_items items) < 2 ^ 64 ->
  (forall s', sc_mem s' = m -> hs_htif (sc_extra s') = raise_if (tree_htif names items) (hs_htif (sc_extra s)) -> Q tt s') ->
  wp (let* _ := visit_items cb strings names items (mkVis lex [] (mkNode 0 2 1) false) in ret tt) Q E s.
Proof.
  intros Hm Hok Hwell Hb H0 H1 HQ. apply wp_bind.
  apply (walks_list items (proj2 (Forall_forall _ _) (fun it _ => walks_all it)) _ _ _ _ rest); [exact Hm|exact Hok|exact Hwell|exact Hb|exact H0|exact H1|].
  intros w s' Hm' _ En Edue. apply wp_ret, HQ; [exact Hm'|]. unfold htif_due in Edue. rewrite En in Edue. cbn in Edue.
  rewrite andb_false_r in Edue. cbn in Edue. rewrite Edue. unfold tree_htif. f_equal. clear.
  induction items as [|it l IH]; cbn; [done|]. rewrite IH. unfold seen. cbn. by destruct (is_node it).
Qed.
End htif.

(** ** The size of the memory *)
(** A bank: the words of its base and of its size. *)
Abbreviation bank := (list Z * list Z)%type.

Definition words_value (ws : list Z) : Z := foldl (fun r w => r * 2 ^ 32 + w) 0 ws.
Definition bank_base (b : bank) : Z := u64 (words_value (fst b)).
Definition bank_size (b : bank) : Z := u64 (words_value (snd b)).
Definition bank_words (b : bank) : list Z := fst b ++ snd b.
Definition enc_banks (l : list bank) : list Z := flat_map (fun b => flat_map be32 (bank_words b)) l.
Definition bank_of (node : fdt_scan_node) (b : bank) : Prop :=
  Z.of_nat (length (fst b)) = address_cells node /\ Z.of_nat (length (snd b)) = size_cells node /\
  forall w, w ∈ bank_words b -> 0 <= w < 2 ^ 32.

(** The size of the last bank that holds [self]. *)
Definition holds_self (self : Z) (b : bank) : bool := (bank_base b <=? self) && (self <=? u64 (bank_base b + bank_size b)).
Definition bank_choice (self : Z) (l : list bank) (old : Z) : Z :=
  foldl (fun g b => if holds_self self b then bank_size b else g) old l.

Lemma be32_words_len ws : length (flat_map be32 ws) = (4 * length ws)%nat.
Proof. induction ws as [|w ws IH]; [done|]. cbn [flat_map]. rewrite length_app, IH. cbn [be32 length]. lia. Qed.

Lemma u64_step r w : u64 (u64 (Z.shiftl (u64 r) 32) + w) = u64 (r * 2 ^ 32 + w).
Proof. unfold u64. rewrite Z.shiftl_mul_pow2 by lia. rewrite Zplus_mod_idemp_l, <- (Zplus_mod_idemp_l (_ * _)), Zmult_mod_idemp_l, Zplus_mod_idemp_l. done. Qed.

Section banks.
Context {X : Type} (m : mem).

Lemma wp_read_cells ws : forall a r (Q : Z * Z -> scan_state X -> Prop) E s rest, sc_mem s = m ->
  bytes_at m a (flat_map be32 ws ++ rest) -> (forall w, w ∈ ws -> 0 <= w < 2 ^ 32) -> 0 <= a -> a + 4 * lenZ ws < 2 ^ 64 ->
  Q (a + 4 * lenZ ws, u64 (foldl (fun r w => r * 2 ^ 32 + w) r ws)) s ->
  wp (read_cells (length ws) a (u64 r)) Q E s.
Proof.
  induction ws as [|w ws IH]; intros a r Q E s rest Hm Hb Hw H0 H1 HQ; cbn [length read_cells].
  - apply wp_ret. replace a with (a + 4 * lenZ (@nil Z)) by (unfold lenZ; cbn; lia). exact HQ.
  - cbn [flat_map] in Hb. rewrite <- (assoc_L (++)) in Hb. assert (El : lenZ (w :: ws) = 1 + lenZ ws) by (unfold lenZ; cbn [length]; lia).
    assert (0 <= lenZ ws) by (unfold lenZ; lia).
    destruct (bytes_at_word _ _ _ _ Hb (Hw w ltac:(by left))) as (x & Hx & Ex). apply wp_bind. eapply wp_on_fdt; [exact Hm|].
    apply wp_load with (v := x); [exact Hx|]. split; [done|]. rewrite Ex, u64_step, u64_id by (unfold is_u64; lia).
    apply bytes_at_app in Hb as [_ Hb]. change (Z.of_nat (length (be32 w))) with 4 in Hb.
    eapply IH; [exact Hm|exact Hb|intros w' Hw'; apply Hw; by right|lia|lia|].
    replace (a + 4 + 4 * lenZ ws) with (a + 4 * lenZ (w :: ws)) by lia. exact HQ.
Qed.
End banks.

Section memory.
Context (self : Z) (up : fdt_scan_node) (rest : nodes) (m : mem).
Context (Hcells : 0 < address_cells up + size_cells up).

Definition bank_len : Z := 4 * (address_cells up + size_cells up).
Definition with_size (g : Z) (x : mem_scan) : mem_scan := mkMemScan (ms_memory x) (ms_reg_value x) (ms_reg_len x) g.

Lemma bank_bytes (b : bank) : bank_of up b -> lenZ (flat_map be32 (bank_words b)) = bank_len.
Proof. intros (H1 & H2 & _). unfold lenZ, bank_len. rewrite be32_words_len. unfold bank_words. rewrite length_app. lia. Qed.

Lemma wp_banks l : forall fuel a g (Q : Z -> scan_state mem_scan -> Prop) E s tl, sc_mem s = m ->
  Forall (bank_of up) l -> bytes_at m a (enc_banks l ++ tl) -> 0 <= a -> lenZ l * bank_len < 2 ^ 63 -> a + lenZ l * bank_len < 2 ^ 64 ->
  (length l <= fuel)%nat -> g = ms_g_mem_size (sc_extra s) ->
  Q (a + lenZ l * bank_len) (mkScan m (with_size (bank_choice self l g) (sc_extra s))) ->
  wp (banks_loop self fuel (up :: rest) a (a + lenZ l * bank_len)) Q E s.
Proof.
  unfold bank_len. induction l as [|b l IH]; intros fuel a g Q E s tl Hm Hl Hb H0 H1 H2 Hf Hg HQ.
  - unfold lenZ in *. cbn [length] in *. rewrite Z.mul_0_l, Z.add_0_r in *. destruct fuel; cbn [banks_loop]; rewrite Z.sub_diag; apply wp_ret.
    all: rewrite Hg in HQ; destruct s as [? [? ? ? ?]]; cbn in *; subst; exact HQ.
  - apply Forall_cons in Hl as [Hbk Hl]. destruct fuel as [|fuel]; [cbn in Hf; lia|]. pose proof (bank_bytes b Hbk) as Hbl. destruct Hbk as (E1 & E2 & Hw).
    assert (El : lenZ (b :: l) = 1 + lenZ l) by (unfold lenZ; cbn [length]; lia). assert (0 <= lenZ l) by (unfold lenZ; lia).
    cbn [enc_banks flat_map] in Hb. rewrite <- (assoc_L (++)) in Hb. pose proof Hb as Hb2. apply bytes_at_app in Hb2 as [_ Hb2].
    fold (lenZ (flat_map be32 (bank_words b))) in Hb2. rewrite Hbl in Hb2. unfold bank_len in Hb2. fold (enc_banks l) in Hb, Hb2.
    unfold bank_words in Hb. rewrite flat_map_app, <- (assoc_L (++)) in Hb. pose proof Hb as Hb1. apply bytes_at_app in Hb1 as [_ Hb1].
    rewrite be32_words_len in Hb1. cbn [banks_loop]. rewrite El in *.
    rewrite (proj2 (Z.ltb_lt _ _)) by (rewrite s64_id by nia; apply Z.quot_str_pos; nia).
    unfold fdt_get_address, fdt_get_size. rewrite <- E1, <- E2, !Nat2Z.id. apply wp_bind.
    eapply (wp_read_cells m (fst b) a 0); [exact Hm|exact Hb|intros w Hin; apply Hw, elem_of_app; by left|exact H0|unfold lenZ; nia|].
    apply wp_bind. eapply (wp_read_cells m (snd b) _ 0); [exact Hm|unfold lenZ; rewrite Nat2Z.inj_mul in Hb1; exact Hb1|intros w Hin; apply Hw, elem_of_app; by right|unfold lenZ; lia|unfold lenZ; nia|].
    change (u64 (foldl _ 0 (fst b))) with (bank_base b). change (u64 (foldl _ 0 (snd b))) with (bank_size b).
    change ((bank_base b <=? self) && (self <=? u64 (bank_base b + bank_size b))) with (holds_self self b).
    replace (a + 4 * lenZ (fst b) + 4 * lenZ (snd b)) with (a + 4 * (address_cells up + size_cells up)) by (unfold lenZ; lia).
    rewrite E1, E2. replace (a + (1 + lenZ l) * (4 * (address_cells up + size_cells up))) with
      (a + 4 * (address_cells up + size_cells up) + lenZ l * (4 * (address_cells up + size_cells up))) in * by lia.
    cbn [length] in Hf. apply wp_bind. destruct (holds_self self b) eqn:Eh; [apply wp_modify|apply wp_ret];
      (eapply IH; [exact Hm|exact Hl|exact Hb2|lia|nia|nia|lia|reflexivity|]);
      cbn [sc_extra with_size ms_memory ms_reg_value ms_reg_len ms_g_mem_size]; unfold bank_choice in *; cbn [foldl] in HQ; rewrite Eh in HQ; rewrite <- ?Hg; exact HQ.
Qed.

(** With no cells the pointer stays: whatever the fuel, the loop is not over. *)
Lemma banks_spin fuel a end_ s : address_cells up <= 0 -> size_cells up <= 0 -> 0 < Z.quot (s64 (end_ - a)) 4 ->
  exists s', banks_loop self fuel (up :: rest) a end_ s = Halt OutOfFuel s'.
Proof. clear Hcells.
  intros H1 H2 H3. revert s. induction fuel as [|fuel IH]; intros s; cbn [banks_loop]; rewrite (proj2 (Z.ltb_lt _ _)) by done; [by eexists|].
  unfold fdt_get_address, fdt_get_size. rewrite (Z2Nat.nonpos (address_cells up)), (Z2Nat.nonpos (size_cells up)) by done.
  cbn [read_cells]. unfold bind at 1, ret at 1. unfold bind at 1, ret at 1. destruct (_ && _); unfold bind at 1; [unfold modify at 1|unfold ret at 1]; apply IH.
Qed.
End memory.
