(* ===== verification/DtsMemory.v ===== *)
(** * The device tree: the size of the memory, over a whole tree

    [mem_items] computes from a tree what [query_mem] finds: it walks the
    nodes with their cell counts and takes the last bank of a memory node that
    holds the kernel.  [None] is a tree the code rejects or misreads: a
    property after a node, a "device_type" or "reg" that is cut short, a
    memory node without "reg", without parent, or with a parent without
    cells. *)
From stdpp Require Import base gmap list strings.
From Stdlib Require Import ZArith Lia.
From S2P Require Import Prelude Mem Str Dts DtsProofs DtsClients.

#[local] Arguments load_le : simpl never.

(** "device_type", "memory", "reg" *)
Definition device_type_str : list Z := [100; 101; 118; 105; 99; 101; 95; 116; 121; 112; 101].
Definition memory_str : list Z := [109; 101; 109; 111; 114; 121].
Definition reg_str : list Z := [114; 101; 103].

(** ** Banks from bytes *)
Fixpoint words_of (l : list Z) : list Z :=
  match l with
  | b0 :: b1 :: b2 :: b3 :: l => (b0 * 2 ^ 24 + b1 * 2 ^ 16 + b2 * 2 ^ 8 + b3) :: words_of l
  | _ => []
  end.
Fixpoint cut_banks (n a s : nat) (ws : list Z) : list bank :=
  match n with
  | O => []
  | S n => (take a ws, take s (drop a ws)) :: cut_banks n a s (drop (a + s) ws)
  end.

Lemma be32_word b0 b1 b2 b3 : 0 <= b0 < 256 -> 0 <= b1 < 256 -> 0 <= b2 < 256 -> 0 <= b3 < 256 ->
  be32 (b0 * 2 ^ 24 + b1 * 2 ^ 16 + b2 * 2 ^ 8 + b3) = [b0; b1; b2; b3].
Proof. intros. unfold be32. repeat f_equal; zlia. Qed.

Lemma words_of_bytes n : forall l, length l = (4 * n)%nat -> (forall b, b ∈ l -> 0 <= b < 256) ->
  flat_map be32 (words_of l) = l /\ length (words_of l) = n /\ forall w, w ∈ words_of l -> 0 <= w < 2 ^ 32.
Proof.
  induction n as [|n IH]; intros l Hl Hb.
  - destruct l; [|done]. split_and!; [done|done|intros w Hw; by apply elem_of_nil in Hw].
  - destruct l as [|b0 [|b1 [|b2 [|b3 l]]]]; cbn in Hl; try lia.
    assert (H0 : 0 <= b0 < 256 /\ 0 <= b1 < 256 /\ 0 <= b2 < 256 /\ 0 <= b3 < 256).
    { split_and!; apply Hb; repeat first [apply list_elem_of_here|apply list_elem_of_further]. }
    destruct H0 as (A0 & A1 & A2 & A3). destruct (IH l) as (E1 & E2 & E3); [lia|intros b Hin; apply Hb; do 4 right; done|].
    cbn [words_of flat_map length]. rewrite be32_word, E1, E2 by done. split_and!; [done|done|].
    intros w [->|Hw]%elem_of_cons; [lia|by apply E3].
Qed.

Lemma cut_banks_words n a s : forall ws, length ws = (n * (a + s))%nat ->
  enc_banks (cut_banks n a s ws) = flat_map be32 ws /\ length (cut_banks n a s ws) = n /\
  forall b, b ∈ cut_banks n a s ws -> length (fst b) = a /\ length (snd b) = s /\ forall w, w ∈ bank_words b -> w ∈ ws.
Proof.
  induction n as [|n IH]; intros ws Hl.
  - destruct ws; [|done]. split_and!; [done|done|intros b Hb; by apply elem_of_nil in Hb].
  - cbn in Hl. destruct (IH (drop (a + s) ws)) as (E1 & E2 & E3); [rewrite length_drop; lia|].
    cbn [cut_banks enc_banks flat_map length]. fold (enc_banks (cut_banks n a s (drop (a + s) ws))). rewrite E1, E2. unfold bank_words. cbn [fst snd].
    assert (Es : ws = take a ws ++ take s (drop a ws) ++ drop (a + s) ws) by (rewrite <- (drop_drop ws), take_drop, take_drop; done).
    split_and!; [|done|].
    + rewrite flat_map_app, <- (assoc_L (++)), <- !flat_map_app, <- Es. done.
    + intros b [->|Hb]%elem_of_cons; cbn [fst snd].
      * rewrite !length_take, length_drop. split_and!; [lia|lia|]. intros w Hw. rewrite Es, (assoc_L (++)). apply elem_of_app. by left.
      * destruct (E3 b Hb) as (L1 & L2 & L3). split_and!; [done|done|]. intros w Hw. rewrite Es, (assoc_L (++)). apply elem_of_app. right. by apply L3.
Qed.

(** ** The walk *)
Abbreviation cells := (Z * Z)%type.
Record mwalk := mkMwalk {
  w_own : option cells;      (* of the node the items belong to *)
  w_up : option cells;       (* of its parent *)
  w_child : cells;           (* that its next child starts with *)
  w_last : bool;
  w_memory : bool;
  w_reg : option (list Z);
  w_size : Z
}.

Section spec.
Context (names : Z -> list Z) (self : Z).

Definition put_cells (off : Z) (val : list Z) (c : option cells) : option cells :=
  match c with
  | None => None
  | Some (a, s) =>
      let v := s32 (be_value (take 4 val)) in
      Some (if decide (names off = address_cells_str) then v else a, if decide (names off = size_cells_str) then v else s)
  end.

(** The size once the node is done. *)
Definition mem_due (w : mwalk) : option Z :=
  if w_last w || negb (bool_decide (is_Some (w_own w))) || negb (w_memory w) then Some (w_size w)
  else
    match w_reg w, w_up w with
    | Some l, Some (a, s) =>
        if (0 <=? a) && (0 <=? s) && (0 <? a + s) && (lenZ l mod (4 * (a + s)) =? 0) then
          Some (bank_choice self (cut_banks (Z.to_nat (lenZ l / (4 * (a + s)))) (Z.to_nat a) (Z.to_nat s) (words_of l)) (w_size w))
        else None
    | _, _ => None
    end.

Fixpoint mem_item (it : item) (w : mwalk) : option mwalk :=
  match it with
  | INop => Some w
  | IProp off val =>
      if w_last w then None
      else
        let own := put_cells off val (w_own w) in
        if decide (names off = device_type_str) then
          if decide (0 ∈ val) then
            Some (mkMwalk own (w_up w) (w_child w) false (w_memory w || bool_decide (c_string val = memory_str)) (w_reg w) (w_size w))
          else None
        else Some (mkMwalk own (w_up w) (w_child w) false (w_memory w)
                     (if decide (names off = reg_str) then Some val else w_reg w) (w_size w))
  | INode _ body =>
      match mem_due w with
      | None => None
      | Some g1 =>
          match (fix go l w := match l with
                               | [] => Some w
                               | it :: l => match mem_item it w with Some w => go l w | None => None end
                               end) body (mkMwalk (Some (w_child w)) (w_own w) (2, 1) false false None g1) with
          | None => None
          | Some w2 =>
              match mem_due w2 with
              | None => None
              | Some g2 => Some (mkMwalk (w_own w) (w_up w) (default (w_child w) (w_own w2)) true (w_memory w2) (w_reg w2) g2)
              end
          end
      end
  end.
Fixpoint mem_items (l : list item) (w : mwalk) : option mwalk :=
  match l with
  | [] => Some w
  | it :: l => match mem_item it w with Some w => mem_items l w | None => None end
  end.
(** From the top, where there is no node. *)
Definition tree_memory (l : list item) : option Z :=
  match mem_items l (mkMwalk None None (2, 1) false false None 0) with
  | Some w => Some (w_size w)
  | None => None
  end.
End spec.

(** ** The code follows the walk *)
Lemma mem_done_run (self : Z) (n up : fdt_scan_node) (rest : nodes) (banks : list bank) (s : scan_state mem_scan) (Q : unit -> scan_state mem_scan -> Prop) E :
  let x := sc_extra s in
  0 < address_cells up + size_cells up -> Forall (bank_of up) banks ->
  ms_memory x <> 0 -> 0 < ms_reg_value x -> ms_reg_len x = lenZ (enc_banks banks) -> ms_reg_len x < 2 ^ 31 ->
  ms_reg_value x + ms_reg_len x < 2 ^ 64 -> bytes_at (sc_mem s) (ms_reg_value x) (enc_banks banks) ->
  Q tt (mkScan (sc_mem s) (mkMemScan (ms_memory x) (ms_reg_value x) (ms_reg_len x) (bank_choice self banks (ms_g_mem_size x)))) ->
  wp (mem_done self (n :: up :: rest)) Q E s.
Proof.
  intros x Hcells Hbanks Hmem Hval Hlen Hlen2 Htop Hb HQ.
  assert (El : lenZ (enc_banks banks) = lenZ banks * bank_len up).
  { clear Hlen Hb HQ. induction Hbanks as [|b l Hbk _ IH]; [done|]. cbn [enc_banks flat_map]. rewrite lenZ_app, (bank_bytes up b Hbk).
    fold (enc_banks l). rewrite IH. unfold lenZ. cbn [length]. lia. }
  assert (0 <= lenZ banks /\ 0 <= ms_reg_len x) as [? ?] by (rewrite Hlen; unfold lenZ; lia). rewrite <- (app_nil_r (enc_banks banks)) in Hb.
  unfold mem_done. apply wp_bind, wp_gets. fold x. rewrite (proj2 (Z.eqb_neq _ _) Hmem).
  assert (E4 : 4 * Z.quot (ms_reg_len x) 4 = ms_reg_len x) by (rewrite Hlen, El; unfold bank_len; rewrite Z.quot_div_nonneg by nia; zlia).
  rewrite E4. rewrite (proj2 (Z.eqb_neq _ _)) by lia. rewrite (proj2 (Z.eqb_eq (Z.rem _ _) _)) by (pose proof (Z.quot_rem' (ms_reg_len x) 4); lia).
  cbn [negb andb]. apply wp_bind, wp_ret, wp_bind. rewrite u64_id by (unfold is_u64; lia). cbn [tail].
  replace (ms_reg_value x + ms_reg_len x) with (ms_reg_value x + lenZ banks * bank_len up) by lia.
  eapply (wp_banks self up rest (sc_mem s) Hcells banks); [done|exact Hbanks|exact Hb|lia|lia|lia| |reflexivity|].
  - unfold bank_len, lenZ in *. nia.
  - rewrite Z.eqb_refl. by apply wp_ret.
Qed.

Lemma mem_cb_ok lit self : cb_ok (mem_cb lit self).
Proof.
  split; [intros f node [= <-]; exact (proj1 (mem_cb_open_ok lit node))|intros f p [= <-]; exact (proj2 (mem_cb_open_ok lit []) p)|intros f node [= <-]|done].
  assert (Hread : forall c a r, keeps (X := mem_scan) (read_cells c a r)).
  { induction c as [|c IH]; intros a r; cbn [read_cells]; [done|]. apply keeps_bind; [apply keeps_on_fdt, reads_load|]. intros w. apply IH. }
  assert (Hloop : forall fuel up value end_, keeps (banks_loop self fuel up value end_)).
  { induction fuel as [|fuel IH]; intros up value end_; cbn [banks_loop]; (destruct (0 <? _); [|by intros s]); [by intros s|]. destruct up as [|u up]; [by intros s|].
    apply keeps_bind; [apply Hread|]. intros [v1 b]. apply keeps_bind; [apply Hread|]. intros [v2 z].
    apply keeps_bind; [by case_match|]. intros []. apply IH. }
  unfold mem_done. apply keeps_bind; [done|]. intros x. case_match; [done|]. apply keeps_bind; [by case_match|]. intros [].
  apply keeps_bind; [apply Hloop|]. intros v. by case_match.
Qed.

Definition cells_of (n : fdt_scan_node) : cells := (address_cells n, size_cells n).

Section walk.
Context (lit : literals) (strings : Z) (names : Z -> list Z) (self : Z) (m : mem).
Context (Hdt : lit_ok m (lit_device_type lit) device_type_str) (Hmemory : lit_ok m (lit_memory lit) memory_str) (Hreg : lit_ok m (lit_reg lit) reg_str).

Abbreviation st := (scan_state mem_scan).
Abbreviation cb := (mem_cb lit self).

(** What [scan->reg_value] and [scan->reg_len] say. *)
Definition reg_at (r : option (list Z)) (x : mem_scan) : Prop :=
  match r with
  | None => True
  | Some l => 0 < ms_reg_value x /\ ms_reg_len x = lenZ l /\ lenZ l < 2 ^ 31 /\ ms_reg_value x + lenZ l < 2 ^ 64 /\
              bytes_at m (ms_reg_value x) l /\ forall b, b ∈ l -> 0 <= b < 256
  end.

Record walking (w : mwalk) (v : vis) (s : st) : Prop := {
  wk_own : w_own w = option_map cells_of (head (v_node v));
  wk_up : w_up w = option_map cells_of (head (tail (v_node v)));
  wk_child : w_child w = cells_of (v_child v);
  wk_last : w_last w = v_last v;
  wk_memory : w_last w = true \/ w_own w = None \/ w_memory w = negb (ms_memory (sc_extra s) =? 0);
  wk_reg : reg_at (w_reg w) (sc_extra s);
  wk_size : w_size w = ms_g_mem_size (sc_extra s)
}.

Lemma due_wp w v s g (Q : unit -> st -> Prop) E : sc_mem s = m -> walking w v s -> mem_due self w = Some g ->
  (forall s', sc_mem s' = m -> ms_g_mem_size (sc_extra s') = g -> ms_memory (sc_extra s') = ms_memory (sc_extra s) ->
     ms_reg_value (sc_extra s') = ms_reg_value (sc_extra s) -> ms_reg_len (sc_extra s') = ms_reg_len (sc_extra s) -> Q tt s') ->
  wp (call_done cb (v_last v) (v_node v)) Q E s.
Proof.
  intros Hm [W1 W2 W3 W4 W5 W6 W7] Hg HQ. unfold mem_due in Hg. rewrite W4 in Hg. unfold call_done. cbn [cb_done mem_cb].
  destruct (v_node v) as [|n up]; [cbn [head option_map] in W1; rewrite W1, bool_decide_eq_false_2 in Hg by (by intros []); cbn [negb] in Hg; rewrite orb_true_r in Hg;
    cbn [orb] in Hg; apply wp_ret, HQ; congruence|].
  destruct (v_last v); [cbn [orb] in Hg; apply wp_ret, HQ; congruence|].
  destruct W5 as [W5|[W5|W5]]; [congruence|by rewrite W1 in W5|]. rewrite W1 in Hg. cbn [head option_map] in Hg.
  rewrite bool_decide_eq_true_2 in Hg by done. cbn [negb orb] in Hg.
  destruct (w_memory w) eqn:Ew; cbn [negb] in Hg.
  2: { unfold mem_done. apply wp_bind, wp_gets. destruct (Z.eqb_spec (ms_memory (sc_extra s)) 0) as [E0|E0]; [|by cbn in W5].
       apply wp_ret, HQ; congruence. }
  destruct (w_reg w) as [l|]; [|done]. rewrite W2 in Hg. cbn [tail] in Hg. destruct up as [|u up]; [done|]. cbn [head option_map cells_of] in Hg.
  destruct (Z.leb_spec 0 (address_cells u)) as [Ha|]; [|done]. destruct (Z.leb_spec 0 (size_cells u)) as [Hs|]; [|done].
  destruct (Z.ltb_spec 0 (address_cells u + size_cells u)) as [Hc|]; [|done]. cbn [andb] in Hg.
  destruct (Z.eqb_spec (lenZ l mod (4 * (address_cells u + size_cells u))) 0) as [Hd|]; [|done]. injection Hg as Hg.
  destruct W6 as (R1 & R2 & R3 & R4 & R5 & R6). set (nb := Z.to_nat (lenZ l / (4 * (address_cells u + size_cells u)))) in *.
  assert (Hlen : length l = (4 * (nb * (Z.to_nat (address_cells u) + Z.to_nat (size_cells u))))%nat).
  { apply Nat2Z.inj. fold (lenZ l). assert (0 <= lenZ l) by (unfold lenZ; lia). subst nb.
    rewrite !Nat2Z.inj_mul, Nat2Z.inj_add, !Z2Nat.id by (try lia; apply Z.div_pos; lia).
    pose proof (Z.div_mod (lenZ l) (4 * (address_cells u + size_cells u)) ltac:(lia)). lia. }
  destruct (words_of_bytes _ l Hlen R6) as (E1 & E2 & E3).
  destruct (cut_banks_words nb (Z.to_nat (address_cells u)) (Z.to_nat (size_cells u)) (words_of l) E2) as (B1 & B2 & B3). rewrite E1 in B1.
  eapply (mem_done_run self n u up (cut_banks nb _ _ (words_of l))); [exact Hc| |by destruct (Z.eqb_spec (ms_memory (sc_extra s)) 0)|exact R1|by rewrite B1|lia|lia|by rewrite Hm, B1|].
  - apply Forall_forall. intros b Hb. destruct (B3 b Hb) as (L1 & L2 & L3).
    split_and!; [lia|lia|]. intros x Hx. by apply E3, L3.
  - apply HQ; cbn [sc_mem sc_extra ms_memory ms_reg_value ms_reg_len ms_g_mem_size]; [done|congruence|done..].
Qed.

Lemma mem_prop_wp node off val a rest w (Q : unit -> st -> Prop) E s v : sc_mem s = m ->
  item_ok strings names m (IProp off val) -> bytes_at m a (val ++ rest) -> 0 < a -> a + lenZ val < 2 ^ 64 ->
  walking w v s -> (names off = device_type_str -> 0 ∈ val) ->
  (forall s', sc_mem s' = m ->
     walking (if decide (names off = device_type_str)
              then mkMwalk (w_own w) (w_up w) (w_child w) (w_last w) (w_memory w || bool_decide (c_string val = memory_str)) (w_reg w) (w_size w)
              else mkMwalk (w_own w) (w_up w) (w_child w) (w_last w) (w_memory w) (if decide (names off = reg_str) then Some val else w_reg w) (w_size w)) v s' -> Q tt s') ->
  wp (call_prop cb (mkProp node (strings + off) a (lenZ val))) Q E s.
Proof.
  intros Hm (Ho & Hl & Hv & Hs & Hs0 & Hs1 & _) Hb Ha Hhi [W1 W2 W3 W4 W5 W6 W7] Hz HQ. unfold call_prop. cbn [cb_prop mem_cb]. unfold mem_prop. cbn [prop_name prop_value prop_len].
  assert (Hname : lit_ok m (strings + off) (names off)) by by split.
  apply wp_bind. eapply (wp_strcmp_on _ _ _ m); [exact Hm|exact Hname|exact Hdt|]. intros r Hr. apply wp_bind.
  assert (Hother : names off <> device_type_str \/ (names off = device_type_str /\ c_string val <> memory_str) ->
    wp (let* r := on_fdt (strcmp (strings + off) (lit_reg lit)) in
        if r =? 0 then modify (fun s => let x := sc_extra s in mkScan (sc_mem s) (mkMemScan (ms_memory x) a (lenZ val) (ms_g_mem_size x)))
        else ret tt) Q E s).
  { intros Hc. apply wp_bind. eapply (wp_strcmp_on _ _ _ m); [exact Hm|exact Hname|exact Hreg|]. intros r3 Hr3.
    destruct (Z.eqb_spec r3 0) as [E3|E3].
    - apply Hr3 in E3. apply wp_modify, HQ; [exact Hm|]. destruct (decide (names off = device_type_str)) as [Ed|_]; [by rewrite E3 in Ed|].
      rewrite decide_True by done. split; try done. cbn [w_reg reg_at sc_extra ms_reg_value ms_reg_len]. apply bytes_at_app in Hb as [Hb _].
      split_and!; [done|done|lia|done|exact Hb|exact Hv].
    - assert (names off <> reg_str) by (intros E4; by apply E3, Hr3). apply wp_ret, HQ; [exact Hm|].
      destruct (decide (names off = device_type_str)) as [Ed|Ed].
      + destruct Hc as [Hc|[_ Hc]]; [done|]. rewrite (bool_decide_eq_false_2 _ Hc), orb_false_r. by split.
      + rewrite decide_False by done. by split. }
  destruct (Z.eqb_spec r 0) as [E0|E0].
  - apply Hr in E0. apply wp_bind. assert (0 <= lenZ val) by (unfold lenZ; lia).
    eapply (wp_strcmp_on _ _ _ m); [exact Hm|eapply value_str; [exact Hb|exact Hv|by apply Hz|lia|done]|exact Hmemory|]. intros r2 Hr2. apply wp_ret.
    destruct (Z.eqb_spec r2 0) as [E2|E2].
    + apply Hr2 in E2. apply wp_modify, HQ; [exact Hm|]. rewrite decide_True by done. rewrite (bool_decide_eq_true_2 _ E2), orb_true_r. split; try done. by right; right.
    + apply Hother. right. split; [done|]. intros E3. by apply E2, Hr2.
  - apply wp_ret, Hother. left. intros E3. by apply E0, Hr.
Qed.

(** ** Items *)
Definition mem_walks (it : item) : Prop := forall v s w w' (Q : vis -> st -> Prop) E rest,
  sc_mem s = m -> item_ok strings names m it -> mem_item names self it w = Some w' -> walking w v s ->
  bytes_at m (v_at v) (enc_item it ++ rest) -> 0 <= v_at v -> v_at v + lenZ (enc_item it) < 2 ^ 64 ->
  (forall v' s', sc_mem s' = m -> v_at v' = v_at v + lenZ (enc_item it) -> walking w' v' s' -> Q v' s') ->
  wp (visit_item cb strings names it v) Q E s.

Lemma mem_walks_list l : Forall mem_walks l -> forall v s w w' (Q : vis -> st -> Prop) E rest,
  sc_mem s = m -> items_ok strings names m l -> mem_items names self l w = Some w' -> walking w v s ->
  bytes_at m (v_at v) (enc_items l ++ rest) -> 0 <= v_at v -> v_at v + lenZ (enc_items l) < 2 ^ 64 ->
  (forall v' s', sc_mem s' = m -> v_at v' = v_at v + lenZ (enc_items l) -> walking w' v' s' -> Q v' s') ->
  wp (visit_items cb strings names l v) Q E s.
Proof.
  induction 1 as [|it l Hit Hl IH]; intros v s w w' Q E rest Hm Hok Hw HW Hb Hlo Hhi HQ.
  { injection Hw as <-. apply wp_ret, HQ; [done|unfold lenZ; cbn; lia|done]. }
  rewrite enc_items_cons, lenZ_app in *. rewrite <- (assoc_L (++)) in Hb. cbn [mem_items] in Hw. destruct (mem_item names self it w) as [w1|] eqn:E1; [|done].
  assert (Hl0 : 0 <= lenZ (enc_items l)) by (unfold lenZ; lia). pose proof (enc_len_pos it).
  unfold visit_items. cbn [each]. apply wp_bind. eapply Hit; [exact Hm|apply Hok; by left|exact E1|exact HW|exact Hb|exact Hlo|lia|].
  intros v1 s1 Hm1 Ev1 HW1. fold (visit_items cb strings names). apply bytes_at_app in Hb as [_ Hb]. fold (lenZ (enc_item it)) in Hb.
  apply (IH v1 s1 w1 w' Q E rest); [exact Hm1|intros it' Hit'; apply Hok; by right|exact Hw|exact HW1|by rewrite Ev1|lia|lia|].
  intros v2 s2 Hm2 Ev2 HW2. apply HQ; [exact Hm2|lia|exact HW2].
Qed.

Lemma put_cells_ref off val node : put_cells names off val (option_map cells_of (head node)) = option_map cells_of (head (ref_cells names off val node)).
Proof. destruct node as [|n up]; [done|]. cbn. unfold cells_of. repeat case_decide; done. Qed.

Lemma mem_walks_prop off val : mem_walks (IProp off val).
Proof.
  intros v s w w' Q E rest Hm Hok Hw HW Hb Hlo Hhi HQ. destruct (prop_bytes _ _ _ _ _ Hb) as ([rest' Hb'] & Hlen & Hv). rewrite Hlen in *.
  cbn [visit_item]. pose proof HW as [W1 W2 W3 W4 W5 W6 W7]. cbn [mem_item] in Hw. rewrite W4 in Hw. destruct (v_last v) eqn:El; [done|].
  set (v1 := mkVis (v_at v + 12 + lenZ (pad4 val)) (ref_cells names off val (v_node v)) (v_child v) false).
  set (w1 := mkMwalk (put_cells names off val (w_own w)) (w_up w) (w_child w) false (w_memory w) (w_reg w) (w_size w)).
  assert (HW1 : walking w1 v1 s).
  { split; cbn; try done; [by rewrite W1, put_cells_ref|rewrite W2; by destruct (v_node v)|].
    destruct W5 as [W5|[W5|W5]]; [congruence|right; left; by rewrite W5|by right; right]. }
  apply wp_bind. eapply (mem_prop_wp _ off val _ rest' w1 _ _ s v1); [exact Hm|exact Hok|exact Hb'|lia|lia|exact HW1| |].
  - intros Ed. rewrite decide_True in Hw by done. by destruct (decide (0 ∈ val)).
  - intros s' Hm' HW'. apply wp_ret. fold v1. apply HQ; [exact Hm'|cbn; lia|].
    destruct (decide (names off = device_type_str)); [destruct (decide (0 ∈ val)); [|done]|]; injection Hw as <-; exact HW'.
Qed.

Lemma mem_item_node name body w : mem_item names self (INode name body) w =
  match mem_due self w with
  | None => None
  | Some g1 =>
      match mem_items names self body (mkMwalk (Some (w_child w)) (w_own w) (2, 1) false false None g1) with
      | None => None
      | Some w2 =>
          match mem_due self w2 with
          | None => None
          | Some g2 => Some (mkMwalk (w_own w) (w_up w) (default (w_child w) (w_own w2)) true (w_memory w2) (w_reg w2) g2)
          end
      end
  end.
Proof.
  cbn [mem_item]. destruct (mem_due self w) as [g1|]; [|done].
  lazymatch goal with |- match ?g body ?w0 with _ => _ end = _ => assert (Hg : forall l w, g l w = mem_items names self l w) end.
  { induction l as [|it l IH]; intros w1; cbn; [done|]. destruct (mem_item names self it w1); [apply IH|done]. }
  by rewrite Hg.
Qed.

Lemma mem_walks_node name body : Forall mem_walks body -> mem_walks (INode name body).
Proof.
  intros Hbody v s w w' Q E rest Hm [Hn Hok] Hw HW Hb Hlo Hhi HQ. apply fold_and_ok in Hok.
  destruct (node_bytes _ _ _ _ _ Hb) as (Hb' & Hlen & Hpl & Hel). rewrite Hlen in *. rewrite mem_item_node in Hw. cbn [visit_item].
  destruct (mem_due self w) as [g1|] eqn:Eg1; [|done].
  destruct (mem_items names self body _) as [w2|] eqn:Ew2; [|done]. destruct (mem_due self w2) as [g2|] eqn:Eg2; [|done]. injection Hw as <-.
  apply wp_bind. eapply (due_wp w v s g1); [exact Hm|exact HW|exact Eg1|]. intros s1 Hm1 Es1 _ _ _.
  apply wp_bind. unfold call_open. cbn [cb_open mem_cb]. unfold mem_open. apply wp_modify. apply wp_bind.
  set (child := mkNode (v_at v + 4) (address_cells (v_child v)) (size_cells (v_child v))).
  destruct HW as [W1 W2 W3 W4 W5 W6 W7].
  apply (mem_walks_list body Hbody _ _ _ w2 _ _ (be32 FDT_END_NODE ++ rest)) with (3 := Ew2); [exact Hm1|exact Hok| |exact Hb'|cbn; lia|cbn; lia|].
  { split; cbn [w_own w_up w_child w_last w_memory w_reg w_size v_node v_child v_last head tail option_map sc_extra ms_memory ms_g_mem_size]; try done.
    - by rewrite W3.
    - by right; right. }
  intros v2 s2 Hm2 Ev2 HW2. cbn [v_at] in Ev2. apply wp_bind. eapply (due_wp w2 v2 s2 g2); [exact Hm2|exact HW2|exact Eg2|].
  intros s3 Hm3 Es3 Emem Eval Elen. apply wp_ret. destruct HW2 as [X1 X2 X3 X4 X5 X6 X7]. apply HQ; [exact Hm3|cbn [v_at]; lia|].
  split; cbn [w_own w_up w_child w_last w_memory w_reg w_size v_node v_child v_last]; try done.
  - rewrite X1, W3. by destruct (v_node v2).
  - by left.
  - unfold reg_at in *. by rewrite Eval, Elen.
Qed.

Lemma mem_walks_all it : mem_walks it.
Proof.
  induction it as [|off val|name body IH] using item_nest_ind; [|apply mem_walks_prop|by apply mem_walks_node].
  intros v s w w' Q E rest Hm _ Hw HW _ _ _ HQ. injection Hw as <-. apply wp_ret, HQ; [exact Hm|done|]. destruct HW. by split.
Qed.

Lemma mem_walk_finds items lex s size (Q : unit -> st -> Prop) E rest :
  sc_mem s = m -> items_ok strings names m items -> tree_memory names self items = Some size ->
  ms_g_mem_size (sc_extra s) = 0 ->
  bytes_at m lex (enc_items items ++ rest) -> 0 <= lex -> lex + lenZ (enc_items items) < 2 ^ 64 ->
  (forall s', sc_mem s' = m -> ms_g_mem_size (sc_extra s') = size -> Q tt s') ->
  wp (let* _ := visit_items cb strings names items (mkVis lex [] (mkNode 0 2 1) false) in ret tt) Q E s.
Proof.
  intros Hm Hok Ht Hg Hb Hlo Hhi HQ. apply wp_bind. unfold tree_memory in Ht.
  destruct (mem_items names self items _) as [w'|] eqn:Ew; [|done]. injection Ht as <-.
  apply (mem_walks_list items (proj2 (Forall_forall _ _) (fun it _ => mem_walks_all it)) _ _ _ w' _ _ rest) with (3 := Ew);
    [exact Hm|exact Hok| |exact Hb|exact Hlo|exact Hhi|].
  - split; cbn; try done. by right; left.
  - intros v' s' Hm' _ HW. apply wp_ret, HQ; [exact Hm'|]. symmetry. by destruct HW.
Qed.
End walk.
