(* ===== verification/DtsTheorems.v ===== *)
(** * The device tree: the properties *)
From stdpp Require Import base gmap list strings.
From Stdlib Require Import ZArith Lia.
From S2P Require Import Prelude Mem Str Dts DtsProofs DtsClients DtsMemory.

#[local] Arguments load_le : simpl never.

(** A flattened tree [items] at [fdt], of a version the scanner knows. *)
Record blob (m : mem) (fdt strings : Z) (names : Z -> list Z) (items : list item) (lex : Z) : Prop := {
  bl_low : 0 <= fdt;
  bl_magic : bytes_at m fdt (be32 FDT_MAGIC);
  bl_version : exists v, bytes_at m (fdt + FH_LAST_COMP_VERSION) (be32 v) /\ 0 <= v <= FDT_VERSION;
  bl_strings : exists o, bytes_at m (fdt + FH_OFF_DT_STRINGS) (be32 o) /\ 0 <= o < 2 ^ 32 /\ strings = fdt + o /\ strings < 2 ^ 64;
  bl_struct : exists o, bytes_at m (fdt + FH_OFF_DT_STRUCT) (be32 o) /\ 0 <= o < 2 ^ 32 /\ lex = fdt + o;
  bl_items : bytes_at m lex (enc_items items ++ be32 9);
  bl_ok : items_ok strings names m items;
  bl_high : lex + lenZ (enc_items items) < 2 ^ 64 - 4
}.

(** Runs with the same outcomes under every specification are equal. *)
Lemma wp_same {S A} (m1 m2 : M S A) s : (forall Q E, wp m1 Q E s -> wp m2 Q E s) -> m2 s = m1 s.
Proof.
  intros Hw. specialize (Hw (fun a s' => m1 s = Ret a s') (fun h s' => m1 s = Halt h s')). unfold wp in Hw.
  destruct (m1 s) as [a s'|h s'] eqn:E1; destruct (m2 s) as [b t|h2 t] eqn:E2; specialize (Hw eq_refl); congruence.
Qed.

Lemma bytes_at_size m a l : bytes_at m a l -> (length l <= size m)%nat.
Proof.
  intros Hb. apply (has_size m a (length l)). intros x Hx.
  destruct (lookup_lt_is_Some_2 l (Z.to_nat (x - a))) as [c Hc]; [lia|]. exists c. apply Hb in Hc.
  by replace (a + Z.of_nat (Z.to_nat (x - a))) with x in Hc by lia.
Qed.

Lemma wp_header {X} (Q : Z -> scan_state X -> Prop) E s m a v : sc_mem s = m -> bytes_at m a (be32 v) -> 0 <= v < 2 ^ 32 -> 0 <= a < 2 ^ 64 ->
  (forall w, bswap w = v -> Q w s) -> wp (on_fdt (load32 (u64 a))) Q E s.
Proof.
  intros Hm Hb Hv Ha HQ. rewrite <- (app_nil_r (be32 v)) in Hb. destruct (bytes_at_word _ _ _ _ Hb Hv) as (w & Hw & Ew).
  eapply wp_on_fdt; [exact Hm|]. rewrite u64_id by done. apply wp_load with (v := w); [exact Hw|]. split; [done|]. by apply HQ.
Qed.

Lemma scan_is_walk {X} (lit : literals) (cb : fdt_cb X) fdt strings names items lex (s : scan_state X) :
  cb_ok cb -> lits_ok lit (sc_mem s) -> blob (sc_mem s) fdt strings names items lex -> fdt < 2 ^ 63 ->
  fdt_scan lit fdt cb s = (let* _ := visit_items cb strings names items (mkVis lex [] (mkNode 0 2 1) false) in ret tt) s.
Proof.
  intros Hcb HL [B1 B2 (ver & B3 & B3r) (os & B4 & B4r & B4s & B4h) (ox & B5 & B5r & B5s) B6 B7 B8] Hfdt. apply wp_same. intros Q E HQ.
  apply wp_bind_inv in HQ. unfold FDT_VERSION, FH_OFF_DT_STRINGS, FH_OFF_DT_STRUCT, FH_LAST_COMP_VERSION in *.
  assert (Hl : 0 <= lenZ (enc_items items)) by (unfold lenZ; lia).
  unfold fdt_scan. apply wp_bind. eapply (wp_header _ _ s _ (fdt + FH_MAGIC)); [reflexivity|rewrite Z.add_0_r; exact B2|done|unfold FH_MAGIC; lia|].
  intros w ->. rewrite Z.eqb_refl. cbn [negb]. unfold FH_OFF_DT_STRINGS, FH_OFF_DT_STRUCT, FH_LAST_COMP_VERSION.
  apply wp_bind. eapply (wp_header _ _ s); [reflexivity|exact B3|lia|lia|]. intros w2 ->.
  rewrite (proj2 (Z.ltb_ge _ _)) by (unfold FDT_VERSION; lia).
  apply wp_bind. eapply (wp_header _ _ s); [reflexivity|exact B4|lia|lia|]. intros w3 ->.
  apply wp_bind. eapply (wp_header _ _ s); [reflexivity|exact B5|lia|lia|]. intros w4 ->.
  rewrite <- B4s, <- B5s, !u64_id by (unfold is_u64; lia).
  apply wp_bind. unfold fdt_scan_helper. apply wp_bind, wp_gets. change (scan_loop lit ?f cb lex strings [] ?c false) with
    (scan_at lit cb strings f (mkVis lex [] c false)).
  eapply (scan_items lit cb strings names (sc_mem s) Hcb HL (length (enc_items items)) items _ 1 _ s (be32 9));
    [lia|done|exact B7|exact B6|cbn; lia|exact B8| |].
  - apply bytes_at_size in B6. rewrite length_app in B6. cbn [be32 length] in B6. lia.
  - eapply wp_mono; [exact (wp_visit_depth _ _ _ _ _ _ _ _ HQ)| |done]. intros w' s' [Hd Hw] Hm Ew fuel' Hf. destruct fuel' as [|fuel']; [lia|].
    unfold scan_at. cbn [scan_loop]. apply bytes_at_app in B6 as [_ B6]. cbn [v_at] in Ew. fold (lenZ (enc_items items)) in B6.
    rewrite <- (app_nil_r (be32 9)) in B6.
    apply wp_bind. eapply (wp_word_at _ _ s' (sc_mem s) (v_at w') 0 9); [exact Hm|rewrite Z.add_0_r, Ew; exact B6|done|lia|].
    change (9 =? FDT_NOP) with false. change (9 =? FDT_PROP) with false. change (9 =? FDT_BEGIN_NODE) with false. change (9 =? FDT_END_NODE) with false.
    cbv iota. apply wp_bind. destruct (v_node w') eqn:En; [|done].
    unfold call_done. destruct (cb_done cb); apply wp_ret, wp_ret; exact Hw.
Qed.

(** ** A small tree *)
Definition place (a : Z) (l : list Z) (m : mem) : mem := foldr (fun p m => <[a + fst p := snd p]> m) m (zip (seqZ 0 (lenZ l)) l).

(** A board: the host interface, and 128 MB of memory at DRAM_BASE. *)
Definition toy_items : list item :=
  [INode [] [INop; IProp 0 (htif_str ++ [0]); IProp 16 (be32 1);
             INode memory_str [IProp 32 (memory_str ++ [0]); IProp 48 (be32 2147483648 ++ be32 134217728)]]].
Definition toy_names (off : Z) : list Z :=
  if off =? 0 then compatible_str else if off =? 16 then address_cells_str else if off =? 32 then device_type_str
  else if off =? 48 then reg_str else [].
Definition toy_lit : literals := mkLiterals 8192 8208 8224 8240 8256 8272 8288.
Definition toy_mem : mem :=
  place 4096 (be32 FDT_MAGIC ++ be32 0 ++ be32 40 ++ be32 256 ++ be32 0 ++ be32 17 ++ be32 16)
    (place 4136 (enc_items toy_items ++ be32 9) (foldr (fun p => place (fst p) (snd p ++ [0])) ∅
      [(4352, compatible_str); (4368, address_cells_str); (4384, device_type_str); (4400, reg_str);
       (8192, address_cells_str); (8208, size_cells_str); (8224, device_type_str); (8240, memory_str); (8256, reg_str);
       (8272, compatible_str); (8288, htif_str)])).
Definition toy_state : scan_state htif_scan := mkScan toy_mem (mkHtifScan 0 0).

Ltac toy_bytes := apply bytes_atb_ok; vm_compute; reflexivity.
Ltac chars := intros c Hc; repeat (apply elem_of_cons in Hc as [->|Hc]; [lia|]); by apply elem_of_nil in Hc.

Lemma toy_str a l : bytes_atb toy_mem a (l ++ [0]) = true -> (forall c, c ∈ l -> 0 < c < 256) -> 0 <= a < 2 ^ 63 -> lenZ l < 2 ^ 63 -> lit_ok toy_mem a l.
Proof.
  intros Hb Hl Ha Hn. apply bytes_atb_ok, bytes_at_app in Hb as [H1 H2]. split; [split; [exact H1|exact Hl|]|lia|lia].
  specialize (H2 0%nat 0 eq_refl). change (Z.of_nat 0) with 0 in H2. by rewrite Z.add_0_r in H2.
Qed.

Lemma toy_lits : lits_ok toy_lit toy_mem.
Proof. split; (apply toy_str; [vm_compute; reflexivity|chars|by vm_compute|by vm_compute]). Qed.

Definition toy_prop_okb (off : Z) (val : list Z) : bool :=
  (0 <=? off) && (off <? 4096) && (lenZ val <? 4096) && forallb (fun b => (0 <=? b) && (b <? 256)) val &&
  bytes_atb toy_mem (4352 + off) (toy_names off ++ [0]) && forallb (fun b => (0 <? b) && (b <? 256)) (toy_names off) &&
  (lenZ (toy_names off) <? 4096) &&
  ((4 <=? lenZ val) || negb (bool_decide (toy_names off = address_cells_str) || bool_decide (toy_names off = size_cells_str))).
Lemma toy_prop_ok off val : toy_prop_okb off val = true -> item_ok 4352 toy_names toy_mem (IProp off val).
Proof.
  unfold toy_prop_okb. rewrite !andb_true_iff, !forallb_forall, !Z.leb_le, !Z.ltb_lt, orb_true_iff, Z.leb_le, negb_true_iff, orb_false_iff.
  intros (((((((H1 & H2) & H3) & H4) & H5) & H6) & H7) & H8).
  assert (Hs : lit_ok toy_mem (4352 + off) (toy_names off)).
  { apply toy_str; [exact H5| |lia|lia]. intros c Hc%list_elem_of_In%H6. lia. }
  destruct Hs as [S1 S2 S3]. cbn [item_ok]. split; [lia|]. split; [lia|]. split; [intros b Hb%list_elem_of_In%H4; lia|].
  split; [exact S1|]. split; [exact S2|]. split; [exact S3|].
  intros Hn. destruct H8 as [H8|[H8 H9]]; [exact H8|]. apply bool_decide_eq_false in H8, H9. by destruct Hn.
Qed.

Lemma toy_items_ok : items_ok 4352 toy_names toy_mem toy_items.
Proof.
  intros it Hit. apply list_elem_of_singleton in Hit as ->. cbn [item_ok map fold_right]. split; [chars|].
  split; [done|]. split; [apply toy_prop_ok; vm_compute; reflexivity|]. split; [apply toy_prop_ok; vm_compute; reflexivity|].
  split; [|done]. split; [chars|]. split; [apply toy_prop_ok; vm_compute; reflexivity|]. split; [apply toy_prop_ok; vm_compute; reflexivity|done].
Qed.

Lemma toy_blob : blob toy_mem 4096 4352 toy_names toy_items 4136.
Proof.
  split; [done|toy_bytes|exists 16; split; [toy_bytes|done]|exists 256; split; [toy_bytes|done]|exists 40; split; [toy_bytes|done]|toy_bytes|apply toy_items_ok|done].
Qed.

(** C19: [fdt_scan] of a flattened tree is the structural walk over the tree:
    it ends, and calls back for the same nodes and properties, with the same
    arguments, in the same order, whatever the callbacks do to their own data
    and wherever they stop. *)
Theorem fdt_scan_visits {X} (lit : literals) (cb : fdt_cb X) fdt strings names items lex (s : scan_state X) :
  cb_ok cb -> lits_ok lit (sc_mem s) -> blob (sc_mem s) fdt strings names items lex -> fdt < 2 ^ 63 ->
  fdt_scan lit fdt cb s = (let* _ := visit_items cb strings names items (mkVis lex [] (mkNode 0 2 1) false) in ret tt) s.
Proof. apply scan_is_walk. Qed.

Lemma fdt_scan_visits_witness :
  fdt_scan toy_lit 4096 (htif_cb toy_lit) toy_state =
  (let* _ := visit_items (htif_cb toy_lit) 4352 toy_names toy_items (mkVis 4136 [] (mkNode 0 2 1) false) in ret tt) toy_state.
Proof. exact (fdt_scan_visits toy_lit (htif_cb toy_lit) 4096 4352 toy_names toy_items 4136 toy_state (htif_cb_ok toy_lit) toy_lits toy_blob eq_refl). Defined.

Lemma query_htif_run (lit : literals) fdt strings names items lex (s : scan_state htif_scan) (Q : unit -> scan_state htif_scan -> Prop) E :
  lits_ok lit (sc_mem s) -> lit_ok (sc_mem s) (lit_compatible lit) compatible_str -> lit_ok (sc_mem s) (lit_htif lit) htif_str ->
  blob (sc_mem s) fdt strings names items lex -> fdt < 2 ^ 63 -> items_well names false items ->
  (forall s', sc_mem s' = sc_mem s -> hs_htif (sc_extra s') = (if tree_htif names items then 1 else hs_htif (sc_extra s)) -> Q tt s') ->
  wp (query_htif lit fdt) Q E s.
Proof.
  intros HL Hc Hh HB Hfdt Hwell HQ. unfold query_htif, wp. rewrite (scan_is_walk lit (htif_cb lit) fdt strings names items lex s (htif_cb_ok lit) HL HB Hfdt).
  destruct HB as [B1 B2 B3 B4 (o & B5 & B5r & B5s) B6 B7 B8].
  by eapply (walk_finds lit strings names (sc_mem s) Hc Hh items lex s _ _ (be32 9)); [done|done|done|done|lia|lia|].
Qed.

(** C25: [query_htif] returns, and raises the global exactly when some node of
    the tree has "ucb,htif0" as its "compatible" property; otherwise the
    global keeps its value.  Memory is unchanged. *)
Theorem query_htif_finds (lit : literals) fdt strings names items lex (s : scan_state htif_scan) :
  lits_ok lit (sc_mem s) -> lit_ok (sc_mem s) (lit_compatible lit) compatible_str -> lit_ok (sc_mem s) (lit_htif lit) htif_str ->
  blob (sc_mem s) fdt strings names items lex -> fdt < 2 ^ 63 -> items_well names false items ->
  exists s', query_htif lit fdt s = Ret tt s' /\ sc_mem s' = sc_mem s /\
    hs_htif (sc_extra s') = (if tree_htif names items then 1 else hs_htif (sc_extra s)).
Proof.
  intros HL Hc Hh HB Hfdt Hwell.
  assert (Hw : wp (query_htif lit fdt) (fun _ s' => sc_mem s' = sc_mem s /\ hs_htif (sc_extra s') = (if tree_htif names items then 1 else hs_htif (sc_extra s))) no_stop s)
    by (by eapply query_htif_run).
  apply wp_returns in Hw as ([] & s' & Hr & Hm & Hv). by exists s'.
Qed.

Lemma toy_well : items_well toy_names false toy_items.
Proof.
  cbn. split; [|done]. split; [done|]. split; [done|]. split; [intros _; apply list_elem_of_In; cbn; tauto|]. split; [done|].
  split; [done|]. split; [done|]. split; [|done]. split; [done|]. split; [done|]. split; [done|]. by split.
Qed.

Lemma query_htif_finds_witness : exists s', query_htif toy_lit 4096 toy_state = Ret tt s' /\ sc_mem s' = toy_mem /\ hs_htif (sc_extra s') = 1.
Proof.
  refine (query_htif_finds toy_lit 4096 4352 toy_names toy_items 4136 toy_state toy_lits _ _ toy_blob eq_refl _).
  - apply toy_str; [vm_compute; reflexivity|chars|by vm_compute|by vm_compute].
  - apply toy_str; [vm_compute; reflexivity|chars|by vm_compute|by vm_compute].
  - exact toy_well.
Defined.

(** [mem_done] of a memory node whose "reg" lists banks, each as its parent's
    cell counts say, returns with the global set to the size of the last bank
    that holds the kernel's own code, or left alone if none does. *)
Lemma mem_done_takes_last_bank (self : Z) (n up : fdt_scan_node) (rest : nodes) (banks : list bank) (s : scan_state mem_scan) :
  let x := sc_extra s in
  0 < address_cells up + size_cells up -> Forall (bank_of up) banks ->
  ms_memory x <> 0 -> 0 < ms_reg_value x -> ms_reg_len x = lenZ (enc_banks banks) -> ms_reg_len x < 2 ^ 31 ->
  ms_reg_value x + ms_reg_len x < 2 ^ 64 -> bytes_at (sc_mem s) (ms_reg_value x) (enc_banks banks) ->
  mem_done self (n :: up :: rest) s =
    Ret tt (mkScan (sc_mem s) (mkMemScan (ms_memory x) (ms_reg_value x) (ms_reg_len x) (bank_choice self banks (ms_g_mem_size x)))).
Proof.
  intros x H1 H2 H3 H4 H5 H6 H7 H8.
  pose proof (mem_done_run self n up rest banks s (fun _ s' => s' = mkScan (sc_mem s) (mkMemScan (ms_memory x) (ms_reg_value x) (ms_reg_len x) (bank_choice self banks (ms_g_mem_size x)))) no_stop
    H1 H2 H3 H4 H5 H6 H7 H8 eq_refl) as Hw.
  apply wp_returns in Hw as ([] & s' & Hr & ->). exact Hr.
Qed.

Lemma query_mem_run (lit : literals) (self : Z) fdt strings names items lex size (s : scan_state mem_scan) (Q : unit -> scan_state mem_scan -> Prop) E :
  lits_ok lit (sc_mem s) -> lit_ok (sc_mem s) (lit_device_type lit) device_type_str -> lit_ok (sc_mem s) (lit_memory lit) memory_str ->
  lit_ok (sc_mem s) (lit_reg lit) reg_str ->
  blob (sc_mem s) fdt strings names items lex -> fdt < 2 ^ 63 -> tree_memory names self items = Some size ->
  (forall s', sc_mem s' = sc_mem s -> ms_g_mem_size (sc_extra s') = size -> if 0 <? size then Q tt s' else E (AssertFailed "g_mem_size > 0") s') ->
  wp (query_mem lit self fdt) Q E s.
Proof.
  intros HL Hdt Hme Hre HB Hfdt Ht HQ. unfold query_mem. apply wp_bind, wp_modify. set (s0 := mkScan _ _).
  assert (Em : sc_mem s0 = sc_mem s) by done. rewrite <- Em in HL, Hdt, Hme, Hre, HB, HQ. apply wp_bind. unfold wp at 1.
  rewrite (scan_is_walk lit (mem_cb lit self) fdt strings names items lex s0 (mem_cb_ok lit self) HL HB Hfdt).
  destruct HB as [B1 B2 B3 B4 (o & B5 & B5r & B5s) B6 B7 B8].
  apply (mem_walk_finds lit strings names self (sc_mem s0) Hdt Hme Hre items lex s0 size) with (rest := be32 9);
    [done|exact B7|exact Ht|done|exact B6|lia|lia|].
  intros s' Hm Hg. apply wp_bind, wp_gets. rewrite Hg. specialize (HQ s' Hm Hg). by destruct (0 <? size).
Qed.

(** C26: [query_mem] follows the tree: it returns with the global set to the
    size of the last bank, of the memory nodes in order, that holds the
    kernel's code, each bank decoded with the cell counts its parent has by
    then; it dies on its assertion when there is none.  Memory is unchanged. *)
Theorem query_mem_finds (lit : literals) (self : Z) fdt strings names items lex size (s : scan_state mem_scan) :
  lits_ok lit (sc_mem s) -> lit_ok (sc_mem s) (lit_device_type lit) device_type_str -> lit_ok (sc_mem s) (lit_memory lit) memory_str ->
  lit_ok (sc_mem s) (lit_reg lit) reg_str ->
  blob (sc_mem s) fdt strings names items lex -> fdt < 2 ^ 63 -> tree_memory names self items = Some size ->
  wp (query_mem lit self fdt)
     (fun _ s' => 0 < size /\ sc_mem s' = sc_mem s /\ ms_g_mem_size (sc_extra s') = size)
     (fun h s' => h = AssertFailed "g_mem_size > 0" /\ size <= 0 /\ sc_mem s' = sc_mem s) s.
Proof.
  intros HL Hdt Hme Hre HB Hfdt Ht. eapply query_mem_run; [exact HL|exact Hdt|exact Hme|exact Hre|exact HB|exact Hfdt|exact Ht|].
  intros s' Hm Hg. by destruct (Z.ltb_spec 0 size).
Qed.

Lemma query_mem_finds_witness :
  wp (query_mem toy_lit 2147484000 4096)
     (fun _ s' => 0 < 134217728 /\ sc_mem s' = toy_mem /\ ms_g_mem_size (sc_extra s') = 134217728)
     (fun h s' => h = AssertFailed "g_mem_size > 0" /\ 134217728 <= 0 /\ sc_mem s' = toy_mem) (mkScan toy_mem (mkMemScan 0 0 0 0)).
Proof.
  refine (query_mem_finds toy_lit 2147484000 4096 4352 toy_names toy_items 4136 134217728 (mkScan toy_mem (mkMemScan 0 0 0 0)) toy_lits _ _ _ toy_blob eq_refl eq_refl);
    (apply toy_str; [vm_compute; reflexivity|chars|by vm_compute|by vm_compute]).
Defined.
