(* ===== verification/Sync.v ===== *)
(** * kernel/sync_utils.c

    The atomic operations as one hart sees them (one memory transition each),
    and the spinlock and the LR/SC compare-and-swap as programs that several
    harts run interleaved, instruction by instruction. *)
From stdpp Require Import base gmap list strings.
From Stdlib Require Import ZArith Lia.
From S2P Require Import Prelude Mem.

(** ** One transition each *)
Definition atomic_fetch_add (addr delta : Z) : M mem Z :=
  let* old := load64 addr in store64 addr (u64 (old + delta)) ;;; ret (s64 old).
Definition atomic_add (addr delta : Z) : M mem unit :=
  let* old := load64 addr in store64 addr (u64 (old + delta)).
Definition atomic_swap (addr new_val : Z) : M mem Z :=
  let* old := load32 addr in store32 addr (u32 new_val) ;;; ret (u32 old).
Definition atomic_set_release (addr val : Z) : M mem unit := store32 addr (u32 val).
Definition atomic_cas_d (addr expected new_val : Z) : M mem Z :=
  let* old := load64 addr in
  if old =? expected then store64 addr new_val ;;; ret 1 else ret 0.
(** The 32-bit variant computes [success] and drops it. *)
Definition atomic_cas_w (addr expected new_val : Z) : M mem unit :=
  let* old := load32 addr in
  if u32 old =? u32 expected then store32 addr (u32 new_val) else ret tt.

(** ** The spinlock, several harts

    A hart runs a list of acquisitions and releases.  Each step below is one
    memory access: the plain load of lock_acquire, its [amoswap] when the load
    saw 0, or the [amoswap] of lock_release. *)
Inductive op := Acq | Rel.
Inductive mode := Spin | Swap.

Record thread := mkThread {
  prog : list op;   (* what is left to do *)
  md : mode;        (* inside lock_acquire: before the load, or before the swap *)
  holds : bool      (* this hart's last completed operation was an acquisition *)
}.

(** One step of a hart that sees the lock word [l]. *)
Definition thread_step (t : thread) (l : Z) : option (thread * Z) :=
  match prog t with
  | [] => None
  | Rel :: r => Some (mkThread r Spin false, 0)
  | Acq :: r =>
      match md t with
      | Spin => Some (mkThread (prog t) (if l =? 0 then Swap else Spin) (holds t), l)
      | Swap => if l =? 0 then Some (mkThread r Spin true, 1)
                else Some (mkThread (prog t) Spin (holds t), 1)
      end
  end.

Record machine := mkMachine { lock_word : Z; harts : gmap nat thread }.

Inductive mstep : machine -> machine -> Prop :=
  | mstep_hart m h t t' l' :
      harts m !! h = Some t -> thread_step t (lock_word m) = Some (t', l') ->
      mstep m (mkMachine l' (<[h := t']> (harts m))).

(** A hart releases only what it holds.  Acquiring again what one holds is
    not excluded. *)
Fixpoint bracketed (held : bool) (l : list op) : bool :=
  match l, held with
  | [], _ => true
  | Acq :: r, false => bracketed true r
  | Acq :: _, true => true
  | Rel :: r, true => bracketed false r
  | Rel :: _, false => false
  end.

Definition initial (m : machine) : Prop :=
  lock_word m = 0 /\ forall h t, harts m !! h = Some t ->
    md t = Spin /\ holds t = false /\ bracketed false (prog t) = true.

Record lock_inv (m : machine) : Prop := {
  lk_word : lock_word m = 0 \/ lock_word m = 1;
  lk_held h t : harts m !! h = Some t -> holds t = true -> lock_word m = 1 /\ md t = Spin;
  lk_owner : lock_word m = 1 -> exists h t, harts m !! h = Some t /\ holds t = true;
  lk_one h1 h2 t1 t2 : harts m !! h1 = Some t1 -> harts m !! h2 = Some t2 ->
    holds t1 = true -> holds t2 = true -> h1 = h2;
  lk_prog h t : harts m !! h = Some t -> bracketed (holds t) (prog t) = true
}.

Lemma initial_inv m : initial m -> lock_inv m.
Proof.
  intros [H0 H]. split; try lia.
  - intros h t Ht Hh. destruct (H h t Ht) as (_ & E & _). congruence.
  - intros h1 h2 t1 t2 Ht _ Hh. destruct (H h1 t1 Ht) as (_ & E & _). congruence.
  - intros h t Ht. destruct (H h t Ht) as (_ & -> & ?). done.
Qed.

Ltac harts_cases :=
  repeat match goal with
  | H : <[?h := _]> _ !! ?h' = Some _ |- _ =>
      apply lookup_insert_Some in H as [[? ?]|[? H]]; simplify_eq
  end.

Ltac no_holder :=
  exfalso; match goal with
  | Ht : harts _ !! _ = Some ?t, Hd : holds ?t = true |- _ =>
      assert (holds t = false) by eauto; congruence
  end.

Lemma step_inv m m' : lock_inv m -> mstep m m' -> lock_inv m'.
Proof.
  intros [W H O U P] S. destruct S as [m h t t' l' Ht Hs]. unfold thread_step in Hs.
  pose proof (H h t Ht) as Hh. pose proof (P h t Ht) as Hp.
  destruct (prog t) as [|[] r] eqn:Ep; [done| |].
  - destruct (md t) eqn:Em; [|destruct (Z.eqb_spec (lock_word m) 0) as [E0|E0]]; simplify_eq/=.
    + split; cbn.
      * done.
      * intros h1 t1 H1 Hd. harts_cases; cbn in *; [|by eapply H].
        destruct (Hh Hd) as [E1 _]. rewrite E1. done.
      * intros E1. destruct (O E1) as (h1 & t1 & H1 & Hd). destruct (decide (h = h1)) as [->|].
        -- eexists h1, _. rewrite lookup_insert_eq. split; [reflexivity|]. cbn. congruence.
        -- exists h1, t1. by rewrite lookup_insert_ne.
      * intros h1 h2 t1 t2 H1 H2 D1 D2. harts_cases; cbn in *; eauto.
      * intros h1 t1 H1. harts_cases; cbn in *; [done|by eapply P].
    + assert (Hno : forall h1 t1, harts m !! h1 = Some t1 -> holds t1 = false).
      { intros h1 t1 H1. destruct (holds t1) eqn:Ed; [|done]. destruct (H h1 t1 H1 Ed). lia. }
      split; cbn.
      * by right.
      * intros h1 t1 H1 Hd. harts_cases; cbn in *; [done|]. no_holder.
      * intros _. exists h, (mkThread r Spin true). by rewrite lookup_insert_eq.
      * intros h1 h2 t1 t2 H1 H2 D1 D2. harts_cases; cbn in *; try done; no_holder.
      * intros h1 t1 H1. harts_cases; cbn in *; [|by eapply P]. assert (Ef : holds t = false) by eauto. by rewrite Ef in Hp.
    + assert (E1 : lock_word m = 1) by lia.
      split; cbn.
      * by right.
      * intros h1 t1 H1 Hd. harts_cases; cbn in *; [done|]. split; [done|]. by destruct (H h1 t1 H1 Hd).
      * intros _. destruct (O E1) as (h1 & t1 & H1 & Hd). destruct (decide (h = h1)) as [->|].
        -- eexists h1, _. rewrite lookup_insert_eq. split; [reflexivity|]. cbn. congruence.
        -- exists h1, t1. by rewrite lookup_insert_ne.
      * intros h1 h2 t1 t2 H1 H2 D1 D2. harts_cases; cbn in *; eauto.
      * intros h1 t1 H1. harts_cases; cbn in *; [done|by eapply P].
  - simplify_eq/=. assert (Hd : holds t = true) by by destruct (holds t).
    assert (Hno : forall h1 t1, harts m !! h1 = Some t1 -> h1 <> h -> holds t1 = false).
    { intros h1 t1 H1 Hne. destruct (holds t1) eqn:Ed; [|done]. by destruct Hne; eapply U. }
    split; cbn.
    + by left.
    + intros h1 t1 H1 D1. harts_cases; cbn in *; try done. no_holder.
    + lia.
    + intros h1 h2 t1 t2 H1 H2 D1 D2. harts_cases; cbn in *; try done. by eapply U.
    + intros h1 t1 H1. harts_cases; cbn in *; [|by eapply P]. by rewrite Hd in Hp.
Qed.

Lemma reachable_inv m m' : lock_inv m -> rtc mstep m m' -> lock_inv m'.
Proof. intros HI. induction 1; [done|]. by apply IHrtc, (step_inv x). Qed.

(** A hart about to acquire what it holds stays there, and keeps the lock. *)
Definition stuck (h : nat) (m : machine) : Prop :=
  exists t r, harts m !! h = Some t /\ holds t = true /\ prog t = Acq :: r.

Lemma stuck_step h m m' : lock_inv m -> stuck h m -> mstep m m' ->
  stuck h m' /\ lock_word m' = 1 /\ (prog <$> harts m' !! h) = (prog <$> harts m !! h).
Proof.
  intros HI (t & r & Ht & Hd & Hp) Hs. pose proof (step_inv _ _ HI Hs) as HI'.
  destruct (lk_held _ HI h t Ht Hd) as [E1 Em].
  destruct Hs as [m h1 t1 t1' l' Ht1 Hs]. assert (Hst : stuck h (mkMachine l' (<[h1 := t1']> (harts m))) /\
    (prog <$> <[h1 := t1']> (harts m) !! h) = (prog <$> harts m !! h)).
  { destruct (decide (h1 = h)) as [->|Hne].
    - rewrite Ht in Ht1. injection Ht1 as <-. unfold thread_step in Hs. rewrite Hp, Em in Hs.
      rewrite E1 in Hs. cbn in Hs. injection Hs as <- <-. split.
      + exists (mkThread (Acq :: r) Spin (holds t)), r. cbn. by rewrite lookup_insert_eq.
      + rewrite lookup_insert_eq, Ht. cbn. by rewrite Hp.
    - split; [exists t, r; cbn; by rewrite lookup_insert_ne|by rewrite lookup_insert_ne]. }
  destruct Hst as [Hst Heq]. split_and!; [done| |done].
  destruct Hst as (t2 & r2 & Ht2 & Hd2 & _). by apply (lk_held _ HI' h t2).
Qed.

(** ** LR/SC compare-and-swap, several harts *)
Inductive cas_pc := AtLr | AtBne (old : Z) | AtSc | Done (success : Z).

Record cas_hart := mkCas {
  expected : Z;
  new_val : Z;
  cpc : cas_pc;
  reserved : bool    (* the reservation of lr.d still stands *)
}.
Record cas_machine := mkCasMachine { cword : Z; charts : gmap nat cas_hart }.

Definition unreserve (c : cas_hart) : cas_hart := mkCas (expected c) (new_val c) (cpc c) false.

(** The instructions of atomic_cas_d.  A store to the word ends every
    reservation; a reservation may also be lost at any time. *)
Inductive cstep : cas_machine -> cas_machine -> Prop :=
  | cs_lr m h c : charts m !! h = Some c -> cpc c = AtLr ->
      cstep m (mkCasMachine (cword m)
        (<[h := mkCas (expected c) (new_val c) (AtBne (cword m)) true]> (charts m)))
  | cs_bne m h c old : charts m !! h = Some c -> cpc c = AtBne old ->
      cstep m (mkCasMachine (cword m)
        (<[h := mkCas (expected c) (new_val c) (if old =? expected c then AtSc else Done 0) (reserved c)]> (charts m)))
  | cs_sc_ok m h c : charts m !! h = Some c -> cpc c = AtSc -> reserved c = true ->
      cstep m (mkCasMachine (new_val c)
        (<[h := mkCas (expected c) (new_val c) (Done 1) false]> (unreserve <$> charts m)))
  | cs_sc_fail m h c : charts m !! h = Some c -> cpc c = AtSc -> reserved c = false ->
      cstep m (mkCasMachine (cword m)
        (<[h := mkCas (expected c) (new_val c) AtLr false]> (charts m)))
  | cs_lost m h c : charts m !! h = Some c ->
      cstep m (mkCasMachine (cword m) (<[h := unreserve c]> (charts m))).

(** A store by another part of the machine. *)
Inductive env_step : cas_machine -> cas_machine -> Prop :=
  | env_store m v : env_step m (mkCasMachine v (unreserve <$> charts m)).

Definition any_step (m m' : cas_machine) : Prop := cstep m m' \/ env_step m m'.

Definition cas_initial (m : cas_machine) : Prop :=
  forall h c, charts m !! h = Some c -> cpc c = AtLr /\ reserved c = false.

(** What a standing reservation says about the word. *)
Definition cas_inv (m : cas_machine) : Prop :=
  forall h c, charts m !! h = Some c -> reserved c = true ->
    match cpc c with AtBne old => cword m = old | AtSc => cword m = expected c | _ => True end.

Lemma cas_initial_inv m : cas_initial m -> cas_inv m.
Proof. intros HI h c Hc Hr. destruct (HI h c Hc). congruence. Qed.

Lemma unreserved_lookup (m : gmap nat cas_hart) h c : (unreserve <$> m) !! h = Some c -> reserved c = false.
Proof. intros Hc. rewrite lookup_fmap in Hc. apply fmap_Some in Hc as (c' & _ & ->). done. Qed.

Lemma cas_step_inv m m' : cas_inv m -> any_step m m' -> cas_inv m'.
Proof.
  intros HI [Hs|Hs].
  - destruct Hs as [m h c Hc Hp|m h c old Hc Hp|m h c Hc Hp Hr|m h c Hc Hp Hr|m h c Hc]; intros h1 c1 H1 Hr1; cbn in *;
      harts_cases; cbn in *; try done; try (by apply (HI h1 c1)).
    + destruct (Z.eqb_spec old (expected c)) as [->|]; [|done]. specialize (HI _ _ Hc Hr1). by rewrite Hp in HI.
    + match goal with Hx : (unreserve <$> _) !! _ = Some _ |- _ => apply unreserved_lookup in Hx end. congruence.
  - destruct Hs as [m v]. intros h c Hc Hr. apply unreserved_lookup in Hc. congruence.
Qed.

Lemma cas_reachable m m' : cas_inv m -> rtc any_step m m' -> cas_inv m'.
Proof. intros HI. induction 1; [done|]. by apply IHrtc, (cas_step_inv x). Qed.

(** Harts that all try to replace 0 by something else. *)
Definition racing (m : cas_machine) : Prop :=
  forall h c, charts m !! h = Some c -> expected c = 0 /\ new_val c <> 0.
Definition winner (m : cas_machine) (h : nat) : Prop :=
  exists c, charts m !! h = Some c /\ cpc c = Done 1 /\ cword m = new_val c.

Record race_inv (m : cas_machine) : Prop := {
  rc_cas : cas_inv m;
  rc_racing : racing m;
  rc_won h c : charts m !! h = Some c -> cpc c = Done 1 -> winner m h;
  rc_one h1 h2 c1 c2 : charts m !! h1 = Some c1 -> charts m !! h2 = Some c2 ->
    cpc c1 = Done 1 -> cpc c2 = Done 1 -> h1 = h2
}.

Lemma race_step_inv m m' : race_inv m -> cstep m m' -> race_inv m'.
Proof.
  intros [HI HR HW H1] Hs. pose proof (cas_step_inv _ _ HI (or_introl Hs)) as HI'.
  assert (Hkeep : forall h c c', charts m !! h = Some c -> expected c' = expected c -> new_val c' = new_val c ->
            (cpc c' = Done 1 -> cpc c = Done 1) -> cas_inv (mkCasMachine (cword m) (<[h := c']> (charts m))) ->
            race_inv (mkCasMachine (cword m) (<[h := c']> (charts m)))).
  { intros h c c' Hc E1 E2 Ed HI2. split; [done|..]; unfold racing, winner; cbn.
    - intros h1 c1 Hc1. harts_cases; [rewrite E1, E2; by apply (HR _ _ Hc)|by apply (HR _ _ Hc1)].
    - intros h1 c1 Hc1 D1. destruct (decide (h = h1)) as [->|].
      + rewrite lookup_insert_eq in Hc1. injection Hc1 as <-. destruct (HW _ _ Hc (Ed D1)) as (c2 & Hc2 & _ & Ew).
        exists c'. rewrite lookup_insert_eq. split_and!; [done|done|congruence].
      + rewrite lookup_insert_ne in Hc1 by done. destruct (HW _ _ Hc1 D1) as (c2 & Hc2 & Hd2 & Ew).
        exists c2. by rewrite lookup_insert_ne.
    - intros h1 h2 c1 c2 Hc1 Hc2 D1 D2. harts_cases; try done; eauto. }
  destruct Hs as [m h c Hc Hp|m h c old Hc Hp|m h c Hc Hp Hr|m h c Hc Hp Hr|m h c Hc].
  - by eapply Hkeep.
  - eapply Hkeep; try done. cbn. by destruct (old =? expected c).
  - pose proof (HI _ _ Hc Hr) as E0. rewrite Hp in E0. destruct (HR _ _ Hc) as [Ee En].
    assert (Hnone : forall h1 c1, charts m !! h1 = Some c1 -> cpc c1 <> Done 1).
    { intros h1 c1 Hc1 D1. destruct (HW _ _ Hc1 D1) as (c2 & Hc2 & _ & Ew). destruct (HR _ _ Hc2). congruence. }
    assert (Hf : forall h1 c1, (unreserve <$> charts m) !! h1 = Some c1 -> exists c2, charts m !! h1 = Some c2 /\
              expected c1 = expected c2 /\ new_val c1 = new_val c2 /\ cpc c1 = cpc c2).
    { intros h1 c1 Hx. rewrite lookup_fmap in Hx. apply fmap_Some in Hx as (c2 & H2 & ->). by exists c2. }
    split; [done|..]; unfold racing, winner; cbn.
    + intros h1 c1 Hc1. harts_cases; [done|]. destruct (Hf _ _ Hc1) as (c2 & Hc2 & -> & -> & _). by apply (HR _ _ Hc2).
    + intros h1 c1 Hc1 D1. harts_cases; [eexists; rewrite lookup_insert_eq; done|].
      destruct (Hf _ _ Hc1) as (c2 & Hc2 & _ & _ & Ed). rewrite Ed in D1. by destruct (Hnone _ _ Hc2).
    + intros h1 h2 c1 c2 Hc1 Hc2 D1 D2. harts_cases; try done;
        match goal with Hx : (unreserve <$> charts m) !! _ = Some ?c1, Dx : cpc ?c1 = Done 1 |- _ =>
          destruct (Hf _ _ Hx) as (c3 & Hc3 & _ & _ & Ed); rewrite Ed in Dx; by destruct (Hnone _ _ Hc3) end.
  - by eapply Hkeep.
  - by eapply (Hkeep h c).
Qed.

(** Runs along a given schedule of harts. *)
Definition hart_step (h : nat) (m : machine) : option machine :=
  t ← harts m !! h; r ← thread_step t (lock_word m); Some (mkMachine (snd r) (<[h := fst r]> (harts m))).

Fixpoint run_harts (l : list nat) (m : machine) : option machine :=
  match l with [] => Some m | h :: l => m' ← hart_step h m; run_harts l m' end.

Lemma run_harts_rtc l m m' : run_harts l m = Some m' -> rtc mstep m m'.
Proof.
  revert m. induction l as [|h l IH]; intros m; cbn; [by intros [= <-]|].
  unfold hart_step. destruct (harts m !! h) as [t|] eqn:Ht; [|done]. cbn.
  destruct (thread_step t (lock_word m)) as [[t' l']|] eqn:Hs; [|done]. cbn. intros Hr.
  eapply rtc_l; [by econstructor|by apply IH].
Qed.

Definition cas_hart_step (h : nat) (m : cas_machine) : option cas_machine :=
  c ← charts m !! h;
  let set c w := mkCasMachine w (<[h := c]> (charts m)) in
  match cpc c with
  | AtLr => Some (set (mkCas (expected c) (new_val c) (AtBne (cword m)) true) (cword m))
  | AtBne old => Some (set (mkCas (expected c) (new_val c) (if old =? expected c then AtSc else Done 0) (reserved c)) (cword m))
  | AtSc =>
      if reserved c then
        Some (mkCasMachine (new_val c) (<[h := mkCas (expected c) (new_val c) (Done 1) false]> (unreserve <$> charts m)))
      else Some (set (mkCas (expected c) (new_val c) AtLr false) (cword m))
  | Done _ => None
  end.

Fixpoint run_cas (l : list nat) (m : cas_machine) : option cas_machine :=
  match l with [] => Some m | h :: l => m' ← cas_hart_step h m; run_cas l m' end.

Lemma run_cas_rtc l m m' : run_cas l m = Some m' -> rtc cstep m m'.
Proof.
  revert m. induction l as [|h l IH]; intros m; cbn; [by intros [= <-]|].
  unfold cas_hart_step. destruct (charts m !! h) as [c|] eqn:Hc; [|done]. cbn.
  destruct (cpc c) eqn:Hp; [..|destruct (reserved c) eqn:Hr|]; cbn; try done; intros Hx;
    (eapply rtc_l; [|by apply IH]); by econstructor.
Qed.

(** Two harts that take the lock, and one that takes it twice. *)
Definition ex_locks (p : list op) : machine :=
  mkMachine 0 {[ 0%nat := mkThread p Spin false; 1%nat := mkThread [Acq; Rel] Spin false ]}.
Definition ex_run (l : list nat) (m : machine) : machine := default m (run_harts l m).
Definition ex_cas : cas_machine :=
  mkCasMachine 0 {[ 0%nat := mkCas 0 5 AtLr false; 1%nat := mkCas 0 7 AtLr false ]}.
Definition ex_cas_run (l : list nat) (m : cas_machine) : cas_machine := default m (run_cas l m).

Lemma ex_locks_initial p : bracketed false p = true -> initial (ex_locks p).
Proof.
  intros Hp. split; [done|]. intros h t Ht. unfold ex_locks in Ht. cbn [harts] in Ht.
  apply lookup_insert_Some in Ht as [[_ <-]|[_ Ht]]; [done|]. apply lookup_singleton_Some in Ht as [_ <-]. done.
Qed.

Lemma ex_cas_starts : cas_initial ex_cas /\ racing ex_cas.
Proof.
  split; intros h c Hc; unfold ex_cas in Hc; cbn [charts] in Hc;
    apply lookup_insert_Some in Hc as [[_ <-]|[_ Hc]]; try done;
    apply lookup_singleton_Some in Hc as [_ <-]; done.
Qed.

(** ** Theorems *)

(** C35: mutual exclusion.  However the harts' loads and swaps are
    interleaved, two harts that have returned from [lock_acquire] without
    having released are the same hart. *)
Theorem lock_mutual_exclusion m m' h1 h2 t1 t2 :
  initial m -> rtc mstep m m' -> harts m' !! h1 = Some t1 -> harts m' !! h2 = Some t2 ->
  holds t1 = true -> holds t2 = true -> h1 = h2.
Proof. intros Hi Hr. apply (lk_one m'), (reachable_inv m m'); [by apply initial_inv|done]. Qed.

Lemma lock_mutual_exclusion_witness :
  let m' := ex_run [0; 1; 0; 1; 1]%nat (ex_locks [Acq; Rel]) in
  (holds <$> harts m' !! 0%nat) = Some true /\ 0%nat = 0%nat.
Proof.
  split; [reflexivity|].
  apply (lock_mutual_exclusion (ex_locks [Acq; Rel]) (ex_run [0; 1; 0; 1; 1]%nat (ex_locks [Acq; Rel])) 0 0
           (mkThread [Rel] Spin true) (mkThread [Rel] Spin true));
    [by apply ex_locks_initial|by apply (run_harts_rtc [0; 1; 0; 1; 1]%nat)|reflexivity..].
Defined.

(** No way back.  A hart that acquires a lock it holds never gets past
    that acquisition, and no release by anybody else frees the lock: whatever
    the harts do from there on, its program does not advance and the lock word
    stays 1. *)
Lemma lock_reacquire_never_returns m m1 m2 h t r :
  initial m -> rtc mstep m m1 -> harts m1 !! h = Some t -> holds t = true -> prog t = Acq :: r ->
  rtc mstep m1 m2 -> lock_word m2 = 1 /\ (prog <$> harts m2 !! h) = Some (Acq :: r).
Proof.
  intros Hi Hr Ht Hd Hp Hr2. assert (HI1 : lock_inv m1) by by eapply reachable_inv; [apply initial_inv|].
  assert (Hst : stuck h m1) by by exists t, r.
  assert (E0 : lock_word m1 = 1) by by apply (lk_held _ HI1 h t).
  assert (Ep : (prog <$> harts m1 !! h) = Some (Acq :: r)) by (rewrite Ht; cbn; by rewrite Hp).
  clear Hi Hr Ht Hd Hp. induction Hr2 as [|m1 m1' m2 Hs _ IH]; [done|].
  destruct (stuck_step h _ _ HI1 Hst Hs) as (Hst' & E1 & Ep'). apply IH; [by eapply step_inv|done|done|by rewrite Ep'].
Qed.

(** [atomic_cas_d] is atomic.  When its store-conditional succeeds, the
    word holds the expected value at that very step, whatever other harts and
    other stores did since the load. *)
Lemma cas_success_atomic m m' h c :
  cas_initial m -> rtc any_step m m' -> charts m' !! h = Some c -> cpc c = AtSc -> reserved c = true ->
  cword m' = expected c.
Proof.
  intros Hi Hr Hc Hp Hd. pose proof (cas_reachable _ _ (cas_initial_inv _ Hi) Hr h c Hc Hd) as HI.
  by rewrite Hp in HI.
Qed.

(** C36: of several harts that install a table in the same empty entry with
    [atomic_cas_d], at most one gets 1 back, and the entry then holds that
    hart's table. *)
Theorem cas_one_winner m m' h1 h2 c1 c2 :
  cas_initial m -> racing m -> rtc cstep m m' ->
  charts m' !! h1 = Some c1 -> charts m' !! h2 = Some c2 -> cpc c1 = Done 1 -> cpc c2 = Done 1 ->
  h1 = h2 /\ cword m' = new_val c1.
Proof.
  intros Hi HR Hr Hc1 Hc2 D1 D2.
  assert (HI : race_inv m').
  { assert (H0 : race_inv m).
    { split; [by apply cas_initial_inv|done|..]; intros; (destruct (Hi _ _ ltac:(eassumption)); congruence). }
    clear Hi HR Hc1 Hc2. induction Hr; [done|]. by apply IHHr, (race_step_inv x). }
  split; [by apply (rc_one _ HI h1 h2 c1 c2)|].
  destruct (rc_won _ HI _ _ Hc1 D1) as (c & Hc & _ & ->). congruence.
Qed.

Lemma cas_one_winner_witness :
  1%nat = 1%nat /\ cword (ex_cas_run [0; 1; 0; 1; 1; 0]%nat ex_cas) = 7.
Proof.
  apply (cas_one_winner ex_cas (ex_cas_run [0; 1; 0; 1; 1; 0]%nat ex_cas) 1 1 (mkCas 0 7 (Done 1) false) (mkCas 0 7 (Done 1) false));
    [exact (proj1 ex_cas_starts)|exact (proj2 ex_cas_starts)|by apply (run_cas_rtc [0; 1; 0; 1; 1; 0]%nat)|reflexivity..].
Defined.
