(* ===== verification/Typing.v ===== *)
(** * Well-typed runs: the judgement, and the operations on memory

    [types I X m R]: from a state with [I], [m] returns a value with [R] in a
    state with [I] again, or stops as [X] allows.  The rules follow the
    connectives of the monad, so the body of an operation is typed by its
    syntax; what a primitive yields is in the hint database [types]. *)
From stdpp Require Import base gmap list strings.
From Stdlib Require Import ZArith Lia.
From S2P Require Import Prelude Riscv Mem Str Snprintf Sync.

Definition types {S A} (I : S -> Prop) (X : stop -> S -> Prop) (m : M S A) (R : A -> Prop) : Prop :=
  forall s, I s -> wp m (fun a s' => I s' /\ R a) X s.

(** Stops of the kernel's own; [ToUser] is the one that is none. *)
Definition inside_kernel (h : stop) : Prop := match h with ToUser _ _ => False | _ => True end.
Definition plain {S} (I : S -> Prop) (h : stop) (s : S) : Prop := I s /\ inside_kernel h.
Definition any {A} (a : A) : Prop := True.

Section rules.
Context {S : Type} (I : S -> Prop) (X : stop -> S -> Prop).
Context (HX : forall h s, I s -> inside_kernel h -> X h s).

Lemma types_ret {A} (a : A) (R : A -> Prop) : R a -> types I X (ret a) R.
Proof. by intros HR s HI. Qed.
Lemma types_halt {A} h (R : A -> Prop) : inside_kernel h -> types I X (halt h) R.
Proof. intros Hh s HI. by apply HX. Qed.
Lemma types_panic {A} text (R : A -> Prop) : types I X (panic text) R.
Proof. by apply types_halt. Qed.
Lemma types_kassert b text : types I X (kassert b text) (fun _ => b = true).
Proof. destruct b; [by apply types_ret|by apply types_halt]. Qed.
Lemma types_kernel_assert b text : types I X (kernel_assert b text) (fun _ => b = true).
Proof. destruct b; [by apply types_ret|by apply types_halt]. Qed.
Lemma types_bind {A B} (m : M S A) (k : A -> M S B) (R1 : A -> Prop) (R : B -> Prop) :
  types I X m R1 -> (forall a, R1 a -> types I X (k a) R) -> types I X (bind m k) R.
Proof. intros Hm Hk s HI. apply wp_bind. eapply wp_mono; [by apply Hm| |done]. intros a s' [HI' Ha]. by apply Hk. Qed.
Lemma types_mono {A} (m : M S A) (R R' : A -> Prop) : types I X m R -> (forall a, R a -> R' a) -> types I X m R'.
Proof. intros Hm HR s HI. eapply wp_mono; [by apply Hm| |done]. intros a s' [HI' Ha]. split; [done|by apply HR]. Qed.
Lemma types_any {A} (m : M S A) (R : A -> Prop) : types I X m R -> types I X m any.
Proof. intros Hm. by eapply types_mono. Qed.
Lemma types_gets {A} (f : S -> A) (R : A -> Prop) : (forall s, I s -> R (f s)) -> types I X (gets f) R.
Proof. intros Hf s HI. split; [done|by apply Hf]. Qed.
Lemma types_gets_any {A} (f : S -> A) : types I X (gets f) any.
Proof. by apply types_gets. Qed.
Lemma types_modify (f : S -> S) : (forall s, I s -> I (f s)) -> types I X (modify f) any.
Proof. intros Hf s HI. split; [by apply Hf|done]. Qed.
Lemma types_read_opt {A} (f : S -> option A) (R : A -> Prop) : (forall s a, I s -> f s = Some a -> R a) -> types I X (read_opt f) R.
Proof. intros Hf s HI. unfold wp, read_opt. destruct (f s) eqn:E; [split; [done|by eapply Hf]|by apply HX]. Qed.
Lemma types_read_opt_any {A} (f : S -> option A) : types I X (read_opt f) any.
Proof. by apply types_read_opt. Qed.

(** An operation of a part. *)
Lemma types_zoom {T A} (get : S -> T) (put : T -> S -> S) (J : T -> Prop) (m : M T A) (R : A -> Prop) :
  (forall s, I s -> J (get s)) -> (forall s t, I s -> J t -> I (put t s)) -> types J (plain J) m R -> types I X (zoom get put m) R.
Proof.
  intros Hg Hp Hm s HI. apply wp_zoom. eapply wp_mono; [by apply Hm, Hg| |].
  - intros a t [Ht Ha]. split; [by apply Hp|done].
  - intros h t [Ht Hh]. apply HX; [by apply Hp|done].
Qed.
End rules.

Lemma types_exit {S A} (I : S -> Prop) (X : stop -> S -> Prop) h (R : A -> Prop) : (forall s, I s -> X h s) -> types I X (halt h) R.
Proof. intros Hh s HI. by apply Hh. Qed.

Lemma plain_ok {S} (I : S -> Prop) h s : I s -> inside_kernel h -> plain I h s.
Proof. done. Qed.

Create HintDb types discriminated.
#[export] Hint Constants Opaque : types.
#[export] Hint Resolve plain_ok types_kassert types_kernel_assert types_read_opt_any : types.
#[export] Hint Resolve types_gets_any | 5 : types.
#[export] Hint Extern 0 (inside_kernel _) => exact I : types.
#[export] Hint Extern 0 (any _) => exact I : types.

(** One rule for the syntax at hand; at a bind, what the first part yields is
    what a lemma of the database says, or nothing. *)
Ltac types_step :=
  lazymatch goal with
  | |- types _ _ (bind _ _) _ =>
      first [ eapply types_bind; [solve [eauto 3 with types]|intros ? ?]
            | apply (types_bind _ _ _ _ any); [first [eapply types_any; solve [eauto 3 with types]|idtac]|intros ? _] ]
  | |- types _ _ (ret _) _ => apply types_ret
  | |- types _ _ (panic _) _ => apply types_panic
  | |- types _ _ (halt _) _ => apply types_halt
  | |- types _ _ (if ?b then _ else _) _ => destruct b eqn:?
  | |- types _ _ (match ?x with _ => _ end) _ => destruct x eqn:?
  | |- types _ _ (let '(_, _) := ?x in _) _ => destruct x eqn:?
  end.
Ltac types_go := repeat first [ progress (cbv zeta) | types_step | solve [eauto 4 with types] | eapply types_any; solve [eauto 3 with types] ].

(** ** Memory: exactly the addresses [D] hold bytes *)
Section memory.
Context (D : Z -> Prop).
Implicit Types (m : mem).

Record mem_typed m : Prop := {
  mt_bytes : bytes_ok m;
  mt_dom a : is_Some (m !! a) <-> D a
}.
Abbreviation mtypes := (types mem_typed (plain mem_typed)).

Lemma types_load (n : nat) a : mtypes (load n a) (fun v => 0 <= v < 2 ^ (8 * Z.of_nat n)).
Proof. apply types_read_opt; [done|]. intros m v [Hb _] Hl. by eapply load_le_range. Qed.

Lemma types_load64 a : mtypes (load64 a) is_u64.
Proof. exact (types_load 8 a). Qed.

Lemma types_store (n : nat) a v : mtypes (store n a v) any.
Proof.
  intros m [Hb Hd]. unfold wp, store. destruct (store_le n a v m) as [m'|] eqn:E; [|by split].
  split; [|done]. split; [by apply (store_bytes_ok _ _ _ _ _ E)|]. intros x. by rewrite (store_dom _ _ _ _ _ _ E).
Qed.
#[local] Hint Resolve types_load types_store : types.

Lemma types_scan_fuel : mtypes scan_fuel any.
Proof. by apply types_gets. Qed.
#[local] Hint Resolve types_scan_fuel : types.

(** util/string.c *)
Lemma types_memcpy_words fuel : forall d s e, mtypes (memcpy_words fuel d s e) any.
Proof. induction fuel; intros d s e; cbn [memcpy_words]; types_go. Qed.
Lemma types_memcpy_bytes fuel : forall d s e, mtypes (memcpy_bytes fuel d s e) any.
Proof. induction fuel; intros d s e; cbn [memcpy_bytes]; types_go. Qed.
#[local] Hint Resolve types_memcpy_words types_memcpy_bytes : types.
Lemma types_memcpy d s n : mtypes (memcpy d s n) any.
Proof. unfold memcpy. types_go. Qed.

Lemma types_memset_words fuel : forall d e w, mtypes (memset_words fuel d e w) any.
Proof. induction fuel; intros d e w; cbn [memset_words]; types_go. Qed.
Lemma types_memset_bytes fuel : forall d e b, mtypes (memset_bytes fuel d e b) any.
Proof. induction fuel; intros d e b; cbn [memset_bytes]; types_go. Qed.
#[local] Hint Resolve types_memset_words types_memset_bytes : types.
Lemma types_memset d b n : mtypes (memset d b n) any.
Proof. unfold memset. types_go. Qed.

Lemma types_strlen s : mtypes (strlen s) any.
Proof.
  assert (Hl : forall f p, mtypes (strlen_loop f p) any) by (induction f; intros p; cbn [strlen_loop]; types_go).
  unfold strlen. types_go.
Qed.

(** util/snprintf.c *)
Lemma types_emit out n pos c : mtypes (emit out n pos c) any.
Proof. unfold emit. types_go. Qed.
Lemma types_va_arg vl : mtypes (va_arg vl) any.
Proof. unfold va_arg. types_go. Qed.
#[local] Hint Resolve types_emit types_va_arg : types.
Lemma types_hex_loop k out n : forall pos num, mtypes (hex_loop k out n pos num) any.
Proof. induction k; intros pos num; cbn [hex_loop]; types_go. Qed.
Lemma types_dec_loop k out n pos : forall num, mtypes (dec_loop k out n pos num) any.
Proof. induction k; intros num; cbn [dec_loop]; types_go. Qed.
Lemma types_str_loop f out n : forall pos s, mtypes (str_loop f out n pos s) any.
Proof. induction f; intros pos s; cbn [str_loop]; types_go. Qed.
#[local] Hint Resolve types_hex_loop types_dec_loop types_str_loop : types.
Lemma types_fmt_char out n c st : mtypes (fmt_char out n c st) any.
Proof. unfold fmt_char, conv_x, conv_d, conv_s, conv_c. types_go. Qed.
#[local] Hint Resolve types_fmt_char : types.
Lemma types_vsnprintf out n s vl : mtypes (vsnprintf out n s vl) any.
Proof.
  assert (Hl : forall f s st, mtypes (fmt_loop f out n s st) any) by (induction f; intros s' st; cbn [fmt_loop]; types_go).
  unfold vsnprintf. types_go.
Qed.

Lemma types_atomic_cas_d a e v : mtypes (atomic_cas_d a e v) any.
Proof. unfold atomic_cas_d. types_go. Qed.
End memory.
#[export] Hint Resolve types_load types_load64 types_store types_memcpy types_memset types_strlen types_vsnprintf types_atomic_cas_d : types.
