(* ===== verification/Vmm.v ===== *)
(** * Address spaces: kernel/vmm.c, operations

    Sv39 page tables in byte memory.  The page allocator is an interface
    ([Allocator]); kernel/pmm.c is its implementation ([pmm_allocator]). *)
From stdpp Require Import base gmap list strings.
From Stdlib Require Import ZArith Lia.
From S2P Require Import Prelude Riscv PmmState Pmm Mem Str Sync.

(** What vmm.c calls of pmm.c. *)
Class Allocator (S : Type) := {
  al_page : M S Z;
  al_free : Z -> M S unit
}.
#[export] Instance pmm_allocator : Allocator pmm_state := { al_page := alloc_page; al_free := pfree }.

(** The allocator's own state, the memory behind pointers, and the global
    [g_kernel_pagetable]. *)
Record kmem (S : Type) := mkKmem { heap : S; memory : mem; g_kernel_pagetable : Z }.
Arguments mkKmem {S} _ _ _.
Arguments heap {S} _.
Arguments memory {S} _.
Arguments g_kernel_pagetable {S} _.

Definition PROT_NONE : Z := 0.
Definition PROT_READ : Z := 1.
Definition PROT_WRITE : Z := 2.
Definition PROT_EXEC : Z := 4.

(** [prot & BIT] as a condition. *)
Definition bit_set (x b : Z) : bool := negb (Z.land x b =? 0).

Definition prot_to_type (prot user : Z) : Z :=
  let perm := 0 in
  let perm := if bit_set prot PROT_READ then Z.lor perm (Z.lor PTE_R PTE_A) else perm in
  let perm := if bit_set prot PROT_WRITE then Z.lor perm (Z.lor PTE_W PTE_D) else perm in
  let perm := if bit_set prot PROT_EXEC then Z.lor perm (Z.lor PTE_X PTE_A) else perm in
  let perm := if perm =? 0 then PTE_R else perm in
  if negb (user =? 0) then Z.lor perm PTE_U else perm.

Section vmm.
Context {S : Type} `{Allocator S}.

Definition on_heap {A} (m : M S A) : M (kmem S) A :=
  zoom heap (fun h s => mkKmem h (memory s) (g_kernel_pagetable s)) m.
Definition on_mem {A} (m : M mem A) : M (kmem S) A :=
  zoom memory (fun m s => mkKmem (heap s) m (g_kernel_pagetable s)) m.

(** One level of the walk: the next table, or [None] for NULL. *)
Definition walk_level (pt va level : Z) (alloc : bool) : M (kmem S) (option Z) :=
  let pte := u64 (pt + 8 * PX level va) in
  let* v := on_mem (load64 pte) in
  if bit_set v PTE_V then ret (Some (PTE2PA v))
  else if alloc then
    let* p := on_heap al_page in
    if p =? 0 then ret None
    else
      let* ok := on_mem (atomic_cas_d pte 0 (Z.lor (PA2PTE p) PTE_V)) in
      if ok =? 0 then
        on_heap (al_free p) ;;;
        let* v := on_mem (load64 pte) in ret (Some (PTE2PA v))
      else on_mem (memset p 0 PGSIZE) ;;; ret (Some p)
  else ret None.

(** [for (int level = 2; level > target_level; level--)]: [n] levels left. *)
Fixpoint walk_loop (n : nat) (pt va level : Z) (alloc : bool) : M (kmem S) (option Z) :=
  match n with
  | O => ret (Some pt)
  | Datatypes.S n =>
      let* r := walk_level pt va level alloc in
      match r with
      | None => ret None
      | Some pt => walk_loop n pt va (level - 1) alloc
      end
  end.

Definition page_walk (page_dir va target_level : Z) (alloc : bool) : M (kmem S) (option Z) :=
  kassert ((0 <? va) && (va <? MAXVA)) "va > 0 && va < MAXVA" ;;;
  let* r := walk_loop (Z.to_nat (2 - target_level)) page_dir va 2 alloc in
  match r with
  | None => ret None
  | Some pt => ret (Some (u64 (pt + 8 * PX 0 va)))
  end.

Fixpoint map_loop (fuel : nat) (page_dir first last pa perm : Z) : M (kmem S) Z :=
  if first <=? last then
    match fuel with
    | O => halt OutOfFuel
    | Datatypes.S fuel =>
        let* r := page_walk page_dir first 0 true in
        match r with
        | None => ret (-1)
        | Some pte =>
            let* v := on_mem (load64 pte) in
            if bit_set v PTE_V then panic "map_pages fails on mapping va (0x%lx) to pa (0x%lx)"
            else
              on_mem (store64 pte (Z.lor (Z.lor (PA2PTE pa) (u64 perm)) PTE_V)) ;;;
              map_loop fuel page_dir (u64 (first + PGSIZE)) last (u64 (pa + PGSIZE)) perm
        end
    end
  else ret 0.

Definition map_pages (page_dir va size pa perm : Z) : M (kmem S) Z :=
  let first := ROUNDDOWN va PGSIZE in
  let last := ROUNDDOWN (u64 (va + size - 1)) PGSIZE in
  map_loop (Z.to_nat ((last - first) / PGSIZE + 1)) page_dir first last pa perm.

Definition lookup_pa (pagetable va : Z) : M (kmem S) Z :=
  if MAXVA <=? va then ret 0
  else
    let* r := page_walk pagetable va 0 false in
    match r with
    | None => ret 0
    | Some pte =>
        let* v := on_mem (load64 pte) in
        if negb (bit_set v PTE_V) || (negb (bit_set v PTE_R) && negb (bit_set v PTE_W)) then ret 0
        else ret (PTE2PA v)
    end.

Definition kern_vm_map (page_dir va pa sz perm : Z) : M (kmem S) unit :=
  let* r := map_pages page_dir va sz pa perm in
  if negb (r =? 0) then panic "kern_vm_map" else ret tt.

Definition set_kernel_pagetable (v : Z) : M (kmem S) unit :=
  modify (fun s => mkKmem (heap s) (memory s) v).

Definition kern_vm_init (_etext : Z) : M (kmem S) unit :=
  let* t_page_dir := on_heap al_page in
  if t_page_dir =? 0 then panic "kern_vm_init: out of memory for kernel page directory!"
  else
    on_mem (memset t_page_dir 0 PGSIZE) ;;;
    kern_vm_map t_page_dir KERN_BASE DRAM_BASE (u64 (_etext - KERN_BASE))
      (prot_to_type (Z.lor PROT_READ PROT_EXEC) 0) ;;;
    let* _ := lookup_pa t_page_dir KERN_BASE in
    kern_vm_map t_page_dir _etext _etext (u64 (PHYS_TOP - _etext))
      (prot_to_type (Z.lor PROT_READ PROT_WRITE) 0) ;;;
    let* _ := lookup_pa t_page_dir _etext in
    set_kernel_pagetable t_page_dir.

(** NULL is [None]. *)
Definition user_va_to_pa (page_dir va : Z) : M (kmem S) (option Z) :=
  let* r := page_walk page_dir va 0 false in
  match r with
  | None => ret None
  | Some pte =>
      let* v := on_mem (load64 pte) in
      if negb (bit_set v PTE_V) then ret None
      else ret (Some (Z.lor (PTE2PA v) (Z.land va (PGSIZE - 1))))
  end.

Definition user_vm_map (page_dir va size pa perm : Z) : M (kmem S) unit :=
  let* r := map_pages page_dir va size pa perm in
  if negb (r =? 0) then panic "fail to user_vm_map ." else ret tt.

Fixpoint unmap_loop (fuel : nat) (page_dir first_va stop : Z) (free : bool) : M (kmem S) unit :=
  if first_va <? stop then
    match fuel with
    | O => halt OutOfFuel
    | Datatypes.S fuel =>
        let* r := page_walk page_dir first_va 0 false in
        match r with
        | None => ret tt
        | Some pte =>
            let* v := on_mem (load64 pte) in
            if bit_set v PTE_V then
              (if free then on_heap (al_free (PTE2PA v)) else ret tt) ;;;
              on_mem (store64 pte 0)
            else ret tt
        end ;;;
        unmap_loop fuel page_dir (u64 (first_va + PGSIZE)) stop free
    end
  else ret tt.

Definition user_vm_unmap (page_dir va size : Z) (free : bool) : M (kmem S) unit :=
  unmap_loop (Z.to_nat (size / PGSIZE + 2)) page_dir (ROUNDDOWN va PGSIZE) (u64 (va + size)) free.
End vmm.
