(* ===== verification/VmmProofs.v ===== *)
(** * Page tables: representation, walks and maps

    A page table is a tree of pages: [T] gives the page of each table by the
    indices that lead to it ([] for the directory, [i2], [i2; i1]).  The
    allocator is used through its contract [AllocatorSpec] only. *)
From stdpp Require Import base gmap list strings.
From Stdlib Require Import ZArith Lia.
From S2P Require Import Prelude Riscv PmmState Pmm Mem Str Sync Vmm.

(** ** The contract of the allocator

    [al_inv n U s]: [n] more pages can be had, and no page of [U] will be
    given out.  Pages lie in [lo, hi).  Without pages left the call ends in
    [al_stop]. *)
Class AllocatorSpec (S : Type) `{Allocator S} (lo hi : Z) := {
  al_inv : nat -> gset Z -> S -> Prop;
  al_stop : stop;
  al_arena n U s : al_inv n U s -> 0 < lo /\ hi <= 2 ^ 56;
  al_page_ok n U s : al_inv (Datatypes.S n) U s ->
    wp al_page (fun a s' => a ∉ U /\ a mod PGSIZE = 0 /\ lo <= a /\ a + PGSIZE <= hi /\
                            al_inv n (U ∪ {[a]}) s') no_stop s;
  al_page_empty U s : al_inv 0 U s -> wp al_page (fun _ _ => False) (fun h _ => h = al_stop) s
}.

(** ** Entries *)
Lemma bit_set_entry pa fl b :
  0 <= pa < 2 ^ 62 -> 0 <= fl < 1024 -> 0 <= b < 1024 ->
  bit_set (Z.lor (PA2PTE pa) fl) b = bit_set fl b.
Proof. intros. unfold bit_set. by rewrite land_build. Qed.

Definition entry (p : Z) : Z := Z.lor (PA2PTE p) PTE_V.

Lemma entry_valid p : 0 <= p < 2 ^ 62 -> bit_set (entry p) PTE_V = true.
Proof. intros. unfold entry, PTE_V. by rewrite bit_set_entry by lia. Qed.

Lemma entry_page p : 0 <= p < 2 ^ 62 -> p mod PGSIZE = 0 -> PTE2PA (entry p) = p.
Proof. intros. unfold entry, PTE_V, PGSIZE in *. apply PTE2PA_build; (done || lia). Qed.

Lemma entry_range p : 0 <= p < 2 ^ 56 -> 0 <= entry p < 2 ^ 64.
Proof. intros. unfold entry, PTE_V. rewrite pte_build by lia. zlia. Qed.

(** ** The tree *)
Abbreviation ptable := (gmap (list Z) Z).
Definition page_ok (p : Z) : Prop := p mod PGSIZE = 0 /\ 0 < p /\ p + PGSIZE <= 2 ^ 56.

Record ptree (T : ptable) (root : Z) (m : mem) : Prop := {
  pt_root : T !! [] = Some root;
  pt_len π p : T !! π = Some p -> (length π <= 2)%nat;
  pt_prefix π i q : T !! (π ++ [i]) = Some q -> is_Some (T !! π);
  pt_inj π1 π2 p : T !! π1 = Some p -> T !! π2 = Some p -> π1 = π2;
  pt_page π p : T !! π = Some p -> page_ok p;
  pt_has π p : T !! π = Some p -> has m p PGSIZE;
  pt_bytes : bytes_ok m;
  pt_entry π p i : T !! π = Some p -> (length π < 2)%nat -> 0 <= i < 512 ->
    load_le 8 (p + 8 * i) m = Some (match T !! (π ++ [i]) with Some q => entry q | None => 0 end)
}.

(** The leaf entry of [va]; where the tree has no leaf table it counts as 0. *)
Definition pte_at (T : ptable) (m : mem) (va : Z) : option Z :=
  match T !! [PX 2 va; PX 1 va] with
  | Some q => load_le 8 (q + 8 * PX 0 va) m
  | None => Some 0
  end.

Lemma pages_apart p q : page_ok p -> page_ok q -> p <> q -> p + PGSIZE <= q \/ q + PGSIZE <= p.
Proof. unfold page_ok, PGSIZE. intros (?&_) (?&_) ?. zlia. Qed.

Section tree.
Context {S : Type} `{Allocator S} (lo hi : Z) `{!AllocatorSpec S lo hi} (root : Z).
Implicit Types (T : ptable) (s : kmem S) (m : mem) (U : gset Z) (n : nat).

Record vinv n U T s : Prop := {
  vi_al : al_inv n U (heap s);
  vi_tree : ptree T root (memory s);
  vi_arena : has (memory s) lo (hi - lo);
  vi_own π p : T !! π = Some p -> p ∈ U
}.

(** A page of the arena that was not in use. *)
Definition new_page U (p : Z) : Prop := p ∉ U /\ lo <= p /\ p + PGSIZE <= hi.

(** Growing the tree by fresh, empty tables. *)
Record grow n U T s n' U' T' s' : Prop := {
  gr_inv : vinv n' U' T' s';
  gr_sub : T ⊆ T';
  gr_own : U ⊆ U';
  gr_count : (size T' + n' = size T + n)%nat;
  gr_view va : pte_at T' (memory s') va = pte_at T (memory s) va;
  gr_frame x : (forall π p, T' !! π = Some p -> ~ (p <= x < p + PGSIZE)) ->
    memory s' !! x = memory s !! x;
  gr_dir : g_kernel_pagetable s' = g_kernel_pagetable s;
  gr_fresh π p : T' !! π = Some p -> T !! π = Some p \/ new_page U p
}.

Lemma grow_refl n U T s : vinv n U T s -> grow n U T s n U T s.
Proof. split; try done. by left. Qed.

(** New tables are new pages. *)
Lemma fresh_trans U1 U2 T1 T2 T3 : U1 ⊆ U2 ->
  (forall π p, T2 !! π = Some p -> T1 !! π = Some p \/ new_page U1 p) ->
  (forall π p, T3 !! π = Some p -> T2 !! π = Some p \/ new_page U2 p) ->
  forall π p, T3 !! π = Some p -> T1 !! π = Some p \/ new_page U1 p.
Proof. intros HU H12 H23 π p Hp. destruct (H23 π p Hp) as [H2|(Hn & Hr)]; [by apply H12|]. right. split; [by intros Hin%HU|done]. Qed.

Lemma grow_trans n1 U1 T1 s1 n2 U2 T2 s2 n3 U3 T3 s3 :
  grow n1 U1 T1 s1 n2 U2 T2 s2 -> grow n2 U2 T2 s2 n3 U3 T3 s3 -> grow n1 U1 T1 s1 n3 U3 T3 s3.
Proof.
  intros [A1 A2 A3 A4 A5 A6 A7 A8] [B1 B2 B3 B4 B5 B6 B7 B8]. split; try done.
  - by etrans.
  - by etrans.
  - lia.
  - intros va. by rewrite B5, A5.
  - intros x Hx. rewrite B6 by done. apply A6. intros π p Hp. apply (Hx π).
    by eapply lookup_weaken.
  - by rewrite B7.
  - by eapply fresh_trans.
Qed.

(** *** Memory under the tree *)
Lemma slot_inside T m π p i : ptree T root m -> T !! π = Some p -> 0 <= i < 512 ->
  p <= p + 8 * i /\ p + 8 * i + 8 <= p + PGSIZE /\ u64 (p + 8 * i) = p + 8 * i.
Proof.
  intros HT Hp Hi. destruct (pt_page _ _ _ HT _ _ Hp) as (_ & ? & ?).
  unfold PGSIZE in *. split_and!; [lia|lia|]. apply u64_id. unfold is_u64. lia.
Qed.

Lemma slots_apart T m π1 π2 p1 p2 i j :
  ptree T root m -> T !! π1 = Some p1 -> T !! π2 = Some p2 -> 0 <= i < 512 -> 0 <= j < 512 ->
  (π1, i) <> (π2, j) -> p1 + 8 * i + 8 <= p2 + 8 * j \/ p2 + 8 * j + 8 <= p1 + 8 * i.
Proof.
  intros HT H1 H2 Hi Hj Hne. destruct (decide (π1 = π2)) as [->|Hp].
  - rewrite H1 in H2. injection H2 as ->. assert (i <> j) by congruence. lia.
  - destruct (pages_apart p1 p2) as [?|?]; [by eapply pt_page|by eapply pt_page| | |].
    + intros ->. by pose proof (pt_inj _ _ _ HT _ _ _ H1 H2).
    + unfold PGSIZE in *. lia.
    + unfold PGSIZE in *. lia.
Qed.

Lemma load_zeros m a : (forall x, a <= x < a + 8 -> m !! x = Some 0) -> load_le 8 a m = Some 0.
Proof.
  intros Hz. change (Some 0) with (Some (0 mod 2 ^ (8 * Z.of_nat 8))). apply load_le_bytes.
  intros x Hx. rewrite Hz by lia. unfold byte_of. by rewrite Z.div_0_l by (apply Z.pow_nonzero; lia).
Qed.

Lemma PX_index l va : 0 <= l -> 0 <= PX l va < 512.
Proof. apply PX_range. Qed.
(** *** Linking a fresh table *)
Section link.
Context T m m1 m2 π pt i a
  (HT : ptree T root m) (Hpt : T !! π = Some pt) (Hlen : (length π < 2)%nat) (Hi : 0 <= i < 512)
  (Hnone : T !! (π ++ [i]) = None) (Ha : page_ok a) (Hfresh : forall π' p, T !! π' = Some p -> p <> a)
  (Hha : has m a PGSIZE) (Hst : store_le 8 (pt + 8 * i) (entry a) m = Some m1)
  (Hfill : filled m1 m2 a PGSIZE 0).

Let T' := <[π ++ [i] := a]> T.

(** Where the new memory agrees with the old one. *)
Lemma link_same x : ~ (a <= x < a + PGSIZE) -> ~ (pt + 8 * i <= x < pt + 8 * i + 8) -> m2 !! x = m !! x.
Proof.
  intros H1 H2. rewrite Hfill. destruct (inside_spec a PGSIZE x); [lia|].
  rewrite (store_le_lookup _ _ _ _ _ _ Hst). by rewrite decide_False by lia.
Qed.

Lemma link_load p x : page_ok p -> p <> a -> p <= x -> x + 8 <= p + PGSIZE ->
  x + 8 <= pt + 8 * i \/ pt + 8 * i + 8 <= x -> load_le 8 x m2 = load_le 8 x m.
Proof.
  intros Hp Hne H1 H2 H3. apply load_le_ext. intros y Hy. change (Z.of_nat 8) with 8 in Hy.
  destruct (pages_apart p a Hp Ha Hne); apply link_same; lia.
Qed.

Lemma link_zero x : a <= x -> x + 8 <= a + PGSIZE -> load_le 8 x m2 = Some 0.
Proof.
  intros H1 H2. apply load_zeros. intros y Hy. rewrite Hfill.
  by destruct (inside_spec a PGSIZE y); [|lia].
Qed.

Lemma link_slot : load_le 8 (pt + 8 * i) m2 = Some (entry a).
Proof.
  destruct (slot_inside T m π pt i HT Hpt Hi) as (S1 & S2 & _).
  assert (E : load_le 8 (pt + 8 * i) m2 = load_le 8 (pt + 8 * i) m1).
  { apply load_le_ext. intros y Hy. change (Z.of_nat 8) with 8 in Hy. rewrite Hfill.
    destruct (pages_apart pt a) as [?|?]; [by eapply pt_page|done|by eapply Hfresh| |];
      (destruct (inside_spec a PGSIZE y); [lia|done]). }
  rewrite E, (load_store_same _ _ _ _ _ Hst). f_equal. apply Z.mod_small.
  change (8 * Z.of_nat 8) with 64. apply entry_range. destruct Ha as (_ & ? & ?). unfold PGSIZE in *. lia.
Qed.

Lemma link_has b k : has m b k -> has m2 b k.
Proof.
  intros Hb x Hx. rewrite Hfill. destruct (inside_spec a PGSIZE x); [by eexists|].
  rewrite (store_le_lookup _ _ _ _ _ _ Hst). case_decide; [by eexists|by apply Hb].
Qed.

Lemma link_tree : ptree T' root m2.
Proof.
  assert (Hlk : forall π' p, T' !! π' = Some p -> (π' = π ++ [i] /\ p = a) \/ (π' <> π ++ [i] /\ T !! π' = Some p)).
  { intros π' p. unfold T'. destruct (decide (π' = π ++ [i])) as [->|Hne].
    - rewrite lookup_insert_eq. intros [= <-]. by left.
    - rewrite lookup_insert_ne by done. intros. by right. }
  assert (Hold : forall π' p, T !! π' = Some p -> T' !! π' = Some p).
  { intros π' p Hp. unfold T'. rewrite lookup_insert_ne; [done|]. intros <-. by rewrite Hnone in Hp. }
  split.
  - apply Hold, HT.
  - intros π' p [[-> ->]|[_ Hp]]%Hlk; [rewrite length_app; cbn; lia|by apply (pt_len _ _ _ HT _ _ Hp)].
  - intros π' j q [[E ->]|[_ Hq]]%Hlk.
    + apply app_inj_tail in E as [-> ->]. exists pt. by apply Hold.
    + destruct (pt_prefix _ _ _ HT _ _ _ Hq) as [p Hp]. exists p. by apply Hold.
  - intros π1 π2 p [[-> ->]|[_ H1]]%Hlk [[-> E]|[_ H2]]%Hlk; try done.
    + by apply Hfresh in H2.
    + subst p. by apply Hfresh in H1.
    + by eapply (pt_inj _ _ _ HT).
  - intros π' p [[-> ->]|[_ Hp]]%Hlk; [done|by eapply (pt_page _ _ _ HT)].
  - intros π' p [[-> ->]|[_ Hp]]%Hlk; apply link_has; [done|by eapply (pt_has _ _ _ HT)].
  - intros x b. rewrite Hfill. destruct (inside_spec a PGSIZE x); [intros [= <-]; done|].
    by apply (store_bytes_ok _ _ _ _ _ Hst), HT.
  - intros π' p j Hp' Hl Hj. destruct (Hlk _ _ Hp') as [[-> ->]|[Hne Hp]].
    + assert (Hn : T' !! ((π ++ [i]) ++ [j]) = None).
      { unfold T'. rewrite lookup_insert_ne.
        - destruct (T !! ((π ++ [i]) ++ [j])) eqn:E; [|done].
          apply (pt_prefix _ _ _ HT) in E as [? E]. by rewrite Hnone in E.
        - intros E%(f_equal length). rewrite !length_app in E. cbn in E. lia. }
      rewrite Hn. apply link_zero; unfold PGSIZE; lia.
    + destruct (decide ((π', j) = (π, i))) as [[= -> ->]|Hd].
      * rewrite Hpt in Hp. injection Hp as <-. unfold T'. rewrite lookup_insert_eq. apply link_slot.
      * unfold T'. rewrite lookup_insert_ne.
        2: { intros E. apply app_inj_tail in E as [-> ->]. done. }
        rewrite <- (pt_entry _ _ _ HT π' p j) by done.
        destruct (slot_inside T m π' p j HT Hp Hj) as (S1 & S2 & _).
        apply (link_load p); [by eapply pt_page|by eapply Hfresh|done|done|].
        by apply (slots_apart T m π' π p pt).
Qed.

Lemma link_view va : pte_at T' m2 va = pte_at T m va.
Proof.
  pose proof (PX_index 0 va ltac:(lia)) as H0. unfold pte_at, T'.
  destruct (decide ([PX 2 va; PX 1 va] = π ++ [i])) as [E|Hne].
  - rewrite E, lookup_insert_eq, Hnone. apply link_zero; unfold PGSIZE; lia.
  - rewrite lookup_insert_ne by done. destruct (T !! [PX 2 va; PX 1 va]) as [q|] eqn:Hq; [|done].
    destruct (slot_inside T m _ q (PX 0 va) HT Hq H0) as (S1 & S2 & _).
    apply (link_load q); [by eapply pt_page|by eapply Hfresh|done|done|].
    apply (slots_apart T m [PX 2 va; PX 1 va] π q pt); try done.
    intros [= <- _]. cbn in Hlen. lia.
Qed.

Lemma link_frame x : (forall π' p, T' !! π' = Some p -> ~ (p <= x < p + PGSIZE)) -> m2 !! x = m !! x.
Proof.
  intros Hx. destruct (slot_inside T m π pt i HT Hpt Hi) as (S1 & S2 & _).
  apply link_same.
  - apply (Hx (π ++ [i])). unfold T'. apply lookup_insert_eq.
  - intros Hin. apply (Hx π pt); [|lia]. unfold T'. rewrite lookup_insert_ne; [done|].
    intros E%(f_equal length). rewrite length_app in E. cbn in E. lia.
Qed.
End link.
(** *** One level *)
Lemma wp_on_mem {A} (f : M mem A) s (Q : A -> kmem S -> Prop) E :
  wp f (fun a m => Q a (mkKmem (heap s) m (g_kernel_pagetable s)))
       (fun h m => E h (mkKmem (heap s) m (g_kernel_pagetable s))) (memory s) -> wp (on_mem f) Q E s.
Proof. intros Hf. unfold on_mem. apply wp_zoom. exact Hf. Qed.

Lemma wp_on_heap {A} (f : M S A) s (Q : A -> kmem S -> Prop) E :
  wp f (fun a h => Q a (mkKmem h (memory s) (g_kernel_pagetable s)))
       (fun st h => E st (mkKmem h (memory s) (g_kernel_pagetable s))) (heap s) -> wp (on_heap f) Q E s.
Proof. intros Hf. unfold on_heap. apply wp_zoom. exact Hf. Qed.

Lemma kmem_eta s : mkKmem (heap s) (memory s) (g_kernel_pagetable s) = s.
Proof. by destruct s. Qed.

Lemma wp_load_km s n a v (Q : Z -> kmem S -> Prop) E :
  load_le n a (memory s) = Some v -> Q v s -> wp (on_mem (load n a)) Q E s.
Proof.
  intros Hv HQ. apply wp_on_mem. eapply wp_load; [exact Hv|]. by rewrite kmem_eta.
Qed.

(** A level whose entry is present, or that may not allocate. *)
Lemma wp_walk_level_found T s π pt va l alloc q (Q : option Z -> kmem S -> Prop) E :
  ptree T root (memory s) -> T !! π = Some pt -> (length π < 2)%nat -> 0 <= l ->
  T !! (π ++ [PX l va]) = Some q -> Q (Some q) s -> wp (walk_level pt va l alloc) Q E s.
Proof.
  intros HT Hpt Hlen Hl Hq HQ. pose proof (PX_index l va Hl) as Hi.
  destruct (slot_inside T _ π pt _ HT Hpt Hi) as (_ & _ & Eu). unfold walk_level. rewrite Eu.
  pose proof (pt_entry _ _ _ HT π pt _ Hpt Hlen Hi) as Hv. rewrite Hq in Hv.
  destruct (pt_page _ _ _ HT _ _ Hq) as (Hal & H0 & Htop). unfold PGSIZE in *.
  apply wp_bind. eapply wp_load_km; [exact Hv|]. rewrite entry_valid by lia. apply wp_ret.
  rewrite entry_page by (done || lia). done.
Qed.

Lemma wp_walk_level_absent T s π pt va l (Q : option Z -> kmem S -> Prop) E :
  ptree T root (memory s) -> T !! π = Some pt -> (length π < 2)%nat -> 0 <= l ->
  T !! (π ++ [PX l va]) = None -> Q None s -> wp (walk_level pt va l false) Q E s.
Proof.
  intros HT Hpt Hlen Hl Hq HQ. pose proof (PX_index l va Hl) as Hi.
  destruct (slot_inside T _ π pt _ HT Hpt Hi) as (_ & _ & Eu). unfold walk_level. rewrite Eu.
  pose proof (pt_entry _ _ _ HT π pt _ Hpt Hlen Hi) as Hv. rewrite Hq in Hv.
  apply wp_bind. eapply wp_load_km; [exact Hv|]. apply wp_ret, HQ.
Qed.

Lemma wp_walk_level_fresh n U T s π pt va l :
  vinv (Datatypes.S n) U T s -> T !! π = Some pt -> (length π < 2)%nat -> 0 <= l ->
  T !! (π ++ [PX l va]) = None ->
  wp (walk_level pt va l true)
     (fun r s' => exists q, r = Some q /\
        grow (Datatypes.S n) U T s n (U ∪ {[q]}) (<[π ++ [PX l va] := q]> T) s') no_stop s.
Proof.
  intros HV Hpt Hlen Hl Hnone. pose proof (PX_index l va Hl) as Hi. pose proof (vi_tree _ _ _ _ HV) as HT.
  destruct (slot_inside T _ π pt _ HT Hpt Hi) as (S1 & S2 & Eu). unfold walk_level. rewrite Eu.
  pose proof (pt_entry _ _ _ HT π pt _ Hpt Hlen Hi) as Hv. rewrite Hnone in Hv.
  destruct (al_arena _ _ _ (vi_al _ _ _ _ HV)) as [Hlo Hhi].
  apply wp_bind. eapply wp_load_km; [exact Hv|]. change (bit_set 0 PTE_V) with false. cbv iota.
  apply wp_bind, wp_on_heap. eapply wp_mono; [apply al_page_ok, HV| |done].
  intros a h (Ha & Hal & Hla & Hha & Hin). cbv beta.
  assert (Hok : page_ok a) by (unfold page_ok; lia).
  rewrite (proj2 (Z.eqb_neq _ _)) by lia.
  assert (Hfresh : forall π' p, T !! π' = Some p -> p <> a).
  { intros π' p Hp ->. by apply (vi_own _ _ _ _ HV) in Hp. }
  assert (Hhas : has (memory s) a PGSIZE) by (eapply has_sub; [apply HV|lia|lia]).
  apply wp_bind, wp_on_mem. cbn [memory heap g_kernel_pagetable]. unfold atomic_cas_d. apply wp_bind.
  eapply wp_load; [exact Hv|]. rewrite Z.eqb_refl. apply wp_bind, wp_store.
  { intros x Hx. apply (pt_has _ _ _ HT _ _ Hpt). change (Z.of_nat 8) with 8 in Hx. lia. }
  intros m1 Hst Hu. apply wp_ret. change (1 =? 0) with false. cbv iota.
  apply wp_bind, wp_on_mem. cbn [memory heap g_kernel_pagetable].
  unfold page_ok, PGSIZE in Hok. apply wp_memset; [done| |lia|unfold PGSIZE; lia|].
  { eapply upd_has; [exact Hu|exact Hhas]. }
  intros m2 Hfill. apply wp_ret. exists a. split; [done|].
  assert (HT' : ptree (<[π ++ [PX l va]:=a]> T) root m2).
  { by apply (link_tree T (memory s) m1 m2 π pt (PX l va) a). }
  split; cbn [memory heap g_kernel_pagetable].
  - split; cbn [memory heap]; [done|done| |].
    + eapply link_has; [exact Hst|exact Hfill|apply HV].
    + intros π' p. destruct (decide (π' = π ++ [PX l va])) as [->|].
      * rewrite lookup_insert_eq. intros [= <-]. set_solver.
      * rewrite lookup_insert_ne by done. intros Hp%(vi_own _ _ _ _ HV). set_solver.
  - by apply insert_subseteq.
  - set_solver.
  - rewrite map_size_insert_None by done. lia.
  - intros va'. by apply (link_view T (memory s) m1 m2 π pt (PX l va) a).
  - by apply (link_frame T (memory s) m1 m2 π pt (PX l va) a).
  - done.
  - intros π' p. destruct (decide (π' = π ++ [PX l va])) as [->|].
    + rewrite lookup_insert_eq. intros [= <-]. right. by split.
    + rewrite lookup_insert_ne by done. by left.
Qed.

Lemma wp_walk_level_exhausted U T s π pt va l :
  vinv 0 U T s -> T !! π = Some pt -> (length π < 2)%nat -> 0 <= l -> T !! (π ++ [PX l va]) = None ->
  wp (walk_level pt va l true) (fun _ _ => False) (fun h _ => h = al_stop) s.
Proof.
  intros HV Hpt Hlen Hl Hnone. pose proof (PX_index l va Hl) as Hi. pose proof (vi_tree _ _ _ _ HV) as HT.
  destruct (slot_inside T _ π pt _ HT Hpt Hi) as (_ & _ & Eu). unfold walk_level. rewrite Eu.
  pose proof (pt_entry _ _ _ HT π pt _ Hpt Hlen Hi) as Hv. rewrite Hnone in Hv.
  apply wp_bind. eapply wp_load_km; [exact Hv|]. change (bit_set 0 PTE_V) with false. cbv iota.
  apply wp_bind, wp_on_heap. eapply wp_mono; [apply (al_page_empty U), HV|done|done].
Qed.

(** The tables of the tree, and those a walk to [va] goes through. *)
Definition tables T : gset (list Z) := dom T.
Definition tables_of (va : Z) : gset (list Z) := {[ [PX 2 va] ]} ∪ {[ [PX 2 va; PX 1 va] ]}.

Lemma size_tables T : size (tables T) = size T.
Proof. apply size_dom. Qed.

(** With [n] pages left, not enough for the tables of [X] that are missing. *)
Definition short n T (X : gset (list Z)) : Prop := (size T + n < size (tables T ∪ X))%nat.

Lemma short_mono n T X Y : short n T X -> X ⊆ Y -> short n T Y.
Proof.
  unfold short. intros Hs HX. assert (Hle : tables T ∪ X ⊆ tables T ∪ Y) by set_solver.
  apply subseteq_size in Hle. lia.
Qed.

Lemma short_later n U T s n' U' T' s' X Y :
  grow n U T s n' U' T' s' -> tables T' = tables T ∪ X -> short n' T' Y -> short n T (X ∪ Y).
Proof.
  intros G HX. unfold short. rewrite HX, <- (gr_count _ _ _ _ _ _ _ _ G).
  by replace (tables T ∪ X ∪ Y) with (tables T ∪ (X ∪ Y)) by set_solver.
Qed.

Lemma wp_walk_level n U T s π pt va l :
  vinv n U T s -> T !! π = Some pt -> (length π < 2)%nat -> 0 <= l ->
  wp (walk_level pt va l true)
     (fun r s' => exists q n' U' T', r = Some q /\ T' !! (π ++ [PX l va]) = Some q /\
        tables T' = tables T ∪ {[π ++ [PX l va]]} /\ grow n U T s n' U' T' s')
     (fun h _ => h = al_stop /\ short n T {[π ++ [PX l va]]}) s.
Proof.
  intros HV Hpt Hlen Hl. unfold tables. destruct (T !! (π ++ [PX l va])) as [q|] eqn:Hq.
  - eapply (wp_walk_level_found T); [apply HV|done..|]. exists q, n, U, T.
    split_and!; [done|done| |by apply grow_refl].
    apply elem_of_dom_2 in Hq. set_solver.
  - destruct n as [|n].
    + eapply wp_mono; [by eapply wp_walk_level_exhausted|done|]. intros h s' ->. split; [done|].
      apply not_elem_of_dom in Hq. unfold short, tables.
      rewrite size_union, size_singleton, size_dom by set_solver. lia.
    + eapply wp_mono; [by eapply wp_walk_level_fresh| |done].
      intros r s' (q & -> & Hg). exists q, n, (U ∪ {[q]}), (<[π ++ [PX l va] := q]> T).
      split_and!; [done|by rewrite lookup_insert_eq|rewrite dom_insert_L; set_solver|done].
Qed.

(** *** page_walk *)
Definition va_ok (va : Z) : Prop := 0 < va < MAXVA.

Lemma va_ok_kassert va : va_ok va -> (0 <? va) && (va <? MAXVA) = true.
Proof. unfold va_ok. intros. apply andb_true_iff. rewrite !Z.ltb_lt. lia. Qed.

Lemma wp_page_walk_alloc n U T s va :
  vinv n U T s -> va_ok va ->
  wp (page_walk root va 0 true)
     (fun r s' => exists q n' U' T', r = Some (q + 8 * PX 0 va) /\ T' !! [PX 2 va; PX 1 va] = Some q /\
        tables T' = tables T ∪ tables_of va /\ grow n U T s n' U' T' s')
     (fun h _ => h = al_stop /\ short n T (tables_of va)) s.
Proof.
  intros HV Hva. unfold page_walk. apply wp_bind, wp_kassert; [by apply va_ok_kassert|].
  change (Z.to_nat (2 - 0)) with 2%nat. cbn [walk_loop]. apply wp_bind, wp_bind.
  eapply wp_mono; [apply (wp_walk_level n U T s [] root va 2 HV)| |].
  { apply HV. } { cbn; lia. } { lia. }
  2: { intros h s' [-> Hs]. split; [done|]. eapply short_mono; [exact Hs|]. unfold tables_of. cbn. set_solver. }
  intros r s1 (q1 & n1 & U1 & T1 & -> & Hq1 & Hn1 & G1). cbn [app] in Hq1, Hn1. apply wp_bind.
  eapply wp_mono; [apply (wp_walk_level n1 U1 T1 s1 [PX 2 va] q1 va (2 - 1) (gr_inv _ _ _ _ _ _ _ _ G1) Hq1)| |].
  { cbn; lia. } { lia. }
  2: { intros h s' [-> Hs]. split; [done|]. by eapply short_later. }
  intros r s2 (q2 & n2 & U2 & T2 & -> & Hq2 & Hn2 & G2). cbn [app] in Hq2, Hn2. apply wp_ret, wp_ret.
  exists q2, n2, U2, T2. split_and!; [|done| |by eapply grow_trans].
  - do 2 f_equal. pose proof (vi_tree _ _ _ _ (gr_inv _ _ _ _ _ _ _ _ G2)) as HT2.
    by destruct (slot_inside T2 _ _ q2 (PX 0 va) HT2 Hq2 (PX_index 0 va ltac:(lia))) as (_ & _ & ->).
  - rewrite Hn2, Hn1. unfold tables_of. set_solver.
Qed.

Lemma wp_page_walk T s va (Q : option Z -> kmem S -> Prop) E :
  ptree T root (memory s) -> va_ok va ->
  Q ((fun q => q + 8 * PX 0 va) <$> T !! [PX 2 va; PX 1 va]) s ->
  wp (page_walk root va 0 false) Q E s.
Proof.
  intros HT Hva HQ. unfold page_walk. apply wp_bind, wp_kassert; [by apply va_ok_kassert|].
  change (Z.to_nat (2 - 0)) with 2%nat. cbn [walk_loop]. apply wp_bind, wp_bind.
  assert (Hpre : T !! [PX 2 va] = None -> T !! [PX 2 va; PX 1 va] = None).
  { intros Hn. destruct (T !! [PX 2 va; PX 1 va]) eqn:E1; [|done].
    apply (pt_prefix _ _ _ HT [PX 2 va]) in E1 as [? E1]. by rewrite Hn in E1. }
  destruct (T !! [PX 2 va]) as [q1|] eqn:H1.
  - eapply (wp_walk_level_found T s [] root); [done|apply HT|cbn; lia|lia|exact H1|]. apply wp_bind.
    destruct (T !! [PX 2 va; PX 1 va]) as [q2|] eqn:H2.
    + eapply (wp_walk_level_found T s [PX 2 va] q1); [done|done|cbn; lia|lia|exact H2|]. apply wp_ret, wp_ret.
      destruct (slot_inside T _ _ q2 (PX 0 va) HT H2 (PX_index 0 va ltac:(lia))) as (_ & _ & ->). exact HQ.
    + eapply (wp_walk_level_absent T s [PX 2 va] q1); [done|done|cbn; lia|lia|exact H2|]. apply wp_ret, wp_ret, HQ.
  - rewrite Hpre in HQ by done.
    eapply (wp_walk_level_absent T s [] root); [done|apply HT|cbn; lia|lia|exact H1|]. apply wp_ret, wp_ret, HQ.
Qed.
(** *** Leaf entries *)
Lemma MAXVA_lt : MAXVA < 2 ^ 39.
Proof. rewrite MAXVA_val. lia. Qed.

Lemma same_leaf va vb : 0 <= va < MAXVA -> 0 <= vb < MAXVA ->
  PX 2 va = PX 2 vb -> PX 1 va = PX 1 vb -> PX 0 va = PX 0 vb -> va / PGSIZE = vb / PGSIZE.
Proof. pose proof MAXVA_lt. intros. unfold PGSIZE. apply PX_inj; (done || lia). Qed.

Lemma same_page va vb l : 0 <= va -> 0 <= vb -> 0 <= l -> va / PGSIZE = vb / PGSIZE -> PX l va = PX l vb.
Proof.
  intros Ha Hb Hl E. unfold PGSIZE in E. rewrite !PX_eq by done.
  replace (2 ^ (12 + 9 * l)) with (4096 * 2 ^ (9 * l)) by (rewrite Z.pow_add_r by lia; done).
  rewrite <- !Z.div_div by (try apply Z.pow_pos_nonneg; lia). by rewrite E.
Qed.

Lemma pte_at_some T m va : ptree T root m -> exists v, pte_at T m va = Some v /\ 0 <= v < 2 ^ 64.
Proof.
  intros HT. unfold pte_at. destruct (T !! _) as [q|] eqn:Hq; [|exists 0; split; [done|lia]].
  destruct (slot_inside T m _ q (PX 0 va) HT Hq (PX_index 0 va ltac:(lia))) as (S1 & S2 & _).
  destruct (load_le_has 8 (q + 8 * PX 0 va) m) as [v Hv].
  { intros x Hx. change (Z.of_nat 8) with 8 in Hx. apply (pt_has _ _ _ HT _ _ Hq). lia. }
  exists v. split; [done|]. exact (load_le_range 8 (q + 8 * PX 0 va) m v (pt_bytes _ _ _ HT) Hv).
Qed.

Lemma store_leaf T m m' va q v :
  ptree T root m -> 0 <= va < MAXVA -> T !! [PX 2 va; PX 1 va] = Some q -> 0 <= v < 2 ^ 64 ->
  store_le 8 (q + 8 * PX 0 va) v m = Some m' ->
  ptree T root m' /\
  (forall vb, 0 <= vb < MAXVA ->
     pte_at T m' vb = if decide (vb / PGSIZE = va / PGSIZE) then Some v else pte_at T m vb) /\
  (forall x, (forall π p, T !! π = Some p -> ~ (p <= x < p + PGSIZE)) -> m' !! x = m !! x).
Proof.
  intros HT Hva Hq Hv Hst. pose proof (PX_index 0 va ltac:(lia)) as Hi.
  destruct (slot_inside T m _ q (PX 0 va) HT Hq Hi) as (S1 & S2 & _).
  assert (Hother : forall π p j, T !! π = Some p -> 0 <= j < 512 -> (π, j) <> ([PX 2 va; PX 1 va], PX 0 va) ->
    load_le 8 (p + 8 * j) m' = load_le 8 (p + 8 * j) m).
  { intros π p j Hp Hj Hne. eapply load_store_other; [exact Hst|]. change (Z.of_nat 8) with 8.
    by apply (slots_apart T m π [PX 2 va; PX 1 va] p q). }
  split_and!.
  - destruct HT as [A1 A2 A3 A4 A5 A6 A7 A8]. split; try done.
    + intros π p Hp x Hx. rewrite (store_le_lookup _ _ _ _ _ _ Hst). case_decide; [by eexists|by eapply A6].
    + by eapply store_bytes_ok.
    + intros π p j Hp Hl Hj. rewrite (Hother π p j); [by apply A8|done|done|].
      intros [= -> _]. cbn in Hl. lia.
  - intros vb Hvb. unfold pte_at. case_decide as Hd.
    + rewrite !(same_page vb va) by (done || lia). rewrite Hq, (load_store_same _ _ _ _ _ Hst).
      f_equal. by apply Z.mod_small.
    + destruct (T !! [PX 2 vb; PX 1 vb]) as [p|] eqn:Hp; [|done]. apply (Hother [PX 2 vb; PX 1 vb] p); [done|by apply PX_index|].
      intros [= E2 E1 E0]. by apply Hd, same_leaf.
  - intros x Hx. rewrite (store_le_lookup _ _ _ _ _ _ Hst). rewrite decide_False; [done|].
    specialize (Hx _ _ Hq). change (Z.of_nat 8) with 8. lia.
Qed.

(** A change of the leaf entries: [g] gives the new ones below MAXVA. *)
Record edit n U T s n' U' T' s' (g : Z -> option Z) : Prop := {
  ed_inv : vinv n' U' T' s';
  ed_sub : T ⊆ T';
  ed_own : U ⊆ U';
  ed_count : (size T' + n' = size T + n)%nat;
  ed_view va : 0 <= va < MAXVA -> pte_at T' (memory s') va = g va;
  ed_frame x : (forall π p, T' !! π = Some p -> ~ (p <= x < p + PGSIZE)) ->
    memory s' !! x = memory s !! x;
  ed_dir : g_kernel_pagetable s' = g_kernel_pagetable s;
  ed_fresh π p : T' !! π = Some p -> T !! π = Some p \/ new_page U p
}.

Lemma edit_refl n U T s : vinv n U T s -> edit n U T s n U T s (pte_at T (memory s)).
Proof. split; try done. by left. Qed.

Lemma edit_trans n1 U1 T1 s1 n2 U2 T2 s2 n3 U3 T3 s3 g2 g3 :
  edit n1 U1 T1 s1 n2 U2 T2 s2 g2 -> edit n2 U2 T2 s2 n3 U3 T3 s3 g3 -> edit n1 U1 T1 s1 n3 U3 T3 s3 g3.
Proof.
  intros [A1 A2 A3 A4 A5 A6 A7 A8] [B1 B2 B3 B4 B5 B6 B7 B8]. split; try done.
  - by etrans.
  - by etrans.
  - lia.
  - intros x Hx. rewrite B6 by done. apply A6. intros π p Hp. apply (Hx π). by eapply lookup_weaken.
  - by rewrite B7.
  - by eapply fresh_trans.
Qed.

Lemma grow_edit n U T s n' U' T' s' : grow n U T s n' U' T' s' -> edit n U T s n' U' T' s' (pte_at T (memory s)).
Proof. intros [A1 A2 A3 A4 A5 A6 A7 A8]. by split. Qed.

(** Storing an entry through the pointer a walk returned. *)
Lemma wp_store_leaf n U T s va q v (Q : unit -> kmem S -> Prop) E :
  vinv n U T s -> 0 <= va < MAXVA -> T !! [PX 2 va; PX 1 va] = Some q -> 0 <= v < 2 ^ 64 ->
  (forall s', edit n U T s n U T s' (fun vb => if decide (vb / PGSIZE = va / PGSIZE) then Some v
                                               else pte_at T (memory s) vb) -> Q tt s') ->
  wp (on_mem (store64 (q + 8 * PX 0 va) v)) Q E s.
Proof.
  intros HV Hva Hq Hv HQ. pose proof (vi_tree _ _ _ _ HV) as HT.
  destruct (slot_inside T _ _ q (PX 0 va) HT Hq (PX_index 0 va ltac:(lia))) as (S1 & S2 & _).
  apply wp_on_mem, wp_store.
  { intros x Hx. change (Z.of_nat 8) with 8 in Hx. apply (pt_has _ _ _ HT _ _ Hq). lia. }
  intros m' Hst Hu. destruct (store_leaf T (memory s) m' va q v HT Hva Hq Hv Hst) as (L1 & L2 & L3).
  apply HQ. split; cbn [memory heap g_kernel_pagetable]; try done; [|by left].
  split; cbn [memory heap]; [apply HV|done| |apply HV]. eapply upd_has; [exact Hu|apply HV].
Qed.
End tree.
