(* ===== verification/VmmSpec.v ===== *)
(** * Address spaces: contracts and theorems

    Mapping, translating and unmapping as changes of the function from
    virtual page to leaf entry. *)
From stdpp Require Import base gmap list strings.
From Stdlib Require Import ZArith Lia.
From S2P Require Import Prelude Riscv PmmState Pmm PmmProofs PmmSpec Mem Str Sync Vmm VmmProofs.

(** The entry map_pages writes. *)
Definition leaf_pte (pa perm : Z) : Z := Z.lor (Z.lor (PA2PTE pa) (u64 perm)) PTE_V.

Lemma leaf_pte_eq pa perm : 0 <= perm < 1024 -> leaf_pte pa perm = Z.lor (PA2PTE pa) (Z.lor perm PTE_V).
Proof. intros. unfold leaf_pte. rewrite u64_id by (unfold is_u64; lia). by rewrite Z.lor_assoc. Qed.

Lemma lor_perm_range perm : 0 <= perm < 1024 -> 0 <= Z.lor perm PTE_V < 1024.
Proof.
  intros [H0 H1]. split; [apply Z.lor_nonneg; unfold PTE_V; lia|].
  destruct (Z.eq_dec (Z.lor perm PTE_V) 0) as [->|Hne]; [lia|].
  assert (Hp : 0 <= Z.lor perm PTE_V) by (apply Z.lor_nonneg; unfold PTE_V; lia).
  change 1024 with (2 ^ 10). apply Z.log2_lt_pow2; [lia|]. rewrite Z.log2_lor by (unfold PTE_V; lia).
  change (Z.log2 PTE_V) with 0. destruct (Z.eq_dec perm 0) as [->|]; [done|].
  apply Z.max_lub_lt; [|lia]. apply Z.log2_lt_pow2; [lia|done].
Qed.

Section leaf.
Context (pa perm : Z) (Hpa : 0 <= pa < 2 ^ 56) (Hperm : 0 <= perm < 1024).

Lemma leaf_pte_range : 0 <= leaf_pte pa perm < 2 ^ 64.
Proof.
  rewrite leaf_pte_eq by done. pose proof (lor_perm_range perm Hperm). rewrite pte_build by lia. zlia.
Qed.

Lemma leaf_pte_valid : bit_set (leaf_pte pa perm) PTE_V = true.
Proof.
  rewrite leaf_pte_eq by done. pose proof (lor_perm_range perm Hperm).
  rewrite bit_set_entry by (unfold PTE_V in *; lia). unfold bit_set, PTE_V.
  rewrite Z.land_lor_distr_l. change (Z.land 1 1) with 1.
  destruct (Z.eqb_spec (Z.lor (Z.land perm 1) 1) 0) as [E|]; [|done].
  by apply Z.lor_eq_0_iff in E as [_ E].
Qed.

Lemma leaf_pte_page : pa mod PGSIZE = 0 -> PTE2PA (leaf_pte pa perm) = pa.
Proof.
  intros Hal. rewrite leaf_pte_eq by done. apply PTE2PA_build; [lia|exact Hal|by apply lor_perm_range].
Qed.

Lemma leaf_pte_bit b : 0 <= b < 1024 -> Z.land 1 b = 0 -> bit_set (leaf_pte pa perm) b = bit_set perm b.
Proof.
  intros Hb Hd. rewrite leaf_pte_eq by done. pose proof (lor_perm_range perm Hperm).
  rewrite bit_set_entry by lia. unfold bit_set, PTE_V. by rewrite Z.land_lor_distr_l, Hd, Z.lor_0_r.
Qed.
End leaf.

(** ** map_pages *)
Section map.
Context {S : Type} `{Allocator S} (lo hi : Z) `{!AllocatorSpec S lo hi} (root : Z).
Implicit Types (T : ptable) (s : kmem S) (U : gset Z) (n : nat).

Definition in_pages (first k va : Z) : bool := inside first (k * PGSIZE) va.

(** The leaf entries after mapping [k] pages at [first] to [pa]. *)
Definition map_view (g : Z -> option Z) (first k pa perm : Z) : Z -> option Z :=
  fun va => if in_pages first k va
            then Some (leaf_pte (pa + (va / PGSIZE - first / PGSIZE) * PGSIZE) perm)
            else g va.

Definition map_panic : stop := Panicked "map_pages fails on mapping va (0x%lx) to pa (0x%lx)".
Definition all_unmapped (g : Z -> option Z) (first k : Z) : Prop :=
  forall va, in_pages first k va = true -> exists v, g va = Some v /\ bit_set v PTE_V = false.

Lemma in_pages_page first k va : first mod PGSIZE = 0 -> 0 <= k ->
  in_pages first k va = true <-> first / PGSIZE <= va / PGSIZE < first / PGSIZE + k.
Proof.
  intros Hal Hk. unfold in_pages, PGSIZE in *.
  destruct (inside_spec first (k * 4096) va) as [Hi|Hi]; split; intros; try done; try zlia.
Qed.

Lemma in_pages_range first k va : in_pages first k va = true -> first <= va < first + k * PGSIZE.
Proof. unfold in_pages. by destruct (inside_spec first (k * PGSIZE) va). Qed.

(** One page more: the first page, then the rest. *)
Definition set_first (g : Z -> option Z) (first v : Z) : Z -> option Z :=
  fun va => if decide (va / PGSIZE = first / PGSIZE) then Some v else g va.

Lemma next_page first k va : first mod PGSIZE = 0 -> 0 <= k ->
  in_pages first (k + 1) va = true <->
  va / PGSIZE = first / PGSIZE \/ in_pages (first + PGSIZE) k va = true.
Proof.
  intros Hal Hk. rewrite !in_pages_page; unfold PGSIZE in *; [|zlia..].
  assert (E : (first + 4096) / 4096 = first / 4096 + 1) by zlia. rewrite E. lia.
Qed.

Lemma map_view_next g first k pa perm va : first mod PGSIZE = 0 -> 0 <= k ->
  map_view (set_first g first (leaf_pte pa perm)) (first + PGSIZE) k (pa + PGSIZE) perm va =
  map_view g first (k + 1) pa perm va.
Proof.
  intros Hal Hk. pose proof (next_page first k va Hal Hk) as HN. unfold map_view, set_first.
  assert (E : (first + PGSIZE) / PGSIZE = first / PGSIZE + 1) by (unfold PGSIZE; zlia).
  assert (Hal2 : (first + PGSIZE) mod PGSIZE = 0) by (unfold PGSIZE in *; zlia).
  pose proof (in_pages_page (first + PGSIZE) k va Hal2 Hk) as HP. rewrite E in *.
  destruct (in_pages (first + PGSIZE) k va).
  - rewrite (proj2 HN) by by right. do 2 f_equal. lia.
  - case_decide as Hd.
    + rewrite (proj2 HN) by by left. do 2 f_equal. lia.
    + destruct (in_pages first (k + 1) va); [|done]. destruct (proj1 HN eq_refl); done.
Qed.

Lemma all_unmapped_next g first k v w : first mod PGSIZE = 0 -> 0 <= k ->
  (forall va, in_pages first (k + 1) va = true -> va / PGSIZE = first / PGSIZE -> g va = Some v) ->
  bit_set v PTE_V = false ->
  all_unmapped (set_first g first w) (first + PGSIZE) k <-> all_unmapped g first (k + 1).
Proof.
  intros Hal Hk Hv Eb.
  assert (E : (first + PGSIZE) / PGSIZE = first / PGSIZE + 1) by (unfold PGSIZE; zlia).
  assert (Hal2 : (first + PGSIZE) mod PGSIZE = 0) by (unfold PGSIZE in *; zlia).
  assert (Hne : forall va, in_pages (first + PGSIZE) k va = true -> va / PGSIZE <> first / PGSIZE).
  { intros va Hin. apply in_pages_page in Hin; [|done..]. lia. }
  unfold all_unmapped, set_first. split; intros Hall va Hin.
  - pose proof Hin as Hin2. apply next_page in Hin; [|done..]. destruct (decide (va / PGSIZE = first / PGSIZE)) as [Ep|Np].
    + exists v. split; [by apply Hv|done].
    + destruct Hin as [?|Hin]; [done|]. specialize (Hall va Hin). by rewrite decide_False in Hall.
  - rewrite decide_False by by apply Hne. apply Hall, next_page; [done..|]. by right.
Qed.

Lemma all_unmapped_ext g g' first k :
  (forall va, in_pages first k va = true -> g va = g' va) -> all_unmapped g first k <-> all_unmapped g' first k.
Proof. intros Hg. split; intros Hall va Hin; destruct (Hall va Hin) as (v & ? & ?); exists v; [rewrite <- Hg|rewrite Hg]; done. Qed.

(** The tables that lead to [k] pages. *)
Fixpoint page_tables (first : Z) (k : nat) : gset (list Z) :=
  match k with O => ∅ | Datatypes.S k => tables_of first ∪ page_tables (first + PGSIZE) k end.

(** The outcome of mapping [k] pages. *)
Definition map_post n U T s first k pa perm (r : Z) s' : Prop :=
  r = 0 /\ all_unmapped (pte_at T (memory s)) first (Z.of_nat k) /\
  exists n' U' T', tables T' = tables T ∪ page_tables first k /\
    edit lo hi root n U T s n' U' T' s' (map_view (pte_at T (memory s)) first (Z.of_nat k) pa perm).
Definition map_stop n T s first k (h : stop) : Prop :=
  (h = al_stop /\ short n T (page_tables first k)) \/
  (h = map_panic /\ ~ all_unmapped (pte_at T (memory s)) first (Z.of_nat k)).

Lemma edit_view n U T s n' U' T' s' g g' :
  edit lo hi root n U T s n' U' T' s' g -> (forall va, 0 <= va < MAXVA -> g va = g' va) ->
  edit lo hi root n U T s n' U' T' s' g'.
Proof. intros [E1 E2 E3 E4 E5 E6 E7 E8] Hg. split; try done. intros va Hva. by rewrite E5, Hg. Qed.

(** One iteration: walk, test, store. *)
Lemma wp_map_step n U T s first pa perm (k : M (kmem S) Z) Q E :
  vinv lo hi root n U T s -> va_ok first -> 0 <= pa < 2 ^ 56 -> 0 <= perm < 1024 ->
  (forall v n' U' T' s', pte_at T (memory s) first = Some v -> bit_set v PTE_V = false ->
     tables T' = tables T ∪ tables_of first -> (size T' + n' = size T + n)%nat ->
     edit lo hi root n U T s n' U' T' s' (set_first (pte_at T (memory s)) first (leaf_pte pa perm)) -> wp k Q E s') ->
  (forall s', short n T (tables_of first) -> E al_stop s') ->
  (forall v s', pte_at T (memory s) first = Some v -> bit_set v PTE_V = true -> E map_panic s') ->
  wp (let* r := page_walk root first 0 true in
      match r with
      | None => ret (-1)
      | Some pte =>
          let* v := on_mem (load64 pte) in
          if bit_set v PTE_V then panic "map_pages fails on mapping va (0x%lx) to pa (0x%lx)"
          else on_mem (store64 pte (Z.lor (Z.lor (PA2PTE pa) (u64 perm)) PTE_V)) ;;; k
      end) Q E s.
Proof.
  intros HV Hva Hpa Hperm HQ Hal Hpanic. unfold va_ok in Hva.
  apply wp_bind. eapply wp_mono; [by apply (wp_page_walk_alloc lo hi root n U T s first)| |].
  2: { intros h s' [-> Hn]. by apply Hal. }
  intros r s1 (q & n1 & U1 & T1 & -> & Hq & Hn1 & G1).
  pose proof (gr_inv _ _ _ _ _ _ _ _ _ _ _ G1) as HV1. pose proof (vi_tree _ _ _ _ _ _ _ HV1) as HT1.
  destruct (pte_at_some root T1 (memory s1) first HT1) as (v & Hv & Hvr).
  assert (Hv0 : pte_at T (memory s) first = Some v) by (by rewrite <- (gr_view _ _ _ _ _ _ _ _ _ _ _ G1)).
  unfold pte_at in Hv. rewrite Hq in Hv. apply wp_bind. eapply wp_load_km; [exact Hv|].
  destruct (bit_set v PTE_V) eqn:Eb; [by apply wp_halt, (Hpanic v)|].
  apply wp_bind. eapply (wp_store_leaf lo hi root n1 U1 T1 s1 first q);
    [exact HV1|lia|exact Hq|by apply leaf_pte_range|].
  intros s2 D2. apply (HQ v n1 U1 T1); try done; [apply (gr_count _ _ _ _ _ _ _ _ _ _ _ G1)|].
  eapply edit_view; [by eapply edit_trans; [apply grow_edit, G1|exact D2]|].
  intros vb _. unfold set_first. case_decide; [done|]. apply (gr_view _ _ _ _ _ _ _ _ _ _ _ G1).
Qed.

Lemma wp_map_loop k n U T s first pa perm :
  vinv lo hi root n U T s -> 0 < first -> first mod PGSIZE = 0 -> first + Z.of_nat k * PGSIZE <= MAXVA ->
  0 <= pa -> pa + Z.of_nat k * PGSIZE <= 2 ^ 56 -> 0 <= perm < 1024 ->
  wp (map_loop k root first (first + Z.of_nat k * PGSIZE - PGSIZE) pa perm)
     (map_post n U T s first k pa perm) (fun h _ => map_stop n T s first k h) s.
Proof.
  revert n U T s first pa. induction k as [|k IH]; intros n U T s first pa HV H0 Hal Hmax Hpa Hpmax Hperm;
    cbn [map_loop]; unfold PGSIZE in Hmax, Hpmax; pose proof MAXVA_val as EMAX.
  - rewrite (proj2 (Z.leb_gt _ _)) by (unfold PGSIZE; lia). apply wp_ret.
    assert (Hno : forall va, in_pages first (Z.of_nat 0) va = false).
    { intros va. unfold in_pages. by destruct (inside_spec first (Z.of_nat 0 * PGSIZE) va); [lia|]. }
    split_and!; [done|intros va; by rewrite Hno|]. exists n, U, T. split; [cbn; set_solver|].
    eapply edit_view; [by apply edit_refl|]. intros va _. unfold map_view. by rewrite Hno.
  - rewrite (proj2 (Z.leb_le _ _)) by (unfold PGSIZE; lia).
    replace (Z.of_nat (Datatypes.S k)) with (Z.of_nat k + 1) in * by lia.
    assert (Hin1 : in_pages first (Z.of_nat k + 1) first = true) by (apply next_page; [done|lia|by left]).
    apply (wp_map_step n U T s); [done|unfold va_ok; lia|lia|done| | |].
    + intros v n1 U1 T1 s1 Hv Eb Hn1 Hc1 D1.
      replace (first + (Z.of_nat k + 1) * PGSIZE - PGSIZE) with ((first + PGSIZE) + Z.of_nat k * PGSIZE - PGSIZE) by lia.
      rewrite !u64_id by (unfold is_u64, PGSIZE; lia).
      assert (Hun : all_unmapped (pte_at T1 (memory s1)) (first + PGSIZE) (Z.of_nat k) <->
                    all_unmapped (pte_at T (memory s)) first (Z.of_nat k + 1)).
      { rewrite <- (all_unmapped_next _ first (Z.of_nat k) v (leaf_pte pa perm)); [|done|lia| |done].
        - apply all_unmapped_ext. intros va Hin%in_pages_range. apply (ed_view _ _ _ _ _ _ _ _ _ _ _ _ D1).
          unfold PGSIZE in *. lia.
        - intros va Hin%in_pages_range E. rewrite <- Hv. unfold pte_at. by rewrite !(same_page va first) by (done || lia). }
      eapply wp_mono; [apply (IH n1 U1 T1 s1 (first + PGSIZE) (pa + PGSIZE)); [apply D1|unfold PGSIZE in *; zlia..|exact Hperm]| |].
      * intros r s2 (-> & Hall & n2 & U2 & T2 & Hn2 & D2). split_and!; [done| |].
        { replace (Z.of_nat (Datatypes.S k)) with (Z.of_nat k + 1) by lia. by apply Hun. }
        exists n2, U2, T2. split; [rewrite Hn2, Hn1; cbn; set_solver|]. eapply edit_view; [by eapply edit_trans|]. intros va Hva.
        replace (Z.of_nat (Datatypes.S k)) with (Z.of_nat k + 1) by lia.
        rewrite <- map_view_next by (done || lia). unfold map_view at 1 2.
        by rewrite (ed_view _ _ _ _ _ _ _ _ _ _ _ _ D1) by done.
      * intros h s2 [[-> Hn]|[-> Hnot]]; [left|right]; (split; [done|]).
        { unfold short in *. cbn [page_tables]. rewrite Hn1, Hc1 in Hn.
          by replace (tables T ∪ (tables_of first ∪ page_tables (first + PGSIZE) k))
            with (tables T ∪ tables_of first ∪ page_tables (first + PGSIZE) k) by set_solver. }
        replace (Z.of_nat (Datatypes.S k)) with (Z.of_nat k + 1) by lia. by rewrite <- Hun.
    + intros s' Hn. left. split; [done|]. eapply short_mono; [exact Hn|]. cbn. set_solver.
    + intros v s' Hv Eb. right. split; [done|]. replace (Z.of_nat (Datatypes.S k)) with (Z.of_nat k + 1) by lia.
      intros Hall. destruct (Hall first Hin1) as (v' & Hv' & Eb'). congruence.
Qed.
(** The pages that [va, va + size) touches. *)
Definition first_page_of (va : Z) : Z := va - va mod PGSIZE.
Definition npages (va size : Z) : Z := (va + size - 1) / PGSIZE - va / PGSIZE + 1.

Lemma npages_facts va size : 0 <= va -> 0 < size -> va + size <= MAXVA -> 
  ROUNDDOWN va PGSIZE = first_page_of va /\ 0 < npages va size /\
  ROUNDDOWN (u64 (va + size - 1)) PGSIZE = first_page_of va + npages va size * PGSIZE - PGSIZE /\
  first_page_of va + npages va size * PGSIZE <= MAXVA /\ first_page_of va mod PGSIZE = 0 /\
  va - PGSIZE < first_page_of va /\ npages va size * PGSIZE < size + 2 * PGSIZE.
Proof.
  intros Hva Hs Hm. rewrite MAXVA_val in *. rewrite u64_id by (unfold is_u64; lia).
  rewrite !ROUNDDOWN_page by (unfold is_u64; lia). unfold first_page_of, npages, PGSIZE.
  split_and!; try done; zlia.
Qed.

Lemma wp_map_pages n U T s va size pa perm :
  vinv lo hi root n U T s -> PGSIZE <= va -> 0 < size -> va + size <= MAXVA ->
  0 <= pa -> pa + npages va size * PGSIZE <= 2 ^ 56 -> 0 <= perm < 1024 ->
  wp (map_pages root va size pa perm)
     (map_post n U T s (first_page_of va) (Z.to_nat (npages va size)) pa perm)
     (fun h _ => map_stop n T s (first_page_of va) (Z.to_nat (npages va size)) h) s.
Proof.
  intros HV Hva Hs Hm Hpa Hp Hperm. unfold PGSIZE in Hva.
  destruct (npages_facts va size) as (E1 & Hk & E2 & Hm2 & Hal & Hf & _); [lia|done|done|].
  unfold map_pages. rewrite E1, E2. set (k := npages va size) in *. set (first := first_page_of va) in *.
  replace (Z.to_nat ((first + k * PGSIZE - PGSIZE - first) / PGSIZE + 1)) with (Z.to_nat k) by (unfold PGSIZE; f_equal; zlia).
  replace (first + k * PGSIZE) with (first + Z.of_nat (Z.to_nat k) * PGSIZE) by lia.
  apply wp_map_loop; rewrite ?Z2Nat.id by lia; unfold PGSIZE in *; try done; try lia. 
Qed.

(** ** Translation *)
Lemma wp_walk_leaf T s va {B} (kn : M (kmem S) B) (ks : Z -> Z -> M (kmem S) B) Q E :
  ptree T root (memory s) -> va_ok va ->
  (T !! [PX 2 va; PX 1 va] = None -> wp kn Q E s) ->
  (forall q v, T !! [PX 2 va; PX 1 va] = Some q -> pte_at T (memory s) va = Some v ->
     wp (ks (q + 8 * PX 0 va) v) Q E s) ->
  wp (let* r := page_walk root va 0 false in
      match r with None => kn | Some pte => let* v := on_mem (load64 pte) in ks pte v end) Q E s.
Proof.
  intros HT Hva Hn Hs. apply wp_bind. eapply wp_page_walk; [exact HT|exact Hva|].
  destruct (pte_at_some root T (memory s) va HT) as (v & Hv & _). pose proof Hv as Hv0.
  unfold pte_at in Hv. destruct (T !! [PX 2 va; PX 1 va]) as [q|] eqn:Hq; [|by apply Hn].
  apply wp_bind. eapply wp_load_km; [exact Hv|]. by apply Hs.
Qed.

Definition lookup_spec (e : option Z) : Z :=
  match e with
  | Some v => if bit_set v PTE_V && (bit_set v PTE_R || bit_set v PTE_W) then PTE2PA v else 0
  | None => 0
  end.
Definition va_to_pa_spec (e : option Z) (va : Z) : option Z :=
  match e with
  | Some v => if bit_set v PTE_V then Some (Z.lor (PTE2PA v) (va mod PGSIZE)) else None
  | None => None
  end.

Lemma wp_lookup_pa T s va (Q : Z -> kmem S -> Prop) E :
  ptree T root (memory s) -> va_ok va -> Q (lookup_spec (pte_at T (memory s) va)) s ->
  wp (lookup_pa root va) Q E s.
Proof.
  intros HT Hva HQ. unfold lookup_pa. rewrite (proj2 (Z.leb_gt _ _)) by (unfold va_ok in Hva; lia).
  apply (wp_walk_leaf T); [done|done| |].
  - intros Hn. apply wp_ret. unfold pte_at in HQ. rewrite Hn in HQ. exact HQ.
  - intros q v _ Hv. rewrite Hv in HQ. cbn in HQ.
    destruct (bit_set v PTE_V), (bit_set v PTE_R), (bit_set v PTE_W); apply wp_ret, HQ.
Qed.

Lemma wp_user_va_to_pa T s va (Q : option Z -> kmem S -> Prop) E :
  ptree T root (memory s) -> va_ok va -> Q (va_to_pa_spec (pte_at T (memory s) va) va) s ->
  wp (user_va_to_pa root va) Q E s.
Proof.
  intros HT Hva HQ. unfold user_va_to_pa. apply (wp_walk_leaf T); [done|done| |].
  - intros Hn. apply wp_ret. unfold pte_at in HQ. rewrite Hn in HQ. exact HQ.
  - intros q v _ Hv. rewrite Hv in HQ. cbn in HQ. 
    assert (El : va mod PGSIZE = Z.land va (PGSIZE - 1)) by (symmetry; apply (land_low va 12); lia).
    rewrite El in HQ.
    destruct (bit_set v PTE_V); apply wp_ret, HQ.
Qed.

(** ** Unmapping *)
Definition unmap_view (g : Z -> option Z) (first k : Z) : Z -> option Z :=
  fun va => if in_pages first k va
            then (fun v => if bit_set v PTE_V then 0 else v) <$> g va
            else g va.

Lemma wp_unmap_step n U T s first (Q : unit -> kmem S -> Prop) E :
  vinv lo hi root n U T s -> va_ok first ->
  (forall s', edit lo hi root n U T s n U T s'
      (fun va => if decide (va / PGSIZE = first / PGSIZE)
                 then (fun v => if bit_set v PTE_V then 0 else v) <$> pte_at T (memory s) first
                 else pte_at T (memory s) va) -> Q tt s') ->
  wp (let* r := page_walk root first 0 false in
      match r with
      | None => ret tt
      | Some pte =>
          let* v := on_mem (load64 pte) in
          if bit_set v PTE_V then ret tt ;;; on_mem (store64 pte 0) else ret tt
      end) Q E s.
Proof.
  intros HV Hva HQ. pose proof (vi_tree _ _ _ _ _ _ _ HV) as HT. pose proof Hva as Hva0. unfold va_ok in Hva.
  assert (Hsame : forall v va, pte_at T (memory s) first = Some v -> 0 <= va -> va / PGSIZE = first / PGSIZE ->
            pte_at T (memory s) va = Some v).
  { intros v va Hv H0 E1. rewrite <- Hv. unfold pte_at. by rewrite !(same_page va first) by (done || lia). }
  assert (Hstay : forall v, pte_at T (memory s) first = Some v -> bit_set v PTE_V = false -> Q tt s).
  { intros v Hv Eb. apply HQ. eapply edit_view; [by apply edit_refl|]. intros va Hva'. cbn.
    case_decide; [|done]. rewrite Hv. cbn. rewrite Eb. by apply Hsame; [|lia|]. }
  apply (wp_walk_leaf T); [done|done| |].
  - intros Hn. apply wp_ret, (Hstay 0); [|done]. unfold pte_at. by rewrite Hn.
  - intros q v Hq Hv. destruct (bit_set v PTE_V) eqn:Eb; [|by apply wp_ret, (Hstay v)].
    apply wp_bind, wp_ret. eapply (wp_store_leaf lo hi root n U T s first q); [done|lia|done|lia|].
    intros s' D. apply HQ. eapply edit_view; [exact D|]. intros va Hva'. cbn. case_decide; [|done].
    rewrite Hv. cbn. by rewrite Eb.
Qed.

Lemma wp_unmap_loop k : forall fuel n U T s first stop (Q : unit -> kmem S -> Prop) E,
  vinv lo hi root n U T s -> 0 < first -> first mod PGSIZE = 0 -> first + Z.of_nat k * PGSIZE <= MAXVA ->
  first + Z.of_nat k * PGSIZE - PGSIZE < stop <= first + Z.of_nat k * PGSIZE -> (k <= fuel)%nat ->
  (forall s', edit lo hi root n U T s n U T s' (unmap_view (pte_at T (memory s)) first (Z.of_nat k)) -> Q tt s') ->
  wp (unmap_loop fuel root first stop false) Q E s.
Proof.
  induction k as [|k IH]; intros fuel n U T s first stop Q E HV H0 Hal Hmax Hstop Hf HQ; unfold PGSIZE in Hmax, Hstop;
    pose proof MAXVA_val as EMAX.
  - assert (Hr : wp (ret tt) Q E s).
    { apply wp_ret, HQ. eapply edit_view; [by apply edit_refl|]. intros va _. unfold unmap_view, in_pages.
      by destruct (inside_spec first (Z.of_nat 0 * PGSIZE) va); [lia|]. }
    destruct fuel; cbn [unmap_loop]; (rewrite (proj2 (Z.ltb_ge _ _)) by lia); exact Hr.
  - destruct fuel as [|fuel]; [lia|]. cbn [unmap_loop]. rewrite (proj2 (Z.ltb_lt _ _)) by lia.
    apply wp_assoc, wp_bind. cbv match. apply (wp_unmap_step n U T); [done|unfold va_ok; lia|]. intros s1 D1.
    rewrite u64_id by (unfold is_u64, PGSIZE; lia).
    apply (IH fuel n U T); [apply D1|unfold PGSIZE in *; (zlia || lia)..|].
    intros s' D2. apply HQ. eapply edit_view; [by eapply edit_trans|]. intros va Hva.
    replace (Z.of_nat (Datatypes.S k)) with (Z.of_nat k + 1) by lia. unfold unmap_view.
    pose proof (next_page first (Z.of_nat k) va Hal ltac:(lia)) as HN.
    assert (Hal2 : (first + PGSIZE) mod PGSIZE = 0) by (unfold PGSIZE in *; zlia).
    pose proof (in_pages_page (first + PGSIZE) (Z.of_nat k) va Hal2 ltac:(lia)) as HP.
    assert (E1 : (first + PGSIZE) / PGSIZE = first / PGSIZE + 1) by (unfold PGSIZE; zlia). rewrite E1 in HP.
    rewrite (ed_view _ _ _ _ _ _ _ _ _ _ _ _ D1) by done.
    destruct (in_pages (first + PGSIZE) (Z.of_nat k) va).
    + rewrite (proj2 HN) by by right. rewrite decide_False; [done|]. destruct HP as [HP _]. specialize (HP eq_refl). lia.
    + case_decide as Hd.
      * rewrite (proj2 HN) by by left. f_equal. unfold pte_at. by rewrite !(same_page va first) by (done || lia).
      * destruct (in_pages first (Z.of_nat k + 1) va); [|done]. destruct (proj1 HN eq_refl); done.
Qed.
End map.
