(* ===== verification/KernVm.v ===== *)
(** * The kernel page table on top of kernel/pmm.c

    kernel/pmm.c as an instance of the allocator's contract, and what
    [kern_vm_init] builds, or fails to build. *)
From stdpp Require Import base gmap list strings.
From Stdlib Require Import ZArith Lia.
From S2P Require Import Prelude Riscv PmmState Dlist Buddy Pmm Tiles BuddyInv BuddyProofs BuddyFree BuddyInit PmmProofs PmmSpec Mem Str Sync Vmm VmmProofs VmmSpec.

(** ** kernel/pmm.c meets the contract *)
Record pmm_avail (lo hi : Z) (n : nat) (U : gset Z) (s : pmm_state) : Prop := {
  pa_inv : exists plo phi fl F A ps stale, pmm_inv plo phi s fl F A ps stale /\ length ps = n /\
    (forall p, p ∈ ps -> PFN_TO_ADDR p ∉ U) /\ lo <= page_addr plo /\ page_addr phi <= hi;
  pa_arena : 0 < lo /\ hi <= 2 ^ 56
}.

Lemma pmm_inv_take lo hi s fl F A ps p stale :
  pmm_inv lo hi s fl F A (ps ++ [p]) stale -> pmm_inv lo hi (set_cache s ps (Some p :: stale)) fl F A ps (Some p :: stale).
Proof.
  intros [H1 H2 H3 H4 H5 H6 H7 H8]. split; try done.
  - by apply buddy_inv_caches.
  - apply cache_set_cache.
  - rewrite <- H5, length_app. cbn. lia.
  - intros q Hq. apply H6. set_solver.
  - by apply NoDup_app in H7 as (? & _).
Qed.

#[export] Program Instance pmm_allocator_spec lo hi : AllocatorSpec pmm_state lo hi := {
  al_inv := pmm_avail lo hi;
  al_stop := Spins "main_buddy.buddy_lock"
}.
Next Obligation. intros lo hi n U s H. apply H. Qed.
Next Obligation.
  intros lo hi n U s [(plo & phi & fl & F & A & ps & stale & HI & Hlen & HU & Hlo & Hhi) Har].
  destruct ps as [|p ps _] using rev_ind; [done|]. rewrite length_app in Hlen. cbn in Hlen.
  pose proof (pi_used _ _ _ _ _ _ _ _ HI p ltac:(set_solver)) as Hp.
  destruct (page_in_range _ _ _ _ _ _ p (pi_buddy _ _ _ _ _ _ _ _ HI) Hp (pi_top _ _ _ _ _ _ _ _ HI)) as (Hr & Ea & _).
  eapply wp_of_run; [apply run_alloc_page; [apply HI|exact (pi_size _ _ _ _ _ _ _ _ HI)]|].
  split_and!; [apply HU; set_solver| | | |].
  - rewrite Ea. unfold page_addr, PGSIZE, DRAM_BASE. zlia.
  - rewrite Ea. unfold page_addr, PGSIZE in *. lia.
  - rewrite Ea. unfold page_addr, PGSIZE in *. lia.
  - split; [|exact Har]. exists plo, phi, fl, F, A, ps, (Some p :: stale).
    split_and!; [by apply pmm_inv_take|lia| |done|done].
    intros q Hq. rewrite not_elem_of_union, not_elem_of_singleton. split; [apply HU; set_solver|].
    pose proof (pi_used _ _ _ _ _ _ _ _ HI q ltac:(set_solver)) as Hq'.
    destruct (page_in_range _ _ _ _ _ _ q (pi_buddy _ _ _ _ _ _ _ _ HI) Hq' (pi_top _ _ _ _ _ _ _ _ HI)) as (_ & Eq & _).
    rewrite Eq, Ea. intros E. pose proof (pi_nodup _ _ _ _ _ _ _ _ HI) as HN.
    apply NoDup_app in HN as (_ & HN & _). apply (HN q Hq).
    unfold page_addr, PGSIZE in E. assert (q = p) as -> by lia. set_solver.
Qed.
Next Obligation.
  intros lo hi U s [(plo & phi & fl & F & A & ps & stale & HI & Hlen & _) _].
  destruct ps; [|done]. apply (run_alloc_page_empty s stale). apply HI.
Qed.

Section kern.
Context {S : Type} `{Allocator S} (lo hi : Z) `{!AllocatorSpec S lo hi}.
Implicit Types (T : ptable) (s : kmem S) (U : gset Z) (n : nat).

(** The directory alone: one zeroed page. *)
Definition root_table (a : Z) : ptable := {[ [] := a ]}.

Lemma vinv_root n U h m a g :
  al_inv n (U ∪ {[a]}) h -> a mod PGSIZE = 0 -> lo <= a -> a + PGSIZE <= hi -> has m lo (hi - lo) -> bytes_ok m ->
  (forall x, a <= x < a + PGSIZE -> m !! x = Some 0) ->
  vinv lo hi a n (U ∪ {[a]}) (root_table a) (mkKmem h m g).
Proof.
  intros Hal Ha Hlo Hhi Hm Hb Hz. destruct (al_arena _ _ _ Hal) as [H0 H56].
  assert (Hlk : forall π p, root_table a !! π = Some p -> π = [] /\ p = a).
  { intros π p Hp. unfold root_table in Hp. apply lookup_singleton_Some in Hp as [<- <-]. done. }
  split; cbn [heap memory]; [done| |done|].
  - split; cbn [memory].
    + unfold root_table. apply lookup_singleton_eq.
    + intros π p [-> _]%Hlk. cbn. lia.
    + intros π i q [E _]%Hlk. by destruct π.
    + intros π1 π2 p [-> _]%Hlk [-> _]%Hlk. done.
    + intros π p [_ ->]%Hlk. unfold page_ok. lia.
    + intros π p [_ ->]%Hlk x Hx. eexists. by apply Hz.
    + done.
    + intros π p i [-> ->]%Hlk _ Hi. cbn [app]. unfold root_table. rewrite lookup_singleton_ne by done.
      apply load_zeros. intros x Hx. apply Hz. unfold PGSIZE. lia.
  - intros π p [_ ->]%Hlk. set_solver.
Qed.

Lemma view_root a m va : pte_at (root_table a) m va = Some 0.
Proof. unfold pte_at, root_table. by rewrite lookup_singleton_ne. Qed.

(** What [kern_vm_init] leaves: identity maps, text executable and
    read-only, the rest writable. *)
Definition kern_view (_etext va : Z) : option Z :=
  if inside KERN_BASE (_etext - KERN_BASE) va then
    Some (leaf_pte (va / PGSIZE * PGSIZE) (prot_to_type (Z.lor PROT_READ PROT_EXEC) 0))
  else if inside _etext (PHYS_TOP - _etext) va then
    Some (leaf_pte (va / PGSIZE * PGSIZE) (prot_to_type (Z.lor PROT_READ PROT_WRITE) 0))
  else Some 0.

Definition text_ok (_etext : Z) : Prop := KERN_BASE < _etext < PHYS_TOP /\ _etext mod PGSIZE = 0.

Lemma text_facts _etext : text_ok _etext ->
  u64 (_etext - KERN_BASE) = _etext - KERN_BASE /\ u64 (PHYS_TOP - _etext) = PHYS_TOP - _etext /\
  PHYS_TOP < MAXVA /\ PGSIZE <= KERN_BASE /\
  first_page_of KERN_BASE = KERN_BASE /\ first_page_of _etext = _etext /\
  npages KERN_BASE (_etext - KERN_BASE) * PGSIZE = _etext - KERN_BASE /\
  npages _etext (PHYS_TOP - _etext) * PGSIZE = PHYS_TOP - _etext /\
  0 < npages KERN_BASE (_etext - KERN_BASE) /\ 0 < npages _etext (PHYS_TOP - _etext).
Proof.
  unfold text_ok. rewrite MAXVA_val. unfold PHYS_TOP, PKE_MAX_ALLOWABLE_RAM, KERN_BASE, DRAM_BASE, PGSIZE, first_page_of, npages, PGSIZE.
  intros [He Hal]. rewrite !u64_id by (unfold is_u64; lia). split_and!; zlia.
Qed.
Lemma wp_kern_vm_map root n U T s va pa sz perm (Q : unit -> kmem S -> Prop) (E : stop -> kmem S -> Prop) :
  vinv lo hi root n U T s -> PGSIZE <= va -> 0 < sz -> va + sz <= MAXVA ->
  0 <= pa -> pa + npages va sz * PGSIZE <= 2 ^ 56 -> 0 <= perm < 1024 ->
  all_unmapped (pte_at T (memory s)) (first_page_of va) (npages va sz) ->
  (forall n' U' T' s', tables T' = tables T ∪ page_tables (first_page_of va) (Z.to_nat (npages va sz)) ->
    edit lo hi root n U T s n' U' T' s'
      (map_view (pte_at T (memory s)) (first_page_of va) (npages va sz) pa perm) -> Q tt s') ->
  (forall s', short n T (page_tables (first_page_of va) (Z.to_nat (npages va sz))) -> E al_stop s') ->
  wp (kern_vm_map root va pa sz perm) Q E s.
Proof.
  intros HV Hva Hs Hm Hpa Hp Hperm Hun HQ HE. unfold kern_vm_map.
  assert (Hva0 : 0 <= va) by (unfold PGSIZE in Hva; lia).
  destruct (npages_facts va sz Hva0 Hs Hm) as (_ & Hk & _).
  apply wp_bind. eapply wp_mono; [by apply (wp_map_pages lo hi root n U T s)| |].
  - intros r s' (-> & _ & n' & U' & T' & HT & D). rewrite Z2Nat.id in D by lia. by apply wp_ret, (HQ n' U' T').
  - intros h s' [[-> Hn]|[_ Hnot]]; [by apply HE|]. rewrite Z2Nat.id in Hnot by lia. done.
Qed.

(** The two maps together are [kern_view]. *)
Lemma kern_views a m _etext va : text_ok _etext ->
  map_view (map_view (pte_at (root_table a) m) KERN_BASE (npages KERN_BASE (_etext - KERN_BASE)) DRAM_BASE
              (prot_to_type (Z.lor PROT_READ PROT_EXEC) 0))
    _etext (npages _etext (PHYS_TOP - _etext)) _etext (prot_to_type (Z.lor PROT_READ PROT_WRITE) 0) va =
  kern_view _etext va.
Proof.
  intros Ht. destruct (text_facts _etext Ht) as (_ & _ & _ & _ & _ & _ & E1 & E2 & _).
  unfold map_view, kern_view, in_pages. rewrite E1, E2, view_root. destruct Ht as [Hr Hal].
  destruct (inside_spec _etext (PHYS_TOP - _etext) va), (inside_spec KERN_BASE (_etext - KERN_BASE) va); try lia; try done.
  - do 2 f_equal. unfold PGSIZE in *. zlia.
  - do 2 f_equal. unfold KERN_BASE, DRAM_BASE, PGSIZE in *. zlia.
Qed.

(** The tables of the kernel's map: the directory, one middle table and 64
    leaf tables of 2 MiB each. *)
Definition kern_paths : list (list Z) := [] :: [2] :: ((fun j => [2; j]) <$> seqZ 0 64).

Lemma kern_paths_nodup : NoDup kern_paths.
Proof. apply (bool_decide_unpack _); vm_compute; exact I. Qed.

Lemma kern_indices va : KERN_BASE <= va < PHYS_TOP -> PX 2 va = 2 /\ PX 1 va = (va - KERN_BASE) / 2 ^ 21 /\
  0 <= (va - KERN_BASE) / 2 ^ 21 < 64.
Proof.
  unfold PHYS_TOP, PKE_MAX_ALLOWABLE_RAM, KERN_BASE, DRAM_BASE. intros Hva. rewrite !PX_eq by lia.
  change (2 ^ (12 + 9 * 2)) with 1073741824. change (2 ^ (12 + 9 * 1)) with 2097152.
  change (2 ^ 21) with 2097152. split_and!; zlia.
Qed.

Lemma kern_page_tables k first :
  KERN_BASE <= first -> first + Z.of_nat k * PGSIZE <= PHYS_TOP -> page_tables first k ⊆ list_to_set kern_paths.
Proof.
  revert first. induction k as [|k IH]; intros first Hf Hk; cbn [page_tables]; [set_solver|].
  unfold PGSIZE in Hk. destruct (kern_indices first) as (E2 & E1 & Hr); [lia|].
  assert (H1 : tables_of first ⊆ list_to_set kern_paths).
  { unfold tables_of. rewrite E2, E1. intros π Hp. apply elem_of_list_to_set. unfold kern_paths.
    rewrite !elem_of_cons. apply elem_of_union in Hp as [Hp|Hp]; apply elem_of_singleton in Hp as ->; [by right; left|].
    right; right. apply list_elem_of_fmap. eexists. split; [done|]. apply elem_of_seqZ. lia. }
  specialize (IH (first + PGSIZE) ltac:(unfold PGSIZE; lia) ltac:(unfold PGSIZE; lia)). set_solver.
Qed.

Lemma kern_short n T first k : tables T ⊆ list_to_set kern_paths ->
  KERN_BASE <= first -> first + Z.of_nat k * PGSIZE <= PHYS_TOP -> short n T (page_tables first k) ->
  (size T + n < 66)%nat.
Proof.
  intros HT Hf Hk Hs. unfold short in Hs.
  assert (Hsub : tables T ∪ page_tables first k ⊆ list_to_set kern_paths).
  { pose proof (kern_page_tables k first Hf Hk). set_solver. }
  apply subseteq_size in Hsub. rewrite size_list_to_set in Hsub by apply kern_paths_nodup.
  change (length kern_paths) with 66%nat in Hsub. lia.
Qed.

(** A page cleared to be a root. *)
Lemma wp_clear_root n U a h m g (Q : Z -> kmem S -> Prop) E :
  al_inv n (U ∪ {[a]}) h -> a mod PGSIZE = 0 -> 0 < lo -> lo <= a -> a + PGSIZE <= hi -> hi <= 2 ^ 56 -> has m lo (hi - lo) -> bytes_ok m ->
  (forall m1, vinv lo hi a n (U ∪ {[a]}) (root_table a) (mkKmem h m1 g) -> Q a (mkKmem h m1 g)) ->
  wp (on_mem (memset a 0 PGSIZE)) Q E (mkKmem h m g).
Proof.
  intros Hal Hpg H0 Hlo Hhi H56 Hm Hb HQ. apply wp_on_mem. cbn [memory heap g_kernel_pagetable].
  apply wp_memset; [done|eapply has_sub; [exact Hm|lia|unfold PGSIZE in *; lia]|lia|unfold PGSIZE in *; lia|].
  intros m1 Hf. apply HQ, vinv_root; try done.
  - by eapply upd_has.
  - eapply upd_bytes; [exact Hf|done|done].
  - intros x Hx. rewrite Hf. by destruct (inside_spec a PGSIZE x); [|lia].
Qed.

Lemma wp_kern_vm_init n U s _etext :
  al_inv n U (heap s) -> has (memory s) lo (hi - lo) -> bytes_ok (memory s) -> text_ok _etext ->
  wp (kern_vm_init _etext)
     (fun _ s' => exists root n' U' T', vinv lo hi root n' U' T' s' /\ g_kernel_pagetable s' = root /\
        (size T' + n' = n)%nat /\ forall va, 0 <= va < MAXVA -> pte_at T' (memory s') va = kern_view _etext va)
     (fun h _ => h = al_stop /\ (n < 66)%nat) s.
Proof.
  intros Hal Hm Hb Ht. destruct (text_facts _etext Ht) as (T1 & T2 & T3 & T4 & T5 & T6 & T7 & T8 & T9 & T10).
  destruct Ht as [Hr Hal4]. pose proof MAXVA_val as EM.
  unfold kern_vm_init. apply wp_bind, wp_on_heap. destruct n as [|n].
  { eapply wp_mono; [by apply (al_page_empty U)|done|]. intros h s' ->. split; [done|lia]. }
  destruct (al_arena _ _ _ Hal) as [H0 H56].
  eapply wp_mono; [by apply al_page_ok| |done]. intros a h (Ha & Hpg & Hlo & Hhi & Hal'). cbv beta.
  rewrite (proj2 (Z.eqb_neq _ _)) by lia. apply wp_bind.
  eapply (wp_clear_root n U); [exact Hal'|exact Hpg|done|done|done|lia|done|done|]. intros m1 HV.
  assert (Hsr : size (root_table a) = 1%nat) by apply map_size_singleton.
  assert (Hsubr : tables (root_table a) ⊆ list_to_set kern_paths).
  { unfold tables, root_table. rewrite dom_singleton_L. intros π ->%elem_of_singleton.
    apply elem_of_list_to_set. unfold kern_paths. apply list_elem_of_here. }
  rewrite T1, T2. apply wp_bind.
  eapply (wp_kern_vm_map a n); [exact HV|done|lia|lia|done|unfold DRAM_BASE, PHYS_TOP, KERN_BASE in *; lia| | | |].
  { vm_compute. split; congruence. }
  { intros va _. exists 0. split; [apply view_root|done]. }
  2: { rewrite T5. intros s' Hs. split; [done|]. apply kern_short in Hs; [|done|lia|rewrite Z2Nat.id by lia; lia].
       rewrite Hsr in Hs. lia. }
  intros n2 U2 T2' s2 Ht2 D2. apply wp_bind.
  rewrite T5 in Ht2. assert (Hsub2 : tables T2' ⊆ list_to_set kern_paths).
  { rewrite Ht2. pose proof (kern_page_tables (Z.to_nat (npages KERN_BASE (_etext - KERN_BASE))) KERN_BASE) as HK.
    rewrite Z2Nat.id in HK by lia. specialize (HK ltac:(lia) ltac:(lia)). set_solver. }
  pose proof (ed_count _ _ _ _ _ _ _ _ _ _ _ _ D2) as C2. rewrite Hsr in C2.
  eapply (wp_lookup_pa a); [apply D2|unfold va_ok, KERN_BASE, PGSIZE in *; lia|]. apply wp_bind.
  eapply (wp_kern_vm_map a n2); [apply D2|unfold KERN_BASE, PGSIZE in *; lia|lia|lia|unfold KERN_BASE in *; lia|unfold PHYS_TOP in *; lia| | | |].
  { vm_compute. split; congruence. }
  { intros va Hin%in_pages_range. exists 0. split; [|done]. rewrite T6, T8 in Hin.
    rewrite (ed_view _ _ _ _ _ _ _ _ _ _ _ _ D2) by (unfold KERN_BASE in *; lia). unfold map_view, in_pages.
    rewrite T5, T7. destruct (inside_spec KERN_BASE (_etext - KERN_BASE) va); [lia|apply view_root]. }
  2: { rewrite T6. intros s' Hs. split; [done|]. apply kern_short in Hs; [lia|done|lia|].
       rewrite Z2Nat.id by lia. lia. }
  intros n3 U3 T3' s3 _ D3. apply wp_bind.
  eapply (wp_lookup_pa a); [apply D3|unfold va_ok, KERN_BASE, PGSIZE in *; lia|]. apply wp_modify.
  exists a, n3, U3, T3'. pose proof (ed_count _ _ _ _ _ _ _ _ _ _ _ _ D3) as C3.
  split_and!; [|done|lia|].
  - destruct (ed_inv _ _ _ _ _ _ _ _ _ _ _ _ D3) as [I1 I2 I3 I4]. by split.
  - intros va Hva. cbn [memory]. rewrite (ed_view _ _ _ _ _ _ _ _ _ _ _ _ D3) by done.
    rewrite <- (kern_views a m1 _etext va) by (by split). rewrite T6. unfold map_view at 1 2.
    rewrite (ed_view _ _ _ _ _ _ _ _ _ _ _ _ D2) by done. by rewrite T5.
Qed.

(** Mapping all of memory page by page takes a table for every 2 MiB. *)
Lemma kern_tables root n U T s _etext :
  vinv lo hi root n U T s -> text_ok _etext ->
  (forall va, 0 <= va < MAXVA -> pte_at T (memory s) va = kern_view _etext va) -> (66 <= size T)%nat.
Proof.
  intros HV [Hr Hal] Hview. pose proof (vi_tree _ _ _ _ _ _ _ HV) as HT. rewrite MAXVA_val in Hview.
  assert (Hleaf : forall j, 0 <= j < 64 -> is_Some (T !! [2; j])).
  { intros j Hj. set (va := KERN_BASE + j * 2 ^ 21).
    assert (Hva : KERN_BASE <= va < PHYS_TOP) by (unfold va, PHYS_TOP, PKE_MAX_ALLOWABLE_RAM, KERN_BASE, DRAM_BASE; lia).
    destruct (kern_indices va Hva) as (E2 & E1 & _).
    replace ((va - KERN_BASE) / 2 ^ 21) with j in E1 by (unfold va; change (2 ^ 21) with 2097152; zlia).
    specialize (Hview va ltac:(unfold PHYS_TOP, PKE_MAX_ALLOWABLE_RAM, KERN_BASE, DRAM_BASE in *; lia)).
    unfold pte_at in Hview. rewrite E2, E1 in Hview. destruct (T !! [2; j]) eqn:E; [by eexists|exfalso].
    assert (Hpa : 0 <= va / PGSIZE * PGSIZE < 2 ^ 56).
    { unfold PHYS_TOP, PKE_MAX_ALLOWABLE_RAM, KERN_BASE, DRAM_BASE, PGSIZE in *. zlia. }
    assert (Hne : forall perm, 0 <= perm < 1024 -> leaf_pte (va / PGSIZE * PGSIZE) perm <> 0).
    { intros perm Hperm E0. pose proof (leaf_pte_valid _ perm Hpa Hperm) as Hv. by rewrite E0 in Hv. }
    unfold kern_view in Hview.
    destruct (inside_spec KERN_BASE (_etext - KERN_BASE) va); [|destruct (inside_spec _etext (PHYS_TOP - _etext) va); [|lia]];
      injection Hview as Hv; symmetry in Hv; revert Hv; apply Hne; vm_compute; split; congruence. }
  assert (Hmid : is_Some (T !! [2])) by (destruct (Hleaf 0 ltac:(lia)) as [q Hq]; by apply (pt_prefix _ _ _ HT [2] 0) in Hq).
  assert (Hall : forall π, π ∈ kern_paths -> is_Some (T !! π)).
  { intros π Hp. unfold kern_paths in Hp. rewrite !elem_of_cons in Hp. destruct Hp as [->|[->|Hp]]; [by eexists; apply HT|done|].
    apply list_elem_of_fmap in Hp as (j & -> & Hj). apply elem_of_seqZ in Hj. apply Hleaf. lia. }
  rewrite <- (size_dom (D := gset (list Z))).
  assert (Hsub : (list_to_set kern_paths : gset (list Z)) ⊆ dom T).
  { intros π Hp. apply elem_of_list_to_set in Hp. by apply elem_of_dom, Hall. }
  apply subseteq_size in Hsub. rewrite size_list_to_set in Hsub by apply kern_paths_nodup. exact Hsub.
Qed.
End kern.
