(* ===== verification/VmTheorems.v ===== *)
(** * Address spaces: the theorems

    Proved against the allocator's contract, and instantiated with
    kernel/pmm.c. *)
From stdpp Require Import base gmap list strings.
From Stdlib Require Import ZArith Lia.
From S2P Require Import Prelude Riscv PmmState Dlist Buddy Pmm Tiles BuddyInv BuddyProofs BuddyFree BuddyInit PmmProofs PmmSpec Mem Str Sync Vmm VmmProofs VmmSpec KernVm.

(** ** A concrete address space: a fresh directory over [ex_pmm] *)
Definition zeros (a n : Z) : mem := gset_to_gmap 0 (list_to_set (seqZ a n)).

Lemma zeros_lookup a n x : zeros a n !! x = if inside a n x then Some 0 else None.
Proof.
  unfold zeros. rewrite lookup_gset_to_gmap. destruct (inside_spec a n x) as [Hin|Hout].
  - rewrite option_guard_True; [done|]. apply elem_of_list_to_set, elem_of_seqZ. lia.
  - rewrite option_guard_False; [done|]. intros Hx%elem_of_list_to_set%elem_of_seqZ. lia.
Qed.

Lemma zeros_has a n : has (zeros a n) a n.
Proof. intros x Hx. rewrite zeros_lookup. destruct (inside_spec a n x); [by eexists|lia]. Qed.

Lemma zeros_bytes a n : bytes_ok (zeros a n).
Proof. intros x b. rewrite zeros_lookup. destruct (inside_spec a n x); [|done]. intros [= <-]. lia. Qed.

Lemma pmm_inv_avail lo hi s fl F A ps stale :
  pmm_inv lo hi s fl F A ps stale -> hi * PGSIZE + DRAM_BASE <= 2 ^ 56 ->
  pmm_avail (page_addr lo) (page_addr hi) (length ps) ∅ s.
Proof.
  intros HI Hhi. destruct (bi_range _ _ _ _ _ _ (pi_buddy _ _ _ _ _ _ _ _ HI)) as (H0 & _).
  split; [|unfold page_addr, PGSIZE, DRAM_BASE in *; lia].
  exists lo, hi, fl, F, A, ps, stale. split_and!; try done.
Qed.

Definition ex_alo : Z := page_addr ex_lo.
Definition ex_ahi : Z := page_addr 2048.

(** One page for the directory, 31 more to be had. *)
Lemma ex_space : exists root U s, vinv ex_alo ex_ahi root 31 U (root_table root) s.
Proof.
  destruct ex_pmm_inv as (fl & F & ps & HI).
  pose proof (pmm_inv_avail _ _ _ _ _ _ _ _ HI ltac:(unfold PGSIZE, DRAM_BASE; lia)) as Hav.
  pose proof (pi_size _ _ _ _ _ _ _ _ HI) as Hsz. cbn in Hsz. unfold PCPU_CACHE_SIZE in Hsz.
  replace (length ps) with 32%nat in Hav by lia. fold ex_alo ex_ahi in Hav.
  pose proof (al_page_ok (S := pmm_state) (lo := ex_alo) (hi := ex_ahi) 31 ∅ ex_pmm Hav) as Hp.
  apply wp_returns in Hp as (a & h & _ & _ & Ha & Hlo & Hhi & Hin).
  exists a, (∅ ∪ {[a]}), (mkKmem h (zeros ex_alo (ex_ahi - ex_alo)) 0).
  apply vinv_root; [exact Hin|exact Ha|exact Hlo|exact Hhi|apply zeros_has|apply zeros_bytes|].
  intros x Hx. rewrite zeros_lookup. destruct (inside_spec ex_alo (ex_ahi - ex_alo) x); [done|lia].
Qed.

(** A second allocator, for examples that need more pages than the page cache
    holds: the state is the next page of a 16 MiB arena. *)
Definition bump_lo : Z := 2 ^ 31.
Definition bump_hi : Z := 2 ^ 31 + 2 ^ 24.
Definition bump_page : M Z Z :=
  let* a := gets id in
  if a + PGSIZE <=? bump_hi then modify (fun a => a + PGSIZE) ;;; ret a else panic "bump".
Definition bump_allocator : Allocator Z := {| al_page := bump_page; al_free := fun _ => ret tt |}.

Definition bump_inv (n : nat) (U : gset Z) (a : Z) : Prop :=
  a mod PGSIZE = 0 /\ bump_lo <= a /\ a + Z.of_nat n * PGSIZE = bump_hi /\ forall u, u ∈ U -> u < a.

Program Definition bump_spec : @AllocatorSpec Z bump_allocator bump_lo bump_hi :=
  {| al_inv := bump_inv; al_stop := Panicked "bump" |}.
Next Obligation. intros n U s _. split; vm_compute; congruence. Qed.
Next Obligation.
  intros n U s (Hal & Hlo & Hhi & HU). unfold PGSIZE in *. cbn [al_page bump_allocator]. unfold bump_page.
  apply wp_bind, wp_gets. unfold id. rewrite (proj2 (Z.leb_le _ _)) by (unfold PGSIZE; lia).
  apply wp_bind, wp_modify, wp_ret. split_and!; [|done|done|unfold PGSIZE; lia|].
  - intros Hin%HU. lia.
  - unfold bump_inv, PGSIZE. split_and!; [zlia|lia|lia|].
    intros u [Hu| ->%elem_of_singleton]%elem_of_union; [apply HU in Hu; lia|lia].
Qed.
Next Obligation.
  intros U s (Hal & Hlo & Hhi & HU). cbn [al_page bump_allocator]. unfold bump_page.
  apply wp_bind, wp_gets. unfold id. rewrite (proj2 (Z.leb_gt _ _)) by (unfold PGSIZE in *; lia). by apply wp_halt.
Qed.

Definition bump_pages : nat := Z.to_nat 4096.
Lemma bump_start : bump_inv bump_pages ∅ bump_lo.
Proof.
  split; [done|split; [done|split]].
  - unfold bump_pages. rewrite Z2Nat.id by lia. reflexivity.
  - intros u Hu. by apply not_elem_of_empty in Hu.
Qed.

Section theorems.
Context {S : Type} `{Allocator S} (lo hi : Z) `{!AllocatorSpec S lo hi} (root : Z).

Lemma vinv_edit n U T s n' U' T' s' g :
  edit lo hi root n U T s n' U' T' s' g -> ptree T' root (memory s').
Proof. intros D. apply (ed_inv _ _ _ _ _ _ _ _ _ _ _ _ D). Qed.

Lemma wp_user_vm_map n U T s va size pa perm :
  vinv lo hi root n U T s -> PGSIZE <= va -> 0 < size -> va + size <= MAXVA ->
  0 <= pa -> pa + npages va size * PGSIZE <= 2 ^ 56 -> 0 <= perm < 1024 ->
  wp (user_vm_map root va size pa perm)
     (fun _ s' => map_post lo hi root n U T s (first_page_of va) (Z.to_nat (npages va size)) pa perm 0 s')
     (fun h _ => map_stop lo hi n T s (first_page_of va) (Z.to_nat (npages va size)) h) s.
Proof.
  intros HV Hva Hs Hm Hpa Hp Hperm. unfold user_vm_map. apply wp_bind.
  eapply wp_mono; [by apply (wp_map_pages lo hi root n U T s)| |done].
  intros r s' (-> & Hp1 & Hp2). apply wp_ret. done.
Qed.

(** Translation of an address in a mapped range. *)
Lemma translate_mapped g va size pa perm vb :
  va mod PGSIZE = 0 -> pa mod PGSIZE = 0 -> 0 <= va -> 0 < size -> va + size <= MAXVA ->
  0 <= pa -> pa + npages va size * PGSIZE <= 2 ^ 56 -> 0 <= perm < 1024 -> va <= vb < va + size ->
  va_to_pa_spec (map_view g (first_page_of va) (npages va size) pa perm vb) vb = Some (pa + (vb - va)).
Proof.
  intros Hal Hpal Hva Hs Hm Hpa Hp Hperm Hvb.
  destruct (npages_facts va size Hva Hs Hm) as (_ & Hk & _ & Hm2 & Hf & _).
  assert (Ef : first_page_of va = va) by (unfold first_page_of; lia). rewrite Ef in *.
  assert (Hin : in_pages va (npages va size) vb = true).
  { apply in_pages_page; [done|lia|]. unfold npages, PGSIZE in *. zlia. }
  unfold map_view. rewrite Hin. apply in_pages_page in Hin; [|done|lia].
  set (pb := pa + (vb / PGSIZE - va / PGSIZE) * PGSIZE).
  assert (Hpb : 0 <= pb < 2 ^ 56 /\ pb mod PGSIZE = 0) by (unfold pb, PGSIZE in *; split; zlia).
  cbn [va_to_pa_spec]. rewrite leaf_pte_valid, leaf_pte_page by (done || lia). f_equal.
  assert (Eb : pb = pb / PGSIZE * 2 ^ 12) by (change (2 ^ 12) with PGSIZE; unfold PGSIZE in *; zlia).
  rewrite Eb, lor_low; [|lia|change (2 ^ 12) with PGSIZE; apply Z.mod_pos_bound; done].
  rewrite <- Eb. unfold pb, PGSIZE in *. zlia.
Qed.
End theorems.

(** ** Theorems *)

(** C5: [map_pages] gives every page that [va, va + sz) touches the entry
    of the corresponding physical page, and leaves every other translation
    and all memory outside the page table as it was; new tables come from the
    allocator.  It stops only when the allocator does, and only if the tables that
    are missing outnumber the pages left, or with the panic for a page that is
    mapped already, and only if there is one. *)
Theorem map_pages_correct {S} `{Allocator S} lo hi `{!AllocatorSpec S lo hi} root n U T s va sz pa perm :
  vinv lo hi root n U T s -> PGSIZE <= va -> 0 < sz -> va + sz <= MAXVA ->
  0 <= pa -> pa + npages va sz * PGSIZE <= 2 ^ 56 -> 0 <= perm < 1024 ->
  wp (map_pages root va sz pa perm)
     (fun r s' => r = 0 /\ exists n' U' T', vinv lo hi root n' U' T' s' /\ T ⊆ T' /\
        (size T' + n' = size T + n)%nat /\
        tables T' = tables T ∪ page_tables (first_page_of va) (Z.to_nat (npages va sz)) /\
        (forall vb, 0 <= vb < MAXVA -> pte_at T' (memory s') vb =
           map_view (pte_at T (memory s)) (first_page_of va) (npages va sz) pa perm vb) /\
        (forall x, (forall π p, T' !! π = Some p -> ~ (p <= x < p + PGSIZE)) -> memory s' !! x = memory s !! x))
     (fun h _ => (h = al_stop /\ short n T (page_tables (first_page_of va) (Z.to_nat (npages va sz)))) \/
        (h = map_panic /\ ~ all_unmapped (pte_at T (memory s)) (first_page_of va) (npages va sz))) s.
Proof.
  intros HV Hva Hs Hm Hpa Hp Hperm.
  assert (Hva0 : 0 <= va) by (unfold PGSIZE in Hva; lia).
  destruct (npages_facts va sz Hva0 Hs Hm) as (_ & Hk & _).
  eapply wp_mono; [by apply (wp_map_pages lo hi root n U T s)|..].
  - intros r s' (-> & _ & n' & U' & T' & HT & D). rewrite Z2Nat.id in D by lia.
    split; [done|]. exists n', U', T'. destruct D. by split_and!.
  - intros h s' [[-> Hn]|[-> Hnot]]; [left; by split|right; split; [done|]].
    by rewrite Z2Nat.id in Hnot by lia.
Qed.

Lemma map_pages_correct_witness : exists root T (s : kmem pmm_state),
  wp (map_pages root 65536 8192 2147483648 7)
     (fun r s' => r = 0 /\ exists n' U' T', vinv ex_alo ex_ahi root n' U' T' s' /\ T ⊆ T' /\
        (size T' + n' = size T + 31)%nat /\
        tables T' = tables T ∪ page_tables (first_page_of 65536) (Z.to_nat (npages 65536 8192)) /\
        (forall vb, 0 <= vb < MAXVA -> pte_at T' (memory s') vb =
           map_view (pte_at T (memory s)) (first_page_of 65536) (npages 65536 8192) 2147483648 7 vb) /\
        (forall x, (forall π p, T' !! π = Some p -> ~ (p <= x < p + PGSIZE)) -> memory s' !! x = memory s !! x))
     (fun h _ => (h = al_stop (lo := ex_alo) (hi := ex_ahi) /\
            short 31 T (page_tables (first_page_of 65536) (Z.to_nat (npages 65536 8192)))) \/
        (h = map_panic /\ ~ all_unmapped (pte_at T (memory s)) (first_page_of 65536) (npages 65536 8192))) s.
Proof.
  destruct ex_space as (root & U & s & HV). exists root, (root_table root), s.
  apply (map_pages_correct ex_alo ex_ahi root 31 U (root_table root) s 65536 8192 2147483648 7);
    [exact HV|unfold PGSIZE; lia|lia|rewrite MAXVA_val; lia|lia|vm_compute; congruence|lia].
Defined.

(** After [user_vm_map] of page-aligned ranges, [user_va_to_pa] translates
    every address of the range to the address at the same distance from the
    start of the physical range. *)
Lemma user_map_translate {S} `{Allocator S} lo hi `{!AllocatorSpec S lo hi} root n U T s va sz pa perm vb :
  vinv lo hi root n U T s -> PGSIZE <= va -> va mod PGSIZE = 0 -> 0 < sz -> va + sz <= MAXVA ->
  0 <= pa -> pa mod PGSIZE = 0 -> pa + npages va sz * PGSIZE <= 2 ^ 56 -> 0 <= perm < 1024 ->
  va <= vb < va + sz ->
  wp (user_vm_map root va sz pa perm ;;; user_va_to_pa root vb)
     (fun r _ => r = Some (pa + (vb - va))) (fun h _ => h = al_stop \/ h = map_panic) s.
Proof.
  intros HV Hva Hal Hs Hm Hpa Hpal Hp Hperm Hvb.
  assert (Hva0 : 0 <= va) by (unfold PGSIZE in Hva; lia).
  destruct (npages_facts va sz Hva0 Hs Hm) as (_ & Hk & _).
  apply wp_bind. eapply wp_mono; [by apply (wp_user_vm_map lo hi root n U T s)|..].
  - intros _ s' (_ & _ & n' & U' & T' & _ & D). rewrite Z2Nat.id in D by lia.
    eapply (wp_user_va_to_pa root T'); [by eapply vinv_edit|unfold va_ok, PGSIZE in *; lia|].
    rewrite (ed_view _ _ _ _ _ _ _ _ _ _ _ _ D) by lia. by apply translate_mapped.
  - intros h s' [[-> _]|[-> _]]; [by left|by right].
Qed.

(** [lookup_pa] changes nothing and returns the page of a leaf entry that
    is valid and readable or writable, 0 for any other entry and beyond
    MAXVA. *)
Lemma lookup_pa_correct {S} `{Allocator S} lo hi `{!AllocatorSpec S lo hi} root n U T s va :
  vinv lo hi root n U T s -> 0 < va ->
  wp (lookup_pa root va)
     (fun r s' => s' = s /\ r = if MAXVA <=? va then 0 else lookup_spec (pte_at T (memory s) va)) no_stop s.
Proof.
  intros HV Hva. destruct (Z.leb_spec MAXVA va) as [Hge|Hlt].
  - unfold lookup_pa. rewrite (proj2 (Z.leb_le _ _)) by done. by apply wp_ret.
  - eapply (wp_lookup_pa root T); [by apply (vi_tree _ _ _ _ _ _ _ HV)|unfold va_ok; lia|done].
Qed.

(** C16: [user_vm_unmap] that keeps the pages ([free] = 0) always returns; it
    clears the valid entries of the pages the range touches, changes no
    other translation and takes no page. *)
Theorem user_vm_unmap_correct {S} `{Allocator S} lo hi `{!AllocatorSpec S lo hi} root n U T s va sz :
  vinv lo hi root n U T s -> PGSIZE <= va -> 0 < sz -> va + sz <= MAXVA ->
  wp (user_vm_unmap root va sz false)
     (fun _ s' => vinv lo hi root n U T s' /\
        (forall vb, 0 <= vb < MAXVA -> pte_at T (memory s') vb =
           unmap_view (pte_at T (memory s)) (first_page_of va) (npages va sz) vb) /\
        (forall x, (forall π p, T !! π = Some p -> ~ (p <= x < p + PGSIZE)) -> memory s' !! x = memory s !! x))
     no_stop s.
Proof.
  intros HV Hva Hs Hm. assert (Hva0 : 0 <= va) by (unfold PGSIZE in Hva; lia).
  destruct (npages_facts va sz Hva0 Hs Hm) as (E1 & Hk & _ & Hm2 & Hf & Hlt & Hsz). pose proof MAXVA_val as EM.
  unfold user_vm_unmap. rewrite E1, u64_id by (unfold is_u64; lia).
  apply (wp_unmap_loop lo hi root (Z.to_nat (npages va sz)) _ n U T s); rewrite ?Z2Nat.id by lia; try done.
  - unfold PGSIZE in *. lia.
  - unfold first_page_of, npages, PGSIZE in *. zlia.
  - apply Z2Nat.inj_le; [lia|unfold PGSIZE; zlia|]. unfold npages, PGSIZE in *. zlia.
  - intros s' D. destruct D. by split_and!.
Qed.

Lemma user_vm_unmap_correct_witness : exists root U T (s : kmem pmm_state),
  wp (user_vm_unmap root 65536 8192 false)
     (fun _ s' => vinv ex_alo ex_ahi root 31 U T s' /\
        (forall vb, 0 <= vb < MAXVA -> pte_at T (memory s') vb =
           unmap_view (pte_at T (memory s)) (first_page_of 65536) (npages 65536 8192) vb) /\
        (forall x, (forall π p, T !! π = Some p -> ~ (p <= x < p + PGSIZE)) -> memory s' !! x = memory s !! x))
     no_stop s.
Proof.
  destruct ex_space as (root & U & s & HV). exists root, U, (root_table root), s.
  apply (user_vm_unmap_correct ex_alo ex_ahi root 31 U (root_table root) s 65536 8192);
    [exact HV|unfold PGSIZE; lia|lia|rewrite MAXVA_val; lia].
Defined.

(** C14: mapping a fresh range and unmapping it gives back the translations
    there were before, and keeps the tables it created. *)
Theorem map_unmap_restores {S} `{Allocator S} lo hi `{!AllocatorSpec S lo hi} root n U T s va sz pa perm :
  vinv lo hi root n U T s -> PGSIZE <= va -> 0 < sz -> va + sz <= MAXVA ->
  0 <= pa -> pa + npages va sz * PGSIZE <= 2 ^ 56 -> 0 <= perm < 1024 ->
  (forall vb, in_pages (first_page_of va) (npages va sz) vb = true -> pte_at T (memory s) vb = Some 0) ->
  wp (user_vm_map root va sz pa perm ;;; user_vm_unmap root va sz false)
     (fun _ s' => exists n' U' T', vinv lo hi root n' U' T' s' /\ T ⊆ T' /\
        forall vb, 0 <= vb < MAXVA -> pte_at T' (memory s') vb = pte_at T (memory s) vb)
     (fun h _ => h = al_stop) s.
Proof.
  intros HV Hva Hs Hm Hpa Hp Hperm Hfree.
  assert (Hva0 : 0 <= va) by (unfold PGSIZE in Hva; lia). pose proof MAXVA_val as EM.
  destruct (npages_facts va sz Hva0 Hs Hm) as (E1 & Hk & _ & Hm2 & Hf & Hlt & Hsz).
  apply wp_bind. eapply wp_mono; [by apply (wp_user_vm_map lo hi root n U T s)|..].
  2: { intros h s' [[-> _]|[_ Hnot]]; [done|]. exfalso. apply Hnot. rewrite Z2Nat.id by lia.
       intros vb Hin. exists 0. split; [by apply Hfree|done]. }
  intros _ s1 (_ & _ & n1 & U1 & T1 & _ & D1). rewrite Z2Nat.id in D1 by lia.
  unfold user_vm_unmap. rewrite E1, u64_id by (unfold is_u64; lia). apply wp_no_stop.
  apply (wp_unmap_loop lo hi root (Z.to_nat (npages va sz)) _ n1 U1 T1 s1); rewrite ?Z2Nat.id by lia; try done.
  - apply D1.
  - unfold PGSIZE in *. lia.
  - unfold first_page_of, npages, PGSIZE in *. zlia.
  - apply Z2Nat.inj_le; [lia|unfold PGSIZE; zlia|]. unfold npages, PGSIZE in *. zlia.
  - intros s' D2. exists n1, U1, T1. split_and!; [apply D2|apply D1|]. intros vb Hvb.
    rewrite (ed_view _ _ _ _ _ _ _ _ _ _ _ _ D2) by done. unfold unmap_view.
    rewrite (ed_view _ _ _ _ _ _ _ _ _ _ _ _ D1) by done. unfold map_view.
    destruct (in_pages (first_page_of va) (npages va sz) vb) eqn:Hin; [|done].
    rewrite Hfree by done. cbn. rewrite leaf_pte_valid; [done| |done].
    apply in_pages_page in Hin; [|done|lia]. unfold first_page_of, PGSIZE in *. zlia.
Qed.

Lemma map_unmap_restores_witness : exists root T (s : kmem pmm_state),
  wp (user_vm_map root 65536 8192 2147483648 7 ;;; user_vm_unmap root 65536 8192 false)
     (fun _ s' => exists n' U' T', vinv ex_alo ex_ahi root n' U' T' s' /\ T ⊆ T' /\
        forall vb, 0 <= vb < MAXVA -> pte_at T' (memory s') vb = pte_at T (memory s) vb)
     (fun h _ => h = al_stop (lo := ex_alo) (hi := ex_ahi)) s.
Proof.
  destruct ex_space as (root & U & s & HV). exists root, (root_table root), s.
  apply (map_unmap_restores ex_alo ex_ahi root 31 U (root_table root) s 65536 8192 2147483648 7);
    [exact HV|unfold PGSIZE; lia|lia|rewrite MAXVA_val; lia|lia|vm_compute; congruence|lia
    |intros vb _; apply view_root].
Defined.

(** C8: [kern_vm_init] returns when 66 pages are left, and only then.  It has
    then set [g_kernel_pagetable] to a
    page table that maps every address from KERN_BASE to PHYS_TOP to itself,
    the pages below [_etext] for reading and executing and the others for
    reading and writing, and maps nothing else.  With fewer pages it ends in
    the allocator. *)
Theorem kern_vm_init_correct {S} `{Allocator S} lo hi `{!AllocatorSpec S lo hi} n U s _etext :
  al_inv n U (heap s) -> has (memory s) lo (hi - lo) -> bytes_ok (memory s) -> text_ok _etext ->
  wp (kern_vm_init _etext)
     (fun _ s' => exists n' U' T', vinv lo hi (g_kernel_pagetable s') n' U' T' s' /\ (n' + 66 <= n)%nat /\
        forall va, 0 <= va < MAXVA -> pte_at T' (memory s') va = kern_view _etext va)
     (fun h _ => h = al_stop /\ (n < 66)%nat) s.
Proof.
  intros Hal Hm Hb Ht. eapply wp_mono; [by apply (wp_kern_vm_init lo hi n U)| |done].
  intros _ s' (root & n' & U' & T' & HV & -> & Hn & Hview). exists n', U', T'.
  pose proof (kern_tables lo hi root n' U' T' s' _etext HV Ht Hview). split_and!; [done|lia|done].
Qed.

Lemma kern_vm_init_correct_witness :
  let s := mkKmem bump_lo (zeros bump_lo (bump_hi - bump_lo)) 0 in
  wp (@kern_vm_init Z bump_allocator 2147549184)
     (fun _ s' => exists n' U' T', @vinv Z bump_allocator bump_lo bump_hi bump_spec (g_kernel_pagetable s') n' U' T' s' /\
        (n' + 66 <= bump_pages)%nat /\
        forall va, 0 <= va < MAXVA -> pte_at T' (memory s') va = kern_view 2147549184 va)
     (fun h _ => h = @al_stop Z bump_allocator bump_lo bump_hi bump_spec /\ (bump_pages < 66)%nat) s.
Proof.
  apply (@kern_vm_init_correct Z bump_allocator bump_lo bump_hi bump_spec bump_pages ∅ _ 2147549184).
  - exact bump_start.
  - apply zeros_has.
  - apply zeros_bytes.
  - vm_compute; repeat split; congruence.
Defined.

(** With kernel/pmm.c the kernel does not come up: after [pmm_init] the
    page cache holds PCPU_CACHE_SIZE pages, the kernel page table needs 66,
    and [kern_vm_init] ends waiting for [buddy_lock] in the call of
    [alloc_page] that finds the cache empty. *)
Lemma kernel_boot_spins s m g _end _etext c0 cnt :
  boot_fits s _end -> pcpu_caches s !! 0 = Some (mkCache c0 cnt) ->
  Z.of_nat (length c0) = PCPU_CACHE_SIZE -> tp (cpu s) = 0 ->
  has m DRAM_BASE (managed s) -> bytes_ok m -> text_ok _etext ->
  wp (on_heap (pmm_init _end) ;;; kern_vm_init _etext)
     (fun _ _ => False) (fun h _ => h = Spins "main_buddy.buddy_lock") (mkKmem s m g).
Proof.
  intros HB Hc Hl Htp Hm Hb Ht. pose proof (boot_arith s _end HB) as HA. cbv zeta in HA.
  destruct HA as (A1 & A2 & _ & _ & _ & _ & _ & _ & A9 & _ & _). fold (managed s) in A1, A2.
  apply wp_bind, wp_on_heap, wp_no_stop. eapply wp_mono; [by eapply wp_boot| |done].
  intros _ s' (ps & [(fl & F & HI) _ _]). cbv beta. cbn [heap memory g_kernel_pagetable].
  pose proof (pi_size _ _ _ _ _ _ _ _ HI) as Hsz. cbn in Hsz. unfold PCPU_CACHE_SIZE in Hsz.
  assert (Hav : pmm_avail DRAM_BASE (DRAM_BASE + managed s) 32 ∅ s').
  { split; [|unfold PKE_MAX_ALLOWABLE_RAM, DRAM_BASE in *; lia].
    exists (first_page s _end), (managed s / PGSIZE), fl, F, (used ps), ps, [].
    split_and!; [exact HI|lia|set_solver|unfold page_addr, PGSIZE; lia|unfold page_addr; lia]. }
  eapply wp_mono; [apply (wp_kern_vm_init (S := pmm_state) DRAM_BASE (DRAM_BASE + managed s) 32 ∅ _ _etext)| |by intros h s2 [-> _]].
  - exact Hav.
  - cbn. by replace (DRAM_BASE + managed s - DRAM_BASE) with (managed s) by lia.
  - done.
  - done.
  - intros _ s2 (root & n' & U' & T' & HV & _ & Hn & Hview).
    pose proof (kern_tables _ _ root n' U' T' s2 _etext HV Ht Hview). lia.
Qed.

(** The permission bits [prot_to_type] gives: a writable page is dirty,
    a readable or executable one accessed, a page without any access is
    readable all the same, the user bit is the caller's, and the valid bit is
    left to map_pages. *)
Lemma prot_to_type_bits prot user : 0 <= prot < 8 ->
  let t := prot_to_type prot user in
  0 <= t < 256 /\ bit_set t PTE_V = false /\
  bit_set t PTE_U = negb (user =? 0) /\
  bit_set t PTE_W = bit_set prot PROT_WRITE /\ bit_set t PTE_D = bit_set prot PROT_WRITE /\
  bit_set t PTE_X = bit_set prot PROT_EXEC /\
  bit_set t PTE_A = bit_set prot PROT_READ || bit_set prot PROT_EXEC /\
  bit_set t PTE_R = bit_set prot PROT_READ || (prot =? PROT_NONE).
Proof.
  intros Hp. assert (Hc : prot = 0 \/ prot = 1 \/ prot = 2 \/ prot = 3 \/ prot = 4 \/ prot = 5 \/ prot = 6 \/ prot = 7) by lia.
  unfold prot_to_type. destruct (user =? 0); destruct_or! Hc; subst prot; vm_compute; repeat split; congruence.
Qed.
