(* ===== verification/ProcState.v ===== *)
(** * Processes: data and state (kernel/process.h)

    The process pool, [current], the ready queue and the recorded ticks, next
    to the memory of Vmm.v.  A pointer to a [process] is its index in [procs];
    trap frames and region tables live in byte memory, at the offsets of
    process.h. *)
From stdpp Require Import base gmap list strings.
From Stdlib Require Import ZArith Lia.
From S2P Require Import Prelude Riscv PmmState Mem Vmm.

Definition NPROC : Z := 32.
Definition MAX_HEAP_PAGES : Z := 32.

(** enum proc_status and enum segment_type are ints in the structures. *)
Definition FREE : Z := 0.
Definition READY : Z := 1.
Definition RUNNING : Z := 2.
Definition BLOCKED : Z := 3.
Definition ZOMBIE : Z := 4.

Definition STACK_SEGMENT : Z := 0.
Definition CONTEXT_SEGMENT : Z := 1.
Definition SYSTEM_SEGMENT : Z := 2.
Definition HEAP_SEGMENT : Z := 3.
Definition CODE_SEGMENT : Z := 4.
Definition DATA_SEGMENT : Z := 5.

(** [free_pages_address] has MAX_HEAP_PAGES entries. *)
Record process_heap_manager := mkHeap {
  heap_top : Z;
  heap_bottom : Z;
  free_pages_address : list Z;
  free_pages_count : Z
}.

Record process := mkProcess {
  kstack : Z;
  pagetable : Z;
  trapframe : Z;            (* address of the trap frame *)
  mapped_info : Z;          (* address of the page of mapped_regions *)
  total_mapped_region : Z;
  user_heap : process_heap_manager;
  pid : Z;
  status : Z;
  parent : option Z;
  queue_next : option Z;
  tick_count : Z
}.

Definition with_kstack v p := mkProcess v (pagetable p) (trapframe p) (mapped_info p) (total_mapped_region p) (user_heap p) (pid p) (status p) (parent p) (queue_next p) (tick_count p).
Definition with_pagetable v p := mkProcess (kstack p) v (trapframe p) (mapped_info p) (total_mapped_region p) (user_heap p) (pid p) (status p) (parent p) (queue_next p) (tick_count p).
Definition with_trapframe v p := mkProcess (kstack p) (pagetable p) v (mapped_info p) (total_mapped_region p) (user_heap p) (pid p) (status p) (parent p) (queue_next p) (tick_count p).
Definition with_mapped_info v p := mkProcess (kstack p) (pagetable p) (trapframe p) v (total_mapped_region p) (user_heap p) (pid p) (status p) (parent p) (queue_next p) (tick_count p).
Definition with_total v p := mkProcess (kstack p) (pagetable p) (trapframe p) (mapped_info p) v (user_heap p) (pid p) (status p) (parent p) (queue_next p) (tick_count p).
Definition with_heap v p := mkProcess (kstack p) (pagetable p) (trapframe p) (mapped_info p) (total_mapped_region p) v (pid p) (status p) (parent p) (queue_next p) (tick_count p).
Definition with_pid v p := mkProcess (kstack p) (pagetable p) (trapframe p) (mapped_info p) (total_mapped_region p) (user_heap p) v (status p) (parent p) (queue_next p) (tick_count p).
Definition with_status v p := mkProcess (kstack p) (pagetable p) (trapframe p) (mapped_info p) (total_mapped_region p) (user_heap p) (pid p) v (parent p) (queue_next p) (tick_count p).
Definition with_parent v p := mkProcess (kstack p) (pagetable p) (trapframe p) (mapped_info p) (total_mapped_region p) (user_heap p) (pid p) (status p) v (queue_next p) (tick_count p).
Definition with_next v p := mkProcess (kstack p) (pagetable p) (trapframe p) (mapped_info p) (total_mapped_region p) (user_heap p) (pid p) (status p) (parent p) v (tick_count p).

Definition with_heap_top v h := mkHeap v (heap_bottom h) (free_pages_address h) (free_pages_count h).
Definition with_heap_bottom v h := mkHeap (heap_top h) v (free_pages_address h) (free_pages_count h).
Definition with_free_pages v h := mkHeap (heap_top h) (heap_bottom h) v (free_pages_count h).
Definition with_free_count v h := mkHeap (heap_top h) (heap_bottom h) (free_pages_address h) v.

(** Offsets in [trapframe]. *)
Definition TF_SP : Z := 8.
Definition TF_TP : Z := 24.
Definition TF_A (i : Z) : Z := 72 + 8 * i.   (* a0 .. a7 *)
Definition TF_KERNEL_SP : Z := 248.
Definition TF_KERNEL_TRAP : Z := 256.
Definition TF_EPC : Z := 264.
Definition TF_KERNEL_SATP : Z := 272.
Definition sizeof_trapframe : Z := 280.

(** Offsets in [mapped_region], and its size. *)
Definition MR_VA : Z := 0.
Definition MR_NPAGES : Z := 8.
Definition MR_TYPE : Z := 12.
Definition sizeof_mapped_region : Z := 16.
Definition sizeof_process : Z := 360.

(** The hart that runs the kernel, inside the allocator's state (pmm.c reads
    its registers too). *)
Class Harts (S : Type) := {
  hart_of : S -> hart;
  with_hart : (hart -> hart) -> S -> S
}.
#[export] Instance pmm_harts : Harts pmm_state :=
  { hart_of := cpu; with_hart f s := set_cpu (f (cpu s)) s }.

(** The kernel's state.  [procs] has indices 0 .. NPROC-1. *)
Record kstate (S : Type) := mkKstate {
  km : kmem S;
  procs : gmap Z process;
  current : option Z;
  ready_queue_head : option Z;
  g_ticks : Z
}.
Arguments mkKstate {S} _ _ _ _ _.
Arguments km {S} _.
Arguments procs {S} _.
Arguments current {S} _.
Arguments ready_queue_head {S} _.
Arguments g_ticks {S} _.

Section access.
Context {S : Type} `{Harts S}.

Definition set_km (v : kmem S) (s : kstate S) : kstate S := mkKstate v (procs s) (current s) (ready_queue_head s) (g_ticks s).
Definition set_procs v (s : kstate S) : kstate S := mkKstate (km s) v (current s) (ready_queue_head s) (g_ticks s).
Definition set_current v (s : kstate S) : kstate S := mkKstate (km s) (procs s) v (ready_queue_head s) (g_ticks s).
Definition set_head v (s : kstate S) : kstate S := mkKstate (km s) (procs s) (current s) v (g_ticks s).

Definition on_km {A} (m : M (kmem S) A) : M (kstate S) A := zoom km set_km m.
Definition pmem {A} (m : M mem A) : M (kstate S) A := on_km (on_mem m).

(** [p->...] through a pointer to a process; NULL is no object. *)
Definition proc (p : option Z) : M (kstate S) process :=
  read_opt (fun s => p ≫= fun i => procs s !! i).
Definition upd_proc (f : process -> process) (p : option Z) : M (kstate S) unit :=
  let* x := proc p in
  modify (fun s => from_option (fun i => set_procs (<[i := f x]> (procs s)) s) s p).

Definition the_hart (s : kstate S) : hart := hart_of (heap (km s)).
Definition upd_hart (f : hart -> hart) (s : kstate S) : kstate S :=
  set_km (mkKmem (with_hart f (heap (km s))) (memory (km s)) (g_kernel_pagetable (km s))) s.
Definition read_csr (r : hart -> Z) : M (kstate S) Z := gets (fun s => r (the_hart s)).
Definition write_csr (f : hart -> hart) : M (kstate S) unit := modify (upd_hart f).

(** [procs[i].mapped_info[j].field] *)
Definition region (info j : Z) : Z := u64 (info + sizeof_mapped_region * j).
End access.
