(* ===== verification/Csr.v ===== *)
(** * kernel/riscv.h: the rest

    Constants and register operations that no other file of the kernel uses
    today, and the layout of [riscv_regs], the general registers saved in a
    trap frame. *)
From stdpp Require Import base gmap list strings.
From Stdlib Require Import ZArith Lia.
From S2P Require Import Prelude Riscv PmmState Mem Vmm ProcState.

(** mstatus, mip, mie, physical memory protection, sstatus, causes. *)
Definition MSTATUS_MPP_M : Z := Z.shiftl 3 11.
Definition MSTATUS_MPP_U : Z := Z.shiftl 0 11.
Definition IRQ_M_SOFT : Z := 3.
Definition MIP_MSIP : Z := Z.shiftl 1 IRQ_M_SOFT.
Definition PMP_R : Z := 1.
Definition PMP_W : Z := 2.
Definition PMP_X : Z := 4.
Definition PMP_A : Z := 24.
Definition PMP_L : Z := 128.
Definition PMP_SHIFT : Z := 2.
Definition PMP_TOR : Z := 8.
Definition PMP_NA4 : Z := 16.
Definition PMP_NAPOT : Z := 24.
Definition CAUSE_SUPERVISOR_ECALL : Z := 9.
Definition CAUSE_MACHINE_ECALL : Z := 11.
Definition SSTATUS_UPIE : Z := Z.shiftl 1 4.
Definition SSTATUS_UIE : Z := Z.shiftl 1 0.
Definition SSTATUS_SUM : Z := 262144.
Definition SSTATUS_FS : Z := 24576.
Definition MIE_MEIE : Z := Z.shiftl 1 11.
Definition MIE_MSIE : Z := Z.shiftl 1 3.

(** ** Registers of the hart *)
Definition write_tp (x : Z) (h : hart) : hart := set_tp x h.

(** [csrrw] and [csrrs] on a register read by [get] and written by [put]. *)
Definition swap_csr (get : hart -> Z) (put : Z -> hart -> hart) (val : Z) (h : hart) : Z * hart := (get h, put val h).
Definition set_csr (get : hart -> Z) (put : Z -> hart -> hart) (bit : Z) (h : hart) : Z * hart := (get h, put (Z.lor (get h) bit) h).

Definition intr_on (h : hart) : hart := set_sstatus (Z.lor (sstatus h) SSTATUS_SIE) h.
Definition intr_off (h : hart) : hart := set_sstatus (Z.land (sstatus h) (Z.lnot SSTATUS_SIE)) h.
Definition is_intr_enable (h : hart) : bool := negb (Z.land (sstatus h) SSTATUS_SIE =? 0).

Lemma intr_on_enables h : is_intr_enable (intr_on h) = true.
Proof.
  unfold is_intr_enable, intr_on. cbn [sstatus set_sstatus]. rewrite Z.land_comm, Z.lor_comm.
  replace (Z.land SSTATUS_SIE _) with SSTATUS_SIE; [done|]. apply Z.bits_inj. intros i. rewrite Z.land_spec, Z.lor_spec. by destruct (Z.testbit SSTATUS_SIE i).
Qed.
Lemma intr_off_disables h : is_intr_enable (intr_off h) = false.
Proof. unfold is_intr_enable, intr_off. cbn [sstatus set_sstatus]. rewrite <- Z.land_assoc. change (Z.land (Z.lnot SSTATUS_SIE) SSTATUS_SIE) with 0. by rewrite Z.land_0_r. Qed.
(** [intr_off] is what [disable_irqsave] does. *)
Lemma intr_off_irqsave h : intr_off h = snd (disable_irqsave h).
Proof. unfold intr_off, disable_irqsave. cbn [snd]. by rewrite Z.ldiff_land. Qed.

(** ** riscv_regs *)
Inductive riscv_reg :=
  | R_ra | R_sp | R_gp | R_tp | R_t0 | R_t1 | R_t2 | R_s0 | R_s1 | R_a0 | R_a1 | R_a2 | R_a3 | R_a4 | R_a5 | R_a6 | R_a7
  | R_s2 | R_s3 | R_s4 | R_s5 | R_s6 | R_s7 | R_s8 | R_s9 | R_s10 | R_s11 | R_t3 | R_t4 | R_t5 | R_t6.
#[export] Instance riscv_reg_eq_dec : EqDecision riscv_reg.
Proof. solve_decision. Defined.

(** The fields in order, eight bytes each. *)
Definition riscv_regs : list riscv_reg :=
  [R_ra; R_sp; R_gp; R_tp; R_t0; R_t1; R_t2; R_s0; R_s1; R_a0; R_a1; R_a2; R_a3; R_a4; R_a5; R_a6; R_a7;
   R_s2; R_s3; R_s4; R_s5; R_s6; R_s7; R_s8; R_s9; R_s10; R_s11; R_t3; R_t4; R_t5; R_t6].
Fixpoint field_offset (l : list riscv_reg) (r : riscv_reg) : Z :=
  match l with [] => 0 | r' :: l => if decide (r' = r) then 0 else 8 + field_offset l r end.
Definition reg_offset (r : riscv_reg) : Z := field_offset riscv_regs r.

(** Every field lies inside, on its own eight bytes; the trap frame of
    process.h continues behind them. *)
Lemma reg_offset_range r : 0 <= reg_offset r /\ reg_offset r + 8 <= TF_KERNEL_SP /\ reg_offset r mod 8 = 0.
Proof. destruct r; vm_compute; split_and!; (done || congruence). Qed.
Lemma reg_offset_inj r r' : reg_offset r = reg_offset r' -> r = r'.
Proof.
  assert (Hn : forall r, riscv_regs !! Z.to_nat (reg_offset r / 8) = Some r) by (intros []; reflexivity).
  intros E. pose proof (Hn r) as H1. rewrite E, Hn in H1. by injection H1.
Qed.
Lemma trapframe_regs : TF_SP = reg_offset R_sp /\ TF_TP = reg_offset R_tp /\
  (fun i => TF_A i) <$> seqZ 0 8 = reg_offset <$> [R_a0; R_a1; R_a2; R_a3; R_a4; R_a5; R_a6; R_a7].
Proof. done. Qed.
(** The comment beside the field says 196. *)
Lemma s10_offset : reg_offset R_s10 = 200.
Proof. done. Qed.
