(* ===== verification/Sched.v ===== *)
(** * kernel/sched.c, and switch_to of kernel/process.c

    The ready queue, the scheduler and the switch to user mode. *)
From stdpp Require Import base gmap list strings.
From Stdlib Require Import ZArith Lia.
From S2P Require Import Prelude Riscv PmmState Mem Vmm ProcState.

(** Addresses the linker provides. *)
Record symbols := mkSymbols {
  smode_trap_vector : Z;
  smode_trap_handler_addr : Z;
  trap_sec_start : Z;
  procs_addr : Z    (* of the array [procs] *)
}.

Section sched.
Context {S : Type} `{Harts S} (sym : symbols).

Definition switch_to (p : option Z) : M (kstate S) unit :=
  kernel_assert (bool_decide (is_Some p)) "proc" ;;;
  modify (set_current p) ;;;
  write_csr (set_stvec (smode_trap_vector sym)) ;;;
  let* pr := proc p in
  pmem (store64 (u64 (trapframe pr + TF_KERNEL_SP)) (kstack pr)) ;;;
  let* sat := read_csr satp in
  pmem (store64 (u64 (trapframe pr + TF_KERNEL_SATP)) sat) ;;;
  pmem (store64 (u64 (trapframe pr + TF_KERNEL_TRAP)) (smode_trap_handler_addr sym)) ;;;
  let* x := read_csr sstatus in
  let x := Z.ldiff x SSTATUS_SPP in
  let x := Z.lor x SSTATUS_SPIE in
  write_csr (set_sstatus x) ;;;
  let* epc := pmem (load64 (u64 (trapframe pr + TF_EPC))) in
  write_csr (set_sepc epc) ;;;
  let user_satp := MAKE_SATP (pagetable pr) in
  halt (ToUser (trapframe pr) user_satp).

(** The walk to the end of the queue: [None] when [p] is met on the way,
    otherwise the last element. *)
Fixpoint queue_walk (fuel : nat) (q p : Z) : M (kstate S) (option Z) :=
  match fuel with
  | O => halt OutOfFuel
  | Datatypes.S fuel =>
      let* x := proc (Some q) in
      match queue_next x with
      | None => ret (if q =? p then None else Some q)
      | Some n => if q =? p then ret None else queue_walk fuel n p
      end
  end.

Definition insert_to_ready_queue (p : Z) : M (kstate S) unit :=
  let* head := gets ready_queue_head in
  match head with
  | None =>
      upd_proc (with_status READY) (Some p) ;;;
      upd_proc (with_next None) (Some p) ;;;
      modify (set_head (Some p))
  | Some h =>
      let* fuel := gets (fun s => Datatypes.S (size (procs s))) in
      let* last := queue_walk fuel h p in
      match last with
      | None => ret tt
      | Some q =>
          upd_proc (with_next (Some p)) (Some q) ;;;
          upd_proc (with_status READY) (Some p) ;;;
          upd_proc (with_next None) (Some p)
      end
  end.

(** [for( int i=0; i<NPROC; i++ )]: no process but free ones and zombies. *)
Fixpoint all_finished (n : nat) : M (kstate S) bool :=
  match n with
  | O => ret true
  | Datatypes.S n =>
      let* x := proc (Some (NPROC - 1 - Z.of_nat n)) in
      let* r := all_finished n in
      ret (if negb (status x =? FREE) && negb (status x =? ZOMBIE) then false else r)
  end.

Definition schedule : M (kstate S) unit :=
  let* head := gets ready_queue_head in
  (match head with
   | None =>
       let* should_shutdown := all_finished (Z.to_nat NPROC) in
       if should_shutdown then halt (ShutDown 0)
       else panic "Not handled: we should let system wait for unfinished processes."
   | Some _ => ret tt
   end) ;;;
  let* head := gets ready_queue_head in
  modify (set_current head) ;;;
  let* x := proc head in
  kernel_assert (status x =? READY) "current->status == READY" ;;;
  modify (set_head (queue_next x)) ;;;
  upd_proc (with_status RUNNING) head ;;;
  switch_to head.
End sched.
