(* ===== verification/Process.v ===== *)
(** * kernel/process.c

    The process pool, creating a process, and fork.  [get_page] is declared
    nowhere and defined nowhere in the repository: it is a parameter.  The
    three-argument calls of [page_walk] follow its declaration in vmm.h, whose
    third parameter is [alloc]; [target_level] is 0.  Console output is not
    part of the state; its arguments are evaluated. *)
From stdpp Require Import base gmap list strings.
From Stdlib Require Import ZArith Lia.
From S2P Require Import Prelude Riscv PmmState Mem Str Vmm ProcState Sched.

Section process.
Context {S : Type} `{Allocator S} `{Harts S} (sym : symbols).
(** [get_page(pa)]: one more user of the page. *)
Context (get_page : Z -> M (kmem S) unit).

Definition zero_process : process :=
  mkProcess 0 0 0 0 0 (mkHeap 0 0 (replicate (Z.to_nat MAX_HEAP_PAGES) 0) 0) 0 0 None None 0.
Definition zero_pool : gmap Z process := list_to_map ((fun i => (i, zero_process)) <$> seqZ 0 NPROC).

Fixpoint init_pool_loop (n : nat) (i : Z) : M (kstate S) unit :=
  match n with
  | O => ret tt
  | Datatypes.S n =>
      upd_proc (with_status FREE) (Some i) ;;;
      upd_proc (with_pid i) (Some i) ;;;
      init_pool_loop n (i + 1)
  end.

Definition init_proc_pool : M (kstate S) unit :=
  modify (set_procs zero_pool) ;;; init_pool_loop (Z.to_nat NPROC) 0.

(** [for( i=0; i<NPROC; i++ ) if( procs[i].status == FREE ) break;] *)
Fixpoint find_free (n : nat) (i : Z) : M (kstate S) Z :=
  match n with
  | O => ret i
  | Datatypes.S n =>
      let* x := proc (Some i) in
      if status x =? FREE then ret i else find_free n (i + 1)
  end.

Definition kalloc : M (kstate S) Z := on_km (on_heap al_page).

(** The three assignments to [procs[i].mapped_info[j]]. *)
Definition set_region (info j va npages seg_type : Z) : M (kstate S) unit :=
  pmem (store64 (u64 (region info j + MR_VA)) va) ;;;
  pmem (store32 (u64 (region info j + MR_NPAGES)) npages) ;;;
  pmem (store32 (u64 (region info j + MR_TYPE)) seg_type).

Definition alloc_process : M (kstate S) Z :=
  let* i := find_free (Z.to_nat NPROC) 0 in
  if NPROC <=? i then panic "cannot find any free process structure."
  else
    let p := Some i in
    let* tf := kalloc in
    upd_proc (with_trapframe tf) p ;;;
    pmem (memset tf 0 sizeof_trapframe) ;;;
    let* pt := kalloc in
    upd_proc (with_pagetable pt) p ;;;
    pmem (memset pt 0 PGSIZE) ;;;
    let* ks := kalloc in
    upd_proc (with_kstack (u64 (ks + PGSIZE))) p ;;;
    let* user_stack := kalloc in
    pmem (store64 (u64 (tf + TF_SP)) USER_STACK_TOP) ;;;
    let* info := kalloc in
    upd_proc (with_mapped_info info) p ;;;
    pmem (memset info 0 PGSIZE) ;;;
    on_km (user_vm_map pt (USER_STACK_TOP - PGSIZE) PGSIZE user_stack (prot_to_type (Z.lor PROT_WRITE PROT_READ) 1)) ;;;
    set_region info STACK_SEGMENT (USER_STACK_TOP - PGSIZE) 1 STACK_SEGMENT ;;;
    on_km (user_vm_map pt tf PGSIZE tf (prot_to_type (Z.lor PROT_WRITE PROT_READ) 0)) ;;;
    set_region info CONTEXT_SEGMENT tf 1 CONTEXT_SEGMENT ;;;
    on_km (user_vm_map pt (trap_sec_start sym) PGSIZE (trap_sec_start sym) (prot_to_type (Z.lor PROT_READ PROT_EXEC) 0)) ;;;
    set_region info SYSTEM_SEGMENT (trap_sec_start sym) 1 SYSTEM_SEGMENT ;;;
    upd_proc (fun x => with_heap (with_heap_top USER_FREE_ADDRESS_START (user_heap x)) x) p ;;;
    upd_proc (fun x => with_heap (with_heap_bottom USER_FREE_ADDRESS_START (user_heap x)) x) p ;;;
    upd_proc (fun x => with_heap (with_free_count 0 (user_heap x)) x) p ;;;
    set_region info HEAP_SEGMENT USER_FREE_ADDRESS_START 0 HEAP_SEGMENT ;;;
    upd_proc (with_total 4) p ;;;
    ret i.

Definition free_process (p : option Z) : M (kstate S) Z :=
  upd_proc (with_status ZOMBIE) p ;;; ret 0.

(** [*pte] through a pointer that may be NULL. *)
Definition deref (pte : option Z) : M (kstate S) Z := read_opt (fun _ => pte).

(** One page of a stack or heap segment: shared, read-only from now on. *)
Definition share_page (ppt cpt va : Z) : M (kstate S) unit :=
  let* r := on_km (page_walk ppt va 0 false) in
  let* pte := deref r in
  let* v := pmem (load64 pte) in
  if bit_set v PTE_V then
    (if bit_set v PTE_W then
       pmem (store64 pte (Z.ldiff v PTE_W)) ;;;
       let* v := pmem (load64 pte) in
       pmem (store64 pte (Z.lor v PTE_COW))
     else ret tt) ;;;
    let* v := pmem (load64 pte) in
    on_km (get_page (PTE2PA v)) ;;;
    let* c := on_km (page_walk cpt va 0 true) in
    match c with
    | None => panic "do_fork: page_walk failed to allocate leaf page table."
    | Some c_pte => let* v := pmem (load64 pte) in pmem (store64 c_pte v)
    end
  else ret tt.

(** [page_number] from [k]; [npages] is read again for every page. *)
Fixpoint share_loop (fuel : nat) (info i ppt cpt k : Z) : M (kstate S) unit :=
  let* npages := pmem (load32 (u64 (region info i + MR_NPAGES))) in
  if k <? npages then
    match fuel with
    | O => halt OutOfFuel
    | Datatypes.S fuel =>
        let* va := pmem (load64 (u64 (region info i + MR_VA))) in
        share_page ppt cpt (u64 (va + u32 (k * PGSIZE))) ;;;
        share_loop fuel info i ppt cpt (k + 1)
    end
  else ret tt.

Fixpoint code_loop (fuel : nat) (info i ppt cpt k : Z) : M (kstate S) unit :=
  let* npages := pmem (load32 (u64 (region info i + MR_NPAGES))) in
  if k <? npages then
    match fuel with
    | O => halt OutOfFuel
    | Datatypes.S fuel =>
        let* va := pmem (load64 (u64 (region info i + MR_VA))) in
        let va := u64 (va + u32 (k * PGSIZE)) in
        let* pa := on_km (lookup_pa ppt va) in
        on_km (user_vm_map cpt va PGSIZE pa (prot_to_type (Z.lor PROT_READ PROT_EXEC) 1)) ;;;
        code_loop fuel info i ppt cpt (k + 1)
    end
  else ret tt.

(** The body of the loop over the parent's segments. *)
Definition fork_segment (parent child i : Z) : M (kstate S) unit :=
  let* p := proc (Some parent) in
  let* c := proc (Some child) in
  let info := mapped_info p in
  let* seg_type := pmem (load32 (u64 (region info i + MR_TYPE))) in
  let* npages := pmem (load32 (u64 (region info i + MR_NPAGES))) in
  if seg_type =? CONTEXT_SEGMENT then
    pmem (memcpy (trapframe c) (trapframe p) sizeof_trapframe) ;;; ret tt
  else if (seg_type =? STACK_SEGMENT) || (seg_type =? HEAP_SEGMENT) then
    share_loop (Z.to_nat npages) info i (pagetable p) (pagetable c) 0 ;;;
    let* seg_type := pmem (load32 (u64 (region info i + MR_TYPE))) in
    (if seg_type =? HEAP_SEGMENT then upd_proc (with_heap (user_heap p)) (Some child) else ret tt)
  else if seg_type =? CODE_SEGMENT then
    let* va := pmem (load64 (u64 (region info i + MR_VA))) in
    let* _ := on_km (lookup_pa (pagetable p) va) in
    code_loop (Z.to_nat npages) info i (pagetable p) (pagetable c) 0 ;;;
    let cinfo := mapped_info c in
    let* va := pmem (load64 (u64 (region info i + MR_VA))) in
    pmem (store64 (u64 (region cinfo (total_mapped_region c) + MR_VA)) va) ;;;
    let* npages := pmem (load32 (u64 (region info i + MR_NPAGES))) in
    pmem (store32 (u64 (region cinfo (total_mapped_region c) + MR_NPAGES)) npages) ;;;
    pmem (store32 (u64 (region cinfo (total_mapped_region c) + MR_TYPE)) CODE_SEGMENT) ;;;
    upd_proc (with_total (total_mapped_region c + 1)) (Some child)
  else ret tt.

Fixpoint fork_loop (n : nat) (parent child i : Z) : M (kstate S) unit :=
  match n with
  | O => ret tt
  | Datatypes.S n => fork_segment parent child i ;;; fork_loop n parent child (i + 1)
  end.

Definition do_fork (parent : option Z) : M (kstate S) Z :=
  let* _ := proc parent in
  let* child := alloc_process in
  let* pp := read_opt (fun _ => parent) in
  let* p := proc parent in
  fork_loop (Z.to_nat (total_mapped_region p)) pp child 0 ;;;
  let* c := proc (Some child) in
  pmem (store64 (u64 (trapframe c + TF_TP)) (u64 (procs_addr sym + child * sizeof_process))) ;;;
  upd_proc (with_status READY) (Some child) ;;;
  pmem (store64 (u64 (trapframe c + TF_A 0)) 0) ;;;
  upd_proc (with_parent parent) (Some child) ;;;
  insert_to_ready_queue child ;;;
  let* c := proc (Some child) in
  ret (s32 (pid c)).
End process.
