(* ===== verification/Trap.v ===== *)
(** * kernel/strap.c and kernel/syscall.c

    The trap handler of S mode, the page-fault handler and the system calls.
    [get_page_ref] is declared in pmm.h and defined nowhere: it is a
    parameter. *)
From stdpp Require Import base gmap list strings.
From Stdlib Require Import ZArith Lia.
From S2P Require Import Prelude Riscv PmmState Mem Str Snprintf Vmm ProcState Sched Process.

Definition SYS_user_base : Z := 64.
Definition SYS_user_print : Z := SYS_user_base + 0.
Definition SYS_user_exit : Z := SYS_user_base + 1.
Definition SYS_user_allocate_page : Z := SYS_user_base + 2.
Definition SYS_user_free_page : Z := SYS_user_base + 3.
Definition SYS_user_fork : Z := SYS_user_base + 4.
Definition SYS_user_yield : Z := SYS_user_base + 5.
Definition SYS_user_sem_new : Z := SYS_user_base + 10.
Definition SYS_user_sem_P : Z := SYS_user_base + 11.
Definition SYS_user_sem_V : Z := SYS_user_base + 12.
Definition SYS_user_printpa : Z := SYS_user_base + 13.

Section trap.
Context {S : Type} `{Allocator S} `{Harts S} (sym : symbols).
Context (get_page : Z -> M (kmem S) unit) (get_page_ref : Z -> M (kmem S) Z).
(** [spike_file_write(stderr, buf, n)]: the host prints. *)
Context (host_write : Z -> Z -> M mem unit).

(** spike_utils.c: [out] is the 256-byte buffer on the kernel stack, [vl] what
    the variadic arguments yield. *)
Definition vprintk (out s : Z) (vl : list Z) : M mem unit :=
  let* res := vsnprintf out 256 s vl in
  host_write out (if u64 res <? 256 then u64 res else 256).

(** A pointer NULL ([None]) is address 0. *)
Definition sys_user_print (out : Z) (stray : list Z) (buf n : Z) : M (kstate S) Z :=
  let* cur := gets current in
  kernel_assert (bool_decide (is_Some cur)) "current" ;;;
  let* c := proc cur in
  let* pa := on_km (user_va_to_pa (pagetable c) buf) in
  pmem (vprintk out (default 0 pa) stray) ;;;
  ret 0.

Definition sys_user_exit (code : Z) : M (kstate S) Z :=
  let* cur := gets current in
  free_process cur ;;;
  schedule sym ;;;
  ret 0.

Definition sys_user_allocate_page : M (kstate S) Z :=
  let* pa := kalloc in
  let* cur := gets current in
  let* c := proc cur in
  let* va :=
    if 0 <? free_pages_count (user_heap c) then
      let n := free_pages_count (user_heap c) - 1 in
      upd_proc (fun x => with_heap (with_free_count n (user_heap x)) x) cur ;;;
      let* va := read_opt (fun _ => free_pages_address (user_heap c) !! Z.to_nat n) in
      kernel_assert (va <? heap_top (user_heap c)) "va < current->user_heap.heap_top" ;;;
      ret va
    else
      upd_proc (fun x => with_heap (with_heap_top (u64 (heap_top (user_heap x) + PGSIZE)) (user_heap x)) x) cur ;;;
      let a := u64 (region (mapped_info c) HEAP_SEGMENT + MR_NPAGES) in
      let* npages := pmem (load32 a) in
      pmem (store32 a (u32 (npages + 1))) ;;;
      ret (heap_top (user_heap c)) in
  on_km (user_vm_map (pagetable c) va PGSIZE pa (prot_to_type (Z.lor PROT_WRITE PROT_READ) 1)) ;;;
  ret va.

(** [free_pages_address[count++] = va]: an index past the array is no object. *)
Definition sys_user_free_page (va : Z) : M (kstate S) Z :=
  let* cur := gets current in
  let* c := proc cur in
  on_km (user_vm_unmap (pagetable c) va PGSIZE true) ;;;
  let n := free_pages_count (user_heap c) in
  upd_proc (fun x => with_heap (with_free_count (u32 (n + 1)) (user_heap x)) x) cur ;;;
  let* _ := read_opt (fun _ => free_pages_address (user_heap c) !! Z.to_nat n) in
  upd_proc (fun x => with_heap (with_free_pages (<[Z.to_nat n := va]> (free_pages_address (user_heap x))) (user_heap x)) x) cur ;;;
  ret 0.

Definition sys_user_fork : M (kstate S) Z :=
  let* cur := gets current in do_fork sym get_page cur.

Definition sys_user_yield : M (kstate S) Z :=
  panic "You need to implement the yield syscall in lab3_2.".

Definition sys_user_sem_new (value : Z) : M (kstate S) Z := ret 0.
Definition sys_user_sem_P (sem_id : Z) : M (kstate S) Z := ret 0.
Definition sys_user_sem_V (sem_id : Z) : M (kstate S) Z := ret 0.

Definition sys_user_printpa (va : Z) : M (kstate S) Z :=
  let* cur := gets current in
  let* c := proc cur in
  let* r := on_km (page_walk (pagetable c) va 0 false) in
  match r with
  | None => ret 0
  | Some pte =>
      let* v := pmem (load64 pte) in
      if negb (bit_set v PTE_V) then ret 0
      else ret (u64 (PTE2PA v + Z.land va (PGSIZE - 1)))
  end.

(** The switch on the system call number; the arguments are the register
    values, [out] and [stray] as above. *)
Definition do_syscall (out : Z) (stray : list Z) (a0 a1 a2 : Z) : M (kstate S) Z :=
  if a0 =? SYS_user_print then sys_user_print out stray a1 a2
  else if a0 =? SYS_user_exit then sys_user_exit a1
  else if a0 =? SYS_user_allocate_page then sys_user_allocate_page
  else if a0 =? SYS_user_free_page then sys_user_free_page a1
  else if a0 =? SYS_user_fork then sys_user_fork
  else if a0 =? SYS_user_yield then sys_user_yield
  else if a0 =? SYS_user_sem_new then sys_user_sem_new a1
  else if a0 =? SYS_user_sem_P then sys_user_sem_P a1
  else if a0 =? SYS_user_sem_V then sys_user_sem_V a1
  else if a0 =? SYS_user_printpa then sys_user_printpa a1
  else panic "Unknown syscall %ld".

(** The registers a0 .. a7 are read; do_syscall uses the first three. *)
Definition handle_syscall (out : Z) (stray : list Z) (tf : Z) : M (kstate S) unit :=
  let* epc := pmem (load64 (u64 (tf + TF_EPC))) in
  pmem (store64 (u64 (tf + TF_EPC)) (u64 (epc + 4))) ;;;
  let* a0 := pmem (load64 (u64 (tf + TF_A 0))) in
  let* a1 := pmem (load64 (u64 (tf + TF_A 1))) in
  let* a2 := pmem (load64 (u64 (tf + TF_A 2))) in
  let* r := do_syscall out stray a0 a1 a2 in
  pmem (store64 (u64 (tf + TF_A 0)) (u64 r)).

Definition handle_mtimer_trap : M (kstate S) unit :=
  panic "lab1_3: increase g_ticks by one, and clear SIP field in sip register.".

(** A write to a page shared since a fork. *)
Definition cow_fault (pte v : Z) : M (kstate S) unit :=
  let pa := PTE2PA v in
  let* r := on_km (get_page_ref pa) in
  if 1 <? r then
    let* new_pa := kalloc in
    if new_pa =? 0 then panic "COW: Out of physical memory."
    else
      pmem (memcpy new_pa pa PGSIZE) ;;;
      let* v := pmem (load64 pte) in
      pmem (store64 pte (Z.lor (Z.lor (PA2PTE new_pa) (Z.ldiff (Z.land v 1023) PTE_COW)) PTE_W)) ;;;
      on_km (on_heap (al_free pa))
  else
    pmem (store64 pte (Z.lor v PTE_W)) ;;;
    let* v := pmem (load64 pte) in
    pmem (store64 pte (Z.ldiff v PTE_COW)).

Definition handle_user_page_fault (mcause sepc stval : Z) : M (kstate S) unit :=
  if mcause =? CAUSE_STORE_PAGE_FAULT then
    let* cur := gets current in
    let* c := proc cur in
    let* r := on_km (page_walk (pagetable c) stval 0 false) in
    let* hit :=
      match r with
      | None => ret None
      | Some pte =>
          let* v := pmem (load64 pte) in
          ret (if bit_set v PTE_V && bit_set v PTE_COW then Some (pte, v) else None)
      end in
    match hit with
    | Some (pte, v) => cow_fault pte v
    | None => panic "Illegal memory access or Stack Overflow."
    end
  else ret tt.

Definition rrsched : M (kstate S) unit :=
  panic "You need to further implement the timer handling in lab3_3.".

Definition smode_trap_handler (out : Z) (stray : list Z) : M (kstate S) unit :=
  let* st := read_csr sstatus in
  (if negb (Z.land st SSTATUS_SPP =? 0) then panic "usertrap: not from user mode" else ret tt) ;;;
  let* cur := gets current in
  kernel_assert (bool_decide (is_Some cur)) "current" ;;;
  let* c := proc cur in
  let* epc := read_csr sepc in
  pmem (store64 (u64 (trapframe c + TF_EPC)) epc) ;;;
  let* cause := read_csr scause in
  (if cause =? CAUSE_USER_ECALL then handle_syscall out stray (trapframe c)
   else if cause =? CAUSE_MTIMER_S_TRAP then handle_mtimer_trap ;;; rrsched
   else if (cause =? CAUSE_STORE_PAGE_FAULT) || (cause =? CAUSE_LOAD_PAGE_FAULT) then
     let* pc := read_csr sepc in
     let* va := read_csr stval in
     handle_user_page_fault cause pc va
   else panic "unexpected exception happened.") ;;;
  let* cur := gets current in
  switch_to sym cur.
End trap.
