(* ===== verification/SchedProofs.v ===== *)
(** * The ready queue and the scheduler: properties

    The linked list of kernel/sched.c as a list of processes, insertion and
    scheduling as first in, first out, and what user mode is entered with. *)
From stdpp Require Import base gmap list strings.
From Stdlib Require Import ZArith Lia.
From S2P Require Import Prelude Riscv PmmState Mem Vmm ProcState Sched.

(** The stored hart is the one read back. *)
Class HartsSpec (S : Type) `{Harts S} : Prop :=
  hart_put (f : hart -> hart) (s : S) : hart_of (with_hart f s) = f (hart_of s).
#[export] Instance pmm_harts_spec : HartsSpec pmm_state.
Proof. done. Qed.

(** The processes linked from [q] by [queue_next], in order. *)
Fixpoint chain (P : gmap Z process) (q : option Z) (l : list Z) : Prop :=
  match l with
  | [] => q = None
  | a :: l => q = Some a /\ exists x, P !! a = Some x /\ chain P (queue_next x) l
  end.

Section chain.
Implicit Types (P : gmap Z process) (q : option Z) (l : list Z) (p : Z) (x : process).

Lemma chain_det P q l1 l2 : chain P q l1 -> chain P q l2 -> l1 = l2.
Proof.
  revert q l2. induction l1 as [|a l1 IH]; intros q [|b l2]; cbn.
  - done.
  - intros -> [? _]. done.
  - intros [-> _] ?. done.
  - intros [-> (x & Hx & H1)] [[= ->] (y & Hy & H2)]. f_equal. rewrite Hx in Hy. injection Hy as <-. by eapply IH.
Qed.

Lemma chain_suffix P q l1 a l2 : chain P q (l1 ++ a :: l2) -> chain P (Some a) (a :: l2).
Proof.
  revert q. induction l1 as [|b l1 IH]; intros q; cbn [app].
  - intros [_ H]. by split.
  - intros [_ (x & _ & H)]. by eapply IH.
Qed.

(** A chain that ends visits nobody twice. *)
Lemma chain_nodup P q l : chain P q l -> NoDup l.
Proof.
  revert q. induction l as [|a l IH]; intros q Hc; [constructor|]. pose proof Hc as [_ (x & Hx & Hl)].
  constructor; [|by eapply IH]. intros Ha. apply list_elem_of_split in Ha as (l1 & l2 & ->).
  apply (chain_suffix _ _ []) in Hc. cbn [app] in Hc.
  pose proof (chain_suffix _ _ (a :: l1) a l2 Hc) as H2.
  pose proof (chain_det _ _ _ _ Hc H2) as E%(f_equal length). cbn in E. rewrite length_app in E. cbn in E. lia.
Qed.

Lemma chain_dom P q l a : chain P q l -> a ∈ l -> is_Some (P !! a).
Proof.
  revert q. induction l as [|b l IH]; intros q Hc Ha; [by apply not_elem_of_nil in Ha|].
  destruct Hc as [_ (x & Hx & Hl)]. apply elem_of_cons in Ha as [->|Ha]; [by eexists|by eapply IH].
Qed.

Lemma chain_size P q l : chain P q l -> (length l <= size P)%nat.
Proof.
  intros Hc. pose proof (chain_nodup _ _ _ Hc) as HN. rewrite <- (size_list_to_set (C := gset Z)) by done.
  rewrite <- size_dom.
  apply subseteq_size. intros a Ha%elem_of_list_to_set. apply elem_of_dom. by eapply chain_dom.
Qed.

(** Changing processes outside the chain, or keeping the links. *)
Lemma chain_ext P P' q l :
  (forall a x, a ∈ l -> P !! a = Some x -> exists x', P' !! a = Some x' /\ queue_next x' = queue_next x) ->
  chain P q l -> chain P' q l.
Proof.
  revert q. induction l as [|a l IH]; intros q HP; cbn; [done|]. intros [-> (x & Hx & Hl)]. split; [done|].
  destruct (HP a x) as (x' & Hx' & E); [by left|done|]. exists x'. split; [done|]. rewrite E.
  apply IH; [|done]. intros b y Hb. apply HP. by right.
Qed.

Lemma chain_insert_out P q l p x : p ∉ l -> chain P q l -> chain (<[p := x]> P) q l.
Proof.
  intros Hp. apply chain_ext. intros a y Ha Hy. exists y. rewrite lookup_insert_ne by (intros ->; done). done.
Qed.

(** Linking [p] behind the last element [z]. *)
Lemma chain_snoc P q l z x y p :
  chain P q (l ++ [z]) -> p ∉ l ++ [z] -> P !! z = Some x ->
  queue_next y = None -> chain (<[p := y]> (<[z := with_next (Some p) x]> P)) q ((l ++ [z]) ++ [p]).
Proof.
  intros Hc Hp Hz Hy. pose proof (chain_nodup _ _ _ Hc) as HN.
  assert (Hzp : z <> p) by (intros ->; apply Hp; apply elem_of_app; right; by left).
  rewrite <- app_assoc. cbn [app]. revert q Hc Hp HN. induction l as [|a l IH]; intros q Hc Hp HN; cbn [app chain] in *.
  - destruct Hc as [-> _]. split; [done|]. exists (with_next (Some p) x).
    rewrite lookup_insert_ne, lookup_insert_eq by congruence. split; [done|]. split; [done|].
    exists y. by rewrite lookup_insert_eq.
  - destruct Hc as [-> (w & Hw & Hc)]. split; [done|]. apply NoDup_cons in HN as [Ha HN]. exists w.
    rewrite !lookup_insert_ne; [split; [done|]; apply IH; set_solver|..].
    + intros <-. apply Ha, elem_of_app. right. by left.
    + intros <-. apply Hp. by left.
Qed.
End chain.

Section sched.
Context {S : Type} `{Harts S} (sym : symbols).
Implicit Types (s : kstate S) (l : list Z) (p : Z) (x : process) (E : stop -> kstate S -> Prop).

Lemma wp_proc p x s (Q : process -> kstate S -> Prop) E :
  procs s !! p = Some x -> Q x s -> wp (proc (Some p)) Q E s.
Proof. intros Hx HQ. by eapply wp_read_opt. Qed.

Lemma wp_upd_proc f p x s (Q : unit -> kstate S -> Prop) E :
  procs s !! p = Some x -> Q tt (set_procs (<[p := f x]> (procs s)) s) -> wp (upd_proc f (Some p)) Q E s.
Proof. intros Hx HQ. unfold upd_proc. apply wp_bind. eapply wp_proc; [exact Hx|]. by apply wp_modify. Qed.

Lemma wp_queue_walk l : forall q p s fuel (Q : option Z -> kstate S -> Prop) E,
  chain (procs s) (Some q) l -> (length l <= fuel)%nat ->
  Q (if decide (p ∈ l) then None else last l) s -> wp (queue_walk fuel q p) Q E s.
Proof.
  induction l as [|a l IH]; intros q p s fuel Q E Hc Hf HQ; [done|]. cbn [length] in Hf.
  destruct fuel as [|fuel]; [lia|]. cbn [queue_walk]. destruct Hc as [[= ->] (x & Hx & Hc)].
  apply wp_bind. eapply wp_proc; [exact Hx|]. destruct l as [|b l].
  - cbn in Hc. rewrite Hc. apply wp_ret. destruct (Z.eqb_spec a p) as [->|Hne].
    + rewrite decide_True in HQ by by left. done.
    + rewrite decide_False in HQ; [done|]. intros [->|Hx2]%elem_of_cons; [done|by apply not_elem_of_nil in Hx2].
  - pose proof Hc as [Eb _]. rewrite Eb in *. destruct (Z.eqb_spec a p) as [->|Hne].
    + apply wp_ret. rewrite decide_True in HQ by by left. done.
    + apply IH; [done|lia|]. rewrite last_cons in HQ.
      assert (Hl : exists z, last (b :: l) = Some z).
      { destruct (last (b :: l)) as [z|] eqn:El; [by eexists|]. by apply last_None in El. }
      destruct Hl as [z Hl]. rewrite Hl in HQ |- *.
      destruct (decide (p ∈ b :: l)) as [Hin|Hin].
      * rewrite decide_True in HQ by by right. done.
      * rewrite decide_False in HQ; [done|]. intros [->|?]%elem_of_cons; done.
Qed.

(** What insertion leaves of a process: [p] is ready, the others keep all but
    their link. *)
Definition relinked (p : Z) (P P' : gmap Z process) : Prop :=
  forall q x, P !! q = Some x -> exists nx, P' !! q = Some (with_next nx (if decide (q = p) then with_status READY x else x)).

Lemma wp_insert p x l s (Q : unit -> kstate S -> Prop) E :
  chain (procs s) (ready_queue_head s) l -> procs s !! p = Some x ->
  (p ∈ l -> Q tt s) ->
  (p ∉ l -> forall P' h', chain P' h' (l ++ [p]) -> relinked p (procs s) P' ->
     Q tt (mkKstate (km s) P' (current s) h' (g_ticks s))) ->
  wp (insert_to_ready_queue p) Q E s.
Proof.
  intros Hc Hx HQ1 HQ2. unfold insert_to_ready_queue. apply wp_bind, wp_gets.
  destruct (ready_queue_head s) as [h|] eqn:Eh.
  - apply wp_bind, wp_gets, wp_bind. eapply wp_queue_walk; [exact Hc|apply Nat.le_le_succ_r; by eapply chain_size|].
    destruct (decide (p ∈ l)) as [Hin|Hin]; [by apply wp_ret, HQ1|].
    destruct l as [|z l _] using rev_ind; [done|]. rewrite last_snoc.
    destruct (chain_dom _ _ _ z Hc) as [w Hw]; [apply elem_of_app; right; by left|].
    assert (Hzp : z <> p) by (intros ->; apply Hin; apply elem_of_app; right; by left).
    apply wp_bind. eapply wp_upd_proc; [exact Hw|]. apply wp_bind. eapply wp_upd_proc; [cbn; by rewrite lookup_insert_ne|].
    eapply wp_upd_proc; [cbn; by rewrite lookup_insert_eq|]. cbn. rewrite insert_insert_eq.
    unfold set_procs. cbn. rewrite Eh. apply HQ2; [done|by apply chain_snoc|].
    intros q y Hy. destruct (decide (q = p)) as [->|Hqp].
    + exists None. rewrite Hx in Hy. injection Hy as <-. by rewrite lookup_insert_eq.
    + rewrite lookup_insert_ne by done. destruct (decide (q = z)) as [->|Hqz].
      * exists (Some p). rewrite Hw in Hy. injection Hy as <-. by rewrite lookup_insert_eq.
      * exists (queue_next y). rewrite lookup_insert_ne by done. rewrite Hy. by destruct y.
  - destruct l as [|a l]; [|by destruct Hc]. apply wp_bind. eapply wp_upd_proc; [exact Hx|].
    apply wp_bind. eapply wp_upd_proc; [cbn; by rewrite lookup_insert_eq|]. apply wp_modify. cbn.
    rewrite insert_insert_eq. apply HQ2; [by apply not_elem_of_nil| |].
    + cbn. split; [done|]. eexists. rewrite lookup_insert_eq. split; done.
    + cbn [procs set_procs]. intros q y Hy. cbn. destruct (decide (q = p)) as [->|Hqp].
      * exists None. rewrite Hx in Hy. injection Hy as <-. by rewrite lookup_insert_eq.
      * exists (queue_next y). rewrite lookup_insert_ne by done. rewrite Hy. by destruct y.
Qed.
(** ** Entering user mode *)
Definition set_mem (m : mem) (s : kstate S) : kstate S :=
  set_km (mkKmem (heap (km s)) m (g_kernel_pagetable (km s))) s.

Lemma wp_pmem {A} (f : M mem A) s (Q : A -> kstate S -> Prop) E :
  wp f (fun a m => Q a (set_mem m s)) (fun h m => E h (set_mem m s)) (memory (km s)) -> wp (pmem f) Q E s.
Proof. intros Hf. apply wp_zoom, wp_zoom, Hf. Qed.

(** The trap frame is 280 bytes of memory. *)
Definition frame_ok (m : mem) (tf : Z) : Prop :=
  0 <= tf /\ tf + sizeof_trapframe < 2 ^ 64 /\ has m tf sizeof_trapframe.

(** The state in which user mode is entered with process [p]. *)
Record entered (p : Z) (x : process) (epc : Z) s s' : Prop := {
  en_current : current s' = Some p;
  en_procs : procs s' = procs s;
  en_head : ready_queue_head s' = ready_queue_head s;
  en_kernel_sp : load_le 8 (trapframe x + TF_KERNEL_SP) (memory (km s')) = Some (u64 (kstack x));
  en_kernel_trap : load_le 8 (trapframe x + TF_KERNEL_TRAP) (memory (km s')) = Some (u64 (smode_trap_handler_addr sym));
  en_kernel_satp : load_le 8 (trapframe x + TF_KERNEL_SATP) (memory (km s')) = Some (u64 (satp (the_hart s)));
  en_frame a : ~ (trapframe x + TF_KERNEL_SP <= a < trapframe x + TF_EPC) ->
    ~ (trapframe x + TF_KERNEL_SATP <= a < trapframe x + sizeof_trapframe) ->
    memory (km s') !! a = memory (km s) !! a;
  en_hart : the_hart s' = set_sepc epc (set_sstatus (Z.lor (Z.ldiff (sstatus (the_hart s)) SSTATUS_SPP) SSTATUS_SPIE)
                                          (set_stvec (smode_trap_vector sym) (the_hart s)));
  en_bytes : bytes_ok (memory (km s)) -> bytes_ok (memory (km s'))
}.

Lemma wp_switch_to `{!HartsSpec S} p x epc s (Q : unit -> kstate S -> Prop) E :
  procs s !! p = Some x -> frame_ok (memory (km s)) (trapframe x) ->
  load_le 8 (trapframe x + TF_EPC) (memory (km s)) = Some epc ->
  (forall s', entered p x epc s s' -> E (ToUser (trapframe x) (MAKE_SATP (pagetable x))) s') ->
  wp (switch_to sym (Some p)) Q E s.
Proof.
  intros Hx (T0 & T1 & Hm) He HE. unfold sizeof_trapframe in *. unfold switch_to.
  apply wp_bind. apply wp_ret. apply wp_bind, wp_modify. apply wp_bind, wp_modify.
  apply wp_bind. eapply wp_proc; [exact Hx|].
  rewrite !u64_id by (unfold is_u64, TF_KERNEL_SP, TF_KERNEL_SATP, TF_KERNEL_TRAP, TF_EPC; lia).
  unfold TF_KERNEL_SP, TF_KERNEL_SATP, TF_KERNEL_TRAP, TF_EPC in *.
  apply wp_bind, wp_pmem. apply wp_store; [intros y Hy; apply Hm; lia|]. intros m1 S1 U1.
  apply wp_bind, wp_gets. apply wp_bind, wp_pmem.
  apply wp_store; [eapply upd_has; [exact U1|intros y Hy; apply Hm; lia]|]. intros m2 S2 U2.
  apply wp_bind, wp_pmem.
  apply wp_store; [eapply upd_has; [exact U2|eapply upd_has; [exact U1|intros y Hy; apply Hm; lia]]|]. intros m3 S3 U3.
  cbn [memory km set_mem set_km] in *.
  apply wp_bind, wp_gets. apply wp_bind, wp_modify. apply wp_bind, wp_pmem. eapply wp_load.
  { cbn [memory km set_mem set_km upd_hart set_current]. rewrite (load_store_other _ _ _ _ _ _ _ S3), (load_store_other _ _ _ _ _ _ _ S2), (load_store_other _ _ _ _ _ _ _ S1) by lia.
    exact He. }
  apply wp_bind, wp_modify, wp_halt, HE. split; unfold TF_KERNEL_SP, TF_KERNEL_SATP, TF_KERNEL_TRAP, TF_EPC;
    cbn [memory km set_mem set_km upd_hart set_current current procs ready_queue_head]; try done.
  - rewrite (load_store_other _ _ _ _ _ _ _ S3), (load_store_other _ _ _ _ _ _ _ S2) by lia. by apply (load_store_same _ _ _ _ _ S1).
  - by apply (load_store_same _ _ _ _ _ S3).
  - rewrite (load_store_other _ _ _ _ _ _ _ S3) by lia. rewrite (load_store_same _ _ _ _ _ S2).
    unfold the_hart. cbn [heap km set_mem set_km upd_hart set_current]. by rewrite hart_put.
  - intros a Ha Hb. unfold sizeof_trapframe in Hb. rewrite U3, U2, U1.
    destruct (inside_spec (trapframe x + 256) (Z.of_nat 8) a), (inside_spec (trapframe x + 272) (Z.of_nat 8) a),
      (inside_spec (trapframe x + 248) (Z.of_nat 8) a); (lia || done).
  - unfold the_hart. cbn [heap km set_mem set_km upd_hart set_current]. by rewrite !hart_put.
  - intros Hb. by apply (store_bytes_ok _ _ _ _ _ S3), (store_bytes_ok _ _ _ _ _ S2), (store_bytes_ok _ _ _ _ _ S1).
Qed.

(** ** The scheduler *)
Definition finished (x : process) : bool := (status x =? FREE) || (status x =? ZOMBIE).
Definition pool_ok (P : gmap Z process) : Prop := forall i, 0 <= i < NPROC -> is_Some (P !! i).

(** No process of the pool is ready, running or blocked. *)
Definition idle (P : gmap Z process) : Prop := forall i x, 0 <= i < NPROC -> P !! i = Some x -> finished x = true.

Lemma wp_all_finished n s (Q : bool -> kstate S -> Prop) E :
  pool_ok (procs s) -> (Z.of_nat n <= NPROC) ->
  (forall b, (b = true <-> forall i x, NPROC - Z.of_nat n <= i < NPROC -> procs s !! i = Some x -> finished x = true) -> Q b s) ->
  wp (all_finished n) Q E s.
Proof.
  revert Q. induction n as [|n IH]; intros Q Hp Hn HQ; cbn [all_finished].
  - apply wp_ret, HQ. split; [intros _ i x Hi|]; [lia|done].
  - destruct (Hp (NPROC - 1 - Z.of_nat n) ltac:(lia)) as [x Hx]. apply wp_bind. eapply wp_proc; [exact Hx|].
    apply wp_bind, IH; [done|lia|]. intros b Hb. apply wp_ret, HQ.
    replace (negb (status x =? FREE) && negb (status x =? ZOMBIE)) with (negb (finished x))
      by (unfold finished; by destruct (_ =? _), (_ =? _)).
    destruct (finished x) eqn:Ef; cbn [negb].
    + rewrite Hb. split; intros HA i y Hi Hy; [|apply (HA i y); [lia|done]].
      destruct (decide (i = NPROC - 1 - Z.of_nat n)) as [->|]; [congruence|apply (HA i y); [lia|done]].
    + split; [done|]. intros HA. rewrite (HA (NPROC - 1 - Z.of_nat n) x) in Ef; [done|lia|done].
Qed.

Definition unfinished_panic : stop := Panicked "Not handled: we should let system wait for unfinished processes.".

Lemma wp_schedule `{!HartsSpec S} l s (Q : unit -> kstate S -> Prop) E :
  chain (procs s) (ready_queue_head s) l -> pool_ok (procs s) ->
  match l with
  | [] => (idle (procs s) -> E (ShutDown 0) s) /\ (~ idle (procs s) -> E unfinished_panic s)
  | p :: l =>
      exists x epc, procs s !! p = Some x /\ status x = READY /\ frame_ok (memory (km s)) (trapframe x) /\
        load_le 8 (trapframe x + TF_EPC) (memory (km s)) = Some epc /\
        forall s', chain (procs s') (ready_queue_head s') l ->
          entered p (with_status RUNNING x) epc
            (mkKstate (km s) (<[p := with_status RUNNING x]> (procs s)) (Some p) (queue_next x) (g_ticks s)) s' ->
          E (ToUser (trapframe x) (MAKE_SATP (pagetable x))) s'
  end -> wp (schedule sym) Q E s.
Proof.
  intros Hc Hp Hl. pose proof (chain_nodup _ _ _ Hc) as HN. unfold schedule. apply wp_bind, wp_gets. destruct l as [|p l].
  - rewrite Hc. apply wp_bind, wp_bind. apply wp_all_finished; [done|done|]. intros b Hb.
    change (NPROC - Z.of_nat (Z.to_nat NPROC)) with 0 in Hb. destruct Hl as [H1 H2].
    destruct b; [apply wp_halt, H1; exact (proj1 Hb eq_refl)|apply wp_halt, H2]. intros HA. by apply Hb in HA.
  - destruct Hl as (x & epc & Hx & Hr & Hf & He & HE). pose proof Hc as [Eh (y & Hy & Hl)]. rewrite Hx in Hy. injection Hy as <-.
    rewrite Eh. apply wp_bind, wp_ret, wp_bind, wp_gets. cbn beta. rewrite Eh. apply wp_bind, wp_modify.
    apply wp_bind. eapply wp_proc; [exact Hx|]. apply wp_bind, wp_kernel_assert; [by rewrite Hr|].
    apply wp_bind, wp_modify, wp_bind. eapply wp_upd_proc; [exact Hx|]. cbn [procs set_head set_current].
    apply NoDup_cons in HN as [HN _].
    eapply wp_switch_to; [cbn; apply lookup_insert_eq|exact Hf|exact He|]. intros s' HI. apply HE; [|exact HI].
    rewrite (en_procs _ _ _ _ _ HI), (en_head _ _ _ _ _ HI). cbn. by apply chain_insert_out.
Qed.
End sched.
