(* ===== verification/TrapProofs.v ===== *)
(** * Traps: lemmas

    Entry bits of copy-on-write, memory outside the page tables, and the
    symbolic runs of the fault handler and of the system-call path. *)
From stdpp Require Import base gmap list strings.
From Stdlib Require Import ZArith Lia.
From S2P Require Import Prelude Riscv PmmState Mem Str Vmm VmmProofs VmmSpec VmTheorems ProcState Sched Process Trap SchedProofs.

(** ** Bits of an entry *)
Lemma bits_lt x n : 0 <= n -> 0 <= x -> (forall i, n <= i -> Z.testbit x i = false) -> x < 2 ^ n.
Proof.
  intros Hn Hx Hb. replace x with (x mod 2 ^ n); [by apply Z.mod_pos_bound, pow2_pos|].
  apply Z.bits_inj'. intros i Hi. destruct (decide (i < n)).
  - by apply Z.mod_pow2_bits_low.
  - rewrite Z.mod_pow2_bits_high by lia. symmetry. apply Hb. lia.
Qed.

Lemma high_bit_0 x n i : 0 <= x < 2 ^ n -> n <= i -> Z.testbit x i = false.
Proof.
  intros Hx Hi. destruct (decide (n < 0)); [rewrite Z.pow_neg_r in Hx by lia; lia|].
  rewrite <- (Z.mod_small x (2 ^ n)) by done. apply Z.mod_pow2_bits_high. lia.
Qed.

Lemma shiftr_small b : 0 <= b < 1024 -> Z.shiftr b 10 = 0.
Proof. intros Hb. rewrite Z.shiftr_div_pow2 by lia. apply Z.div_small. by change (2 ^ 10) with 1024. Qed.

Section entry_bits.
Context (v : Z) (Hv : 0 <= v < 2 ^ 64).

Definition cow_flags (fl : Z) : Z := Z.lor (Z.ldiff fl PTE_COW) PTE_W.
Definition own_entry : Z := Z.ldiff (Z.lor v PTE_W) PTE_COW.

Lemma own_entry_page : PTE2PA own_entry = PTE2PA v.
Proof.
  unfold own_entry, PTE2PA. rewrite Z.shiftr_ldiff, Z.shiftr_lor, (shiftr_small PTE_W), (shiftr_small PTE_COW) by (unfold PTE_W, PTE_COW; lia).
  by rewrite Z.ldiff_0_r, Z.lor_0_r.
Qed.

Lemma own_entry_range : 0 <= own_entry < 2 ^ 64.
Proof.
  assert (H0 : 0 <= own_entry) by (apply Z.ldiff_nonneg; left; apply Z.lor_nonneg; unfold PTE_W; lia).
  split; [done|]. apply bits_lt; [lia|done|]. intros i Hi. unfold own_entry.
  rewrite Z.ldiff_spec, Z.lor_spec, (high_bit_0 v 64), (high_bit_0 PTE_W 64) by (unfold PTE_W; lia). done.
Qed.

(** W and COW are different bits below 1024. *)
Lemma flag_bits i : 0 <= i ->
  Z.testbit PTE_W i && Z.testbit PTE_COW i = false /\ Z.testbit PTE_W i && Z.testbit 1023 i = Z.testbit PTE_W i.
Proof.
  intros Hi. rewrite <- !Z.land_spec. change (Z.land PTE_W PTE_COW) with 0. change (Z.land PTE_W 1023) with PTE_W.
  by rewrite Z.bits_0.
Qed.

Lemma own_entry_flags : PTE_FLAGS own_entry = cow_flags (PTE_FLAGS v).
Proof.
  apply Z.bits_inj'. intros i Hi. unfold PTE_FLAGS, own_entry, cow_flags.
  rewrite Z.lor_spec, !Z.ldiff_spec, !Z.land_spec, Z.ldiff_spec, Z.lor_spec.
  destruct (flag_bits i Hi) as [F1 F2]. revert F1 F2.
  by destruct (Z.testbit v i), (Z.testbit PTE_W i), (Z.testbit PTE_COW i), (Z.testbit 1023 i).
Qed.

Lemma cow_flags_range : 0 <= cow_flags (PTE_FLAGS v) < 1024.
Proof.
  rewrite <- own_entry_flags. unfold PTE_FLAGS. change 1023 with (2 ^ 10 - 1). rewrite land_low by lia.
  change 1024 with (2 ^ 10). by apply Z.mod_pos_bound.
Qed.

Context (a : Z) (Ha : 0 <= a < 2 ^ 56) (Hal : a mod PGSIZE = 0).
Definition copy_entry : Z := Z.lor (Z.lor (PA2PTE a) (Z.ldiff (Z.land v 1023) PTE_COW)) PTE_W.

Lemma copy_entry_eq : copy_entry = Z.lor (PA2PTE a) (cow_flags (PTE_FLAGS v)).
Proof. unfold copy_entry, cow_flags, PTE_FLAGS. by rewrite Z.lor_assoc. Qed.

Lemma copy_entry_page : PTE2PA copy_entry = a.
Proof. rewrite copy_entry_eq. apply PTE2PA_build; [lia|exact Hal|apply cow_flags_range]. Qed.

Lemma copy_entry_range : 0 <= copy_entry < 2 ^ 64.
Proof. rewrite copy_entry_eq. pose proof cow_flags_range. rewrite pte_build by lia. unfold PGSIZE in *. zlia. Qed.

Lemma copy_entry_flags : PTE_FLAGS copy_entry = cow_flags (PTE_FLAGS v).
Proof.
  pose proof cow_flags_range. rewrite copy_entry_eq. unfold PTE_FLAGS at 1. rewrite land_build by lia.
  change 1023 with (2 ^ 10 - 1). rewrite land_low by lia. by apply Z.mod_small.
Qed.
End entry_bits.

(** ** Memory outside the tables *)
Section data.
Context {S : Type} `{Allocator S} (lo hi : Z) `{!AllocatorSpec S lo hi} (root : Z).
Implicit Types (T : ptable) (s : kmem S) (m : mem) (U : gset Z) (n : nat).

Definition off_tables T (a k : Z) : Prop := forall π p, T !! π = Some p -> a + k <= p \/ p + PGSIZE <= a.

Lemma off_tables_sub T a k b j : off_tables T a k -> a <= b -> b + j <= a + k -> off_tables T b j.
Proof. intros HT H1 H2 π p Hp. destruct (HT π p Hp); lia. Qed.

(** A page in use that is no table of the tree. *)
Lemma off_tables_page T m a : ptree T root m -> page_ok a -> (forall π p, T !! π = Some p -> p <> a) -> off_tables T a PGSIZE.
Proof.
  intros HT Ha Hne π p Hp. destruct (pages_apart p a) as [?|?]; [by eapply pt_page|done|by eapply Hne|by right|by left].
Qed.

Lemma data_tree T m m' P f : ptree T root m -> upd m m' P f -> (forall x, P x = true -> 0 <= f x < 256) ->
  (forall x π p, P x = true -> T !! π = Some p -> ~ (p <= x < p + PGSIZE)) ->
  ptree T root m' /\ forall va, pte_at T m' va = pte_at T m va.
Proof.
  intros HT Hu Hf Hoff.
  assert (Hl : forall π p i, T !! π = Some p -> 0 <= i < 512 -> load_le 8 (p + 8 * i) m' = load_le 8 (p + 8 * i) m).
  { intros π p i Hp Hi. apply load_le_ext. intros x Hx. rewrite Hu. destruct (P x) eqn:HP; [|done].
    exfalso. apply (Hoff x π p HP Hp). change (Z.of_nat 8) with 8 in Hx. unfold PGSIZE. lia. }
  split.
  - destruct HT as [A1 A2 A3 A4 A5 A6 A7 A8]. split; try done.
    + intros π p Hp. eapply upd_has; [exact Hu|by eapply A6].
    + by eapply upd_bytes.
    + intros π p i Hp Hlen Hi. rewrite (Hl π) by done. by apply A8.
  - intros va. unfold pte_at. destruct (T !! _) as [q|] eqn:Hq; [|done]. eapply Hl; [exact Hq|by apply PX_index].
Qed.

Lemma data_vinv n U T s m' g P f : vinv lo hi root n U T s -> upd (memory s) m' P f ->
  (forall x, P x = true -> 0 <= f x < 256) ->
  (forall x π p, P x = true -> T !! π = Some p -> ~ (p <= x < p + PGSIZE)) ->
  vinv lo hi root n U T (mkKmem (heap s) m' g).
Proof.
  intros [V1 V2 V3 V4] Hu Hf Hoff. destruct (data_tree _ _ _ _ _ V2 Hu Hf Hoff) as [HT _].
  split; cbn [heap memory]; [done|done|by eapply upd_has|done].
Qed.
End data.

Lemma PTE2PA_aligned v : PTE2PA v mod PGSIZE = 0.
Proof.
  unfold PTE2PA, u64, PGSIZE. change 4096 with (2 ^ 12). rewrite mod_mod_pow2 by lia.
  rewrite Z.shiftl_mul_pow2 by lia. by rewrite Z.mod_mul.
Qed.

Section fault.
Context {S : Type} `{Allocator S} `{Harts S} (lo hi : Z) `{!AllocatorSpec S lo hi} (root : Z).
Context (get_page_ref : Z -> M (kmem S) Z).
Implicit Types (T : ptable) (s : kstate S) (U : gset Z) (n : nat).

Lemma wp_on_km {A} (f : M (kmem S) A) s (Q : A -> kstate S -> Prop) E :
  wp f (fun a k => Q a (set_km k s)) (fun h k => E h (set_km k s)) (km s) -> wp (on_km f) Q E s.
Proof. apply wp_zoom. Qed.

Lemma set_km_eta s : set_km (km s) s = s.
Proof. by destruct s. Qed.

Lemma set_mem_eta s : set_mem (memory (km s)) s = s.
Proof. destruct s as [[]]. done. Qed.

(** A page of data taken from the allocator. *)
Lemma wp_kalloc n U s (Q : Z -> kstate S -> Prop) E :
  al_inv n U (heap (km s)) ->
  (forall a h n', n = Datatypes.S n' -> al_inv n' (U ∪ {[a]}) h -> a ∉ U -> page_ok a -> lo <= a -> a + PGSIZE <= hi ->
     Q a (set_km (mkKmem h (memory (km s)) (g_kernel_pagetable (km s))) s)) ->
  (n = 0%nat -> forall s', E al_stop s') ->
  wp kalloc Q E s.
Proof.
  intros Hal HQ HE. destruct (al_arena _ _ _ Hal) as [Hlo0 H56]. apply wp_on_km, wp_on_heap. destruct n as [|n].
  - eapply wp_mono; [by apply (al_page_empty U)|done|]. intros h s' ->. by apply HE.
  - eapply wp_mono; [by apply al_page_ok| |done]. intros a h (Ha & Hpg & Hlo & Hhi & Hal').
    eapply HQ; [done|done|done| |done|done]. unfold page_ok. lia.
Qed.

(** What the fault handler leaves when the page of entry [v] has [r] users. *)
Record unshared T U s va v r s' : Prop := {
  us_procs : procs s' = procs s;
  us_current : current s' = current s;
  us_head : ready_queue_head s' = ready_queue_head s;
  us_tree : ptree T root (memory (km s'));
  us_entry : exists w,
    (forall vb, 0 <= vb < MAXVA -> pte_at T (memory (km s')) vb =
       if decide (vb / PGSIZE = va / PGSIZE) then Some w else pte_at T (memory (km s)) vb) /\
    PTE_FLAGS w = cow_flags (PTE_FLAGS v) /\
    (r <= 1 -> PTE2PA w = PTE2PA v) /\ (1 < r -> PTE2PA w ∉ U) /\
    (forall i, 0 <= i < PGSIZE -> memory (km s') !! (PTE2PA w + i) = memory (km s) !! (PTE2PA v + i));
  us_page i : 0 <= i < PGSIZE -> memory (km s') !! (PTE2PA v + i) = memory (km s) !! (PTE2PA v + i)
}.

(** The page behind an entry is in use, in the arena, and no table. *)
Definition data_page T U (pa : Z) : Prop :=
  pa ∈ U /\ lo <= pa /\ pa + PGSIZE <= hi /\ forall π q, T !! π = Some q -> q <> pa.

Lemma data_page_off n U T k pa : vinv lo hi root n U T k -> pa mod PGSIZE = 0 -> data_page T U pa ->
  page_ok pa /\ off_tables T pa PGSIZE.
Proof.
  intros HV Hal (Hin & Hlo & Hhi & Hne). destruct (al_arena _ _ _ (vi_al _ _ _ _ _ _ _ HV)) as [Hlo0 H56].
  assert (Hok : page_ok pa) by (unfold page_ok; lia). split; [done|].
  eapply off_tables_page; [by apply (vi_tree _ _ _ _ _ _ _ HV)|done|exact Hne].
Qed.

(** A leaf store through the process layer. *)
Lemma wp_pmem_leaf n U T s va q v (Q : unit -> kstate S -> Prop) E :
  vinv lo hi root n U T (km s) -> 0 <= va < MAXVA -> T !! [PX 2 va; PX 1 va] = Some q -> 0 <= v < 2 ^ 64 ->
  (forall k, edit lo hi root n U T (km s) n U T k (fun vb => if decide (vb / PGSIZE = va / PGSIZE) then Some v
                                               else pte_at T (memory (km s)) vb) -> Q tt (set_km k s)) ->
  wp (pmem (store64 (q + 8 * PX 0 va) v)) Q E s.
Proof. intros HV Hva Hq Hv HQ. apply wp_on_km. by apply (wp_store_leaf lo hi root n U T (km s) va q v). Qed.

Lemma wp_pmem_load s k a v (Q : Z -> kstate S -> Prop) E :
  load_le k a (memory (km s)) = Some v -> Q v s -> wp (pmem (load k a)) Q E s.
Proof. intros Hv HQ. apply wp_pmem. eapply wp_load; [exact Hv|]. by rewrite set_mem_eta. Qed.

(** A page copied to one that holds no table. *)
Lemma copied_tree T m m1 a b : ptree T root m -> off_tables T a PGSIZE -> has m b 4096 ->
  copied m m1 a b 4096 ->
  ptree T root m1 /\ (forall vb, pte_at T m1 vb = pte_at T m vb) /\ forall c j, has m c j -> has m1 c j.
Proof.
  intros HT Hoffa Hb Hc.
  assert (Hu : upd m m1 (inside a 4096) (fun x => default 0 (m !! (b + (x - a))))).
  { intros x. rewrite Hc. destruct (inside_spec a 4096 x); [|done]. destruct (Hb (b + (x - a))) as [c ->]; [lia|done]. }
  assert (HD : ptree T root m1 /\ forall vb, pte_at T m1 vb = pte_at T m vb); [|by destruct HD; split_and!; [..|intros c j; eapply upd_has]].
  apply (data_tree root T _ m1 _ _ HT Hu).
  - intros x _. destruct (m !! (b + (x - a))) as [c|] eqn:Hcb; cbn; [by apply (pt_bytes _ _ _ HT) in Hcb|lia].
  - intros x π p Hx Hp. destruct (inside_spec a 4096 x); [|done]. destruct (Hoffa π p Hp); unfold PGSIZE in *; lia.
Qed.

(** The only user takes the page back. *)
Lemma wp_cow_owner n U T s va q v r (Q : unit -> kstate S -> Prop) E :
  vinv lo hi root n U T (km s) -> 0 <= va < MAXVA -> T !! [PX 2 va; PX 1 va] = Some q ->
  pte_at T (memory (km s)) va = Some v -> data_page T U (PTE2PA v) ->
  get_page_ref (PTE2PA v) (km s) = Ret r (km s) -> r <= 1 ->
  (forall s', unshared T U s va v r s' -> Q tt s') ->
  wp (cow_fault get_page_ref (q + 8 * PX 0 va) v) Q E s.
Proof.
  intros HV Hva Hq Hv Hpg Hr Hle HQ. destruct (pte_at_some root T (memory (km s)) va (vi_tree _ _ _ _ _ _ _ HV)) as (v' & Hv' & Hv64).
  rewrite Hv in Hv'. injection Hv' as <-. pose proof (data_page_off n U T _ _ HV (PTE2PA_aligned v) Hpg) as [Hok Hoff].
  unfold cow_fault. apply wp_bind, wp_on_km. eapply wp_of_run; [exact Hr|].
  rewrite set_km_eta, (proj2 (Z.ltb_ge _ _)) by lia.
  assert (Hw : 0 <= Z.lor v PTE_W < 2 ^ 64).
  { split; [apply Z.lor_nonneg; unfold PTE_W; lia|]. apply bits_lt; [lia|apply Z.lor_nonneg; unfold PTE_W; lia|].
    intros i Hi. rewrite Z.lor_spec, (high_bit_0 v 64), (high_bit_0 PTE_W 64) by (unfold PTE_W; lia). done. }
  apply wp_bind. eapply wp_pmem_leaf; [exact HV|done|done|done|]. intros k1 D1.
  pose proof (ed_view _ _ _ _ _ _ _ _ _ _ _ _ D1) as V1. apply wp_bind. eapply wp_pmem_load.
  { cbn [km set_km]. specialize (V1 va ltac:(lia)). cbv beta in V1. rewrite decide_True in V1 by done. unfold pte_at in V1. rewrite Hq in V1. exact V1. }
  eapply wp_pmem_leaf; [exact (ed_inv _ _ _ _ _ _ _ _ _ _ _ _ D1)|done|done|by apply own_entry_range|].
  intros k2 D2. apply HQ. pose proof (ed_view _ _ _ _ _ _ _ _ _ _ _ _ D2) as V2.
  assert (Hfr : forall i, 0 <= i < PGSIZE -> memory k2 !! (PTE2PA v + i) = memory (km s) !! (PTE2PA v + i)).
  { intros i Hi. rewrite (ed_frame _ _ _ _ _ _ _ _ _ _ _ _ D2), (ed_frame _ _ _ _ _ _ _ _ _ _ _ _ D1); [done|..];
      intros π p Hp; destruct (Hoff π p Hp); lia. }
  split; cbn [procs current ready_queue_head set_km km]; try done.
  - by apply (vi_tree _ _ _ _ _ _ _ (ed_inv _ _ _ _ _ _ _ _ _ _ _ _ D2)).
  - exists (own_entry v). split_and!.
    + intros vb Hvb. rewrite V2 by done. cbn [km set_km]. case_decide; [done|]. rewrite V1 by done. cbv beta. by rewrite decide_False.
    + apply own_entry_flags.
    + intros _. apply own_entry_page.
    + lia.
    + rewrite own_entry_page. done.
Qed.
(** With more users, the writer gets a copy of its own. *)
Lemma wp_cow_copy n U T s va q v r (Q : unit -> kstate S -> Prop) (E : stop -> kstate S -> Prop) :
  vinv lo hi root n U T (km s) -> 0 <= va < MAXVA -> T !! [PX 2 va; PX 1 va] = Some q ->
  pte_at T (memory (km s)) va = Some v -> data_page T U (PTE2PA v) -> 7 <= lo ->
  get_page_ref (PTE2PA v) (km s) = Ret r (km s) -> 1 < r ->
  (forall s', unshared T U s va v r s' -> Q tt s') ->
  (n = 0%nat -> forall s', E al_stop s') ->
  (forall h hp hp' s', al_free (PTE2PA v) hp = Halt h hp' -> E h s') ->
  wp (cow_fault get_page_ref (q + 8 * PX 0 va) v) Q E s.
Proof.
  intros HV Hva Hq Hv Hpg Hlo7 Hr Hgt HQ HE1 HE2. pose proof (vi_tree _ _ _ _ _ _ _ HV) as HT.
  destruct (pte_at_some root T (memory (km s)) va HT) as (v' & Hv' & Hv64).
  rewrite Hv in Hv'. injection Hv' as <-. pose proof (data_page_off n U T _ _ HV (PTE2PA_aligned v) Hpg) as [Hok Hoff].
  destruct Hpg as (Hin & Hplo & Hphi & _). pose proof (vi_arena _ _ _ _ _ _ _ HV) as Har.
  unfold cow_fault. apply wp_bind, wp_on_km. eapply wp_of_run; [exact Hr|].
  rewrite set_km_eta, (proj2 (Z.ltb_lt _ _)) by lia. apply wp_bind. eapply wp_kalloc; [exact (vi_al _ _ _ _ _ _ _ HV)| |exact HE1].
  intros a h n' -> Hal Ha Hpa Halo Hahi. pose proof Hpa as (Hal4 & Ha0 & Ha56). unfold PGSIZE in *.
  rewrite (proj2 (Z.eqb_neq _ _)) by lia.
  assert (Hne : a <> PTE2PA v) by (intros ->; done). pose proof (pages_apart a (PTE2PA v) Hpa Hok Hne) as Hap.
  unfold PGSIZE in Hap. assert (Hok2 := Hok). destruct Hok2 as (_ & _ & Hp56). unfold PGSIZE in Hp56.
  apply wp_bind, wp_pmem. apply wp_memcpy; cbn [km set_km memory]; unfold PGSIZE; try lia.
  { apply HT. } { intros x Hx. apply Har. lia. } { intros x Hx. apply Har. lia. }
  intros m1 Hc.
  assert (Hoffa : off_tables T a PGSIZE).
  { eapply off_tables_page; [exact HT|done|]. intros π p Hp ->. by apply Ha, (vi_own _ _ _ _ _ _ _ HV π). }
  destruct (copied_tree T _ m1 a (PTE2PA v) HT Hoffa ltac:(intros x Hx; apply Har; lia) Hc) as (HT1 & V1 & Hhas).
  set (s1 := set_mem m1 _). assert (HV1 : vinv lo hi root n' (U ∪ {[a]}) T (km s1)).
  { split; cbn; [done|done|by apply Hhas|]. intros π p Hp. apply elem_of_union_l. by apply (vi_own _ _ _ _ _ _ _ HV π). }
  apply wp_bind. eapply wp_pmem_load.
  { pose proof (V1 va) as Hl. rewrite Hv in Hl. unfold pte_at in Hl. rewrite Hq in Hl. exact Hl. }
  apply wp_bind. eapply wp_pmem_leaf; [exact HV1|done|done|apply copy_entry_range; (done || lia)|].
  intros k2 D2. apply wp_on_km, wp_on_heap. destruct (al_free (PTE2PA v) (heap (km (set_km k2 s1)))) as [[] hp'|st hp'] eqn:Ef.
  2: { unfold wp. rewrite Ef. by eapply HE2. }
  unfold wp. rewrite Ef. apply HQ. pose proof (ed_view _ _ _ _ _ _ _ _ _ _ _ _ D2) as V2.
  assert (Hfr : forall x, (forall π p, T !! π = Some p -> ~ (p <= x < p + PGSIZE)) -> memory k2 !! x = m1 !! x).
  { intros x Hx. by rewrite (ed_frame _ _ _ _ _ _ _ _ _ _ _ _ D2). }
  split; cbn [procs current ready_queue_head set_km set_mem km memory]; try done.
  - by apply (vi_tree _ _ _ _ _ _ _ (ed_inv _ _ _ _ _ _ _ _ _ _ _ _ D2)).
  - exists (copy_entry v a). rewrite copy_entry_page by (lia || done). split_and!.
    + intros vb Hvb. rewrite V2 by done. cbv beta. case_decide; [done|]. apply V1.
    + apply copy_entry_flags. lia.
    + lia.
    + done.
    + intros i Hi. rewrite Hfr by (intros π p Hp; destruct (Hoffa π p Hp); unfold PGSIZE in *; lia).
      rewrite Hc. destruct (inside_spec a 4096 (a + i)); [|unfold PGSIZE in *; lia]. f_equal. lia.
  - intros i Hi. rewrite Hfr by (intros π p Hp; destruct (Hoff π p Hp); unfold PGSIZE in *; lia).
    rewrite Hc. destruct (inside_spec a 4096 (PTE2PA v + i)); [unfold PGSIZE in *; lia|done].
Qed.
End fault.

(** ** The page-fault handler *)
Section handler.
Context {S : Type} `{Allocator S} `{Harts S} (lo hi : Z) `{!AllocatorSpec S lo hi} (root : Z).
Context (get_page_ref : Z -> M (kmem S) Z).
Implicit Types (T : ptable) (s : kstate S) (U : gset Z) (n : nat).

Definition illegal_access : stop := Panicked "Illegal memory access or Stack Overflow.".

(** The walk of the handler, and the test of the entry. *)
Lemma wp_store_fault T s p x pc va (Q : unit -> kstate S -> Prop) E :
  current s = Some p -> procs s !! p = Some x -> pagetable x = root -> ptree T root (memory (km s)) -> va_ok va ->
  (forall q v, T !! [PX 2 va; PX 1 va] = Some q -> pte_at T (memory (km s)) va = Some v ->
     bit_set v PTE_V && bit_set v PTE_COW = true -> wp (cow_fault get_page_ref (q + 8 * PX 0 va) v) Q E s) ->
  (forall v, pte_at T (memory (km s)) va = Some v -> bit_set v PTE_V && bit_set v PTE_COW = false -> E illegal_access s) ->
  wp (handle_user_page_fault get_page_ref CAUSE_STORE_PAGE_FAULT pc va) Q E s.
Proof.
  intros Hc Hx Hroot HT Hva Hcow Hill. unfold handle_user_page_fault. rewrite Z.eqb_refl.
  apply wp_bind, wp_gets. rewrite Hc. apply wp_bind. eapply wp_proc; [exact Hx|]. rewrite Hroot.
  apply wp_bind, wp_on_km. eapply wp_page_walk; [exact HT|exact Hva|]. rewrite set_km_eta.
  destruct (pte_at_some root T (memory (km s)) va HT) as (v & Hv & _). pose proof Hv as Hv0. unfold pte_at in Hv.
  destruct (T !! [PX 2 va; PX 1 va]) as [q|] eqn:Hq; cbn [fmap option_fmap option_map].
  - apply wp_bind, wp_bind. eapply wp_pmem_load; [exact Hv|]. apply wp_ret.
    destruct (bit_set v PTE_V && bit_set v PTE_COW) eqn:Eb; [by apply Hcow|by apply wp_halt, (Hill v)].
  - apply wp_bind, wp_ret, wp_halt, (Hill 0); [|done]. injection Hv as <-. done.
Qed.
End handler.

(** ** The system-call path *)
Section ecall.
Context {S : Type} `{Allocator S} `{Harts S} `{!HartsSpec S} (lo hi : Z) `{!AllocatorSpec S lo hi} (root : Z) (sym : symbols).
Context (get_page : Z -> M (kmem S) unit) (get_page_ref : Z -> M (kmem S) Z) (host_write : Z -> Z -> M mem unit).
Implicit Types (T : ptable) (s : kstate S) (U : gset Z) (n : nat).

(** Stores into the trap frame do not meet the page tables. *)
Lemma frame_store_tree T m m' tf k v :
  ptree T root m -> off_tables T tf sizeof_trapframe -> 0 <= k -> k + 8 <= sizeof_trapframe ->
  upd m m' (inside (tf + k) 8) (fun y => byte_of v (y - (tf + k))) ->
  ptree T root m' /\ forall va, pte_at T m' va = pte_at T m va.
Proof.
  intros HT Hoff Hk Hk2 Hu. eapply data_tree; [exact HT|exact Hu| |].
  - intros y _. apply byte_of_range.
  - intros y π p Hy Hp. destruct (inside_spec (tf + k) 8 y); [|done]. destruct (Hoff π p Hp); lia.
Qed.

Lemma frame_ok_upd m m' P f tf : upd m m' P f -> frame_ok m tf -> frame_ok m' tf.
Proof. intros Hu (F1 & F2 & F3). split; [done|split; [done|by eapply upd_has]]. Qed.

(** One store into the trap frame. *)
Lemma wp_frame_store s tf k v (Q : unit -> kstate S -> Prop) E :
  frame_ok (memory (km s)) tf -> 0 <= k -> k + 8 <= sizeof_trapframe ->
  (forall m', store_le 8 (tf + k) v (memory (km s)) = Some m' ->
     upd (memory (km s)) m' (inside (tf + k) 8) (fun y => byte_of v (y - (tf + k))) -> Q tt (set_mem m' s)) ->
  wp (pmem (store64 (u64 (tf + k)) v)) Q E s.
Proof.
  intros (F1 & F2 & F3) Hk Hk2 HQ. rewrite u64_id by (unfold is_u64; lia). apply wp_pmem, wp_store; [|exact HQ].
  intros y Hy. apply F3. change (Z.of_nat 8) with 8 in Hy. lia.
Qed.

Lemma wp_frame_load s tf k v (Q : Z -> kstate S -> Prop) E :
  frame_ok (memory (km s)) tf -> 0 <= k -> k + 8 <= sizeof_trapframe ->
  load_le 8 (tf + k) (memory (km s)) = Some v -> Q v s -> wp (pmem (load64 (u64 (tf + k)))) Q E s.
Proof.
  intros (F1 & F2 & F3) Hk Hk2 Hv HQ. rewrite u64_id by (unfold is_u64; lia). by eapply wp_pmem_load.
Qed.

(** The registers a trap from user mode finds. *)
Record user_trap (p : Z) (x : process) (cause pc : Z) s : Prop := {
  ut_mode : Z.land (sstatus (the_hart s)) SSTATUS_SPP = 0;
  ut_current : current s = Some p;
  ut_proc : procs s !! p = Some x;
  ut_frame : frame_ok (memory (km s)) (trapframe x);
  ut_pc : sepc (the_hart s) = pc /\ is_u64 pc;
  ut_cause : scause (the_hart s) = cause
}.

(** From the trap to the system call, and back to user mode. *)
Lemma wp_ecall p x pc a0 a1 a2 out stray s (Q : unit -> kstate S -> Prop) E :
  user_trap p x CAUSE_USER_ECALL pc s ->
  load_le 8 (trapframe x + TF_A 0) (memory (km s)) = Some a0 ->
  load_le 8 (trapframe x + TF_A 1) (memory (km s)) = Some a1 ->
  load_le 8 (trapframe x + TF_A 2) (memory (km s)) = Some a2 ->
  (forall m1, upd (memory (km s)) m1 (inside (trapframe x + TF_EPC) 8)
                (fun y => byte_of (u64 (pc + 4)) (y - (trapframe x + TF_EPC))) ->
     wp (do_syscall sym get_page host_write out stray a0 a1 a2)
        (fun r s2 => wp (pmem (store64 (u64 (trapframe x + TF_A 0)) (u64 r)) ;;;
                         let* cur := gets current in switch_to sym cur) Q E s2) E (set_mem m1 s)) ->
  wp (smode_trap_handler sym get_page get_page_ref host_write out stray) Q E s.
Proof.
  intros [U1 U2 U3 U4 [U5 U5'] U6] L0 L1 L2 Hsys. unfold smode_trap_handler.
  apply wp_bind, wp_gets. rewrite U1. apply wp_bind, wp_ret, wp_bind, wp_gets. rewrite U2. apply wp_bind, wp_ret.
  apply wp_bind. eapply wp_proc; [exact U3|]. apply wp_bind, wp_gets. rewrite U5. apply wp_bind.
  apply wp_frame_store; [done|unfold TF_EPC; lia|unfold TF_EPC, sizeof_trapframe; lia|]. intros m0 S0 D0.
  pose proof (frame_ok_upd _ _ _ _ _ D0 U4) as F0.
  apply wp_bind, wp_gets. change (the_hart (set_mem m0 s)) with (the_hart s). rewrite U6.
  change (CAUSE_USER_ECALL =? CAUSE_USER_ECALL) with true. cbv iota. apply wp_bind. unfold handle_syscall. apply wp_bind.
  apply (wp_frame_load _ _ _ pc); [exact F0|unfold TF_EPC; lia|unfold TF_EPC, sizeof_trapframe; lia| |].
  { cbn [km set_mem set_km memory]. rewrite (load_store_same _ _ _ _ _ S0). f_equal. by apply Z.mod_small. }
  apply wp_bind. apply wp_frame_store; [exact F0|unfold TF_EPC; lia|unfold TF_EPC, sizeof_trapframe; lia|].
  intros m1 S1 D1. cbn [km set_mem set_km memory] in S1, D1.
  pose proof (frame_ok_upd _ _ _ _ _ D1 F0) as F1.
  assert (Hreg : forall i v, 0 <= i <= 7 -> load_le 8 (trapframe x + TF_A i) (memory (km s)) = Some v ->
            load_le 8 (trapframe x + TF_A i) m1 = Some v).
  { intros i v Hi Hl. unfold TF_A, TF_EPC in *.
    rewrite (load_store_other _ _ _ _ _ _ _ S1), (load_store_other _ _ _ _ _ _ _ S0) by lia. exact Hl. }
  apply wp_bind. eapply wp_frame_load; [exact F1|unfold TF_A; lia|unfold TF_A, sizeof_trapframe; lia|apply Hreg; [lia|exact L0]|].
  apply wp_bind. eapply wp_frame_load; [exact F1|unfold TF_A; lia|unfold TF_A, sizeof_trapframe; lia|apply Hreg; [lia|exact L1]|].
  apply wp_bind. eapply wp_frame_load; [exact F1|unfold TF_A; lia|unfold TF_A, sizeof_trapframe; lia|apply Hreg; [lia|exact L2]|].
  apply wp_bind. assert (D : upd (memory (km s)) m1 (inside (trapframe x + TF_EPC) 8)
                (fun y => byte_of (u64 (pc + 4)) (y - (trapframe x + TF_EPC)))).
  { intros y. rewrite D1, D0. by destruct (inside (trapframe x + TF_EPC) 8 y). }
  specialize (Hsys m1 D). change (set_mem m1 (set_mem m0 s)) with (set_mem m1 s).
  eapply wp_mono; [exact Hsys| |done]. intros r s2 Hs2. apply wp_bind_inv in Hs2. exact Hs2.
Qed.
(** The result is stored, and the process goes on. *)
Lemma wp_user_return p x pc r s (Q : unit -> kstate S -> Prop) E :
  current s = Some p -> procs s !! p = Some x -> frame_ok (memory (km s)) (trapframe x) ->
  load_le 8 (trapframe x + TF_EPC) (memory (km s)) = Some pc ->
  (forall m' s', upd (memory (km s)) m' (inside (trapframe x + TF_A 0) 8)
                   (fun y => byte_of (u64 r) (y - (trapframe x + TF_A 0))) ->
     load_le 8 (trapframe x + TF_A 0) m' = Some (u64 r) ->
     entered sym p x pc (set_mem m' s) s' -> E (ToUser (trapframe x) (MAKE_SATP (pagetable x))) s') ->
  wp (pmem (store64 (u64 (trapframe x + TF_A 0)) (u64 r)) ;;; let* cur := gets current in switch_to sym cur) Q E s.
Proof.
  intros Hc Hx Hf Hpc HE. apply wp_bind. apply wp_frame_store; [exact Hf|unfold TF_A; lia|unfold TF_A, sizeof_trapframe; lia|].
  intros m' S1 D1. apply wp_bind, wp_gets. change (current (set_mem m' s)) with (current s). rewrite Hc.
  eapply (wp_switch_to (S := S) sym p x pc); [exact Hx|by eapply frame_ok_upd| |].
  - cbn [km set_mem set_km memory]. rewrite (load_store_other _ _ _ _ _ _ _ S1) by (unfold TF_A, TF_EPC; lia). exact Hpc.
  - intros s' HI. eapply HE; [exact D1| |exact HI]. rewrite (load_store_same _ _ _ _ _ S1). f_equal.
    apply Z.mod_small. apply u64_range.
Qed.

(** What user mode finds after a system call that changed nothing but its
    result: the next instruction, the result in a0, all other memory. *)
Record resumed (p : Z) (x : process) (pc r : Z) s s' : Prop := {
  rs_current : current s' = Some p;
  rs_procs : procs s' = procs s;
  rs_head : ready_queue_head s' = ready_queue_head s;
  rs_pc : sepc (the_hart s') = u64 (pc + 4);
  rs_result : load_le 8 (trapframe x + TF_A 0) (memory (km s')) = Some (u64 r);
  rs_frame a : ~ (trapframe x <= a < trapframe x + sizeof_trapframe) -> memory (km s') !! a = memory (km s) !! a
}.

(** A system call that changes memory outside the trap frame only. *)
Lemma wp_ecall_mem p x pc a0 a1 a2 out stray s (r : Z) (R : mem -> mem -> Prop) (Q : unit -> kstate S -> Prop) E :
  user_trap p x CAUSE_USER_ECALL pc s ->
  load_le 8 (trapframe x + TF_A 0) (memory (km s)) = Some a0 ->
  load_le 8 (trapframe x + TF_A 1) (memory (km s)) = Some a1 ->
  load_le 8 (trapframe x + TF_A 2) (memory (km s)) = Some a2 ->
  (forall m1, upd (memory (km s)) m1 (inside (trapframe x + TF_EPC) 8)
                (fun y => byte_of (u64 (pc + 4)) (y - (trapframe x + TF_EPC))) ->
     wp (do_syscall sym get_page host_write out stray a0 a1 a2)
        (fun r' s2 => r' = r /\ exists m2, s2 = set_mem m2 s /\ R m1 m2 /\
           forall y, inside (trapframe x) sizeof_trapframe y = true -> m2 !! y = m1 !! y) E (set_mem m1 s)) ->
  (forall m1 m2 s', upd (memory (km s)) m1 (inside (trapframe x + TF_EPC) 8)
                      (fun y => byte_of (u64 (pc + 4)) (y - (trapframe x + TF_EPC))) ->
     R m1 m2 -> resumed p x pc r (set_mem m2 s) s' -> E (ToUser (trapframe x) (MAKE_SATP (pagetable x))) s') ->
  wp (smode_trap_handler sym get_page get_page_ref host_write out stray) Q E s.
Proof.
  intros HT L0 L1 L2 Hsys HE. eapply wp_ecall; [exact HT|exact L0|exact L1|exact L2|]. intros m1 D1.
  eapply wp_mono; [exact (Hsys m1 D1)| |done]. intros r' s2 (-> & m2 & -> & HR & Hf). destruct HT as [U1 U2 U3 U4 U5 U6].
  assert (Hin : forall k y, 0 <= k -> k + 8 <= sizeof_trapframe -> trapframe x + k <= y < trapframe x + k + 8 -> m2 !! y = m1 !! y).
  { intros k y Hk Hk2 Hy. apply Hf. destruct (inside_spec (trapframe x) sizeof_trapframe y); [done|lia]. }
  eapply (wp_user_return p x (u64 (pc + 4))); [exact U2|exact U3| | |].
  - destruct (frame_ok_upd _ _ _ _ _ D1 U4) as (F1 & F2 & F3). split; [done|split; [done|]]. intros y Hy.
    cbn [km set_mem set_km memory]. rewrite Hf by (destruct (inside_spec (trapframe x) sizeof_trapframe y); [done|lia]). by apply F3.
  - cbn [km set_mem set_km memory]. rewrite (load_le_bytes 8 _ _ (u64 (pc + 4))).
    + f_equal. apply Z.mod_small, u64_range.
    + intros y Hy. change (Z.of_nat 8) with 8 in Hy. rewrite (Hin TF_EPC), D1 by (unfold TF_EPC, sizeof_trapframe in *; lia).
      destruct (inside_spec (trapframe x + TF_EPC) 8 y); [done|lia].
  - intros m' s' D2 L3 HI. apply (HE m1 m2 s' D1 HR). destruct HI as [I1 I2 I3 I4 I5 I6 I7 I8].
    cbn [km set_mem set_km memory procs ready_queue_head] in *.
    split; [done|done|done| | |].
    + rewrite I8. done.
    + rewrite <- L3. apply load_le_ext. intros y Hy. change (Z.of_nat 8) with 8 in Hy.
      apply I7; unfold TF_A, TF_KERNEL_SP, TF_EPC, TF_KERNEL_SATP, sizeof_trapframe in *; lia.
    + intros a Ha. unfold sizeof_trapframe in Ha. rewrite I7 by (unfold TF_KERNEL_SP, TF_EPC, TF_KERNEL_SATP, sizeof_trapframe; lia).
      rewrite D2. unfold TF_A. by destruct (inside_spec (trapframe x + (72 + 8 * 0)) 8 a); [lia|].
Qed.

(** A system call that changes nothing. *)
Lemma wp_ecall_pure p x pc a0 a1 a2 out stray s (r : Z) (Q : unit -> kstate S -> Prop) E :
  user_trap p x CAUSE_USER_ECALL pc s ->
  load_le 8 (trapframe x + TF_A 0) (memory (km s)) = Some a0 ->
  load_le 8 (trapframe x + TF_A 1) (memory (km s)) = Some a1 ->
  load_le 8 (trapframe x + TF_A 2) (memory (km s)) = Some a2 ->
  (forall m1, upd (memory (km s)) m1 (inside (trapframe x + TF_EPC) 8)
                (fun y => byte_of (u64 (pc + 4)) (y - (trapframe x + TF_EPC))) ->
     wp (do_syscall sym get_page host_write out stray a0 a1 a2)
        (fun r' s2 => r' = r /\ s2 = set_mem m1 s) E (set_mem m1 s)) ->
  (forall s', resumed p x pc r s s' -> E (ToUser (trapframe x) (MAKE_SATP (pagetable x))) s') ->
  wp (smode_trap_handler sym get_page get_page_ref host_write out stray) Q E s.
Proof.
  intros HT L0 L1 L2 Hsys HE. eapply (wp_ecall_mem p x pc a0 a1 a2 out stray s r eq); [exact HT|exact L0|exact L1|exact L2| |].
  - intros m1 D1. eapply wp_mono; [exact (Hsys m1 D1)| |done]. intros r' s2 [-> ->]. split; [done|]. by exists m1.
  - intros m1 m2 s' D1 <- [I1 I2 I3 I4 I5 I6]. apply HE. cbn [km set_mem set_km memory] in *. split; try done.
    intros a Ha. rewrite I6 by done. rewrite D1. unfold sizeof_trapframe, TF_EPC in *.
    by destruct (inside_spec (trapframe x + 264) 8 a); [lia|].
Qed.

(** [sys_user_printpa] reads, and changes nothing. *)
Definition printpa_spec (e : option Z) (va : Z) : Z :=
  match e with
  | Some v => if bit_set v PTE_V then u64 (PTE2PA v + va mod PGSIZE) else 0
  | None => 0
  end.

Lemma wp_printpa T s p x va (Q : Z -> kstate S -> Prop) E :
  current s = Some p -> procs s !! p = Some x -> pagetable x = root -> ptree T root (memory (km s)) -> va_ok va ->
  Q (printpa_spec (pte_at T (memory (km s)) va) va) s -> wp (sys_user_printpa va) Q E s.
Proof.
  intros Hc Hx Hroot HT Hva HQ. unfold sys_user_printpa. apply wp_bind, wp_gets. rewrite Hc. apply wp_bind.
  eapply wp_proc; [exact Hx|]. rewrite Hroot. apply wp_bind, wp_on_km. eapply wp_page_walk; [exact HT|exact Hva|].
  rewrite set_km_eta. destruct (pte_at_some root T (memory (km s)) va HT) as (v & Hv & _). rewrite Hv in HQ.
  unfold pte_at in Hv. assert (El : va mod PGSIZE = Z.land va (PGSIZE - 1)) by (symmetry; apply (land_low va 12); lia).
  cbn [printpa_spec] in HQ. rewrite El in HQ.
  destruct (T !! [PX 2 va; PX 1 va]) as [q|] eqn:Hq; cbn [fmap option_fmap option_map].
  - apply wp_bind. eapply wp_pmem_load; [exact Hv|]. destruct (bit_set v PTE_V); apply wp_ret, HQ.
  - injection Hv as <-. by apply wp_ret.
Qed.
End ecall.
