(* ===== verification/HeapProofs.v ===== *)
(** * The user heap: sys_user_allocate_page and sys_user_free_page

    Lemmas about the pages a process asks for and gives back. *)
From stdpp Require Import base gmap list strings.
From Stdlib Require Import ZArith Lia.
From S2P Require Import Prelude Riscv PmmState Mem Str Vmm VmmProofs VmmSpec KernVm VmTheorems ProcState Sched Process Trap SchedProofs TrapProofs.

#[local] Arguments load_le : simpl never.

(** The same call [n] times. *)
Fixpoint times {S A} (n : nat) (m : M S A) : M S unit :=
  match n with O => ret tt | Datatypes.S n => m ;;; times n m end.

(** A user page. *)
Definition user_page (va : Z) : Prop := va mod PGSIZE = 0 /\ PGSIZE <= va /\ va + PGSIZE <= MAXVA.

Lemma user_page_one va : user_page va -> first_page_of va = va /\ npages va PGSIZE = 1 /\ va_ok va.
Proof.
  intros (Hal & Hlo0 & Hm). unfold first_page_of, npages, va_ok, PGSIZE in *. split; [lia|]. split; [zlia|lia].
Qed.

Lemma in_one_page va vb : user_page va -> in_pages va 1 vb = true <-> vb / PGSIZE = va / PGSIZE.
Proof. intros (Hal & Hlo0 & Hm). rewrite in_pages_page by (done || lia). lia. Qed.

Lemma size_union_le (X Y : gset (list Z)) : (size (X ∪ Y) <= size X + size Y)%nat.
Proof. rewrite size_union_alt. pose proof (subseteq_size (Y ∖ X) Y ltac:(set_solver)). lia. Qed.

Section heap.
Context {S : Type} `{Allocator S} `{Harts S} (lo hi : Z) `{!AllocatorSpec S lo hi} (root : Z).
Implicit Types (T : ptable) (U : gset Z) (n : nat).

(** Unmapping what is not mapped does nothing, even when it is to be freed. *)
Lemma wp_unmap_absent T (k : kmem S) va v free (Q : unit -> kmem S -> Prop) E :
  ptree T root (memory k) -> user_page va -> pte_at T (memory k) va = Some v -> bit_set v PTE_V = false ->
  Q tt k -> wp (user_vm_unmap root va PGSIZE free) Q E k.
Proof.
  intros HT Hva Hv Eb HQ. destruct (user_page_one va Hva) as (_ & _ & Hok). destruct Hva as (Hal & Hlo0 & Hm).
  rewrite MAXVA_val in Hm. unfold user_vm_unmap. unfold PGSIZE in Hlo0, Hm.
  rewrite ROUNDDOWN_page, Hal, Z.sub_0_r by (unfold is_u64; lia). rewrite u64_id by (unfold is_u64, PGSIZE; lia).
  change (Z.to_nat (PGSIZE / PGSIZE + 2)) with 3%nat. cbn [unmap_loop].
  rewrite (proj2 (Z.ltb_lt _ _)) by (unfold PGSIZE; lia). apply wp_assoc, wp_bind. cbv match.
  assert (Hend : forall m : M (kmem S) unit, wp (if u64 (va + PGSIZE) <? va + PGSIZE then m else ret tt) Q E k).
  { intros m. rewrite u64_id by (unfold is_u64, PGSIZE; lia). rewrite (proj2 (Z.ltb_ge _ _)) by lia. by apply wp_ret. }
  apply (wp_walk_leaf root T); [exact HT|exact Hok| |].
  - intros _. apply wp_ret, Hend.
  - intros q v' _ Hv'. rewrite Hv in Hv'. injection Hv' as <-. rewrite Eb. apply wp_ret, Hend.
Qed.

(** One call of [sys_user_free_page] for a page that is not mapped. *)
Lemma wp_free_absent T (s : kstate S) p x va v (Q : Z -> kstate S -> Prop) E :
  current s = Some p -> procs s !! p = Some x -> pagetable x = root -> ptree T root (memory (km s)) -> user_page va ->
  pte_at T (memory (km s)) va = Some v -> bit_set v PTE_V = false ->
  let h := user_heap x in
  0 <= free_pages_count h -> Z.of_nat (length (free_pages_address h)) = MAX_HEAP_PAGES ->
  (free_pages_count h < MAX_HEAP_PAGES ->
     Q 0 (set_procs (<[p := with_heap (mkHeap (heap_top h) (heap_bottom h)
            (<[Z.to_nat (free_pages_count h) := va]> (free_pages_address h)) (free_pages_count h + 1)) x]> (procs s)) s)) ->
  (MAX_HEAP_PAGES <= free_pages_count h -> forall s', E WildAccess s') ->
  wp (sys_user_free_page va) Q E s.
Proof.
  intros Hc Hx Hroot HT Hva Hv Eb h Hn Hl HQ HE. unfold sys_user_free_page.
  apply wp_bind, wp_gets. rewrite Hc. apply wp_bind. eapply wp_proc; [exact Hx|]. rewrite Hroot.
  apply wp_bind, wp_on_km. eapply wp_unmap_absent; [exact HT|exact Hva|exact Hv|exact Eb|]. rewrite set_km_eta.
  apply wp_bind. eapply wp_upd_proc; [exact Hx|]. fold h. unfold MAX_HEAP_PAGES in *. apply wp_bind.
  destruct (Z.ltb_spec (free_pages_count h) 32) as [Hlt|Hge].
  - destruct (lookup_lt_is_Some_2 (free_pages_address h) (Z.to_nat (free_pages_count h))) as [w Hw]; [lia|].
    eapply wp_read_opt; [exact Hw|]. apply wp_bind. eapply wp_upd_proc; [cbn; apply lookup_insert_eq|]. apply wp_ret.
    specialize (HQ Hlt). cbn. rewrite insert_insert_eq. unfold set_procs in *. cbn.
    rewrite u32_id by lia. exact HQ.
  - unfold wp, read_opt. rewrite (proj2 (lookup_ge_None _ _)) by lia. by apply HE.
Qed.

(** Calls that free one and the same unmapped page. *)
Lemma wp_free_times T va v (k : nat) : forall (s : kstate S) p x,
  current s = Some p -> procs s !! p = Some x -> pagetable x = root -> ptree T root (memory (km s)) -> user_page va ->
  pte_at T (memory (km s)) va = Some v -> bit_set v PTE_V = false ->
  Z.of_nat (length (free_pages_address (user_heap x))) = MAX_HEAP_PAGES ->
  0 <= free_pages_count (user_heap x) <= MAX_HEAP_PAGES -> MAX_HEAP_PAGES < free_pages_count (user_heap x) + Z.of_nat k ->
  wp (times k (sys_user_free_page va)) (fun _ _ => False) (fun h _ => h = WildAccess) s.
Proof.
  induction k as [|k IH]; intros s p x Hc Hx Hroot HT Hva Hv Eb Hl Hn Hk; cbn [times].
  - lia.
  - apply wp_bind. eapply (wp_free_absent T s p x va v); [exact Hc|exact Hx|exact Hroot|exact HT|exact Hva|exact Hv|exact Eb|apply Hn|exact Hl| |done].
    intros Hlt. eapply (IH _ p); [exact Hc|cbn; apply lookup_insert_eq|exact Hroot|exact HT|exact Hva|exact Hv|exact Eb| | |]; cbn.
    + by rewrite length_insert.
    + lia.
    + lia.
Qed.
(** *** Data that no table will ever overlap *)
Definition kept T U (a k : Z) : Prop :=
  off_tables T a k /\ forall q, q mod PGSIZE = 0 -> new_page lo hi U q -> a + k <= q \/ q + PGSIZE <= a.

Lemma kept_used n U T k a : vinv lo hi root n U T k -> page_ok a -> a ∈ U -> (forall π q, T !! π = Some q -> q <> a) ->
  kept T U a PGSIZE.
Proof.
  intros HV Ha Hin Hne. split.
  - eapply off_tables_page; [exact (vi_tree _ _ _ _ _ _ _ HV)|exact Ha|exact Hne].
  - intros q Hq (Hn & Hlo & Hhi). assert (q <> a) by (intros ->; done).
    destruct Ha as (Ha4 & _). unfold PGSIZE in *. zlia.
Qed.

Lemma kept_below T U a k : off_tables T a k -> a + k <= lo -> kept T U a k.
Proof. intros HT Ha. split; [done|]. intros q _ (_ & Hlo & _). left. lia. Qed.

Lemma kept_sub T U a k b j : kept T U a k -> a <= b -> b + j <= a + k -> kept T U b j.
Proof. intros [K1 K2] H1 H2. split; [by eapply off_tables_sub|]. intros q Hq Hn. destruct (K2 q Hq Hn); lia. Qed.

Lemma kept_grow T U T' U' a k : kept T U a k -> U ⊆ U' ->
  (forall π q, T' !! π = Some q -> page_ok q) ->
  (forall π q, T' !! π = Some q -> T !! π = Some q \/ new_page lo hi U q) -> kept T' U' a k.
Proof.
  intros [K1 K2] HU Hok HT. split.
  - intros π q Hq. destruct (HT π q Hq) as [H1|H1]; [by eapply K1|]. apply K2; [apply (Hok π q Hq)|exact H1].
  - intros q Hq (Hn & Hr). apply K2; [done|]. split; [by intros Hx%HU|done].
Qed.

Lemma kept_edit n U T k n' U' T' k' g a j : edit lo hi root n U T k n' U' T' k' g -> kept T U a j -> kept T' U' a j.
Proof.
  intros D HK. eapply kept_grow; [exact HK|exact (ed_own _ _ _ _ _ _ _ _ _ _ _ _ D)| |exact (ed_fresh _ _ _ _ _ _ _ _ _ _ _ _ D)].
  intros π q Hq. by eapply (pt_page _ _ _ (vi_tree _ _ _ _ _ _ _ (ed_inv _ _ _ _ _ _ _ _ _ _ _ _ D))).
Qed.

Lemma kept_frame n U T k n' U' T' k' g a j y : edit lo hi root n U T k n' U' T' k' g -> kept T U a j -> a <= y < a + j ->
  memory k' !! y = memory k !! y.
Proof.
  intros D HK Hy. destruct (kept_edit _ _ _ _ _ _ _ _ _ _ _ D HK) as [HO _].
  apply (ed_frame _ _ _ _ _ _ _ _ _ _ _ _ D). intros π q Hq. destruct (HO π q Hq); lia.
Qed.

(** A page taken from the allocator, as part of the invariant. *)
Lemma vinv_take n U T k a h : vinv lo hi root (Datatypes.S n) U T k -> al_inv n (U ∪ {[a]}) h ->
  vinv lo hi root n (U ∪ {[a]}) T (mkKmem h (memory k) (g_kernel_pagetable k)).
Proof.
  intros [V1 V2 V3 V4] Hal. split; cbn; [done..|]. intros π p Hp. apply elem_of_union_l. by apply (V4 π).
Qed.

(** One page needs at most two new tables. *)
Lemma one_page_tables T va : (size (tables T ∪ page_tables va 1) <= size T + 2)%nat.
Proof.
  etrans; [apply size_union_le|]. rewrite size_tables. apply Nat.add_le_mono_l. cbn [page_tables].
  rewrite union_empty_r_L. unfold tables_of. etrans; [apply size_union_le|]. by rewrite !size_singleton.
Qed.

(** Mapping one page that has room in its entry. *)
Lemma wp_map_one n U T (k : kmem S) va pa perm v (Q : unit -> kmem S -> Prop) E :
  vinv lo hi root n U T k -> user_page va -> 0 <= pa -> pa + PGSIZE <= 2 ^ 56 -> 0 <= perm < 1024 ->
  pte_at T (memory k) va = Some v -> bit_set v PTE_V = false ->
  (forall n' U' T' k', (n <= n' + 2)%nat ->
     edit lo hi root n U T k n' U' T' k' (map_view (pte_at T (memory k)) va 1 pa perm) -> Q tt k') ->
  ((n < 2)%nat -> forall k', E al_stop k') ->
  wp (user_vm_map root va PGSIZE pa perm) Q E k.
Proof.
  intros HV Hva Hpa Hpa2 Hperm Hv Eb HQ HE. destruct (user_page_one va Hva) as (Ef & En & Hok).
  pose proof Hva as (Hal & Hlo0 & Hm).
  assert (Hp1 : pa + npages va PGSIZE * PGSIZE <= 2 ^ 56) by (rewrite En; lia).
  eapply wp_mono; [apply (wp_user_vm_map lo hi root n U T k va PGSIZE pa perm HV Hlo0 eq_refl Hm Hpa Hp1 Hperm)|..];
    rewrite Ef, En.
  - intros [] k' (_ & _ & n' & U' & T' & Ht & D). eapply HQ; [|exact D].
    pose proof (ed_count _ _ _ _ _ _ _ _ _ _ _ _ D). pose proof (one_page_tables T va) as Hs. change (Z.to_nat 1) with 1%nat in Ht. rewrite <- Ht, size_tables in Hs. lia.
  - change (Z.to_nat 1) with 1%nat. intros h k' [[-> Hs]|[_ Hnot]].
    { apply HE. pose proof (one_page_tables T va). unfold short in Hs. lia. }
    exfalso. apply Hnot.
    intros vb Hin. change (Z.of_nat 1) with 1 in Hin. apply in_one_page in Hin as Hd; [|done].
    exists v. split; [|done]. rewrite <- Hv. unfold pte_at.
    apply in_pages_range in Hin. unfold PGSIZE in *. by rewrite !(same_page vb va) by (unfold PGSIZE; done || lia).
Qed.

(** *** sys_user_allocate_page *)
Definition next_va (h : process_heap_manager) : option Z :=
  if 0 <? free_pages_count h then free_pages_address h !! Z.to_nat (free_pages_count h - 1) else Some (heap_top h).
Definition heap_after (h : process_heap_manager) : process_heap_manager :=
  if 0 <? free_pages_count h then with_free_count (free_pages_count h - 1) h
  else with_heap_top (u64 (heap_top h + PGSIZE)) h.
Definition rw_user : Z := prot_to_type (Z.lor PROT_WRITE PROT_READ) 1.

(** The heap has grown by the page [va], a page that was not in use. *)
Record heap_grown U T (s : kstate S) p x va s' : Prop := {
  hg_current : current s' = current s;
  hg_head : ready_queue_head s' = ready_queue_head s;
  hg_procs : procs s' = <[p := with_heap (heap_after (user_heap x)) x]> (procs s);
  hg_map : exists a n' U' T', a ∉ U /\ page_ok a /\ vinv lo hi root n' U' T' (km s') /\ T ⊆ T' /\
    forall vb, 0 <= vb < MAXVA -> pte_at T' (memory (km s')) vb =
      if decide (vb / PGSIZE = va / PGSIZE) then Some (leaf_pte a rw_user) else pte_at T (memory (km s)) vb;
  hg_region np : load_le 4 (mapped_info x + 56) (memory (km s)) = Some np ->
    load_le 4 (mapped_info x + 56) (memory (km s')) =
      Some (if 0 <? free_pages_count (user_heap x) then np else u32 (np + 1))
}.

Lemma heap_view va a perm g vb : user_page va ->
  map_view g va 1 a perm vb = if decide (vb / PGSIZE = va / PGSIZE) then Some (leaf_pte a perm) else g vb.
Proof.
  intros Hva. pose proof (in_one_page va vb Hva) as HI. unfold map_view. destruct (in_pages va 1 vb).
  - rewrite decide_True by by apply HI. do 2 f_equal. assert (vb / PGSIZE = va / PGSIZE) by by apply HI. lia.
  - rewrite decide_False; [done|]. intros Hd. by apply HI in Hd.
Qed.
(** The bytes of [npages] in the heap's region. *)
Definition region_kept T U (m : mem) (info : Z) : Prop :=
  0 <= info /\ info + 96 < 2 ^ 64 /\ has m info 96 /\ kept T U info 96.

(** The bookkeeping of [sys_user_allocate_page], before the page is mapped:
    memory changes only in the region table. *)
Definition booked (s : kstate S) p x m' : kstate S :=
  mkKstate (mkKmem (heap (km s)) m' (g_kernel_pagetable (km s)))
    (<[p := with_heap (heap_after (user_heap x)) x]> (procs s)) (current s) (ready_queue_head s) (g_ticks s).

Lemma rw_user_range : 0 <= rw_user < 1024.
Proof. vm_compute. split; congruence. Qed.

Lemma region_addr info : 0 <= info -> info + 96 < 2 ^ 64 ->
  u64 (region info HEAP_SEGMENT + MR_NPAGES) = info + 56.
Proof.
  intros H1 H2. unfold region, HEAP_SEGMENT, MR_NPAGES, sizeof_mapped_region. rewrite !u64_id; unfold is_u64 in *; try lia.
  rewrite u64_id; unfold is_u64; lia.
Qed.

(** Mapping the page [a], taken from the allocator, after the bookkeeping. *)
Lemma wp_map_booked n U T (s : kstate S) p x va v a h m' (Q : Z -> kstate S -> Prop) E :
  let s1 := set_km (mkKmem h (memory (km s)) (g_kernel_pagetable (km s))) s in
  pagetable x = root -> vinv lo hi root (Datatypes.S n) U T (km s) -> al_inv n (U ∪ {[a]}) h -> a ∉ U -> page_ok a -> user_page va ->
  pte_at T (memory (km s)) va = Some v -> bit_set v PTE_V = false -> region_kept T U (memory (km s)) (mapped_info x) ->
  upd (memory (km s)) m' (inside (mapped_info x + 56) 4) (fun y => default 0 (m' !! y)) -> bytes_ok m' ->
  (forall np, load_le 4 (mapped_info x + 56) (memory (km s)) = Some np ->
     load_le 4 (mapped_info x + 56) m' = Some (if 0 <? free_pages_count (user_heap x) then np else u32 (np + 1))) ->
  (forall s', heap_grown U T s p x va s' -> Q va s') -> (forall s', E al_stop s') ->
  wp (on_km (user_vm_map (pagetable x) va PGSIZE a rw_user) ;;; ret va) Q E (booked s1 p x m').
Proof.
  intros s1 Hroot HV Hal Ha Hpa Hva Hv Eb (R1 & R2 & R3 & R4) Hu Hb Hnp HQ HE. pose proof Hpa as (Hpa4 & Hpa0 & Hpa56).
  pose proof (vinv_take n U T (km s) a h HV Hal) as HV1.
  assert (Hoff : forall y π q, inside (mapped_info x + 56) 4 y = true -> T !! π = Some q -> ~ (q <= y < q + PGSIZE)).
  { intros y π q Hy Hq. destruct (inside_spec (mapped_info x + 56) 4 y); [|done]. destruct R4 as [R4 _].
    destruct (R4 π q Hq); unfold PGSIZE in *; lia. }
  assert (Hfb : forall y, inside (mapped_info x + 56) 4 y = true -> 0 <= default 0 (m' !! y) < 256).
  { intros y _. destruct (m' !! y) as [b|] eqn:Hb2; cbn; [by apply Hb in Hb2|lia]. }
  pose proof (data_vinv lo hi root n (U ∪ {[a]}) T (km s1) m' (g_kernel_pagetable (km s)) _ _ HV1 Hu Hfb Hoff) as HV2.
  destruct (data_tree root T _ m' _ _ (vi_tree _ _ _ _ _ _ _ HV) Hu Hfb Hoff) as [_ V1].
  rewrite Hroot. apply wp_bind, wp_on_km. eapply (wp_map_one n (U ∪ {[a]}) T _ va a rw_user v);
    [exact HV2|exact Hva|lia|lia|exact rw_user_range|cbn; by rewrite V1|exact Eb| |intros _ k'; apply HE].
  intros n2 U2 T2 k2 _ D. apply wp_ret, HQ. split; cbn; try done.
  - exists a, n2, U2, T2. split; [done|]. split; [done|]. split; [exact (ed_inv _ _ _ _ _ _ _ _ _ _ _ _ D)|].
    split; [exact (ed_sub _ _ _ _ _ _ _ _ _ _ _ _ D)|]. intros vb Hvb.
    rewrite (ed_view _ _ _ _ _ _ _ _ _ _ _ _ D) by done. rewrite heap_view by done. case_decide; [done|]. apply V1.
  - intros np Hl. rewrite <- (Hnp np Hl). apply load_le_ext. intros y Hy. change (Z.of_nat 4) with 4 in Hy.
    assert (K : kept T (U ∪ {[a]}) (mapped_info x) 96).
    { eapply kept_grow; [exact R4|set_solver|intros π q Hq; by eapply (pt_page _ _ _ (vi_tree _ _ _ _ _ _ _ HV))|by left]. }
    exact (kept_frame _ _ _ _ _ _ _ _ _ _ _ y D K ltac:(lia)).
Qed.

Lemma wp_allocate_page n U T (s : kstate S) p x va v (Q : Z -> kstate S -> Prop) E :
  current s = Some p -> procs s !! p = Some x -> pagetable x = root -> vinv lo hi root n U T (km s) ->
  0 <= free_pages_count (user_heap x) -> next_va (user_heap x) = Some va -> user_page va ->
  (0 < free_pages_count (user_heap x) -> va < heap_top (user_heap x)) ->
  pte_at T (memory (km s)) va = Some v -> bit_set v PTE_V = false ->
  region_kept T U (memory (km s)) (mapped_info x) ->
  (forall s', heap_grown U T s p x va s' -> Q va s') -> (forall s', E al_stop s') ->
  wp sys_user_allocate_page Q E s.
Proof.
  intros Hc Hx Hroot HV Hn Hnext Hva Htop Hv Eb HR HQ HE. pose proof HR as (R1 & R2 & R3 & R4). unfold sys_user_allocate_page.
  apply wp_bind. eapply (wp_kalloc lo hi); [exact (vi_al _ _ _ _ _ _ _ HV)| |intros _; exact HE].
  intros a h n' -> Hal Ha Hpa Halo Hahi. set (s1 := set_km _ s).
  apply wp_bind, wp_gets. change (current s1) with (current s). rewrite Hc. apply wp_bind.
  eapply wp_proc; [exact Hx|].
  assert (Hmap : forall m', upd (memory (km s)) m' (inside (mapped_info x + 56) 4) (fun y => default 0 (m' !! y)) -> bytes_ok m' ->
      (forall np, load_le 4 (mapped_info x + 56) (memory (km s)) = Some np ->
         load_le 4 (mapped_info x + 56) m' = Some (if 0 <? free_pages_count (user_heap x) then np else u32 (np + 1))) ->
      wp (on_km (user_vm_map (pagetable x) va PGSIZE a rw_user) ;;; ret va) Q E (booked s1 p x m')).
  { intros m' Hu Hb Hnp. by eapply (wp_map_booked n' U T s p x va v a h m'). }
  unfold next_va in *. unfold booked, heap_after in Hmap. fold rw_user. destruct (Z.ltb_spec 0 (free_pages_count (user_heap x))) as [Hpos|Hz].
  - apply wp_bind, wp_bind. eapply wp_upd_proc; [exact Hx|]. apply wp_bind. eapply wp_read_opt; [exact Hnext|].
    apply wp_bind, wp_kernel_assert; [apply Z.ltb_lt; by apply Htop|]. apply wp_ret. eapply (Hmap (memory (km s))).
    + intros y. destruct (inside_spec (mapped_info x + 56) 4 y); [|done].
      destruct (R3 y ltac:(lia)) as [b Hb]. by rewrite Hb.
    + apply HV.
    + done.
  - injection Hnext as <-. apply wp_bind, wp_bind. eapply wp_upd_proc; [exact Hx|]. rewrite region_addr by done.
    destruct (load_le_has 4 (mapped_info x + 56) (memory (km s))) as [np Hnp].
    { intros y Hy. apply R3. change (Z.of_nat 4) with 4 in Hy. lia. }
    apply wp_bind. eapply wp_pmem_load; [exact Hnp|]. apply wp_bind, wp_pmem, wp_store.
    { intros y Hy. apply R3. change (Z.of_nat 4) with 4 in Hy. lia. }
    intros m' S1 D1. apply wp_ret. eapply (Hmap m').
    + intros y. rewrite D1. change (Z.of_nat 4) with 4. by destruct (inside_spec (mapped_info x + 56) 4 y).
    + eapply store_bytes_ok; [exact S1|]. apply HV.
    + intros np' Hnp'. cbn in Hnp. rewrite Hnp in Hnp'. injection Hnp' as <-. rewrite (load_store_same _ _ _ _ _ S1). f_equal.
      unfold u32. change (8 * Z.of_nat 4) with 32. by rewrite Z.mod_mod.
Qed.
End heap.
