(* ===== verification/SpaceProofs.v ===== *)
(** * Building an address space: lemmas for kernel/process.c

    Pages taken and cleared before there is a page table, stores into pages
    that no table overlaps, and the table of mapped regions. *)
From stdpp Require Import base gmap list strings.
From Stdlib Require Import ZArith Lia.
From S2P Require Import Prelude Riscv PmmState Mem Str Vmm VmmProofs VmmSpec KernVm VmTheorems ProcState Sched Process Trap SchedProofs TrapProofs HeapProofs.

#[local] Arguments load_le : simpl never.
#[local] Arguments store_le : simpl never.

Section space.
Context {S : Type} `{Allocator S} (lo hi : Z) `{!AllocatorSpec S lo hi}.
Implicit Types (T : ptable) (U : gset Z) (n : nat) (s : kstate S) (m : mem).

(** *** Before there is a page table *)
Record supply n U s : Prop := {
  sp_al : al_inv n U (heap (km s));
  sp_arena : has (memory (km s)) lo (hi - lo);
  sp_bytes : bytes_ok (memory (km s))
}.

(** A fresh page [a]; the rest of the state is [s] but for the heap. *)
Definition with_heap_of (h : S) s : kstate S := set_km (mkKmem h (memory (km s)) (g_kernel_pagetable (km s))) s.

Lemma wp_supply n U s (Q : Z -> kstate S -> Prop) E :
  supply n U s ->
  (forall a h n', n = Datatypes.S n' -> a ∉ U -> page_ok a -> lo <= a -> a + PGSIZE <= hi ->
     supply n' (U ∪ {[a]}) (with_heap_of h s) -> Q a (with_heap_of h s)) ->
  (n = 0%nat -> forall s', E al_stop s') -> wp kalloc Q E s.
Proof.
  intros [P1 P2 P3] HQ HE. eapply (wp_kalloc lo hi); [exact P1| |exact HE].
  intros a h n' -> Hal Ha Hpa Hlo Hhi. eapply HQ; [done..|]. by split.
Qed.

Lemma supply_upd n U s m' P f : supply n U s -> upd (memory (km s)) m' P f -> (forall x, P x = true -> 0 <= f x < 256) ->
  supply n U (set_mem m' s).
Proof. intros [P1 P2 P3] Hu Hf. split; cbn; [done|by eapply upd_has|by eapply upd_bytes]. Qed.

(** [memset] of a page in the arena. *)
Lemma wp_clear n U s a k {B} (cont : M (kstate S) B) (Q : B -> kstate S -> Prop) E :
  supply n U s -> lo <= a -> a + PGSIZE <= hi -> 0 < a -> 0 <= k <= PGSIZE -> hi <= 2 ^ 56 ->
  (forall m', filled (memory (km s)) m' a k 0 -> supply n U (set_mem m' s) -> wp cont Q E (set_mem m' s)) ->
  wp (pmem (memset a 0 k) ;;; cont) Q E s.
Proof.
  intros HP Hlo Hhi Ha Hk Hh HQ. apply wp_bind, wp_pmem. apply wp_memset; [lia| |lia|lia|].
  - intros x Hx. apply (sp_arena _ _ _ HP). lia.
  - intros m' Hf. apply HQ; [done|]. eapply supply_upd; [exact HP|exact Hf|]. intros x _. done.
Qed.

(** A store into the arena. *)
Lemma wp_raw_store n U s a v {B} (cont : M (kstate S) B) (Q : B -> kstate S -> Prop) E :
  supply n U s -> lo <= a -> a + 8 <= hi ->
  (forall m', store_le 8 a v (memory (km s)) = Some m' ->
     upd (memory (km s)) m' (inside a 8) (fun y => byte_of v (y - a)) -> supply n U (set_mem m' s) ->
     wp cont Q E (set_mem m' s)) ->
  wp (pmem (store64 a v) ;;; cont) Q E s.
Proof.
  intros HP Hlo Hhi HQ. apply wp_bind, wp_pmem, wp_store.
  - intros x Hx. apply (sp_arena _ _ _ HP). change (Z.of_nat 8) with 8 in Hx. lia.
  - intros m' Hs Hu. apply HQ; [done|done|]. eapply supply_upd; [exact HP|exact Hu|]. intros x _. apply byte_of_range.
Qed.

(** *** With a page table *)
Context (root : Z).

(** A store into data that no table overlaps. *)
Lemma wp_data_store j n U T s a v (Q : unit -> kstate S -> Prop) E :
  vinv lo hi root n U T (km s) -> off_tables T a (Z.of_nat j) -> has (memory (km s)) a (Z.of_nat j) ->
  (forall m', store_le j a v (memory (km s)) = Some m' -> vinv lo hi root n U T (km (set_mem m' s)) ->
     (forall vb, pte_at T m' vb = pte_at T (memory (km s)) vb) ->
     upd (memory (km s)) m' (inside a (Z.of_nat j)) (fun y => byte_of v (y - a)) -> Q tt (set_mem m' s)) ->
  wp (pmem (store j a v)) Q E s.
Proof.
  intros HV Hoff Hh HQ. apply wp_pmem, wp_store; [exact Hh|]. intros m' Hs Hu.
  assert (Hnt : forall x π p, inside a (Z.of_nat j) x = true -> T !! π = Some p -> ~ (p <= x < p + PGSIZE)).
  { intros x π p Hx Hp. destruct (inside_spec a (Z.of_nat j) x); [|done]. destruct (Hoff π p Hp); lia. }
  assert (Hb : forall x, inside a (Z.of_nat j) x = true -> 0 <= byte_of v (x - a) < 256) by (intros x _; apply byte_of_range).
  destruct (data_tree root T _ m' _ _ (vi_tree _ _ _ _ _ _ _ HV) Hu Hb Hnt) as [_ V1].
  apply HQ; [exact Hs| |exact V1|exact Hu].
  exact (data_vinv lo hi root n U T (km s) m' (g_kernel_pagetable (km s)) _ _ HV Hu Hb Hnt).
Qed.

(** *** The table of mapped regions *)
Definition region_at m (info : Z) (j : Z) (e : Z * Z * Z) : Prop :=
  load_le 8 (info + 16 * j) m = Some (fst (fst e)) /\ load_le 4 (info + 16 * j + 8) m = Some (snd (fst e)) /\
  load_le 4 (info + 16 * j + 12) m = Some (snd e).
Definition regions_at m info (l : list (Z * Z * Z)) : Prop :=
  forall j e, l !! j = Some e -> region_at m info (Z.of_nat j) e.

Lemma region_at_ext m m' info j e : (forall x, info + 16 * j <= x < info + 16 * j + 16 -> m' !! x = m !! x) ->
  region_at m info j e -> region_at m' info j e.
Proof.
  intros Hm (H1 & H2 & H3). split_and!; [rewrite <- H1|rewrite <- H2|rewrite <- H3]; apply load_le_ext; intros x Hx; apply Hm; lia.
Qed.

Definition region_ok (e : Z * Z * Z) : Prop := is_u64 (fst (fst e)) /\ 0 <= snd (fst e) < 2 ^ 32 /\ 0 <= snd e < 2 ^ 32.

Lemma region_addrs info j : 0 <= info -> 0 <= j -> info + 16 * j + 16 < 2 ^ 64 ->
  u64 (region info j + MR_VA) = info + 16 * j /\ u64 (region info j + MR_NPAGES) = info + 16 * j + 8 /\
  u64 (region info j + MR_TYPE) = info + 16 * j + 12.
Proof.
  intros H1 H2 H3. unfold region, sizeof_mapped_region, MR_VA, MR_NPAGES, MR_TYPE.
  rewrite (u64_id (info + 16 * j)) by (unfold is_u64; lia). rewrite !u64_id by (unfold is_u64; lia). lia.
Qed.

(** The three stores of an entry after the last one. *)
Definition region_stores m info (l : list (Z * Z * Z)) (e : Z * Z * Z) m1 m2 m3 : Prop :=
  let a := info + 16 * Z.of_nat (length l) in
  store_le 8 a (fst (fst e)) m = Some m1 /\ store_le 4 (a + 8) (snd (fst e)) m1 = Some m2 /\
  store_le 4 (a + 12) (snd e) m2 = Some m3.

Lemma append_region m info l e m1 m2 m3 : region_stores m info l e m1 m2 m3 -> region_ok e -> regions_at m info l ->
  regions_at m3 info (l ++ [e]) /\
  forall x, ~ (info + 16 * Z.of_nat (length l) <= x < info + 16 * Z.of_nat (length l) + 16) -> m3 !! x = m !! x.
Proof.
  destruct e as [[va np] ty]. unfold region_stores. set (a := info + 16 * Z.of_nat (length l)). cbn [fst snd].
  intros (S1 & S2 & S3) (K1 & K2 & K3) HR. cbn [fst snd] in K1, K2, K3.
  assert (Hfr : forall x, ~ (a <= x < a + 16) -> m3 !! x = m !! x).
  { intros x Hx. rewrite (store_le_lookup _ _ _ _ _ _ S3), (store_le_lookup _ _ _ _ _ _ S2), (store_le_lookup _ _ _ _ _ _ S1).
    rewrite !decide_False; [done|lia..]. }
  split; [|exact Hfr]. intros i e Hi. destruct (decide (i < length l)%nat) as [Hlt|Hge].
  - rewrite lookup_app_l in Hi by done. eapply region_at_ext; [|by apply HR]. intros x Hx. apply Hfr. unfold a. lia.
  - rewrite lookup_app_r in Hi by lia. apply list_lookup_singleton_Some in Hi as [Ei <-].
    replace (Z.of_nat i) with (Z.of_nat (length l)) by lia. unfold region_at. cbn [fst snd]. fold a.
    rewrite (load_store_other _ _ _ _ _ _ _ S3), (load_store_other _ _ _ _ _ _ _ S2), (load_store_same _ _ _ _ _ S1) by lia.
    rewrite (load_store_other _ _ _ _ _ _ _ S3), (load_store_same _ _ _ _ _ S2), (load_store_same _ _ _ _ _ S3) by lia.
    by split_and!; f_equal; apply Z.mod_small.
Qed.

(** One entry appended to the table. *)
Lemma wp_set_region n U T s info l va np ty (Q : unit -> kstate S -> Prop) E :
  vinv lo hi root n U T (km s) -> kept lo hi T U info PGSIZE -> has (memory (km s)) info PGSIZE ->
  0 <= info -> info + PGSIZE < 2 ^ 64 -> Z.of_nat (length l) < 256 -> region_ok (va, np, ty) ->
  regions_at (memory (km s)) info l ->
  (forall m', vinv lo hi root n U T (km (set_mem m' s)) -> (forall vb, pte_at T m' vb = pte_at T (memory (km s)) vb) ->
     (forall x, ~ (info + 16 * Z.of_nat (length l) <= x < info + 16 * Z.of_nat (length l) + 16) -> m' !! x = memory (km s) !! x) -> has m' info PGSIZE ->
     regions_at m' info (l ++ [(va, np, ty)]) -> Q tt (set_mem m' s)) ->
  wp (set_region info (Z.of_nat (length l)) va np ty) Q E s.
Proof.
  intros HV [HK _] Hh H0 Htop Hlen Hok HR HQ. unfold PGSIZE in *. set (j := Z.of_nat (length l)) in *.
  assert (Hj : 0 <= j) by lia. destruct (region_addrs info j H0 Hj ltac:(lia)) as (A1 & A2 & A3).
  unfold set_region. rewrite A1, A2, A3.
  assert (Hsub : forall m, has m info 4096 -> forall b (k : nat), info <= b -> b + Z.of_nat k <= info + 16 * j + 16 -> has m b (Z.of_nat k)).
  { intros m Hm b k Hb1 Hb2 x Hx. apply Hm. lia. }
  assert (Hoff : forall b k, info <= b -> b + k <= info + 16 * j + 16 -> off_tables T b k).
  { intros b k Hb1 Hb2. eapply off_tables_sub; [exact HK|lia|lia]. }
  apply wp_bind. eapply (wp_data_store 8); [exact HV|apply Hoff; lia|apply Hsub; [exact Hh|lia..]|].
  intros m1 S1 HV1 V1 U1. apply wp_bind.
  eapply (wp_data_store 4); [exact HV1|apply Hoff; lia|apply Hsub; [by eapply upd_has|lia..]|].
  intros m2 S2 HV2 V2 U2. eapply (wp_data_store 4); [exact HV2|apply Hoff; lia| |].
  { apply Hsub; [eapply upd_has; [exact U2|by eapply upd_has]|lia..]. }
  intros m3 S3 HV3 V3 U3. cbn [km set_mem set_km memory] in *. change (set_mem m3 _) with (set_mem m3 s).
  destruct (append_region (memory (km s)) info l (va, np, ty) m1 m2 m3) as [HR3 Hfr]; [done|done|done|].
  apply HQ; [exact HV3|intros vb; by rewrite V3, V2, V1|exact Hfr| |exact HR3].
  eapply upd_has; [exact U3|eapply upd_has; [exact U2|by eapply upd_has]].
Qed.
End space.
