(* ===== verification/AllocProcess.v ===== *)
(** * alloc_process: the address space a process starts with

    The five pages a process takes, its page table with the stack, trap-frame
    and trap-vector pages, and its table of mapped regions (kernel/process.c). *)
From stdpp Require Import base gmap list strings.
From Stdlib Require Import ZArith Lia.
From S2P Require Import Prelude Riscv PmmState Mem Str Vmm VmmProofs VmmSpec KernVm VmTheorems ProcState Sched Process Trap SchedProofs TrapProofs HeapProofs SpaceProofs.

#[local] Arguments load_le : simpl never.
#[local] Arguments store_le : simpl never.

(** The first free entry of the pool, from [i] on with [k] entries left. *)
Fixpoint first_free (P : gmap Z process) (k : nat) (i : Z) : Z :=
  match k with
  | O => i
  | Datatypes.S k => match P !! i with
                     | Some x => if status x =? FREE then i else first_free P k (i + 1)
                     | None => i
                     end
  end.

Lemma first_free_free P k : forall i, (forall j, i <= j < i + Z.of_nat k -> is_Some (P !! j)) ->
  first_free P k i < i + Z.of_nat k ->
  i <= first_free P k i /\ exists x, P !! first_free P k i = Some x /\ status x = FREE.
Proof.
  induction k as [|k IH]; intros i Hp Hlt; cbn [first_free] in *; [lia|].
  destruct (Hp i ltac:(lia)) as [x Hx]. rewrite Hx in Hlt |- *. destruct (Z.eqb_spec (status x) FREE) as [E|E].
  - split; [lia|]. by exists x.
  - destruct (IH (i + 1)) as [H1 H2]; [intros j Hj; apply Hp; lia|lia|]. split; [lia|exact H2].
Qed.

Lemma first_free_least P k : forall i, i <= first_free P k i /\
  forall j x, i <= j < first_free P k i -> P !! j = Some x -> status x <> FREE.
Proof.
  induction k as [|k IH]; intros i; cbn [first_free]; [split; [lia|]; intros; lia|].
  destruct (P !! i) as [x|] eqn:Hx; [|split; [lia|]; intros; lia].
  destruct (Z.eqb_spec (status x) FREE) as [E|E]; [split; [lia|]; intros; lia|].
  destruct (IH (i + 1)) as [H1 H2]. split; [lia|]. intros j y Hj Hy. destruct (decide (j = i)) as [->|]; [by simplify_eq|].
  apply (H2 j); [lia|exact Hy].
Qed.

Lemma inside_out a n x : ~ (a <= x < a + n) -> inside a n x = false.
Proof. by destruct (inside_spec a n x). Qed.

Ltac in_list := solve [repeat first [apply list_elem_of_here | apply list_elem_of_further]].

Section alloc_process.
Context {S : Type} `{Allocator S} `{Harts S} (lo hi : Z) `{!AllocatorSpec S lo hi} (sym : symbols).
Implicit Types (T : ptable) (U : gset Z) (n : nat) (s : kstate S) (m : mem).

Lemma wp_find_free k : forall i s (Q : Z -> kstate S -> Prop) E,
  (forall j, i <= j < i + Z.of_nat k -> is_Some (procs s !! j)) -> Q (first_free (procs s) k i) s ->
  wp (find_free k i) Q E s.
Proof.
  induction k as [|k IH]; intros i s Q E Hp HQ; cbn [find_free first_free] in *; [by apply wp_ret|].
  destruct (Hp i ltac:(lia)) as [x Hx]. apply wp_bind. eapply wp_proc; [exact Hx|]. rewrite Hx in HQ.
  destruct (status x =? FREE); [by apply wp_ret|]. apply IH; [|exact HQ]. intros j Hj. apply Hp. lia.
Qed.

(** *** The five pages *)
Definition pages5 (tf pt ks us info : Z) : gset Z := {[ tf; pt; ks; us; info ]}.

Record taken n U s i x tf pt ks us info s1 : Prop := {
  tk_distinct : NoDup [tf; pt; ks; us; info];
  tk_fresh a : a ∈ [tf; pt; ks; us; info] -> a ∉ U /\ page_ok a /\ lo <= a /\ a + PGSIZE <= hi;
  tk_supply : supply lo hi n (U ∪ pages5 tf pt ks us info) s1;
  tk_procs : procs s1 = <[i := with_mapped_info info (with_kstack (u64 (ks + PGSIZE)) (with_pagetable pt (with_trapframe tf x)))]> (procs s);
  tk_rest : current s1 = current s /\ ready_queue_head s1 = ready_queue_head s /\ g_ticks s1 = g_ticks s /\
            g_kernel_pagetable (km s1) = g_kernel_pagetable (km s);
  tk_mem y : memory (km s1) !! y =
    if inside info PGSIZE y || inside pt PGSIZE y then Some 0
    else if inside (tf + TF_SP) 8 y then Some (byte_of USER_STACK_TOP (y - (tf + TF_SP)))
    else if inside tf sizeof_trapframe y then Some 0
    else memory (km s) !! y
}.

Lemma supply_procs n U s v : supply lo hi n U s -> supply lo hi n U (set_procs v s).
Proof. intros [P1 P2 P3]. by split. Qed.

Lemma wp_take_pages n U s i x {B} (cont : Z -> Z -> Z -> Z -> Z -> M (kstate S) B) (Q : B -> kstate S -> Prop) E :
  procs s !! i = Some x -> supply lo hi n U s ->
  (forall tf pt ks us info n' s1, n = (5 + n')%nat -> taken n' U s i x tf pt ks us info s1 -> wp (cont tf pt ks us info) Q E s1) ->
  ((n < 5)%nat -> forall s', E al_stop s') ->
  wp (let* tf := kalloc in
      upd_proc (with_trapframe tf) (Some i) ;;;
      pmem (memset tf 0 sizeof_trapframe) ;;;
      let* pt := kalloc in
      upd_proc (with_pagetable pt) (Some i) ;;;
      pmem (memset pt 0 PGSIZE) ;;;
      let* ks := kalloc in
      upd_proc (with_kstack (u64 (ks + PGSIZE))) (Some i) ;;;
      let* us := kalloc in
      pmem (store64 (u64 (tf + TF_SP)) USER_STACK_TOP) ;;;
      let* info := kalloc in
      upd_proc (with_mapped_info info) (Some i) ;;;
      pmem (memset info 0 PGSIZE) ;;;
      cont tf pt ks us info) Q E s.
Proof.
  intros Hx HP HQ HE. destruct (al_arena _ _ _ (sp_al _ _ _ _ _ HP)) as [Hlo0 Hhi56].
  apply wp_bind. eapply wp_supply; [exact HP| |intros ->; apply HE; lia].
  intros tf h1 n1 E1 F1 O1 L1 R1 P1. apply wp_bind. eapply wp_upd_proc; [exact Hx|].
  eapply wp_clear; [apply supply_procs, P1|exact L1|exact R1|lia|unfold sizeof_trapframe, PGSIZE; lia|lia|].
  intros m1 M1 P2. apply wp_bind. eapply wp_supply; [exact P2| |intros ->; apply HE; lia].
  intros pt h2 n2 E2 F2 O2 L2 R2 P3. apply wp_bind. eapply wp_upd_proc; [cbn; apply lookup_insert_eq|].
  eapply wp_clear; [apply supply_procs, P3|exact L2|exact R2|lia|unfold PGSIZE; lia|lia|].
  intros m2 M2 P4. apply wp_bind. eapply wp_supply; [exact P4| |intros ->; apply HE; lia].
  intros ks h3 n3 E3 F3 O3 L3 R3 P5. apply wp_bind. eapply wp_upd_proc; [cbn; apply lookup_insert_eq|].
  apply wp_bind. eapply wp_supply; [apply supply_procs, P5| |intros ->; apply HE; lia].
  intros us h4 n4 E4 F4 O4 L4 R4 P6. pose proof O1 as (_ & _ & Htf56).
  assert (Etf : u64 (tf + TF_SP) = tf + TF_SP) by (apply u64_id; unfold is_u64, TF_SP, PGSIZE in *; lia).
  rewrite Etf. eapply wp_raw_store; [exact P6|unfold TF_SP; lia|unfold TF_SP, PGSIZE in *; lia|].
  intros m3 _ M3 P7. apply wp_bind. eapply wp_supply; [exact P7| |intros ->; apply HE; lia].
  intros info h5 n5 E5 F5 O5 L5 R5 P8. apply wp_bind. eapply wp_upd_proc; [cbn; apply lookup_insert_eq|].
  eapply wp_clear; [apply supply_procs, P8|exact L5|exact R5|lia|unfold PGSIZE; lia|lia|].
  intros m4 M4 P9. apply (HQ tf pt ks us info n5); [lia|].
  rewrite !not_elem_of_union, !not_elem_of_singleton in *. destruct_and?.
  split.
  - rewrite !NoDup_cons, !not_elem_of_cons. pose proof (@not_elem_of_nil Z). pose proof (@NoDup_nil_2 Z). by split_and!; auto.
  - intros a Ha. repeat (apply elem_of_cons in Ha as [->|Ha]; [done|]). by apply elem_of_nil in Ha.
  - unfold pages5. rewrite !(assoc_L (∪)). exact P9.
  - cbn. by rewrite !insert_insert_eq.
  - done.
  - intros y. cbn. cbn in M1, M2, M3, M4. rewrite (M4 y). destruct (inside info PGSIZE y); [done|]. cbn [orb].
    rewrite (M3 y). pose proof (pages_apart pt tf O2 O1 ltac:(done)) as Hap.
    destruct (inside_spec pt PGSIZE y) as [Hin|Hout].
    + destruct (inside_spec (tf + TF_SP) 8 y); [unfold TF_SP, PGSIZE in *; lia|].
      rewrite (M2 y). by destruct (inside_spec pt PGSIZE y).
    + destruct (inside (tf + TF_SP) 8 y); [done|]. rewrite (M2 y). destruct (inside_spec pt PGSIZE y); [done|].
      rewrite (M1 y). by destruct (inside tf sizeof_trapframe y).
Qed.

(** *** An address space under construction

    The page table at [root] translates as [g] says, and the page [info]
    lists the regions [l]. *)
Section growing.
Context (root info : Z) (Hinfo : lo <= info) (Hinfo' : info + PGSIZE <= hi).

Record aspace n U T (g : Z -> option Z) (l : list (Z * Z * Z)) s : Prop := {
  as_inv : vinv lo hi root n U T (km s);
  as_view vb : 0 <= vb < MAXVA -> pte_at T (memory (km s)) vb = g vb;
  as_info : kept lo hi T U info PGSIZE;
  as_regions : regions_at (memory (km s)) info l
}.

(** Outside the tables and the page [info] data stays as it is, and so does
    the page but for its first four entries. *)
Record quiet U T s U' T' s' : Prop := {
  qu_own : U ⊆ U';
  qu_rest : procs s' = procs s /\ current s' = current s /\ ready_queue_head s' = ready_queue_head s /\
            g_ticks s' = g_ticks s /\ g_kernel_pagetable (km s') = g_kernel_pagetable (km s);
  qu_kept a k : kept lo hi T U a k -> a + k <= info \/ info + PGSIZE <= a ->
    kept lo hi T' U' a k /\ forall y, a <= y < a + k -> memory (km s') !! y = memory (km s) !! y;
  qu_fresh π p : T' !! π = Some p -> T !! π = Some p \/ new_page lo hi U p;
  qu_spared y : info + 16 * 4 <= y < info + PGSIZE -> memory (km s') !! y = memory (km s) !! y
}.

Lemma quiet_refl U T s : quiet U T s U T s.
Proof. split; auto. Qed.

Lemma quiet_trans U1 T1 s1 U2 T2 s2 U3 T3 s3 : quiet U1 T1 s1 U2 T2 s2 -> quiet U2 T2 s2 U3 T3 s3 -> quiet U1 T1 s1 U3 T3 s3.
Proof.
  intros [A1 A2 A3 A4 A5] [B1 B2 B3 B4 B5]. split.
  - by etrans.
  - destruct_and?. split_and!; congruence.
  - intros a k Hk Ha. destruct (A3 a k Hk Ha) as [K1 M1]. destruct (B3 a k K1 Ha) as [K2 M2]. split; [done|].
    intros y Hy. by rewrite M2, M1.
  - by eapply fresh_trans.
  - intros y Hy. by rewrite B5, A5.
Qed.

Lemma regions_at_ext m m' l : Z.of_nat (length l) <= 256 -> (forall y, info <= y < info + PGSIZE -> m' !! y = m !! y) ->
  regions_at m info l -> regions_at m' info l.
Proof.
  intros Hl Hm HR j e He. pose proof (lookup_lt_Some _ _ _ He). eapply region_at_ext; [|by apply HR].
  intros y Hy. apply Hm. unfold PGSIZE. lia.
Qed.

(** Appending an entry, with the address space as it is. *)
Lemma wp_aspace_region n U T g l s va np ty {B} (cont : M (kstate S) B) (Q : B -> kstate S -> Prop) E :
  aspace n U T g l s -> Z.of_nat (length l) < 4 -> region_ok (va, np, ty) ->
  (forall s', aspace n U T g (l ++ [(va, np, ty)]) s' -> quiet U T s U T s' -> wp cont Q E s') ->
  wp (set_region info (Z.of_nat (length l)) va np ty ;;; cont) Q E s.
Proof.
  intros [V1 V2 V3 V4] Hl Hok HQ. destruct (al_arena _ _ _ (vi_al _ _ _ _ _ _ _ V1)) as [Hlo0 Hhi56].
  apply wp_bind. eapply (wp_set_region lo hi root); [exact V1|exact V3| |lia|lia|lia|exact Hok|exact V4|].
  { intros y Hy. apply (vi_arena _ _ _ _ _ _ _ V1). lia. }
  intros m' W1 W2 W3 W4 W5. apply HQ; split; try done.
  - intros vb Hvb. cbn [km set_mem set_km memory]. rewrite W2. by apply V2.
  - intros a k Hk Ha. split; [done|]. intros y Hy. cbn [km set_mem set_km memory]. apply W3. unfold PGSIZE in *. lia.
  - by left.
  - intros y Hy. cbn [km set_mem set_km memory]. apply W3. lia.
Qed.

(** An edit of the page table. *)
Lemma edit_aspace n U T g l s n' U' T' k' v : aspace n U T g l s -> Z.of_nat (length l) <= 256 ->
  edit lo hi root n U T (km s) n' U' T' k' v ->
  aspace n' U' T' v l (set_km k' s) /\ quiet U T s U' T' (set_km k' s) /\
  forall y, info <= y < info + PGSIZE -> memory k' !! y = memory (km s) !! y.
Proof.
  intros [V1 V2 V3 V4] Hl D. assert (Hi : forall y, info <= y < info + PGSIZE -> memory k' !! y = memory (km s) !! y).
  { intros y Hy. by eapply kept_frame. }
  split_and!; [split; cbn [km set_km]|split; cbn [km set_km]|exact Hi].
  - exact (ed_inv _ _ _ _ _ _ _ _ _ _ _ _ D).
  - exact (ed_view _ _ _ _ _ _ _ _ _ _ _ _ D).
  - eapply kept_edit; [exact D|exact V3].
  - by eapply regions_at_ext.
  - exact (ed_own _ _ _ _ _ _ _ _ _ _ _ _ D).
  - split_and!; try done. exact (ed_dir _ _ _ _ _ _ _ _ _ _ _ _ D).
  - intros a k Hk _. split; [by eapply kept_edit|]. intros y Hy. by eapply kept_frame.
  - exact (ed_fresh _ _ _ _ _ _ _ _ _ _ _ _ D).
  - intros y Hy. apply Hi. lia.
Qed.

(** Mapping one page of an address space. *)
Lemma wp_aspace_edit n U T g l s va pa perm v (Q : unit -> kmem S -> Prop) E :
  aspace n U T g l s -> user_page va -> 0 <= pa -> pa + PGSIZE <= 2 ^ 56 -> 0 <= perm < 1024 ->
  g va = Some v -> bit_set v PTE_V = false ->
  (forall n' U' T' k', (n <= n' + 2)%nat -> edit lo hi root n U T (km s) n' U' T' k' (map_view (pte_at T (memory (km s))) va 1 pa perm) -> Q tt k') ->
  ((n < 2)%nat -> forall k', E al_stop k') ->
  wp (user_vm_map root va PGSIZE pa perm) Q E (km s).
Proof.
  intros [V1 V2 V3 V4] Hva Hpa Hpa2 Hperm Hg Eb HQ HE. pose proof Hva as (_ & Hva0 & Hvam).
  eapply (wp_map_one lo hi root n U T _ va pa perm v); try done. rewrite V2; [done|]. unfold PGSIZE in *. lia.
Qed.

Lemma aspace_view_eq n U T g g' l s : aspace n U T g l s -> (forall vb, 0 <= vb < MAXVA -> g vb = g' vb) -> aspace n U T g' l s.
Proof. intros [V1 V2 V3 V4] He. split; try done. intros vb Hvb. by rewrite V2, He. Qed.

Lemma aspace_map_view n U T g l s va pa perm vb : aspace n U T g l s -> 0 <= vb < MAXVA ->
  map_view (pte_at T (memory (km s))) va 1 pa perm vb = map_view g va 1 pa perm vb.
Proof. intros [V1 V2 V3 V4] Hvb. unfold map_view. destruct (in_pages va 1 vb); [done|]. by apply V2. Qed.

Lemma wp_aspace_map n U T g l s va pa perm v {B} (cont : M (kstate S) B) (Q : B -> kstate S -> Prop) E :
  aspace n U T g l s -> Z.of_nat (length l) <= 256 -> user_page va -> 0 <= pa -> pa + PGSIZE <= 2 ^ 56 -> 0 <= perm < 1024 ->
  g va = Some v -> bit_set v PTE_V = false ->
  (forall n' U' T' s', (n <= n' + 2)%nat -> aspace n' U' T' (map_view g va 1 pa perm) l s' -> quiet U T s U' T' s' -> wp cont Q E s') ->
  ((n < 2)%nat -> forall s', E al_stop s') ->
  wp (on_km (user_vm_map root va PGSIZE pa perm) ;;; cont) Q E s.
Proof.
  intros HA Hl Hva Hpa Hpa2 Hperm Hg Eb HQ HE. apply wp_bind, wp_on_km.
  eapply wp_aspace_edit; [exact HA|exact Hva|exact Hpa|exact Hpa2|exact Hperm|exact Hg|exact Eb| |intros Hn k'; by apply HE].
  intros n' U' T' k' Hn D. destruct (edit_aspace _ _ _ _ _ _ _ _ _ _ _ HA Hl D) as (A1 & A2 & _).
  apply (HQ n' U' T'); [exact Hn| |exact A2]. eapply aspace_view_eq; [exact A1|]. intros vb Hvb. by eapply aspace_map_view.
Qed.
End growing.

(** *** alloc_process as a whole *)
Definition rw_kernel : Z := prot_to_type (Z.lor PROT_WRITE PROT_READ) 0.
Definition rx_kernel : Z := prot_to_type (Z.lor PROT_READ PROT_EXEC) 0.
Definition stack_page : Z := USER_STACK_TOP - PGSIZE.

(** Where the kernel image and the arena lie. *)
Record layout : Prop := {
  ly_trap : user_page (trap_sec_start sym);
  ly_stack : USER_STACK_TOP <= trap_sec_start sym;
  ly_image : trap_sec_start sym + PGSIZE <= lo;
  ly_top : hi <= MAXVA
}.

(** What a new process can reach. *)
Definition process_view (tf us vb : Z) : option Z :=
  if decide (vb / PGSIZE = trap_sec_start sym / PGSIZE) then Some (leaf_pte (trap_sec_start sym) rx_kernel)
  else if decide (vb / PGSIZE = tf / PGSIZE) then Some (leaf_pte tf rw_kernel)
  else if decide (vb / PGSIZE = stack_page / PGSIZE) then Some (leaf_pte us rw_user)
  else Some 0.

Definition new_regions (tf : Z) : list (Z * Z * Z) :=
  [(stack_page, 1, STACK_SEGMENT); (tf, 1, CONTEXT_SEGMENT);
   (trap_sec_start sym, 1, SYSTEM_SEGMENT); (USER_FREE_ADDRESS_START, 0, HEAP_SEGMENT)].

Definition new_process (x : process) (tf pt ks info : Z) : process :=
  mkProcess (ks + PGSIZE) pt tf info 4
    (mkHeap USER_FREE_ADDRESS_START USER_FREE_ADDRESS_START (free_pages_address (user_heap x)) 0)
    (pid x) (status x) (parent x) (queue_next x) (tick_count x).

(** Data outside the pages taken. *)
Definition outside U (a k : Z) : Prop :=
  0 < k /\ (a + k <= lo \/ hi <= a \/ exists b, b ∈ U /\ page_ok b /\ b <= a /\ a + k <= b + PGSIZE).

Lemma outside_apart U a k b : outside U a k -> b ∉ U /\ page_ok b /\ lo <= b /\ b + PGSIZE <= hi -> a + k <= b \/ b + PGSIZE <= a.
Proof.
  intros (_ & Ha) (Fb & Ob & Lb & Rb). destruct Ha as [Ha|[Ha|(c & Hc & Oc & C3 & C4)]]; [lia|lia|].
  destruct (pages_apart c b Oc Ob); [by intros ->|lia|lia].
Qed.

Record created n U s i x tf pt ks us info n' U' T' s' : Prop := {
  cr_count : (n <= n' + 11)%nat;
  cr_distinct : NoDup [tf; pt; ks; us; info];
  cr_fresh a : a ∈ [tf; pt; ks; us; info] -> a ∉ U /\ page_ok a /\ lo <= a /\ a + PGSIZE <= hi;
  cr_inv : vinv lo hi pt n' U' T' (km s');
  cr_own : U ∪ pages5 tf pt ks us info ⊆ U';
  cr_procs : procs s' = <[i := new_process x tf pt ks info]> (procs s);
  cr_rest : current s' = current s /\ ready_queue_head s' = ready_queue_head s /\ g_ticks s' = g_ticks s /\
            g_kernel_pagetable (km s') = g_kernel_pagetable (km s);
  cr_view vb : 0 <= vb < MAXVA -> pte_at T' (memory (km s')) vb = process_view tf us vb;
  cr_regions : regions_at (memory (km s')) info (new_regions tf);
  cr_spare j : 4 <= j < 256 -> load_le 8 (info + 16 * j) (memory (km s')) = Some 0;
  cr_arena π q : T' !! π = Some q -> lo <= q;
  cr_frame y : tf <= y < tf + sizeof_trapframe -> memory (km s') !! y =
    Some (if inside (tf + TF_SP) 8 y then byte_of USER_STACK_TOP (y - (tf + TF_SP)) else 0);
  cr_tables a : a ∈ [tf; ks; us; info] -> kept lo hi T' U' a PGSIZE;
  cr_outside a k : outside U a k -> kept lo hi T' U' a k /\ forall y, a <= y < a + k -> memory (km s') !! y = memory (km s) !! y
}.

Lemma taken_aspace n U s i x tf pt ks us info s1 : taken n U s i x tf pt ks us info s1 ->
  aspace pt info n (U ∪ pages5 tf pt ks us info) (root_table pt) (fun _ => Some 0) [] s1 /\
  (forall a, a ∈ [tf; ks; us; info] -> kept lo hi (root_table pt) (U ∪ pages5 tf pt ks us info) a PGSIZE) /\
  (forall a k, outside U a k -> kept lo hi (root_table pt) (U ∪ pages5 tf pt ks us info) a k).
Proof.
  intros [K1 K2 [P1 P2 P3] K4 K5 K6]. set (U1 := U ∪ pages5 tf pt ks us info) in *.
  destruct (K2 pt ltac:(in_list)) as (Hpt & Opt & Lpt & Rpt). destruct (al_arena _ _ _ P1) as [Hlo0 Hhi56].
  assert (EU : U1 ∪ {[pt]} = U1) by (unfold U1, pages5; set_solver).
  assert (HV : vinv lo hi pt n U1 (root_table pt) (km s1)).
  { rewrite <- EU, <- (kmem_eta (km s1)). apply vinv_root; try done; [by rewrite EU|apply Opt|].
    intros y Hy. rewrite K6. destruct (inside_spec pt PGSIZE y); [|lia]. by rewrite orb_true_r. }
  assert (Hroot : forall π p, root_table pt !! π = Some p -> p = pt).
  { intros π p Hp. unfold root_table in Hp. by apply lookup_singleton_Some in Hp as [_ <-]. }
  assert (HK : forall a, a ∈ U1 -> page_ok a -> a <> pt -> kept lo hi (root_table pt) U1 a PGSIZE).
  { intros a Ha Hok Hne. eapply kept_used; [exact HV|exact Hok|exact Ha|]. by intros π p ->%Hroot. }
  assert (H4 : forall a, a ∈ [tf; ks; us; info] -> kept lo hi (root_table pt) U1 a PGSIZE).
  { intros a Ha. apply HK; [unfold U1, pages5; set_solver|apply K2; set_solver +Ha|]. intros ->.
    rewrite !NoDup_cons, !not_elem_of_cons in K1. destruct_and?. rewrite !elem_of_cons in Ha. destruct_or?; done. }
  split_and!; [|exact H4|].
  - split; [exact HV|intros vb _; apply view_root|apply H4; set_solver|done].
  - intros a k (_ & [Ha|[Ha|(b & Hb & Ob & B1 & B2)]]).
    + apply kept_below; [|done]. intros π p ->%Hroot. left. lia.
    + split; [intros π p ->%Hroot; right; lia|]. intros q _ (_ & _ & Hq). right. lia.
    + eapply kept_sub; [apply (HK b)|done|done]; [set_solver|done|by intros ->].
Qed.

Lemma one_page_view va a perm g vb : user_page va -> vb / PGSIZE <> va / PGSIZE -> map_view g va 1 a perm vb = g vb.
Proof. intros Hva Hne. rewrite heap_view by done. by rewrite decide_False. Qed.

Lemma stack_user_page : user_page stack_page.
Proof. split; [vm_compute; done|]. rewrite MAXVA_val. vm_compute. split; congruence. Qed.

Lemma quiet_procs info U T s v U' T' s' : quiet info U T (set_procs v s) U' T' s' ->
  U ⊆ U' /\ procs s' = v /\ current s' = current s /\ ready_queue_head s' = ready_queue_head s /\
  g_ticks s' = g_ticks s /\ g_kernel_pagetable (km s') = g_kernel_pagetable (km s) /\
  (forall a k, kept lo hi T U a k -> a + k <= info \/ info + PGSIZE <= a ->
    kept lo hi T' U' a k /\ forall y, a <= y < a + k -> memory (km s') !! y = memory (km s) !! y) /\
  (forall π p, T' !! π = Some p -> T !! π = Some p \/ new_page lo hi U p) /\
  (forall y, info + 16 * 4 <= y < info + PGSIZE -> memory (km s') !! y = memory (km s) !! y).
Proof. intros [Q1 Q2 Q3 Q4 Q5]. cbn in *. destruct_and?. done. Qed.

(** The three maps and their regions. *)
Lemma wp_build_space n U s i x tf pt ks us info s1 {B} (cont : M (kstate S) B) (Q : B -> kstate S -> Prop) E :
  layout -> taken n U s i x tf pt ks us info s1 ->
  (forall n' U' T' s', (n <= n' + 6)%nat -> aspace pt info n' U' T' (process_view tf us) (take 3 (new_regions tf)) s' ->
     quiet info (U ∪ pages5 tf pt ks us info) (root_table pt) s1 U' T' s' -> wp cont Q E s') ->
  ((n < 6)%nat -> forall s', E al_stop s') ->
  wp (on_km (user_vm_map pt (USER_STACK_TOP - PGSIZE) PGSIZE us (prot_to_type (Z.lor PROT_WRITE PROT_READ) 1)) ;;;
      set_region info STACK_SEGMENT (USER_STACK_TOP - PGSIZE) 1 STACK_SEGMENT ;;;
      on_km (user_vm_map pt tf PGSIZE tf (prot_to_type (Z.lor PROT_WRITE PROT_READ) 0)) ;;;
      set_region info CONTEXT_SEGMENT tf 1 CONTEXT_SEGMENT ;;;
      on_km (user_vm_map pt (trap_sec_start sym) PGSIZE (trap_sec_start sym) (prot_to_type (Z.lor PROT_READ PROT_EXEC) 0)) ;;;
      set_region info SYSTEM_SEGMENT (trap_sec_start sym) 1 SYSTEM_SEGMENT ;;; cont) Q E s1.
Proof.
  intros [Y1 Y2 Y3 Y4] HT HQ HE. destruct (taken_aspace _ _ _ _ _ _ _ _ _ _ _ HT) as (A0 & _ & _).
  destruct (tk_fresh _ _ _ _ _ _ _ _ _ _ _ HT info ltac:(in_list)) as (_ & Oinfo & Li & Ri).
  destruct (tk_fresh _ _ _ _ _ _ _ _ _ _ _ HT tf ltac:(in_list)) as (_ & Otf & Lt & Rt).
  destruct (tk_fresh _ _ _ _ _ _ _ _ _ _ _ HT us ltac:(in_list)) as (_ & Ous & Lu & Ru).
  pose proof stack_user_page as Hst. pose proof Y1 as (Tal & Tlo & Thi). pose proof Otf as (Hal & Hpos & H56).
  assert (Htf : user_page tf) by (split; [exact Hal|unfold PGSIZE in *; lia]).
  assert (Es : stack_page + PGSIZE = USER_STACK_TOP) by done.
  assert (D1 : tf / PGSIZE <> stack_page / PGSIZE) by (unfold PGSIZE in *; zlia).
  assert (D2 : trap_sec_start sym / PGSIZE <> stack_page / PGSIZE) by (unfold PGSIZE in *; zlia).
  assert (D3 : trap_sec_start sym / PGSIZE <> tf / PGSIZE) by (unfold PGSIZE in *; zlia).
  pose proof MAXVA_lt as Hmv.
  eapply (wp_aspace_map pt info); [exact A0|done|exact Hst|destruct Ous; lia|apply Ous|exact rw_user_range|reflexivity|done| |intros ?; apply HE; lia].
  intros n1 U1 T1 s2 N1 A1 Q1.
  eapply (wp_aspace_region pt info Li Ri n1 U1 T1 _ [] s2); [exact A1|done|done|]. intros s3 A2 Q2.
  eapply (wp_aspace_map pt info); [exact A2|done|exact Htf|lia|done|done|by rewrite one_page_view|done| |intros ?; apply HE; lia].
  intros n2 U2 T2 s4 N2 A3 Q3.
  eapply (wp_aspace_region pt info Li Ri n2 U2 T2 _ [_] s4); [exact A3|done| |].
  { split; cbn; [unfold is_u64, PGSIZE in *; lia|done]. }
  intros s5 A4 Q4.
  eapply (wp_aspace_map pt info); [exact A4|done|exact Y1|unfold PGSIZE in *; lia|lia|done|by rewrite !one_page_view|done| |intros ?; apply HE; lia].
  intros n3 U3 T3 s6 N3 A5 Q5.
  eapply (wp_aspace_region pt info Li Ri n3 U3 T3 _ [_;_] s6); [exact A5|done| |].
  { split; cbn; [unfold is_u64, PGSIZE in *; lia|done]. }
  intros s7 A6 Q6. apply (HQ n3 U3 T3); [lia| |].
  - destruct A6 as [V1 V2 V3 V4]. split; [exact V1| |exact V3|exact V4]. intros vb Hvb. rewrite V2 by done.
    by rewrite !heap_view by done.
  - do 5 (eapply quiet_trans; [eassumption|]). exact Q6.
Qed.

(** Everything the caller sees, from the pages taken ([s1]) to the end ([s']). *)
Lemma created_intro n n1 U s i x tf pt ks us info s1 n' U' T' s2 s' y :
  taken n1 U s i x tf pt ks us info s1 -> n = (5 + n1)%nat -> (n1 <= n' + 6)%nat ->
  quiet info (U ∪ pages5 tf pt ks us info) (root_table pt) s1 U' T' s2 ->
  aspace pt info n' U' T' (process_view tf us) (new_regions tf) s' ->
  quiet info U' T' (set_procs (<[i := y]> (procs s2)) s2) U' T' s' ->
  created n U s i x tf pt ks us info n' U' T' (set_procs (<[i := new_process x tf pt ks info]> (procs s')) s').
Proof.
  intros HT -> Hn Q1 [V1 V2 V3 V4] Q2. destruct (taken_aspace _ _ _ _ _ _ _ _ _ _ _ HT) as (_ & K4 & K0).
  destruct HT as [D1 D2 D3 D4 D5 D6]. apply quiet_procs in Q2 as (O2 & P2 & C2 & H2 & G2 & G2' & M2 & N2 & Z2).
  destruct Q1 as [O1 (P1 & C1 & H1 & G1 & G1') M1 N1 Z1].
  assert (HM : forall a k, kept lo hi (root_table pt) (U ∪ pages5 tf pt ks us info) a k -> a + k <= info \/ info + PGSIZE <= a ->
    kept lo hi T' U' a k /\ forall y0, a <= y0 < a + k -> memory (km s') !! y0 = memory (km s1) !! y0).
  { intros a k Hk Ha. destruct (M1 a k Hk Ha) as [K1 E1]. destruct (M2 a k K1 Ha) as [K2 E2]. split; [done|].
    intros z Hz. rewrite E2, E1; done. }
  assert (HP : forall a, a ∈ [tf; pt; ks; us; info] -> a <> info -> a + PGSIZE <= info \/ info + PGSIZE <= a).
  { intros a Ha Hne. apply pages_apart; [by apply D2|apply D2; in_list|done]. }
  pose proof D1 as D0. rewrite !NoDup_cons, !not_elem_of_cons in D1.
  split; cbn [procs current ready_queue_head g_ticks km set_procs]; try done.
  - lia.
  - by rewrite P2, P1, D4, !insert_insert_eq.
  - destruct D5 as (? & ? & ? & ?). split_and!; congruence.
  - intros j Hj. apply load_zeros. intros z Hz. rewrite Z2, Z1, D6 by (unfold PGSIZE; lia). destruct (inside_spec info PGSIZE z); [done|unfold PGSIZE in *; lia].
  - intros π q Hq. destruct (D2 pt ltac:(in_list)) as (_ & _ & Lpt & _).
    destruct (N2 π q Hq) as [Hq1|(_ & ? & _)]; [|done]. destruct (N1 π q Hq1) as [Hq0|(_ & ? & _)]; [|done].
    unfold root_table in Hq0. by apply lookup_singleton_Some in Hq0 as [_ <-].
  - intros z Hz. destruct (HM tf PGSIZE) as [_ E1]; [apply K4; in_list|apply HP; [in_list|by destruct_and?]|].
    destruct (D2 tf ltac:(in_list)) as (_ & Otf & _). destruct (D2 pt ltac:(in_list)) as (_ & Opt & _).
    pose proof (HP tf ltac:(in_list) ltac:(by destruct_and?)) as A1. pose proof (pages_apart pt tf Opt Otf ltac:(by destruct_and?)) as A2.
    unfold sizeof_trapframe, PGSIZE in *. rewrite E1 by lia. rewrite D6. unfold PGSIZE, sizeof_trapframe.
    destruct (inside_spec info 4096 z), (inside_spec pt 4096 z); try lia. cbn [orb].
    destruct (inside (tf + TF_SP) 8 z); [done|]. destruct (inside_spec tf 280 z); [done|lia].
  - intros a Ha. destruct (decide (a = info)) as [->|Hne]; [exact V3|]. apply HM; [by apply K4|apply HP; [set_solver|done]].
  - intros a k Ha. pose proof (K0 a k Ha) as Hk.
    assert (HO : forall b, b ∈ [tf; pt; ks; us; info] -> a + k <= b \/ b + PGSIZE <= a).
    { intros b Hb. eapply outside_apart; [exact Ha|by apply D2]. }
    destruct (HM a k Hk) as [K1 E1]; [apply HO; in_list|]. split; [done|]. intros z Hz.
    rewrite E1 by done. rewrite D6.
    pose proof (HO info ltac:(in_list)). pose proof (HO pt ltac:(in_list)). pose proof (HO tf ltac:(in_list)).
    rewrite !inside_out; [reflexivity|unfold sizeof_trapframe, TF_SP, PGSIZE in *; lia..].
Qed.

Definition no_process : stop := Panicked "cannot find any free process structure.".

Lemma wp_alloc_process n U s (Q : Z -> kstate S -> Prop) E :
  layout -> pool_ok (procs s) -> supply lo hi n U s ->
  (forall i x tf pt ks us info n' U' T' s', 0 <= i < NPROC -> procs s !! i = Some x -> status x = FREE ->
     (forall j y, 0 <= j < i -> procs s !! j = Some y -> status y <> FREE) ->
     created n U s i x tf pt ks us info n' U' T' s' -> Q i s') ->
  ((forall j y, 0 <= j < NPROC -> procs s !! j = Some y -> status y <> FREE) -> E no_process s) ->
  ((n < 11)%nat -> forall s', E al_stop s') ->
  wp (alloc_process sym) Q E s.
Proof.
  intros HY HP HS HQ Hfull HE. unfold alloc_process. apply wp_bind, wp_find_free.
  { intros j Hj. apply HP. exact Hj. }
  destruct (first_free_least (procs s) (Z.to_nat NPROC) 0) as [L0 L1].
  set (i := first_free (procs s) (Z.to_nat NPROC) 0) in *. destruct (Z.leb_spec NPROC i) as [Hge|Hlt].
  { apply wp_halt, Hfull. intros j y Hj. apply L1. lia. }
  destruct (first_free_free (procs s) (Z.to_nat NPROC) 0) as (_ & x & Hx & Hf); [exact HP|exact Hlt|]. fold i in Hx.
  eapply wp_take_pages; [exact Hx|exact HS| |intros ?; apply HE; lia].
  intros tf pt ks us info n1 s1 En HT.
  eapply wp_build_space; [exact HY|exact HT| |intros ?; apply HE; lia]. intros n' U' T' s2 Hn A2 Q2.
  destruct (tk_fresh _ _ _ _ _ _ _ _ _ _ _ HT info ltac:(in_list)) as (_ & _ & Li & Ri).
  destruct (tk_fresh _ _ _ _ _ _ _ _ _ _ _ HT ks ltac:(in_list)) as (_ & Oks & _).
  pose proof (qu_rest _ _ _ _ _ _ _ Q2) as (Hp2 & _). pose proof (tk_procs _ _ _ _ _ _ _ _ _ _ _ HT) as Hp1.
  rewrite Hp1 in Hp2.
  apply wp_bind. eapply wp_upd_proc; [rewrite Hp2; apply lookup_insert_eq|].
  apply wp_bind. eapply wp_upd_proc; [cbn; apply lookup_insert_eq|].
  apply wp_bind. eapply wp_upd_proc; [cbn; apply lookup_insert_eq|]. cbn [procs set_procs].
  rewrite !insert_insert_eq. change (set_procs ?a (set_procs _ (set_procs _ ?s))) with (set_procs a s).
  apply (wp_aspace_region pt info Li Ri n' U' T' (process_view tf us) (take 3 (new_regions tf))).
  { destruct A2 as [V1 V2 V3 V4]. by split. }
  { done. }
  { split; [vm_compute; split; congruence|done]. }
  intros s3 A3 Q3. pose proof (quiet_procs _ _ _ _ _ _ _ _ Q3) as (_ & Hp3 & _).
  apply wp_bind. eapply wp_upd_proc; [rewrite Hp3; apply lookup_insert_eq|]. apply wp_ret.
  eapply HQ; [lia|exact Hx|exact Hf|intros j y Hj; apply L1; lia|].
  pose proof (created_intro n n1 U s i x tf pt ks us info s1 n' U' T' s2 s3 _ HT En Hn Q2 A3 Q3) as HC.
  rewrite (u64_id (ks + PGSIZE)) by (destruct Oks as (_ & ? & ?); unfold is_u64, PGSIZE in *; lia). exact HC.
Qed.
End alloc_process.
