(* ===== verification/Fork.v ===== *)
(** * fork: two address spaces in one memory (kernel/process.c, do_fork)

    The parent's page table never grows while it is copied; the child's does.
    Each page of a stack or heap segment ends up shared, read-only and marked
    copy-on-write in both tables; code pages are mapped read-execute. *)
From stdpp Require Import base gmap list strings.
From Stdlib Require Import ZArith Lia.
From S2P Require Import Prelude Riscv PmmState Mem Str Vmm VmmProofs VmmSpec KernVm VmTheorems ProcState Sched Process Trap SchedProofs TrapProofs HeapProofs SpaceProofs AllocProcess.

#[local] Arguments load_le : simpl never.
#[local] Arguments store_le : simpl never.

(** Two trees share no page. *)
Definition apart (T1 T2 : ptable) : Prop := forall π1 π2 p, T1 !! π1 = Some p -> T2 !! π2 = Some p -> False.

Lemma apart_sym T1 T2 : apart T1 T2 -> apart T2 T1.
Proof. intros HA π1 π2 p H1 H2. by eapply HA. Qed.

Lemma tree_stays r T m m' : ptree T r m -> (forall π p x, T !! π = Some p -> p <= x < p + PGSIZE -> m' !! x = m !! x) ->
  bytes_ok m' -> ptree T r m' /\ forall va, pte_at T m' va = pte_at T m va.
Proof.
  intros HT Hm Hb.
  assert (Hl : forall π p i, T !! π = Some p -> 0 <= i < 512 -> load_le 8 (p + 8 * i) m' = load_le 8 (p + 8 * i) m).
  { intros π p i Hp Hi. apply load_le_ext. intros x Hx. apply (Hm π p); [done|]. change (Z.of_nat 8) with 8 in Hx. unfold PGSIZE. lia. }
  split.
  - destruct HT as [A1 A2 A3 A4 A5 A6 A7 A8]. split; try done.
    + intros π p Hp x Hx. rewrite (Hm π p) by done. by eapply A6.
    + intros π p i Hp Hlen Hi. rewrite (Hl π) by done. by apply A8.
  - intros va. unfold pte_at. destruct (T !! _) as [q|] eqn:Hq; [|done]. eapply Hl; [exact Hq|by apply PX_index].
Qed.

Lemma pte_same_page T m va vb : 0 <= va -> 0 <= vb -> va / PGSIZE = vb / PGSIZE -> pte_at T m va = pte_at T m vb.
Proof. intros H1 H2 Hd. unfold pte_at. by rewrite !(same_page va vb) by (done || lia). Qed.

(** The entry both processes get. *)
Definition cow_entry (v : Z) : Z := if bit_set v PTE_W then Z.lor (Z.ldiff v PTE_W) PTE_COW else v.

Lemma cow_entry_range v : 0 <= v < 2 ^ 64 -> 0 <= cow_entry v < 2 ^ 64.
Proof.
  intros Hv. unfold cow_entry. destruct (bit_set v PTE_W); [|done].
  assert (H0 : 0 <= Z.lor (Z.ldiff v PTE_W) PTE_COW) by (apply Z.lor_nonneg; split; [apply Z.ldiff_nonneg; lia|done]).
  split; [done|]. apply bits_lt; [lia|done|]. intros i Hi. rewrite Z.lor_spec, Z.ldiff_spec, (high_bit_0 v 64) by (done || lia).
  unfold PTE_COW. change 256 with (2 ^ 8). rewrite Z.pow2_bits_false by lia. done.
Qed.

(** A new leaf entry for one page. *)
Definition set_page (va w : Z) (g : Z -> option Z) : Z -> option Z :=
  fun vb => if decide (vb / PGSIZE = va / PGSIZE) then Some w else g vb.

Section fork.
Context {S : Type} `{Allocator S} `{Harts S} (lo hi : Z) `{!AllocatorSpec S lo hi} (sym : symbols).
Implicit Types (T : ptable) (U : gset Z) (n : nat) (s : kstate S) (m : mem).

(** The other tree is not touched by an edit. *)
Lemma other_tree ra rb Ta Tb n U k n' U' Tb' k' g :
  edit lo hi rb n U Tb k n' U' Tb' k' g -> vinv lo hi ra n U Ta k -> apart Ta Tb ->
  vinv lo hi ra n' U' Ta k' /\ (forall va, pte_at Ta (memory k') va = pte_at Ta (memory k) va) /\ apart Ta Tb'.
Proof.
  intros D [V1 V2 V3 V4] HA. pose proof (ed_inv _ _ _ _ _ _ _ _ _ _ _ _ D) as [W1 W2 W3 W4].
  assert (HA' : apart Ta Tb').
  { intros π1 π2 p H1 H2. destruct (ed_fresh _ _ _ _ _ _ _ _ _ _ _ _ D π2 p H2) as [H3|(Hn & _)]; [by eapply HA|].
    by apply Hn, (V4 π1). }
  destruct (tree_stays ra Ta (memory k) (memory k') V2) as [HT Hv].
  { intros π p x Hp Hx. apply (ed_frame _ _ _ _ _ _ _ _ _ _ _ _ D). intros π' p' Hp' Hx'.
    destruct (pages_apart p p') as [?|?]; [exact (pt_page _ _ _ V2 _ _ Hp)|exact (pt_page _ _ _ W2 _ _ Hp')|intros ->; exact (HA' π π' _ Hp Hp')|lia|lia]. }
  { apply W2. }
  split; [|split; [exact Hv|exact HA']]. split; [exact W1|exact HT|exact W3|].
  intros π p Hp. apply (ed_own _ _ _ _ _ _ _ _ _ _ _ _ D). by eapply V4.
Qed.

Context (r1 r2 : Z) (T1 : ptable).

(** The parent's translation [g1] and the child's [g2]. *)
Record twin n U T2 (g1 g2 : Z -> option Z) s : Prop := {
  tw_1 : vinv lo hi r1 n U T1 (km s);
  tw_2 : vinv lo hi r2 n U T2 (km s);
  tw_apart : apart T1 T2;
  tw_v1 vb : 0 <= vb < MAXVA -> pte_at T1 (memory (km s)) vb = g1 vb;
  tw_v2 vb : 0 <= vb < MAXVA -> pte_at T2 (memory (km s)) vb = g2 vb
}.

(** Data off both trees stays as it is. *)
Record still U T2 s U' T2' s' : Prop := {
  st_rest : procs s' = procs s /\ current s' = current s /\ ready_queue_head s' = ready_queue_head s /\
            g_ticks s' = g_ticks s /\ g_kernel_pagetable (km s') = g_kernel_pagetable (km s);
  st_own : U ⊆ U';
  st_kept a j : kept lo hi T1 U a j -> kept lo hi T2 U a j ->
    kept lo hi T1 U' a j /\ kept lo hi T2' U' a j /\ forall y, a <= y < a + j -> memory (km s') !! y = memory (km s) !! y
}.

Lemma still_refl U T2 s : still U T2 s U T2 s.
Proof. by split. Qed.

Lemma still_trans Ua Ta sa Ub Tb sb Uc Tc sc : still Ua Ta sa Ub Tb sb -> still Ub Tb sb Uc Tc sc -> still Ua Ta sa Uc Tc sc.
Proof.
  intros [A1 A2 A3] [B1 B2 B3]. split.
  - destruct_and?. split_and!; congruence.
  - by etrans.
  - intros a j K1 K2. destruct (A3 a j K1 K2) as (K1' & K2' & M1). destruct (B3 a j K1' K2') as (K1'' & K2'' & M2).
    split_and!; [done..|]. intros y Hy. by rewrite M2, M1.
Qed.

(** An edit of the child's table, and one of the parent's. *)
Lemma twin_child n U T2 g1 g2 s n' U' T2' k' g : twin n U T2 g1 g2 s -> edit lo hi r2 n U T2 (km s) n' U' T2' k' g ->
  twin n' U' T2' g1 g (set_km k' s) /\ still U T2 s U' T2' (set_km k' s).
Proof.
  intros [W1 W2 W3 W4 W5] D. destruct (other_tree r1 r2 T1 T2 _ _ _ _ _ _ _ _ D W1 W3) as (V1 & E1 & A1).
  split; split; cbn [km set_km procs current ready_queue_head g_ticks]; try done.
  - exact (ed_inv _ _ _ _ _ _ _ _ _ _ _ _ D).
  - intros vb Hvb. rewrite E1. by apply W4.
  - exact (ed_view _ _ _ _ _ _ _ _ _ _ _ _ D).
  - split_and!; try done. exact (ed_dir _ _ _ _ _ _ _ _ _ _ _ _ D).
  - exact (ed_own _ _ _ _ _ _ _ _ _ _ _ _ D).
  - intros a j K1 K2. split_and!; [|by eapply kept_edit|intros y Hy; by eapply kept_frame].
    eapply kept_grow; [exact K1|exact (ed_own _ _ _ _ _ _ _ _ _ _ _ _ D)| |by left].
    intros π p Hp. by eapply (pt_page _ _ _ (vi_tree _ _ _ _ _ _ _ W1)).
Qed.

Lemma twin_parent n U T2 g1 g2 s k' g : twin n U T2 g1 g2 s -> edit lo hi r1 n U T1 (km s) n U T1 k' g ->
  twin n U T2 g g2 (set_km k' s) /\ still U T2 s U T2 (set_km k' s).
Proof.
  intros [W1 W2 W3 W4 W5] D. destruct (other_tree r2 r1 T2 T1 _ _ _ _ _ _ _ _ D W2 (apart_sym _ _ W3)) as (V2 & E2 & A2).
  split; split; cbn [km set_km procs current ready_queue_head g_ticks]; try done.
  - exact (ed_inv _ _ _ _ _ _ _ _ _ _ _ _ D).
  - exact (ed_view _ _ _ _ _ _ _ _ _ _ _ _ D).
  - intros vb Hvb. rewrite E2. by apply W5.
  - split_and!; try done. exact (ed_dir _ _ _ _ _ _ _ _ _ _ _ _ D).
  - intros a j K1 K2. split_and!; [done|done|]. intros y Hy. by eapply (kept_frame lo hi r1).
Qed.

Lemma twin_ext n U T2 g1 g2 h1 h2 s : twin n U T2 g1 g2 s -> (forall vb, 0 <= vb < MAXVA -> g1 vb = h1 vb) ->
  (forall vb, 0 <= vb < MAXVA -> g2 vb = h2 vb) -> twin n U T2 h1 h2 s.
Proof. intros [W1 W2 W3 W4 W5] E1 E2. split; try done; intros vb Hvb; [rewrite W4, E1|rewrite W5, E2]; done. Qed.

(** *** Sharing one page *)
Context (get_page : Z -> M (kmem S) unit).
(** [get_page] counts a user of a page that is in use, and does nothing else. *)
Context (get_page_ok : forall pa n U (k : kmem S), al_inv n U (heap k) ->
  wp (get_page pa) (fun _ k' => al_inv n U (heap k') /\ memory k' = memory k /\ g_kernel_pagetable k' = g_kernel_pagetable k)
     no_stop k).

Lemma wp_get_page n U T2 g1 g2 s pa {B} (cont : M (kstate S) B) (Q : B -> kstate S -> Prop) E :
  twin n U T2 g1 g2 s ->
  (forall s', twin n U T2 g1 g2 s' -> still U T2 s U T2 s' -> memory (km s') = memory (km s) -> wp cont Q E s') ->
  wp (on_km (get_page pa) ;;; cont) Q E s.
Proof.
  intros [W1 W2 W3 W4 W5] HQ. apply wp_bind, wp_on_km.
  eapply wp_no_stop, wp_mono; [exact (get_page_ok pa n U _ (vi_al _ _ _ _ _ _ _ W1))| |done].
  intros _ k' (Hal & Hm & Hg). destruct W1 as [A1 A2 A3 A4], W2 as [B1 B2 B3 B4].
  apply HQ; cbn [km set_km]; [split| |done]; cbn [km set_km]; rewrite ?Hm; try done.
  - split; cbn; rewrite ?Hm; done.
  - split; cbn; rewrite ?Hm; done.
  - split; [done|done|]. intros a j K1 K2. split_and!; [done..|]. intros y Hy. cbn [km set_km]. by rewrite Hm.
Qed.

(** The parent gives up its write permission. *)
Lemma wp_give_up n U T2 g1 g2 s va q v {B} (cont : M (kstate S) B) (Q : B -> kstate S -> Prop) E :
  twin n U T2 g1 g2 s -> 0 <= va < MAXVA -> T1 !! [PX 2 va; PX 1 va] = Some q -> g1 va = Some v ->
  (forall s', twin n U T2 (set_page va (cow_entry v) g1) g2 s' -> still U T2 s U T2 s' -> wp cont Q E s') ->
  wp ((if bit_set v PTE_W then
         pmem (store64 (q + 8 * PX 0 va) (Z.ldiff v PTE_W)) ;;;
         let* v := pmem (load64 (q + 8 * PX 0 va)) in
         pmem (store64 (q + 8 * PX 0 va) (Z.lor v PTE_COW))
       else ret tt) ;;; cont) Q E s.
Proof.
  intros HW Hva Hq Hv HQ. destruct (pte_at_some r1 T1 (memory (km s)) va (vi_tree _ _ _ _ _ _ _ (tw_1 _ _ _ _ _ _ HW))) as (v0 & Hv0 & Hr).
  rewrite (tw_v1 _ _ _ _ _ _ HW va Hva), Hv in Hv0. injection Hv0 as <-. pose proof (cow_entry_range v Hr) as Hcr.
  apply wp_bind. unfold cow_entry in Hcr, HQ. destruct (bit_set v PTE_W) eqn:Ew.
  - assert (Hr1 : 0 <= Z.ldiff v PTE_W < 2 ^ 64).
    { assert (Hnn : 0 <= Z.ldiff v PTE_W) by (apply Z.ldiff_nonneg; lia). split; [done|].
      apply bits_lt; [lia|done|]. intros i Hi. by rewrite Z.ldiff_spec, (high_bit_0 v 64). }
    apply wp_bind. eapply (wp_pmem_leaf lo hi r1); [exact (tw_1 _ _ _ _ _ _ HW)|exact Hva|exact Hq|exact Hr1|].
    intros k1 D1. destruct (twin_parent _ _ _ _ _ _ _ _ HW D1) as [HW1 S1]. apply wp_bind.
    assert (Hl : load_le 8 (q + 8 * PX 0 va) (memory k1) = Some (Z.ldiff v PTE_W)).
    { pose proof (tw_v1 _ _ _ _ _ _ HW1 va Hva) as Hl. unfold pte_at in Hl. rewrite Hq in Hl. rewrite decide_True in Hl by done. exact Hl. }
    eapply wp_pmem_load; [exact Hl|].
    eapply (wp_pmem_leaf lo hi r1); [exact (tw_1 _ _ _ _ _ _ HW1)|exact Hva|exact Hq|exact Hcr|].
    intros k2 D2. destruct (twin_parent _ _ _ _ _ _ _ _ HW1 D2) as [HW2 S2].
    apply HQ; [|by eapply still_trans]. eapply twin_ext; [exact HW2| |done].
    intros vb Hvb. unfold set_page. case_decide as Hd; [done|].
    rewrite (tw_v1 _ _ _ _ _ _ HW1) by done. rewrite decide_False by done. by rewrite (tw_v1 _ _ _ _ _ _ HW).
  - apply wp_ret, HQ; [|apply still_refl]. eapply twin_ext; [exact HW| |done].
    intros vb Hvb. unfold set_page. case_decide as Hd; [|done].
    rewrite <- Hv, <- (tw_v1 _ _ _ _ _ _ HW va Hva), <- (tw_v1 _ _ _ _ _ _ HW vb Hvb). by apply pte_same_page; lia || done.
Qed.

Lemma wp_share_page n U T2 g1 g2 s va v (Q : unit -> kstate S -> Prop) E :
  twin n U T2 g1 g2 s -> va_ok va -> is_Some (T1 !! [PX 2 va; PX 1 va]) -> g1 va = Some v ->
  (bit_set v PTE_V = false -> Q tt s) ->
  (bit_set v PTE_V = true -> forall n' U' T2' s', (n <= n' + 2)%nat ->
     twin n' U' T2' (set_page va (cow_entry v) g1) (set_page va (cow_entry v) g2) s' -> still U T2 s U' T2' s' -> Q tt s') ->
  ((n < 2)%nat -> forall s', E al_stop s') ->
  wp (share_page get_page r1 r2 va) Q E s.
Proof.
  intros HW Hok [q Hq] Hv Hno Hyes HE. assert (Hva : 0 <= va < MAXVA) by (unfold va_ok in Hok; lia).
  pose proof (vi_tree _ _ _ _ _ _ _ (tw_1 _ _ _ _ _ _ HW)) as HT1.
  unfold share_page. apply wp_bind, wp_on_km. eapply wp_page_walk; [exact HT1|exact Hok|]. rewrite Hq, set_km_eta. cbn [fmap option_fmap option_map].
  apply wp_bind. eapply wp_read_opt; [reflexivity|].
  assert (Hl : forall g2 n U T2 (s : kstate S) g1 w, twin n U T2 g1 g2 s -> g1 va = Some w -> load_le 8 (q + 8 * PX 0 va) (memory (km s)) = Some w).
  { intros h2 n0 U0 T0 s0 h1 w HW0 Hw. rewrite <- Hw, <- (tw_v1 _ _ _ _ _ _ HW0 va Hva). unfold pte_at. by rewrite Hq. }
  apply wp_bind. eapply wp_pmem_load; [exact (Hl _ _ _ _ _ _ _ HW Hv)|].
  destruct (bit_set v PTE_V); [|by apply wp_ret, Hno]. specialize (Hyes eq_refl).
  eapply wp_give_up; [exact HW|exact Hva|exact Hq|exact Hv|]. intros s1 HW1 S1.
  assert (E1 : set_page va (cow_entry v) g1 va = Some (cow_entry v)) by (unfold set_page; by rewrite decide_True).
  apply wp_bind. eapply wp_pmem_load; [exact (Hl _ _ _ _ _ _ _ HW1 E1)|].
  eapply wp_get_page; [exact HW1|]. intros s2 HW2 S2 _.
  apply wp_bind, wp_on_km. eapply wp_mono; [exact (wp_page_walk_alloc lo hi r2 n U T2 (km s2) va (tw_2 _ _ _ _ _ _ HW2) Hok)| |].
  2: { intros h k' [-> Hs]. apply HE. unfold short in Hs. pose proof (one_page_tables T2 va) as H1. cbn [page_tables] in H1.
       rewrite union_empty_r_L in H1. lia. }
  intros r k3 (q2 & n3 & U3 & T3 & -> & Hq2 & Ht & G). destruct (twin_child _ _ _ _ _ _ _ _ _ _ _ HW2 (grow_edit _ _ _ _ _ _ _ _ _ _ _ G)) as [HW3 S3].
  apply wp_bind. eapply wp_pmem_load; [exact (Hl _ _ _ _ _ _ _ HW3 E1)|].
  assert (Hr : 0 <= cow_entry v < 2 ^ 64).
  { apply cow_entry_range. destruct (pte_at_some r1 T1 (memory (km s)) va HT1) as (v0 & Hv0 & Hr).
    rewrite (tw_v1 _ _ _ _ _ _ HW va Hva), Hv in Hv0. by injection Hv0 as <-. }
  eapply (wp_pmem_leaf lo hi r2); [exact (tw_2 _ _ _ _ _ _ HW3)|exact Hva|exact Hq2|exact Hr|]. intros k4 D4.
  destruct (twin_child _ _ _ _ _ _ _ _ _ _ _ HW3 D4) as [HW4 S4]. apply (Hyes n3 U3 T3).
  - pose proof (gr_count _ _ _ _ _ _ _ _ _ _ _ G) as Hc. pose proof (one_page_tables T2 va) as H1. cbn [page_tables] in H1.
    rewrite union_empty_r_L, <- Ht, size_tables in H1. lia.
  - eapply twin_ext; [exact HW4|done|]. intros vb Hvb. unfold set_page. case_decide as Hd; [done|].
    rewrite (tw_v2 _ _ _ _ _ _ HW3) by done. by rewrite (tw_v2 _ _ _ _ _ _ HW2).
  - do 3 (eapply still_trans; [eassumption|]). exact S4.
Qed.

(** *** Sharing a segment *)
(** The region entry the loops read. *)
Record region_here n U T2 (info i first np ty : Z) s : Prop := {
  rh_info : 0 <= info /\ 0 <= i < 256 /\ info + PGSIZE < 2 ^ 64;
  rh_at : region_at (memory (km s)) info i (first, np, ty);
  rh_1 : kept lo hi T1 U info PGSIZE;
  rh_2 : kept lo hi T2 U info PGSIZE
}.

Lemma region_still n U T2 info i first np ty s n' U' T2' s' : region_here n U T2 info i first np ty s ->
  still U T2 s U' T2' s' -> region_here n' U' T2' info i first np ty s'.
Proof.
  intros [R1 R2 R3 R4] [_ _ K]. destruct (K _ _ R3 R4) as (K1 & K2 & Hm). split; try done.
  eapply region_at_ext; [|exact R2]. intros y Hy. apply Hm. unfold PGSIZE. lia.
Qed.

Lemma region_reads n U T2 info i first np ty s : region_here n U T2 info i first np ty s ->
  load_le 8 (u64 (region info i + MR_VA)) (memory (km s)) = Some first /\
  load_le 4 (u64 (region info i + MR_NPAGES)) (memory (km s)) = Some np /\
  load_le 4 (u64 (region info i + MR_TYPE)) (memory (km s)) = Some ty.
Proof.
  intros [(R1 & R2 & R3) (L1 & L2 & L3) _ _]. unfold PGSIZE in R3. destruct (region_addrs info i) as (-> & -> & ->); [lia..|]. done.
Qed.

(** The segment [first], [np] pages, fits the address space. *)
Definition segment_ok (first np : Z) : Prop :=
  first mod PGSIZE = 0 /\ PGSIZE <= first /\ 0 <= np /\ first + np * PGSIZE <= MAXVA /\ np * PGSIZE <= 2 ^ 32.
Definition has_leaves (first np : Z) : Prop :=
  forall va, in_pages first np va = true -> is_Some (T1 !! [PX 2 va; PX 1 va]).

Definition shared_entry (v : Z) : Z := if bit_set v PTE_V then cow_entry v else v.
Definition parent_after (first np : Z) (g1 : Z -> option Z) (vb : Z) : option Z :=
  if in_pages first np vb then shared_entry <$> g1 vb else g1 vb.
Definition child_after (first np : Z) (g1 g2 : Z -> option Z) (vb : Z) : option Z :=
  if in_pages first np vb then match g1 vb with
                               | Some v => if bit_set v PTE_V then Some (cow_entry v) else g2 vb
                               | None => g2 vb
                               end
  else g2 vb.

Lemma segment_page first np k : segment_ok first np -> 0 <= k < np ->
  u64 (first + u32 (k * PGSIZE)) = first + k * PGSIZE /\ user_page (first + k * PGSIZE).
Proof.
  intros (S1 & S2 & S3 & S4 & S5) Hk. pose proof MAXVA_lt. unfold PGSIZE in *. rewrite u32_id by lia.
  rewrite u64_id by (unfold is_u64; lia). split; [done|]. unfold user_page, PGSIZE. split_and!; [|lia|lia].
  rewrite Z.mod_add by lia. done.
Qed.

Lemma user_page_va va : user_page va -> va_ok va.
Proof. intros Hva. by destruct (user_page_one va Hva) as (_ & _ & ?). Qed.

(** One more page in front of a run of pages. *)
Lemma in_pages_cons first np vb : first mod PGSIZE = 0 -> 0 <= np ->
  in_pages first (np + 1) vb = (bool_decide (vb / PGSIZE = first / PGSIZE) || in_pages (first + PGSIZE) np vb).
Proof.
  intros Hal Hnp. unfold in_pages. destruct (inside_spec first ((np + 1) * PGSIZE) vb) as [I|I],
    (inside_spec (first + PGSIZE) (np * PGSIZE) vb) as [J|J]; case_bool_decide as Hd; try done;
    exfalso; unfold PGSIZE in *; zlia.
Qed.

Lemma in_pages_not_first first np vb : first mod PGSIZE = 0 -> vb / PGSIZE = first / PGSIZE -> in_pages (first + PGSIZE) np vb = false.
Proof. intros Hal Hd. unfold in_pages. destruct (inside_spec (first + PGSIZE) (np * PGSIZE) vb) as [I|I]; [|done]. unfold PGSIZE in *. zlia. Qed.

Lemma twin_same_page n U T2 g1 g2 s va vb : twin n U T2 g1 g2 s -> 0 <= va < MAXVA -> 0 <= vb < MAXVA ->
  vb / PGSIZE = va / PGSIZE -> g1 vb = g1 va.
Proof.
  intros HW Ha Hb Hd. rewrite <- (tw_v1 _ _ _ _ _ _ HW va Ha), <- (tw_v1 _ _ _ _ _ _ HW vb Hb). apply pte_same_page; (done || lia).
Qed.

(** The views after the first page and then the rest are those of all pages. *)
Lemma after_cons first np g1 g2 v vb : first mod PGSIZE = 0 -> 0 <= np ->
  (vb / PGSIZE = first / PGSIZE -> g1 vb = Some v) ->
  let h1 := if bit_set v PTE_V then set_page first (cow_entry v) g1 else g1 in
  let h2 := if bit_set v PTE_V then set_page first (cow_entry v) g2 else g2 in
  parent_after (first + PGSIZE) np h1 vb = parent_after first (np + 1) g1 vb /\
  child_after (first + PGSIZE) np h1 h2 vb = child_after first (np + 1) g1 g2 vb.
Proof.
  intros Hal Hnp Hg h1 h2. unfold parent_after, child_after. rewrite in_pages_cons by done.
  case_bool_decide as Hd.
  - rewrite in_pages_not_first by done. rewrite (Hg Hd). subst h1 h2. cbn. unfold shared_entry, set_page.
    destruct (bit_set v PTE_V); [by rewrite !decide_True|]. by rewrite (Hg Hd).
  - cbn [orb]. assert (E1 : h1 vb = g1 vb) by (subst h1; destruct (bit_set v PTE_V); [unfold set_page; by rewrite decide_False|done]).
    assert (E2 : h2 vb = g2 vb) by (subst h2; destruct (bit_set v PTE_V); [unfold set_page; by rewrite decide_False|done]).
    by rewrite E1, E2.
Qed.

(** What a loop over the pages from [k] on leaves. *)
Definition copied_to (need : nat) n U T2 s (h1 h2 : Z -> option Z) (Q : unit -> kstate S -> Prop) : Prop :=
  forall n' U' T2' s', (n <= n' + need)%nat -> twin n' U' T2' h1 h2 s' -> still U T2 s U' T2' s' -> Q tt s'.

Lemma wp_share_loop info i first np ty : segment_ok first np -> has_leaves first np ->
  forall j k fuel n U T2 g1 g2 s (Q : unit -> kstate S -> Prop) E,
  0 <= k -> k + Z.of_nat j = np -> (j <= fuel)%nat -> twin n U T2 g1 g2 s -> region_here n U T2 info i first np ty s ->
  copied_to (2 * j) n U T2 s (parent_after (first + k * PGSIZE) (Z.of_nat j) g1) (child_after (first + k * PGSIZE) (Z.of_nat j) g1 g2) Q ->
  ((n < 2 * j)%nat -> forall s', E al_stop s') ->
  wp (share_loop get_page fuel info i r1 r2 k) Q E s.
Proof.
  intros Hseg Hleaf. induction j as [|j IH]; intros k fuel n U T2 g1 g2 s Q E Hk Hj Hf HW HR HQ HE;
    destruct (region_reads _ _ _ _ _ _ _ _ _ HR) as (L1 & L2 & _).
  - assert (Hend : forall m : M (kstate S) unit, wp (if k <? np then m else ret tt) Q E s).
    { intros m. rewrite (proj2 (Z.ltb_ge _ _)) by lia. apply wp_ret. eapply (HQ n U T2); [lia| |apply still_refl].
      eapply twin_ext; [exact HW|..]; intros vb _; unfold parent_after, child_after, in_pages;
        destruct (inside_spec (first + k * PGSIZE) (Z.of_nat 0 * PGSIZE) vb); (done || lia). }
    destruct fuel; cbn [share_loop]; (apply wp_bind; eapply wp_pmem_load; [exact L2|apply Hend]).
  - destruct fuel as [|fuel]; [lia|]. cbn [share_loop]. apply wp_bind. eapply wp_pmem_load; [exact L2|].
    rewrite (proj2 (Z.ltb_lt _ _)) by lia. apply wp_bind. eapply wp_pmem_load; [exact L1|].
    destruct (segment_page first np k Hseg ltac:(lia)) as [-> Hva]. set (va := first + k * PGSIZE) in *.
    pose proof Hva as (Hal & Hva1 & Hva2). assert (Hvr : 0 <= va < MAXVA) by (unfold PGSIZE in *; lia).
    destruct (g1 va) as [v|] eqn:Hv.
    2: { destruct (pte_at_some r1 T1 (memory (km s)) va (vi_tree _ _ _ _ _ _ _ (tw_1 _ _ _ _ _ _ HW))) as (v0 & Hv0 & _).
         rewrite (tw_v1 _ _ _ _ _ _ HW) in Hv0 by done. congruence. }
    assert (Hsame : forall vb, 0 <= vb < MAXVA -> vb / PGSIZE = va / PGSIZE -> g1 vb = Some v).
    { intros vb Hvb Hd. rewrite <- Hv. by eapply twin_same_page. }
    assert (Enext : first + (k + 1) * PGSIZE = va + PGSIZE) by (unfold va; lia).
    assert (Ej : Z.of_nat (Datatypes.S j) = Z.of_nat j + 1) by lia.
    assert (Hstep : forall n' U' T2' s', (n <= n' + 2)%nat ->
      twin n' U' T2' (if bit_set v PTE_V then set_page va (cow_entry v) g1 else g1)
                     (if bit_set v PTE_V then set_page va (cow_entry v) g2 else g2) s' ->
      still U T2 s U' T2' s' -> wp (share_loop get_page fuel info i r1 r2 (k + 1)) Q E s').
    { intros n' U' T2' s' Hn HW' S'. eapply (IH (k + 1)); [lia|lia|lia|exact HW'|by eapply region_still| |].
      - intros n3 U3 T3 s3 Hn3 HW3 S3. apply (HQ n3 U3 T3); [lia| |by eapply still_trans].
        rewrite Enext in HW3. eapply twin_ext; [exact HW3|..]; intros vb Hvb;
          destruct (after_cons va (Z.of_nat j) g1 g2 v vb Hal ltac:(lia) (Hsame vb Hvb)) as [A1 A2]; rewrite Ej.
        + exact A1.
        + exact A2.
      - intros Hlt s3. apply HE. lia. }
    apply wp_bind. eapply wp_share_page; [exact HW|by apply user_page_va| |exact Hv| | |].
    + apply Hleaf. unfold in_pages. destruct (inside_spec first (np * PGSIZE) va) as [|Hn]; [done|]. exfalso. apply Hn.
      unfold va, PGSIZE. nia.
    + intros Ev. eapply (Hstep n U T2); [lia| |apply still_refl]. by rewrite Ev.
    + intros Ev n' U' T2' s' Hn HW' S'. eapply Hstep; [exact Hn| |exact S']. by rewrite Ev.
    + intros Hlt s'. apply HE. lia.
Qed.

(** *** Mapping a code segment *)
Definition rx_user : Z := prot_to_type (Z.lor PROT_READ PROT_EXEC) 1.
Definition code_after (first np : Z) (g1 g2 : Z -> option Z) (vb : Z) : option Z :=
  if in_pages first np vb then Some (leaf_pte (lookup_spec (g1 vb)) rx_user) else g2 vb.
Definition code_pages (first np : Z) (g1 : Z -> option Z) : Prop :=
  forall va, in_pages first np va = true -> 0 <= lookup_spec (g1 va) /\ lookup_spec (g1 va) + PGSIZE <= 2 ^ 56.

Lemma code_cons first np g1 g2 vb : first mod PGSIZE = 0 -> 0 <= np ->
  (vb / PGSIZE = first / PGSIZE -> g1 vb = g1 first) ->
  code_after (first + PGSIZE) np g1 (set_page first (leaf_pte (lookup_spec (g1 first)) rx_user) g2) vb =
  code_after first (np + 1) g1 g2 vb.
Proof.
  intros Hal Hnp Hg. unfold code_after. rewrite in_pages_cons by done. case_bool_decide as Hd.
  - rewrite in_pages_not_first by done. cbn. unfold set_page. by rewrite decide_True, Hg.
  - cbn [orb]. unfold set_page. by rewrite decide_False.
Qed.

Lemma unmapped_cons first np g2 w : first mod PGSIZE = 0 -> 0 <= np -> all_unmapped g2 first (np + 1) ->
  all_unmapped (set_page first w g2) (first + PGSIZE) np.
Proof.
  intros Hal Hnp HU vb Hin. unfold set_page. rewrite decide_False.
  - apply HU. rewrite in_pages_cons, Hin by done. apply orb_true_r.
  - intros Hd. by rewrite in_pages_not_first in Hin.
Qed.

Lemma wp_code_loop info i first np ty : segment_ok first np ->
  forall j k fuel n U T2 g1 g2 s (Q : unit -> kstate S -> Prop) E,
  0 <= k -> k + Z.of_nat j = np -> (j <= fuel)%nat -> twin n U T2 g1 g2 s -> region_here n U T2 info i first np ty s ->
  code_pages (first + k * PGSIZE) (Z.of_nat j) g1 -> all_unmapped g2 (first + k * PGSIZE) (Z.of_nat j) ->
  copied_to (2 * j) n U T2 s g1 (code_after (first + k * PGSIZE) (Z.of_nat j) g1 g2) Q ->
  ((n < 2 * j)%nat -> forall s', E al_stop s') ->
  wp (code_loop fuel info i r1 r2 k) Q E s.
Proof.
  intros Hseg. induction j as [|j IH]; intros k fuel n U T2 g1 g2 s Q E Hk Hj Hf HW HR HC HN HQ HE;
    destruct (region_reads _ _ _ _ _ _ _ _ _ HR) as (L1 & L2 & _).
  - assert (Hend : forall m : M (kstate S) unit, wp (if k <? np then m else ret tt) Q E s).
    { intros m. rewrite (proj2 (Z.ltb_ge _ _)) by lia. apply wp_ret. eapply (HQ n U T2); [lia| |apply still_refl].
      eapply twin_ext; [exact HW|done|]. intros vb _. unfold code_after, in_pages.
      destruct (inside_spec (first + k * PGSIZE) (Z.of_nat 0 * PGSIZE) vb); (done || lia). }
    destruct fuel; cbn [code_loop]; (apply wp_bind; eapply wp_pmem_load; [exact L2|apply Hend]).
  - destruct fuel as [|fuel]; [lia|]. cbn [code_loop]. apply wp_bind. eapply wp_pmem_load; [exact L2|].
    rewrite (proj2 (Z.ltb_lt _ _)) by lia. apply wp_bind. eapply wp_pmem_load; [exact L1|].
    destruct (segment_page first np k Hseg ltac:(lia)) as [-> Hva]. set (va := first + k * PGSIZE) in *.
    pose proof Hva as (Hal & Hva1 & Hva2). assert (Hvr : 0 <= va < MAXVA) by (unfold PGSIZE in *; lia).
    assert (Ej : Z.of_nat (Datatypes.S j) = Z.of_nat j + 1) by lia. rewrite Ej in HC, HN, HQ.
    assert (Hin : in_pages va (Z.of_nat j + 1) va = true) by (rewrite in_pages_cons by lia; by rewrite bool_decide_true).
    assert (Enext : first + (k + 1) * PGSIZE = va + PGSIZE) by (unfold va; lia).
    apply wp_bind, wp_on_km. eapply (wp_lookup_pa r1 T1); [apply HW|by apply user_page_va|]. rewrite set_km_eta.
    rewrite (tw_v1 _ _ _ _ _ _ HW va Hvr). set (pa := lookup_spec (g1 va)).
    destruct (HC va Hin) as [Hpa Hpa2]. fold pa in Hpa, Hpa2. destruct (HN va Hin) as (w & Hw & Ew).
    apply wp_bind, wp_on_km. eapply (wp_map_one lo hi r2 n U T2 _ va pa rx_user w); [apply HW|exact Hva|exact Hpa|exact Hpa2|done| |exact Ew| |].
    { by rewrite (tw_v2 _ _ _ _ _ _ HW). }
    2: { intros Hlt k'. apply HE. lia. }
    intros n' U' T2' k' Hn D. destruct (twin_child _ _ _ _ _ _ _ _ _ _ _ HW D) as [HW' S'].
    assert (HW2 : twin n' U' T2' g1 (set_page va (leaf_pte pa rx_user) g2) (set_km k' s)).
    { eapply twin_ext; [exact HW'|done|]. intros vb Hvb. rewrite heap_view by done. unfold set_page. case_decide; [done|].
      by apply (tw_v2 _ _ _ _ _ _ HW). }
    eapply (IH (k + 1)); [lia|lia|lia|exact HW2|by eapply region_still|rewrite Enext..|].
    + intros vb Hvb. apply HC. rewrite in_pages_cons, Hvb by lia. apply orb_true_r.
    + apply unmapped_cons; [done|lia|done].
    + intros n3 U3 T3 s3 Hn3 HW3 S3. apply (HQ n3 U3 T3); [lia| |by eapply still_trans].
      eapply twin_ext; [exact HW3|done|]. intros vb Hvb. apply code_cons; [done|lia|]. intros Hd. by eapply twin_same_page.
    + intros Hlt s3. apply HE. lia.
Qed.
End fork.
