(* ===== verification/ForkProofs.v ===== *)
(** * do_fork over all segments

    One step per region of the parent, and what the loop over the regions
    leaves: the two address spaces, the child's regions and its trap frame. *)
From stdpp Require Import base gmap list strings.
From Stdlib Require Import ZArith Lia.
From S2P Require Import Prelude Riscv PmmState Mem Str Vmm VmmProofs VmmSpec KernVm VmTheorems ProcState Sched Process Trap SchedProofs TrapProofs HeapProofs SpaceProofs AllocProcess Fork.

#[local] Arguments load_le : simpl never.
#[local] Arguments store_le : simpl never.

(** What has been copied so far: both translations, the child and its
    regions, and whether its trap frame is the parent's. *)
Record fork_state := mkFork {
  fg1 : Z -> option Z;
  fg2 : Z -> option Z;
  fchild : process;
  fregions : list (Z * Z * Z);
  fcopied : bool
}.

(** The copy of one region [(va, npages, seg_type)] of the parent [x]. *)
Definition fork_step (x : process) (f : fork_state) (e : Z * Z * Z) : fork_state :=
  let '(first, np, ty) := e in
  if ty =? CONTEXT_SEGMENT then mkFork (fg1 f) (fg2 f) (fchild f) (fregions f) true
  else if (ty =? STACK_SEGMENT) || (ty =? HEAP_SEGMENT) then
    mkFork (parent_after first np (fg1 f)) (child_after first np (fg1 f) (fg2 f))
      (if ty =? HEAP_SEGMENT then with_heap (user_heap x) (fchild f) else fchild f) (fregions f) (fcopied f)
  else if ty =? CODE_SEGMENT then
    mkFork (fg1 f) (code_after first np (fg1 f) (fg2 f)) (with_total (total_mapped_region (fchild f) + 1) (fchild f))
      (fregions f ++ [(first, np, CODE_SEGMENT)]) (fcopied f)
  else f.

(** When the code can copy the region: it walks to a leaf for every page, and
    finds the child's code pages unmapped. *)
Definition fork_fits (T1 : ptable) (f : fork_state) (e : Z * Z * Z) : Prop :=
  let '(first, np, ty) := e in
  if ty =? CONTEXT_SEGMENT then True
  else if (ty =? STACK_SEGMENT) || (ty =? HEAP_SEGMENT) then segment_ok first np /\ has_leaves T1 first np
  else if ty =? CODE_SEGMENT then
    segment_ok first np /\ 0 < np /\ code_pages first np (fg1 f) /\ all_unmapped (fg2 f) first np /\
    Z.of_nat (length (fregions f)) < 255
  else True.
Fixpoint fork_all_fit (T1 : ptable) (x : process) (f : fork_state) (l : list (Z * Z * Z)) : Prop :=
  match l with [] => True | e :: l => fork_fits T1 f e /\ fork_all_fit T1 x (fork_step x f e) l end.

(** Page tables the copy may need. *)
Definition fork_need (e : Z * Z * Z) : nat :=
  let '(_, np, ty) := e in
  if (ty =? STACK_SEGMENT) || (ty =? HEAP_SEGMENT) || (ty =? CODE_SEGMENT) then 2 * Z.to_nat np else 0.
Definition fork_needs (l : list (Z * Z * Z)) : nat := sum_list (fork_need <$> l).

Lemma fork_needs_cons e l : fork_needs (e :: l) = (fork_need e + fork_needs l)%nat.
Proof. done. Qed.

Section segments.
Context {S : Type} `{Allocator S} `{Harts S} (lo hi : Z) `{!AllocatorSpec S lo hi} (sym : symbols).
Implicit Types (T : ptable) (U : gset Z) (n : nat) (s : kstate S) (m : mem).
Context (get_page : Z -> M (kmem S) unit).
Context (get_page_ok : forall pa n U (k : kmem S), al_inv n U (heap k) ->
  wp (get_page pa) (fun _ k' => al_inv n U (heap k') /\ memory k' = memory k /\ g_kernel_pagetable k' = g_kernel_pagetable k)
     no_stop k).

(** The parent [x], entry [parent] of the pool, with the regions [l]; the
    child is entry [child]. *)
Context (parent child : Z) (x : process) (T1 : ptable) (l : list (Z * Z * Z)).
Context (r2 ctf cinfo : Z).
Let r1 := pagetable x.
Let ptf := trapframe x.
Let info := mapped_info x.
Context (Hpc : parent <> child) (Hlen : Z.of_nat (length l) <= 256).
Context (Hpages : NoDup [ptf; ctf; info; cinfo])
  (Hpage : forall a, a ∈ [ptf; ctf; info; cinfo] -> page_ok a /\ lo <= a /\ a + PGSIZE <= hi).

Record forking (f : fork_state) n U T2 s : Prop := {
  fk_twin : twin lo hi r1 r2 T1 n U T2 (fg1 f) (fg2 f) s;
  fk_parent : procs s !! parent = Some x;
  fk_child : procs s !! child = Some (fchild f);
  fk_fixed : pagetable (fchild f) = r2 /\ trapframe (fchild f) = ctf /\ mapped_info (fchild f) = cinfo /\
             total_mapped_region (fchild f) = Z.of_nat (length (fregions f)) /\ Z.of_nat (length (fregions f)) < 256;
  fk_keep a : a ∈ [ptf; ctf; info; cinfo] -> kept lo hi T1 U a PGSIZE /\ kept lo hi T2 U a PGSIZE;
  fk_regions : regions_at (memory (km s)) info l;
  fk_cregions : regions_at (memory (km s)) cinfo (fregions f);
  fk_copied : fcopied f = true -> forall k, 0 <= k < sizeof_trapframe -> memory (km s) !! (ctf + k) = memory (km s) !! (ptf + k)
}.

(** The rest of the kernel state, and data the copy has no business with. *)
Definition off_pages (a j : Z) : Prop := forall b, b ∈ [ctf; cinfo] -> a + j <= b \/ b + PGSIZE <= a.
Record untouched U T2 s U' T2' s' : Prop := {
  un_rest : (forall i, i <> child -> procs s' !! i = procs s !! i) /\ current s' = current s /\
            ready_queue_head s' = ready_queue_head s /\ g_ticks s' = g_ticks s /\
            g_kernel_pagetable (km s') = g_kernel_pagetable (km s);
  un_own : U ⊆ U';
  un_kept a j : kept lo hi T1 U a j -> kept lo hi T2 U a j -> off_pages a j ->
    kept lo hi T1 U' a j /\ kept lo hi T2' U' a j /\ forall y, a <= y < a + j -> memory (km s') !! y = memory (km s) !! y
}.

Lemma untouched_refl U T2 s : untouched U T2 s U T2 s.
Proof. by split. Qed.

Lemma untouched_trans Ua Ta sa Ub Tb sb Uc Tc sc :
  untouched Ua Ta sa Ub Tb sb -> untouched Ub Tb sb Uc Tc sc -> untouched Ua Ta sa Uc Tc sc.
Proof.
  intros [(A0 & A1 & A2 & A3 & A4) AU AK] [(B0 & B1 & B2 & B3 & B4) BU BK]. split.
  - split_and!; [|congruence..]. intros i Hi. by rewrite B0, A0.
  - by etrans.
  - intros a j K1 K2 K3. destruct (AK a j K1 K2 K3) as (K1' & K2' & M1). destruct (BK a j K1' K2' K3) as (K1'' & K2'' & M2).
    split_and!; [done..|]. intros y Hy. by rewrite M2, M1.
Qed.

Lemma still_untouched U T2 s U' T2' s' : still lo hi T1 U T2 s U' T2' s' -> untouched U T2 s U' T2' s'.
Proof. intros [(A0 & A) AU AK]. split; [split; [by rewrite A0|done]|done|]. intros a j K1 K2 _. by apply AK. Qed.

Lemma page_has f n U T2 s a : forking f n U T2 s -> a ∈ [ptf; ctf; info; cinfo] -> has (memory (km s)) a PGSIZE.
Proof.
  intros HF Ha y Hy. destruct (Hpage a Ha) as (_ & P2 & P3). apply (vi_arena _ _ _ _ _ _ _ (tw_1 _ _ _ _ _ _ _ _ _ _ _ (fk_twin _ _ _ _ _ HF))). lia.
Qed.

Lemma pages_far a b : a ∈ [ptf; ctf; info; cinfo] -> b ∈ [ptf; ctf; info; cinfo] -> a <> b -> a + PGSIZE <= b \/ b + PGSIZE <= a.
Proof. intros Ha Hb Hne. apply pages_apart; [by apply Hpage|by apply Hpage|done]. Qed.

(** Only translations and tables changed. *)
Lemma forking_still f n U T2 s n' U' T2' s' g1 g2 : forking f n U T2 s -> still lo hi T1 U T2 s U' T2' s' ->
  twin lo hi r1 r2 T1 n' U' T2' g1 g2 s' -> forking (mkFork g1 g2 (fchild f) (fregions f) (fcopied f)) n' U' T2' s'.
Proof.
  intros [F1 F2 F3 F4 F5 F6 F7 F8] [(P0 & _) _ K] HW.
  assert (HK : forall a, a ∈ [ptf; ctf; info; cinfo] -> kept lo hi T1 U' a PGSIZE /\ kept lo hi T2' U' a PGSIZE /\
    forall y, a <= y < a + PGSIZE -> memory (km s') !! y = memory (km s) !! y).
  { intros a Ha. destruct (F5 a Ha) as [K1 K2]. by apply K. }
  split; cbn [fg1 fg2 fchild fregions fcopied]; rewrite ?P0; try done.
  - intros a Ha. by destruct (HK a Ha) as (? & ? & _).
  - eapply regions_at_ext; [exact Hlen| |exact F6]. apply HK. in_list.
  - eapply regions_at_ext; [|  |exact F7]; [lia|]. apply HK. in_list.
  - intros Hc k Hk. destruct (HK ctf ltac:(in_list)) as (_ & _ & M1). destruct (HK ptf ltac:(in_list)) as (_ & _ & M2).
    unfold sizeof_trapframe, PGSIZE in *. rewrite M1, M2 by lia. by apply F8.
Qed.

(** *** Writing into the child's pages *)
Lemma forking_data f n U T2 s m' P g : forking f n U T2 s -> upd (memory (km s)) m' P g ->
  (forall y, P y = true -> 0 <= g y < 256) ->
  (forall y, P y = true -> exists a, a ∈ [ctf; cinfo] /\ a <= y < a + PGSIZE) ->
  twin lo hi r1 r2 T1 n U T2 (fg1 f) (fg2 f) (set_mem m' s) /\ untouched U T2 s U T2 (set_mem m' s) /\
  (forall y, P y = false -> m' !! y = memory (km s) !! y).
Proof.
  intros [[W1 W2 W3 W4 W5] _ _ _ F5 _ _ _] Hu Hg HP.
  assert (Hoff : forall T, (forall a, a ∈ [ptf; ctf; info; cinfo] -> kept lo hi T U a PGSIZE) ->
    forall y π p, P y = true -> T !! π = Some p -> ~ (p <= y < p + PGSIZE)).
  { intros T HT y π p Hy Hp. destruct (HP y Hy) as (a & Ha & Hay). destruct (HT a) as [K _].
    { rewrite !elem_of_cons in Ha. rewrite !elem_of_cons. tauto. }
    destruct (K π p Hp); lia. }
  pose proof (Hoff T1 (fun a Ha => proj1 (F5 a Ha))) as Ho1. pose proof (Hoff T2 (fun a Ha => proj2 (F5 a Ha))) as Ho2.
  destruct (data_tree r1 T1 _ m' _ _ (vi_tree _ _ _ _ _ _ _ W1) Hu Hg Ho1) as [_ V1].
  destruct (data_tree r2 T2 _ m' _ _ (vi_tree _ _ _ _ _ _ _ W2) Hu Hg Ho2) as [_ V2].
  pose proof (data_vinv lo hi r1 n U T1 _ m' (g_kernel_pagetable (km s)) _ _ W1 Hu Hg Ho1) as D1.
  pose proof (data_vinv lo hi r2 n U T2 _ m' (g_kernel_pagetable (km s)) _ _ W2 Hu Hg Ho2) as D2.
  assert (Hfr : forall y, P y = false -> m' !! y = memory (km s) !! y) by (intros y Hy; by rewrite Hu, Hy).
  split_and!; [split; try done; intros vb Hvb; cbn [km set_mem set_km memory]; [rewrite V1; by apply W4|rewrite V2; by apply W5]| |exact Hfr].
  split; [done|done|]. intros a j K1 K2 Ho. split_and!; [done..|]. intros y Hy. cbn [km set_mem set_km memory]. apply Hfr.
  destruct (P y) eqn:Ey; [|done]. destruct (HP y Ey) as (b & Hb & Hby). destruct (Ho b Hb); lia.
Qed.

(** The trap frame. *)
Lemma wp_copy_frame f n U T2 s (Q : unit -> kstate S -> Prop) E : 7 <= lo ->
  forking f n U T2 s ->
  (forall s', forking (mkFork (fg1 f) (fg2 f) (fchild f) (fregions f) true) n U T2 s' -> untouched U T2 s U T2 s' -> Q tt s') ->
  wp (pmem (memcpy ctf ptf sizeof_trapframe) ;;; ret tt) Q E s.
Proof.
  intros Hlo HF HQ. pose proof (page_has _ _ _ _ _ ctf HF ltac:(in_list)) as Hc. pose proof (page_has _ _ _ _ _ ptf HF ltac:(in_list)) as Hp.
  destruct (Hpage ctf ltac:(in_list)) as ((_ & C1 & C2) & C3 & C4). destruct (Hpage ptf ltac:(in_list)) as ((_ & P1 & P2) & P3 & P4).
  pose proof Hpages as HN. rewrite !NoDup_cons, !not_elem_of_cons in HN.
  pose proof (pages_far ptf ctf ltac:(in_list) ltac:(in_list) ltac:(by destruct_and?)) as Hfar.
  pose proof (pt_bytes _ _ _ (vi_tree _ _ _ _ _ _ _ (tw_1 _ _ _ _ _ _ _ _ _ _ _ (fk_twin _ _ _ _ _ HF)))) as Hby.
  unfold sizeof_trapframe, PGSIZE in *.
  apply wp_bind, wp_pmem. apply wp_memcpy; try done; try lia.
  { intros y Hy. apply Hc. lia. } { intros y Hy. apply Hp. lia. }
  intros m' Hcp.
  assert (Hu : upd (memory (km s)) m' (inside ctf 280) (fun y => default 0 (memory (km s) !! (ptf + (y - ctf))))).
  { intros y. rewrite Hcp. destruct (inside_spec ctf 280 y); [|done]. by destruct (Hp (ptf + (y - ctf)) ltac:(lia)) as [b ->]. }
  destruct (forking_data _ _ _ _ _ m' _ _ HF Hu) as (W & N & Hfr).
  { intros y _. destruct (memory (km s) !! (ptf + (y - ctf))) as [b|] eqn:Hb; cbn; [by apply Hby in Hb|lia]. }
  { intros y Hy. exists ctf. split; [in_list|]. destruct (inside_spec ctf 280 y); [unfold PGSIZE; lia|done]. }
  apply wp_ret, HQ; [|exact N]. destruct HF as [F1 F2 F3 F4 F5 F6 F7 F8].
  assert (Hsame : forall a, a ∈ [info; cinfo] -> a <> ctf -> forall y, a <= y < a + PGSIZE -> m' !! y = memory (km s) !! y).
  { intros a Ha Hne y Hy. apply Hfr, inside_out. destruct (pages_far a ctf) as [?|?]; [|in_list|done|unfold PGSIZE in *; lia..].
    by do 2 apply list_elem_of_further. }
  split; cbn [fg1 fg2 fchild fregions fcopied km set_mem set_km memory procs]; try done.
  - eapply regions_at_ext; [exact Hlen| |exact F6]. apply Hsame; [in_list|by destruct_and?].
  - eapply regions_at_ext; [| |exact F7]; [lia|]. apply Hsame; [in_list|by destruct_and?].
  - intros _ k Hk. unfold sizeof_trapframe in Hk. rewrite !Hcp. destruct (inside_spec ctf 280 (ctf + k)); [|lia]. rewrite inside_out by lia. f_equal. lia.
Qed.

(** Three stores of an entry, as one change of memory. *)
Lemma region_stores_upd m a0 lr e m1 m2 m3 : region_stores m a0 lr e m1 m2 m3 -> region_ok e -> regions_at m a0 lr -> bytes_ok m ->
  has m a0 PGSIZE -> Z.of_nat (length lr) < 256 ->
  upd m m3 (inside (a0 + 16 * Z.of_nat (length lr)) 16) (fun y => default 0 (m3 !! y)) /\ bytes_ok m3.
Proof.
  intros HS He HR Hb Hh Hl. destruct (append_region _ _ _ _ _ _ _ HS He HR) as [_ Hfr]. destruct e as [[va np] ty].
  destruct HS as (S1 & S2 & S3). cbn [fst snd] in *. set (a := a0 + 16 * Z.of_nat (length lr)) in *.
  assert (Hb3 : bytes_ok m3) by (eapply store_bytes_ok; [exact S3|eapply store_bytes_ok; [exact S2|by eapply store_bytes_ok]]).
  split; [|exact Hb3]. intros y. destruct (inside_spec a 16 y) as [Hy|Hy]; [|by apply Hfr].
  assert (Hs : is_Some (m3 !! y)).
  { rewrite (store_le_lookup _ _ _ _ _ _ S3), (store_le_lookup _ _ _ _ _ _ S2), (store_le_lookup _ _ _ _ _ _ S1).
    repeat case_decide; try done. apply Hh. unfold a, PGSIZE in *. lia. }
  by destruct Hs as [b ->].
Qed.

Definition registered (f : fork_state) (first np : Z) : fork_state :=
  mkFork (fg1 f) (fg2 f) (with_total (total_mapped_region (fchild f) + 1) (fchild f))
    (fregions f ++ [(first, np, CODE_SEGMENT)]) (fcopied f).

Lemma registered_forking f n U T2 s m' first np : forking f n U T2 s -> Z.of_nat (length (fregions f)) < 255 ->
  twin lo hi r1 r2 T1 n U T2 (fg1 f) (fg2 f) (set_mem m' s) -> untouched U T2 s U T2 (set_mem m' s) ->
  (forall y, ~ (cinfo <= y < cinfo + PGSIZE) -> m' !! y = memory (km s) !! y) ->
  regions_at m' cinfo (fregions f ++ [(first, np, CODE_SEGMENT)]) ->
  let s' := set_procs (<[child := with_total (total_mapped_region (fchild f) + 1) (fchild f)]> (procs s)) (set_mem m' s) in
  forking (registered f first np) n U T2 s' /\ untouched U T2 s U T2 s'.
Proof.
  intros [F1 F2 F3 F4 F5 F6 F7 F8] Hl [W1 W2 W3 W4 W5] [(N0 & N1) NU NK] Hfr HR s'.
  pose proof Hpages as HN. rewrite !NoDup_cons, !not_elem_of_cons in HN.
  assert (Hsame : forall a, a ∈ [ptf; ctf; info] -> a <> cinfo -> forall y, a <= y < a + PGSIZE -> m' !! y = memory (km s) !! y).
  { intros a Ha Hne y Hy. apply Hfr. destruct (pages_far a cinfo) as [?|?]; [|in_list|done|lia..].
    rewrite !elem_of_cons in Ha. destruct_or?; subst; try in_list. by apply elem_of_nil in Ha. }
  split; split; cbn [registered fg1 fg2 fchild fregions fcopied]; try done.
  - cbn. by rewrite lookup_insert_ne.
  - cbn. apply lookup_insert_eq.
  - destruct F4 as (E1 & E2 & E3 & E4 & E5). cbn. split_and!; try done; rewrite length_app; cbn; lia.
  - cbn. eapply regions_at_ext; [exact Hlen| |exact F6]. apply Hsame; [in_list|by destruct_and?].
  - intros Hcp k Hk. cbn [s' set_procs km set_mem set_km memory]. unfold sizeof_trapframe, PGSIZE in *.
    rewrite (Hsame ctf), (Hsame ptf); try in_list; try lia; try (by destruct_and?). by apply F8.
  - split; [|done]. intros j Hj. cbn. by rewrite lookup_insert_ne.
Qed.

Lemma wp_register f n U T2 s i first np ty (Q : unit -> kstate S -> Prop) E :
  forking f n U T2 s -> l !! i = Some (first, np, ty) -> segment_ok first np -> Z.of_nat (length (fregions f)) < 255 ->
  (forall s', forking (registered f first np) n U T2 s' -> untouched U T2 s U T2 s' -> Q tt s') ->
  wp (let* va := pmem (load64 (u64 (region info (Z.of_nat i) + MR_VA))) in
      pmem (store64 (u64 (region cinfo (total_mapped_region (fchild f)) + MR_VA)) va) ;;;
      let* npages := pmem (load32 (u64 (region info (Z.of_nat i) + MR_NPAGES))) in
      pmem (store32 (u64 (region cinfo (total_mapped_region (fchild f)) + MR_NPAGES)) npages) ;;;
      pmem (store32 (u64 (region cinfo (total_mapped_region (fchild f)) + MR_TYPE)) CODE_SEGMENT) ;;;
      upd_proc (with_total (total_mapped_region (fchild f) + 1)) (Some child)) Q E s.
Proof.
  intros HF Hi (G1 & G2 & G3 & G4 & G5) Hl HQ. pose proof (lookup_lt_Some _ _ _ Hi) as Hil.
  destruct (fk_fixed _ _ _ _ _ HF) as (_ & _ & _ & Et & _). rewrite Et.
  destruct (fk_regions _ _ _ _ _ HF i _ Hi) as (L1 & L2 & _). cbn [fst snd] in L1, L2.
  destruct (Hpage info ltac:(in_list)) as ((_ & I1 & I2) & _). destruct (Hpage cinfo ltac:(in_list)) as ((_ & C1 & C2) & _).
  unfold PGSIZE in *. pose proof MAXVA_lt as HM.
  destruct (region_addrs info (Z.of_nat i)) as (-> & -> & _); [lia..|].
  destruct (region_addrs cinfo (Z.of_nat (length (fregions f)))) as (-> & -> & ->); [lia..|].
  pose proof (page_has _ _ _ _ _ cinfo HF ltac:(in_list)) as Hc. set (a := cinfo + 16 * Z.of_nat (length (fregions f))).
  assert (Ha : cinfo <= a /\ a + 16 <= cinfo + 4096) by (unfold a; lia). unfold PGSIZE in Hc.
  pose proof Hpages as HN. rewrite !NoDup_cons, !not_elem_of_cons in HN.
  pose proof (pages_far info cinfo ltac:(in_list) ltac:(in_list) ltac:(by destruct_and?)) as Hfar. unfold PGSIZE in Hfar.
  apply wp_bind. eapply wp_pmem_load; [exact L1|].
  apply wp_bind, wp_pmem, wp_store; [intros y Hy; apply Hc; change (Z.of_nat 8) with 8 in Hy; lia|]. intros m1 S1 U1.
  apply wp_bind. eapply (wp_pmem_load _ _ _ np).
  { cbn [km set_mem set_km memory]. rewrite (load_store_other _ _ _ _ _ _ _ S1); [exact L2|]. lia. }
  assert (H1 : has m1 cinfo 4096) by (by eapply upd_has). cbn [km set_mem set_km memory].
  apply wp_bind, wp_pmem, wp_store; [intros y Hy; apply H1; change (Z.of_nat 4) with 4 in Hy; lia|]. intros m2 S2 U2.
  assert (H2 : has m2 cinfo 4096) by (by eapply upd_has). cbn [km set_mem set_km memory] in *.
  apply wp_bind, wp_pmem, wp_store; [intros y Hy; apply H2; change (Z.of_nat 4) with 4 in Hy; lia|]. intros m3 S3 U3.
  change (set_mem m3 _) with (set_mem m3 s).
  pose proof (pt_bytes _ _ _ (vi_tree _ _ _ _ _ _ _ (tw_1 _ _ _ _ _ _ _ _ _ _ _ (fk_twin _ _ _ _ _ HF)))) as Hby.
  assert (Hok : region_ok (first, np, CODE_SEGMENT)) by (split; cbn; [unfold is_u64; lia|split; [lia|done]]).
  assert (HS : region_stores (memory (km s)) cinfo (fregions f) (first, np, CODE_SEGMENT) m1 m2 m3) by done.
  destruct (append_region _ _ _ _ _ _ _ HS Hok (fk_cregions _ _ _ _ _ HF)) as [HR3 Hfr].
  destruct (region_stores_upd _ _ _ _ _ _ _ HS Hok (fk_cregions _ _ _ _ _ HF) Hby (page_has _ _ _ _ _ cinfo HF ltac:(in_list)) ltac:(lia)) as [Hu Hb3].
  destruct (forking_data _ _ _ _ _ m3 _ _ HF Hu) as (W & N & _).
  { intros y _. destruct (m3 !! y) as [b|] eqn:Hb; cbn; [by apply Hb3 in Hb|lia]. }
  { intros y Hy. exists cinfo. split; [in_list|]. destruct (inside_spec (cinfo + 16 * Z.of_nat (length (fregions f))) 16 y); [unfold PGSIZE; lia|done]. }
  eapply wp_upd_proc; [exact (fk_child _ _ _ _ _ HF)|]. rewrite <- Et.
  destruct (registered_forking f n U T2 s m3 first np HF Hl W N) as [A1 A2]; [|exact HR3|by apply HQ].
  intros y Hy. apply Hfr. unfold PGSIZE in Hy. lia.
Qed.

(** *** One region *)
Lemma forking_region f n U T2 s i first np ty : forking f n U T2 s -> l !! i = Some (first, np, ty) ->
  region_here lo hi T1 n U T2 info (Z.of_nat i) first np ty s.
Proof.
  intros HF Hi. pose proof (lookup_lt_Some _ _ _ Hi). destruct (Hpage info ltac:(in_list)) as ((_ & I1 & I2) & _).
  destruct (fk_keep _ _ _ _ _ HF info ltac:(in_list)) as [K1 K2].
  split; [lia|exact (fk_regions _ _ _ _ _ HF i _ Hi)|exact K1|exact K2].
Qed.

Definition segment_done (need : nat) f' n U T2 s (Q : unit -> kstate S -> Prop) : Prop :=
  forall n' U' T2' s', (n <= n' + need)%nat -> forking f' n' U' T2' s' -> untouched U T2 s U' T2' s' -> Q tt s'.

Lemma wp_share_segment f n U T2 s i first np ty (Q : unit -> kstate S -> Prop) E :
  forking f n U T2 s -> l !! i = Some (first, np, ty) -> segment_ok first np -> has_leaves T1 first np ->
  segment_done (2 * Z.to_nat np)
    (mkFork (parent_after first np (fg1 f)) (child_after first np (fg1 f) (fg2 f))
      (if ty =? HEAP_SEGMENT then with_heap (user_heap x) (fchild f) else fchild f) (fregions f) (fcopied f)) n U T2 s Q ->
  ((n < 2 * Z.to_nat np)%nat -> forall s', E al_stop s') ->
  wp (share_loop get_page (Z.to_nat np) info (Z.of_nat i) r1 r2 0 ;;;
      let* seg_type := pmem (load32 (u64 (region info (Z.of_nat i) + MR_TYPE))) in
      if seg_type =? HEAP_SEGMENT then upd_proc (with_heap (user_heap x)) (Some child) else ret tt) Q E s.
Proof.
  intros HF Hi Hseg Hleaf HQ HE. pose proof Hseg as (_ & _ & Hnp & _). apply wp_bind.
  pose proof (forking_region _ _ _ _ _ _ _ _ _ HF Hi) as HR.
  eapply (wp_share_loop lo hi r1 r2 T1 get_page get_page_ok info (Z.of_nat i) first np ty Hseg Hleaf (Z.to_nat np));
    [lia|lia|lia|exact (fk_twin _ _ _ _ _ HF)|exact HR| |exact HE].
  intros n' U' T2' s' Hn HW S'. rewrite Z.mul_0_l, Z.add_0_r, Z2Nat.id in HW by lia.
  pose proof (forking_still _ _ _ _ _ _ _ _ _ _ _ HF S' HW) as HF'. pose proof (still_untouched _ _ _ _ _ _ S') as HU.
  destruct (region_reads _ _ _ _ _ _ _ _ _ _ _ _ (forking_region _ _ _ _ _ _ _ _ _ HF' Hi)) as (_ & _ & L3).
  apply wp_bind. eapply wp_pmem_load; [exact L3|]. destruct (ty =? HEAP_SEGMENT); [|by apply wp_ret, (HQ n' U' T2')].
  eapply wp_upd_proc; [exact (fk_child _ _ _ _ _ HF')|]. apply (HQ n' U' T2'); [exact Hn| |].
  - destruct HF' as [[W1 W2 W3 W4 W5] F2 F3 F4 F5 F6 F7 F8]. split; cbn in *; try done.
    + by rewrite lookup_insert_ne.
    + apply lookup_insert_eq.
  - destruct HU as [(N0 & N1) NU NK]. split; [split; [|done]|done|done]. intros j Hj. cbn. rewrite lookup_insert_ne by done. by apply N0.
Qed.

Lemma wp_code_segment f n U T2 s i first np ty (Q : unit -> kstate S -> Prop) E :
  forking f n U T2 s -> l !! i = Some (first, np, ty) -> segment_ok first np -> 0 < np -> code_pages first np (fg1 f) ->
  all_unmapped (fg2 f) first np -> Z.of_nat (length (fregions f)) < 255 ->
  segment_done (2 * Z.to_nat np)
    (mkFork (fg1 f) (code_after first np (fg1 f) (fg2 f)) (with_total (total_mapped_region (fchild f) + 1) (fchild f))
      (fregions f ++ [(first, np, CODE_SEGMENT)]) (fcopied f)) n U T2 s Q ->
  ((n < 2 * Z.to_nat np)%nat -> forall s', E al_stop s') ->
  wp (let* va := pmem (load64 (u64 (region info (Z.of_nat i) + MR_VA))) in
      let* _ := on_km (lookup_pa r1 va) in
      code_loop (Z.to_nat np) info (Z.of_nat i) r1 r2 0 ;;;
      let* va := pmem (load64 (u64 (region info (Z.of_nat i) + MR_VA))) in
      pmem (store64 (u64 (region cinfo (total_mapped_region (fchild f)) + MR_VA)) va) ;;;
      let* npages := pmem (load32 (u64 (region info (Z.of_nat i) + MR_NPAGES))) in
      pmem (store32 (u64 (region cinfo (total_mapped_region (fchild f)) + MR_NPAGES)) npages) ;;;
      pmem (store32 (u64 (region cinfo (total_mapped_region (fchild f)) + MR_TYPE)) CODE_SEGMENT) ;;;
      upd_proc (with_total (total_mapped_region (fchild f) + 1)) (Some child)) Q E s.
Proof.
  intros HF Hi Hseg Hnp HC HN Hl HQ HE. pose proof Hseg as (S1 & S2 & S3 & S4 & S5).
  pose proof (forking_region _ _ _ _ _ _ _ _ _ HF Hi) as HR. pose proof (fk_twin _ _ _ _ _ HF) as HW.
  destruct (region_reads _ _ _ _ _ _ _ _ _ _ _ _ HR) as (L1 & _ & _).
  apply wp_bind. eapply wp_pmem_load; [exact L1|]. apply wp_bind, wp_on_km.
  eapply (wp_lookup_pa r1 T1); [apply HW|unfold va_ok, PGSIZE in *; lia|]. rewrite set_km_eta. apply wp_bind.
  assert (E0 : first + 0 * PGSIZE = first) by lia.
  eapply (wp_code_loop lo hi r1 r2 T1 info (Z.of_nat i) first np ty Hseg (Z.to_nat np));
    [lia|lia|lia|exact HW|exact HR|rewrite E0, Z2Nat.id by lia..| |exact HE]; [exact HC|exact HN|].
  intros n' U' T2' s' Hn HW' S'. rewrite E0, Z2Nat.id in HW' by lia.
  pose proof (forking_still _ _ _ _ _ _ _ _ _ _ _ HF S' HW') as HF'. pose proof (still_untouched _ _ _ _ _ _ S') as HU.
  eapply (wp_register _ n' U' T2' s' i first np ty _ _ HF' Hi Hseg Hl). intros s2 HF2 HU2.
  apply (HQ n' U' T2'); [exact Hn|exact HF2|by eapply untouched_trans].
Qed.

Lemma wp_fork_segment f n U T2 s i e (Q : unit -> kstate S -> Prop) E : 7 <= lo ->
  forking f n U T2 s -> l !! i = Some e -> fork_fits T1 f e ->
  segment_done (fork_need e) (fork_step x f e) n U T2 s Q -> ((n < fork_need e)%nat -> forall s', E al_stop s') ->
  wp (fork_segment get_page parent child (Z.of_nat i)) Q E s.
Proof.
  intros Hlo HF Hi Hfit HQ HE. destruct e as [[first np] ty].
  destruct (region_reads _ _ _ _ _ _ _ _ _ _ _ _ (forking_region _ _ _ _ _ _ _ _ _ HF Hi)) as (_ & L2 & L3).
  destruct (fk_fixed _ _ _ _ _ HF) as (E1 & E2 & E3 & _).
  unfold fork_segment. apply wp_bind. eapply wp_proc; [exact (fk_parent _ _ _ _ _ HF)|].
  apply wp_bind. eapply wp_proc; [exact (fk_child _ _ _ _ _ HF)|].
  apply wp_bind. eapply wp_pmem_load; [exact L3|]. apply wp_bind. eapply wp_pmem_load; [exact L2|].
  rewrite E1, E2, E3. unfold fork_step, fork_fits, fork_need in *. fold ptf info r1.
  destruct (ty =? CONTEXT_SEGMENT) eqn:Ec; [|destruct ((ty =? STACK_SEGMENT) || (ty =? HEAP_SEGMENT)) eqn:Es; [|destruct (ty =? CODE_SEGMENT) eqn:Ed]].
  - apply (wp_copy_frame f n U T2 s); [done|exact HF|]. intros s' HF' HU. apply (HQ n U T2); [lia|done|done].
  - destruct Hfit as [Hseg Hleaf]. cbn [orb] in HQ, HE. by apply (wp_share_segment f n U T2 s i first np ty).
  - destruct Hfit as (Hseg & Hnp & HC & HN & Hl). by apply (wp_code_segment f n U T2 s i first np ty).
  - apply wp_ret, (HQ n U T2); [lia|done|apply untouched_refl].
Qed.

(** *** All regions *)
Lemma wp_fork_loop : 7 <= lo -> forall l2 l1 f n U T2 s (Q : unit -> kstate S -> Prop) E,
  l = l1 ++ l2 -> forking f n U T2 s -> fork_all_fit T1 x f l2 ->
  segment_done (fork_needs l2) (fold_left (fork_step x) l2 f) n U T2 s Q -> ((n < fork_needs l2)%nat -> forall s', E al_stop s') ->
  wp (fork_loop get_page (length l2) parent child (Z.of_nat (length l1))) Q E s.
Proof.
  intros Hlo. induction l2 as [|e l2 IH]; intros l1 f n U T2 s Q E El HF Hfit HQ HE; cbn [fork_loop length].
  - apply wp_ret, (HQ n U T2); [cbn; lia|exact HF|apply untouched_refl].
  - destruct Hfit as [Hfit1 Hfit2]. rewrite fork_needs_cons in HQ, HE. apply wp_bind.
    eapply (wp_fork_segment f n U T2 s (length l1) e); [exact Hlo|exact HF| |exact Hfit1| |].
    + rewrite El, lookup_app_r, Nat.sub_diag by lia. done.
    + intros n' U' T2' s' Hn HF' HU. replace (Z.of_nat (length l1) + 1) with (Z.of_nat (length (l1 ++ [e]))) by (rewrite length_app; cbn; lia).
      eapply (IH (l1 ++ [e])); [by rewrite <- app_assoc|exact HF'|exact Hfit2| |].
      * intros n3 U3 T3 s3 Hn3 HF3 HU3. apply (HQ n3 U3 T3); [lia|exact HF3|by eapply untouched_trans].
      * intros Hlt. apply HE. lia.
    + intros Hlt. apply HE. lia.
Qed.
End segments.
