(* ===== verification/ForkSpec.v ===== *)
(** * do_fork as a whole

    From the state a process calls fork in to the state in which the child
    waits in the ready queue. *)
From stdpp Require Import base gmap list strings.
From Stdlib Require Import ZArith Lia.
From S2P Require Import Prelude Riscv PmmState Mem Str Vmm VmmProofs VmmSpec KernVm VmTheorems ProcState Sched Process Trap SchedProofs TrapProofs HeapProofs SpaceProofs AllocProcess Fork ForkProofs.

#[local] Arguments load_le : simpl never.
#[local] Arguments store_le : simpl never.

Section do_fork.
Context {S : Type} `{Allocator S} `{Harts S} (lo hi : Z) `{!AllocatorSpec S lo hi} (sym : symbols).
Implicit Types (T : ptable) (U : gset Z) (n : nat) (s : kstate S) (m : mem).
Context (get_page : Z -> M (kmem S) unit).
Context (get_page_ok : forall pa n U (k : kmem S), al_inv n U (heap k) ->
  wp (get_page pa) (fun _ k' => al_inv n U (heap k') /\ memory k' = memory k /\ g_kernel_pagetable k' = g_kernel_pagetable k)
     no_stop k).

(** A process that can be copied: [l] are its regions, and its pages are in
    use and no page tables. *)
Record forkable n U T1 (p : Z) (x : process) (l : list (Z * Z * Z)) s : Prop := {
  fb_inv : vinv lo hi (pagetable x) n U T1 (km s);
  fb_proc : procs s !! p = Some x;
  fb_busy : status x <> FREE;
  fb_total : total_mapped_region x = Z.of_nat (length l) /\ Z.of_nat (length l) <= 256;
  fb_regions : regions_at (memory (km s)) (mapped_info x) l;
  fb_pages a : a ∈ [trapframe x; mapped_info x] ->
    a ∈ U /\ page_ok a /\ lo <= a /\ a + PGSIZE <= hi /\ (forall π q, T1 !! π = Some q -> q <> a);
  fb_apart : trapframe x <> mapped_info x
}.

(** The state of the copy when the child has just been created. *)
Definition fork_start (g1 : Z -> option Z) (y : process) (tf us : Z) : fork_state :=
  mkFork g1 (process_view sym tf us) y (new_regions sym tf) false.

Lemma forkable_created n U T1 p x l s i z tf pt ks us info n' U' T' s' :
  forkable n U T1 p x l s -> created lo hi sym n U s i z tf pt ks us info n' U' T' s' -> p <> i ->
  let y := new_process z tf pt ks info in
  NoDup [trapframe x; tf; mapped_info x; info] /\
  (forall a, a ∈ [trapframe x; tf; mapped_info x; info] -> page_ok a /\ lo <= a /\ a + PGSIZE <= hi) /\
  forking lo hi p i x T1 l pt tf info (fork_start (pte_at T1 (memory (km s))) y tf us) n' U' T' s'.
Proof.
  intros [V FP FB [FT FL] FR FG FA] HC Hpi y. destruct HC as [C1 C2 C3 C4 C5 C6 C7 C8 C9 _ _ C10 C11 C12].
  pose proof V as [V1 V2 V3 V4].
  destruct (FG (trapframe x) ltac:(in_list)) as (G1 & G2 & G3 & G4 & G5).
  destruct (FG (mapped_info x) ltac:(in_list)) as (I1 & I2 & I3 & I4 & I5).
  destruct (C3 tf ltac:(in_list)) as (D1 & D2 & D3 & D4). destruct (C3 info ltac:(in_list)) as (E1 & E2 & E3 & E4).
  assert (HUout : forall a, a ∈ U -> page_ok a -> outside lo hi U a PGSIZE).
  { intros a Ha Hok. split; [done|]. right. right. exists a. split_and!; [done|done|lia|lia]. }
  assert (Htree : ptree T1 (pagetable x) (memory (km s')) /\ forall va, pte_at T1 (memory (km s')) va = pte_at T1 (memory (km s)) va).
  { apply tree_stays; [exact V2| |apply C4]. intros π q y0 Hq Hy0. pose proof (pt_page _ _ _ V2 _ _ Hq) as Hqo.
    destruct (C12 q PGSIZE) as [_ Hm]; [apply HUout; [by eapply V4|done]|]. by apply Hm. }
  destruct Htree as [HT1 HV1].
  assert (HW1 : vinv lo hi (pagetable x) n' U' T1 (km s')).
  { split; [apply C4|exact HT1|apply C4|]. intros π q Hq. apply C5, elem_of_union_l. by eapply V4. }
  assert (Hkeep : forall a, a ∈ [trapframe x; tf; mapped_info x; info] -> kept lo hi T1 U' a PGSIZE /\ kept lo hi T' U' a PGSIZE).
  { assert (Hin : forall a, a ∈ U' -> page_ok a -> (forall π q, T1 !! π = Some q -> q <> a) -> kept lo hi T1 U' a PGSIZE) by (intros a ? ? ?; by eapply kept_used).
    assert (Hnew : forall a, a ∈ [tf; pt; ks; us; info] -> kept lo hi T1 U' a PGSIZE).
    { intros a Ha. destruct (C3 a Ha) as (A1 & A2 & _). apply Hin; [apply C5; unfold pages5; set_solver +Ha|done|]. intros π q Hq ->. exact (A1 (V4 _ _ Hq)). }
    assert (Hold : forall a, a ∈ [trapframe x; mapped_info x] -> kept lo hi T1 U' a PGSIZE /\ kept lo hi T' U' a PGSIZE).
    { intros a Ha. destruct (FG a Ha) as (A1 & A2 & _ & _ & A5). split; [apply Hin; [by apply C5, elem_of_union_l|done|done]|].
      apply C12. by apply HUout. }
    intros a Ha. repeat (apply elem_of_cons in Ha as [->|Ha]); [apply Hold; in_list|split; [apply Hnew|apply C11]; in_list|apply Hold; in_list|split; [apply Hnew|apply C11]; in_list|by apply elem_of_nil in Ha]. }
  split_and!; [| |split; cbn [fork_start fg1 fg2 fchild fregions fcopied]].
  - rewrite !NoDup_cons, !not_elem_of_cons in C2. pose proof (@not_elem_of_nil Z). pose proof (@NoDup_nil_2 Z).
    rewrite !NoDup_cons, !not_elem_of_cons. destruct_and?. split_and!; auto; congruence.
  - intros a Ha. repeat (apply elem_of_cons in Ha as [->|Ha]); try done. by apply elem_of_nil in Ha.
  - split; [exact HW1|exact C4| |intros vb _; apply HV1|exact C8].
    intros π1 π2 q H1 H2. pose proof (pt_page _ _ _ V2 _ _ H1) as Hqo.
    destruct (C12 q PGSIZE) as [[K _] _]; [apply HUout; [by eapply V4|done]|]. destruct (K _ _ H2); unfold PGSIZE in *; lia.
  - rewrite C6. by rewrite lookup_insert_ne.
  - rewrite C6. apply lookup_insert_eq.
  - split_and!; done.
  - exact Hkeep.
  - eapply regions_at_ext; [exact FL| |exact FR]. destruct (C12 (mapped_info x) PGSIZE) as [_ Hm]; [by apply HUout|exact Hm].
  - exact C9.
  - done.
Qed.

(** *** The child is made ready *)
Lemma fork_step_pid x l f : pid (fchild (fold_left (fork_step x) l f)) = pid (fchild f).
Proof.
  revert f. induction l as [|[[first np] ty] l IH]; intros f; cbn [fold_left]; [done|]. rewrite IH. unfold fork_step.
  destruct (ty =? CONTEXT_SEGMENT); [done|]. destruct ((ty =? STACK_SEGMENT) || (ty =? HEAP_SEGMENT)); [by destruct (ty =? HEAP_SEGMENT)|].
  by destruct (ty =? CODE_SEGMENT).
Qed.

Lemma fork_step_copied x l f : (exists e, e ∈ l /\ snd e = CONTEXT_SEGMENT) \/ fcopied f = true ->
  fcopied (fold_left (fork_step x) l f) = true.
Proof.
  revert f. induction l as [|[[first np] ty] l IH]; intros f; cbn [fold_left].
  - intros [(e & He & _)|Hf]; [by apply elem_of_nil in He|done].
  - intros Hor. apply IH. unfold fork_step. destruct (Z.eqb_spec ty CONTEXT_SEGMENT) as [E|E]; [by right|].
    destruct Hor as [(e & He & Ety)|Hf]; [left|right].
    + apply elem_of_cons in He as [->|He]; [done|by exists e].
    + destruct ((ty =? STACK_SEGMENT) || (ty =? HEAP_SEGMENT)); [done|]. by destruct (ty =? CODE_SEGMENT).
Qed.

(** Fields of the trap frame the child gets its own value of. *)
Definition own_field (k : Z) : bool := inside TF_TP 8 k || inside (TF_A 0) 8 k.

Record readied (parent child : Z) (x : process) (T1 : ptable) (l : list (Z * Z * Z)) (r2 ctf cinfo : Z) (f : fork_state) n U T2
    U0 (ql : list Z) s s' : Prop := {
  re_twin : twin lo hi (pagetable x) r2 T1 n U T2 (fg1 f) (fg2 f) s';
  re_child : exists nx, procs s' !! child = Some (with_next nx (with_status READY (with_parent (Some parent) (fchild f))));
  re_others q y : q <> child -> procs s !! q = Some y -> exists nx, procs s' !! q = Some (with_next nx y);
  re_queue : chain (procs s') (ready_queue_head s') (ql ++ [child]);
  re_current : current s' = current s;
  re_data a j : outside lo hi U0 a j -> kept lo hi T1 U0 a j -> forall y, a <= y < a + j -> memory (km s') !! y = memory (km s) !! y;
  re_regions : regions_at (memory (km s')) (mapped_info x) l /\ regions_at (memory (km s')) cinfo (fregions f);
  re_frame k : 0 <= k < sizeof_trapframe -> own_field k = false -> memory (km s') !! (ctf + k) = memory (km s) !! (trapframe x + k);
  re_tp : load_le 8 (ctf + TF_TP) (memory (km s')) = Some (u64 (procs_addr sym + child * sizeof_process));
  re_a0 : load_le 8 (ctf + TF_A 0) (memory (km s')) = Some 0
}.

(** The two stores into the child's trap frame. *)
Lemma wp_child_registers parent child (x : process) T1 l r2 ctf cinfo f n U T2 s v
    (g : process -> process) {B} (cont : M (kstate S) B) (Q : B -> kstate S -> Prop) E :
  NoDup [trapframe x; ctf; mapped_info x; cinfo] ->
  (forall a, a ∈ [trapframe x; ctf; mapped_info x; cinfo] -> page_ok a /\ lo <= a /\ a + PGSIZE <= hi) ->
  forking lo hi parent child x T1 l r2 ctf cinfo f n U T2 s -> 0 <= v < 2 ^ 64 ->
  (forall m', twin lo hi (pagetable x) r2 T1 n U T2 (fg1 f) (fg2 f) (set_mem m' s) ->
     (forall y, (y < ctf \/ ctf + PGSIZE <= y \/ own_field (y - ctf) = false) -> m' !! y = memory (km s) !! y) ->
     load_le 8 (ctf + TF_TP) m' = Some v -> load_le 8 (ctf + TF_A 0) m' = Some 0 ->
     wp cont Q E (set_procs (<[child := g (fchild f)]> (procs s)) (set_mem m' s))) ->
  wp (pmem (store64 (u64 (ctf + TF_TP)) v) ;;;
      upd_proc g (Some child) ;;;
      pmem (store64 (u64 (ctf + TF_A 0)) 0) ;;; cont) Q E s.
Proof.
  intros HN HP HF Hv HQ. destruct (HP ctf ltac:(in_list)) as ((_ & C1 & C2) & C3 & C4). unfold PGSIZE in C2, C4.
  pose proof (page_has lo hi parent child x T1 l r2 ctf cinfo HP _ _ _ _ _ ctf HF ltac:(in_list)) as Hc. unfold PGSIZE in Hc.
  rewrite !u64_id by (unfold is_u64, TF_TP, TF_A; lia).
  apply wp_bind, wp_pmem, wp_store; [intros y Hy; apply Hc; unfold TF_TP in Hy; change (Z.of_nat 8) with 8 in Hy; lia|]. intros m1 S1 U1.
  apply wp_bind. eapply wp_upd_proc; [exact (fk_child _ _ _ _ _ _ _ _ _ _ _ _ _ _ _ HF)|].
  assert (H1 : has m1 ctf 4096) by (by eapply upd_has). cbn [km set_mem set_km memory] in *.
  apply wp_bind, wp_pmem, wp_store; [intros y Hy; apply H1; unfold TF_A in Hy; change (Z.of_nat 8) with 8 in Hy; lia|]. intros m2 S2 U2.
  cbn [km set_mem set_km set_procs memory] in *. change (set_mem m2 _) with (set_procs (<[child := g (fchild f)]> (procs s)) (set_mem m2 s)).
  assert (Hin : forall y, inside (ctf + TF_TP) 8 y || inside (ctf + TF_A 0) 8 y = own_field (y - ctf)).
  { intros y. unfold own_field, TF_TP, TF_A. destruct (inside_spec (ctf + 24) 8 y), (inside_spec (ctf + (72 + 8 * 0)) 8 y),
      (inside_spec 24 8 (y - ctf)), (inside_spec (72 + 8 * 0) 8 (y - ctf)); (done || lia). }
  assert (Hu : upd (memory (km s)) m2 (fun y => own_field (y - ctf)) (fun y => default 0 (m2 !! y))).
  { intros y. rewrite <- Hin. rewrite U2, U1. change (Z.of_nat 8) with 8.
    destruct (inside (ctf + TF_A 0) 8 y); [by rewrite orb_true_r|]. destruct (inside (ctf + TF_TP) 8 y); done. }
  pose proof (pt_bytes _ _ _ (vi_tree _ _ _ _ _ _ _ (tw_1 _ _ _ _ _ _ _ _ _ _ _ (fk_twin _ _ _ _ _ _ _ _ _ _ _ _ _ _ _ HF)))) as Hby.
  assert (Hb2 : bytes_ok m2) by (eapply store_bytes_ok; [exact S2|by eapply store_bytes_ok]).
  destruct (forking_data lo hi parent child x T1 l r2 ctf cinfo f n U T2 s m2 _ _ HF Hu) as (W & _ & Hfr).
  { intros y _. destruct (m2 !! y) as [b|] eqn:Hb; cbn; [by apply Hb2 in Hb|lia]. }
  { intros y Hy. exists ctf. split; [in_list|]. unfold own_field, TF_TP, TF_A, PGSIZE in *.
    destruct (inside_spec 24 8 (y - ctf)), (inside_spec (72 + 8 * 0) 8 (y - ctf)); (done || lia). }
  apply (HQ m2); [exact W| | |].
  - intros y Hy. apply Hfr. destruct Hy as [Hy|[Hy|Hy]]; [| |exact Hy]; unfold own_field, TF_TP, TF_A, PGSIZE in *;
      destruct (inside_spec 24 8 (y - ctf)), (inside_spec (72 + 8 * 0) 8 (y - ctf)); (done || lia).
  - rewrite (load_store_other _ _ _ _ _ _ _ S2) by (unfold TF_TP, TF_A; lia). rewrite (load_store_same _ _ _ _ _ S1).
    f_equal. by apply Z.mod_small.
  - rewrite (load_store_same _ _ _ _ _ S2). done.
Qed.

(** From the end of the loop over the regions ([s2]) on; [s] is the state
    before the fork. *)
Lemma wp_make_ready parent child (x z : process) T1 l r2 ctf cinfo f n U T2 U0 ql s s2 (Q : Z -> kstate S -> Prop) E :
  NoDup [trapframe x; ctf; mapped_info x; cinfo] ->
  (forall a, a ∈ [trapframe x; ctf; mapped_info x; cinfo] -> page_ok a /\ lo <= a /\ a + PGSIZE <= hi) ->
  parent <> child -> Z.of_nat (length l) <= 256 -> ctf ∉ U0 -> fcopied f = true -> pid (fchild f) = pid z ->
  forking lo hi parent child x T1 l r2 ctf cinfo f n U T2 s2 ->
  chain (procs s) (ready_queue_head s) ql -> child ∉ ql ->
  (forall i, i <> child -> procs s2 !! i = procs s !! i) -> current s2 = current s -> ready_queue_head s2 = ready_queue_head s ->
  (forall a j, outside lo hi U0 a j -> kept lo hi T1 U0 a j -> forall y, a <= y < a + j -> memory (km s2) !! y = memory (km s) !! y) ->
  (forall k, 0 <= k < sizeof_trapframe -> memory (km s2) !! (trapframe x + k) = memory (km s) !! (trapframe x + k)) ->
  (forall s', readied parent child x T1 l r2 ctf cinfo f n U T2 U0 ql s s' -> Q (s32 (pid z)) s') ->
  wp (let* c := proc (Some child) in
      pmem (store64 (u64 (trapframe c + TF_TP)) (u64 (procs_addr sym + child * sizeof_process))) ;;;
      upd_proc (with_status READY) (Some child) ;;;
      pmem (store64 (u64 (trapframe c + TF_A 0)) 0) ;;;
      upd_proc (with_parent (Some parent)) (Some child) ;;;
      insert_to_ready_queue child ;;;
      let* c := proc (Some child) in
      ret (s32 (pid c))) Q E s2.
Proof.
  intros HN HP Hpc Hll Hnew Hcop Hpid HF Hq Hql Hpr Hcur Hhead Hdata Hframe HQ.
  pose proof HN as HN'. rewrite !NoDup_cons, !not_elem_of_cons in HN'.
  pose proof (fk_fixed _ _ _ _ _ _ _ _ _ _ _ _ _ _ _ HF) as (E1 & E2 & E3 & E4 & E5).
  apply wp_bind. eapply wp_proc; [exact (fk_child _ _ _ _ _ _ _ _ _ _ _ _ _ _ _ HF)|]. rewrite E2.
  eapply wp_child_registers; [exact HN|exact HP|exact HF|apply u64_range|]. intros m' HW Hm Htp Ha0.
  apply wp_bind. eapply wp_upd_proc; [cbn; apply lookup_insert_eq|]. cbn [procs set_procs set_mem set_km]. rewrite insert_insert_eq.
  set (y := with_parent (Some parent) (with_status READY (fchild f))). set (s3 := set_procs _ _).
  assert (Hne : forall a, a ∈ [trapframe x; mapped_info x; cinfo] -> a <> ctf -> forall y, a <= y < a + PGSIZE -> m' !! y = memory (km s2) !! y).
  { intros a Ha Hne z0 Hz. apply Hm. destruct (pages_apart a ctf) as [?|?]; try (by apply HP; in_list); [|done|lia|lia].
    apply HP. rewrite !elem_of_cons in Ha. destruct_or?; subst; try in_list. by apply elem_of_nil in Ha. }
  apply wp_bind. eapply (wp_insert child y ql).
  { eapply chain_insert_out; [exact Hql|]. eapply chain_ext; [|cbn; rewrite Hhead; exact Hq].
    intros a w Ha Hw. exists w. split; [|done]. cbn. rewrite Hpr; [done|]. by intros ->. }
  { cbn. apply lookup_insert_eq. }
  { done. }
  intros _ P' h' Hch HR. destruct (HR child y) as (nx & Hy'); [apply lookup_insert_eq|]. rewrite decide_True in Hy' by done.
  apply wp_bind. eapply wp_proc; [exact Hy'|]. apply wp_ret.
  replace (pid (with_next nx (with_status READY y))) with (pid z) by (cbn; congruence).
  apply HQ. split; cbn [procs current ready_queue_head km set_procs set_mem set_km s3].
  - destruct HW as [W1 W2 W3 W4 W5]. by split.
  - by exists nx.
  - intros q w Hqc Hw. destruct (HR q w) as (nx' & Hw').
    { cbn. rewrite lookup_insert_ne by done. by rewrite Hpr. }
    rewrite decide_False in Hw' by done. by exists nx'.
  - exact Hch.
  - exact Hcur.
  - intros a j Ho Hk w Hw. cbn [memory]. rewrite Hm; [by eapply Hdata|].
    destruct Ho as (_ & [Ho|[Ho|(b & Hb & Ob & B1 & B2)]]); destruct (HP ctf ltac:(in_list)) as (Oc & C1 & C2); [lia|lia|].
    destruct (pages_apart b ctf Ob Oc) as [?|?]; [by intros ->|lia|lia].
  - cbn [memory]. split; [eapply regions_at_ext; [exact Hll| |apply HF]|eapply regions_at_ext; [|  |apply HF]; [lia|]];
      apply Hne; [in_list|by destruct_and?|in_list|by destruct_and?].
  - intros k Hk Hown. cbn [memory]. rewrite Hm by (right; right; by replace (ctf + k - ctf) with k by lia).
    rewrite (fk_copied _ _ _ _ _ _ _ _ _ _ _ _ _ _ _ HF Hcop k Hk). by apply Hframe.
  - exact Htp.
  - exact Ha0.
Qed.

(** *** The whole call *)
Record fork_result n U T1 p x l ql s r s' : Prop := {
  fr_slot : exists c z, 0 <= c < NPROC /\ procs s !! c = Some z /\ status z = FREE /\ r = s32 (pid z) /\
    exists tf pt ks us info n' U' T2, (n <= n' + (11 + fork_needs l))%nat /\
      (forall a, a ∈ [tf; pt; ks; us; info] -> a ∉ U /\ page_ok a) /\
      readied p c x T1 l pt tf info (fold_left (fork_step x) l (fork_start (pte_at T1 (memory (km s))) (new_process z tf pt ks info) tf us))
        n' U' T2 U ql s s'
}.

Lemma wp_do_fork n U T1 p x l ql s (Q : Z -> kstate S -> Prop) E :
  layout lo hi sym -> pool_ok (procs s) -> forkable n U T1 p x l s ->
  (exists e, e ∈ l /\ snd e = CONTEXT_SEGMENT) ->
  (forall y tf us, lo <= tf -> tf + PGSIZE <= hi -> fork_all_fit T1 x (fork_start (pte_at T1 (memory (km s))) y tf us) l) ->
  chain (procs s) (ready_queue_head s) ql -> (forall q y, q ∈ ql -> procs s !! q = Some y -> status y <> FREE) ->
  (forall r s', fork_result n U T1 p x l ql s r s' -> Q r s') ->
  ((forall j y, 0 <= j < NPROC -> procs s !! j = Some y -> status y <> FREE) -> forall s', E no_process s') ->
  ((n < 11 + fork_needs l)%nat -> forall s', E al_stop s') ->
  wp (do_fork sym get_page (Some p)) Q E s.
Proof.
  intros HY HP HB Hctx Hfit Hq Hqs HQ Hfull HE. pose proof HB as [[V1 V2 V3 V4] Bx Bst [Bt Bl] Br Bp Ba].
  assert (Hlo7 : 7 <= lo) by (destruct HY as [_ Y2 Y3 _]; unfold USER_STACK_TOP, PGSIZE in *; lia).
  unfold do_fork. apply wp_bind. eapply wp_proc; [exact Bx|]. apply wp_bind.
  eapply (wp_alloc_process lo hi sym n U); [exact HY|exact HP|split; [exact V1|exact V3|apply V2]| |intros HF; by apply Hfull|intros Hn; apply HE; lia].
  intros c z tf pt ks us info n1 U1 T2 s1 Hc Hz Hzf _ HC.
  assert (Hpc : p <> c) by (intros ->; congruence).
  destruct (forkable_created _ _ _ _ _ _ _ _ _ _ _ _ _ _ _ _ _ _ HB HC Hpc) as (HN & HPg & HF).
  pose proof HC as [Ccount _ Cfresh _ Cown Cprocs (R1 & R2 & _) _ _ _ _ _ _ Cout].
  assert (Hx1 : procs s1 !! p = Some x) by exact (fk_parent _ _ _ _ _ _ _ _ _ _ _ _ _ _ _ HF).
  apply wp_bind. eapply wp_read_opt; [reflexivity|]. apply wp_bind. eapply wp_proc; [exact Hx1|]. rewrite Bt, Nat2Z.id.
  apply wp_bind. eapply (wp_fork_loop lo hi get_page get_page_ok p c x T1 l pt tf info Hpc Bl HN HPg Hlo7 l []); [done|exact HF| | |].
  { destruct (HPg tf ltac:(in_list)) as (_ & ? & ?). by apply Hfit. }
  2: { intros Hn s'. apply HE. lia. }
  intros n2 U2 T3 s2 Hn2 HF2 HU. destruct HU as [(N0 & N1 & N2 & _) NU NK].
  destruct (Cfresh tf ltac:(in_list)) as (Htf & _).
  assert (Hoff : forall a j, outside lo hi U a j -> off_pages tf info a j).
  { intros a j Ho b Hb. assert (Hb5 : b ∈ [tf; pt; ks; us; info]).
    { repeat (apply elem_of_cons in Hb as [->|Hb]; [in_list|]). by apply elem_of_nil in Hb. }
    eapply outside_apart; [exact Ho|by apply Cfresh]. }
  assert (Hdata : forall a j, outside lo hi U a j -> kept lo hi T1 U a j ->
    forall y, a <= y < a + j -> memory (km s2) !! y = memory (km s) !! y).
  { intros a j Ho Hk y Hy. destruct (Cout a j Ho) as [K2 M1].
    destruct (NK a j) as (_ & _ & M2); [|exact K2|by apply Hoff|by rewrite M2, M1].
    eapply kept_grow; [exact Hk|set_solver| |by left].
    intros π q Hq'. by eapply (pt_page _ _ _ V2). }
  eapply (wp_make_ready p c x z T1 l pt tf info _ n2 U2 T3 U ql s s2); try done.
  - apply fork_step_copied. by left.
  - by rewrite fork_step_pid.
  - intros Hin. by apply (Hqs c z Hin Hz).
  - intros i Hi. rewrite N0 by done. rewrite Cprocs. by rewrite lookup_insert_ne.
  - congruence.
  - congruence.
  - intros k Hk. destruct (Bp (trapframe x) ltac:(in_list)) as (P1 & P2 & P3 & P4 & P5).
    apply (Hdata (trapframe x) PGSIZE); [| |unfold sizeof_trapframe, PGSIZE in *; lia].
    + split; [done|]. right. right. exists (trapframe x). split_and!; [done|done|lia|lia].
    + eapply kept_used; [by split|done|done|done].
  - intros s' HR. apply HQ. split. exists c, z. split; [exact Hc|split; [exact Hz|split; [exact Hzf|split; [done|]]]]. exists tf, pt, ks, us, info, n2, U2, T3.
    split_and!; [lia| |exact HR]. intros a Ha. destruct (Cfresh a Ha) as (A1 & A2 & _). exact (conj A1 A2).
Qed.
End do_fork.
