(* ===== verification/ForkViews.v ===== *)
(** * What a fork leaves in the two page tables, page by page

    The regions of a process lie apart, so the fold over them can be read off
    at each page: shared copy-on-write, mapped read-execute, or as before. *)
From stdpp Require Import base gmap list strings.
From Stdlib Require Import ZArith Lia.
From S2P Require Import Prelude Riscv PmmState Mem Str Vmm VmmProofs VmmSpec KernVm VmTheorems ProcState Sched Process Trap SchedProofs TrapProofs HeapProofs SpaceProofs AllocProcess Fork ForkProofs ForkSpec.

Definition region_type (e : Z * Z * Z) : Z := snd e.
Definition region_has (e : Z * Z * Z) (va : Z) : bool := in_pages (fst (fst e)) (snd (fst e)) va.
Definition shares (e : Z * Z * Z) : bool := (region_type e =? STACK_SEGMENT) || (region_type e =? HEAP_SEGMENT).
Definition maps_code (e : Z * Z * Z) : bool := region_type e =? CODE_SEGMENT.
Definition copies (e : Z * Z * Z) : bool := shares e || maps_code e.

(** No page in two regions that are copied. *)
Fixpoint regions_apart (l : list (Z * Z * Z)) : Prop :=
  match l with
  | [] => True
  | e :: l => (forall e', e' ∈ l -> copies e = true -> copies e' = true -> forall va, region_has e va = true -> region_has e' va = false) /\
              regions_apart l
  end.

Lemma types_differ e : (region_type e = CONTEXT_SEGMENT -> copies e = false) /\ (shares e = true -> maps_code e = false).
Proof.
  unfold copies, shares, maps_code. split.
  - intros ->. done.
  - intros [->%Z.eqb_eq| ->%Z.eqb_eq]%orb_true_iff; done.
Qed.

(** One step, at one address. *)
Lemma fork_step_at x f e va :
  fg1 (fork_step x f e) va = (if shares e && region_has e va then shared_entry <$> fg1 f va else fg1 f va) /\
  fg2 (fork_step x f e) va =
    (if shares e && region_has e va then match fg1 f va with
                                         | Some v => if bit_set v PTE_V then Some (cow_entry v) else fg2 f va
                                         | None => fg2 f va
                                         end
     else if maps_code e && region_has e va then Some (leaf_pte (lookup_spec (fg1 f va)) rx_user) else fg2 f va).
Proof.
  destruct e as [[first np] ty]. unfold fork_step, shares, maps_code, region_type, region_has. cbn [fst snd].
  destruct (Z.eqb_spec ty CONTEXT_SEGMENT) as [->|Hc]; [by destruct (in_pages first np va)|].
  destruct ((ty =? STACK_SEGMENT) || (ty =? HEAP_SEGMENT)) eqn:Es; cbn [fg1 fg2 andb].
  - unfold parent_after, child_after. destruct (in_pages first np va); [done|]. by rewrite andb_false_r.
  - destruct (ty =? CODE_SEGMENT); cbn [fg1 fg2 andb]; [|done]. unfold code_after. by destruct (in_pages first np va).
Qed.

Lemma fork_step_away x f e va : copies e && region_has e va = false ->
  fg1 (fork_step x f e) va = fg1 f va /\ fg2 (fork_step x f e) va = fg2 f va.
Proof.
  intros Ha. destruct (fork_step_at x f e va) as [-> ->]. unfold copies in Ha.
  destruct (shares e), (maps_code e), (region_has e va); done.
Qed.

Lemma fork_fold_away x l va : forall f, (forall e, e ∈ l -> copies e && region_has e va = false) ->
  fg1 (fold_left (fork_step x) l f) va = fg1 f va /\ fg2 (fold_left (fork_step x) l f) va = fg2 f va.
Proof.
  induction l as [|e l IH]; intros f Hl; cbn [fold_left]; [done|].
  destruct (IH (fork_step x f e)) as [-> ->]; [intros e' He'; apply Hl; by right|]. apply fork_step_away, Hl. by left.
Qed.

(** The only region that contains [va] decides. *)
Lemma fork_fold_at x l e va : regions_apart l -> e ∈ l -> copies e = true -> region_has e va = true -> forall f,
  fg1 (fold_left (fork_step x) l f) va = fg1 (fork_step x f e) va /\
  fg2 (fold_left (fork_step x) l f) va = fg2 (fork_step x f e) va.
Proof.
  induction l as [|e' l IH]; intros Hl He Hc Hin f; [by apply elem_of_nil in He|]. destruct Hl as [H1 H2]. cbn [fold_left].
  apply elem_of_cons in He as [<-|He].
  - apply fork_fold_away. intros e' He'. destruct (copies e') eqn:Ec; [|done]. by apply (H1 e' He').
  - destruct (IH H2 He Hc Hin (fork_step x f e')) as [-> ->].
    assert (Ha : copies e' && region_has e' va = false).
    { destruct (copies e') eqn:Ec; [|done]. destruct (region_has e' va) eqn:Er; [|done]. by rewrite (H1 e He eq_refl Hc va Er) in Hin. }
    destruct (fork_step_away x f e' va Ha) as [E1 E2]. destruct (fork_step_at x f e va) as [-> ->].
    destruct (fork_step_at x (fork_step x f e') e va) as [-> ->]. by rewrite E1, E2.
Qed.

Lemma fork_fold_parent x l va : regions_apart l -> forall f,
  fg1 (fold_left (fork_step x) l f) va =
  (if existsb (fun e => shares e && region_has e va) l then shared_entry <$> fg1 f va else fg1 f va).
Proof.
  induction l as [|e l IH]; intros Hl f; [done|]. destruct Hl as [H1 H2]. cbn [fold_left existsb]. rewrite (IH H2).
  destruct (fork_step_at x f e va) as [E1 _]. destruct (shares e && region_has e va) eqn:Ee; cbn [orb].
  - apply andb_true_iff in Ee as [Es Er]. rewrite E1. replace (existsb _ l) with false; [done|]. symmetry. apply not_true_iff_false.
    intros (e' & He' & [Es' Er']%andb_true_iff)%existsb_exists. apply list_elem_of_In in He'.
    assert (Hc : forall e, shares e = true -> copies e = true) by (intros ? Hs; unfold copies; by rewrite Hs).
    by rewrite (H1 e' He' (Hc _ Es) (Hc _ Es') va Er) in Er'.
  - by rewrite E1.
Qed.

(** When the parent's regions can be copied, in terms of the parent alone. *)
Definition region_fits (T1 : ptable) (g1 : Z -> option Z) (e : Z * Z * Z) : Prop :=
  let '(first, np, ty) := e in
  if shares e then segment_ok first np /\ has_leaves T1 first np
  else if maps_code e then segment_ok first np /\ 0 < np /\ code_pages first np g1 /\ first + np * PGSIZE <= stack_page
  else True.

Lemma regions_all_fit T1 x g1 l : regions_apart l -> (forall e, e ∈ l -> region_fits T1 g1 e) -> forall f,
  Z.of_nat (length (fregions f)) + Z.of_nat (length l) <= 255 ->
  (forall e va, e ∈ l -> maps_code e = true -> region_has e va = true ->
     fg1 f va = g1 va /\ exists v, fg2 f va = Some v /\ bit_set v PTE_V = false) ->
  fork_all_fit T1 x f l.
Proof.
  induction l as [|e l IH]; intros Hl Hfit f Hn Hg; cbn [fork_all_fit]; [done|]. destruct Hl as [H1 H2]. split.
  - pose proof (Hfit e ltac:(by left)) as He. destruct (types_differ e) as [Hd1 Hd2]. destruct e as [[first np] ty].
    unfold fork_fits, region_fits in *. destruct (Z.eqb_spec ty CONTEXT_SEGMENT) as [|_]; [done|].
    fold (shares (first, np, ty)). change ((ty =? STACK_SEGMENT) || (ty =? HEAP_SEGMENT)) with (shares (first, np, ty)).
    change (ty =? CODE_SEGMENT) with (maps_code (first, np, ty)). destruct (shares (first, np, ty)) eqn:Es; [exact He|].
    destruct (maps_code (first, np, ty)) eqn:Em; [|done]. destruct He as (S1 & S2 & S3 & S4). split_and!; [done|done| | |].
    + intros va Hva. destruct (Hg (first, np, ty) va ltac:(by left) Em Hva) as [-> _]. by apply S3.
    + intros va Hva. by destruct (Hg (first, np, ty) va ltac:(by left) Em Hva) as [_ Hv].
    + cbn [length] in Hn. lia.
  - apply IH; [done|intros e' He'; apply Hfit; by right| |].
    + assert (Hlen : (length (fregions (fork_step x f e)) <= length (fregions f) + 1)%nat).
      { destruct e as [[first np] ty]. unfold fork_step. destruct (ty =? CONTEXT_SEGMENT); [cbn; lia|].
        destruct ((ty =? STACK_SEGMENT) || (ty =? HEAP_SEGMENT)); [cbn; lia|]. destruct (ty =? CODE_SEGMENT); cbn; [rewrite length_app; cbn|]; lia. }
      cbn [length] in Hn. lia.
    + intros e' va He' Hm Hr. destruct (fork_step_away x f e va) as [-> ->]; [|apply (Hg e'); [by right|done|done]].
      destruct (copies e) eqn:Ec; [|done]. destruct (region_has e va) eqn:Er; [|done].
      assert (Hc' : copies e' = true) by (unfold copies; by rewrite Hm, orb_true_r). by rewrite (H1 e' He' eq_refl Hc' va Er) in Hr.
Qed.

(** A single bit. *)
Lemma bit_set_testbit w b : 0 <= b -> bit_set w (2 ^ b) = Z.testbit w b.
Proof.
  intros Hb. unfold bit_set. destruct (Z.testbit w b) eqn:E.
  - apply negb_true_iff, Z.eqb_neq. intros E0. apply (f_equal (fun z => Z.testbit z b)) in E0.
    by rewrite Z.land_spec, E, Z.bits_0, Z.pow2_bits_true in E0.
  - apply negb_false_iff, Z.eqb_eq. apply Z.bits_inj'. intros i Hi. rewrite Z.land_spec, Z.bits_0.
    destruct (decide (i = b)) as [->|Hne]; [by rewrite E|]. rewrite Z.pow2_bits_false by lia. apply andb_false_r.
Qed.

(** The entry both get: same page, not writable, copy-on-write if it was. *)
Lemma cow_entry_facts v : bit_set v PTE_V = true ->
  bit_set (cow_entry v) PTE_V = true /\ bit_set (cow_entry v) PTE_W = false /\ PTE2PA (cow_entry v) = PTE2PA v /\
  (bit_set v PTE_W = true -> bit_set (cow_entry v) PTE_COW = true).
Proof.
  intros Eb. unfold cow_entry. destruct (bit_set v PTE_W) eqn:Ew; [|done].
  assert (Hbit : forall b, 0 <= b -> Z.testbit (Z.lor (Z.ldiff v PTE_W) PTE_COW) b = Z.testbit v b && negb (b =? 2) || (b =? 8)).
  { intros b Hb. unfold PTE_W, PTE_COW. change 4 with (2 ^ 2). change 256 with (2 ^ 8).
    rewrite Z.lor_spec, Z.ldiff_spec, !Z.pow2_bits_eqb by done. by rewrite (Z.eqb_sym 2 b), (Z.eqb_sym 8 b). }
  pose proof (bit_set_testbit v 0 ltac:(done)) as H0. change (bit_set v (2 ^ 0)) with (bit_set v PTE_V) in H0. rewrite Eb in H0.
  split_and!.
  - change PTE_V with (2 ^ 0). rewrite bit_set_testbit, Hbit by done. by rewrite <- H0.
  - change (bit_set ?w PTE_W) with (bit_set w (2 ^ 2)). rewrite bit_set_testbit, Hbit by done. cbn. by rewrite andb_false_r.
  - unfold PTE2PA. f_equal. f_equal. apply Z.bits_inj'. intros i Hi. rewrite !Z.shiftr_spec, Hbit by lia.
    rewrite !(proj2 (Z.eqb_neq _ _)) by lia. by rewrite andb_true_r, orb_false_r.
  - intros _. change (bit_set ?w PTE_COW) with (bit_set w (2 ^ 8)). rewrite bit_set_testbit, Hbit by done. apply orb_true_r.
Qed.

(** The copy never changes where the child's tables and trap frame are. *)
Lemma fork_fixed sym x l : forall g y tf us, let f := fold_left (fork_step x) l (fork_start sym g y tf us) in
  pagetable (fchild f) = pagetable y /\ trapframe (fchild f) = trapframe y /\ pid (fchild f) = pid y.
Proof.
  intros g y tf us. cbv zeta.
  enough (H : forall f, pagetable (fchild (fold_left (fork_step x) l f)) = pagetable (fchild f) /\
    trapframe (fchild (fold_left (fork_step x) l f)) = trapframe (fchild f) /\ pid (fchild (fold_left (fork_step x) l f)) = pid (fchild f)).
  { exact (H (fork_start sym g y tf us)). }
  induction l as [|e l' IH]; intros f; cbn [fold_left]; [done|]. destruct (IH (fork_step x f e)) as (-> & -> & ->).
  destruct e as [[first np] ty]. unfold fork_step. destruct (ty =? CONTEXT_SEGMENT); [done|].
  destruct ((ty =? STACK_SEGMENT) || (ty =? HEAP_SEGMENT)); [by destruct (ty =? HEAP_SEGMENT)|]. by destruct (ty =? CODE_SEGMENT).
Qed.
