(* ===== verification/Spike.v ===== *)
(** * The host interface: spike_interface/spike_htif.c, spike_utils.c,
    spike_file.c and the spinlock of atomic.h

    The emulator's host runs beside the hart: [host_turn] is what it does
    between two of the hart's accesses to a [volatile] word, [patience] how
    often a polling loop looks.  [atomic_read], [atomic_set] and
    [atomic_binop] are used by the repository and defined nowhere in it: the
    four operations made from them are a parameter. *)
From stdpp Require Import base gmap list strings.
From Stdlib Require Import ZArith Lia.
From S2P Require Import Prelude Riscv PmmState Mem Str Vmm ProcState.

(** The host, with its own state inside [S]. *)
Class HostMachine (S : Type) := { host_turn : kmem S -> kmem S }.

(** [atomic_read], [atomic_set], [atomic_swap] and [atomic_add] on an int. *)
Class SpikeAtomics := {
  at_read : Z -> M mem Z;
  at_set : Z -> Z -> M mem unit;
  at_swap : Z -> Z -> M mem Z;
  at_add : Z -> Z -> M mem Z
}.

(** Where the globals of the three files are. *)
Record spike_symbols := mkSpikeSymbols {
  a_tohost : Z; a_fromhost : Z; a_console_buf : Z; a_htif_lock : Z;
  a_magic_mem : Z; a_call_lock : Z;
  a_spike_fds : Z; a_spike_files : Z
}.

Definition TOHOST_CMD (dev cmd payload : Z) : Z :=
  Z.lor (Z.lor (u64 (Z.shiftl dev 56)) (u64 (Z.shiftl cmd 48))) payload.
Definition FROMHOST_DEV (v : Z) : Z := Z.shiftr v 56.
Definition FROMHOST_CMD (v : Z) : Z := Z.shiftr (u64 (Z.shiftl v 8)) 56.
Definition FROMHOST_DATA (v : Z) : Z := Z.shiftr (u64 (Z.shiftl v 16)) 16.

Definition HTIFSYS_exit : Z := 93.
Definition HTIFSYS_read : Z := 63.
Definition HTIFSYS_write : Z := 64.
Definition HTIFSYS_openat : Z := 56.
Definition HTIFSYS_close : Z := 57.
Definition HTIFSYS_lseek : Z := 62.
Definition HTIFSYS_pread : Z := 67.
Definition HTIFSYS_getmainvars : Z := 2011.

(** atomic.h: [amoadd] of [op]; [inc] is not used. *)
Definition atomic_binop_d (ptr inc op : Z) : M mem Z :=
  let* old := load64 ptr in store64 ptr (u64 (old + op)) ;;; ret (s64 old).
Definition atomic_binop_w (ptr inc op : Z) : M mem Z :=
  let* old := load32 ptr in store32 ptr (u32 (old + op)) ;;; ret (s32 old).

Section htif.
Context {S : Type} `{HostMachine S} `{SpikeAtomics} (patience : nat) (sym : spike_symbols).

(** *** atomic.h: the spinlock *)
Definition spinlock_trylock (lock : Z) : M (kmem S) Z := on_mem (at_swap lock (-1)).

Fixpoint lock_wait (fuel : nat) (lock : Z) : M (kmem S) unit :=
  let* v := on_mem (at_read lock) in
  if v =? 0 then ret tt
  else match fuel with
       | O => halt (Spins "spinlock_lock")
       | Datatypes.S fuel => modify host_turn ;;; lock_wait fuel lock
       end.
Fixpoint lock_loop (fuel : nat) (lock : Z) : M (kmem S) unit :=
  lock_wait patience lock ;;;
  let* res := spinlock_trylock lock in
  if res =? 0 then ret tt
  else match fuel with
       | O => halt (Spins "spinlock_lock")
       | Datatypes.S fuel => lock_loop fuel lock
       end.
Definition spinlock_lock (lock : Z) : M (kmem S) unit := lock_loop patience lock.
Definition spinlock_unlock (lock : Z) : M (kmem S) unit := on_mem (at_set lock 0).

(** *** spike_htif.c *)
(** A read of a [volatile] word the host writes too. *)
Definition volatile64 (a : Z) : M (kmem S) Z := modify host_turn ;;; on_mem (load64 a).

Definition __check_fromhost : M (kmem S) unit :=
  let* fh := volatile64 (a_fromhost sym) in
  if fh =? 0 then ret tt
  else
    on_mem (store64 (a_fromhost sym) 0) ;;;
    kernel_assert (FROMHOST_DEV fh =? 1) "FROMHOST_DEV(fh) == 1" ;;;
    if FROMHOST_CMD fh =? 0 then on_mem (store32 (a_console_buf sym) (1 + u8 (FROMHOST_DATA fh)))
    else if FROMHOST_CMD fh =? 1 then ret tt
    else kernel_assert false "0".

(** [while (tohost) __check_fromhost();] *)
Fixpoint wait_tohost (fuel : nat) : M (kmem S) unit :=
  let* t := volatile64 (a_tohost sym) in
  if t =? 0 then ret tt
  else match fuel with
       | O => halt (Spins "tohost")
       | Datatypes.S fuel => __check_fromhost ;;; wait_tohost fuel
       end.
Definition __set_tohost (dev cmd data : Z) : M (kmem S) unit :=
  wait_tohost patience ;;; on_mem (store64 (a_tohost sym) (TOHOST_CMD dev cmd data)).

Fixpoint await_fromhost (fuel : nat) (dev cmd : Z) : M (kmem S) unit :=
  let* fh := volatile64 (a_fromhost sym) in
  let again := match fuel with
               | O => halt (Spins "fromhost")
               | Datatypes.S fuel => await_fromhost fuel dev cmd
               end in
  if fh =? 0 then again
  else if (FROMHOST_DEV fh =? dev) && (FROMHOST_CMD fh =? cmd) then on_mem (store64 (a_fromhost sym) 0)
  else __check_fromhost ;;; again.

Definition do_tohost_fromhost (dev cmd data : Z) : M (kmem S) unit :=
  spinlock_lock (a_htif_lock sym) ;;;
  __set_tohost dev cmd data ;;;
  await_fromhost patience dev cmd ;;;
  spinlock_unlock (a_htif_lock sym).

Definition htif_syscall (arg : Z) : M (kmem S) unit := do_tohost_fromhost 0 0 arg.

Definition htif_console_putchar (ch : Z) : M (kmem S) unit :=
  spinlock_lock (a_htif_lock sym) ;;;
  __set_tohost 1 1 ch ;;;
  spinlock_unlock (a_htif_lock sym).

Definition htif_console_getchar : M (kmem S) Z :=
  spinlock_lock (a_htif_lock sym) ;;;
  __check_fromhost ;;;
  let* ch := on_mem (load32 (a_console_buf sym)) in
  let ch := s32 ch in
  (if 0 <=? ch then
     on_mem (store32 (a_console_buf sym) (u32 (-1))) ;;; __set_tohost 1 0 0
   else ret tt) ;;;
  spinlock_unlock (a_htif_lock sym) ;;;
  ret (s32 (ch - 1)).

(** *** spike_utils.c: a system call of the host *)
Fixpoint store_words (a : Z) (l : list Z) : M (kmem S) unit :=
  match l with
  | [] => ret tt
  | v :: l => on_mem (store64 a v) ;;; store_words (u64 (a + 8)) l
  end.

Definition frontend_syscall (n a0 a1 a2 a3 a4 a5 a6 : Z) : M (kmem S) Z :=
  spinlock_lock (a_call_lock sym) ;;;
  store_words (a_magic_mem sym) [u64 n; u64 a0; u64 a1; u64 a2; u64 a3; u64 a4; u64 a5; u64 a6] ;;;
  htif_syscall (a_magic_mem sym) ;;;
  let* r := on_mem (load64 (a_magic_mem sym)) in
  spinlock_unlock (a_call_lock sym) ;;;
  ret (s64 r).
End htif.

(** ** What the rest of the kernel uses: calls of the host *)
Class Frontend (S : Type) := { fe_syscall : Z -> Z -> Z -> Z -> Z -> Z -> M (kmem S) Z }.

(** Through the host interface; the last two arguments are always 0. *)
Definition htif_frontend {S} `{HostMachine S} `{SpikeAtomics} (patience : nat) (sym : spike_symbols) : Frontend S :=
  {| fe_syscall n a0 a1 a2 a3 a4 := frontend_syscall patience sym n a0 a1 a2 a3 a4 0 0 |}.
