(* ===== verification/SpikeProofs.v ===== *)
(** * The host interface: a call of the host

    [HostSpec]: what the emulator's host does with a command.  Under it
    [frontend_syscall] is one call of the host. *)
From stdpp Require Import base gmap list strings.
From Stdlib Require Import ZArith Lia.
From S2P Require Import Prelude Riscv PmmState Mem Str Sync Vmm VmmProofs ProcState Spike.

#[local] Arguments load_le : simpl never.
#[local] Arguments store_le : simpl never.

(** The four operations on an int, as riscv-pk documents them. *)
Class AtomicsSpec `{SpikeAtomics} : Prop := {
  as_read a : at_read a = (let* v := load32 a in ret (s32 v));
  as_set a v : at_set a v = store32 a (u32 v);
  as_swap a v : at_swap a v = (let* old := load32 a in store32 a (u32 v) ;;; ret (s32 old));
  as_add a d : at_add a d = (let* old := load32 a in store32 a (u32 (old + d)) ;;; ret (s32 old))
}.

Definition apart (a n b m : Z) : Prop := a + n <= b \/ b + m <= a.

(** The words of the interface lie apart. *)
Record symbols_ok (sym : spike_symbols) : Prop := {
  so_low a : a ∈ [a_tohost sym; a_fromhost sym; a_htif_lock sym; a_magic_mem sym; a_call_lock sym] -> 0 <= a /\ a + 64 < 2 ^ 48;
  so_ports : apart (a_tohost sym) 8 (a_fromhost sym) 8;
  so_lock1 : apart (a_htif_lock sym) 4 (a_tohost sym) 8 /\ apart (a_htif_lock sym) 4 (a_fromhost sym) 8;
  so_lock2 : apart (a_call_lock sym) 4 (a_tohost sym) 8 /\ apart (a_call_lock sym) 4 (a_fromhost sym) 8;
  so_locks : apart (a_htif_lock sym) 4 (a_call_lock sym) 4;
  so_magic : apart (a_magic_mem sym) 64 (a_tohost sym) 8 /\ apart (a_magic_mem sym) 64 (a_fromhost sym) 8 /\
             apart (a_magic_mem sym) 64 (a_htif_lock sym) 4 /\ apart (a_magic_mem sym) 64 (a_call_lock sym) 4
}.

Definition with_memory {S} (m : mem) (k : kmem S) : kmem S := mkKmem (heap k) m (g_kernel_pagetable k).
Definition port (sym : spike_symbols) (x : Z) : bool := inside (a_tohost sym) 8 x || inside (a_fromhost sym) 8 x.
Definition lock_word (sym : spike_symbols) (x : Z) : bool := inside (a_htif_lock sym) 4 x || inside (a_call_lock sym) 4 x.
Definition interface (sym : spike_symbols) (x : Z) : bool := port sym x || lock_word sym x || inside (a_magic_mem sym) 64 x.

(** The command of a system call whose arguments are at [a_magic_mem]. *)
Definition call_command (sym : spike_symbols) : Z := TOHOST_CMD 0 0 (a_magic_mem sym).

(** [hs_idle]: no command and no reply under way; then the host rests.
    [hs_serve k]: what the host has made of [k], where the command stands,
    when its reply appears; that is so after at most [patience] turns. *)
Class HostSpec (S : Type) `{HostMachine S} (patience : nat) (sym : spike_symbols) := {
  hs_idle : kmem S -> Prop;
  hs_serve : kmem S -> kmem S;
  hs_quiet k : hs_idle k -> host_turn k = k;
  hs_ports k : hs_idle k -> load_le 8 (a_tohost sym) (memory k) = Some 0 /\ load_le 8 (a_fromhost sym) (memory k) = Some 0;
  hs_data k m' : hs_idle k -> (forall x, port sym x = true -> m' !! x = memory k !! x) -> hs_idle (with_memory m' k);
  hs_answers k m1 : hs_idle k -> store_le 8 (a_tohost sym) (call_command sym) (memory k) = Some m1 ->
    let k2 := hs_serve (with_memory m1 k) in
    exists j v, (j <= patience)%nat /\
      (forall i, (0 < i <= j)%nat -> load_le 8 (a_fromhost sym) (memory (Nat.iter i host_turn (with_memory m1 k))) = Some 0) /\
      Nat.iter (Datatypes.S j) host_turn (with_memory m1 k) = k2 /\
      load_le 8 (a_fromhost sym) (memory k2) = Some v /\ v <> 0 /\ FROMHOST_DEV v = 0 /\ FROMHOST_CMD v = 0 /\
      (forall m2, store_le 8 (a_fromhost sym) 0 (memory k2) = Some m2 -> hs_idle (with_memory m2 k2)) /\
      (forall x, lock_word sym x = true -> memory k2 !! x = m1 !! x) /\
      (forall x, is_Some (m1 !! x) -> is_Some (memory k2 !! x))
}.

Section serving.
Context {S : Type} `{HostMachine S} `{SpikeAtomics} `{!AtomicsSpec} (patience : nat) (sym : spike_symbols) `{!HostSpec S patience sym}.
Context (Hsym : symbols_ok sym).
Implicit Types (k : kmem S) (m : mem).

Lemma with_memory_eta k : with_memory (memory k) k = k.
Proof. by destruct k. Qed.

Lemma wp_on_mem' {A} (f : M mem A) k (Q : A -> kmem S -> Prop) E :
  wp f (fun a m => Q a (with_memory m k)) (fun h m => E h (with_memory m k)) (memory k) -> wp (on_mem f) Q E k.
Proof. apply wp_zoom. Qed.

Lemma wp_put k n a v (Q : unit -> kmem S -> Prop) E : has (memory k) a (Z.of_nat n) ->
  (forall m', store_le n a v (memory k) = Some m' -> upd (memory k) m' (inside a (Z.of_nat n)) (fun x => byte_of v (x - a)) -> Q tt (with_memory m' k)) ->
  wp (on_mem (store n a v)) Q E k.
Proof. intros Hh HQ. apply wp_on_mem', wp_store; [exact Hh|]. exact HQ. Qed.

Lemma load_has n a m v : load_le n a m = Some v -> has m a (Z.of_nat n).
Proof.
  revert a v. induction n as [|n IH]; intros a v Hl x Hx; [lia|]. unfold load_le in Hl. fold load_le in Hl.
  destruct (m !! a) as [b|] eqn:Hb; [|done]. cbn in Hl. destruct (load_le n (a + 1) m) as [w|] eqn:Hw; [|done].
  destruct (decide (x = a)) as [->|]; [by eexists|]. apply (IH _ _ Hw). lia.
Qed.

Lemma wp_spinlock_lock lock k (Q : unit -> kmem S -> Prop) E : load_le 4 lock (memory k) = Some 0 ->
  (forall m', store_le 4 lock (u32 (-1)) (memory k) = Some m' -> Q tt (with_memory m' k)) -> wp (spinlock_lock patience lock) Q E k.
Proof.
  intros Hl HQ. unfold spinlock_lock. assert (Hone : forall fuel, wp (lock_loop patience fuel lock) Q E k).
  { intros fuel. destruct fuel as [|fuel]; cbn [lock_loop]; apply wp_bind.
    all: assert (Hwait : forall R : unit -> kmem S -> Prop, R tt k -> wp (lock_wait patience lock) R E k).
    1, 3: intros R HR; destruct patience; cbn [lock_wait]; apply wp_bind, wp_on_mem'; rewrite as_read; apply wp_bind; (eapply wp_load; [exact Hl|]); apply wp_ret;
      rewrite with_memory_eta; by apply wp_ret.
    all: apply Hwait, wp_bind; unfold spinlock_trylock; apply wp_on_mem'; rewrite as_swap; apply wp_bind; (eapply wp_load; [exact Hl|]);
      apply wp_bind, wp_store; [by eapply load_has|]; intros m' Hm' _; apply wp_ret; apply wp_ret; by apply HQ. }
  apply Hone.
Qed.

Lemma wp_spinlock_unlock lock k (Q : unit -> kmem S -> Prop) E : has (memory k) lock 4 ->
  (forall m', store_le 4 lock 0 (memory k) = Some m' -> Q tt (with_memory m' k)) -> wp (spinlock_unlock lock) Q E k.
Proof. intros Hh HQ. unfold spinlock_unlock. rewrite as_set. apply wp_put; [exact Hh|]. intros m' Hm' _. by apply HQ. Qed.

(** No command stands: the new one is written at once. *)
Lemma wp_set_tohost dev cmd data k (Q : unit -> kmem S -> Prop) E : hs_idle k ->
  (forall m', store_le 8 (a_tohost sym) (TOHOST_CMD dev cmd data) (memory k) = Some m' -> Q tt (with_memory m' k)) ->
  wp (__set_tohost patience sym dev cmd data) Q E k.
Proof.
  intros Hi HQ. destruct (hs_ports k Hi) as [Ht _]. unfold __set_tohost. apply wp_bind.
  assert (Hw : wp (wait_tohost sym patience) (fun _ k' => k' = k) E k).
  { destruct patience; cbn [wait_tohost]; apply wp_bind; unfold volatile64; apply wp_bind, wp_modify; rewrite (hs_quiet k Hi);
      apply wp_on_mem'; (eapply wp_load; [exact Ht|]); rewrite with_memory_eta; by apply wp_ret. }
  eapply wp_mono; [exact Hw| |done]. intros [] k' ->. apply wp_put; [by eapply load_has|]. intros m' Hm' _. by apply HQ.
Qed.

(** Polling until the reply. *)
Lemma wp_await j : forall fuel k k2 v (Q : unit -> kmem S -> Prop) E, (j <= fuel)%nat ->
  (forall i, (0 < i <= j)%nat -> load_le 8 (a_fromhost sym) (memory (Nat.iter i host_turn k)) = Some 0) ->
  Nat.iter (Datatypes.S j) host_turn k = k2 -> load_le 8 (a_fromhost sym) (memory k2) = Some v -> v <> 0 -> FROMHOST_DEV v = 0 -> FROMHOST_CMD v = 0 ->
  (forall m2, store_le 8 (a_fromhost sym) 0 (memory k2) = Some m2 -> Q tt (with_memory m2 k2)) ->
  wp (await_fromhost sym fuel 0 0) Q E k.
Proof.
  induction j as [|j IH]; intros fuel k k2 v Q E Hf Hz Hk2 Hv Hne Hd Hc HQ.
  - cbn in Hk2. destruct fuel; cbn [await_fromhost]; apply wp_bind; unfold volatile64; apply wp_bind, wp_modify; rewrite Hk2;
      apply wp_on_mem'; (eapply wp_load; [exact Hv|]); rewrite with_memory_eta, (proj2 (Z.eqb_neq _ _)) by done; rewrite Hd, Hc; cbn [Z.eqb andb];
      (apply wp_put; [by eapply load_has|]); intros m2 Hm2 _; by apply HQ.
  - destruct fuel as [|fuel]; [lia|]. cbn [await_fromhost]. apply wp_bind. unfold volatile64. apply wp_bind, wp_modify, wp_on_mem'.
    eapply wp_load; [exact (Hz 1%nat ltac:(lia))|]. rewrite with_memory_eta, Z.eqb_refl. rewrite Nat.iter_succ_r in Hk2.
    eapply (IH fuel (host_turn k) k2 v); [lia| |exact Hk2|done..]. intros i Hi. rewrite <- Nat.iter_succ_r. apply Hz. lia.
Qed.

(** *** The arguments *)
Definition words_at m (a : Z) (l : list Z) : Prop := forall (i : nat) v, l !! i = Some v -> load_le 8 (a + 8 * Z.of_nat i) m = Some v.

Lemma wp_store_words l : forall k a (Q : unit -> kmem S -> Prop) E, has (memory k) a (8 * lenZ l) -> 0 <= a -> a + 8 * lenZ l < 2 ^ 64 ->
  (forall v, v ∈ l -> is_u64 v) ->
  (forall m', words_at m' a l -> (forall x, ~ (a <= x < a + 8 * lenZ l) -> m' !! x = memory k !! x) -> (forall x, is_Some (memory k !! x) -> is_Some (m' !! x)) ->
     (bytes_ok (memory k) -> bytes_ok m') -> Q tt (with_memory m' k)) -> wp (store_words a l) Q E k.
Proof.
  induction l as [|v l IH]; intros k a Q E Hh H0' H1' Hv HQ; cbn [store_words].
  - apply wp_ret. rewrite <- (with_memory_eta k). apply HQ; [by intros i w Hi; rewrite lookup_nil in Hi|done|done|done].
  - assert (El : lenZ (v :: l) = 1 + lenZ l) by (unfold lenZ; cbn [length]; lia). assert (0 <= lenZ l) by (unfold lenZ; lia). rewrite El in *.
    apply wp_bind, wp_put; [intros x Hx; apply Hh; change (Z.of_nat 8) with 8 in Hx; lia|]. intros m1 Hs Hu. change (Z.of_nat 8) with 8 in Hu.
    assert (Hp1 : forall x, is_Some (memory k !! x) -> is_Some (m1 !! x)) by (intros x Hx; rewrite Hu; destruct (inside a 8 x); [by eexists|done]).
    rewrite u64_id by (unfold is_u64; lia). apply IH.
    + intros x Hx. apply Hp1, Hh. lia.
    + lia.
    + lia.
    + intros w Hw. apply Hv. by right.
    + intros m' Hw Hfr Hp Hby. apply HQ.
      * intros [|i] w Hi; cbn in Hi.
        -- injection Hi as <-. change (8 * Z.of_nat 0) with 0. rewrite Z.add_0_r. rewrite (load_le_ext 8 a m1 m'), (load_store_same _ _ _ _ _ Hs).
           ++ f_equal. apply Z.mod_small. by apply Hv; left.
           ++ intros x Hx. change (Z.of_nat 8) with 8 in Hx. apply Hfr. lia.
        -- replace (a + 8 * Z.of_nat (Datatypes.S i)) with (a + 8 + 8 * Z.of_nat i) by lia. by apply Hw.
      * intros x Hx. rewrite Hfr by lia. cbn [memory with_memory]. rewrite Hu. by destruct (inside_spec a 8 x); [lia|].
      * intros x Hx. by apply Hp, Hp1.
      * intros Hb. apply Hby. by apply (store_bytes_ok _ _ _ _ _ Hs).
Qed.

(** *** One command *)
(** [k3] is [k2] with the reply taken and the lock released. *)
Record replied k2 k3 : Prop := {
  rp_heap : heap k3 = heap k2;
  rp_dir : g_kernel_pagetable k3 = g_kernel_pagetable k2;
  rp_idle : hs_idle k3;
  rp_lock : load_le 4 (a_htif_lock sym) (memory k3) = Some 0;
  rp_frame x : inside (a_fromhost sym) 8 x = false -> inside (a_htif_lock sym) 4 x = false -> memory k3 !! x = memory k2 !! x;
  rp_has x : is_Some (memory k2 !! x) -> is_Some (memory k3 !! x);
  rp_bytes : bytes_ok (memory k2) -> bytes_ok (memory k3)
}.

(** What the host is given: [k] with the htif lock taken and the command. *)
Definition commanded k k1 m1 : Prop :=
  hs_idle k1 /\ heap k1 = heap k /\ g_kernel_pagetable k1 = g_kernel_pagetable k /\
  (forall x, inside (a_htif_lock sym) 4 x = false -> memory k1 !! x = memory k !! x) /\
  (forall x, is_Some (memory k !! x) -> is_Some (memory k1 !! x)) /\
  store_le 8 (a_tohost sym) (call_command sym) (memory k1) = Some m1 /\ (bytes_ok (memory k) -> bytes_ok m1).

Lemma store_frame n a v m m' x : store_le n a v m = Some m' -> inside a (Z.of_nat n) x = false -> m' !! x = m !! x.
Proof. intros Hs Hx. rewrite (store_le_lookup _ _ _ _ _ _ Hs). destruct (inside_spec a (Z.of_nat n) x); [done|]. by rewrite decide_False. Qed.
Lemma store_some n a v m m' x : store_le n a v m = Some m' -> is_Some (m !! x) -> is_Some (m' !! x).
Proof. intros Hs. by apply (store_dom _ _ _ _ _ _ Hs). Qed.

Lemma apart_outside a n b j x : apart a n b j -> inside a n x = true -> inside b j x = false.
Proof. intros Ha Hx. destruct (inside_spec a n x); [|done]. destruct (inside_spec b j x); [|done]. destruct Ha; lia. Qed.

Lemma lock_off_ports a : a ∈ [a_htif_lock sym; a_call_lock sym] -> forall x, port sym x = true -> inside a 4 x = false.
Proof.
  intros Ha x Hx. destruct (so_lock1 _ Hsym) as [A1 A2]. destruct (so_lock2 _ Hsym) as [B1 B2]. unfold port in Hx.
  destruct (inside_spec (a_tohost sym) 8 x) as [Ht|]; destruct (inside_spec (a_fromhost sym) 8 x) as [Hfr|]; try done;
    (destruct (inside_spec a 4 x); [|done]); unfold apart in *; apply elem_of_cons in Ha as [->|Ha]; [lia|apply list_elem_of_singleton in Ha as ->; lia|lia|apply list_elem_of_singleton in Ha as ->; lia|lia|apply list_elem_of_singleton in Ha as ->; lia].
Qed.

Lemma wp_htif_syscall k (Q : unit -> kmem S -> Prop) E : hs_idle k -> load_le 4 (a_htif_lock sym) (memory k) = Some 0 ->
  (forall k1 m1 k3, commanded k k1 m1 -> replied (hs_serve (with_memory m1 k1)) k3 ->
     (forall x, inside (a_call_lock sym) 4 x = true -> memory k3 !! x = memory k !! x) -> Q tt k3) ->
  wp (htif_syscall patience sym (a_magic_mem sym)) Q E k.
Proof.
  intros Hi Hl HQ. unfold htif_syscall, do_tohost_fromhost. apply wp_bind, wp_spinlock_lock; [exact Hl|]. intros m0 Hs0.
  set (k1 := with_memory m0 k).
  assert (Hi1 : hs_idle k1).
  { apply hs_data; [exact Hi|]. intros x Hx. apply (store_frame _ _ _ _ _ _ Hs0), lock_off_ports; [by left|exact Hx]. }
  apply wp_bind, wp_set_tohost; [exact Hi1|]. intros m1 Hs1. fold (call_command sym) in Hs1.
  assert (HC : commanded k k1 m1).
  { split_and!; try done; [intros x Hx; by apply (store_frame _ _ _ _ _ _ Hs0)|intros x Hx; by apply (store_some _ _ _ _ _ _ Hs0)|].
    intros Hb. by apply (store_bytes_ok _ _ _ _ _ Hs1), (store_bytes_ok _ _ _ _ _ Hs0). }
  destruct (hs_answers k1 m1 Hi1 Hs1) as (j & v & Hj & Hz & Hk2 & Hv & Hne & Hd & Hc & Hidle & Hlk & Hsome). cbv zeta in *.
  set (k2 := hs_serve (with_memory m1 k1)) in *. apply wp_bind. change (with_memory m1 (with_memory m0 k)) with (with_memory m1 k1).
  apply (wp_await j patience _ k2 v); [exact Hj|exact Hz|exact Hk2|exact Hv|exact Hne|exact Hd|exact Hc|]. intros m2 Hs2.
  assert (Hlh : has m2 (a_htif_lock sym) 4).
  { intros x Hx. apply (store_some _ _ _ _ _ _ Hs2), Hsome, (store_some _ _ _ _ _ _ Hs1), (store_some _ _ _ _ _ _ Hs0).
    eapply load_has; [exact Hl|exact Hx]. }
  apply wp_spinlock_unlock; [exact Hlh|]. intros m3 Hs3. cbn [memory with_memory] in Hs3.
  apply (HQ k1 m1 (with_memory m3 (with_memory m2 k2))); [exact HC| |].
  - split; cbn [heap g_kernel_pagetable memory with_memory]; try done.
    + apply hs_data; [by apply Hidle|]. intros x Hx. apply (store_frame _ _ _ _ _ _ Hs3), lock_off_ports; [by left|exact Hx].
    + rewrite (load_store_same _ _ _ _ _ Hs3). done.
    + intros x H1' H2'. rewrite (store_frame _ _ _ _ _ _ Hs3) by done. by apply (store_frame _ _ _ _ _ _ Hs2).
    + intros x Hx. by apply (store_some _ _ _ _ _ _ Hs3), (store_some _ _ _ _ _ _ Hs2).
    + intros Hb. by apply (store_bytes_ok _ _ _ _ _ Hs3), (store_bytes_ok _ _ _ _ _ Hs2).
  - intros x Hx. cbn [memory with_memory].
    assert (Hp : port sym x = false).
    { destruct (port sym x) eqn:Ep; [|done]. rewrite lock_off_ports in Hx; [done|by right; left|exact Ep]. }
    unfold port in Hp. apply orb_false_iff in Hp as [Hp1 Hp2].
    assert (Hlf : inside (a_htif_lock sym) 4 x = false).
    { eapply apart_outside; [|exact Hx]. pose proof (so_locks _ Hsym). unfold apart in *. lia. }
    rewrite (store_frame _ _ _ _ _ _ Hs3) by done. rewrite (store_frame _ _ _ _ _ _ Hs2) by done.
    rewrite Hlk by (unfold lock_word; by rewrite Hx, orb_true_r). rewrite (store_frame _ _ _ _ _ _ Hs1) by done.
    by apply (store_frame _ _ _ _ _ _ Hs0).
Qed.

(** *** A system call of the host *)
(** Nothing under way, the locks free, the argument words there. *)
Record ready k : Prop := {
  rd_idle : hs_idle k;
  rd_lock1 : load_le 4 (a_htif_lock sym) (memory k) = Some 0;
  rd_lock2 : load_le 4 (a_call_lock sym) (memory k) = Some 0;
  rd_magic : has (memory k) (a_magic_mem sym) 64
}.

(** The state the host's service starts from, for the arguments [args]. *)
Record asked k args k1 m1 : Prop := {
  ak_heap : heap k1 = heap k;
  ak_dir : g_kernel_pagetable k1 = g_kernel_pagetable k;
  ak_idle : hs_idle k1;
  ak_words : words_at (memory k1) (a_magic_mem sym) args;
  ak_frame x : interface sym x = false -> memory k1 !! x = memory k !! x;
  ak_has x : is_Some (memory k !! x) -> is_Some (memory k1 !! x);
  ak_command : store_le 8 (a_tohost sym) (call_command sym) (memory k1) = Some m1;
  ak_bytes : bytes_ok (memory k) -> bytes_ok m1
}.

(** The state the caller gets back, [k2] being the host's. *)
Record answered k2 r k' : Prop := {
  an_ready : ready k';
  an_heap : heap k' = heap k2;
  an_dir : g_kernel_pagetable k' = g_kernel_pagetable k2;
  an_result : exists w, load_le 8 (a_magic_mem sym) (memory k2) = Some w /\ r = s64 w;
  an_frame x : port sym x = false -> lock_word sym x = false -> memory k' !! x = memory k2 !! x;
  an_has x : is_Some (memory k2 !! x) -> is_Some (memory k' !! x);
  an_bytes : bytes_ok (memory k2) -> bytes_ok (memory k')
}.

Lemma magic_off x : inside (a_magic_mem sym) 64 x = true -> port sym x = false /\ inside (a_htif_lock sym) 4 x = false /\ inside (a_call_lock sym) 4 x = false.
Proof.
  intros Hx. destruct (so_magic _ Hsym) as (A1 & A2 & A3 & A4). unfold port.
  by rewrite (apart_outside _ _ _ _ _ A1 Hx), (apart_outside _ _ _ _ _ A2 Hx), (apart_outside _ _ _ _ _ A3 Hx), (apart_outside _ _ _ _ _ A4 Hx).
Qed.

Lemma interface_parts x : interface sym x = false ->
  port sym x = false /\ inside (a_htif_lock sym) 4 x = false /\ inside (a_call_lock sym) 4 x = false /\ inside (a_magic_mem sym) 64 x = false.
Proof. unfold interface, lock_word. intros Hx. apply orb_false_iff in Hx as [Hx H3']. apply orb_false_iff in Hx as [H1' H2']. apply orb_false_iff in H2' as [H2' H2'']. done. Qed.

(** The call lock taken and the eight words stored. *)
Lemma wp_ask k args {B} (cont : M (kmem S) B) (Q : B -> kmem S -> Prop) E : ready k -> length args = 8%nat -> (forall v, v ∈ args -> is_u64 v) ->
  (forall k0, heap k0 = heap k -> g_kernel_pagetable k0 = g_kernel_pagetable k -> hs_idle k0 -> load_le 4 (a_htif_lock sym) (memory k0) = Some 0 ->
     words_at (memory k0) (a_magic_mem sym) args -> has (memory k0) (a_call_lock sym) 4 ->
     (forall x, interface sym x = false -> memory k0 !! x = memory k !! x) -> (forall x, is_Some (memory k !! x) -> is_Some (memory k0 !! x)) ->
     (bytes_ok (memory k) -> bytes_ok (memory k0)) -> wp cont Q E k0) ->
  wp (spinlock_lock patience (a_call_lock sym) ;;; store_words (a_magic_mem sym) args ;;; cont) Q E k.
Proof.
  intros [R1 R2 R3 R4] Hlen Hv HQ. destruct (so_low _ Hsym (a_magic_mem sym)) as [M0 M1]; [do 3 right; by left|].
  apply wp_bind, wp_spinlock_lock; [exact R3|]. intros m0 Hs0.
  assert (Hp0 : forall x, is_Some (memory k !! x) -> is_Some (m0 !! x)) by (intros x; by apply (store_some _ _ _ _ _ _ Hs0)).
  apply wp_bind, wp_store_words; [|exact M0| |exact Hv|].
  { unfold lenZ. rewrite Hlen. intros x Hx. apply Hp0, R4. lia. }
  { unfold lenZ. rewrite Hlen. lia. }
  unfold lenZ. rewrite Hlen. change (8 * Z.of_nat 8) with 64. cbn [memory with_memory]. intros m1 Hw Hfr Hp1 Hby.
  assert (Hoff : forall x, inside (a_magic_mem sym) 64 x = false -> inside (a_call_lock sym) 4 x = false -> m1 !! x = memory k !! x).
  { intros x H1' H2'. rewrite Hfr by (by destruct (inside_spec (a_magic_mem sym) 64 x)). by apply (store_frame _ _ _ _ _ _ Hs0). }
  apply (HQ (with_memory m1 (with_memory m0 k))); cbn [heap g_kernel_pagetable memory with_memory]; try done.
  - apply hs_data; [apply hs_data; [exact R1|]|].
    + intros x Hx. apply (store_frame _ _ _ _ _ _ Hs0), lock_off_ports; [by right; left|exact Hx].
    + intros x Hx. apply Hfr. intros Hin. destruct (magic_off x); [by destruct (inside_spec (a_magic_mem sym) 64 x)|congruence].
  - rewrite <- R2. apply load_le_ext. intros x Hx. change (Z.of_nat 4) with 4 in Hx. destruct (so_magic _ Hsym) as (_ & _ & A3 & _).
    apply Hoff; [destruct (inside_spec (a_magic_mem sym) 64 x); [unfold apart in A3; lia|done]|].
    pose proof (so_locks _ Hsym) as A4. destruct (inside_spec (a_call_lock sym) 4 x); [unfold apart in A4; lia|done].
  - intros x Hx. apply Hp1, Hp0. by eapply load_has; [exact R3|].
  - intros x Hx. apply interface_parts in Hx as (_ & _ & H1' & H2'). by apply Hoff.
  - intros x Hx. by apply Hp1, Hp0.
  - intros Hb. by apply Hby, (store_bytes_ok _ _ _ _ _ Hs0).
Qed.

Lemma wp_frontend_syscall n a0 a1 a2 a3 a4 a5 a6 k (Q : Z -> kmem S -> Prop) E : ready k ->
  (forall k1 m1 r k', asked k [u64 n; u64 a0; u64 a1; u64 a2; u64 a3; u64 a4; u64 a5; u64 a6] k1 m1 ->
     answered (hs_serve (with_memory m1 k1)) r k' -> Q r k') ->
  wp (frontend_syscall patience sym n a0 a1 a2 a3 a4 a5 a6) Q E k.
Proof.
  intros HR HQ. unfold frontend_syscall. apply wp_ask; [exact HR|done| |].
  { intros v Hv. repeat (apply elem_of_cons in Hv as [->|Hv]; [apply u64_range|]). by apply elem_of_nil in Hv. }
  intros k0 A1 A2 A3 A4 A5 A6 A7 A8 A9. apply wp_bind, wp_htif_syscall; [exact A3|exact A4|].
  intros k1 m1 k3 (C1 & C2 & C3 & C4 & C5 & C6 & C7) [P1 P2 P3 P4 P5 P6 P7] Hcl. set (k2 := hs_serve _) in *.
  assert (HM : forall x, inside (a_magic_mem sym) 64 x = true -> memory k3 !! x = memory k2 !! x).
  { intros x Hx. destruct (magic_off x Hx) as (H1' & H2' & _). apply P5; [|exact H2']. unfold port in H1'. by apply orb_false_iff in H1' as [_ ?]. }
  assert (Hsome : forall x, is_Some (memory k0 !! x) -> is_Some (memory k3 !! x)).
  { intros x Hx. apply P6. destruct (hs_answers k1 m1 C1 C6) as (_ & _ & _ & _ & _ & _ & _ & _ & _ & _ & _ & Hs). apply Hs.
    by apply (store_some _ _ _ _ _ _ C6), C5. }
  assert (Hmg : has (memory k3) (a_magic_mem sym) 64) by (intros x Hx; apply Hsome, A8, (rd_magic _ HR); lia).
  destruct (load_le_has 8 (a_magic_mem sym) (memory k3)) as [w Hw]; [intros x Hx; apply Hmg; change (Z.of_nat 8) with 8 in Hx; lia|].
  apply wp_bind, wp_on_mem'. eapply wp_load; [exact Hw|]. rewrite with_memory_eta. apply wp_bind, wp_spinlock_unlock.
  { intros x Hx. apply Hsome, A6, Hx. }
  intros m4 Hs4. apply wp_ret. apply (HQ k1 m1).
  - split; [by rewrite C2, A1|by rewrite C3, A2|exact C1| | | |exact C6|].
    + intros i v Hi. rewrite <- (A5 i v Hi). apply load_le_ext. intros x Hx. apply C4. apply lookup_lt_Some in Hi. cbn [length] in Hi.
      change (Z.of_nat 8) with 8 in Hx. apply magic_off. destruct (inside_spec (a_magic_mem sym) 64 x); [done|lia].
    + intros x Hx. rewrite C4, A7; [done|exact Hx|]. by apply interface_parts in Hx as (_ & H2' & _).
    + intros x Hx. by apply C5, A8.
    + intros Hb. by apply C7, A9.
  - split; cbn [heap g_kernel_pagetable memory with_memory]; try done.
    + split; cbn [memory with_memory].
      * apply hs_data; [exact P3|]. intros x Hx. apply (store_frame _ _ _ _ _ _ Hs4), lock_off_ports; [by right; left|exact Hx].
      * rewrite (load_store_other _ _ _ _ _ _ _ Hs4) by (pose proof (so_locks _ Hsym) as HA; unfold apart in HA; lia). exact P4.
      * rewrite (load_store_same _ _ _ _ _ Hs4). done.
      * intros x Hx. apply (store_some _ _ _ _ _ _ Hs4), Hmg, Hx.
    + exists w. split; [|done]. rewrite <- Hw. apply load_le_ext. intros x Hx. change (Z.of_nat 8) with 8 in Hx. symmetry. apply HM.
      destruct (inside_spec (a_magic_mem sym) 64 x); [done|lia].
    + intros x H1' H2'. unfold lock_word in H2'. apply orb_false_iff in H2' as [H2' H3']. unfold port in H1'. apply orb_false_iff in H1' as [_ H1'].
      rewrite (store_frame _ _ _ _ _ _ Hs4) by done. by apply P5.
    + intros x Hx. by apply (store_some _ _ _ _ _ _ Hs4), P6.
    + intros Hb. by apply (store_bytes_ok _ _ _ _ _ Hs4), P7.
Qed.
End serving.
