(* ===== verification/SpikeFile.v ===== *)
(** * Files of the host: spike_interface/spike_file.c

    The table [spike_files] of structures and the table [spike_fds] of
    pointers, in byte memory. *)
From stdpp Require Import base gmap list strings.
From Stdlib Require Import ZArith Lia.
From S2P Require Import Prelude Riscv PmmState Mem Str Vmm ProcState Spike.

Definition MAX_FILES : Z := 128.
Definition MAX_FDS : Z := 128.
Definition INIT_FILE_REF : Z := 3.
Definition ENOMEM : Z := 12.
Definition AT_FDCWD : Z := -100.
Definition O_RDONLY : Z := 0.
(** Offsets in [spike_file_t], and its size. *)
Definition F_KFD : Z := 0.
Definition F_REFCNT : Z := 4.
Definition sizeof_spike_file : Z := 8.

Definition ERR_PTR (x : Z) : Z := u64 x.
Definition IS_ERR_VALUE (x : Z) : bool := u64 (-4096) <=? x.

(** [struct stat] is of a system header: offset and width of its fields. *)
Record stat_layout := mkStatLayout {
  st_dev : Z * nat; st_ino : Z * nat; st_mode : Z * nat; st_nlink : Z * nat; st_uid : Z * nat; st_gid : Z * nat; st_rdev : Z * nat;
  st_size : Z * nat; st_blksize : Z * nat; st_blocks : Z * nat; st_atime : Z * nat; st_mtime : Z * nat; st_ctime : Z * nat
}.
(** Offsets in [frontend_stat]. *)
Definition FS_DEV : Z := 0.
Definition FS_INO : Z := 8.
Definition FS_MODE : Z := 16.
Definition FS_NLINK : Z := 20.
Definition FS_UID : Z := 24.
Definition FS_GID : Z := 28.
Definition FS_RDEV : Z := 32.
Definition FS_SIZE : Z := 48.
Definition FS_BLKSIZE : Z := 56.
Definition FS_BLOCKS : Z := 64.
Definition FS_ATIME : Z := 72.
Definition FS_MTIME : Z := 88.
Definition FS_CTIME : Z := 104.
Definition HTIFSYS_fstat : Z := 80.

Section files.
Context {S : Type} `{Frontend S} `{Harts S} `{SpikeAtomics} (sym : spike_symbols).

Definition file_kfd (f : Z) : M (kmem S) Z :=
  let* v := on_mem (load32 (u64 (f + F_KFD))) in ret (s32 v).

(** The macro [atomic_cas] of atomic.h on a word of [n] bytes: with
    interrupts off, the old value; the store if it was [cmp]. *)
Definition irq_off : M (kmem S) Z :=
  let* fl := gets (fun s => fst (disable_irqsave (hart_of (heap s)))) in
  modify (fun s => mkKmem (with_hart (fun h => snd (disable_irqsave h)) (heap s)) (memory s) (g_kernel_pagetable s)) ;;;
  ret fl.
Definition irq_back (fl : Z) : M (kmem S) unit :=
  modify (fun s => mkKmem (with_hart (enable_irqrestore fl) (heap s)) (memory s) (g_kernel_pagetable s)).
Definition atomic_cas (n : nat) (ptr cmp swp : Z) : M (kmem S) Z :=
  let* fl := irq_off in
  let* res := on_mem (load n ptr) in
  (if res =? cmp then on_mem (store n ptr swp) else ret tt) ;;;
  irq_back fl ;;;
  ret res.

Definition spike_file_decref (f : Z) : M (kmem S) unit :=
  let* r := on_mem (at_add (u64 (f + F_REFCNT)) (-1)) in
  if r =? 2 then
    let* kfd := file_kfd f in
    on_mem (at_set (u64 (f + F_REFCNT)) 0) ;;;
    let* _ := fe_syscall HTIFSYS_close kfd 0 0 0 0 in ret tt
  else ret tt.

Definition spike_file_incref (f : Z) : M (kmem S) unit :=
  let* prev := on_mem (at_add (u64 (f + F_REFCNT)) 1) in
  kassert (0 <? prev) "prev > 0".

Definition fd_slot (fd : Z) : Z := u64 (a_spike_fds sym + 8 * fd).

Definition spike_file_close (f : Z) : M (kmem S) Z :=
  if f =? 0 then ret (-1)
  else
    let* kfd := file_kfd f in
    let* old := atomic_cas 8 (fd_slot kfd) f 0 in
    spike_file_decref f ;;;
    if negb (old =? f) then ret (-1)
    else spike_file_decref f ;;; ret 0.

Definition spike_file_write (f buf size : Z) : M (kmem S) Z :=
  let* kfd := file_kfd f in fe_syscall HTIFSYS_write kfd buf size 0 0.
Definition spike_file_pread (f buf size offset : Z) : M (kmem S) Z :=
  let* kfd := file_kfd f in fe_syscall HTIFSYS_pread kfd buf size offset 0.
Definition spike_file_read (f buf size : Z) : M (kmem S) Z :=
  let* kfd := file_kfd f in fe_syscall HTIFSYS_read kfd buf size 0 0.
Definition spike_file_lseek (f ptr dir : Z) : M (kmem S) Z :=
  let* kfd := file_kfd f in fe_syscall HTIFSYS_lseek kfd ptr dir 0 0.

(** The first file with no reference, now with INIT_FILE_REF; 0 for NULL. *)
Fixpoint get_free_loop (n : nat) (f : Z) : M (kmem S) Z :=
  match n with
  | O => ret 0
  | Datatypes.S n =>
      let* r := on_mem (at_read (u64 (f + F_REFCNT))) in
      if r =? 0 then
        let* old := atomic_cas 4 (u64 (f + F_REFCNT)) 0 INIT_FILE_REF in
        if old =? 0 then ret f else get_free_loop n (u64 (f + sizeof_spike_file))
      else get_free_loop n (u64 (f + sizeof_spike_file))
  end.
Definition spike_file_get_free : M (kmem S) Z := get_free_loop (Z.to_nat MAX_FILES) (a_spike_files sym).

Fixpoint dup_loop (n : nat) (i f : Z) : M (kmem S) Z :=
  match n with
  | O => ret (-1)
  | Datatypes.S n =>
      let* old := atomic_cas 8 (fd_slot i) 0 f in
      if old =? 0 then spike_file_incref f ;;; ret i else dup_loop n (i + 1) f
  end.
Definition spike_file_dup (f : Z) : M (kmem S) Z := dup_loop (Z.to_nat MAX_FDS) 0 f.

Fixpoint init_files_loop (n : nat) (i : Z) : M (kmem S) unit :=
  match n with
  | O => ret tt
  | Datatypes.S n =>
      let* f := spike_file_get_free in
      on_mem (store32 (u64 (f + F_KFD)) i) ;;;
      let* _ := spike_file_dup f in
      init_files_loop n (i + 1)
  end.
Definition spike_file_init : M (kmem S) unit := init_files_loop 3 0.

Definition spike_file_openat (dirfd fn flags mode : Z) : M (kmem S) Z :=
  let* f := spike_file_get_free in
  if f =? 0 then ret (ERR_PTR (- ENOMEM))
  else
    let* n := on_mem (strlen fn) in
    let* r := fe_syscall HTIFSYS_openat dirfd fn (u64 (n + 1)) flags mode in
    if 0 <=? r then on_mem (store32 (u64 (f + F_KFD)) (u32 r)) ;;; ret f
    else spike_file_decref f ;;; ret (ERR_PTR r).
Definition spike_file_open (fn flags mode : Z) : M (kmem S) Z := spike_file_openat AT_FDCWD fn flags mode.

(** [dest->field = src->field]: the bits that fit. *)
Definition copy_field (dest : Z) (field : Z * nat) (n : nat) (src : Z) : M mem unit :=
  let* v := load n src in store (snd field) (u64 (dest + fst field)) v.
Definition copy_stat (st : stat_layout) (dest src : Z) : M mem unit :=
  copy_field dest (st_dev st) 8 (u64 (src + FS_DEV)) ;;;
  copy_field dest (st_ino st) 8 (u64 (src + FS_INO)) ;;;
  copy_field dest (st_mode st) 4 (u64 (src + FS_MODE)) ;;;
  copy_field dest (st_nlink st) 4 (u64 (src + FS_NLINK)) ;;;
  copy_field dest (st_uid st) 4 (u64 (src + FS_UID)) ;;;
  copy_field dest (st_gid st) 4 (u64 (src + FS_GID)) ;;;
  copy_field dest (st_rdev st) 8 (u64 (src + FS_RDEV)) ;;;
  copy_field dest (st_size st) 8 (u64 (src + FS_SIZE)) ;;;
  copy_field dest (st_blksize st) 4 (u64 (src + FS_BLKSIZE)) ;;;
  copy_field dest (st_blocks st) 8 (u64 (src + FS_BLOCKS)) ;;;
  copy_field dest (st_atime st) 8 (u64 (src + FS_ATIME)) ;;;
  copy_field dest (st_mtime st) 8 (u64 (src + FS_MTIME)) ;;;
  copy_field dest (st_ctime st) 8 (u64 (src + FS_CTIME)).

(** [buf] is the local variable; the result of [frontend_syscall] is cut to an
    int, and the copy is made whether or not the call failed. *)
Definition spike_file_stat (st : stat_layout) (buf f s : Z) : M (kmem S) Z :=
  let* kfd := file_kfd f in
  let* r := fe_syscall HTIFSYS_fstat kfd buf 0 0 0 in
  on_mem (copy_stat st s buf) ;;;
  ret (s32 r).
End files.

(** atomic.h: a lock taken with interrupts off. *)
Section irq_locks.
Context {S : Type} `{HostMachine S} `{Harts S} `{SpikeAtomics} (patience : nat).
Definition spinlock_lock_irqsave (lock : Z) : M (kmem S) Z :=
  let* flags := irq_off in
  spinlock_lock patience lock ;;;
  ret flags.
Definition spinlock_unlock_irqrestore (lock flags : Z) : M (kmem S) unit :=
  spinlock_unlock lock ;;;
  irq_back flags.
End irq_locks.
