(* ===== verification/SpikeFileProofs.v ===== *)
(** * Files of the host: the two tables of spike_interface/spike_file.c

    The tables as functions of the index, and what the operations that search
    them do to these functions. *)
From stdpp Require Import base gmap list strings.
From Stdlib Require Import ZArith Lia.
From S2P Require Import Prelude Riscv PmmState Mem Str PmmProofs Vmm ProcState SchedProofs Spike SpikeProofs SpikeFile.

#[local] Arguments load_le : simpl never.
#[local] Arguments store_le : simpl never.

(** Every [stride] bytes from [b] on, a word of [w] bytes: [f i] at index [i]. *)
Definition column (m : mem) (b stride : Z) (w : nat) (n : Z) (f : Z -> Z) : Prop :=
  forall i, 0 <= i < n -> load_le w (b + stride * i) m = Some (f i).
Definition put_at (j v : Z) (f : Z -> Z) (i : Z) : Z := if i =? j then v else f i.

Lemma column_store m m' b stride w n f j v :
  Z.of_nat w <= stride -> column m b stride w n f -> 0 <= v < 2 ^ (8 * Z.of_nat w) ->
  store_le w (b + stride * j) v m = Some m' -> column m' b stride w n (put_at j v f).
Proof.
  intros Hw Hc Hv Hs i Hi. unfold put_at. destruct (Z.eqb_spec i j) as [->|Hij].
  - rewrite (load_store_same _ _ _ _ _ Hs). f_equal. by apply Z.mod_small.
  - rewrite (load_store_other _ _ _ _ _ w (b + stride * i) Hs) by nia. by apply Hc.
Qed.

Lemma column_apart m m' b stride w n f k a v :
  column m b stride w n f -> (forall i, 0 <= i < n -> apart (b + stride * i) (Z.of_nat w) a (Z.of_nat k)) ->
  store_le k a v m = Some m' -> column m' b stride w n f.
Proof. intros Hc Ha Hs i Hi. rewrite (load_store_other _ _ _ _ _ w (b + stride * i) Hs); [by apply Hc|]. apply (Ha i Hi). Qed.

(** Interrupts off and on again: no change of the hart. *)
Class HartsLens (S : Type) `{Harts S} : Prop := {
  hl_get (f : hart -> hart) (s : S) : hart_of (with_hart f s) = f (hart_of s);
  hl_id (f : hart -> hart) (s : S) : f (hart_of s) = hart_of s -> with_hart f s = s;
  hl_twice (f g : hart -> hart) (s : S) : with_hart g (with_hart f s) = with_hart (fun h => g (f h)) s
}.
#[export] Instance pmm_harts_lens : HartsLens pmm_state.
Proof. split; [done| |done]. intros f [] E. unfold with_hart, pmm_harts, set_cpu in *. cbn in *. by rewrite E. Qed.

(** The tables: descriptor and count of each file, file of each slot. *)
Record file_tables (sym : spike_symbols) (m : mem) (kfd ref fds : Z -> Z) : Prop := {
  ft_kfd : column m (a_spike_files sym + F_KFD) sizeof_spike_file 4 MAX_FILES kfd;
  ft_ref : column m (a_spike_files sym + F_REFCNT) sizeof_spike_file 4 MAX_FILES ref;
  ft_fds : column m (a_spike_fds sym) 8 8 MAX_FDS fds
}.
Record tables_placed (sym : spike_symbols) : Prop := {
  tp_files : 0 < a_spike_files sym /\ a_spike_files sym + sizeof_spike_file * MAX_FILES < 2 ^ 64;
  tp_fds : 0 <= a_spike_fds sym /\ a_spike_fds sym + 8 * MAX_FDS < 2 ^ 64;
  tp_apart : apart (a_spike_files sym) (sizeof_spike_file * MAX_FILES) (a_spike_fds sym) (8 * MAX_FDS)
}.
Definition file_at (sym : spike_symbols) (i : Z) : Z := a_spike_files sym + sizeof_spike_file * i.

(** Outside the two tables. *)
Definition outside_files (sym : spike_symbols) (x : Z) : Prop :=
  inside (a_spike_files sym) (sizeof_spike_file * MAX_FILES) x = false /\ inside (a_spike_fds sym) (8 * MAX_FDS) x = false.

Lemma file_tables_ext sym m m' kfd ref fds :
  (forall x, m' !! x = m !! x \/ outside_files sym x) -> file_tables sym m kfd ref fds -> file_tables sym m' kfd ref fds.
Proof.
  intros Hx [T1 T2 T3]. unfold outside_files in Hx. split; intros i Hi; unfold F_KFD, F_REFCNT, sizeof_spike_file, MAX_FILES, MAX_FDS in *.
  1: rewrite <- (T1 i Hi). 2: rewrite <- (T2 i Hi). 3: rewrite <- (T3 i Hi).
  all: apply load_le_ext; intros x Hr; destruct (Hx x) as [|[Ha Hb]]; [done|].
  1, 2: by destruct (inside_spec (a_spike_files sym) (8 * 128) x); [|lia].
  by destruct (inside_spec (a_spike_fds sym) (8 * 128) x); [|lia].
Qed.

Section tables.
Context {S : Type} `{Harts S} `{!HartsLens S} `{SpikeAtomics} `{!AtomicsSpec} (sym : spike_symbols) (Hp : tables_placed sym).
Implicit Types (k : kmem S) (kfd ref fds : Z -> Z).

(** [k'] is [k] with other tables. *)
Record retabled k k' kfd ref fds : Prop := {
  rt_tables : file_tables sym (memory k') kfd ref fds;
  rt_heap : heap k' = heap k;
  rt_dir : g_kernel_pagetable k' = g_kernel_pagetable k;
  rt_frame x : outside_files sym x -> memory k' !! x = memory k !! x;
  rt_bytes : bytes_ok (memory k) -> bytes_ok (memory k');
  rt_has x : is_Some (memory k !! x) -> is_Some (memory k' !! x)
}.

Lemma retabled_refl k kfd ref fds : file_tables sym (memory k) kfd ref fds -> retabled k k kfd ref fds.
Proof. by split. Qed.
Lemma retabled_trans k1 k2 k3 kfd ref fds kfd' ref' fds' :
  retabled k1 k2 kfd ref fds -> retabled k2 k3 kfd' ref' fds' -> retabled k1 k3 kfd' ref' fds'.
Proof.
  intros [A1 A2 A3 A4 A5 A6] [B1 B2 B3 B4 B5 B6]. split; [done|congruence|congruence|intros x Hx; rewrite B4, A4 by done; done|auto|auto].
Qed.

Lemma irq_cycle (s : S) (h : hart) : h = hart_of s ->
  with_hart (enable_irqrestore (fst (disable_irqsave h))) (with_hart (fun h => snd (disable_irqsave h)) s) = s.
Proof.
  intros ->. rewrite hl_twice. apply hl_id. pose proof (irq_roundtrip (hart_of s)) as Hr. by destruct (disable_irqsave (hart_of s)).
Qed.

Lemma wp_atomic_cas n ptr cmp swp v k (Q : Z -> kmem S -> Prop) E :
  load_le n ptr (memory k) = Some v ->
  (v = cmp -> forall m', store_le n ptr swp (memory k) = Some m' -> Q v (with_memory m' k)) -> (v <> cmp -> Q v k) ->
  wp (atomic_cas n ptr cmp swp) Q E k.
Proof.
  intros Hl Hyes Hno. unfold atomic_cas, irq_off, irq_back. apply wp_bind, wp_bind, wp_gets, wp_bind, wp_modify, wp_ret.
  apply wp_bind, wp_on_mem'. eapply wp_load; [exact Hl|]. rewrite with_memory_eta. cbn [memory heap g_kernel_pagetable]. apply wp_bind.
  destruct (Z.eqb_spec v cmp) as [E0|E0].
  - apply wp_put; [by eapply load_has|]. intros m' Hs _. apply wp_bind, wp_modify, wp_ret. cbn [heap memory g_kernel_pagetable with_memory].
    rewrite irq_cycle by done. by apply (Hyes E0 m').
  - apply wp_ret, wp_bind, wp_modify, wp_ret. cbn [heap memory g_kernel_pagetable]. rewrite irq_cycle by done. destruct k. by apply Hno.
Qed.

(** *** One store into one table *)
Lemma table_addr (i : Z) off w : 0 <= i < MAX_FILES -> 0 <= off -> off + w <= sizeof_spike_file ->
  apart (a_spike_files sym + off + sizeof_spike_file * i) w (a_spike_fds sym) (8 * MAX_FDS).
Proof. destruct Hp as [_ _ Ha]. unfold apart, sizeof_spike_file, MAX_FILES, MAX_FDS in *. lia. Qed.

Lemma retabled_store k n a v m' kfd ref fds :
  store_le n a v (memory k) = Some m' -> file_tables sym m' kfd ref fds -> (forall x, outside_files sym x -> inside a (Z.of_nat n) x = false) ->
  retabled k (with_memory m' k) kfd ref fds.
Proof.
  intros Hs HT Ho. split; [exact HT|done|done| | |].
  - intros x Hx. by apply (store_frame _ _ _ _ _ _ Hs), Ho.
  - by apply (store_bytes_ok _ _ _ _ _ Hs).
  - intros x. apply (store_some _ _ _ _ _ _ Hs).
Qed.

Lemma off_files x j off n : outside_files sym x -> 0 <= j < MAX_FILES -> 0 <= off -> off + n <= sizeof_spike_file ->
  inside (a_spike_files sym + off + sizeof_spike_file * j) n x = false.
Proof.
  intros [Hx _] Hj Ho Hn. destruct (inside_spec (a_spike_files sym) (sizeof_spike_file * MAX_FILES) x); [done|].
  destruct (inside_spec (a_spike_files sym + off + sizeof_spike_file * j) n x); [|done]. unfold sizeof_spike_file, MAX_FILES in *. lia.
Qed.

Lemma retabled_file k kfd ref fds off j v m' : file_tables sym (memory k) kfd ref fds -> 0 <= j < MAX_FILES ->
  off = F_KFD \/ off = F_REFCNT -> 0 <= v < 2 ^ 32 -> store_le 4 (file_at sym j + off) v (memory k) = Some m' ->
  retabled k (with_memory m' k) (if off =? F_KFD then put_at j v kfd else kfd) (if off =? F_KFD then ref else put_at j v ref) fds.
Proof.
  intros [T1 T2 T3] Hj Ho Hv Hs. replace (file_at sym j + off) with (a_spike_files sym + off + sizeof_spike_file * j) in Hs by (unfold file_at; lia).
  assert (Hapart : forall i : Z, 0 <= i < MAX_FDS -> apart (a_spike_fds sym + 8 * i) (Z.of_nat 8) (a_spike_files sym + off + sizeof_spike_file * j) (Z.of_nat 4)).
  { intros i Hi. pose proof (table_addr j off 4 Hj) as Ha. unfold apart, sizeof_spike_file, F_KFD, F_REFCNT, MAX_FDS in *. lia. }
  unfold F_KFD, F_REFCNT, sizeof_spike_file in *.
  eapply retabled_store; [exact Hs| |intros x Hx; apply (off_files x j off); [exact Hx|exact Hj|lia|unfold sizeof_spike_file; lia]].
  destruct Ho as [-> | ->]; cbn [Z.eqb]; split; unfold F_KFD, F_REFCNT, sizeof_spike_file in *;
    try (eapply column_apart; [ | |exact Hs]; [eassumption|first [exact Hapart|intros i Hi; unfold apart; lia]]).
  - eapply column_store; [|exact T1|exact Hv|exact Hs]; lia.
  - eapply column_store; [|exact T2|exact Hv|exact Hs]; lia.
Qed.

Lemma retabled_slot k kfd ref fds j v m' : file_tables sym (memory k) kfd ref fds -> 0 <= j < MAX_FDS ->
  0 <= v < 2 ^ 64 -> store_le 8 (a_spike_fds sym + 8 * j) v (memory k) = Some m' -> retabled k (with_memory m' k) kfd ref (put_at j v fds).
Proof.
  intros [T1 T2 T3] Hj Hv Hs.
  assert (Hapart : forall i off : Z, 0 <= i < MAX_FILES -> 0 <= off <= 4 ->
    apart (a_spike_files sym + off + sizeof_spike_file * i) (Z.of_nat 4) (a_spike_fds sym + 8 * j) (Z.of_nat 8)).
  { intros i off Hi Ho. pose proof (table_addr i off 4 Hi) as Ha. unfold apart, sizeof_spike_file, MAX_FDS in *. lia. }
  eapply retabled_store; [exact Hs| |].
  - split; [eapply column_apart; [exact T1| |exact Hs]|eapply column_apart; [exact T2| |exact Hs]|eapply column_store; [|exact T3|exact Hv|exact Hs]; lia];
      intros i Hi; apply Hapart; unfold F_KFD, F_REFCNT; lia.
  - intros x [_ Hx]. destruct (inside_spec (a_spike_fds sym) (8 * MAX_FDS) x); [done|].
    destruct (inside_spec (a_spike_fds sym + 8 * j) (Z.of_nat 8) x); [|done]. unfold MAX_FDS in *. lia.
Qed.

(** *** The searches *)
Lemma file_field i off : 0 <= i < MAX_FILES -> 0 <= off < sizeof_spike_file -> u64 (file_at sym i + off) = file_at sym i + off.
Proof. destruct Hp as [Hf _ _]. intros Hi Ho. apply u64_id. unfold is_u64, file_at, sizeof_spike_file, MAX_FILES in *. lia. Qed.

Lemma ref_load k kfd ref fds i : file_tables sym (memory k) kfd ref fds -> 0 <= i < MAX_FILES ->
  load_le 4 (file_at sym i + F_REFCNT) (memory k) = Some (ref i).
Proof. intros HT Hi. rewrite <- (ft_ref _ _ _ _ _ HT i Hi). f_equal. unfold file_at. lia. Qed.
Lemma slot_addr i : 0 <= i < MAX_FDS -> fd_slot sym i = a_spike_fds sym + 8 * i.
Proof. destruct Hp as [_ Hf _]. intros Hi. unfold fd_slot. apply u64_id. unfold is_u64, MAX_FDS in *. lia. Qed.

(** The first file without a reference gets INIT_FILE_REF. *)
Lemma wp_get_free_loop n : forall i k kfd ref fds (Q : Z -> kmem S -> Prop) E,
  file_tables sym (memory k) kfd ref fds -> bytes_ok (memory k) -> 0 <= i -> i + Z.of_nat n = MAX_FILES ->
  (forall j k', i <= j < MAX_FILES -> ref j = 0 -> (forall l, i <= l < j -> ref l <> 0) ->
     retabled k k' kfd (put_at j INIT_FILE_REF ref) fds -> Q (file_at sym j) k') ->
  ((forall j, i <= j < MAX_FILES -> ref j <> 0) -> Q 0 k) -> wp (get_free_loop n (file_at sym i)) Q E k.
Proof.
  induction n as [|n IH]; intros i k kfd ref fds Q E HT Hb Hi Hn Hone Hnone; cbn [get_free_loop].
  { apply wp_ret, Hnone. lia. }
  assert (Hi2 : 0 <= i < MAX_FILES) by lia. pose proof (ref_load _ _ _ _ _ HT Hi2) as Hl. pose proof (load_le_range _ _ _ _ Hb Hl) as Hr.
  change (2 ^ (8 * Z.of_nat 4)) with (2 ^ 32) in Hr.
  assert (Hnext : ref i <> 0 -> wp (get_free_loop n (u64 (file_at sym i + sizeof_spike_file))) Q E k).
  { intros Hne. replace (u64 (file_at sym i + sizeof_spike_file)) with (file_at sym (i + 1)).
    2: { destruct Hp as [Hf _ _]. rewrite u64_id; unfold is_u64, file_at, sizeof_spike_file, MAX_FILES in *; lia. }
    apply (IH (i + 1) k kfd ref fds); [exact HT|exact Hb|lia|lia| |].
    - intros j k' Hj Hz Hl' HR. apply (Hone j k'); [lia|exact Hz| |exact HR]. intros l Hll. destruct (decide (l = i)) as [->|]; [done|]. apply Hl'. lia.
    - intros Hall. apply Hnone. intros j Hj. destruct (decide (j = i)) as [->|]; [done|]. apply Hall. lia. }
  rewrite (file_field i F_REFCNT Hi2) by (unfold F_REFCNT, sizeof_spike_file; lia).
  apply wp_bind, wp_on_mem'. rewrite as_read. apply wp_bind. eapply wp_load; [exact Hl|]. apply wp_ret. rewrite with_memory_eta.
  destruct (Z.eqb_spec (ref i) 0) as [E0|E0].
  - rewrite E0. change (s32 0 =? 0) with true. cbv iota. apply wp_bind. eapply wp_atomic_cas; [exact Hl| |by rewrite E0].
    intros _ m' Hs. rewrite E0, Z.eqb_refl. apply wp_ret. apply (Hone i); [lia|exact E0|lia|].
    eapply (retabled_file _ _ _ _ F_REFCNT i INIT_FILE_REF m' HT Hi2); [by right|done|exact Hs].
  - rewrite (proj2 (Z.eqb_neq _ 0)) by (unfold s32; zlia). by apply Hnext.
Qed.

(** The first empty slot gets the file, which gets one more reference. *)
Lemma wp_dup_loop n : forall i k kfd ref fds fi (Q : Z -> kmem S -> Prop) E,
  file_tables sym (memory k) kfd ref fds -> 0 <= i -> i + Z.of_nat n = MAX_FDS ->
  0 <= fi < MAX_FILES -> 0 < ref fi < 2 ^ 31 - 1 ->
  (forall j k', i <= j < MAX_FDS -> fds j = 0 -> (forall l, i <= l < j -> fds l <> 0) ->
     retabled k k' kfd (put_at fi (ref fi + 1) ref) (put_at j (file_at sym fi) fds) -> Q j k') ->
  ((forall j, i <= j < MAX_FDS -> fds j <> 0) -> Q (-1) k) -> wp (dup_loop sym n i (file_at sym fi)) Q E k.
Proof.
  induction n as [|n IH]; intros i k kfd ref fds fi Q E HT Hi Hn Hfi Href Hone Hnone; cbn [dup_loop].
  { apply wp_ret, Hnone. lia. }
  assert (Hi2 : 0 <= i < MAX_FDS) by lia. pose proof (ft_fds _ _ _ _ _ HT i Hi2) as Hl. rewrite (slot_addr i Hi2).
  apply wp_bind. eapply wp_atomic_cas; [exact Hl| |].
  - intros E0 m' Hs. rewrite E0, Z.eqb_refl.
    assert (Hf64 : 0 <= file_at sym fi < 2 ^ 64).
    { destruct Hp as [Hf _ _]. unfold file_at, sizeof_spike_file, MAX_FILES in *. lia. }
    pose proof (retabled_slot _ _ _ _ i (file_at sym fi) m' HT Hi2 Hf64 Hs) as HR.
    apply wp_bind. unfold spike_file_incref. rewrite (file_field fi F_REFCNT Hfi) by (unfold F_REFCNT, sizeof_spike_file; lia).
    apply wp_bind, wp_on_mem'. rewrite as_add. pose proof (ref_load _ _ _ _ _ (rt_tables _ _ _ _ _ HR) Hfi) as Hl2. apply wp_bind. eapply wp_load; [exact Hl2|].
    apply wp_bind, wp_store; [by eapply load_has|]. intros m2 Hs2 _. apply wp_ret. rewrite s32_id by lia. apply wp_kassert; [apply Z.ltb_lt; lia|]. apply wp_ret.
    rewrite (Z.mod_small (ref fi + 1) (2 ^ 32) ltac:(lia) : u32 (ref fi + 1) = ref fi + 1) in Hs2.
    apply (Hone i); [lia|exact E0|lia|]. eapply retabled_trans; [exact HR|].
    eapply (retabled_file _ _ _ _ F_REFCNT fi (ref fi + 1) m2 (rt_tables _ _ _ _ _ HR) Hfi); [by right|lia|exact Hs2].
  - intros Hne. rewrite (proj2 (Z.eqb_neq _ 0)) by done. apply (IH (i + 1) k kfd ref fds fi); [exact HT|lia|lia|exact Hfi|exact Href| |].
    + intros j k' Hj Hz Hl' HR. apply (Hone j k'); [lia|exact Hz| |exact HR]. intros l Hll. destruct (decide (l = i)) as [->|]; [done|]. apply Hl'. lia.
    + intros Hall. apply Hnone. intros j Hj. destruct (decide (j = i)) as [->|]; [done|]. apply Hall. lia.
Qed.

(** *** stdin, stdout, stderr *)
(** The first [n] files are open as descriptors 0, 1, .. of the host. *)
Definition opened (n : Z) kfd ref fds kfd0 ref0 fds0 : Prop := forall j, 0 <= j ->
  (j < n -> kfd j = j /\ ref j = INIT_FILE_REF + 1 /\ fds j = file_at sym j) /\
  (n <= j -> kfd j = kfd0 j /\ ref j = ref0 j /\ fds j = fds0 j).

Lemma opened_next i kfd ref fds kfd0 ref0 fds0 : 0 <= i -> opened i kfd ref fds kfd0 ref0 fds0 ->
  opened (i + 1) (put_at i i kfd) (put_at i (INIT_FILE_REF + 1) (put_at i INIT_FILE_REF ref)) (put_at i (file_at sym i) fds) kfd0 ref0 fds0.
Proof.
  intros Hi HO j Hj. unfold put_at. destruct (Z.eqb_spec j i) as [->|Hne]; [split; [done|lia]|].
  destruct (HO j Hj) as [Hlt1 Hge1]. split; intros Hlt; [apply Hlt1; lia|apply Hge1; lia].
Qed.

Lemma wp_init_files n : forall i k kfd ref fds kfd0 ref0 fds0 (Q : unit -> kmem S -> Prop) E,
  file_tables sym (memory k) kfd ref fds -> bytes_ok (memory k) -> 0 <= i -> i + Z.of_nat n <= 3 -> opened i kfd ref fds kfd0 ref0 fds0 ->
  (forall j, 0 <= j < 3 -> ref0 j = 0 /\ fds0 j = 0) ->
  (forall k' kfd' ref' fds', retabled k k' kfd' ref' fds' -> opened (i + Z.of_nat n) kfd' ref' fds' kfd0 ref0 fds0 -> Q tt k') ->
  wp (init_files_loop sym n i) Q E k.
Proof.
  induction n as [|n IH]; intros i k kfd ref fds kfd0 ref0 fds0 Q E HT Hb Hi Hn HO Hz HQ; cbn [init_files_loop].
  { apply wp_ret, (HQ k kfd ref fds); [by apply retabled_refl|]. by rewrite Z.add_0_r. }
  assert (Hi2 : 0 <= i < MAX_FILES) by (unfold MAX_FILES; lia). assert (Hlow : forall l, 0 <= l < i -> ref l <> 0 /\ fds l <> 0).
  { intros l Hl. destruct (HO l ltac:(lia)) as [(_ & -> & ->) _]; [lia|]. split; [done|]. destruct Hp as [Hf _ _]. unfold file_at, sizeof_spike_file in *. lia. }
  destruct (proj2 (HO i Hi) ltac:(lia)) as (_ & Eref & Efds). destruct (Hz i ltac:(lia)) as [Z1 Z2]. rewrite Z1 in Eref. rewrite Z2 in Efds.
  apply wp_bind. unfold spike_file_get_free. replace (a_spike_files sym) with (file_at sym 0) by (unfold file_at; lia).
  apply (wp_get_free_loop (Z.to_nat MAX_FILES) 0 k kfd ref fds); [exact HT|exact Hb|lia|done| |intros Hall; by destruct (Hall i Hi2)].
  intros j k1 Hj Hrj Hfirst HR1.
  assert (j = i) as -> by (destruct (Z.lt_trichotomy j i) as [Hc|[Hc|Hc]]; [by destruct (Hlow j ltac:(lia))|done|by destruct (Hfirst i ltac:(lia))]).
  apply wp_bind. rewrite (file_field i F_KFD Hi2) by (unfold F_KFD, sizeof_spike_file; lia).
  apply wp_put. { pose proof (ft_kfd _ _ _ _ _ (rt_tables _ _ _ _ _ HR1) i Hi2) as Hl. eapply load_has. rewrite <- Hl. f_equal. unfold file_at. lia. }
  intros m2 Hs2 _. pose proof (retabled_file _ _ _ _ F_KFD i i m2 (rt_tables _ _ _ _ _ HR1) Hi2 (or_introl eq_refl) ltac:(unfold MAX_FILES in Hi2; lia) Hs2) as HR2.
  apply wp_bind. unfold spike_file_dup.
  apply (wp_dup_loop (Z.to_nat MAX_FDS) 0 _ _ _ _ i _ _ (rt_tables _ _ _ _ _ HR2)); [lia|done|exact Hi2| | |].
  1: cbn; unfold put_at; rewrite Z.eqb_refl; unfold INIT_FILE_REF; lia.
  2: { intros Hall. by destruct (Hall i); [unfold MAX_FDS; lia|]. }
  intros j k3 Hj3 Hfj Hfirst3 HR3.
  assert (j = i) as -> by (destruct (Z.lt_trichotomy j i) as [Hc|[Hc|Hc]]; [by destruct (Hlow j ltac:(lia))|done|by destruct (Hfirst3 i ltac:(lia))]).
  pose proof (retabled_trans _ _ _ _ _ _ _ _ _ (retabled_trans _ _ _ _ _ _ _ _ _ HR1 HR2) HR3) as HR.
  eapply (IH (i + 1)); [exact (rt_tables _ _ _ _ _ HR)|by apply (rt_bytes _ _ _ _ _ HR)|lia|lia| |exact Hz|].
  - change (F_KFD =? F_KFD) with true. cbv iota. replace (put_at i INIT_FILE_REF ref i + 1) with (INIT_FILE_REF + 1) by (unfold put_at; by rewrite Z.eqb_refl).
    by apply opened_next.
  - intros k' kfd' ref' fds' HR' HO'. apply (HQ k' kfd' ref' fds'); [by eapply retabled_trans|]. by replace (i + Z.of_nat (Datatypes.S n)) with (i + 1 + Z.of_nat n) by lia.
Qed.

Lemma wp_spike_file_init k kfd0 ref0 fds0 (Q : unit -> kmem S -> Prop) E :
  file_tables sym (memory k) kfd0 ref0 fds0 -> bytes_ok (memory k) -> (forall j, 0 <= j < 3 -> ref0 j = 0 /\ fds0 j = 0) ->
  (forall k' kfd ref fds, retabled k k' kfd ref fds -> opened 3 kfd ref fds kfd0 ref0 fds0 -> Q tt k') ->
  wp (spike_file_init sym) Q E k.
Proof.
  intros HT Hb Hz HQ. unfold spike_file_init. eapply (wp_init_files 3 0); [exact HT|exact Hb|lia|lia| |exact Hz|exact HQ].
  intros j Hj. split; [lia|done].
Qed.
End tables.
