(* ===== verification/Console.v ===== *)
(** * Console output and termination: spike_interface/spike_utils.c,
    [htif_poweroff] of spike_htif.c

    The 256-byte buffers on the kernel stack and the string literals are at
    given addresses.  Variadic arguments are the list of the register values
    that the callee reads. *)
From stdpp Require Import base gmap list strings.
From Stdlib Require Import ZArith Lia.
From S2P Require Import Prelude Riscv PmmState Mem Str Snprintf Vmm ProcState Spike SpikeFile.

(** Where the literals are, and the buffers of [sprint] and [vprintm]. *)
Record console := mkConsole {
  l_shutdown : Z;    (* "System is shutting down with exit code %d.\n" *)
  l_poweroff : Z;    (* "Power off\r\n" *)
  l_assertion : Z;   (* "assertion failed @ %p: %s\n" *)
  l_die : Z;         (* "%s:%d: assertion failed: %s\n" *)
  l_file : Z;        (* __FILE__ of spike_utils.c *)
  l_htif : Z;        (* "htif" *)
  a_out : Z
}.

Section console.
Context {S : Type} `{HostMachine S} `{Frontend S} `{SpikeAtomics} (patience : nat) (sym : spike_symbols) (con : console) (htif : Z).

(** spike_file.h *)
Definition stderr : Z := u64 (a_spike_files sym + sizeof_spike_file * 2).

Definition mcall_console_putchar (ch : Z) : M (kmem S) Z :=
  (if negb (htif =? 0) then htif_console_putchar patience sym (u8 ch) else ret tt) ;;; ret 0.

(** [vprintk], as [printk] and [sprint] call it. *)
Definition print_to_stderr (s : Z) (vl : list Z) : M (kmem S) unit :=
  let* res := on_mem (vsnprintf (a_out con) 256 s vl) in
  let* _ := spike_file_write stderr (a_out con) (if u64 res <? 256 then u64 res else 256) in
  ret tt.
Definition printk (s : Z) (vl : list Z) : M (kmem S) unit := print_to_stderr s vl.
Definition sprint (s : Z) (vl : list Z) : M (kmem S) unit := print_to_stderr s vl.

(** [while ( *s) mcall_console_putchar( *s++);] *)
Fixpoint putstring_loop (fuel : nat) (s : Z) : M (kmem S) unit :=
  match fuel with
  | O => halt OutOfFuel
  | Datatypes.S fuel =>
      let* c := on_mem (load8 s) in
      if c =? 0 then ret tt
      else let* _ := mcall_console_putchar c in putstring_loop fuel (u64 (s + 1))
  end.
Definition putstring (s : Z) : M (kmem S) unit :=
  let* f := on_mem scan_fuel in putstring_loop f s.
Definition vprintm (s : Z) (vl : list Z) : M (kmem S) unit :=
  let* _ := on_mem (vsnprintf (a_out con) 256 s vl) in putstring (a_out con).

(** [while (1) { fromhost = 0; tohost = 1; }], as often as anybody looks. *)
Fixpoint htif_poweroff (fuel : nat) : M (kmem S) unit :=
  on_mem (store64 (a_fromhost sym) 0) ;;;
  on_mem (store64 (a_tohost sym) 1) ;;;
  modify host_turn ;;;
  match fuel with
  | O => halt (Spins "htif_poweroff")
  | Datatypes.S fuel => htif_poweroff fuel
  end.

(** [assert(htif)] is [die], which calls [poweroff] again. *)
Fixpoint poweroff (fuel : nat) (code : Z) : M (kmem S) unit :=
  (if htif =? 0 then
     sprint (l_die con) [l_file con; 84; l_htif con] ;;;
     match fuel with
     | O => halt (Spins "poweroff")
     | Datatypes.S fuel => poweroff fuel 65535
     end
   else ret tt) ;;;
  sprint (l_poweroff con) [] ;;;
  if negb (htif =? 0) then htif_poweroff patience else halt (Spins "wfi").

Definition shutdown (code : Z) : M (kmem S) unit :=
  sprint (l_shutdown con) [u64 code] ;;;
  let* _ := fe_syscall HTIFSYS_exit code 0 0 0 0 in
  halt (Spins "shutdown").

(** [sprint(s, vl)]: what it finds as its arguments are [va], the va_list
    itself, and what the other argument registers hold. *)
Definition do_panic (s va : Z) (stray : list Z) : M (kmem S) unit :=
  sprint s (va :: stray) ;;; shutdown (-1).
Definition kassert_fail (s va : Z) (stray : list Z) : M (kmem S) unit :=
  do_panic (l_assertion con) va stray ;;; shutdown (-1).
End console.

(** ** What the host promises: stderr shows what is written, exit ends *)
Class ConsoleHost (S : Type) `{Frontend S} := {
  ch_idle : kmem S -> Prop;
  ch_scratch : Z -> bool;
  ch_text : S -> list Z;
  ch_idle_ext k k' : ch_idle k -> heap k' = heap k -> (forall x, ch_scratch x = true -> memory k' !! x = memory k !! x) -> ch_idle k';
  ch_write k buf l : ch_idle k -> (forall (i : nat) c, l !! i = Some c -> memory k !! (buf + Z.of_nat i) = Some c) ->
    wp (fe_syscall HTIFSYS_write 2 buf (Z.of_nat (length l)) 0 0)
       (fun _ k' => ch_idle k' /\ ch_text (heap k') = ch_text (heap k) ++ l /\
          forall x, ch_scratch x = false -> memory k' !! x = memory k !! x) no_stop k;
  ch_exit k code : ch_idle k ->
    wp (fe_syscall HTIFSYS_exit code 0 0 0 0) (fun _ _ => False)
       (fun h k' => h = ShutDown code /\ ch_text (heap k') = ch_text (heap k)) k
}.

(** The characters of [r] that reach stderr. *)
Definition shown (r : list Z) : list Z := if Z.of_nat (length r) <? 256 then r else truncated 256 r.

Definition shutdown_text : list Z :=
  [83; 121; 115; 116; 101; 109; 32; 105; 115; 32; 115; 104; 117; 116; 116; 105; 110; 103; 32; 100; 111; 119; 110; 32; 119; 105; 116; 104; 32;
   101; 120; 105; 116; 32; 99; 111; 100; 101; 32; 37; 100; 46; 10].

(** What the buffer holds after formatting. *)
Lemma truncated_length r : Z.of_nat (length (truncated 256 r)) = Z.min 256 (Z.of_nat (length r) + 1).
Proof. unfold truncated. cbn [Z.eqb]. rewrite length_app, length_take. cbn [length]. lia. Qed.
Lemma shown_buffer m m1 out r :
  upd m m1 (inside out (Z.of_nat (length (truncated 256 r)))) (fun x => nth (Z.to_nat (x - out)) (truncated 256 r) 0) ->
  (if Z.of_nat (length r) <? 256 then Z.of_nat (length r) else 256) = Z.of_nat (length (shown r)) /\
  forall (i : nat) c, shown r !! i = Some c -> m1 !! (out + Z.of_nat i) = Some c.
Proof.
  intros U. pose proof (truncated_length r) as Ht. unfold shown. destruct (Z.ltb_spec (Z.of_nat (length r)) 256) as [Hlt|Hge].
  - split; [done|]. intros i c Hi. pose proof (lookup_lt_Some _ _ _ Hi). rewrite U. destruct (inside_spec out (Z.of_nat (length (truncated 256 r))) (out + Z.of_nat i)); [|lia].
    replace (Z.to_nat _) with i by lia. unfold truncated. cbn [Z.eqb]. rewrite take_ge by lia. rewrite app_nth1 by lia. by rewrite nth_lookup, Hi.
  - split; [lia|]. intros i c Hi. pose proof (lookup_lt_Some _ _ _ Hi). rewrite U. destruct (inside_spec out (Z.of_nat (length (truncated 256 r))) (out + Z.of_nat i)); [|lia].
    replace (Z.to_nat _) with i by lia. by rewrite nth_lookup, Hi.
Qed.

(** What [shutdown] prints. *)
Definition shutdown_line (code : Z) : list Z := take 39 shutdown_text ++ decimal code ++ [46; 10].

(** Text before the first conversion. *)
Lemma render_prefix text rest lg args : forallb (fun c => negb (c =? 37)) text = true ->
  render (text ++ rest) false lg args = app text <$> render rest false lg args.
Proof.
  revert lg. induction text as [|c text IH]; intros lg; cbn [app render forallb]; [by destruct (render rest false lg args)|].
  intros [Hc%negb_true_iff Ht]%andb_prop. rewrite Hc, IH by done. by destruct (render rest false lg args).
Qed.

Section proofs.
Context {S : Type} `{Frontend S} `{!ConsoleHost S} (sym : spike_symbols) (con : console).

(** A string at [s] to be printed, apart from the buffer and the host's own. *)
Record literal_at (m : mem) (s : Z) (text : list Z) : Prop := {
  pr_text : cstr m s text;
  pr_range : 0 <= s /\ s + Z.of_nat (length text) < 2 ^ 64;
  pr_buffer : s + Z.of_nat (length text) < a_out con \/ a_out con + 256 <= s;
  pr_scratch x : s <= x <= s + Z.of_nat (length text) -> ch_scratch x = false
}.

(** The buffer, and stderr as descriptor 2. *)
Record printer (m : mem) : Prop := {
  pn_room : room m (a_out con) 256;
  pn_kfd : load_le 4 (u64 (stderr sym + F_KFD)) m = Some 2;
  pn_kfd_buffer : u64 (stderr sym + F_KFD) + 4 <= a_out con \/ a_out con + 256 <= u64 (stderr sym + F_KFD);
  pn_scratch x : a_out con <= x < a_out con + 256 \/ u64 (stderr sym + F_KFD) <= x < u64 (stderr sym + F_KFD) + 4 -> ch_scratch x = false
}.

Definition elsewhere (x : Z) : Prop := ch_scratch x = false /\ ~ (a_out con <= x < a_out con + 256).

Lemma wp_sprint k s text args r (Q : unit -> kmem S -> Prop) E :
  ch_idle k -> printer (memory k) -> literal_at (memory k) s text -> Forall (arg_ok (memory k) (a_out con) 256) args ->
  render text false false args = Some r -> Z.of_nat (length r) < 2 ^ 31 ->
  (Z.of_nat (length r) < 256 \/ prints_char text false = false) ->
  (forall k', ch_idle k' -> ch_text (heap k') = ch_text (heap k) ++ shown r -> (forall x, elsewhere x -> memory k' !! x = memory k !! x) ->
     printer (memory k') -> Q tt k') ->
  wp (sprint sym con s (raw <$> args)) Q E k.
Proof using Type.
  intros Hi [N1 N2 N3 N4] [P1 [P2 P2'] P3 P4] Ha Hr Hl Hc HQ. unfold sprint, print_to_stderr. apply wp_bind, wp_zoom.
  eapply wp_vsnprintf; [exact N1|exact P1|exact P2|exact P2'|exact P3|exact Ha|exact Hr|exact Hl|exact Hc|]. intros m1 U1.
  rewrite u64_id by (unfold is_u64; lia). destruct (shown_buffer (memory k) m1 (a_out con) r U1) as [Hsl Hsb]. rewrite Hsl.
  assert (Hout : forall x, ~ (a_out con <= x < a_out con + 256) -> m1 !! x = memory k !! x).
  { intros x Hx. rewrite U1. pose proof (truncated_length r). by destruct (inside_spec (a_out con) (Z.of_nat (length (truncated 256 r))) x); [lia|]. }
  set (k1 := mkKmem (heap k) m1 (g_kernel_pagetable k)).
  assert (Hk1 : ch_idle k1).
  { eapply ch_idle_ext; [exact Hi|done|]. intros x Hx. apply Hout. intros Hin. rewrite (N4 x) in Hx by (by left). done. }
  assert (Hkfd : load_le 4 (u64 (stderr sym + F_KFD)) m1 = Some 2).
  { rewrite <- N2. apply load_le_ext. intros x Hx. apply Hout. lia. }
  apply wp_bind. unfold spike_file_write, file_kfd. apply wp_bind, wp_bind, wp_zoom. eapply wp_load; [exact Hkfd|]. apply wp_ret.
  change (s32 2) with 2. change (mkKmem (heap k1) (memory k1) (g_kernel_pagetable k1)) with k1.
  eapply wp_mono; [apply wp_no_stop, (ch_write k1 (a_out con) (shown r) Hk1 Hsb)| |done]. intros v k2 (Hi2 & Ht2 & Hm2).
  apply wp_ret, HQ; [exact Hi2|exact Ht2| |].
  - intros x [Hx1 Hx2]. rewrite Hm2 by done. by apply Hout.
  - split; [|..|exact N4].
    + destruct N1 as [R1 R2 R3 R4]. split; [done..|]. intros x Hx. rewrite Hm2 by (apply N4; by left). rewrite U1.
      destruct (inside _ _ x); [by eexists|by apply R4].
    + rewrite <- Hkfd. apply load_le_ext. intros x Hx. apply Hm2, N4. right. lia.
    + exact N3.
Qed.

Lemma literal_kept m m' s text : (forall x, elsewhere x -> m' !! x = m !! x) -> literal_at m s text -> literal_at m' s text.
Proof using Type.
  intros Hm [P1 P2 P3 P4]. split; try done. eapply cstr_frame; [exact P1|]. intros x Hx. apply Hm. split; [by apply P4|lia].
Qed.

Lemma render_shutdown code : - 2 ^ 31 <= code < 2 ^ 31 ->
  render shutdown_text false false [AInt (u64 code)] = Some (take 39 shutdown_text ++ decimal code ++ [46; 10]).
Proof using Type.
  intros Hc. change shutdown_text with (take 39 shutdown_text ++ [37; 100; 46; 10]) at 1. rewrite render_prefix by (by vm_compute).
  assert (Hi : int_arg false (u64 code) = code).
  { unfold int_arg, s32, u64. zlia. }
  cbn [render]. change (37 =? 37) with true. change (100 =? 108) with false. change (100 =? 112) with false. change (100 =? 120) with false.
  change (100 =? 100) with true. cbv iota. rewrite Hi, (proj2 (Z.eqb_neq _ _)) by lia. done.
Qed.

(** *** Termination *)
Lemma wp_shutdown k code (Q : unit -> kmem S -> Prop) E : - 2 ^ 31 <= code < 2 ^ 31 ->
  ch_idle k -> printer (memory k) -> literal_at (memory k) (l_shutdown con) shutdown_text ->
  (forall k', ch_text (heap k') = ch_text (heap k) ++ shutdown_line code -> E (ShutDown code) k') ->
  wp (shutdown sym con code) Q E k.
Proof using Type.
  intros Hc Hi Hp Ht HE. unfold shutdown. apply wp_bind. change [u64 code] with (raw <$> [AInt (u64 code)]).
  assert (Hl : Z.of_nat (length (take 39 shutdown_text ++ decimal code ++ [46; 10])) < 256).
  { rewrite !length_app, length_take. destruct (decimal_chars code ltac:(lia)) as [Hd _]. cbn [length]. lia. }
  eapply wp_sprint; [exact Hi|exact Hp|exact Ht|by apply Forall_singleton|by apply render_shutdown|lia|by left|].
  intros k1 Hi1 Ht1 _ _. apply wp_bind. eapply wp_mono; [by apply (ch_exit k1 code)|by intros ? ? []|].
  intros h k2 [-> Ht2]. apply HE. rewrite Ht2, Ht1. f_equal. unfold shown. by rewrite (proj2 (Z.ltb_lt _ _)).
Qed.

Lemma wp_do_panic k s va stray text args r (Q : unit -> kmem S -> Prop) E :
  ch_idle k -> printer (memory k) -> literal_at (memory k) s text -> literal_at (memory k) (l_shutdown con) shutdown_text ->
  raw <$> args = va :: stray -> Forall (arg_ok (memory k) (a_out con) 256) args ->
  render text false false args = Some r -> Z.of_nat (length r) < 2 ^ 31 ->
  (Z.of_nat (length r) < 256 \/ prints_char text false = false) ->
  (forall k', ch_text (heap k') = ch_text (heap k) ++ shown r ++ shutdown_line (-1) -> E (ShutDown (-1)) k') ->
  wp (do_panic sym con s va stray) Q E k.
Proof using Type.
  intros Hi Hp Hs Ht Hargs Ha Hr Hl Hc HE. unfold do_panic. apply wp_bind. rewrite <- Hargs.
  eapply wp_sprint; [exact Hi|exact Hp|exact Hs|exact Ha|exact Hr|exact Hl|exact Hc|]. intros k1 Hi1 Ht1 Hm1 Hp1.
  eapply wp_shutdown; [lia|exact Hi1|exact Hp1|by eapply literal_kept|]. intros k2 Ht2. apply HE. by rewrite Ht2, Ht1, <- app_assoc.
Qed.
End proofs.

(** C30: a failed check ends the kernel.  [do_panic] prints its format, filled
    with the va_list itself and then with whatever the other argument registers
    hold, up to 255 characters, then the line of [shutdown] with code -1, asks
    the host to exit with -1, and does not return; so does [kassert_fail],
    whatever the condition it is given: the condition is not printed. *)
Theorem do_panic_exits {S} `{Frontend S} `{!ConsoleHost S} (sym : spike_symbols) (con : console) k s va stray text args r :
  ch_idle k -> printer sym con (memory k) -> literal_at con (memory k) s text -> literal_at con (memory k) (l_shutdown con) shutdown_text ->
  raw <$> args = va :: stray -> Forall (arg_ok (memory k) (a_out con) 256) args ->
  render text false false args = Some r -> Z.of_nat (length r) < 2 ^ 31 ->
  (Z.of_nat (length r) < 256 \/ prints_char text false = false) ->
  let ends h k' := h = ShutDown (-1) /\ ch_text (heap k') = ch_text (heap k) ++ shown r ++ shutdown_line (-1) in
  wp (do_panic sym con s va stray) (fun _ _ => False) ends k /\
  (s = l_assertion con -> forall cond, wp (kassert_fail sym con cond va stray) (fun _ _ => False) ends k).
Proof.
  intros Hi Hp Hs Ht Hargs Ha Hr Hl Hc ends.
  assert (Hpanic : forall Q, wp (do_panic sym con s va stray) Q ends k).
  { intros Q. eapply wp_do_panic; [exact Hi|exact Hp|exact Hs|exact Ht|exact Hargs|exact Ha|exact Hr|exact Hl|exact Hc|]. by intros k' Hk'. }
  split; [apply Hpanic|]. intros -> cond. unfold kassert_fail. apply wp_bind, Hpanic.
Qed.

(** ** Example: a host that keeps what it is shown *)
#[local] Instance ex_terminal : Frontend (list Z) :=
  {| fe_syscall n fd buf size _ _ := fun k =>
       if (n =? HTIFSYS_write) && (fd =? 2) then
         Ret size (mkKmem (heap k ++ omap (fun i => memory k !! (buf + i)) (seqZ 0 size)) (memory k) (g_kernel_pagetable k))
       else if n =? HTIFSYS_exit then Halt (ShutDown fd) k else Ret (-1) k |}.

Lemma read_back (m : mem) buf l : forall j, (forall (i : nat) c, l !! i = Some c -> m !! (buf + j + Z.of_nat i) = Some c) ->
  omap (fun i => m !! (buf + i)) (seqZ j (Z.of_nat (length l))) = l.
Proof.
  induction l as [|c l IH]; intros j Hl; [done|]. cbn [length]. rewrite seqZ_cons by lia. cbn [omap list_omap].
  pose proof (Hl 0%nat c eq_refl) as Hc. rewrite Z.add_0_r in Hc. rewrite Hc. f_equal.
  replace (Z.pred (Z.of_nat (Datatypes.S (length l)))) with (Z.of_nat (length l)) by lia. apply IH. intros i d Hi.
  replace (buf + Z.succ j + Z.of_nat i) with (buf + j + Z.of_nat (Datatypes.S i)) by lia. by apply Hl.
Qed.

#[local] Program Instance ex_terminal_host : ConsoleHost (list Z) :=
  {| ch_idle _ := True; ch_scratch _ := false; ch_text h := h |}.
Next Obligation. done. Qed.
Next Obligation.
  intros k buf l _ Hl. unfold wp. cbn [fe_syscall ex_terminal]. change ((HTIFSYS_write =? HTIFSYS_write) && (2 =? 2)) with true. cbv iota.
  split; [done|]. cbn [heap memory]. split; [|done]. rewrite read_back; [done|]. intros i c. rewrite Z.add_0_r. apply Hl.
Qed.
Next Obligation. done. Qed.

Definition ex_console : console := mkConsole 4096 0 0 0 0 0 12288.
Definition ex_console_sym : spike_symbols := mkSpikeSymbols 0 0 0 0 0 0 0 16384.
(** "bad %d!" *)
Definition ex_message : list Z := [98; 97; 100; 32; 37; 100; 33].
Definition ex_console_mem : mem :=
  mem_at 4096 (shutdown_text ++ [0]) ∪ (mem_at 8192 (ex_message ++ [0]) ∪ (mem_at 12288 (replicate 256 0) ∪ mem_at 16400 [2; 0; 0; 0])).

Lemma do_panic_exits_witness :
  wp (do_panic ex_console_sym ex_console 8192 4711 []) (fun _ _ => False)
     (fun h k' => h = ShutDown (-1) /\ heap k' = [98; 97; 100; 32; 52; 55; 49; 49; 33] ++ shutdown_line (-1))
     (mkKmem [] ex_console_mem 0).
Proof.
  eapply wp_mono; [eapply (proj1 (do_panic_exits ex_console_sym ex_console (mkKmem [] ex_console_mem 0) 8192 4711 [] ex_message [AInt 4711]
    [98; 97; 100; 32; 52; 55; 49; 49; 33] _ _ _ _ _ _ _ _ _))|done|intros h k' [-> He]; split; [done|exact He]].
  Unshelve.
  - done.
  - split; [split; [lia|by vm_compute|by vm_compute|apply has_b_spec; vm_compute; reflexivity]|vm_compute; reflexivity|right; vm_compute; congruence|done].
  - split; [apply cstr_b_spec; vm_compute; reflexivity|by vm_compute|left; vm_compute; reflexivity|done].
  - split; [apply cstr_b_spec; vm_compute; reflexivity|by vm_compute|left; vm_compute; reflexivity|done].
  - done.
  - by apply Forall_singleton.
  - vm_compute; reflexivity.
  - cbn; lia.
  - by left.
Defined.
