(* ===== verification/Elf.v ===== *)
(** * Loading a program: kernel/elf.c

    The structures the loader keeps on the kernel stack ([elf_header],
    [elf_prog_header], [arg_buf]) are in byte memory; [elf_bufs] says where.
    Console output is not part of the state; its arguments are evaluated. *)
From stdpp Require Import base gmap list strings.
From Stdlib Require Import ZArith Lia.
From S2P Require Import Prelude Riscv PmmState Mem Str Vmm ProcState Sched Process Spike SpikeFile.

Definition MAX_CMDLINE_ARGS : Z := 64.
(** Offsets in [elf_header], and its size. *)
Definition EH_MAGIC : Z := 0.
Definition EH_ENTRY : Z := 24.
Definition EH_PHOFF : Z := 32.
Definition EH_PHNUM : Z := 56.
Definition sizeof_elf_header : Z := 64.
Definition SEGMENT_READABLE : Z := 4.
Definition SEGMENT_EXECUTABLE : Z := 1.
Definition SEGMENT_WRITABLE : Z := 2.
(** Offsets in [elf_prog_header], and its size. *)
Definition PH_TYPE : Z := 0.
Definition PH_FLAGS : Z := 4.
Definition PH_OFF : Z := 8.
Definition PH_VADDR : Z := 16.
Definition PH_FILESZ : Z := 32.
Definition PH_MEMSZ : Z := 40.
Definition sizeof_elf_prog_header : Z := 56.
Definition ELF_MAGIC : Z := 1179403647.
Definition ELF_PROG_LOAD : Z := 1.

Inductive elf_status := EL_OK | EL_EIO | EL_ENOMEM | EL_NOTELF | EL_ERR.

#[export] Instance elf_status_eq_dec : EqDecision elf_status.
Proof. solve_decision. Defined.

(** Where the locals are: [elfloader.ehdr], [ph_addr], [arg_bug_msg]. *)
Record elf_bufs := mkElfBufs { eb_ehdr : Z; eb_ph : Z; eb_args : Z }.

(** elf_info *)
Record elf_info := mkElfInfo { ei_f : Z; ei_p : option Z }.

Section elf.
Context {S : Type} `{Allocator S} `{Harts S} `{Frontend S} `{SpikeAtomics} (sym : spike_symbols) (bufs : elf_bufs).

Definition elf_alloc_mb (info : elf_info) (elf_va size : Z) : M (kstate S) Z :=
  kassert (size <? PGSIZE) "size < PGSIZE" ;;;
  let* pa := kalloc in
  if pa =? 0 then panic "uvmalloc mem alloc falied"
  else
    pmem (memset pa 0 PGSIZE) ;;;
    let* p := proc (ei_p info) in
    on_km (user_vm_map (pagetable p) elf_va PGSIZE pa (prot_to_type (Z.lor (Z.lor PROT_WRITE PROT_READ) PROT_EXEC) 1)) ;;;
    ret pa.

Definition elf_fpread (info : elf_info) (dest nb offset : Z) : M (kstate S) Z :=
  let* r := on_km (spike_file_pread (ei_f info) dest nb offset) in ret (u64 r).

Definition elf_init (info : elf_info) : M (kstate S) elf_status :=
  let* r := elf_fpread info (eb_ehdr bufs) sizeof_elf_header 0 in
  if negb (r =? sizeof_elf_header) then ret EL_EIO
  else
    let* magic := pmem (load32 (u64 (eb_ehdr bufs + EH_MAGIC))) in
    if negb (magic =? ELF_MAGIC) then ret EL_NOTELF else ret EL_OK.

(** [for( j=0; j<PGSIZE/sizeof(mapped_region); j++ ) if( mapped_info[j].va == 0x0 ) break;] *)
Fixpoint last_region (n : nat) (info j : Z) : M (kstate S) Z :=
  match n with
  | O => ret j
  | Datatypes.S n =>
      let* va := pmem (load64 (u64 (region info j + MR_VA))) in
      if va =? 0 then ret j else last_region n info (j + 1)
  end.

(** From the search for a free region on: the end of the loop's body. *)
Definition record_segment (info : elf_info) (vaddr : Z) : M (kstate S) unit :=
  let* p := proc (ei_p info) in
  let mi := mapped_info p in
  let* j := last_region (Z.to_nat (PGSIZE / sizeof_mapped_region)) mi 0 in
  pmem (store64 (u64 (region mi j + MR_VA)) vaddr) ;;;
  pmem (store32 (u64 (region mi j + MR_NPAGES)) 1) ;;;
  let* flags := pmem (load32 (u64 (eb_ph bufs + PH_FLAGS))) in
  (if flags =? Z.lor SEGMENT_READABLE SEGMENT_EXECUTABLE then
     pmem (store32 (u64 (region mi j + MR_TYPE)) CODE_SEGMENT)
   else if flags =? Z.lor SEGMENT_READABLE SEGMENT_WRITABLE then
     pmem (store32 (u64 (region mi j + MR_TYPE)) DATA_SEGMENT)
   else panic "unknown program segment encountered, segment flag:%d.") ;;;
  upd_proc (fun x => with_total (total_mapped_region x + 1) x) (ei_p info).

(** One iteration: [Some] is a return from [elf_load]. *)
Definition load_segment (info : elf_info) (off : Z) : M (kstate S) (option elf_status) :=
  let ph := eb_ph bufs in
  let* r := elf_fpread info ph sizeof_elf_prog_header (u64 off) in
  if negb (r =? sizeof_elf_prog_header) then ret (Some EL_EIO)
  else
    let* type := pmem (load32 (u64 (ph + PH_TYPE))) in
    if negb (type =? ELF_PROG_LOAD) then ret None
    else
      let* memsz := pmem (load64 (u64 (ph + PH_MEMSZ))) in
      let* filesz := pmem (load64 (u64 (ph + PH_FILESZ))) in
      if memsz <? filesz then ret (Some EL_ERR)
      else
        let* vaddr := pmem (load64 (u64 (ph + PH_VADDR))) in
        if u64 (vaddr + memsz) <? vaddr then ret (Some EL_ERR)
        else
          let* dest := elf_alloc_mb info vaddr memsz in
          let* off := pmem (load64 (u64 (ph + PH_OFF))) in
          let* r := elf_fpread info dest memsz off in
          if negb (r =? memsz) then ret (Some EL_EIO)
          else record_segment info vaddr ;;; ret None.

(** [phnum] is read again before each iteration; [off] is an int. *)
Fixpoint segments_loop (fuel : nat) (info : elf_info) (i off : Z) : M (kstate S) elf_status :=
  let* phnum := pmem (load 2 (u64 (eb_ehdr bufs + EH_PHNUM))) in
  if i <? phnum then
    match fuel with
    | O => halt OutOfFuel
    | Datatypes.S fuel =>
        let* r := load_segment info off in
        match r with
        | Some st => ret st
        | None => segments_loop fuel info (i + 1) (s32 (off + sizeof_elf_prog_header))
        end
    end
  else ret EL_OK.

Definition elf_load (info : elf_info) : M (kstate S) elf_status :=
  let* phoff := pmem (load64 (u64 (eb_ehdr bufs + EH_PHOFF))) in
  segments_loop (Z.to_nat (2 ^ 16)) info 0 (s32 phoff).

(** [for (size_t i = 0; arg + i < pk_argc; i++) argv[i] = pk_argv[arg + i];] *)
Fixpoint args_loop (fuel : nat) (i pk_argc : Z) : M (kstate S) unit :=
  if u64 (1 + i) <? pk_argc then
    match fuel with
    | O => halt OutOfFuel
    | Datatypes.S fuel =>
        let* v := pmem (load64 (u64 (eb_args bufs + 8 * (1 + (1 + i))))) in
        pmem (store64 (u64 (eb_args bufs + 8 * i)) v) ;;;
        args_loop fuel (i + 1) pk_argc
    end
  else ret tt.

Definition parse_args : M (kstate S) Z :=
  let* r := on_km (fe_syscall HTIFSYS_getmainvars (eb_args bufs) (8 * MAX_CMDLINE_ARGS) 0 0 0) in
  kassert (r =? 0) "r == 0" ;;;
  let* pk_argc := pmem (load64 (eb_args bufs)) in
  args_loop (Z.to_nat pk_argc) 0 pk_argc ;;;
  ret (u64 (pk_argc - 1)).

Definition load_bincode_from_host_elf (p : option Z) : M (kstate S) unit :=
  let* argc := parse_args in
  (if argc =? 0 then panic "You need to specify the application program!" else ret tt) ;;;
  let* name := pmem (load64 (eb_args bufs)) in
  let* f := on_km (spike_file_open sym name O_RDONLY 0) in
  (if IS_ERR_VALUE f then panic "Fail on openning the input application program." else ret tt) ;;;
  let info := mkElfInfo f p in
  let* st := elf_init info in
  (if decide (st = EL_OK) then ret tt else panic "fail to init elfloader.") ;;;
  let* st := elf_load info in
  (if decide (st = EL_OK) then ret tt else panic "Fail on loading elf.") ;;;
  let* x := proc p in
  let* entry := pmem (load64 (u64 (eb_ehdr bufs + EH_ENTRY))) in
  pmem (store64 (u64 (trapframe x + TF_EPC)) entry) ;;;
  let* _ := on_km (spike_file_close sym f) in
  let* x := proc p in
  let* _ := pmem (load64 (u64 (trapframe x + TF_EPC))) in
  ret tt.
End elf.
