(* ===== verification/Hosted.v ===== *)
(** * What the host promises

    [FrontendSpec]: reading an open file of the host, as the loader uses it.
    The interface itself works in [fe_scratch], memory of the kernel image;
    the page allocator leaves the host's part of the state alone. *)
From stdpp Require Import base gmap list strings.
From Stdlib Require Import ZArith Lia.
From S2P Require Import Prelude Riscv PmmState Mem Str Sync Vmm VmmProofs ProcState Spike.

#[local] Arguments load_le : simpl never.
#[local] Arguments store_le : simpl never.

Definition piece (off size : Z) (data : list Z) : list Z := take (Z.to_nat size) (drop (Z.to_nat off) data).

Class FrontendSpec (S : Type) `{Allocator S} `{Frontend S} (lo hi : Z) `{!AllocatorSpec S lo hi} := {
  fe_idle : kmem S -> Prop;
  fe_scratch : Z -> bool;
  fe_files : S -> Z -> option (list Z);
  fe_same : S -> S -> Prop;
  fe_same_refl s : fe_same s s;
  fe_same_trans s1 s2 s3 : fe_same s1 s2 -> fe_same s2 s3 -> fe_same s1 s3;
  fe_same_page s a s' : al_page s = Ret a s' -> fe_same s s';
  fe_same_free p s a s' : al_free p s = Ret a s' -> fe_same s s';
  fe_same_files s s' : fe_same s s' -> fe_files s' = fe_files s;
  fe_bytes s fd data : fe_files s fd = Some data -> forall b, b ∈ data -> 0 <= b < 256;
  fe_below x : fe_scratch x = true -> x < lo;
  fe_idle_ext k k' : fe_idle k -> fe_same (heap k) (heap k') ->
    (forall x, fe_scratch x = true -> memory k' !! x = memory k !! x) -> fe_idle k';
  (** The bytes read, and the state after the call. *)
  fe_pread k fd buf size off data : fe_idle k -> fe_files (heap k) fd = Some data -> bytes_ok (memory k) ->
    has (memory k) buf size -> (forall x, buf <= x < buf + size -> fe_scratch x = false) ->
    0 <= buf -> buf + size < 2 ^ 63 -> 0 <= size < 2 ^ 63 -> 0 <= off < 2 ^ 63 ->
    wp (fe_syscall HTIFSYS_pread fd buf size off 0)
       (fun r k' => let l := piece off size data in
          r = lenZ l /\ fe_idle k' /\ fe_files (heap k') = fe_files (heap k) /\
          (forall n U, al_inv n U (heap k) -> al_inv n U (heap k')) /\ g_kernel_pagetable k' = g_kernel_pagetable k /\
          bytes_ok (memory k') /\ (forall x, is_Some (memory k !! x) -> is_Some (memory k' !! x)) /\
          bytes_at (memory k') buf l /\
          forall x, ~ (buf <= x < buf + lenZ l) -> fe_scratch x = false -> memory k' !! x = memory k !! x)
       no_stop k
}.

Lemma piece_len off size data : 0 <= off -> 0 <= size -> lenZ (piece off size data) = Z.max 0 (Z.min size (lenZ data - off)).
Proof. intros H1 H2. unfold piece, lenZ. rewrite length_take, length_drop. lia. Qed.

Lemma piece_full off size data : 0 <= off -> 0 <= size -> off + size <= lenZ data -> lenZ (piece off size data) = size.
Proof. intros. rewrite piece_len by done. lia. Qed.

Lemma piece_lookup off size data (i : nat) : 0 <= off -> Z.of_nat i < size -> piece off size data !! i = data !! Z.to_nat (off + Z.of_nat i).
Proof.
  intros H1 H2. unfold piece. rewrite lookup_take, lookup_drop. rewrite decide_True by lia. f_equal. lia.
Qed.

Lemma piece_le_at off size data k n : 0 <= off -> 0 <= k -> k + Z.of_nat n <= size -> le_at (piece off size data) k n = le_at data (off + k) n.
Proof.
  intros H1 H2 H3. unfold le_at, piece. f_equal. rewrite skipn_firstn_comm, drop_drop, take_take. f_equal; [lia|]. f_equal. lia.
Qed.

(** ** Mapping does not touch the host *)
Section steady.
Context {S : Type} `{Allocator S} `{Frontend S} {lo hi : Z} `{!AllocatorSpec S lo hi} `{!FrontendSpec S lo hi}.

Definition steady {A} (m : M (kmem S) A) : Prop :=
  forall k, match m k with Ret _ k' => fe_same (heap k) (heap k') | Halt _ _ => True end.

Lemma steady_ret {A} (a : A) : steady (ret a).
Proof. intros k. apply fe_same_refl. Qed.
Lemma steady_halt {A} h : steady (A := A) (halt h).
Proof. by intros k. Qed.
Lemma steady_bind {A B} (m : M (kmem S) A) (f : A -> M (kmem S) B) : steady m -> (forall a, steady (f a)) -> steady (bind m f).
Proof.
  intros Hm Hf k. unfold bind. specialize (Hm k). destruct (m k) as [a k1|]; [|done]. specialize (Hf a k1).
  destruct (f a k1); [|done]. by eapply fe_same_trans.
Qed.
Lemma steady_mem {A} (m : M mem A) : steady (on_mem m).
Proof. intros k. unfold on_mem, zoom. destruct (m (memory k)); [apply fe_same_refl|done]. Qed.
Lemma steady_page : steady (on_heap al_page).
Proof. intros k. unfold on_heap, zoom. destruct (al_page (heap k)) eqn:E; [by eapply fe_same_page|done]. Qed.
Lemma steady_free p : steady (on_heap (al_free p)).
Proof. intros k. unfold on_heap, zoom. destruct (al_free p (heap k)) eqn:E; [by eapply fe_same_free|done]. Qed.

Ltac steady :=
  repeat first
    [ apply steady_ret | apply steady_halt | apply steady_mem | apply steady_page | apply steady_free
    | apply steady_bind; [|intros ?] | match goal with |- steady (match ?b with _ => _ end) => destruct b end ].

Lemma steady_walk n : forall pt va level alloc, steady (walk_loop n pt va level alloc).
Proof.
  induction n as [|n IH]; intros pt va level alloc; cbn [walk_loop]; [apply steady_ret|]. apply steady_bind; [unfold walk_level; steady|].
  intros [q|]; [apply IH|apply steady_ret].
Qed.

Lemma steady_page_walk d va l alloc : steady (page_walk d va l alloc).
Proof. unfold page_walk, kassert. apply steady_bind; [steady|]. intros _. apply steady_bind; [apply steady_walk|]. intros [q|]; steady. Qed.

Lemma steady_map n : forall d a b pa perm, steady (map_loop n d a b pa perm).
Proof.
  induction n as [|n IH]; intros d a b pa perm; cbn [map_loop]; (destruct (a <=? b); [|apply steady_ret]); [apply steady_halt|].
  apply steady_bind; [apply steady_page_walk|]. intros [q|]; [|apply steady_ret]. apply steady_bind; [apply steady_mem|]. intros v.
  destruct (bit_set v PTE_V); [apply steady_halt|]. apply steady_bind; [apply steady_mem|]. intros _. apply IH.
Qed.

Lemma steady_user_vm_map d va size pa perm : steady (user_vm_map d va size pa perm).
Proof. unfold user_vm_map. apply steady_bind; [apply steady_map|]. intros r. unfold panic. steady. Qed.

(** Knowing that a run is steady. *)
Lemma wp_steady {A} (m : M (kmem S) A) (Q : A -> kmem S -> Prop) E k :
  steady m -> wp m (fun a k' => fe_same (heap k) (heap k') -> Q a k') E k -> wp m Q E k.
Proof. intros Hm. unfold wp. specialize (Hm k). destruct (m k); auto. Qed.
End steady.
