(* ===== verification/HostFiles.v ===== *)
(** * Reading a file of the host, through the host interface

    [HostFiles]: what the host does with a [pread].  With it the interface
    keeps the promise [FrontendSpec] the loader relies on. *)
From stdpp Require Import base gmap list strings.
From Stdlib Require Import ZArith Lia.
From S2P Require Import Prelude Riscv PmmState Mem Str Sync Vmm VmmProofs ProcState Spike SpikeProofs Hosted.

#[local] Arguments load_le : simpl never.
#[local] Arguments store_le : simpl never.

Class HostFiles (S : Type) `{Allocator S} (lo hi : Z) `{!AllocatorSpec S lo hi} `{HostMachine S} (patience : nat) (sym : spike_symbols)
    `{!HostSpec S patience sym} := {
  hf_files : S -> Z -> option (list Z);
  hf_same : S -> S -> Prop;
  hf_same_refl s : hf_same s s;
  hf_same_trans s1 s2 s3 : hf_same s1 s2 -> hf_same s2 s3 -> hf_same s1 s3;
  hf_same_page s a s' : al_page s = Ret a s' -> hf_same s s';
  hf_same_free p s a s' : al_free p s = Ret a s' -> hf_same s s';
  hf_same_files s s' : hf_same s s' -> hf_files s' = hf_files s;
  hf_bytes s fd data : hf_files s fd = Some data -> forall b, b ∈ data -> 0 <= b < 256;
  hf_idle_same (k : kmem S) h : hs_idle k -> hf_same (heap k) h -> hs_idle (mkKmem h (memory k) (g_kernel_pagetable k));
  hf_dir (k : kmem S) g : hs_idle k -> hs_idle (mkKmem (heap k) (memory k) g);
  (** [pread]: the number of bytes read goes to the first argument word. *)
  hf_pread (k1 : kmem S) m1 fd buf size off data : hs_idle k1 -> store_le 8 (a_tohost sym) (call_command sym) (memory k1) = Some m1 ->
    words_at (memory k1) (a_magic_mem sym) [HTIFSYS_pread; u64 fd; buf; size; off; 0; 0; 0] ->
    hf_files (heap k1) fd = Some data -> bytes_ok m1 -> has (memory k1) buf size ->
    (forall x, buf <= x < buf + size -> interface sym x = false) ->
    let k2 := hs_serve (with_memory m1 k1) in let l := piece off size data in
    load_le 8 (a_magic_mem sym) (memory k2) = Some (lenZ l) /\ bytes_at (memory k2) buf l /\ bytes_ok (memory k2) /\
    hf_files (heap k2) = hf_files (heap k1) /\ (forall n U, al_inv n U (heap k1) -> al_inv n U (heap k2)) /\
    g_kernel_pagetable k2 = g_kernel_pagetable k1 /\
    (forall x, ~ (buf <= x < buf + lenZ l) -> interface sym x = false -> memory k2 !! x = memory k1 !! x)
}.

Section instance.
Context {S : Type} `{Allocator S} (lo hi : Z) `{!AllocatorSpec S lo hi} `{HostMachine S} `{SpikeAtomics} `{!AtomicsSpec}
  (patience : nat) (sym : spike_symbols) `{!HostSpec S patience sym} `{!HostFiles S lo hi patience sym}.
Context (Hsym : symbols_ok sym) (Hlow : forall x, interface sym x = true -> x < lo).

Lemma ready_ext (k k' : kmem S) : ready patience sym k -> hf_same (heap k) (heap k') ->
  (forall x, interface sym x = true -> memory k' !! x = memory k !! x) -> ready patience sym k'.
Proof.
  intros [R1 R2 R3 R4] Hs Hm.
  assert (Hint : forall x a n, a ∈ [a_htif_lock sym; a_call_lock sym] -> n = 4 -> inside a n x = true -> interface sym x = true).
  { intros x a n Ha -> Hx. unfold interface, lock_word. apply elem_of_cons in Ha as [->|Ha]; [|apply list_elem_of_singleton in Ha as ->]; rewrite Hx;
      by destruct (port sym x), (inside (a_htif_lock sym) 4 x). }
  assert (Hld : forall a, a ∈ [a_htif_lock sym; a_call_lock sym] -> load_le 4 a (memory k') = load_le 4 a (memory k)).
  { intros a Ha. apply load_le_ext. intros x Hx. apply Hm. eapply (Hint x a); [exact Ha|done|]. change (Z.of_nat 4) with 4 in Hx. by destruct (inside_spec a 4 x). }
  split.
  - assert (E : k' = mkKmem (heap (mkKmem (heap k') (memory k') (g_kernel_pagetable k))) (memory k') (g_kernel_pagetable k')) by (by destruct k').
    rewrite E. apply (hf_dir (mkKmem (heap k') (memory k') (g_kernel_pagetable k))).
    apply (hs_data (mkKmem (heap k') (memory k) (g_kernel_pagetable k)) (memory k')); [by apply hf_idle_same|].
    intros x Hx. apply Hm. unfold interface. by rewrite Hx.
  - rewrite Hld by (by left). exact R2.
  - rewrite Hld by (by right; left). exact R3.
  - intros x Hx. rewrite Hm; [by apply R4|]. unfold interface. destruct (inside_spec (a_magic_mem sym) 64 x); [by rewrite orb_true_r|done].
Qed.

#[local] Obligation Tactic := idtac.
#[local] Instance interface_frontend : Frontend S := htif_frontend patience sym.

#[export] Program Instance htif_frontend_spec : FrontendSpec S lo hi :=
  {| fe_idle k := ready patience sym k; fe_scratch := interface sym; fe_files := hf_files; fe_same := hf_same |}.
Next Obligation. apply hf_same_refl. Qed.
Next Obligation. intros. by eapply hf_same_trans. Qed.
Next Obligation. intros. by eapply hf_same_page. Qed.
Next Obligation. intros. by eapply hf_same_free. Qed.
Next Obligation. intros. by eapply hf_same_files. Qed.
Next Obligation. intros. by eapply hf_bytes. Qed.
Next Obligation. intros. by apply Hlow. Qed.
Next Obligation. intros. by eapply ready_ext. Qed.
Next Obligation.
  intros k fd buf size off data HR Hfd Hb Hh Hoff Hb0 Hb1 Hs Ho.
  change (fe_syscall ?n ?a ?b ?c ?d ?e) with (frontend_syscall patience sym n a b c d e 0 0).
  eapply wp_frontend_syscall; [exact Hsym|exact HR|].
  rewrite (u64_id HTIFSYS_pread) by done. rewrite (u64_id buf), (u64_id size), (u64_id off) by (unfold is_u64; lia). change (u64 0) with 0.
  intros k1 m1 r k' [K1 K2 K3 K4 K5 K6 K7 K8] [N1 N2 N3 (w & N4 & ->) N5 N6 N7]. set (l := piece off size data).
  pose proof (piece_len off size data ltac:(lia) ltac:(lia)) as Hl. fold l in Hl.
  destruct (hf_pread k1 m1 fd buf size off data K3 K7 K4) as (P1 & P2 & P3 & P4 & P5 & P6 & P7); [by rewrite K1|by apply K8| |exact Hoff|].
  { intros x Hx. apply K6. by apply Hh. }
  cbv zeta in *. fold l in P1, P2, P7. set (k2 := hs_serve _) in *. rewrite P1 in N4. injection N4 as <-.
  assert (Hfr : forall x, interface sym x = false -> memory k' !! x = memory k2 !! x).
  { intros x Hx. apply interface_parts in Hx as (I1 & I2 & I3 & _). apply N5; [exact I1|]. unfold lock_word. by rewrite I2, I3. }
  split; [apply s64_id; lia|]. split; [exact N1|]. split; [by rewrite N2, P4, K1|]. split; [intros n U HU; rewrite N2; apply P5; by rewrite K1|].
  split; [by rewrite N3, P6, K2|]. split; [by apply N7|]. split; [|split].
  - intros x Hx. apply N6. destruct (hs_answers k1 m1 K3 K7) as (_ & _ & _ & _ & _ & _ & _ & _ & _ & _ & _ & Hsome). apply Hsome.
    apply (store_some _ _ _ _ _ _ K7), K6, Hx.
  - intros i c Hc. pose proof (lookup_lt_Some _ _ _ Hc) as Hlt. rewrite Hfr; [by apply P2|]. apply Hoff. unfold lenZ in Hl. lia.
  - intros x Hx Hi. rewrite Hfr by exact Hi. rewrite P7 by done. by apply K5.
Qed.
End instance.
