(* ===== verification/SpikeTheorems.v ===== *)
(** * The host interface: the properties, with a concrete host *)
From stdpp Require Import base gmap list strings.
From Stdlib Require Import ZArith Lia.
From S2P Require Import Prelude Riscv PmmState Mem Str Sync Vmm VmmProofs ProcState Spike SpikeProofs SpikeFile.

#[local] Arguments load_le : simpl never.
#[local] Arguments store_le : simpl never.

(** C29: [frontend_syscall] is one call of the host: with the interface at rest
    it takes both locks, writes the eight argument words and the command, polls
    until the host's reply, and returns the word the host left; afterwards the
    interface is at rest again, both locks free, and memory is the host's but
    for the words of the interface. *)
Theorem frontend_syscall_serves {S} `{HostMachine S} `{SpikeAtomics} `{!AtomicsSpec} (patience : nat) (sym : spike_symbols)
    `{!HostSpec S patience sym} n a0 a1 a2 a3 a4 a5 a6 (k : kmem S) :
  symbols_ok sym -> ready patience sym k ->
  wp (frontend_syscall patience sym n a0 a1 a2 a3 a4 a5 a6)
     (fun r k' => exists k1 m1, asked patience sym k [u64 n; u64 a0; u64 a1; u64 a2; u64 a3; u64 a4; u64 a5; u64 a6] k1 m1 /\
        answered patience sym (hs_serve (with_memory m1 k1)) r k')
     no_stop k.
Proof. intros Hsym HR. eapply wp_frontend_syscall; [exact Hsym|exact HR|]. intros k1 m1 r k' HA HN. by exists k1, m1. Qed.

(** *** A host that answers 42 at once *)
#[local] Instance ex_atomics : SpikeAtomics :=
  {| at_read a := let* v := load32 a in ret (s32 v);
     at_set a v := store32 a (u32 v);
     at_swap a v := let* old := load32 a in store32 a (u32 v) ;;; ret (s32 old);
     at_add a d := let* old := load32 a in store32 a (u32 (old + d)) ;;; ret (s32 old) |}.
#[local] Instance ex_atomics_spec : AtomicsSpec.
Proof. done. Qed.

Definition ex_sym : spike_symbols := mkSpikeSymbols 4096 4104 4112 4120 8192 4124 12288 16384.
Definition put (n : nat) (a v : Z) (m : mem) : mem := default m (store_le n a v m).
Definition ex_serve (k : kmem unit) : kmem unit := with_memory (put 8 8192 42 (put 8 4104 1 (put 8 4096 0 (memory k)))) k.
#[local] Instance ex_host : HostMachine unit :=
  {| host_turn k := match load_le 8 4096 (memory k) with Some c => if c =? 0 then k else ex_serve k | None => k end |}.

Lemma put_frame n a v m x : inside a (Z.of_nat n) x = false -> put n a v m !! x = m !! x.
Proof. intros Hx. unfold put. destruct (store_le n a v m) eqn:Hs; [|done]. by apply (store_frame _ _ _ _ _ _ Hs). Qed.
Lemma put_some n a v m x : is_Some (m !! x) -> is_Some (put n a v m !! x).
Proof. intros Hx. unfold put. destruct (store_le n a v m) eqn:Hs; [|done]. by apply (store_some _ _ _ _ _ _ Hs). Qed.
Lemma put_load n a v m w : load_le n a m = Some w -> load_le n a (put n a v m) = Some (v mod 2 ^ (8 * Z.of_nat n)).
Proof.
  intros Hl. unfold put. destruct (store_le_has n a v m) as [m' Hs]; [by eapply load_has|]. rewrite Hs. by apply (load_store_same _ _ _ _ _ Hs).
Qed.
Lemma put_other n a v m j b : apart a (Z.of_nat n) b (Z.of_nat j) -> load_le j b (put n a v m) = load_le j b m.
Proof. intros Ha. apply load_le_ext. intros x Hx. apply put_frame. destruct (inside_spec a (Z.of_nat n) x); [|done]. destruct Ha; lia. Qed.

Lemma ex_serve_ports k w1 w2 : load_le 8 4096 (memory k) = Some w1 -> load_le 8 4104 (memory k) = Some w2 ->
  load_le 8 4096 (memory (ex_serve k)) = Some 0 /\ load_le 8 4104 (memory (ex_serve k)) = Some 1.
Proof.
  intros H1 H2. cbn [ex_serve with_memory memory]. split.
  - rewrite !put_other by (vm_compute; by first [left; intros; discriminate|right; intros; discriminate]). by rewrite (put_load 8 4096 0 _ w1).
  - rewrite put_other by (vm_compute; by first [left; intros; discriminate|right; intros; discriminate]). rewrite (put_load 8 4104 1 _ w2); [done|].
    rewrite put_other by (vm_compute; by first [left; intros; discriminate|right; intros; discriminate]). exact H2.
Qed.

#[local] Obligation Tactic := idtac.
#[local] Program Instance ex_host_spec : HostSpec unit 3 ex_sym :=
  {| hs_idle k := load_le 8 4096 (memory k) = Some 0 /\ load_le 8 4104 (memory k) = Some 0; hs_serve := ex_serve |}.
Next Obligation. intros k [H1 H2]. cbn [host_turn ex_host]. by rewrite H1. Qed.
Next Obligation. done. Qed.
Next Obligation.
  intros k m' [H1 H2] Hm. split; [rewrite <- H1|rewrite <- H2]; apply load_le_ext; intros x Hx; change (Z.of_nat 8) with 8 in Hx; apply Hm; unfold port;
    cbn [ex_sym a_tohost a_fromhost]; destruct (inside_spec 4096 8 x), (inside_spec 4104 8 x); (done || lia).
Qed.
Next Obligation.
  intros k m1 [H1 H2] Hs k2. cbn [ex_sym a_tohost a_fromhost] in *.
  assert (L1 : load_le 8 4096 m1 = Some 8192) by (rewrite (load_store_same _ _ _ _ _ Hs); vm_compute; reflexivity).
  assert (L2 : load_le 8 4104 m1 = Some 0) by (rewrite (load_store_other _ _ _ _ _ _ _ Hs) by (vm_compute; right; intros; discriminate); exact H2).
  destruct (ex_serve_ports (with_memory m1 k) 8192 0 L1 L2) as [S1 S2]. fold k2 in S1, S2.
  exists 0%nat, 1. split; [lia|]. split; [intros i Hi; lia|]. split.
  { cbn [Nat.iter nat_rect host_turn ex_host with_memory memory]. by rewrite L1. }
  split; [exact S2|]. split; [done|]. split; [done|]. split; [done|]. split; [|split].
  - intros m2 Hs2. cbn [with_memory memory]. split; [|by rewrite (load_store_same _ _ _ _ _ Hs2)].
    rewrite (load_store_other _ _ _ _ _ _ _ Hs2) by (vm_compute; left; intros; discriminate). exact S1.
  - intros x Hx. cbn [k2 ex_serve with_memory memory]. unfold lock_word in Hx. cbn [ex_sym a_htif_lock a_call_lock] in Hx.
    rewrite !put_frame; [done|..]; match goal with |- inside ?a ?n x = false => destruct (inside_spec a n x); [|done] end;
      destruct (inside_spec 4120 4 x), (inside_spec 4124 4 x); (done || lia).
  - intros x Hx. cbn [k2 ex_serve with_memory memory]. by do 3 apply put_some.
Qed.

Lemma ex_sym_ok : symbols_ok ex_sym.
Proof.
  split; cbn [ex_sym a_tohost a_fromhost a_htif_lock a_magic_mem a_call_lock]; unfold apart; [|lia..].
  intros a Ha. repeat (apply elem_of_cons in Ha as [->|Ha]; [lia|]). by apply elem_of_nil in Ha.
Qed.

Definition ex_kmem0 : kmem unit := mkKmem tt (mem_at 4096 (replicate 64 0) ∪ mem_at 8192 (replicate 64 0)) 0.

Lemma frontend_syscall_serves_witness :
  wp (frontend_syscall 3 ex_sym HTIFSYS_write 1 8192 4 0 0 0 0)
     (fun r k' => exists k1 m1, asked 3 ex_sym ex_kmem0 [HTIFSYS_write; 1; 8192; 4; 0; 0; 0; 0] k1 m1 /\
        answered 3 ex_sym (hs_serve (with_memory m1 k1)) r k')
     no_stop ex_kmem0.
Proof.
  apply (frontend_syscall_serves 3 ex_sym HTIFSYS_write 1 8192 4 0 0 0 0 ex_kmem0).
  - exact ex_sym_ok.
  - split; [split|..]; try (vm_compute; reflexivity). apply has_b_spec. vm_compute. reflexivity.
Defined.

(** ** Files *)
(** C31: Closing a file right after opening it does not close it: with
    INIT_FILE_REF references and no descriptor slot, [spike_file_close]
    returns -1, drops one reference, leaves two, and never calls the host,
    whatever the host would do. *)
Theorem spike_file_close_leaks {S} `{Frontend S} `{Harts S} `{SpikeAtomics} `{!AtomicsSpec} (sym : spike_symbols) (k : kmem S) f w old :
  0 < f -> f + sizeof_spike_file < 2 ^ 64 ->
  load_le 4 (f + F_KFD) (memory k) = Some w -> load_le 4 (f + F_REFCNT) (memory k) = Some INIT_FILE_REF ->
  load_le 8 (fd_slot sym (s32 w)) (memory k) = Some old -> old <> f ->
  wp (spike_file_close sym f)
     (fun r k' => r = -1 /\ load_le 4 (f + F_REFCNT) (memory k') = Some 2 /\
        (forall x, ~ (f + F_REFCNT <= x < f + F_REFCNT + 4) -> memory k' !! x = memory k !! x) /\
        heap k' = with_hart (enable_irqrestore (fst (disable_irqsave (hart_of (heap k))))) (with_hart (fun h => snd (disable_irqsave h)) (heap k)))
     no_stop k.
Proof.
  intros Hf Htop Hw Hr Ho Hne. unfold sizeof_spike_file, F_KFD, F_REFCNT in *. unfold spike_file_close. rewrite (proj2 (Z.eqb_neq f 0)) by lia.
  apply wp_bind. unfold file_kfd, F_KFD. rewrite u64_id by (unfold is_u64; lia). apply wp_bind, wp_on_mem'. eapply wp_load; [exact Hw|]. rewrite with_memory_eta.
  apply wp_ret, wp_bind. unfold atomic_cas. apply wp_bind. unfold irq_off. apply wp_bind, wp_gets, wp_bind, wp_modify, wp_ret.
  apply wp_bind, wp_on_mem'. eapply wp_load; [exact Ho|]. rewrite with_memory_eta, (proj2 (Z.eqb_neq old f)) by done.
  apply wp_bind, wp_ret, wp_bind, wp_modify, wp_ret, wp_bind. unfold spike_file_decref, F_REFCNT. rewrite u64_id by (unfold is_u64; lia).
  apply wp_bind, wp_on_mem'. rewrite as_add. cbn [memory heap g_kernel_pagetable]. apply wp_bind. eapply wp_load; [exact Hr|].
  apply wp_bind, wp_store; [by eapply load_has|]. intros m' Hs _. apply wp_ret. change (s32 INIT_FILE_REF =? 2) with false. cbv iota. apply wp_ret.
  rewrite (proj2 (Z.eqb_neq old f)) by done. cbn [negb]. apply wp_ret. split; [done|]. cbn [memory heap with_memory]. split; [|split; [|done]].
  - rewrite (load_store_same _ _ _ _ _ Hs). done.
  - intros x Hx. apply (store_frame _ _ _ _ _ _ Hs). by destruct (inside_spec (f + 4) (Z.of_nat 4) x).
Qed.

#[local] Instance hart_harts : Harts hart := { hart_of h := h; with_hart f h := f h }.
#[local] Instance ex_silent : Frontend hart := {| fe_syscall _ _ _ _ _ _ := halt WildAccess |}.
Definition ex_open_file : kmem hart :=
  mkKmem (mkHart 0 2 0 0 0 0 0) (mem_at 12288 (replicate 64 0) ∪ mem_at 16384 [3; 0; 0; 0; 3; 0; 0; 0]) 0.

Lemma spike_file_close_leaks_witness :
  wp (spike_file_close ex_sym 16384)
     (fun r k' => r = -1 /\ load_le 4 (16384 + F_REFCNT) (memory k') = Some 2 /\
        (forall x, ~ (16384 + F_REFCNT <= x < 16384 + F_REFCNT + 4) -> memory k' !! x = memory ex_open_file !! x) /\
        heap k' = with_hart (enable_irqrestore (fst (disable_irqsave (hart_of (heap ex_open_file))))) (with_hart (fun h => snd (disable_irqsave h)) (heap ex_open_file)))
     no_stop ex_open_file.
Proof.
  apply (spike_file_close_leaks ex_sym ex_open_file 16384 3 0).
  - lia.
  - unfold sizeof_spike_file. lia.
  - vm_compute. reflexivity.
  - vm_compute. reflexivity.
  - vm_compute. reflexivity.
  - lia.
Defined.
