(* ===== verification/ElfProofs.v ===== *)
(** * Loading a program: lemmas

    The loader adds one page and one region for each loadable segment of the
    file to the address space of a process. *)
From stdpp Require Import base gmap list strings.
From Stdlib Require Import ZArith Lia.
From S2P Require Import Prelude Riscv PmmState Mem Str Vmm VmmProofs VmmSpec KernVm VmTheorems ProcState Sched Process Trap SchedProofs TrapProofs HeapProofs SpaceProofs AllocProcess Spike SpikeFile Elf Hosted.

#[local] Arguments load_le : simpl never.
#[local] Arguments store_le : simpl never.

Definition rwx_user : Z := prot_to_type (Z.lor (Z.lor PROT_WRITE PROT_READ) PROT_EXEC) 1.

(** ** The file *)
Record seg := mkSeg { sg_va : Z; sg_off : Z; sg_memsz : Z; sg_flags : Z }.

(** The program header at [off] of the file. *)
Section file.
Context (data : list Z).
Definition ph_type (off : Z) : Z := le_at data (off + PH_TYPE) 4.
Definition ph_filesz (off : Z) : Z := le_at data (off + PH_FILESZ) 8.
Definition ph_seg (off : Z) : seg :=
  mkSeg (le_at data (off + PH_VADDR) 8) (le_at data (off + PH_OFF) 8) (le_at data (off + PH_MEMSZ) 8) (le_at data (off + PH_FLAGS) 4).

(** The segments to be loaded before the first bad header, and the status. *)
Fixpoint elf_plan (n : nat) (off : Z) : list seg * elf_status :=
  match n with
  | O => ([], EL_OK)
  | S n =>
      if lenZ data <? off + sizeof_elf_prog_header then ([], EL_EIO)
      else if negb (ph_type off =? ELF_PROG_LOAD) then elf_plan n (off + sizeof_elf_prog_header)
      else
        let sg := ph_seg off in
        if sg_memsz sg <? ph_filesz off then ([], EL_ERR)
        else if u64 (sg_va sg + sg_memsz sg) <? sg_va sg then ([], EL_ERR)
        else let r := elf_plan n (off + sizeof_elf_prog_header) in (sg :: fst r, snd r)
  end.

Definition seg_type (sg : seg) : Z := if sg_flags sg =? Z.lor SEGMENT_READABLE SEGMENT_EXECUTABLE then CODE_SEGMENT else DATA_SEGMENT.
Definition seg_region (sg : seg) : Z * Z * Z := (sg_va sg, 1, seg_type sg).

(** What a segment needs to be loadable. *)
Record seg_ok (sg : seg) : Prop := {
  so_page : user_page (sg_va sg);
  so_small : 0 <= sg_memsz sg < PGSIZE;
  so_off : 0 <= sg_off sg;
  so_inside : sg_off sg + sg_memsz sg <= lenZ data;
  so_flags : sg_flags sg = Z.lor SEGMENT_READABLE SEGMENT_EXECUTABLE \/ sg_flags sg = Z.lor SEGMENT_READABLE SEGMENT_WRITABLE
}.

(** Byte [i] of a segment's page. *)
Definition seg_byte (sg : seg) (i : Z) : Z := if i <? sg_memsz sg then default 0 (data !! Z.to_nat (sg_off sg + i)) else 0.
Definition holds_seg (m : mem) (a : Z) (sg : seg) : Prop := forall i, 0 <= i < PGSIZE -> m !! (a + i) = Some (seg_byte sg i).
End file.

Section elf.
Context {S : Type} `{Allocator S} `{Harts S} `{Frontend S} `{SpikeAtomics} (lo hi : Z) `{!AllocatorSpec S lo hi} `{!FrontendSpec S lo hi}.
Context (bufs : elf_bufs) (info : elf_info) (p root mi kfd : Z) (data hdr : list Z).
Context (Hmi : lo <= mi) (Hmi' : mi + PGSIZE <= hi) (Hp : ei_p info = Some p).
Implicit Types (T : ptable) (U : gset Z) (n : nat) (s : kstate S).

(** The loader's locals and the file structure lie in the kernel image, apart
    from each other and from the host interface. *)
Definition low_data (a k : Z) : Prop := 0 <= a /\ a + k <= lo /\ forall x, a <= x < a + k -> fe_scratch x = false.
Record placed : Prop := {
  pl_ehdr : low_data (eb_ehdr bufs) sizeof_elf_header;
  pl_ph : low_data (eb_ph bufs) sizeof_elf_prog_header;
  pl_file : low_data (ei_f info) sizeof_spike_file;
  pl_apart1 : eb_ehdr bufs + sizeof_elf_header <= eb_ph bufs \/ eb_ph bufs + sizeof_elf_prog_header <= eb_ehdr bufs;
  pl_apart2 : ei_f info + sizeof_spike_file <= eb_ph bufs \/ eb_ph bufs + sizeof_elf_prog_header <= ei_f info;
  pl_apart3 : ei_f info + sizeof_spike_file <= eb_ehdr bufs \/ eb_ehdr bufs + sizeof_elf_header <= ei_f info;
  pl_data : lenZ data < 2 ^ 62
}.

Record loading n U T (g : Z -> option Z) (l : list (Z * Z * Z)) (x : process) s : Prop := {
  lg_space : aspace lo hi root mi n U T g l s;
  lg_own : mi ∈ U;
  lg_tables π q : T !! π = Some q -> lo <= q;
  lg_free j : lenZ l <= j < 256 -> load_le 8 (mi + 16 * j) (memory (km s)) = Some 0;
  lg_used e : e ∈ l -> fst (fst e) <> 0;
  lg_idle : fe_idle (km s);
  lg_file : fe_files (heap (km s)) kfd = Some data;
  lg_proc : procs s !! p = Some x;
  lg_root : pagetable x = root;
  lg_info : mapped_info x = mi;
  lg_kfd : exists w, load_le 4 (ei_f info) (memory (km s)) = Some w /\ s32 w = kfd;
  lg_hdr : bytes_at (memory (km s)) (eb_ehdr bufs) hdr;
  lg_ph : has (memory (km s)) (eb_ph bufs) sizeof_elf_prog_header
}.

(** Away from the region table, the loader's header buffer and the host
    interface, data that no table overlaps stays as it is. *)
Definition away (a k : Z) : Prop :=
  (a + k <= mi \/ mi + PGSIZE <= a) /\ (a + k <= eb_ph bufs \/ eb_ph bufs + sizeof_elf_prog_header <= a) /\
  forall y, a <= y < a + k -> fe_scratch y = false.
Record calm U T s U' T' s' : Prop := {
  cm_own : U ⊆ U';
  cm_rest : current s' = current s /\ ready_queue_head s' = ready_queue_head s /\ g_ticks s' = g_ticks s /\
            g_kernel_pagetable (km s') = g_kernel_pagetable (km s);
  cm_procs q : q <> p -> procs s' !! q = procs s !! q;
  cm_kept a k : kept lo hi T U a k -> away a k ->
    kept lo hi T' U' a k /\ forall y, a <= y < a + k -> memory (km s') !! y = memory (km s) !! y;
  cm_fresh π q : T' !! π = Some q -> T !! π = Some q \/ new_page lo hi U q
}.

Lemma calm_refl U T s : calm U T s U T s.
Proof. split; auto. Qed.

Lemma calm_trans U1 T1 s1 U2 T2 s2 U3 T3 s3 : calm U1 T1 s1 U2 T2 s2 -> calm U2 T2 s2 U3 T3 s3 -> calm U1 T1 s1 U3 T3 s3.
Proof.
  intros [A1 A2 A3 A4 A5] [B1 B2 B3 B4 B5]. split.
  - by etrans.
  - destruct_and?. split_and!; congruence.
  - intros q Hq. by rewrite B3, A3.
  - intros a k Hk Ha. destruct (A4 a k Hk Ha) as [K1 M1]. destruct (B4 a k K1 Ha) as [K2 M2]. split; [done|].
    intros y Hy. by rewrite M2, M1.
  - by eapply fresh_trans.
Qed.

Lemma low_kept n U T g l x s a k : loading n U T g l x s -> a + k <= lo -> kept lo hi T U a k.
Proof. intros HL Ha. apply kept_below; [|done]. intros π q Hq. left. pose proof (lg_tables _ _ _ _ _ _ _ HL π q Hq). lia. Qed.

(** *** After a read of the file *)
Record got s k' (b len : Z) : Prop := {
  gt_idle : fe_idle k';
  gt_files : fe_files (heap k') = fe_files (heap (km s));
  gt_al n U : al_inv n U (heap (km s)) -> al_inv n U (heap k');
  gt_dir : g_kernel_pagetable k' = g_kernel_pagetable (km s);
  gt_bytes : bytes_ok (memory k');
  gt_has y : is_Some (memory (km s) !! y) -> is_Some (memory k' !! y);
  gt_frame y : ~ (b <= y < b + len) -> fe_scratch y = false -> memory k' !! y = memory (km s) !! y
}.

Lemma got_has s k' b len a j : got s k' b len -> has (memory (km s)) a j -> has (memory k') a j.
Proof. intros HG Hh y Hy. apply (gt_has _ _ _ _ HG). by apply Hh. Qed.

(** An address space depends on its tables and its region table only. *)
Lemma aspace_frame n U T g l s k' : aspace lo hi root mi n U T g l s -> Z.of_nat (length l) <= 256 ->
  al_inv n U (heap k') -> bytes_ok (memory k') -> (forall y, is_Some (memory (km s) !! y) -> is_Some (memory k' !! y)) ->
  (forall π q y, T !! π = Some q -> q <= y < q + PGSIZE -> memory k' !! y = memory (km s) !! y) ->
  (forall y, mi <= y < mi + PGSIZE -> memory k' !! y = memory (km s) !! y) -> aspace lo hi root mi n U T g l (set_km k' s).
Proof.
  intros [V1 V2 V3 V4] Hl Hal Hb Hh Ht Hi.
  set (P := fun y => bool_decide (memory k' !! y <> memory (km s) !! y)).
  assert (Hu : upd (memory (km s)) (memory k') P (fun y => default 0 (memory k' !! y))).
  { intros y. unfold P. destruct (decide (memory k' !! y = memory (km s) !! y)) as [E|E].
    - by rewrite bool_decide_eq_false_2 by (intros Hn; by apply Hn).
    - rewrite bool_decide_eq_true_2 by done. destruct (memory k' !! y) as [c|] eqn:Hy; [done|].
      destruct (memory (km s) !! y) as [c|] eqn:Hc; [|done]. destruct (Hh y) as [d Hd]; [by eexists|congruence]. }
  assert (Hf : forall y, P y = true -> 0 <= default 0 (memory k' !! y) < 256).
  { intros y _. destruct (memory k' !! y) as [c|] eqn:Hc; cbn; [by apply Hb in Hc|lia]. }
  assert (Hnt : forall y π q, P y = true -> T !! π = Some q -> ~ (q <= y < q + PGSIZE)).
  { intros y π q HP Hq Hy. apply bool_decide_eq_true in HP. by apply HP, (Ht π q). }
  destruct (data_tree root T _ _ _ _ (vi_tree _ _ _ _ _ _ _ V1) Hu Hf Hnt) as [HT HV].
  split; cbn [km set_km].
  - destruct V1 as [W1 W2 W3 W4]. split; [done|done|intros y Hy; by apply Hh, W3|done].
  - intros vb Hvb. rewrite HV. by apply V2.
  - done.
  - by eapply regions_at_ext.
Qed.

Lemma got_space n U T g l x s k' b len : loading n U T g l x s -> got s k' b len -> Z.of_nat (length l) <= 256 ->
  off_tables T b len -> (b + len <= mi \/ mi + PGSIZE <= b) -> aspace lo hi root mi n U T g l (set_km k' s).
Proof.
  intros HL HG Hl Hoff Hb. pose proof (lg_space _ _ _ _ _ _ _ HL) as HA.
  assert (Hs : forall y, lo <= y -> fe_scratch y = false).
  { intros y Hy. destruct (fe_scratch y) eqn:Es; [apply (fe_below y) in Es; lia|done]. }
  eapply aspace_frame; [exact HA|exact Hl| |exact (gt_bytes _ _ _ _ HG)|exact (gt_has _ _ _ _ HG)| |].
  - apply (gt_al _ _ _ _ HG), (vi_al _ _ _ _ _ _ _ (as_inv _ _ _ _ _ _ _ _ _ _ HA)).
  - intros π q y Hq Hy. pose proof (lg_tables _ _ _ _ _ _ _ HL π q Hq). apply (gt_frame _ _ _ _ HG); [destruct (Hoff π q Hq); lia|apply Hs; lia].
  - intros y Hy. apply (gt_frame _ _ _ _ HG); [lia|apply Hs; lia].
Qed.

End elf.

(** The header buffer may change too. *)
Section elf2.
Context {S : Type} `{Allocator S} `{Harts S} `{Frontend S} `{SpikeAtomics} (lo hi : Z) `{!AllocatorSpec S lo hi} `{!FrontendSpec S lo hi}.
Context (bufs : elf_bufs) (info : elf_info) (p root mi kfd : Z) (data : list Z).
Context (Hmi : lo <= mi) (Hmi' : mi + PGSIZE <= hi) (HPl : placed lo hi bufs info data).
Implicit Types (T : ptable) (U : gset Z) (n : nat) (s : kstate S).

Lemma got_loading_hdr hdr hdr' n U T g l x s k' b len : loading lo hi bufs info p root mi kfd data hdr n U T g l x s -> got lo hi s k' b len ->
  Z.of_nat (length l) <= 256 -> off_tables T b len -> (b + len <= mi \/ mi + PGSIZE <= b) ->
  (b + len <= ei_f info \/ ei_f info + sizeof_spike_file <= b) -> bytes_at (memory k') (eb_ehdr bufs) hdr' ->
  loading lo hi bufs info p root mi kfd data hdr' n U T g l x (set_km k' s).
Proof.
  intros HL HG Hl Hoff Hb Hb2 Hh. assert (HS : aspace lo hi root mi n U T g l (set_km k' s)) by (eapply got_space; [exact Hmi|done..]).
  destruct HL as [L1 L2 L3 L4 L5 L6 L7 L8 L9 L10 (w & L11 & L12) L13 L14]. pose proof HG as [G1 G2 G3 G4 G5 G6 G7].
  destruct (pl_file _ _ _ _ _ HPl) as (F1 & F2 & F3). unfold sizeof_spike_file in *.
  split; cbn [km set_km]; try done.
  - intros j Hj. rewrite <- (L4 j Hj). apply load_le_ext. intros y Hy. unfold lenZ in Hj. unfold PGSIZE in *.
    apply G7; [lia|]. destruct (fe_scratch y) eqn:Es; [apply (fe_below y) in Es; lia|done].
  - by rewrite G2.
  - exists w. split; [|done]. rewrite <- L11. apply load_le_ext. intros y Hy. apply G7; [lia|apply F3; lia].
  - by eapply got_has.
Qed.
End elf2.

Section elf.
Context {S : Type} `{Allocator S} `{Harts S} `{Frontend S} `{SpikeAtomics} (lo hi : Z) `{!AllocatorSpec S lo hi} `{!FrontendSpec S lo hi}.
Context (bufs : elf_bufs) (info : elf_info) (p root mi kfd : Z) (data hdr : list Z).
Context (Hmi : lo <= mi) (Hmi' : mi + PGSIZE <= hi) (Hp : ei_p info = Some p).
Context (HPl : placed lo hi bufs info data) (Hhdr : length hdr = 64%nat).
Implicit Types (T : ptable) (U : gset Z) (n : nat) (s : kstate S).

#[local] Abbreviation loading := (loading lo hi bufs info p root mi kfd data hdr).
#[local] Abbreviation calm := (calm lo hi bufs p mi).
#[local] Abbreviation got := (got lo hi).

Definition off_locals (b len : Z) : Prop :=
  (b + len <= eb_ehdr bufs \/ eb_ehdr bufs + sizeof_elf_header <= b) /\ (b + len <= ei_f info \/ ei_f info + sizeof_spike_file <= b).

Lemma got_loading n U T g l x s k' b len : loading n U T g l x s -> got s k' b len -> Z.of_nat (length l) <= 256 ->
  off_tables T b len -> (b + len <= mi \/ mi + PGSIZE <= b) -> off_locals b len -> loading n U T g l x (set_km k' s).
Proof.
  intros HL HG Hl Hoff Hb [Hb1 Hb2]. eapply got_loading_hdr; [done..|]. intros i c Hc. pose proof (lookup_lt_Some _ _ _ Hc).
  destruct (pl_ehdr _ _ _ _ _ HPl) as (E1 & E2 & E3). unfold sizeof_elf_header in *.
  rewrite (gt_frame _ _ _ _ _ _ HG); [by apply (lg_hdr _ _ _ _ _ _ _ _ _ _ _ _ _ _ _ _ _ HL)|lia|apply E3; lia].
Qed.

(** A read through the file structure. *)
Lemma wp_elf_fpread n U T g l x s dest nb off (Q : Z -> kstate S -> Prop) E :
  loading n U T g l x s -> has (memory (km s)) dest nb -> (forall y, dest <= y < dest + nb -> fe_scratch y = false) ->
  0 <= dest -> dest + nb < 2 ^ 63 -> 0 <= nb -> 0 <= off < 2 ^ 63 ->
  (forall k', got s k' dest (lenZ (piece off nb data)) -> bytes_at (memory k') dest (piece off nb data) -> Q (lenZ (piece off nb data)) (set_km k' s)) ->
  wp (elf_fpread info dest nb off) Q E s.
Proof.
  intros HL Hh Hs Hd Hd2 Hnb Hoff HQ. destruct (lg_kfd _ _ _ _ _ _ _ _ _ _ _ _ _ _ _ _ _ HL) as (w & Hw & Ew).
  destruct (pl_file _ _ _ _ _ HPl) as (F1 & F2 & _). unfold sizeof_spike_file in *.
  destruct (al_arena _ _ _ (vi_al _ _ _ _ _ _ _ (as_inv _ _ _ _ _ _ _ _ _ _ (lg_space _ _ _ _ _ _ _ _ _ _ _ _ _ _ _ _ _ HL)))) as [Hlo0 Hhi].
  unfold elf_fpread. apply wp_bind, wp_on_km. unfold spike_file_pread, file_kfd, F_KFD. apply wp_bind, wp_bind, wp_on_mem.
  rewrite Z.add_0_r, u64_id by (unfold is_u64; unfold PGSIZE in *; lia). apply wp_load with (v := w); [exact Hw|].
  rewrite kmem_eta. apply wp_ret. rewrite Ew. pose proof (piece_len off nb data ltac:(lia) Hnb) as Hpl.
  eapply wp_mono; [apply (fe_pread (km s) kfd dest nb off data); [exact (lg_idle _ _ _ _ _ _ _ _ _ _ _ _ _ _ _ _ _ HL)|exact (lg_file _ _ _ _ _ _ _ _ _ _ _ _ _ _ _ _ _ HL)| |exact Hh|exact Hs|lia..]| |done].
  { exact (pt_bytes _ _ _ (vi_tree _ _ _ _ _ _ _ (as_inv _ _ _ _ _ _ _ _ _ _ (lg_space _ _ _ _ _ _ _ _ _ _ _ _ _ _ _ _ _ HL)))). }
  intros r k' (-> & R2 & R3 & R4 & R5 & R6 & R7 & R8 & R9). apply wp_ret. rewrite u64_id by (unfold is_u64; lia).
  apply HQ; [by split|exact R8].
Qed.

(** *** The header of one segment *)
Lemma wp_read_header n U T g l x s off (Q : Z -> kstate S -> Prop) E :
  loading n U T g l x s -> Z.of_nat (length l) <= 256 -> 0 <= off < 2 ^ 63 ->
  (forall s', loading n U T g l x s' -> calm U T s U T s' -> bytes_at (memory (km s')) (eb_ph bufs) (piece off sizeof_elf_prog_header data) ->
     Q (lenZ (piece off sizeof_elf_prog_header data)) s') ->
  wp (elf_fpread info (eb_ph bufs) sizeof_elf_prog_header off) Q E s.
Proof.
  intros HL Hl Hoff HQ. destruct (pl_ph _ _ _ _ _ HPl) as (P1 & P2 & P3). pose proof (pl_apart1 _ _ _ _ _ HPl) as Ha1. pose proof (pl_apart2 _ _ _ _ _ HPl) as Ha2.
  destruct (al_arena _ _ _ (vi_al _ _ _ _ _ _ _ (as_inv _ _ _ _ _ _ _ _ _ _ (lg_space _ _ _ _ _ _ _ _ _ _ _ _ _ _ _ _ _ HL)))) as [Hlo0 Hhi].
  pose proof (piece_len off sizeof_elf_prog_header data ltac:(lia) ltac:(done)) as Hpl. unfold sizeof_elf_prog_header, PGSIZE in *.
  eapply wp_elf_fpread; [exact HL|exact (lg_ph _ _ _ _ _ _ _ _ _ _ _ _ _ _ _ _ _ HL)|done|done|lia|done|done|]. intros k' HG Hb.
  assert (HL' : loading n U T g l x (set_km k' s)).
  { eapply got_loading; [exact HL|exact HG|exact Hl| |lia|].
    - intros π q Hq. pose proof (lg_tables _ _ _ _ _ _ _ _ _ _ _ _ _ _ _ _ _ HL π q Hq). left. lia.
    - split; unfold sizeof_elf_header, sizeof_spike_file in *; lia. }
  apply HQ; [exact HL'| |exact Hb]. split; cbn [km set_km]; try done.
  - split_and!; try done. exact (gt_dir _ _ _ _ _ _ HG).
  - intros a k Hk (_ & A2 & A3). split; [done|]. intros y Hy. apply (gt_frame _ _ _ _ _ _ HG); [unfold sizeof_elf_prog_header in *; lia|by apply A3].
  - by left.
Qed.

Lemma header_field n s off k : lo <= 2 ^ 56 -> bytes_at (memory (km s)) (eb_ph bufs) (piece off sizeof_elf_prog_header data) ->
  0 <= off -> off + sizeof_elf_prog_header <= lenZ data -> 0 <= k -> k + Z.of_nat n <= sizeof_elf_prog_header ->
  load_le n (u64 (eb_ph bufs + k)) (memory (km s)) = Some (le_at data (off + k) n).
Proof.
  intros Hlo Hb Ho1 Ho2 Hk Hn. destruct (pl_ph _ _ _ _ _ HPl) as (P1 & P2 & _). rewrite <- (piece_le_at off sizeof_elf_prog_header data k n) by done.
  rewrite <- (load_le_at n _ _ _ k Hb); [|done|by rewrite piece_full].
  unfold sizeof_elf_prog_header in *. by rewrite u64_id by (unfold is_u64; lia).
Qed.

(** *** The page of one segment *)
Lemma wp_steady_km {A} (m : M (kmem S) A) s (Q : A -> kstate S -> Prop) E : steady m ->
  wp (on_km m) (fun a s' => fe_same (heap (km s)) (heap (km s')) -> Q a s') E s -> wp (on_km m) Q E s.
Proof. intros Hm. unfold wp, on_km, zoom. specialize (Hm (km s)). destruct (m (km s)); auto. Qed.

Lemma loading_take n U T g l x s a h : loading (Datatypes.S n) U T g l x s -> al_inv n (U ∪ {[a]}) h -> fe_same (heap (km s)) h ->
  loading n (U ∪ {[a]}) T g l x (set_km (mkKmem h (memory (km s)) (g_kernel_pagetable (km s))) s).
Proof.
  intros [[V1 V2 V3 V4] L2 L3 L4 L5 L6 L7 L8 L9 L10 L11 L12 L13] Hal Hs. split; cbn [km set_km heap memory]; try done.
  - split; cbn [km set_km memory]; try done; [by apply vinv_take|].
    destruct V3 as [K1 K2]. split; [exact K1|]. intros q Hq (Hn & Hr). apply K2; [done|]. split; [|done].
    intros Hx. apply Hn. apply elem_of_union_l, Hx.
  - apply elem_of_union_l, L2.
  - eapply fe_idle_ext; [exact L6|exact Hs|done].
  - rewrite (fe_same_files _ _ Hs). exact L7.
Qed.

Lemma filled_got s m' a : bytes_ok (memory (km s)) -> fe_idle (km s) -> lo <= a -> filled (memory (km s)) m' a PGSIZE 0 ->
  got s (mkKmem (heap (km s)) m' (g_kernel_pagetable (km s))) a PGSIZE.
Proof.
  intros Hb Hi Ha Hf. split; cbn [heap memory g_kernel_pagetable]; try done.
  - eapply fe_idle_ext; [exact Hi|apply fe_same_refl|]. intros y Hy. apply (fe_below y) in Hy. cbn [memory]. rewrite Hf.
    destruct (inside_spec a PGSIZE y); [lia|done].
  - eapply upd_bytes; [exact Hf| |exact Hb]. intros y _. done.
  - intros y Hy. rewrite Hf. destruct (inside a PGSIZE y); [by eexists|done].
  - intros y Hy _. rewrite Hf. by destruct (inside_spec a PGSIZE y).
Qed.

Lemma own_page_kept n U T g l x s a : loading n U T g l x s -> page_ok a -> a ∈ U -> (forall π q, T !! π = Some q -> q <> a) ->
  kept lo hi T U a PGSIZE.
Proof. intros HL. exact (kept_used lo hi root n U T (km s) a (as_inv _ _ _ _ _ _ _ _ _ _ (lg_space _ _ _ _ _ _ _ _ _ _ _ _ _ _ _ _ _ HL))). Qed.

Lemma loading_edit n U T g l x s n' U' T' k' va a : loading n U T g l x s -> Z.of_nat (length l) <= 256 ->
  edit lo hi root n U T (km s) n' U' T' k' (map_view (pte_at T (memory (km s))) va 1 a rwx_user) -> fe_same (heap (km s)) (heap k') ->
  loading n' U' T' (map_view g va 1 a rwx_user) l x (set_km k' s) /\ quiet lo hi mi U T s U' T' (set_km k' s).
Proof.
  intros HL Hl D Hs. destruct (edit_aspace lo hi root mi _ _ _ _ _ _ _ _ _ _ _ (lg_space _ _ _ _ _ _ _ _ _ _ _ _ _ _ _ _ _ HL) Hl D) as (A1 & A2 & A3).
  assert (A1' : aspace lo hi root mi n' U' T' (map_view g va 1 a rwx_user) l (set_km k' s)).
  { eapply aspace_view_eq; [exact A1|]. intros vb Hvb. exact (aspace_map_view lo hi root mi _ _ _ _ _ _ _ _ _ _ (lg_space _ _ _ _ _ _ _ _ _ _ _ _ _ _ _ _ _ HL) Hvb). }
  assert (Hlow : forall b j y, b + j <= lo -> b <= y < b + j -> memory k' !! y = memory (km s) !! y).
  { intros b j y Hb Hy. eapply (kept_frame lo hi root); [exact D|eapply low_kept; [exact HL|exact Hb]|exact Hy]. }
  destruct (pl_ehdr _ _ _ _ _ HPl) as (E1 & E2 & _). destruct (pl_file _ _ _ _ _ HPl) as (F1 & F2 & _). destruct (pl_ph _ _ _ _ _ HPl) as (P1 & P2 & _).
  unfold sizeof_elf_header, sizeof_spike_file, PGSIZE in *. split; [|exact A2].
  destruct HL as [L1 L2 L3 L4 L5 L6 L7 L8 L9 L10 (w & L11 & L12) L13 L14]. split; cbn [km set_km]; try done.
  - apply (ed_own _ _ _ _ _ _ _ _ _ _ _ _ D), L2.
  - intros π q Hq. destruct (ed_fresh _ _ _ _ _ _ _ _ _ _ _ _ D π q Hq) as [Ho|(_ & Ho & _)]; [by eapply L3|exact Ho].
  - intros j Hj. rewrite <- (L4 j Hj). apply load_le_ext. intros y Hy. unfold lenZ in Hj. apply A3. lia.
  - eapply fe_idle_ext; [exact L6|exact Hs|]. intros y Hy. apply (fe_below y) in Hy. apply (Hlow y 1); lia.
  - by rewrite (fe_same_files _ _ Hs).
  - exists w. split; [|done]. rewrite <- L11. apply load_le_ext. intros y Hy. apply (Hlow (ei_f info) 8); lia.
  - intros i c Hc. pose proof (lookup_lt_Some _ _ _ Hc). rewrite (Hlow (eb_ehdr bufs) 64) by lia. by apply L13.
  - intros y Hy. rewrite (Hlow (eb_ph bufs) sizeof_elf_prog_header y P2 Hy). by apply L14.
Qed.

(** The new page, before it is mapped. *)
Record fresh_page n U T g l x s a s1 : Prop := {
  fp_load : loading n (U ∪ {[a]}) T g l x s1;
  fp_new : a ∉ U /\ page_ok a /\ lo <= a /\ a + PGSIZE <= hi;
  fp_kept : kept lo hi T (U ∪ {[a]}) a PGSIZE;
  fp_zero y : a <= y < a + PGSIZE -> memory (km s1) !! y = Some 0;
  fp_frame y : ~ (a <= y < a + PGSIZE) -> memory (km s1) !! y = memory (km s) !! y;
  fp_rest : current s1 = current s /\ ready_queue_head s1 = ready_queue_head s /\ g_ticks s1 = g_ticks s /\ procs s1 = procs s /\
            g_kernel_pagetable (km s1) = g_kernel_pagetable (km s)
}.

Lemma wp_fresh_page n U T g l x s {B} (cont : Z -> M (kstate S) B) (Q : B -> kstate S -> Prop) E :
  loading n U T g l x s -> Z.of_nat (length l) <= 256 ->
  (forall a n' s1, n = Datatypes.S n' -> fresh_page n' U T g l x s a s1 -> wp (cont a) Q E s1) ->
  (n = 0%nat -> forall s', E al_stop s') ->
  wp (let* pa := kalloc in
      if pa =? 0 then panic "uvmalloc mem alloc falied" else pmem (memset pa 0 PGSIZE) ;;; cont pa) Q E s.
Proof.
  intros HL Hl HQ HE. pose proof (as_inv _ _ _ _ _ _ _ _ _ _ (lg_space _ _ _ _ _ _ _ _ _ _ _ _ _ _ _ _ _ HL)) as HV.
  apply wp_bind. unfold kalloc. apply wp_steady_km; [apply steady_page|]. fold kalloc.
  apply (wp_kalloc lo hi n U s); [exact (vi_al _ _ _ _ _ _ _ HV)| |exact HE]. intros a h n' -> Hal Hna Ha Hlo Hhi Hs. cbn [km set_km heap] in Hs.
  pose proof (loading_take _ _ _ _ _ _ _ _ _ HL Hal Hs) as HL1. set (s1 := set_km _ s) in *.
  pose proof Ha as (Ha4 & Ha0 & Ha56). rewrite (proj2 (Z.eqb_neq a 0)) by lia.
  assert (Hne : forall π q, T !! π = Some q -> q <> a) by (intros π q Hq ->; by apply Hna, (vi_own _ _ _ _ _ _ _ HV π)).
  assert (Hk : kept lo hi T (U ∪ {[a]}) a PGSIZE) by (eapply own_page_kept; [exact HL1|exact Ha|apply elem_of_union_r, elem_of_singleton; done|exact Hne]).
  apply wp_bind, wp_pmem. apply wp_memset; [done| |lia|unfold PGSIZE in *; lia|].
  { intros y Hy. apply (vi_arena _ _ _ _ _ _ _ HV). lia. }
  intros m' Hf. assert (HG : got s1 (mkKmem (heap (km s1)) m' (g_kernel_pagetable (km s1))) a PGSIZE).
  { apply filled_got; [exact (pt_bytes _ _ _ (vi_tree _ _ _ _ _ _ _ HV))|exact (lg_idle _ _ _ _ _ _ _ _ _ _ _ _ _ _ _ _ _ HL1)|exact Hlo|exact Hf]. }
  apply (HQ a n'); [done|]. change (set_mem m' s1) with (set_km (mkKmem (heap (km s1)) m' (g_kernel_pagetable (km s1))) s1).
  destruct (pl_ehdr _ _ _ _ _ HPl) as (E1 & E2 & _). destruct (pl_file _ _ _ _ _ HPl) as (F1 & F2 & _). split.
  - eapply got_loading; [exact HL1|exact HG|exact Hl|exact (proj1 Hk)| |split; lia].
    destruct (as_info _ _ _ _ _ _ _ _ _ _ (lg_space _ _ _ _ _ _ _ _ _ _ _ _ _ _ _ _ _ HL)) as [_ Hi]. destruct (Hi a Ha4); [by split|by right|by left].
  - done.
  - exact Hk.
  - intros y Hy. cbn. rewrite Hf. by destruct (inside_spec a PGSIZE y).
  - intros y Hy. cbn. rewrite Hf. by destruct (inside_spec a PGSIZE y).
  - done.
Qed.

Lemma rwx_user_range : 0 <= rwx_user < 1024.
Proof. vm_compute. split; congruence. Qed.

(** The page is there and mapped, its contents still zero. *)
Record mapped_page n U T g l x s va a n' U' T' s' : Prop := {
  mp_count : (n <= n' + 3)%nat;
  mp_load : loading n' U' T' (map_view g va 1 a rwx_user) l x s';
  mp_new : a ∉ U /\ a ∈ U' /\ page_ok a /\ lo <= a /\ a + PGSIZE <= hi;
  mp_kept : kept lo hi T' U' a PGSIZE;
  mp_zero y : a <= y < a + PGSIZE -> memory (km s') !! y = Some 0;
  mp_low y : y < lo -> memory (km s') !! y = memory (km s) !! y;
  mp_calm : calm U T s U' T' s';
  mp_procs : procs s' = procs s
}.

Lemma wp_elf_alloc_mb n U T g l x s va memsz w (Q : Z -> kstate S -> Prop) E :
  loading n U T g l x s -> Z.of_nat (length l) <= 256 -> user_page va -> 0 <= memsz < PGSIZE -> g va = Some w -> bit_set w PTE_V = false ->
  (forall a n' U' T' s', mapped_page n U T g l x s va a n' U' T' s' -> Q a s') -> ((n < 3)%nat -> forall s', E al_stop s') ->
  wp (elf_alloc_mb info va memsz) Q E s.
Proof.
  intros HL Hl Hva Hsz Hg Eb HQ HE. unfold elf_alloc_mb. apply wp_bind, wp_kassert; [apply Z.ltb_lt; lia|].
  eapply wp_fresh_page; [exact HL|exact Hl| |intros -> s'; apply HE; lia].
  intros a n1 s1 -> HF. pose proof (fp_load _ _ _ _ _ _ _ _ _ HF) as HL1. destruct (fp_new _ _ _ _ _ _ _ _ _ HF) as (Hna & Ha & Halo & Hahi).
  pose proof Ha as (_ & Ha0 & Ha56). rewrite Hp. apply wp_bind. eapply wp_proc; [exact (lg_proc _ _ _ _ _ _ _ _ _ _ _ _ _ _ _ _ _ HL1)|].
  rewrite (lg_root _ _ _ _ _ _ _ _ _ _ _ _ _ _ _ _ _ HL1). apply wp_bind. apply wp_steady_km; [apply steady_user_vm_map|]. apply wp_on_km.
  eapply (wp_aspace_edit lo hi root mi _ _ _ _ _ s1 va a rwx_user w); [exact (lg_space _ _ _ _ _ _ _ _ _ _ _ _ _ _ _ _ _ HL1)|exact Hva|lia|lia|exact rwx_user_range|exact Hg|exact Eb| |].
  2: { intros Hn k'. apply HE. lia. }
  intros n' U' T' k' Hn D Hs. cbn [km set_km] in Hs. destruct (loading_edit _ _ _ _ _ _ _ _ _ _ _ _ _ HL1 Hl D Hs) as [HL2 [Q1 Q2 Q3 Q4]].
  apply wp_ret. apply (HQ a n' U' T'). pose proof (fp_kept _ _ _ _ _ _ _ _ _ HF) as Hk.
  destruct (fp_rest _ _ _ _ _ _ _ _ _ HF) as (R1 & R2 & R3 & R4 & R5). destruct Q2 as (S1 & S2 & S3 & S4 & S5). split.
  - lia.
  - exact HL2.
  - split_and!; try done. apply Q1, elem_of_union_r, elem_of_singleton. done.
  - eapply kept_edit; [exact D|exact Hk].
  - intros y Hy. cbn [km set_km]. rewrite (kept_frame lo hi root _ _ _ _ _ _ _ _ _ _ _ y D Hk Hy). by apply (fp_zero _ _ _ _ _ _ _ _ _ HF).
  - intros y Hy. cbn [km set_km]. rewrite (kept_frame lo hi root _ _ _ _ _ _ _ _ _ y 1 y D); [apply (fp_frame _ _ _ _ _ _ _ _ _ HF); lia| |lia].
    eapply low_kept; [exact HL1|lia].
  - split.
    + intros u Hu. apply Q1, elem_of_union_l, Hu.
    + split_and!; congruence.
    + intros q _. by rewrite S1, R4.
    + intros b k Hb (A1 & A2 & A3). assert (Hb1 : kept lo hi T (U ∪ {[a]}) b k).
      { destruct Hb as [B1 B2]. split; [done|]. intros q Hq (Hn1 & Hr). apply B2; [done|]. split; [|done]. intros Hx. apply Hn1, elem_of_union_l, Hx. }
      destruct (Q3 b k Hb1 A1) as [K1 M1]. split; [exact K1|]. intros y Hy. rewrite M1 by done. apply (fp_frame _ _ _ _ _ _ _ _ _ HF).
      destruct Hb as [_ B2]. destruct (B2 a (proj1 Ha)); [by split|lia..].
    + intros π q Hq. destruct (Q4 π q Hq) as [Ho|(Ho1 & Ho2)]; [by left|right]. split; [|done]. intros Hx. apply Ho1, elem_of_union_l, Hx.
  - by rewrite S1, R4.
Qed.

(** Filling it from the file. *)
Lemma wp_fill_page n U T g l x s a sg (Q : Z -> kstate S -> Prop) E :
  loading n U T g l x s -> Z.of_nat (length l) <= 256 -> kept lo hi T U a PGSIZE -> lo <= a -> a + PGSIZE <= hi -> (a + PGSIZE <= mi \/ mi + PGSIZE <= a) ->
  (forall y, a <= y < a + PGSIZE -> memory (km s) !! y = Some 0) -> seg_ok data sg ->
  (forall s', loading n U T g l x s' -> holds_seg data (memory (km s')) a sg ->
     (forall y, ~ (a <= y < a + PGSIZE) -> fe_scratch y = false -> memory (km s') !! y = memory (km s) !! y) ->
     current s' = current s /\ ready_queue_head s' = ready_queue_head s /\ g_ticks s' = g_ticks s /\ procs s' = procs s /\
     g_kernel_pagetable (km s') = g_kernel_pagetable (km s) -> Q (sg_memsz sg) s') ->
  wp (elf_fpread info a (sg_memsz sg) (sg_off sg)) Q E s.
Proof.
  intros HL Hl [Hk _] Halo Hahi Hmia Hz [Hva Hsz Hoff Hin Hfl] HQ.
  destruct (al_arena _ _ _ (vi_al _ _ _ _ _ _ _ (as_inv _ _ _ _ _ _ _ _ _ _ (lg_space _ _ _ _ _ _ _ _ _ _ _ _ _ _ _ _ _ HL)))) as [Hlo0 Hhi].
  pose proof (pl_data _ _ _ _ _ HPl) as Hdl. pose proof (piece_full (sg_off sg) (sg_memsz sg) data Hoff ltac:(lia) Hin) as Hpl.
  eapply wp_elf_fpread; [exact HL| | |lia|lia|lia|lia|].
  { intros y Hy. exists 0. apply Hz. lia. }
  { intros y Hy. destruct (fe_scratch y) eqn:Es; [apply (fe_below y) in Es; lia|done]. }
  intros k' HG Hb. rewrite Hpl in *. destruct (pl_ehdr _ _ _ _ _ HPl) as (E1 & E2 & _). destruct (pl_file _ _ _ _ _ HPl) as (F1 & F2 & _).
  apply HQ; [| | |split_and!; try done; exact (gt_dir _ _ _ _ _ _ HG)].
  - eapply got_loading; [exact HL|exact HG|exact Hl|eapply off_tables_sub; [exact Hk|lia|lia]|lia|split; lia].
  - intros i Hi. cbn [km set_km]. unfold seg_byte. destruct (Z.ltb_spec i (sg_memsz sg)) as [Hlt|Hge].
    + destruct (lookup_lt_is_Some_2 data (Z.to_nat (sg_off sg + i))) as [c Hc]; [unfold lenZ in Hin; lia|]. rewrite Hc. cbn [default].
      replace (a + i) with (a + Z.of_nat (Z.to_nat i)) by lia. apply Hb. rewrite piece_lookup by lia. by replace (sg_off sg + Z.of_nat (Z.to_nat i)) with (sg_off sg + i) by lia.
    + rewrite (gt_frame _ _ _ _ _ _ HG); [apply Hz; lia|lia|]. destruct (fe_scratch (a + i)) eqn:Es; [apply (fe_below (a + i)) in Es; lia|done].
  - intros y Hy Hs. apply (gt_frame _ _ _ _ _ _ HG); [lia|done].
Qed.

(** *** The region of one segment *)
Lemma wp_last_region n U T g l x s : loading n U T g l x s -> lenZ l < 256 -> forall (k : nat) j (Q : Z -> kstate S -> Prop) E,
  0 <= j <= lenZ l -> lenZ l < j + Z.of_nat k -> Q (lenZ l) s -> wp (last_region k mi j) Q E s.
Proof.
  intros HL Hl. destruct (al_arena _ _ _ (vi_al _ _ _ _ _ _ _ (as_inv _ _ _ _ _ _ _ _ _ _ (lg_space _ _ _ _ _ _ _ _ _ _ _ _ _ _ _ _ _ HL)))) as [Hlo0 Hhi].
  induction k as [|k IH]; intros j Q E Hj Hk HQ; [lia|]. cbn [last_region].
  destruct (region_addrs mi j ltac:(lia) ltac:(lia) ltac:(unfold PGSIZE in *; lia)) as (A1 & _ & _). rewrite A1.
  apply wp_bind. destruct (decide (j = lenZ l)) as [->|Hne].
  - eapply (wp_pmem_load s 8); [apply (lg_free _ _ _ _ _ _ _ _ _ _ _ _ _ _ _ _ _ HL); lia|]. rewrite Z.eqb_refl. by apply wp_ret.
  - destruct (lookup_lt_is_Some_2 l (Z.to_nat j)) as [e He]; [unfold lenZ in *; lia|].
    destruct (as_regions _ _ _ _ _ _ _ _ _ _ (lg_space _ _ _ _ _ _ _ _ _ _ _ _ _ _ _ _ _ HL) _ _ He) as (R1 & _ & _). rewrite Z2Nat.id in R1 by lia.
    eapply (wp_pmem_load s 8); [exact R1|]. rewrite (proj2 (Z.eqb_neq _ _)).
    + apply IH; [lia|lia|exact HQ].
    + apply (lg_used _ _ _ _ _ _ _ _ _ _ _ _ _ _ _ _ _ HL). by eapply list_elem_of_lookup_2.
Qed.

(** The process with one more region. *)
Definition more_regions (k : Z) (x : process) : process := with_total (total_mapped_region x + k) x.

Lemma seg_region_ok sg : seg_ok data sg -> region_ok (seg_region sg) /\ sg_va sg <> 0.
Proof.
  intros [(Hal & Hlo0 & Hm) _ _ _ _]. rewrite MAXVA_val in Hm. unfold PGSIZE in *. split; [|lia].
  split_and!; cbn; unfold is_u64, seg_type; try lia; case_match; unfold CODE_SEGMENT, DATA_SEGMENT; lia.
Qed.

Lemma recorded n U T g l x s sg m' : loading n U T g l x s -> lenZ l < 256 -> seg_ok data sg ->
  vinv lo hi root n U T (km (set_mem m' s)) -> (forall vb, pte_at T m' vb = pte_at T (memory (km s)) vb) ->
  (forall y, ~ (mi + 16 * lenZ l <= y < mi + 16 * lenZ l + 16) -> m' !! y = memory (km s) !! y) ->
  regions_at m' mi (l ++ [seg_region sg]) -> has m' mi PGSIZE ->
  loading n U T g (l ++ [seg_region sg]) (more_regions 1 x) (set_procs (<[p := more_regions 1 x]> (procs s)) (set_mem m' s)).
Proof.
  intros HL Hl Hsg HV Hv Hfr HR Hh. destruct (seg_region_ok sg Hsg) as [_ Hva]. destruct (pl_ehdr _ _ _ _ _ HPl) as (E1 & E2 & _).
  destruct (pl_file _ _ _ _ _ HPl) as (F1 & F2 & _). destruct (pl_ph _ _ _ _ _ HPl) as (P1 & P2 & _). unfold sizeof_elf_header, sizeof_spike_file, PGSIZE in *.
  destruct HL as [[V1 V2 V3 V4] L2 L3 L4 L5 L6 L7 L8 L9 L10 (w & L11 & L12) L13 L14].
  assert (Hlow : forall y, y < mi -> m' !! y = memory (km s) !! y) by (intros y Hy; apply Hfr; unfold lenZ in *; lia).
  split; cbn [km set_km set_mem set_procs procs memory heap]; try done.
  - split; cbn [km set_km set_mem set_procs memory]; try done. intros vb Hvb. rewrite Hv. by apply V2.
  - intros j Hj. rewrite lenZ_app in Hj. change (lenZ [seg_region sg]) with 1 in Hj. rewrite <- (L4 j ltac:(lia)).
    apply load_le_ext. intros y Hy. apply Hfr. lia.
  - intros e [He|He]%elem_of_app; [by apply L5|]. apply list_elem_of_singleton in He as ->. exact Hva.
  - eapply fe_idle_ext; [exact L6|apply fe_same_refl|]. intros y Hy. apply (fe_below y) in Hy. apply Hlow. lia.
  - by rewrite lookup_insert_eq.
  - exists w. split; [|done]. rewrite <- L11. apply load_le_ext. intros y Hy. apply Hlow. lia.
  - intros i c Hc. pose proof (lookup_lt_Some _ _ _ Hc). rewrite Hlow by lia. by apply L13.
  - intros y Hy. rewrite Hlow by lia. by apply L14.
Qed.

Lemma wp_record_segment n U T g l x s sg (Q : unit -> kstate S -> Prop) E :
  loading n U T g l x s -> lenZ l < 256 -> seg_ok data sg -> load_le 4 (u64 (eb_ph bufs + PH_FLAGS)) (memory (km s)) = Some (sg_flags sg) ->
  (forall m', let s' := set_procs (<[p := more_regions 1 x]> (procs s)) (set_mem m' s) in
     loading n U T g (l ++ [seg_region sg]) (more_regions 1 x) s' ->
     (forall y, ~ (mi <= y < mi + PGSIZE) -> m' !! y = memory (km s) !! y) -> Q tt s') ->
  wp (record_segment bufs info (sg_va sg)) Q E s.
Proof.
  intros HL Hl Hsg Hfl HQ. pose proof (lg_space _ _ _ _ _ _ _ _ _ _ _ _ _ _ _ _ _ HL) as [V1 V2 [K1 _] V4]. destruct (seg_region_ok sg Hsg) as [Hok _].
  destruct (al_arena _ _ _ (vi_al _ _ _ _ _ _ _ V1)) as [Hlo0 Hhi]. assert (Hl0 : 0 <= lenZ l) by (unfold lenZ; lia).
  destruct (pl_ph _ _ _ _ _ HPl) as (P1 & P2 & _). unfold PGSIZE, sizeof_elf_prog_header in *.
  destruct (region_addrs mi (lenZ l) ltac:(lia) Hl0 ltac:(lia)) as (A1 & A2 & A3).
  assert (Hh : has (memory (km s)) mi 4096) by (intros y Hy; apply (vi_arena _ _ _ _ _ _ _ V1); lia).
  assert (Hoff : forall b j, mi <= b -> b + j <= mi + 16 * lenZ l + 16 -> off_tables T b j) by (intros b j Hb1 Hb2; eapply off_tables_sub; [exact K1|lia|lia]).
  assert (Hsub : forall m, has m mi 4096 -> forall b (k : nat), mi <= b -> b + Z.of_nat k <= mi + 16 * lenZ l + 16 -> has m b (Z.of_nat k)).
  { intros m Hm b k Hb1 Hb2 y Hy. apply Hm. lia. }
  unfold record_segment. rewrite Hp. apply wp_bind. eapply wp_proc; [exact (lg_proc _ _ _ _ _ _ _ _ _ _ _ _ _ _ _ _ _ HL)|]. rewrite (lg_info _ _ _ _ _ _ _ _ _ _ _ _ _ _ _ _ _ HL).
  apply wp_bind. eapply wp_last_region; [exact HL|exact Hl|lia|change (Z.of_nat (Z.to_nat (PGSIZE / sizeof_mapped_region))) with 256; lia|]. rewrite A1, A2, A3.
  apply wp_bind. eapply (wp_data_store lo hi root 8); [exact V1|apply Hoff; lia|apply Hsub; [exact Hh|lia..]|]. intros m1 S1 HV1 W1 U1.
  apply wp_bind. eapply (wp_data_store lo hi root 4); [exact HV1|apply Hoff; lia|apply Hsub; [by eapply upd_has|lia..]|]. intros m2 S2 HV2 W2 U2.
  assert (Hfl2 : load_le 4 (u64 (eb_ph bufs + PH_FLAGS)) m2 = Some (sg_flags sg)).
  { rewrite <- Hfl. unfold PH_FLAGS. rewrite u64_id by (unfold is_u64; lia). cbn [km set_km set_mem memory] in S2.
    rewrite (load_store_other _ _ _ _ _ _ _ S2) by lia. apply (load_store_other _ _ _ _ _ _ _ S1). lia. }
  apply wp_bind. eapply (wp_pmem_load _ 4); [exact Hfl2|].
  assert (Hst : wp (pmem (store 4 (mi + 16 * lenZ l + 12) (seg_type sg)) ;;; upd_proc (fun x => with_total (total_mapped_region x + 1) x) (Some p)) Q E (set_mem m2 s)).
  { apply wp_bind. eapply (wp_data_store lo hi root 4); [exact HV2|apply Hoff; lia| |].
    { apply Hsub; [eapply upd_has; [exact U2|by eapply upd_has]|lia..]. }
    intros m3 S3 HV3 W3 U3. cbn [km set_mem set_km memory] in *. change (set_mem m3 (set_mem m2 s)) with (set_mem m3 s).
    destruct (append_region (memory (km s)) mi l (seg_region sg) m1 m2 m3) as [HR Hfr]; [by split_and!|exact Hok|exact V4|].
    eapply wp_upd_proc; [exact (lg_proc _ _ _ _ _ _ _ _ _ _ _ _ _ _ _ _ _ HL)|]. cbn [from_option]. apply (HQ m3).
    - eapply recorded; [exact HL|exact Hl|exact Hsg|exact HV3|intros vb; by rewrite W3, W2, W1|exact Hfr|exact HR|].
      eapply upd_has; [exact U3|eapply upd_has; [exact U2|by eapply upd_has]].
    - intros y Hy. apply Hfr. unfold lenZ in *. lia. }
  unfold seg_type in Hst. destruct (so_flags _ _ Hsg) as [Ef|Ef]; rewrite Ef in *; exact Hst.
Qed.

(** *** One program header *)
Record seg_loaded n U T g l x s sg a n' U' T' s' : Prop := {
  sl_count : (n <= n' + 3)%nat;
  sl_load : loading n' U' T' (map_view g (sg_va sg) 1 a rwx_user) (l ++ [seg_region sg]) (more_regions 1 x) s';
  sl_new : a ∉ U /\ a ∈ U' /\ page_ok a /\ lo <= a /\ a + PGSIZE <= hi;
  sl_apart : a + PGSIZE <= mi \/ mi + PGSIZE <= a;
  sl_kept : kept lo hi T' U' a PGSIZE;
  sl_holds : holds_seg data (memory (km s')) a sg;
  sl_calm : calm U T s U' T' s'
}.

Lemma load_one_segment n U T g l x s sg a n1 U1 T1 s1 s2 m3 :
  mapped_page n U T g l x s (sg_va sg) a n1 U1 T1 s1 -> loading n1 U1 T1 (map_view g (sg_va sg) 1 a rwx_user) l x s2 ->
  holds_seg data (memory (km s2)) a sg -> (a + PGSIZE <= mi \/ mi + PGSIZE <= a) -> mi ∈ U ->
  (forall y, ~ (a <= y < a + PGSIZE) -> fe_scratch y = false -> memory (km s2) !! y = memory (km s1) !! y) ->
  current s2 = current s1 /\ ready_queue_head s2 = ready_queue_head s1 /\ g_ticks s2 = g_ticks s1 /\ procs s2 = procs s1 /\
     g_kernel_pagetable (km s2) = g_kernel_pagetable (km s1) ->
  let s3 := set_procs (<[p := more_regions 1 x]> (procs s2)) (set_mem m3 s2) in
  loading n1 U1 T1 (map_view g (sg_va sg) 1 a rwx_user) (l ++ [seg_region sg]) (more_regions 1 x) s3 ->
  (forall y, ~ (mi <= y < mi + PGSIZE) -> m3 !! y = memory (km s2) !! y) ->
  seg_loaded n U T g l x s sg a n1 U1 T1 s3.
Proof.
  intros [M1 M2 M3 M4 M5 _ M6 M7] HL2 Hh Hmia Hmi0 Hf2 (R1 & R2 & R3 & R4 & R5) s3 HL3 Hf3. split; try done.
  - intros i Hi. cbn [s3 km set_procs set_mem set_km memory]. rewrite Hf3 by lia. by apply Hh.
  - destruct M6 as [C1 C2 C3 C4 C5]. split.
    + exact C1.
    + cbn. destruct_and?. split_and!; congruence.
    + intros q Hq. cbn. rewrite lookup_insert_ne by done. rewrite R4. by apply C3.
    + intros b k Hb (A1 & A2 & A3). destruct (C4 b k Hb ltac:(by split_and!)) as [K1 W1]. split; [exact K1|]. intros y Hy.
      cbn [s3 km set_procs set_mem set_km memory]. rewrite Hf3 by lia. rewrite Hf2; [by apply W1| |by apply A3].
      destruct Hb as [_ B2]. destruct M3 as (Hna & _ & Ha & Halo & Hahi). destruct (B2 a (proj1 Ha)); [by split|lia..].
    + exact C5.
Qed.

Lemma wp_load_segment n U T g l x s off w (Q : option elf_status -> kstate S -> Prop) E :
  loading n U T g l x s -> lenZ l < 256 -> 0 <= off -> off + sizeof_elf_prog_header <= lenZ data -> ph_type data off = ELF_PROG_LOAD ->
  let sg := ph_seg data off in
  (sg_memsz sg <? ph_filesz data off) = false -> (u64 (sg_va sg + sg_memsz sg) <? sg_va sg) = false ->
  seg_ok data sg -> g (sg_va sg) = Some w -> bit_set w PTE_V = false ->
  (forall a n' U' T' s', seg_loaded n U T g l x s sg a n' U' T' s' -> Q None s') -> ((n < 3)%nat -> forall s', E al_stop s') ->
  wp (load_segment bufs info off) Q E s.
Proof.
  intros HL Hl H0' H1' Hty sg Hc1 Hc2 Hsg Hg Eb HQ HE. assert (Hl2 : Z.of_nat (length l) <= 256) by (unfold lenZ in Hl; lia).
  destruct (al_arena _ _ _ (vi_al _ _ _ _ _ _ _ (as_inv _ _ _ _ _ _ _ _ _ _ (lg_space _ _ _ _ _ _ _ _ _ _ _ _ _ _ _ _ _ HL)))) as [Hlo0 Hhi].
  assert (Hlo : lo <= 2 ^ 56) by (unfold PGSIZE in *; lia). pose proof (pl_data _ _ _ _ _ HPl) as Hdl. unfold load_segment. rewrite u64_id by (unfold is_u64; unfold sizeof_elf_prog_header in *; lia).
  apply wp_bind. eapply wp_read_header; [exact HL|exact Hl2|unfold sizeof_elf_prog_header in *; lia|]. intros s1 HL1 HC1 Hb.
  rewrite piece_full, Z.eqb_refl by done. cbn [negb].
  assert (Hfield : forall k n s', memory (km s') = memory (km s1) -> 0 <= k -> k + Z.of_nat n <= sizeof_elf_prog_header ->
    load_le n (u64 (eb_ph bufs + k)) (memory (km s')) = Some (le_at data (off + k) n)).
  { intros k j s' -> Hk1 Hk2. by apply header_field. }
  apply wp_bind. eapply (wp_pmem_load s1 4); [by apply Hfield|]. fold (ph_type data off). rewrite Hty, Z.eqb_refl. cbn [negb].
  apply wp_bind. eapply (wp_pmem_load s1 8); [by apply Hfield|]. apply wp_bind. eapply (wp_pmem_load s1 8); [by apply Hfield|].
  fold (ph_filesz data off). change (le_at data (off + PH_MEMSZ) 8) with (sg_memsz sg). rewrite Hc1.
  apply wp_bind. eapply (wp_pmem_load s1 8); [by apply Hfield|]. change (le_at data (off + PH_VADDR) 8) with (sg_va sg). rewrite Hc2.
  apply wp_bind. eapply (wp_elf_alloc_mb n U T g l x s1); [exact HL1|exact Hl2|exact (so_page _ _ Hsg)|exact (so_small _ _ Hsg)|exact Hg|exact Eb| |exact HE].
  intros a n2 U2 T2 s2 HM. pose proof (mp_load _ _ _ _ _ _ _ _ _ _ _ _ _ HM) as HL2. destruct (mp_new _ _ _ _ _ _ _ _ _ _ _ _ _ HM) as (Hna & Ha2 & Ha & Halo & Hahi).
  destruct (pl_ph _ _ _ _ _ HPl) as (P1 & P2 & P3). unfold sizeof_elf_prog_header in P2, P3.
  assert (Hph : forall k j, 0 <= k -> k + Z.of_nat j <= 56 -> load_le j (u64 (eb_ph bufs + k)) (memory (km s2)) = Some (le_at data (off + k) j)).
  { intros k j Hk1 Hk2. rewrite <- (Hfield k j s1 eq_refl Hk1 Hk2). rewrite u64_id by (unfold is_u64; lia). apply load_le_ext. intros y Hy.
    apply (mp_low _ _ _ _ _ _ _ _ _ _ _ _ _ HM). lia. }
  apply wp_bind. eapply (wp_pmem_load s2 8); [by apply Hph|]. change (le_at data (off + PH_OFF) 8) with (sg_off sg).
  assert (Hmia : a + PGSIZE <= mi \/ mi + PGSIZE <= a).
  { destruct (as_info _ _ _ _ _ _ _ _ _ _ (lg_space _ _ _ _ _ _ _ _ _ _ _ _ _ _ _ _ _ HL1)) as [_ Hi]. destruct (Hi a (proj1 Ha)); [by split|by right|by left]. }
  apply wp_bind. eapply wp_fill_page; [exact HL2|exact Hl2|exact (mp_kept _ _ _ _ _ _ _ _ _ _ _ _ _ HM)|exact Halo|exact Hahi|exact Hmia|exact (mp_zero _ _ _ _ _ _ _ _ _ _ _ _ _ HM)|exact Hsg|].
  intros s3 HL3 Hh3 Hf3 HR3. rewrite Z.eqb_refl. cbn [negb]. apply wp_bind.
  eapply wp_record_segment; [exact HL3|exact Hl|exact Hsg| |].
  { change (sg_flags sg) with (le_at data (off + PH_FLAGS) 4). rewrite <- (Hph PH_FLAGS 4%nat ltac:(done) ltac:(done)). unfold PH_FLAGS. rewrite u64_id by (unfold is_u64; lia). apply load_le_ext. intros y Hy.
    apply Hf3; [unfold PGSIZE in *; lia|apply P3; lia]. }
  intros m4 s4 HL4 Hf4. apply wp_ret. apply (HQ a n2 U2 T2).
  assert (HSL : seg_loaded n U T g l x s1 sg a n2 U2 T2 s4).
  { eapply (load_one_segment n U T g l x s1 sg a n2 U2 T2 s2 s3 m4); [exact HM|exact HL3|exact Hh3|exact Hmia|exact (lg_own _ _ _ _ _ _ _ _ _ _ _ _ _ _ _ _ _ HL)|exact Hf3|exact HR3|exact HL4|exact Hf4]. }
  destruct HSL as [B1 B2 B3 B3' B4 B5 B6]. split; try done. eapply calm_trans; [exact HC1|exact B6].
Qed.
End elf.
