(* ===== verification/ElfSpec.v ===== *)
(** * Loading a program: the loop over the program headers *)
From stdpp Require Import base gmap list strings.
From Stdlib Require Import ZArith Lia.
From S2P Require Import Prelude Riscv PmmState Mem Str Vmm VmmProofs VmmSpec KernVm VmTheorems ProcState Sched Process Trap SchedProofs TrapProofs HeapProofs SpaceProofs AllocProcess Spike SpikeFile Elf Hosted ElfProofs.

#[local] Arguments load_le : simpl never.
#[local] Arguments store_le : simpl never.

(** The address space with each segment's page in it. *)
Fixpoint seg_views (g : Z -> option Z) (segs : list seg) (pages : list Z) : Z -> option Z :=
  match segs, pages with
  | sg :: segs, a :: pages => seg_views (map_view g (sg_va sg) 1 a rwx_user) segs pages
  | _, _ => g
  end.

Lemma more_regions_0 x : more_regions 0 x = x.
Proof. destruct x. unfold more_regions, with_total. cbn. by rewrite Z.add_0_r. Qed.
Lemma more_regions_add j k x : more_regions j (more_regions k x) = more_regions (k + j) x.
Proof. unfold more_regions, with_total. cbn. by rewrite Z.add_assoc. Qed.

Section elf.
Context {S : Type} `{Allocator S} `{Harts S} `{Frontend S} `{SpikeAtomics} (lo hi : Z) `{!AllocatorSpec S lo hi} `{!FrontendSpec S lo hi}.
Context (bufs : elf_bufs) (info : elf_info) (p root mi kfd : Z) (data hdr : list Z).
Context (Hmi : lo <= mi) (Hmi' : mi + PGSIZE <= hi) (Hp : ei_p info = Some p).
Context (HPl : placed lo hi bufs info data) (Hhdr : length hdr = 64%nat).
Implicit Types (T : ptable) (U : gset Z) (n : nat) (s : kstate S).

#[local] Abbreviation loading := (loading lo hi bufs info p root mi kfd data hdr).
#[local] Abbreviation calm := (calm lo hi bufs p mi).
#[local] Abbreviation seg_loaded := (seg_loaded lo hi bufs info p root mi kfd data hdr).

Record segs_loaded n U T g l x s segs pages n' U' T' s' : Prop := {
  ss_count : (n <= n' + 3 * length segs)%nat;
  ss_load : loading n' U' T' (seg_views g segs pages) (l ++ map seg_region segs) (more_regions (lenZ segs) x) s';
  ss_len : length pages = length segs;
  ss_new a : a ∈ pages -> (a ∉ U) /\ a ∈ U' /\ page_ok a /\ lo <= a /\ a + PGSIZE <= hi;
  ss_distinct : NoDup pages;
  ss_holds (i : nat) sg a : segs !! i = Some sg -> pages !! i = Some a -> holds_seg data (memory (km s')) a sg;
  ss_calm : calm U T s U' T' s'
}.

Lemma segs_loaded_nil n U T g l x s s' : loading n U T g l x s' -> calm U T s U T s' -> segs_loaded n U T g l x s [] [] n U T s'.
Proof.
  intros HL HC. split; try done; cbn.
  - lia.
  - rewrite app_nil_r. change (lenZ (@nil seg)) with 0. by rewrite more_regions_0.
  - intros a Ha. by apply elem_of_nil in Ha.
  - constructor.
Qed.

(** A step that changes nothing but the header buffer. *)
Lemma segs_loaded_calm n U T g l x s s1 segs pages n' U' T' s' : calm U T s U T s1 -> segs_loaded n U T g l x s1 segs pages n' U' T' s' ->
  segs_loaded n U T g l x s segs pages n' U' T' s'.
Proof. intros HC [A1 A2 A3 A4 A5 A6 A7]. split; try done. eapply calm_trans; [exact HC|exact A7]. Qed.

Lemma segs_loaded_cons n U T g l x s sg a n1 U1 T1 s1 segs pages n' U' T' s' :
  seg_loaded n U T g l x s sg a n1 U1 T1 s1 ->
  segs_loaded n1 U1 T1 (map_view g (sg_va sg) 1 a rwx_user) (l ++ [seg_region sg]) (more_regions 1 x) s1 segs pages n' U' T' s' ->
  segs_loaded n U T g l x s (sg :: segs) (a :: pages) n' U' T' s'.
Proof.
  intros [B1 B2 (B3 & B3u & Ba & Bl & Bh) Hmia B4 B5 B6] [A1 A2 A3 A4 A5 A6 A7].
  split.
  - cbn [length]. lia.
  - cbn [seg_views map]. rewrite more_regions_add in A2. rewrite <- app_assoc in A2.
    replace (lenZ (sg :: segs)) with (1 + lenZ segs) by (unfold lenZ; cbn [length]; lia). exact A2.
  - cbn. by rewrite A3.
  - intros b Hb. apply elem_of_cons in Hb as [->|Hb].
    + split_and!; try done. by apply (cm_own _ _ _ _ _ _ _ _ _ _ _ A7).
    + destruct (A4 b Hb) as (Hn & Hr). split; [|exact Hr]. intros Hx. apply Hn. by apply (cm_own _ _ _ _ _ _ _ _ _ _ _ B6).
  - constructor; [|exact A5]. intros Ha. by destruct (A4 a Ha).
  - intros [|i] sg' b Hsg Hb; cbn in Hsg, Hb; [|by eapply A6]. injection Hsg as <-. injection Hb as <-.
    intros j Hj. destruct (cm_kept _ _ _ _ _ _ _ _ _ _ _ A7 a PGSIZE B4) as [_ Hm]; [|rewrite Hm by lia; by apply B5].
    destruct (pl_ph _ _ _ _ _ HPl) as (P1 & P2 & _). split_and!; [exact Hmia|right; lia|]. intros y Hy.
    destruct (fe_scratch y) eqn:Es; [apply (fe_below y) in Es; lia|done].
  - eapply calm_trans; [exact B6|exact A7].
Qed.

(** Headers that load nothing. *)
Lemma wp_skip_header n U T g l x s off (Q : option elf_status -> kstate S -> Prop) E (r : option elf_status) :
  loading n U T g l x s -> Z.of_nat (length l) <= 256 -> 0 <= off < 2 ^ 62 ->
  (if lenZ data <? off + sizeof_elf_prog_header then r = Some EL_EIO
   else if negb (ph_type data off =? ELF_PROG_LOAD) then r = None
   else r = Some EL_ERR /\ ((sg_memsz (ph_seg data off) <? ph_filesz data off) ||
                            (u64 (sg_va (ph_seg data off) + sg_memsz (ph_seg data off)) <? sg_va (ph_seg data off))) = true) ->
  (forall s', loading n U T g l x s' -> calm U T s U T s' -> Q r s') ->
  wp (load_segment bufs info off) Q E s.
Proof.
  intros HL Hl Hoff Hr HQ. destruct (al_arena _ _ _ (vi_al _ _ _ _ _ _ _ (as_inv _ _ _ _ _ _ _ _ _ _ (lg_space _ _ _ _ _ _ _ _ _ _ _ _ _ _ _ _ _ HL)))) as [Hlo0 Hhi].
  assert (Hlo : lo <= 2 ^ 56) by (unfold PGSIZE in *; lia). unfold load_segment. rewrite u64_id by (unfold is_u64; lia).
  apply wp_bind. eapply (wp_read_header lo hi bufs info p root mi kfd data hdr); [exact Hmi|exact Hmi'|exact HPl|exact Hhdr|exact HL|exact Hl|lia|].
  intros s1 HL1 HC1 Hb. rewrite piece_len by (unfold sizeof_elf_prog_header; lia). destruct (Z.ltb_spec (lenZ data) (off + sizeof_elf_prog_header)) as [Hs|Hs].
  - rewrite (proj2 (Z.eqb_neq _ _)) by (unfold sizeof_elf_prog_header in *; unfold lenZ in *; lia). cbn [negb]. subst r. apply wp_ret. by apply HQ.
  - rewrite (proj2 (Z.eqb_eq _ _)) by (unfold sizeof_elf_prog_header in *; lia). cbn [negb].
    assert (Hfield : forall k j, 0 <= k -> k + Z.of_nat j <= sizeof_elf_prog_header ->
      load_le j (u64 (eb_ph bufs + k)) (memory (km s1)) = Some (le_at data (off + k) j)).
    { intros k j Hk1 Hk2. eapply header_field; [exact HPl|exact Hhdr|exact Hlo|exact Hb|lia|exact Hs|exact Hk1|exact Hk2]. }
    apply wp_bind. eapply (wp_pmem_load s1 4); [by apply Hfield|]. fold (ph_type data off). destruct (negb (ph_type data off =? ELF_PROG_LOAD)).
    { subst r. apply wp_ret. by apply HQ. }
    destruct Hr as [-> Hr]. apply wp_bind. eapply (wp_pmem_load s1 8); [by apply Hfield|]. apply wp_bind. eapply (wp_pmem_load s1 8); [by apply Hfield|].
    fold (ph_filesz data off). change (le_at data (off + PH_MEMSZ) 8) with (sg_memsz (ph_seg data off)).
    destruct (sg_memsz (ph_seg data off) <? ph_filesz data off); [apply wp_ret; by apply HQ|]. cbn [orb] in Hr.
    apply wp_bind. eapply (wp_pmem_load s1 8); [by apply Hfield|]. change (le_at data (off + PH_VADDR) 8) with (sg_va (ph_seg data off)).
    rewrite Hr. apply wp_ret. by apply HQ.
Qed.

(** What the loop needs of the segments ahead. *)
Record segs_fit (g : Z -> option Z) (l : list (Z * Z * Z)) (segs : list seg) : Prop := {
  sf_ok sg : sg ∈ segs -> seg_ok data sg;
  sf_room : lenZ l + lenZ segs <= 256;
  sf_free sg : sg ∈ segs -> exists w, g (sg_va sg) = Some w /\ bit_set w PTE_V = false;
  sf_apart : NoDup (map sg_va segs)
}.

Lemma segs_fit_next g l sg segs a : segs_fit g l (sg :: segs) -> segs_fit (map_view g (sg_va sg) 1 a rwx_user) (l ++ [seg_region sg]) segs.
Proof.
  intros [F1 F2 F3 F4]. cbn [map] in F4. apply NoDup_cons in F4 as [Hn F4]. split.
  - intros sg' Hin. apply F1. by right.
  - rewrite lenZ_app. change (lenZ [seg_region sg]) with 1. unfold lenZ in *. cbn [length] in F2. lia.
  - intros sg' Hin. destruct (F3 sg' ltac:(by right)) as (w & Hw & Eb). exists w. split; [|exact Eb].
    rewrite one_page_view; [exact Hw|apply (so_page _ _ (F1 sg ltac:(by left)))|].
    pose proof (so_page _ _ (F1 sg ltac:(by left))) as (A1 & _). pose proof (so_page _ _ (F1 sg' ltac:(by right))) as (B1 & _).
    intros Hd. apply Hn. rewrite list_elem_of_fmap. exists sg'. split; [unfold PGSIZE in *; zlia|done].
  - exact F4.
Qed.

Lemma fields_range off : (forall b, b ∈ data -> 0 <= b < 256) -> 0 <= sg_va (ph_seg data off) /\ 0 <= sg_memsz (ph_seg data off).
Proof. intros Hb. split; cbn; apply le_at_range; exact Hb. Qed.

Lemma wp_segments_loop (k : nat) : forall fuel i off n U T g l x s (Q : elf_status -> kstate S -> Prop) E,
  loading n U T g l x s -> i + Z.of_nat k = le_at hdr EH_PHNUM 2 -> (k <= fuel)%nat -> 0 <= off -> off + sizeof_elf_prog_header * Z.of_nat k < 2 ^ 31 ->
  segs_fit g l (fst (elf_plan data k off)) ->
  (forall pages n' U' T' s', segs_loaded n U T g l x s (fst (elf_plan data k off)) pages n' U' T' s' -> Q (snd (elf_plan data k off)) s') ->
  ((n < 3 * length (fst (elf_plan data k off)))%nat -> forall s', E al_stop s') ->
  wp (segments_loop bufs fuel info i off) Q E s.
Proof.
  induction k as [|k IH]; intros fuel i off n U T g l x s Q E HL Hi Hf Ho1 Ho2 Hfit HQ HE.
  all: pose proof (lg_hdr _ _ _ _ _ _ _ _ _ _ _ _ _ _ _ _ _ HL) as Hhd; destruct (pl_ehdr _ _ _ _ _ HPl) as (E1 & E2 & _);
    destruct (al_arena _ _ _ (vi_al _ _ _ _ _ _ _ (as_inv _ _ _ _ _ _ _ _ _ _ (lg_space _ _ _ _ _ _ _ _ _ _ _ _ _ _ _ _ _ HL)))) as [Hlo0 Hhi];
    assert (Hphn : load_le 2 (u64 (eb_ehdr bufs + EH_PHNUM)) (memory (km s)) = Some (le_at hdr EH_PHNUM 2))
      by (unfold EH_PHNUM, sizeof_elf_header, PGSIZE in *; rewrite u64_id by (unfold is_u64; lia); apply load_le_at; [exact Hhd|done|unfold lenZ; rewrite Hhdr; done]).
  - destruct fuel as [|fuel]; cbn [segments_loop]; apply wp_bind; (eapply (wp_pmem_load s 2); [exact Hphn|]); rewrite (proj2 (Z.ltb_ge _ _)) by lia;
      apply wp_ret, (HQ [] n U T); apply segs_loaded_nil; try done; apply calm_refl.
  - destruct fuel as [|fuel]; [lia|]. cbn [segments_loop]. apply wp_bind. eapply (wp_pmem_load s 2); [exact Hphn|].
    rewrite (proj2 (Z.ltb_lt _ _)) by lia. apply wp_bind. pose proof (sf_room _ _ _ Hfit) as Hroom.
    assert (Hl2 : Z.of_nat (length l) <= 256) by (unfold lenZ in *; lia). assert (Ho62 : 0 <= off < 2 ^ 62) by (unfold sizeof_elf_prog_header in *; lia).
    assert (Es : s32 (off + sizeof_elf_prog_header) = off + sizeof_elf_prog_header) by (apply s32_id; unfold sizeof_elf_prog_header in *; lia).
    assert (Hbound : off + sizeof_elf_prog_header + sizeof_elf_prog_header * Z.of_nat k < 2 ^ 31) by (unfold sizeof_elf_prog_header in *; lia).
    assert (Hnext : 0 <= off + sizeof_elf_prog_header) by (unfold sizeof_elf_prog_header in *; lia).
    cbn [elf_plan] in *. destruct (Z.ltb_spec (lenZ data) (off + sizeof_elf_prog_header)) as [Hsh|Hsh].
    { eapply (wp_skip_header n U T g l x s off _ _ (Some EL_EIO)); [exact HL|exact Hl2|exact Ho62|by rewrite (proj2 (Z.ltb_lt _ _))|].
      intros s' HL' HC. apply wp_ret. apply (HQ [] n U T). by apply segs_loaded_nil. }
    destruct (negb (ph_type data off =? ELF_PROG_LOAD)) eqn:Ety.
    { eapply (wp_skip_header n U T g l x s off _ _ None); [exact HL|exact Hl2|exact Ho62|by rewrite (proj2 (Z.ltb_ge _ _)), Ety|].
      intros s' HL' HC. rewrite Es. eapply (IH fuel); [exact HL'|lia|lia|exact Hnext|exact Hbound|exact Hfit| |exact HE].
      intros pages n' U' T' s2 H2'. apply (HQ pages n' U' T'). by eapply segs_loaded_calm. }
    set (sg := ph_seg data off) in *.
    destruct (sg_memsz sg <? ph_filesz data off) eqn:Ec1.
    { eapply (wp_skip_header n U T g l x s off _ _ (Some EL_ERR)); [exact HL|exact Hl2|exact Ho62| |].
      { rewrite (proj2 (Z.ltb_ge _ _)), Ety by done. fold sg. by rewrite Ec1. }
      intros s' HL' HC. apply wp_ret. apply (HQ [] n U T). by apply segs_loaded_nil. }
    destruct (u64 (sg_va sg + sg_memsz sg) <? sg_va sg) eqn:Ec2.
    { eapply (wp_skip_header n U T g l x s off _ _ (Some EL_ERR)); [exact HL|exact Hl2|exact Ho62| |].
      { rewrite (proj2 (Z.ltb_ge _ _)), Ety by done. fold sg. by rewrite Ec2, orb_true_r. }
      intros s' HL' HC. apply wp_ret. apply (HQ [] n U T). by apply segs_loaded_nil. }
    cbn [fst snd] in *. destruct (sf_free _ _ _ Hfit sg ltac:(by left)) as (w & Hw & Eb).
    assert (Hl3 : lenZ l < 256) by (unfold lenZ in *; cbn [length] in *; lia).
    apply negb_false_iff, Z.eqb_eq in Ety.
    eapply (wp_load_segment lo hi bufs info p root mi kfd data hdr Hmi Hmi' Hp HPl Hhdr n U T g l x s off w);
      [exact HL|exact Hl3|exact Ho1|exact Hsh|exact Ety|exact Ec1|exact Ec2|exact (sf_ok _ _ _ Hfit sg ltac:(by left))|exact Hw|exact Eb| |].
    2: { intros Hn. apply HE. cbn [length]. lia. }
    intros a n1 U1 T1 s1 HS. fold sg in HS. rewrite Es. pose proof (sl_count _ _ _ _ _ _ _ _ _ _ _ _ _ _ _ _ _ _ _ _ _ _ _ HS) as Hc.
    eapply (IH fuel); [exact (sl_load _ _ _ _ _ _ _ _ _ _ _ _ _ _ _ _ _ _ _ _ _ _ _ HS)|lia|lia|exact Hnext|exact Hbound|by apply segs_fit_next| |].
    + intros pages n' U' T' s2 H2'. apply (HQ (a :: pages) n' U' T'). by eapply segs_loaded_cons.
    + intros Hn. apply HE. cbn [length]. lia.
Qed.
End elf.

Lemma elf_load_run {S} `{Allocator S} `{Harts S} `{Frontend S} (lo hi : Z) `{!AllocatorSpec S lo hi} `{!FrontendSpec S lo hi}
    (bufs : elf_bufs) (info : elf_info) (p root mi kfd : Z) (data hdr : list Z) n U T g l (x : process) (s : kstate S) :
  let plan := elf_plan data (Z.to_nat (le_at hdr EH_PHNUM 2)) (le_at hdr EH_PHOFF 8) in
  lo <= mi -> mi + PGSIZE <= hi -> ei_p info = Some p -> placed lo hi bufs info data -> length hdr = 64%nat ->
  loading lo hi bufs info p root mi kfd data hdr n U T g l x s ->
  le_at hdr EH_PHOFF 8 + sizeof_elf_prog_header * le_at hdr EH_PHNUM 2 < 2 ^ 31 -> segs_fit data g l (fst plan) ->
  wp (elf_load bufs info)
     (fun st s' => st = snd plan /\ exists pages n' U' T',
        segs_loaded lo hi bufs info p root mi kfd data hdr n U T g l x s (fst plan) pages n' U' T' s')
     (fun h s' => h = al_stop /\ (n < 3 * length (fst plan))%nat) s.
Proof.
  intros plan Hmi Hmi' Hp HPl Hhdr HL Hb Hfit. pose proof (lg_hdr _ _ _ _ _ _ _ _ _ _ _ _ _ _ _ _ _ HL) as Hh.
  destruct (pl_ehdr _ _ _ _ _ HPl) as (E1 & E2 & _). pose proof (as_inv _ _ _ _ _ _ _ _ _ _ (lg_space _ _ _ _ _ _ _ _ _ _ _ _ _ _ _ _ _ HL)) as HV.
  destruct (al_arena _ _ _ (vi_al _ _ _ _ _ _ _ HV)) as [Hlo0 Hhi].
  assert (Hbytes : forall b, b ∈ hdr -> 0 <= b < 256).
  { intros b [i Hi]%list_elem_of_lookup. apply Hh in Hi. by apply (pt_bytes _ _ _ (vi_tree _ _ _ _ _ _ _ HV)) in Hi. }
  pose proof (le_at_range hdr EH_PHNUM 2 Hbytes) as Hnum. change (2 ^ (8 * Z.of_nat 2)) with 65536 in Hnum.
  destruct (le_at_range hdr EH_PHOFF 8 Hbytes) as [Hoff _].
  assert (Hld : load_le 8 (u64 (eb_ehdr bufs + EH_PHOFF)) (memory (km s)) = Some (le_at hdr EH_PHOFF 8)).
  { unfold EH_PHOFF, sizeof_elf_header, PGSIZE in *. rewrite u64_id by (unfold is_u64; lia). apply load_le_at; [exact Hh|done|unfold lenZ; rewrite Hhdr; done]. }
  unfold elf_load. apply wp_bind. eapply (wp_pmem_load s 8); [exact Hld|].
  unfold sizeof_elf_prog_header in Hb. rewrite s32_id by lia.
  eapply (wp_segments_loop lo hi bufs info p root mi kfd data hdr Hmi Hmi' Hp HPl Hhdr (Z.to_nat (le_at hdr EH_PHNUM 2)));
    [exact HL|lia| |lia|unfold sizeof_elf_prog_header; lia|exact Hfit| |].
  - apply Z2Nat.inj_le; [lia|lia|]. lia.
  - intros pages n' U' T' s' HS. split; [done|]. by exists pages, n', U', T'.
  - intros Hn s'. by split.
Qed.

(** [elf_init] reads the header of the file: EL_EIO for a file shorter
    than a header, EL_NOTELF for a wrong magic number, EL_OK otherwise, and
    then the loader's buffer holds the first 64 bytes of the file.  The
    address space, the processes and all other memory but the host
    interface's own are as before. *)
Lemma elf_init_checks {S} `{Allocator S} `{Harts S} `{Frontend S} (lo hi : Z) `{!AllocatorSpec S lo hi} `{!FrontendSpec S lo hi}
    (bufs : elf_bufs) (info : elf_info) (p root mi kfd : Z) (data hdr : list Z) n U T g l (x : process) (s : kstate S) :
  lo <= mi -> mi + PGSIZE <= hi -> placed lo hi bufs info data -> length hdr = 64%nat -> lenZ l <= 256 ->
  loading lo hi bufs info p root mi kfd data hdr n U T g l x s ->
  wp (elf_init bufs info)
     (fun st s' =>
        st = (if lenZ data <? sizeof_elf_header then EL_EIO
              else if negb (le_at data EH_MAGIC 4 =? ELF_MAGIC) then EL_NOTELF else EL_OK) /\
        (sizeof_elf_header <= lenZ data ->
           loading lo hi bufs info p root mi kfd data (take 64 data) n U T g l x s') /\
        procs s' = procs s /\ current s' = current s /\ ready_queue_head s' = ready_queue_head s /\
        g_ticks s' = g_ticks s /\ g_kernel_pagetable (km s') = g_kernel_pagetable (km s) /\
        forall y, ~ (eb_ehdr bufs <= y < eb_ehdr bufs + sizeof_elf_header) -> fe_scratch y = false ->
          memory (km s') !! y = memory (km s) !! y)
     no_stop s.
Proof.
  intros Hmi Hmi' HPl Hhdr Hl HL. destruct (pl_ehdr _ _ _ _ _ HPl) as (E1 & E2 & E3).
  pose proof (as_inv _ _ _ _ _ _ _ _ _ _ (lg_space _ _ _ _ _ _ _ _ _ _ _ _ _ _ _ _ _ HL)) as HV.
  destruct (al_arena _ _ _ (vi_al _ _ _ _ _ _ _ HV)) as [Hlo0 Hhi]. unfold sizeof_elf_header, PGSIZE in *.
  assert (Hlen : 0 <= lenZ data) by (unfold lenZ; lia).
  pose proof (piece_len 0 64 data ltac:(lia) ltac:(lia)) as Hpl. rewrite Z.sub_0_r in Hpl.
  unfold elf_init. apply wp_bind. unfold sizeof_elf_header.
  eapply (wp_elf_fpread lo hi bufs info p root mi kfd data hdr); [exact Hmi|exact Hmi'|exact HPl|exact Hhdr|exact HL| |exact E3|lia|lia|lia|lia|].
  { intros y Hy. destruct (lookup_lt_is_Some_2 hdr (Z.to_nat (y - eb_ehdr bufs))) as [c Hc]; [lia|]. exists c.
    apply (lg_hdr _ _ _ _ _ _ _ _ _ _ _ _ _ _ _ _ _ HL) in Hc. by replace (eb_ehdr bufs + Z.of_nat (Z.to_nat (y - eb_ehdr bufs))) with y in Hc by lia. }
  intros k' HG Hb. assert (Hfr : forall y, ~ (eb_ehdr bufs <= y < eb_ehdr bufs + 64) -> fe_scratch y = false -> memory k' !! y = memory (km s) !! y).
  { intros y Hy Hs. apply (gt_frame _ _ _ _ _ _ HG); [lia|exact Hs]. }
  destruct (Z.ltb_spec (lenZ data) 64) as [Hs|Hs].
  - rewrite (proj2 (Z.eqb_neq _ _)) by lia. cbn [negb]. apply wp_ret. split; [done|]. split; [lia|]. split_and!; try done. exact (gt_dir _ _ _ _ _ _ HG).
  - rewrite (proj2 (Z.eqb_eq _ _)) by lia. cbn [negb].
    assert (HL' : loading lo hi bufs info p root mi kfd data (take 64 data) n U T g l x (set_km k' s)).
    { eapply (got_loading_hdr lo hi bufs info p root mi kfd data Hmi HPl hdr); [exact HL|exact HG|unfold lenZ in Hl; lia| |lia| |exact Hb].
      - intros π q Hq. pose proof (lg_tables _ _ _ _ _ _ _ _ _ _ _ _ _ _ _ _ _ HL π q Hq). left. lia.
      - pose proof (pl_apart3 _ _ _ _ _ HPl) as Ha. unfold sizeof_elf_header, sizeof_spike_file in *. lia. }
    apply wp_bind. eapply (wp_pmem_load _ 4) with (v := le_at data EH_MAGIC 4); [|destruct (negb _); apply wp_ret; (split; [done|]); (split; [done|]); split_and!; try done; exact (gt_dir _ _ _ _ _ _ HG)].
    unfold EH_MAGIC. rewrite u64_id by (unfold is_u64; lia). cbn [km set_km]. rewrite (load_le_at 4 _ _ _ 0 Hb); [|lia|lia].
    by rewrite piece_le_at by lia.
Qed.
