(* ===== verification/Kernel.v ===== *)
(** * Supervisor start-up: kernel/kernel.c

    Console output is not part of the state.  [_etext] and [_end] are the
    linker's symbols. *)
From stdpp Require Import base gmap list strings.
From Stdlib Require Import ZArith Lia.
From S2P Require Import Prelude Riscv PmmState Pmm Mem Str Vmm ProcState Sched Process Spike SpikeFile Elf.

Section start.
Context {S : Type} `{Allocator S} `{Harts S} `{Frontend S} `{SpikeAtomics} (files : spike_symbols) (bufs : elf_bufs) (sym : symbols).

Definition enable_paging : M (kstate S) unit :=
  let* root := gets (fun s => g_kernel_pagetable (km s)) in
  write_csr (set_satp (MAKE_SATP root)).

Definition load_user_program : M (kstate S) Z :=
  let* proc := alloc_process sym in
  load_bincode_from_host_elf files bufs (Some proc) ;;;
  ret proc.

(** The part of [s_start] that follows [enable_paging]. *)
Definition first_process : M (kstate S) Z :=
  init_proc_pool ;;;
  let* p := load_user_program in
  insert_to_ready_queue p ;;;
  schedule sym ;;;
  ret 0.
End start.

Section kernel.
Context `{Frontend pmm_state} `{SpikeAtomics} (files : spike_symbols) (bufs : elf_bufs) (sym : symbols) (_etext _end : Z).

Definition s_start : M (kstate pmm_state) Z :=
  write_csr (set_satp 0) ;;;
  on_km (on_heap (pmm_init _end)) ;;;
  on_km (kern_vm_init _etext) ;;;
  enable_paging ;;;
  first_process files bufs sym.
End kernel.
