(* ===== verification/KernelTypes.v ===== *)
(** * Well-typed runs: registers, memory and address spaces

    Every register is a word of 64 bits, memory holds bytes at exactly the
    addresses it held, and the operations of vmm.c keep it so.
    [TypedMachine] is what they need of the page allocator. *)
From stdpp Require Import base gmap list strings.
From Stdlib Require Import ZArith Lia.
From S2P Require Import Prelude Riscv PmmState Mem Sync Typing Vmm ProcState.

#[local] Arguments load_le : simpl never.
#[local] Arguments store_le : simpl never.
#[local] Arguments u64 : simpl never.
#[local] Arguments u32 : simpl never.

Lemma u64_lor x y : is_u64 x -> is_u64 y -> is_u64 (Z.lor x y).
Proof.
  intros Hx Hy. rewrite <- (u64_id x), <- (u64_id y) by done. unfold u64. rewrite <- !Z.land_ones by lia.
  rewrite <- Z.land_lor_distr_l, Z.land_ones by lia. apply u64_range.
Qed.
Lemma u64_ldiff x y : is_u64 x -> is_u64 (Z.ldiff x y).
Proof.
  intros Hx. rewrite <- (u64_id x) by done. unfold u64. rewrite <- Z.land_ones, Z.ldiff_land, <- Z.land_assoc, (Z.land_comm (Z.ones 64)), Z.land_assoc, Z.land_ones by lia.
  apply u64_range.
Qed.

(** ** The hart *)
Record hart_typed (h : hart) : Prop := {
  ht_tp : is_u64 (tp h); ht_sstatus : is_u64 (sstatus h); ht_satp : is_u64 (satp h); ht_stvec : is_u64 (stvec h);
  ht_sepc : is_u64 (sepc h); ht_scause : is_u64 (scause h); ht_stval : is_u64 (stval h)
}.

Lemma hart_irqsave h : hart_typed h -> hart_typed (snd (disable_irqsave h)).
Proof. intros []. split; cbn; [..|done]; try done. by apply u64_ldiff. Qed.
Lemma hart_irqrestore fl h : hart_typed h -> hart_typed (enable_irqrestore fl h).
Proof. intros HT. unfold enable_irqrestore. destruct (fl =? 0); [done|]. destruct HT. split; cbn; try done. by apply u64_lor. Qed.

(** ** What the kernel needs of the page allocator and the hart's registers *)
Class TypedMachine (S : Type) `{Allocator S} `{Harts S} := {
  tm_ok : S -> Prop;
  tm_page : types tm_ok (plain tm_ok) al_page is_u64;
  tm_free p : types tm_ok (plain tm_ok) (al_free p) any;
  tm_hart s : tm_ok s -> hart_typed (hart_of s);
  tm_with f s : tm_ok s -> hart_typed (f (hart_of s)) -> tm_ok (with_hart f s)
}.

Section typed.
Context {S : Type} `{Allocator S} `{Harts S} `{!TypedMachine S} (D : Z -> Prop).
Implicit Types (k : kmem S) (s : kstate S).

Record kmem_typed k : Prop := {
  kt_heap : tm_ok (heap k);
  kt_memory : mem_typed D (memory k);
  kt_root : is_u64 (g_kernel_pagetable k)
}.
Abbreviation ktypes := (types kmem_typed (plain kmem_typed)).

Lemma types_on_mem {A} (m : M mem A) R : types (mem_typed D) (plain (mem_typed D)) m R -> ktypes (on_mem m) R.
Proof. intros Hm. apply (types_zoom _ _ (plain_ok _) _ _ (mem_typed D)); [by intros k []|intros k m' [] Hm'; by split|done]. Qed.
Lemma types_on_heap {A} (m : M S A) R : types tm_ok (plain tm_ok) m R -> ktypes (on_heap m) R.
Proof. intros Hm. apply (types_zoom _ _ (plain_ok _) _ _ tm_ok); [by intros k []|intros k h [] Hh; by split|done]. Qed.
#[local] Hint Resolve types_on_mem types_on_heap tm_page tm_free : types.

(** *** vmm.c *)
Lemma types_walk_level pt va level alloc : ktypes (walk_level pt va level alloc) any.
Proof. unfold walk_level. types_go. Qed.
#[local] Hint Resolve types_walk_level : types.
Lemma types_walk_loop n : forall pt va level alloc, ktypes (walk_loop n pt va level alloc) any.
Proof. induction n; intros; cbn [walk_loop]; types_go. Qed.
#[local] Hint Resolve types_walk_loop : types.
Lemma types_page_walk pt va tl alloc : ktypes (page_walk pt va tl alloc) any.
Proof. unfold page_walk. types_go. Qed.
#[local] Hint Resolve types_page_walk : types.

Lemma types_map_loop fuel : forall pt first last pa perm, ktypes (map_loop fuel pt first last pa perm) any.
Proof. induction fuel; intros; cbn [map_loop]; types_go. Qed.
#[local] Hint Resolve types_map_loop : types.
Lemma types_map_pages pt va size pa perm : ktypes (map_pages pt va size pa perm) any.
Proof. unfold map_pages. types_go. Qed.
#[local] Hint Resolve types_map_pages : types.
Lemma types_user_vm_map pt va size pa perm : ktypes (user_vm_map pt va size pa perm) any.
Proof. unfold user_vm_map. types_go. Qed.
Lemma types_kern_vm_map pt va pa size perm : ktypes (kern_vm_map pt va pa size perm) any.
Proof. unfold kern_vm_map. types_go. Qed.
Lemma types_lookup_pa pt va : ktypes (lookup_pa pt va) any.
Proof. unfold lookup_pa. types_go. Qed.
Lemma types_user_va_to_pa pt va : ktypes (user_va_to_pa pt va) any.
Proof. unfold user_va_to_pa. types_go. Qed.
Lemma types_unmap_loop fuel : forall pt va stop free, ktypes (unmap_loop fuel pt va stop free) any.
Proof. induction fuel; intros; cbn [unmap_loop]; types_go. Qed.
#[local] Hint Resolve types_unmap_loop types_kern_vm_map types_lookup_pa : types.
Lemma types_user_vm_unmap pt va size free : ktypes (user_vm_unmap pt va size free) any.
Proof. unfold user_vm_unmap. types_go. Qed.
Lemma types_kern_vm_init _etext : ktypes (kern_vm_init _etext) any.
Proof.
  unfold kern_vm_init. eapply types_bind; [apply types_on_heap, tm_page|]. intros r Hr. types_go.
  apply types_modify. intros k []. by split.
Qed.
End typed.
#[export] Hint Resolve types_on_mem types_on_heap tm_page tm_free types_page_walk types_user_vm_map types_lookup_pa types_user_va_to_pa types_user_vm_unmap types_kern_vm_init : types.
