(* ===== verification/PmmTypes.v ===== *)
(** * Well-typed runs: kernel/pmm.c

    The bit-fields of a page descriptor keep their widths, the page caches
    their length and count, the bounds stay words of 64 bits; so the allocator
    of the repository is a [TypedMachine]. *)
From stdpp Require Import base gmap list strings.
From Stdlib Require Import ZArith Lia.
From S2P Require Import Prelude Riscv PmmState Buddy Pmm Typing Vmm ProcState KernelTypes.

#[local] Arguments u64 : simpl never.
#[local] Arguments u32 : simpl never.

Record status_typed (st : page_status) : Prop := {
  st_free : 0 <= is_free st < 2 ^ 1; st_head : 0 <= is_head st < 2 ^ 1; st_order : 0 <= order st < 2 ^ 5; st_alloc : 0 <= alloc st < 2 ^ 3;
  st_cpu : 0 <= cpu_id st < 2 ^ 6; st_ref : 0 <= ref st < 2 ^ 16; st_color : 0 <= color st < 2 ^ 8
}.
Record cache_typed (c : percpu_cache_t) : Prop := {
  ct_objs : length (objs c) = Z.to_nat PCPU_CACHE_SIZE;
  ct_count : 0 <= count c < 2 ^ 32
}.
Record pmm_typed (s : pmm_state) : Prop := {
  pm_hart : hart_typed (cpu s);
  pm_pages i p : pages s !! i = Some p -> status_typed (PmmState.status p);
  pm_caches i c : pcpu_caches s !! i = Some c -> cache_typed c;
  pm_bounds : Forall is_u64 [free_mem_start_addr s; free_mem_end_addr s; buddy_start s; buddy_end s; g_mem_size s]
}.
Abbreviation mtypes := (types pmm_typed (plain pmm_typed)).

(** ** Fields *)
Lemma store_status_typed p st s : pmm_typed s -> status_typed st -> pmm_typed (store_status p st s).
Proof.
  intros [T1 T2 T3 T4] Hst. split; try done. intros i x. cbn [pages store_status set_pages].
  intros Hx. apply lookup_alter_Some in Hx as [(_ & y & _ & ->)|[_ Hx]]; [done|by eapply T2].
Qed.
Lemma store_node_typed n x s : pmm_typed s -> pmm_typed (store_node n x s).
Proof.
  intros [T1 T2 T3 T4]. destruct n; split; try done. intros i y. cbn [pages store_node set_pages].
  intros Hy. apply lookup_alter_Some in Hy as [(_ & z & Hz & ->)|[_ Hy]]; [by apply (T2 _ _ Hz)|by eapply T2].
Qed.
Lemma types_load_node n : mtypes (load_node n) any.
Proof. unfold load_node. eauto with types. Qed.
Lemma types_set_prev n v : mtypes (set_prev n v) any.
Proof. unfold set_prev. apply (types_bind _ _ _ _ any); [apply types_load_node|]. intros x _. apply types_modify. intros s Hs. destruct n; [by apply store_node_typed|done]. Qed.
Lemma types_set_next n v : mtypes (set_next n v) any.
Proof. unfold set_next. apply (types_bind _ _ _ _ any); [apply types_load_node|]. intros x _. apply types_modify. intros s Hs. destruct n; [by apply store_node_typed|done]. Qed.
Lemma types_load_status p : mtypes (load_status p) status_typed.
Proof.
  apply types_read_opt; [apply plain_ok|]. intros s st [T1 T2 T3 T4] Hst. unfold pstatus in Hst.
  apply fmap_Some in Hst as (x & Hx & ->). by eapply T2.
Qed.
Lemma types_upd_status f p : (forall st, status_typed st -> status_typed (f st)) -> mtypes (upd_status f p) any.
Proof.
  intros Hf. unfold upd_status. eapply types_bind; [apply types_load_status|]. intros st Hst. apply types_modify. intros s Hs.
  by apply store_status_typed; [|apply Hf].
Qed.

Section fields.
Context (v : Z) (st : page_status) (Hst : status_typed st).
Lemma field_is_free : status_typed (with_is_free v st).
Proof using Hst. destruct Hst. split; try done. cbn. apply Z.mod_pos_bound. lia. Qed.
Lemma field_is_head : status_typed (with_is_head v st).
Proof using Hst. destruct Hst. split; try done. cbn. apply Z.mod_pos_bound. lia. Qed.
Lemma field_order : status_typed (with_order v st).
Proof using Hst. destruct Hst. split; try done. cbn. apply Z.mod_pos_bound. lia. Qed.
Lemma field_alloc : status_typed (with_alloc v st).
Proof using Hst. destruct Hst. split; try done. cbn. apply Z.mod_pos_bound. lia. Qed.
End fields.
#[local] Hint Resolve types_load_node types_set_prev types_set_next types_load_status types_upd_status field_is_free field_is_head field_order field_alloc : types.

Lemma types_list_del n : mtypes (__list_del n) any.
Proof. unfold __list_del. types_go. Qed.
#[local] Hint Resolve types_list_del : types.
Lemma types_list_add a b c : mtypes (__list_add a b c) any.
Proof. unfold __list_add. types_go. Qed.
Lemma types_list_pop h : mtypes (__list_pop h) any.
Proof. unfold __list_pop. types_go. Qed.
#[local] Hint Resolve types_list_add types_list_pop : types.

(** ** Locks and caches *)
Lemma types_set_buddy f : (forall s, exists b, f s = set_main_buddy b s) -> mtypes (modify f) any.
Proof. intros Hf. apply types_modify. intros s [T1 T2 T3 T4]. destruct (Hf s) as [b ->]. by split. Qed.
Lemma types_lock_acquire : mtypes lock_acquire any.
Proof. unfold lock_acquire. types_go. apply types_set_buddy. intros s. by eexists. Qed.
Lemma types_lock_release : mtypes lock_release any.
Proof. unfold lock_release. apply types_set_buddy. intros s. by eexists. Qed.
Lemma types_load_cache id : mtypes (load_cache id) cache_typed.
Proof. apply types_read_opt; [apply plain_ok|]. intros s c [T1 T2 T3 T4]. apply T3. Qed.
Lemma types_store_cache id c : cache_typed c -> mtypes (store_cache id c) any.
Proof.
  intros Hc. apply types_modify. intros s [T1 T2 T3 T4]. split; try done. intros i x. cbn [pcpu_caches set_pcpu_caches].
  intros [[<- <-]|[_ Hx]]%lookup_insert_Some; [done|by eapply T3].
Qed.
#[local] Hint Resolve types_lock_acquire types_lock_release types_load_cache types_store_cache : types.
Lemma types_store_count id v : mtypes (store_count id v) any.
Proof.
  unfold store_count. eapply types_bind; [apply types_load_cache|]. intros c []. apply types_store_cache. split; [done|].
  cbn [count]. unfold u32. apply Z.mod_pos_bound. lia.
Qed.
Lemma types_store_obj id i p : mtypes (store_obj id i p) any.
Proof.
  unfold store_obj. eapply types_bind; [apply types_load_cache|]. intros c []. destruct (_ && _); [|by apply types_halt; [apply plain_ok|]].
  apply types_store_cache. split; [|done]. cbn [objs]. by rewrite length_insert.
Qed.
Lemma types_load_obj id i : mtypes (load_obj id i) any.
Proof. unfold load_obj. types_go. Qed.
#[local] Hint Resolve types_store_count types_store_obj types_load_obj : types.

(** ** The buddy allocator *)
Lemma types_split_loop n : forall i, mtypes (split_loop n i) any.
Proof. induction n; intros; cbn [split_loop]; unfold split_step; types_go. Qed.
Lemma types_take_block o : mtypes (take_block o) is_u64.
Proof. unfold take_block. types_go. apply u64_range. Qed.
#[local] Hint Resolve types_split_loop types_take_block : types.
Lemma types_alloc_scan n : forall i o, mtypes (alloc_scan n i o) is_u64.
Proof. induction n; intros; cbn [alloc_scan]; unfold buddy_split; types_go. Qed.
#[local] Hint Resolve types_alloc_scan : types.
Lemma types_buddy_alloc o : mtypes (buddy_alloc o) is_u64.
Proof. unfold buddy_alloc. types_go. Qed.
Lemma types_merge_loop fuel : forall p o, mtypes (merge_loop fuel p o) any.
Proof. induction fuel; intros; cbn [merge_loop]; types_go. Qed.
#[local] Hint Resolve types_buddy_alloc types_merge_loop : types.
Lemma types_merge_inner p : mtypes (__buddy_merge_inner p) any.
Proof. unfold __buddy_merge_inner. types_go. Qed.
#[local] Hint Resolve types_merge_inner : types.
Lemma types_buddy_free a : mtypes (buddy_free a) any.
Proof. unfold buddy_free. types_go. Qed.

(** ** Pages *)
Lemma types_refill n : forall id, mtypes (refill_loop n id) any.
Proof. induction n; intros; cbn [refill_loop]; types_go. Qed.
Lemma types_flush n : forall id, mtypes (flush_loop n id) any.
Proof. induction n; intros; cbn [flush_loop]; types_go. Qed.
#[local] Hint Resolve types_refill types_flush : types.
Lemma types_alloc_page : mtypes alloc_page is_u64.
Proof. unfold alloc_page, read_tp. types_go. apply u64_range. Qed.
Lemma types_set_cpu h : hart_typed h -> mtypes (modify (set_cpu h)) any.
Proof. intros Hh. apply types_modify. intros s []. by split. Qed.
Lemma types_cpu : mtypes (gets cpu) hart_typed.
Proof. apply types_gets. by intros s []. Qed.
Lemma types_irq_save : mtypes irq_save any.
Proof.
  unfold irq_save. eapply types_bind; [apply types_cpu|]. intros h Hh. cbn. apply (types_bind _ _ _ _ any).
  - apply types_set_cpu. exact (hart_irqsave _ Hh).
  - intros _ _. by apply types_ret.
Qed.
Lemma types_irq_restore fl : mtypes (irq_restore fl) any.
Proof. unfold irq_restore. eapply types_bind; [apply types_cpu|]. intros h Hh. by apply types_set_cpu, hart_irqrestore. Qed.
#[local] Hint Resolve types_irq_save types_irq_restore : types.
Lemma types_pfree a : mtypes (pfree a) any.
Proof. unfold pfree, read_tp. types_go. Qed.

(** ** pmm_init *)
Lemma u64_land x y : is_u64 x -> is_u64 y -> is_u64 (Z.land x y).
Proof.
  intros Hx Hy. rewrite <- (u64_id x) by done. unfold u64. rewrite <- Z.land_ones, <- Z.land_assoc, (Z.land_comm (Z.ones 64)), Z.land_assoc, Z.land_ones by lia.
  apply u64_range.
Qed.
Lemma types_bounds fs fe bs be m : Forall is_u64 [fs; fe; bs; be; m] -> mtypes (modify (set_bounds fs fe bs be m)) any.
Proof. intros Hb. apply types_modify. intros s []. by split. Qed.
Lemma types_init_loop fuel : forall a b, mtypes (init_loop fuel a b) any.
Proof. induction fuel; intros; cbn [init_loop]; types_go. Qed.
Lemma types_fill_loop n : forall id j, mtypes (fill_loop n id j) any.
Proof. induction n; intros; cbn [fill_loop]; types_go. Qed.
#[local] Hint Resolve types_init_loop types_fill_loop : types.
Lemma types_fill_caches n : forall id, mtypes (fill_caches n id) any.
Proof. induction n; intros; cbn [fill_caches]; types_go. Qed.
#[local] Hint Resolve types_fill_caches : types.
Lemma types_buddy_system_init a b : mtypes (buddy_system_init a b) any.
Proof. unfold buddy_system_init. types_go; apply types_set_buddy; intros s; by eexists. Qed.
#[local] Hint Resolve types_buddy_system_init : types.

Lemma fresh_page_typed : status_typed (PmmState.status fresh_page).
Proof. split; vm_compute; split; congruence. Qed.
Lemma init_pages_typed n : forall i j p, init_pages n i !! j = Some p -> status_typed (PmmState.status p).
Proof.
  induction n as [|n IH]; intros i j p; cbn [init_pages]; [by rewrite lookup_empty|].
  intros [[_ <-]|[_ Hp]]%lookup_insert_Some; [apply fresh_page_typed|by eapply IH].
Qed.

Lemma types_pmm_init _end : mtypes (pmm_init _end) any.
Proof.
  unfold pmm_init. apply (types_bind _ _ _ _ pmm_typed); [by apply types_gets|]. intros s [_ _ _ Hb].
  repeat (apply Forall_cons in Hb as [? Hb]). cbv zeta.
  assert (Hr : forall a, is_u64 (ROUNDUP a PGSIZE)) by (intros; apply u64_land; apply u64_range).
  assert (Hd : is_u64 (ROUNDDOWN (u64 (MIN PKE_MAX_ALLOWABLE_RAM (g_mem_size s) + DRAM_BASE)) PGSIZE)) by (apply u64_land; apply u64_range).
  assert (Hm : is_u64 (MIN PKE_MAX_ALLOWABLE_RAM (g_mem_size s))) by (unfold MIN; destruct (_ <? _); [by vm_compute|done]).
  apply (types_bind _ _ _ _ any); [apply types_bounds; repeat apply Forall_cons_2; by try apply Hr|]. intros _ _.
  apply (types_bind _ _ _ _ any); [types_go|]. intros _ _.
  apply (types_bind _ _ _ _ any); [apply types_bounds; repeat apply Forall_cons_2; by try (apply Hr || apply u64_range)|]. intros _ _.
  apply (types_bind _ _ _ _ any); [apply types_modify; intros s' []; by split|]. intros _ _.
  apply (types_bind _ _ _ _ any); [|intros _ _; types_go].
  apply types_modify. intros s' []. split; try done. intros i p. apply init_pages_typed.
Qed.

#[export] Program Instance pmm_machine : TypedMachine pmm_state :=
  {| tm_ok := pmm_typed; tm_page := types_alloc_page; tm_free := types_pfree |}.
Next Obligation. by intros s []. Qed.
Next Obligation. intros f s [] Hf. by split. Qed.

(** The kernel image as it is loaded. *)
Lemma boot_state_typed mem : is_u64 mem -> pmm_typed (boot_state mem).
Proof.
  intros Hm. assert (Hz : is_u64 0) by (unfold is_u64; lia). split.
  - by split.
  - intros i p. cbn [boot_state pages]. by rewrite lookup_empty.
  - intros i c. cbn [boot_state pcpu_caches]. intros [_ <-]%lookup_gset_to_gmap_Some. by split.
  - by repeat apply Forall_cons_2.
Qed.
