(* ===== verification/ProcTypes.v ===== *)
(** * Well-typed runs: processes, scheduling and traps

    What the C types of process.h promise: words are in range, arrays keep
    their length, an enum holds one of its constants, a pointer to a process is
    NULL or points into the pool.  [kinv] lists what an invariant must allow
    for the operations to keep it; the two used are [typed] and [running c]. *)
From stdpp Require Import base gmap list strings.
From Stdlib Require Import ZArith Lia.
From S2P Require Import Prelude Riscv PmmState Mem Str Snprintf Sync Typing Vmm ProcState Sched Process Trap KernelTypes.

#[local] Arguments load_le : simpl never.
#[local] Arguments store_le : simpl never.
#[local] Arguments u64 : simpl never.
#[local] Arguments u32 : simpl never.

Definition is_u32 (x : Z) : Prop := 0 <= x < 2 ^ 32.
Lemma u32_range x : is_u32 (u32 x).
Proof. apply Z.mod_pos_bound. lia. Qed.

(** ** The state *)
Record heap_typed (h : process_heap_manager) : Prop := {
  ph_top : is_u64 (heap_top h);
  ph_bottom : is_u64 (heap_bottom h);
  ph_length : length (free_pages_address h) = Z.to_nat MAX_HEAP_PAGES;
  ph_pages : Forall is_u64 (free_pages_address h);
  ph_count : is_u32 (free_pages_count h)
}.

Definition in_pool (i : Z) : Prop := 0 <= i < NPROC.
Definition pool_ptr (p : option Z) : Prop := from_option in_pool True p.

Record process_typed (x : process) : Prop := {
  pt_kstack : is_u64 (kstack x); pt_pagetable : is_u64 (pagetable x);
  pt_trapframe : is_u64 (trapframe x); pt_mapped_info : is_u64 (mapped_info x);
  pt_heap : heap_typed (user_heap x);
  pt_pid : is_u64 (pid x);
  pt_status : FREE <= status x <= ZOMBIE;
  pt_parent : pool_ptr (parent x);
  pt_next : pool_ptr (queue_next x)
}.

Lemma zero_process_typed : process_typed zero_process.
Proof.
  assert (Hz : is_u64 0) by (unfold is_u64; lia).
  assert (Hh : heap_typed (user_heap zero_process)).
  { split; try done. cbn [free_pages_address user_heap zero_process]. by apply Forall_replicate. }
  by split.
Qed.

Section updates.
Context (x : process) (Hx : process_typed x).
Lemma typed_kstack v : is_u64 v -> process_typed (with_kstack v x).
Proof using Hx. destruct Hx. by split. Qed.
Lemma typed_pagetable v : is_u64 v -> process_typed (with_pagetable v x).
Proof using Hx. destruct Hx. by split. Qed.
Lemma typed_trapframe v : is_u64 v -> process_typed (with_trapframe v x).
Proof using Hx. destruct Hx. by split. Qed.
Lemma typed_mapped_info v : is_u64 v -> process_typed (with_mapped_info v x).
Proof using Hx. destruct Hx. by split. Qed.
Lemma typed_total v : process_typed (with_total v x).
Proof using Hx. destruct Hx. by split. Qed.
Lemma typed_heap h : heap_typed h -> process_typed (with_heap h x).
Proof using Hx. destruct Hx. by split. Qed.
Lemma typed_pid v : is_u64 v -> process_typed (with_pid v x).
Proof using Hx. destruct Hx. by split. Qed.
Lemma typed_status v : FREE <= v <= ZOMBIE -> process_typed (with_status v x).
Proof using Hx. destruct Hx. by split. Qed.
Lemma typed_parent v : pool_ptr v -> process_typed (with_parent v x).
Proof using Hx. destruct Hx. by split. Qed.
Lemma typed_next v : pool_ptr v -> process_typed (with_next v x).
Proof using Hx. destruct Hx. by split. Qed.
Lemma typed_heap_top v : is_u64 v -> process_typed (with_heap (with_heap_top v (user_heap x)) x).
Proof using Hx. intros. apply typed_heap. destruct (pt_heap _ Hx). by split. Qed.
Lemma typed_heap_bottom v : is_u64 v -> process_typed (with_heap (with_heap_bottom v (user_heap x)) x).
Proof using Hx. intros. apply typed_heap. destruct (pt_heap _ Hx). by split. Qed.
Lemma typed_free_count v : is_u32 v -> process_typed (with_heap (with_free_count v (user_heap x)) x).
Proof using Hx. intros. apply typed_heap. destruct (pt_heap _ Hx). by split. Qed.
Lemma typed_free_page n v : is_u64 v -> process_typed (with_heap (with_free_pages (<[n := v]> (free_pages_address (user_heap x))) (user_heap x)) x).
Proof using Hx.
  intros. apply typed_heap. destruct (pt_heap _ Hx). split; try done; cbn.
  - by rewrite length_insert.
  - by apply Forall_insert.
Qed.
End updates.

Lemma u64_const x : (0 <=? x) && (x <? 2 ^ 64) = true -> is_u64 x.
Proof. unfold is_u64. lia. Qed.
#[local] Hint Resolve u64_range u32_range typed_kstack typed_pagetable typed_trapframe typed_mapped_info typed_total typed_heap typed_pid typed_parent
  typed_next typed_heap_top typed_heap_bottom typed_free_count typed_free_page : types.
#[local] Hint Extern 1 (process_typed (with_status _ _)) => apply typed_status; [assumption|vm_compute; split; congruence] : types.
#[local] Hint Extern 2 (is_u64 USER_FREE_ADDRESS_START) => apply u64_const; reflexivity : types.
#[local] Hint Extern 2 (is_u32 0) => vm_compute; split; congruence : types.
#[local] Hint Extern 2 (is_u32 (_ - 1)) => unfold is_u32 in *; lia : types.

(** A write that keeps the status, as far as its syntax shows. *)
Definition same_status (f : process -> process) : Prop := forall x, status (f x) = status x.

Section typed.
Context {S : Type} `{Allocator S} `{Harts S} `{!TypedMachine S} (D : Z -> Prop).
Implicit Types (s : kstate S).

Record typed s : Prop := {
  ty_km : kmem_typed D (km s);
  ty_pool i : is_Some (procs s !! i) <-> in_pool i;
  ty_procs i x : procs s !! i = Some x -> process_typed x;
  ty_current : pool_ptr (current s);
  ty_head : pool_ptr (ready_queue_head s)
}.

(** Process [c] runs. *)
Definition running (c : Z) s : Prop :=
  typed s /\ current s = Some c /\ exists x, procs s !! c = Some x /\ status x = RUNNING.

(** The kernel leaves for user mode only in the running process. *)
Definition exits (h : stop) s : Prop :=
  typed s /\
  match h with
  | ToUser tf satp => exists c x, current s = Some c /\ procs s !! c = Some x /\ status x = RUNNING /\ tf = trapframe x /\ satp = MAKE_SATP (pagetable x)
  | _ => True
  end.

Record kclosed (I : kstate S -> Prop) : Prop := {
  ki_typed s : I s -> typed s;
  ki_km s k : I s -> kmem_typed D k -> I (set_km k s)
}.
Record kinv (I : kstate S -> Prop) (idle : Z -> Prop) : Prop := {
  ki_closed : kclosed I;
  ki_head s v : I s -> pool_ptr v -> I (set_head v s);
  ki_proc s i x y : I s -> procs s !! i = Some x -> process_typed y -> (status y = status x \/ idle i) -> I (set_procs (<[i := y]> (procs s)) s);
  ki_free s i x : I s -> procs s !! i = Some x -> status x = FREE -> idle i
}.

Lemma typed_insert s i x y : typed s -> procs s !! i = Some x -> process_typed y -> typed (set_procs (<[i := y]> (procs s)) s).
Proof.
  intros [T1 T2 T3 T4 T5] Hx Hy. split; cbn [procs set_procs km current ready_queue_head]; try done.
  - intros j. rewrite <- T2. destruct (decide (j = i)) as [->|]; [rewrite lookup_insert_eq, Hx; by split; eexists|by rewrite lookup_insert_ne].
  - intros j z [[<- <-]|[_ Hz]]%lookup_insert_Some; [done|by eapply T3].
Qed.

Lemma kinv_typed : kinv typed (fun _ => True).
Proof.
  split; [| | |done].
  - split; [done|]. intros s k [] Hk. by split.
  - intros s v [] Hv. by split.
  - intros. by eapply typed_insert.
Qed.
Lemma kinv_running c : kinv (running c) (fun i => i <> c).
Proof.
  split.
  - split; [by intros s []|]. intros s k [[] Hc] Hk. by split; [split|].
  - intros s v [[] Hc] Hv. by split; [split|].
  - intros s i x y (HT & Hc & z & Hz & Hs) Hx Hy Hst. split; [by eapply typed_insert|]. split; [done|]. cbn [procs set_procs].
    destruct (decide (i = c)) as [->|]; [|rewrite lookup_insert_ne by done; by exists z].
    rewrite lookup_insert_eq. exists y. split; [done|]. destruct Hst as [->|]; [|done]. by rewrite Hx in Hz; injection Hz as ->.
  - intros s i x (HT & Hc & z & Hz & Hs) Hx Hf ->. rewrite Hx in Hz. injection Hz as ->. rewrite Hf in Hs. done.
Qed.

Section closed.
Context (I : kstate S -> Prop) (K : kclosed I).
Abbreviation ptypes := (types I exits).

Lemma exits_ok h s : I s -> inside_kernel h -> exits h s.
Proof using K. intros HI Hh. split; [by apply (ki_typed _ K)|by destruct h]. Qed.

Lemma types_on_km {A} (m : M (kmem S) A) R : types (kmem_typed D) (plain (kmem_typed D)) m R -> ptypes (on_km m) R.
Proof using K.
  intros Hm. apply (types_zoom _ _ exits_ok _ _ (kmem_typed D)); [|intros s k; apply (ki_km _ K)|done].
  intros s HI. apply ty_km. by apply (ki_typed _ K).
Qed.
Lemma types_pmem {A} (m : M mem A) R : types (mem_typed D) (plain (mem_typed D)) m R -> ptypes (pmem m) R.
Proof using K. intros Hm. by apply types_on_km, types_on_mem. Qed.
Lemma types_kalloc : ptypes kalloc is_u64.
Proof using K. apply types_on_km, types_on_heap, tm_page. Qed.
Lemma types_proc p : ptypes (proc p) (fun x => process_typed x /\ exists i, p = Some i /\ in_pool i).
Proof using K.
  apply types_read_opt; [apply exits_ok|]. intros s x HI Hx. apply (ki_typed _ K) in HI. destruct p as [i|]; [|done]. cbn in Hx.
  split; [by eapply ty_procs|]. exists i. split; [done|]. apply (ty_pool _ HI). by exists x.
Qed.
Lemma types_current : ptypes (gets current) pool_ptr.
Proof using K. apply types_gets. intros s HI. apply (ki_typed _ K) in HI. by destruct HI. Qed.
Lemma types_read_csr r R : (forall h, hart_typed h -> R (r h)) -> ptypes (read_csr r) R.
Proof using K. intros Hr. apply types_gets. intros s HI. apply (ki_typed _ K) in HI. apply Hr, tm_hart. apply ty_km in HI. by destruct HI. Qed.
Lemma types_write_csr f : (forall h, hart_typed h -> hart_typed (f h)) -> ptypes (write_csr f) any.
Proof using K.
  intros Hf. apply types_modify. intros s HI. apply (ki_km _ K); [done|]. apply (ki_typed _ K), ty_km in HI. destruct HI as [Hh Hm Hr].
  split; cbn [heap memory g_kernel_pagetable]; try done. by apply tm_with, Hf, tm_hart.
Qed.
End closed.

(** ** Operations under any such invariant *)
Section under.
Context (I : kstate S -> Prop) (idle : Z -> Prop) (K : kinv I idle) (sym : symbols).
Abbreviation ptypes := (types I exits).
Lemma under_closed : kclosed I.
Proof using K. exact (ki_closed _ _ K). Qed.
Abbreviation KC := under_closed.
#[local] Hint Resolve under_closed exits_ok types_on_km types_pmem types_kalloc types_proc types_current : types.

Lemma types_upd_proc f p :
  (forall x, process_typed x -> process_typed (f x)) -> same_status f \/ from_option idle True p -> ptypes (upd_proc f p) any.
Proof using K.
  intros Hf Hst s HI. unfold upd_proc. unfold wp, bind, proc, read_opt. destruct p as [i|]; cbn [mbind option_bind]; [|by apply (exits_ok I KC)].
  destruct (procs s !! i) as [x|] eqn:Hx; [|by apply (exits_ok I KC)]. unfold modify. cbn [from_option]. split; [|done].
  eapply (ki_proc _ _ K); [done|exact Hx| |].
  - apply Hf. eapply ty_procs; [by apply (ki_typed _ KC)|exact Hx].
  - destruct Hst as [Hst|Hst]; [left; apply Hst|by right].
Qed.
(** Writes that leave the status alone. *)
Lemma types_upd f p : (forall x, process_typed x -> process_typed (f x)) -> same_status f -> ptypes (upd_proc f p) any.
Proof using K. intros. apply types_upd_proc; [done|by left]. Qed.
Lemma types_head v : pool_ptr v -> ptypes (modify (set_head v)) any.
Proof using K. intros Hv. apply types_modify. intros s HI. by apply (ki_head _ _ K). Qed.
#[local] Hint Resolve types_upd types_head : types.
#[local] Hint Extern 1 (same_status _) => intros ?; reflexivity : types.

(** *** process.c *)
Lemma types_set_region info j va npages t : ptypes (set_region info j va npages t) any.
Proof using K. unfold set_region. types_go. Qed.
#[local] Hint Resolve types_set_region : types.

Lemma types_find_free n : forall i, 0 <= i -> ptypes (find_free n i) (fun r => 0 <= r /\ (r < i + Z.of_nat n -> idle r)).
Proof using K.
  induction n as [|n IH]; intros i Hi s HI; cbn [find_free]; [apply wp_ret; split; [done|split; lia]|].
  apply wp_bind. unfold wp at 1, proc, read_opt. cbn [mbind option_bind]. destruct (procs s !! i) as [x|] eqn:Hx; [|by apply (exits_ok I KC)].
  destruct (Z.eqb_spec (status x) FREE) as [E|E].
  - apply wp_ret. split; [done|]. split; [done|]. intros _. by apply (ki_free _ _ K s i x).
  - eapply wp_mono; [apply (IH (i + 1) ltac:(lia) s HI)| |done]. intros r s' [HI' [Hr Hid]]. split; [done|]. split; [done|]. intros. apply Hid. lia.
Qed.

Lemma types_alloc_process : ptypes (alloc_process sym) (fun i => in_pool i /\ idle i).
Proof using K.
  unfold alloc_process. eapply types_bind; [by apply types_find_free|]. intros i [Hi Hid]. cbn beta.
  destruct (Z.leb_spec NPROC i) as [|Hlt]; [apply types_panic; exact (exits_ok I KC)|].
  assert (HR : in_pool i /\ idle i) by (split; [done|apply Hid; exact Hlt]).
  types_go.
Qed.

(** fork; [get_page] is a parameter of the model. *)
Context (get_page : Z -> M (kmem S) unit) (get_page_ref : Z -> M (kmem S) Z) (host_write : Z -> Z -> M mem unit).
Context (Hget : forall p, types (kmem_typed D) (plain (kmem_typed D)) (get_page p) any).
Context (Href : forall p, types (kmem_typed D) (plain (kmem_typed D)) (get_page_ref p) any).
Context (Hwrite : forall a n, types (mem_typed D) (plain (mem_typed D)) (host_write a n) any).

Lemma types_deref v : ptypes (deref v) any.
Proof using K. by apply types_read_opt; [exact (exits_ok I KC)|]. Qed.
#[local] Hint Resolve types_deref Hget Href Hwrite : types.
Lemma types_share_page ppt cpt va : ptypes (share_page get_page ppt cpt va) any.
Proof using K Hget. unfold share_page. types_go. Qed.
#[local] Hint Resolve types_share_page : types.
Lemma types_share_loop fuel : forall info i ppt cpt k, ptypes (share_loop get_page fuel info i ppt cpt k) any.
Proof using K Hget. induction fuel; intros; cbn [share_loop]; types_go. Qed.
Lemma types_code_loop fuel : forall info i ppt cpt k, ptypes (code_loop fuel info i ppt cpt k) any.
Proof using K. induction fuel; intros; cbn [code_loop]; types_go. Qed.
#[local] Hint Resolve types_share_loop types_code_loop : types.
Lemma types_fork_segment p c i : ptypes (fork_segment get_page p c i) any.
Proof using K Hget.
  unfold fork_segment. eapply types_bind; [apply types_proc, KC|]. intros x [Hx _]. pose proof (pt_heap _ Hx). types_go.
Qed.
#[local] Hint Resolve types_fork_segment : types.
Lemma types_fork_loop n : forall p c i, ptypes (fork_loop get_page n p c i) any.
Proof using K Hget. induction n; intros; cbn [fork_loop]; types_go. Qed.
#[local] Hint Resolve types_fork_loop : types.

(** *** sched.c *)
Lemma types_queue_walk fuel : forall q p, ptypes (queue_walk fuel q p) any.
Proof using K. induction fuel; intros; cbn [queue_walk]; types_go. Qed.
#[local] Hint Resolve types_queue_walk : types.
Lemma types_ready_queue p : in_pool p -> idle p -> ptypes (insert_to_ready_queue p) any.
Proof using K.
  intros Hp Hi. unfold insert_to_ready_queue.
  assert (Hst : ptypes (upd_proc (with_status READY) (Some p)) any).
  { apply types_upd_proc; [|by right]. intros x Hx. apply typed_status; [done|]. by vm_compute. }
  assert (Hq : pool_ptr (Some p)) by done. assert (Hn : pool_ptr None) by done. types_go.
Qed.
#[local] Hint Resolve types_ready_queue types_alloc_process : types.

Lemma types_do_fork p : ptypes (do_fork sym get_page p) any.
Proof using K Hget.
  unfold do_fork. apply (types_bind _ _ _ _ (fun x => process_typed x /\ exists i, p = Some i /\ in_pool i)); [apply types_proc, KC|]. intros x (_ & i & -> & Hi).
  eapply types_bind; [apply types_alloc_process|]. intros child [Hc Hid].
  assert (Hst : ptypes (upd_proc (with_status READY) (Some child)) any).
  { apply types_upd_proc; [|by right]. intros y Hy. apply typed_status; [done|]. by vm_compute. }
  assert (Hp : pool_ptr (Some i)) by done.
  apply (types_bind _ _ _ _ any); [by apply types_read_opt; [exact (exits_ok I KC)|]|]. intros pp _. types_go.
Qed.
End under.

(** *** Entering user mode *)
Section switch.
Context (sym : symbols) (Hvec : is_u64 (smode_trap_vector sym)).

Lemma wp_switch c s : running c s -> wp (switch_to sym (Some c)) (fun _ _ => False) exits s.
Proof using Hvec.
  intros HR. unfold switch_to. apply wp_bind, wp_kernel_assert; [done|].
  apply wp_bind, wp_modify. assert (set_current (Some c) s = s) as -> by (destruct HR as (_ & Hc & _); destruct s; cbn in *; by rewrite Hc).
  destruct HR as (HT & Hc & x & Hx & Hs).
  set (I s := typed s /\ current s = Some c /\ procs s !! c = Some x).
  assert (K : kclosed I).
  { split; [by intros ? []|]. intros s1 k [[] Hc1] Hk. by split; [split|]. }
  pose proof (exits_ok I K) as HX.
  assert (Hp : types I exits (proc (Some c)) (fun y => y = x)).
  { apply types_read_opt; [done|]. intros s1 y (_ & _ & Hx1) Hy. cbn in Hy. rewrite Hx1 in Hy. by injection Hy as <-. }
  assert (Hcsr : forall f, (forall h, hart_typed h -> hart_typed (f h)) -> types I exits (write_csr f) any) by (intros; by apply types_write_csr).
  assert (Hmem : forall A (m : M mem A) R, types (mem_typed D) (plain (mem_typed D)) m R -> types I exits (pmem m) R) by (intros; by apply types_pmem).
  apply (wp_mono _ (fun _ s1 => I s1 /\ False) _ exits); [|by intros ? ? []|done].
  match goal with |- wp ?m _ _ _ => enough (Ht : types I exits m (fun _ => False)) by (by apply Ht) end.
  apply (types_bind _ _ _ _ any); [apply Hcsr; intros h []; by split|]. intros ? _.
  eapply types_bind; [exact Hp|]. intros ? ->.
  apply (types_bind _ _ _ _ any); [apply Hmem, types_store|]. intros ? _.
  apply (types_bind _ _ _ _ is_u64); [apply types_read_csr; [done|by intros h []]|]. intros sat Hsat.
  apply (types_bind _ _ _ _ any); [apply Hmem, types_store|]. intros ? _.
  apply (types_bind _ _ _ _ any); [apply Hmem, types_store|]. intros ? _.
  apply (types_bind _ _ _ _ is_u64); [apply types_read_csr; [done|by intros h []]|]. intros st Hst. cbv zeta.
  apply (types_bind _ _ _ _ any).
  { apply Hcsr. intros h []. split; cbn; try done. apply u64_lor; [by apply u64_ldiff|by apply u64_const]. }
  intros ? _. eapply types_bind; [apply Hmem, types_load|]. intros epc Hepc.
  apply (types_bind _ _ _ _ any); [apply Hcsr; intros h []; by split|]. intros ? _.
  apply types_exit. intros s1 (HT1 & Hc1 & Hx1). split; [done|]. by exists c, x.
Qed.

(** With [current] chosen, and its status still anything. *)
Definition chosen (c : Z) s : Prop := typed s /\ current s = Some c.
Lemma kinv_chosen c : kinv (chosen c) (fun _ => True).
Proof.
  split; [| | |done].
  - split; [by intros s []|]. intros s k [[] Hc] Hk. by split; [split|].
  - intros s v [[] Hc] Hv. by split; [split|].
  - intros s i x y [HT Hc] **. split; [by eapply typed_insert|done].
Qed.
Lemma wp_run_chosen c s : chosen c s -> wp (upd_proc (with_status RUNNING) (Some c)) (fun _ s' => running c s') exits s.
Proof.
  intros [HT Hc]. unfold upd_proc, wp, bind, proc, read_opt. cbn [mbind option_bind].
  destruct (procs s !! c) as [x|] eqn:Hx; [|by split].
  unfold modify. cbn [from_option]. split; [|split; [done|]].
  - eapply typed_insert; [done|exact Hx|]. apply typed_status; [by eapply ty_procs|by vm_compute].
  - exists (with_status RUNNING x). cbn [procs set_procs]. by rewrite lookup_insert_eq.
Qed.

Lemma types_all_finished n : types typed exits (all_finished n) any.
Proof.
  pose proof (kinv_typed) as K. pose proof (under_closed _ _ K) as KC. pose proof (exits_ok _ KC) as HX.
  induction n as [|n IH]; cbn [all_finished]; [by apply types_ret|].
  eapply types_bind; [by apply types_proc|]. intros x _. apply (types_bind _ _ _ _ any); [exact IH|]. intros r _. by apply types_ret.
Qed.

Lemma wp_schedule_typed s : typed s -> wp (schedule sym) (fun _ _ => False) exits s.
Proof using Hvec.
  intros HT. pose proof kinv_typed as K. pose proof (under_closed _ _ K) as KC. pose proof (exits_ok _ KC) as HX. unfold schedule.
  apply wp_bind, wp_gets. apply wp_bind. eapply (wp_mono _ (fun _ s' => typed s' /\ any tt)); [|intros _ s1 [HT1 _]|done].
  { destruct (ready_queue_head s); [by apply types_ret|]. revert s HT. change (types typed exits (let* r := all_finished (Z.to_nat NPROC) in
      if r then halt (ShutDown 0) else panic (A := unit) "Not handled: we should let system wait for unfinished processes.") (fun _ => any tt)).
    apply (types_bind _ _ _ _ any); [apply types_all_finished|]. intros [] _; by apply types_halt. }
  apply wp_bind, wp_gets. pose proof (ty_head _ HT1) as Hp. destruct (ready_queue_head s1) as [c|]; cbn [pool_ptr from_option] in Hp.
  2: { apply wp_bind, wp_modify, wp_bind. unfold wp, proc, read_opt. cbn. by destruct HT1; split. }
  apply wp_bind, wp_modify.
  assert (HC : chosen c (set_current (Some c) s1)) by (destruct HT1; by split).
  pose proof (kinv_chosen c) as K2. pose proof (under_closed _ _ K2) as KC2. pose proof (exits_ok _ KC2) as HX2.
  apply wp_bind. eapply wp_mono; [apply (types_proc _ KC2 _ _ HC)| |done]. intros x s2 [HC2 [Hx _]].
  apply wp_bind. eapply wp_mono; [by apply (types_kernel_assert _ _ HX2)| |done]. intros [] s3 [HC3 _].
  apply wp_bind. eapply wp_mono; [apply (types_head _ _ K2 _ (pt_next _ Hx) _ HC3)| |done]. intros [] s4 [HC4 _].
  apply wp_bind. eapply wp_mono; [by apply (wp_run_chosen c)| |done]. intros [] s5 HR. by apply wp_switch.
Qed.

(** *** syscall.c and strap.c, in the running process *)
Section trap.
Context (c : Z) (get_page : Z -> M (kmem S) unit) (get_page_ref : Z -> M (kmem S) Z) (host_write : Z -> Z -> M mem unit).
Context (Hget : forall p, types (kmem_typed D) (plain (kmem_typed D)) (get_page p) any).
Context (Href : forall p, types (kmem_typed D) (plain (kmem_typed D)) (get_page_ref p) any).
Context (Hwrite : forall a n, types (mem_typed D) (plain (mem_typed D)) (host_write a n) any).
Abbreviation rtypes := (types (running c) exits).

Lemma running_kinv : kinv (running c) (fun i => i <> c).
Proof. apply kinv_running. Qed.
Lemma running_closed : kclosed (running c).
Proof. apply (under_closed _ _ running_kinv). Qed.
Lemma types_running : rtypes (gets current) (fun p => p = Some c).
Proof. apply types_gets. by intros s (_ & ? & _). Qed.
#[local] Hint Resolve running_kinv running_closed exits_ok types_on_km types_pmem types_kalloc types_proc types_running types_upd types_head types_do_fork Hget Href Hwrite : types.
#[local] Hint Extern 1 (same_status _) => intros ?; reflexivity : types.

Lemma types_vprintk out a vl : types (mem_typed D) (plain (mem_typed D)) (vprintk host_write out a vl) any.
Proof using Hwrite. unfold vprintk. types_go. Qed.
#[local] Hint Resolve types_vprintk : types.
Lemma types_sys_print out stray buf n : rtypes (sys_user_print host_write out stray buf n) any.
Proof using Hwrite. unfold sys_user_print. types_go. Qed.

Lemma types_sys_exit code : rtypes (sys_user_exit sym code) any.
Proof using Hvec.
  intros s HR. pose proof HR as (HT & Hc & x & Hx & _). unfold sys_user_exit, free_process. apply wp_bind, wp_gets. rewrite Hc.
  apply wp_bind, wp_bind. unfold wp at 1, upd_proc, bind, proc, read_opt. cbn [mbind option_bind]. rewrite Hx. unfold modify. cbn [from_option].
  apply wp_ret, wp_bind. eapply wp_mono; [apply wp_schedule_typed|by intros ? ? []|done].
  eapply typed_insert; [done|exact Hx|]. apply typed_status; [by eapply ty_procs|by vm_compute].
Qed.

Lemma types_sys_allocate : rtypes sys_user_allocate_page any.
Proof.
  unfold sys_user_allocate_page. eapply types_bind; [eauto with types|]. intros pa Hpa. eapply types_bind; [eauto with types|]. intros cur Hcur.
  eapply types_bind; [eauto with types|]. intros x [Hx _]. destruct (pt_heap _ Hx) as [_ _ _ _ Hn]. types_go.
Qed.

Lemma types_sys_free va : is_u64 va -> rtypes (sys_user_free_page va) any.
Proof. intros Hva. unfold sys_user_free_page. types_go. Qed.

Lemma types_sys_fork : rtypes (sys_user_fork sym get_page) any.
Proof using Hget. unfold sys_user_fork. types_go. Qed.
Lemma types_sys_printpa va : rtypes (sys_user_printpa va) any.
Proof. unfold sys_user_printpa. types_go. Qed.
#[local] Hint Resolve types_sys_print types_sys_exit types_sys_allocate types_sys_free types_sys_fork types_sys_printpa : types.

Lemma types_do_syscall out stray a0 a1 a2 : is_u64 a1 -> rtypes (do_syscall sym get_page host_write out stray a0 a1 a2) any.
Proof using Hvec Hget Hwrite. intros Ha. unfold do_syscall, sys_user_yield, sys_user_sem_new, sys_user_sem_P, sys_user_sem_V. types_go. Qed.
#[local] Hint Resolve types_do_syscall : types.
Lemma types_handle_syscall out stray tf : rtypes (handle_syscall sym get_page host_write out stray tf) any.
Proof using Hvec Hget Hwrite. unfold handle_syscall. types_go. Qed.

Lemma types_cow_fault pte v : rtypes (cow_fault get_page_ref pte v) any.
Proof using Href. unfold cow_fault. types_go. Qed.
#[local] Hint Resolve types_cow_fault types_handle_syscall : types.
Lemma types_page_fault cause pc va : rtypes (handle_user_page_fault get_page_ref cause pc va) any.
Proof using Href. unfold handle_user_page_fault. types_go. Qed.
#[local] Hint Resolve types_page_fault : types.

Lemma wp_trap out stray s : running c s -> wp (smode_trap_handler sym get_page get_page_ref host_write out stray) (fun _ _ => False) exits s.
Proof using Hvec Hget Href Hwrite.
  intros HR. pose proof running_closed as KC. pose proof (exits_ok _ KC) as HX.
  apply (wp_mono _ (fun _ s1 => running c s1 /\ False) _ exits); [|by intros ? ? []|done]. revert s HR.
  match goal with |- forall s, _ -> wp ?m _ _ _ => change (rtypes m (fun _ => False)) end.
  assert (Hcsr : forall r, rtypes (read_csr r) any) by (intros; by apply types_gets). unfold smode_trap_handler.
  unfold handle_mtimer_trap, rrsched. types_go. cbn beta in *. subst. intros s HR. eapply wp_mono; [by apply wp_switch|by intros ? ? []|done].
Qed.
End trap.
End switch.
End typed.
