(* ===== verification/StartTypes.v ===== *)
(** * Well-typed runs: the host, the loader and start-up

    [TypedHost] is what the kernel needs of the host and of the atomic
    operations the repository does not define; the interface of
    spike_interface/ provides it ([htif_typed]). *)
From stdpp Require Import base gmap list strings.
From Stdlib Require Import ZArith Lia.
From S2P Require Import Prelude Riscv PmmState Mem Str Sync Typing Vmm ProcState Sched Process Trap Spike SpikeProofs SpikeFile Elf Kernel KernelTypes ProcTypes.

#[local] Arguments load_le : simpl never.
#[local] Arguments store_le : simpl never.
#[local] Arguments u64 : simpl never.
#[local] Arguments u32 : simpl never.

Class TypedAtomics (D : Z -> Prop) `{SpikeAtomics} : Prop := {
  ta_read a : types (mem_typed D) (plain (mem_typed D)) (at_read a) any;
  ta_set a v : types (mem_typed D) (plain (mem_typed D)) (at_set a v) any;
  ta_swap a v : types (mem_typed D) (plain (mem_typed D)) (at_swap a v) any;
  ta_add a v : types (mem_typed D) (plain (mem_typed D)) (at_add a v) any
}.
#[export] Hint Resolve ta_read ta_set ta_swap ta_add : types.

#[export] Instance atomics_typed (D : Z -> Prop) `{SpikeAtomics} `{!AtomicsSpec} : TypedAtomics D.
Proof. split; intros; rewrite ?as_read, ?as_set, ?as_swap, ?as_add; types_go. Qed.

Class TypedHost (S : Type) (D : Z -> Prop) `{Allocator S} `{Harts S} `{!TypedMachine S} `{Frontend S} : Prop :=
  th_call n a0 a1 a2 a3 a4 : types (kmem_typed (S := S) D) (plain (kmem_typed D)) (fe_syscall n a0 a1 a2 a3 a4) any.
#[export] Hint Resolve th_call : types.

(** ** The host interface *)
Section htif.
Context {S : Type} `{Allocator S} `{Harts S} `{!TypedMachine S} `{HostMachine S} `{SpikeAtomics} (D : Z -> Prop) `{!TypedAtomics D}
  (patience : nat) (sym : spike_symbols).
Context (Hturn : forall k : kmem S, kmem_typed D k -> kmem_typed D (host_turn k)).
Abbreviation ktypes := (types (kmem_typed D) (plain (kmem_typed D))).

Lemma types_host_turn : ktypes (modify host_turn) any.
Proof using Hturn. by apply types_modify. Qed.
#[local] Hint Resolve types_host_turn : types.
Lemma types_lock_wait fuel : forall l, ktypes (lock_wait fuel l) any.
Proof using Hturn TypedAtomics0. induction fuel; intros; cbn [lock_wait]; types_go. Qed.
#[local] Hint Resolve types_lock_wait : types.
Lemma types_lock_loop fuel : forall l, ktypes (lock_loop patience fuel l) any.
Proof using Hturn TypedAtomics0. induction fuel; intros; cbn [lock_loop]; unfold spinlock_trylock; types_go. Qed.
Lemma types_spinlock_lock l : ktypes (spinlock_lock patience l) any.
Proof using Hturn TypedAtomics0. apply types_lock_loop. Qed.
Lemma types_spinlock_unlock l : ktypes (spinlock_unlock l) any.
Proof using TypedAtomics0. unfold spinlock_unlock. types_go. Qed.
Lemma types_volatile64 a : ktypes (volatile64 a) any.
Proof using Hturn. unfold volatile64. types_go. Qed.
#[local] Hint Resolve types_spinlock_lock types_spinlock_unlock types_volatile64 : types.
Lemma types_check_fromhost : ktypes (__check_fromhost sym) any.
Proof using Hturn. unfold __check_fromhost. types_go. Qed.
#[local] Hint Resolve types_check_fromhost : types.
Lemma types_wait_tohost fuel : ktypes (wait_tohost sym fuel) any.
Proof using Hturn. induction fuel; cbn [wait_tohost]; types_go. Qed.
#[local] Hint Resolve types_wait_tohost : types.
Lemma types_set_tohost dev cmd data : ktypes (__set_tohost patience sym dev cmd data) any.
Proof using Hturn. unfold __set_tohost. types_go. Qed.
Lemma types_await fuel dev cmd : ktypes (await_fromhost sym fuel dev cmd) any.
Proof using Hturn. induction fuel; cbn [await_fromhost]; types_go. Qed.
#[local] Hint Resolve types_set_tohost types_await : types.
Lemma types_htif_syscall arg : ktypes (htif_syscall patience sym arg) any.
Proof using Hturn TypedAtomics0. unfold htif_syscall, do_tohost_fromhost. types_go. Qed.
Lemma types_store_words l : forall a, ktypes (store_words a l) any.
Proof. induction l; intros; cbn [store_words]; types_go. Qed.
#[local] Hint Resolve types_htif_syscall types_store_words : types.
Lemma types_frontend_syscall n a0 a1 a2 a3 a4 a5 a6 : ktypes (frontend_syscall patience sym n a0 a1 a2 a3 a4 a5 a6) any.
Proof using Hturn TypedAtomics0. unfold frontend_syscall. types_go. Qed.
Lemma types_putchar c : ktypes (htif_console_putchar patience sym c) any.
Proof using Hturn TypedAtomics0. unfold htif_console_putchar. types_go. Qed.
Lemma types_getchar : ktypes (htif_console_getchar patience sym) any.
Proof using Hturn TypedAtomics0. unfold htif_console_getchar. types_go. Qed.

Lemma htif_typed : @TypedHost S D _ _ _ (htif_frontend patience sym).
Proof using Hturn TypedAtomics0. intros n a0 a1 a2 a3 a4. apply types_frontend_syscall. Qed.
End htif.

(** ** spike_file.c *)
Section files.
Context {S : Type} `{Allocator S} `{Harts S} `{!TypedMachine S} `{Frontend S} `{SpikeAtomics} (D : Z -> Prop) `{!TypedAtomics D} `{!TypedHost S D} (sym : spike_symbols).
Abbreviation ktypes := (types (kmem_typed (S := S) D) (plain (kmem_typed D))).

Lemma types_on_hart f : (forall h, hart_typed h -> hart_typed (f h)) -> ktypes (modify (fun s => mkKmem (with_hart f (heap s)) (memory s) (g_kernel_pagetable s))) any.
Proof. intros Hf. apply types_modify. intros k []. split; cbn [heap memory g_kernel_pagetable]; try done. by apply tm_with, Hf, tm_hart. Qed.
Lemma types_atomic_cas n p c v : ktypes (atomic_cas n p c v) any.
Proof.
  unfold atomic_cas, irq_off, irq_back. apply (types_bind _ _ _ _ any).
  - types_go. apply types_on_hart, hart_irqsave.
  - intros fl _. types_go. apply types_on_hart, hart_irqrestore.
Qed.
Lemma types_file_kfd f : ktypes (file_kfd f) any.
Proof. unfold file_kfd. types_go. Qed.
#[local] Hint Resolve types_atomic_cas types_file_kfd : types.
Lemma types_decref f : ktypes (spike_file_decref f) any.
Proof using TypedAtomics0 TypedHost0. unfold spike_file_decref. types_go. Qed.
Lemma types_incref f : ktypes (spike_file_incref f) any.
Proof using TypedAtomics0. unfold spike_file_incref. types_go. Qed.
#[local] Hint Resolve types_decref types_incref : types.
Lemma types_file_close f : ktypes (spike_file_close sym f) any.
Proof using TypedAtomics0 TypedHost0. unfold spike_file_close. types_go. Qed.
Lemma types_file_pread f b n o : ktypes (spike_file_pread f b n o) any.
Proof using TypedHost0. unfold spike_file_pread. types_go. Qed.
Lemma types_file_write f b n : ktypes (spike_file_write f b n) any.
Proof using TypedHost0. unfold spike_file_write. types_go. Qed.
Lemma types_get_free n : forall f, ktypes (get_free_loop n f) any.
Proof using TypedAtomics0. induction n; intros; cbn [get_free_loop]; types_go. Qed.
#[local] Hint Resolve types_get_free : types.
Lemma types_file_open fn fl mode : ktypes (spike_file_open sym fn fl mode) any.
Proof using TypedAtomics0 TypedHost0. unfold spike_file_open, spike_file_openat, spike_file_get_free. types_go. Qed.
End files.
#[export] Hint Resolve types_file_close types_file_pread types_file_write types_file_open : types.

(** ** elf.c and kernel.c *)
Section start.
Context {S : Type} `{Allocator S} `{Harts S} `{!TypedMachine S} `{Frontend S} `{SpikeAtomics} (D : Z -> Prop) `{!TypedAtomics D} `{!TypedHost S D}
  (files : spike_symbols) (bufs : elf_bufs) (sym : symbols) (Hvec : is_u64 (smode_trap_vector sym)).
Abbreviation ttypes := (types (typed (S := S) D) (exits D)).

Lemma typed_kinv : kinv D (typed (S := S) D) (fun _ => True).
Proof. apply kinv_typed. Qed.
Lemma typed_closed : kclosed D (typed (S := S) D).
Proof. apply (under_closed _ _ _ typed_kinv). Qed.
#[local] Hint Resolve typed_kinv typed_closed exits_ok types_on_km types_pmem types_kalloc types_proc types_upd : types.
#[local] Hint Extern 1 (same_status _) => intros ?; reflexivity : types.

Lemma types_fpread info d n o : ttypes (elf_fpread info d n o) any.
Proof using TypedHost0. unfold elf_fpread. types_go. Qed.
Lemma types_alloc_mb info va n : ttypes (elf_alloc_mb info va n) any.
Proof. unfold elf_alloc_mb. types_go. Qed.
#[local] Hint Resolve types_fpread types_alloc_mb : types.
Lemma types_elf_init info : ttypes (elf_init bufs info) any.
Proof using TypedHost0. unfold elf_init. types_go. Qed.
Lemma types_last_region n : forall mi j, ttypes (last_region n mi j) any.
Proof. induction n; intros; cbn [last_region]; types_go. Qed.
#[local] Hint Resolve types_last_region : types.
Lemma types_record_segment info va : ttypes (record_segment bufs info va) any.
Proof. unfold record_segment. types_go. apply types_upd with (idle := fun _ => True); [apply typed_kinv|intros x Hx; by apply typed_total|done]. Qed.
#[local] Hint Resolve types_record_segment : types.
Lemma types_load_segment info o : ttypes (load_segment bufs info o) any.
Proof using TypedHost0. unfold load_segment. types_go. Qed.
#[local] Hint Resolve types_load_segment : types.
Lemma types_segments_loop fuel : forall info i o, ttypes (segments_loop bufs fuel info i o) any.
Proof using TypedHost0. induction fuel; intros; cbn [segments_loop]; types_go. Qed.
#[local] Hint Resolve types_segments_loop : types.
Lemma types_elf_load info : ttypes (elf_load bufs info) any.
Proof using TypedHost0. unfold elf_load. types_go. Qed.
Lemma types_args_loop fuel : forall i n, ttypes (args_loop bufs fuel i n) any.
Proof. induction fuel; intros; cbn [args_loop]; types_go. Qed.
#[local] Hint Resolve types_args_loop : types.
Lemma types_parse_args : ttypes (parse_args bufs) any.
Proof using TypedHost0. unfold parse_args. types_go. Qed.
#[local] Hint Resolve types_elf_init types_elf_load types_parse_args : types.
Lemma types_load_bincode p : ttypes (load_bincode_from_host_elf files bufs p) any.
Proof using TypedHost0 TypedAtomics0. unfold load_bincode_from_host_elf. types_go. Qed.
#[local] Hint Resolve types_load_bincode : types.

Lemma types_init_pool_loop n : forall i, 0 <= i -> i + Z.of_nat n < 2 ^ 64 -> ttypes (init_pool_loop n i) any.
Proof.
  induction n as [|n IH]; intros i Hi Hn; cbn [init_pool_loop]; [by apply types_ret|].
  apply (types_bind _ _ _ _ any).
  - eapply types_upd_proc; [apply typed_kinv| |right; done]. intros x Hx. apply typed_status; [done|by vm_compute].
  - intros _ _. apply (types_bind _ _ _ _ any).
    + eapply types_upd; [apply typed_kinv|intros x Hx; apply typed_pid; [done|unfold is_u64; lia]|done].
    + intros _ _. apply IH; lia.
Qed.

Lemma zero_pool_slots i x : zero_pool !! i = Some x <-> in_pool i /\ x = zero_process.
Proof.
  unfold zero_pool, in_pool. split.
  - intros Hx%elem_of_list_to_map_2. apply list_elem_of_fmap in Hx as (j & [= -> ->] & Hj). by apply elem_of_seqZ in Hj.
  - intros [Hi ->]. apply elem_of_list_to_map_1.
    + rewrite <- list_fmap_compose. cbn. rewrite list_fmap_id. apply NoDup_seqZ.
    + apply list_elem_of_fmap. exists i. split; [done|]. by apply elem_of_seqZ.
Qed.
Lemma typed_zero_pool s : typed (S := S) D s -> typed D (set_procs zero_pool s).
Proof.
  intros [T1 T2 T3 T4 T5]. split; cbn [km procs set_procs current ready_queue_head]; try done.
  - intros i. split; [by intros [x [Hi _]%zero_pool_slots]|]. intros Hi. exists zero_process. by apply zero_pool_slots.
  - intros i x [_ ->]%zero_pool_slots. apply zero_process_typed.
Qed.
Lemma types_init_proc_pool : ttypes init_proc_pool any.
Proof.
  unfold init_proc_pool. apply (types_bind _ _ _ _ any); [apply types_modify; intros s; apply typed_zero_pool|].
  intros _ _. by apply types_init_pool_loop.
Qed.
#[local] Hint Resolve types_init_proc_pool : types.

Lemma types_first_process : ttypes (first_process files bufs sym) (fun _ => False).
Proof using Hvec TypedHost0 TypedAtomics0.
  unfold first_process. apply (types_bind _ _ _ _ any); [apply types_init_proc_pool|]. intros _ _.
  apply (types_bind _ _ _ _ in_pool).
  { unfold load_user_program. eapply types_bind; [eapply types_alloc_process, typed_kinv|]. intros p [Hp _].
    apply (types_bind _ _ _ _ any); [apply types_load_bincode|]. intros _ _. by apply types_ret. }
  intros p Hp. apply (types_bind _ _ _ _ any); [by eapply types_ready_queue; [apply typed_kinv| |]|]. intros _ _ s HT.
  apply wp_bind. eapply wp_mono; [by apply wp_schedule_typed|by intros ? ? []|done].
Qed.
End start.
