(* ===== verification/VmPrint.v ===== *)
(** * print_proc_vmspace of kernel/vmm.c

    The debug printer, through [sprint]; and that neither it nor the rest of
    the console code breaks the types of the kernel's state. *)
From stdpp Require Import base gmap list strings.
From Stdlib Require Import ZArith Lia.
From S2P Require Import Prelude Riscv PmmState Mem Str Snprintf Sync Typing Vmm ProcState Spike SpikeFile Console KernelTypes ProcTypes StartTypes.

#[local] Arguments load_le : simpl never.
#[local] Arguments store_le : simpl never.
#[local] Arguments u64 : simpl never.
#[local] Arguments u32 : simpl never.

(** Where the literals of the function are. *)
Record vmspace_literals := mkVmspaceLiterals {
  l_head : Z;       (* "======\tbelow is the vm space of process%d\t========\n" *)
  l_region : Z;     (* "-va:%lx, npage:%d, " *)
  l_code : Z; l_data : Z; l_stack : Z; l_trapframe : Z; l_system : Z;
  l_mapped : Z      (* ", mapped to pa:%lx\n" *)
}.

Section print.
Context {S : Type} `{Allocator S} `{Harts S} `{Frontend S} (sym : spike_symbols) (con : console) (lits : vmspace_literals).

(** The switch: a heap segment prints nothing. *)
Definition print_seg_type (t : Z) : M (kmem S) unit :=
  if t =? CODE_SEGMENT then sprint sym con (l_code lits) []
  else if t =? DATA_SEGMENT then sprint sym con (l_data lits) []
  else if t =? STACK_SEGMENT then sprint sym con (l_stack lits) []
  else if t =? CONTEXT_SEGMENT then sprint sym con (l_trapframe lits) []
  else if t =? SYSTEM_SEGMENT then sprint sym con (l_system lits) []
  else ret tt.

Fixpoint print_regions (n : nat) (x : process) (i : Z) : M (kstate S) unit :=
  match n with
  | O => ret tt
  | Datatypes.S n =>
      let r := region (mapped_info x) i in
      let* va := pmem (load64 (u64 (r + MR_VA))) in
      let* npages := pmem (load32 (u64 (r + MR_NPAGES))) in
      on_km (sprint sym con (l_region lits) [va; npages]) ;;;
      let* t := pmem (load32 (u64 (r + MR_TYPE))) in
      on_km (print_seg_type t) ;;;
      let* va := pmem (load64 (u64 (r + MR_VA))) in
      let* pa := on_km (lookup_pa (pagetable x) va) in
      on_km (sprint sym con (l_mapped lits) [pa]) ;;;
      print_regions n x (i + 1)
  end.

Definition print_proc_vmspace (p : option Z) : M (kstate S) unit :=
  let* x := proc p in
  on_km (sprint sym con (l_head lits) [pid x]) ;;;
  print_regions (Z.to_nat (total_mapped_region x)) x 0.
End print.

Section typed.
Context {S : Type} `{Allocator S} `{Harts S} `{!TypedMachine S} `{Frontend S} (D : Z -> Prop) `{!TypedHost S D}
  (sym : spike_symbols) (con : console) (lits : vmspace_literals).
Abbreviation ktypes := (types (kmem_typed (S := S) D) (plain (kmem_typed D))).

Lemma types_sprint s vl : ktypes (sprint sym con s vl) any.
Proof using TypedHost0. unfold sprint, print_to_stderr. types_go. Qed.
#[local] Hint Resolve types_sprint : types.
Lemma types_shutdown code : ktypes (shutdown sym con code) (fun _ => False).
Proof using TypedHost0.
  unfold shutdown. apply (types_bind _ _ _ _ any); [apply types_sprint|]. intros _ _. apply (types_bind _ _ _ _ any); [apply th_call|].
  intros r _. by apply types_halt; [apply plain_ok|].
Qed.
Lemma types_do_panic s va stray : ktypes (do_panic sym con s va stray) (fun _ => False).
Proof using TypedHost0. unfold do_panic. apply (types_bind _ _ _ _ any); [apply types_sprint|]. intros _ _. apply types_shutdown. Qed.

(** In any state of the kernel that is typed, whatever runs. *)
Lemma types_print_proc_vmspace (I : kstate S -> Prop) p : kclosed D I -> types I (exits D) (print_proc_vmspace sym con lits p) any.
Proof using TypedHost0.
  intros K. pose proof (exits_ok D I K) as HX.
  assert (Hk : forall A (m : M (kmem S) A) R, ktypes m R -> types I (exits D) (on_km m) R) by (intros; by apply (types_on_km D)).
  assert (Hm : forall A (m : M mem A) R, types (mem_typed D) (plain (mem_typed D)) m R -> types I (exits D) (pmem m) R) by (intros; by apply (types_pmem D)).
  assert (Hs : forall t, ktypes (print_seg_type sym con lits t) any) by (intros; unfold print_seg_type; types_go).
  assert (Hr : forall n x i, types I (exits D) (print_regions sym con lits n x i) any) by (induction n; intros; cbn [print_regions]; types_go).
  unfold print_proc_vmspace. eapply types_bind; [by apply (types_proc D)|]. intros x _. types_go.
Qed.
End typed.
