(* ===== verification/Machine.v ===== *)
(** * Machine mode: kernel/machine/minit.c and mtrap.c

    The machine-mode CSRs are a record beside the kernel's memory; [sie] and
    [sip] are views of [mie] and [mip] through [mideleg].  Which bits
    [mideleg] and [medeleg] keep is up to the hart: a parameter.  The timer
    of the CLINT is in byte memory.  Console output is not part of the
    state. *)
From stdpp Require Import base gmap list strings.
From Stdlib Require Import ZArith Lia.
From S2P Require Import Prelude Riscv PmmState Mem Str Dts Vmm ProcState Spike SpikeFile.

(** riscv.h *)
Definition MSTATUS_MPP_MASK : Z := Z.shiftl 3 11.
Definition MSTATUS_MPP_S : Z := Z.shiftl 1 11.
Definition MSTATUS_MIE : Z := Z.shiftl 1 3.
Definition MSTATUS_MPIE : Z := Z.shiftl 1 7.
Definition IRQ_S_EXT : Z := 9.
Definition IRQ_S_TIMER : Z := 5.
Definition IRQ_S_SOFT : Z := 1.
Definition MIP_SEIP : Z := Z.shiftl 1 IRQ_S_EXT.
Definition MIP_SSIP : Z := Z.shiftl 1 IRQ_S_SOFT.
Definition MIP_STIP : Z := Z.shiftl 1 IRQ_S_TIMER.
Definition CAUSE_MISALIGNED_FETCH : Z := 0.
Definition CAUSE_FETCH_ACCESS : Z := 1.
Definition CAUSE_ILLEGAL_INSTRUCTION : Z := 2.
Definition CAUSE_BREAKPOINT : Z := 3.
Definition CAUSE_MISALIGNED_LOAD : Z := 4.
Definition CAUSE_LOAD_ACCESS : Z := 5.
Definition CAUSE_MISALIGNED_STORE : Z := 6.
Definition CAUSE_STORE_ACCESS : Z := 7.
Definition CAUSE_FETCH_PAGE_FAULT : Z := 12.
Definition CAUSE_MTIMER : Z := 9223372036854775815. (* 0x8000000000000007 *)
Definition SIP_SSIP : Z := Z.shiftl 1 1.
Definition CLINT : Z := 33554432. (* 0x2000000 *)
Definition CLINT_MTIMECMP (hartid : Z) : Z := u64 (CLINT + 16384 + 8 * hartid).
Definition CLINT_MTIME : Z := CLINT + 49144.
Definition SIE_SEIE : Z := Z.shiftl 1 9.
Definition SIE_STIE : Z := Z.shiftl 1 5.
Definition SIE_SSIE : Z := Z.shiftl 1 1.
Definition MIE_MTIE : Z := Z.shiftl 1 7.
(** config.h *)
Definition TIMER_INTERVAL : Z := 1000000.

(** The machine-mode registers of the hart, where it runs and in which mode. *)
Record mcsrs := mkMcsrs {
  misa : Z; mstatus : Z; mepc : Z; mtvec : Z; mscratch : Z;
  mideleg : Z; medeleg : Z; mie : Z; mip : Z; mcause : Z;
  pc : Z; priv : Z
}.

(** Where the globals of the two files and the functions they name are. *)
Record machine_symbols := mkMachineSymbols { a_g_itrframe : Z; a_s_start : Z; a_mtrapvec : Z; a_mem_done : Z }.

(** The machine: memory and heap (with [g_mem_size]), the CSRs, the global
    [htif]. *)
Record mstate := mkMstate { m_k : kmem pmm_state; m_csr : mcsrs; m_htif : Z }.

Definition set_mstatus v c := mkMcsrs (misa c) v (mepc c) (mtvec c) (mscratch c) (mideleg c) (medeleg c) (mie c) (mip c) (mcause c) (pc c) (priv c).
Definition set_mepc v c := mkMcsrs (misa c) (mstatus c) v (mtvec c) (mscratch c) (mideleg c) (medeleg c) (mie c) (mip c) (mcause c) (pc c) (priv c).
Definition set_mtvec v c := mkMcsrs (misa c) (mstatus c) (mepc c) v (mscratch c) (mideleg c) (medeleg c) (mie c) (mip c) (mcause c) (pc c) (priv c).
Definition set_mscratch v c := mkMcsrs (misa c) (mstatus c) (mepc c) (mtvec c) v (mideleg c) (medeleg c) (mie c) (mip c) (mcause c) (pc c) (priv c).
Definition set_mideleg v c := mkMcsrs (misa c) (mstatus c) (mepc c) (mtvec c) (mscratch c) v (medeleg c) (mie c) (mip c) (mcause c) (pc c) (priv c).
Definition set_medeleg v c := mkMcsrs (misa c) (mstatus c) (mepc c) (mtvec c) (mscratch c) (mideleg c) v (mie c) (mip c) (mcause c) (pc c) (priv c).
Definition set_mie v c := mkMcsrs (misa c) (mstatus c) (mepc c) (mtvec c) (mscratch c) (mideleg c) (medeleg c) v (mip c) (mcause c) (pc c) (priv c).
Definition set_mip v c := mkMcsrs (misa c) (mstatus c) (mepc c) (mtvec c) (mscratch c) (mideleg c) (medeleg c) (mie c) v (mcause c) (pc c) (priv c).

Definition set_g_mem_size (v : Z) (s : pmm_state) : pmm_state :=
  set_bounds (free_mem_start_addr s) (free_mem_end_addr s) (buddy_start s) (buddy_end s) v s.

(** [sie] and [sip]: the delegated bits of [mie] and [mip]; of [sip] only the
    software bit can be written. *)
Definition sie (c : mcsrs) : Z := Z.land (mie c) (mideleg c).
Definition set_sie (v : Z) (c : mcsrs) : mcsrs := set_mie (Z.lor (Z.ldiff (mie c) (mideleg c)) (Z.land v (mideleg c))) c.
Definition set_sip (v : Z) (c : mcsrs) : mcsrs :=
  let w := Z.land (mideleg c) MIP_SSIP in
  set_mip (Z.lor (Z.ldiff (mip c) w) (Z.land v w)) c.

(** [mret]: to the mode in MPP, at [mepc]. *)
Definition do_mret (c : mcsrs) : mcsrs :=
  let st := mstatus c in
  let mie_bit := if Z.testbit st 7 then MSTATUS_MIE else 0 in
  let st' := Z.lor (Z.lor (Z.ldiff st (Z.lor (Z.lor MSTATUS_MIE MSTATUS_MPIE) MSTATUS_MPP_MASK)) mie_bit) MSTATUS_MPIE in
  mkMcsrs (misa c) st' (mepc c) (mtvec c) (mscratch c) (mideleg c) (medeleg c) (mie c) (mip c) (mcause c)
    (mepc c) (Z.land (Z.shiftr st 11) 3).

Section machine.
Context `{SpikeAtomics} (files : spike_symbols) (lit : literals) (msym : machine_symbols).
(** What the hart keeps of a value written to [mideleg] and [medeleg]. *)
Context (legal_mideleg legal_medeleg : Z -> Z).

Definition on_k {A} (m : M (kmem pmm_state) A) : M mstate A := zoom m_k (fun k s => mkMstate k (m_csr s) (m_htif s)) m.
Definition mcsr (r : mcsrs -> Z) : M mstate Z := gets (fun s => r (m_csr s)).
Definition write_mcsr (f : mcsrs -> mcsrs) : M mstate unit :=
  modify (fun s => mkMstate (m_k s) (f (m_csr s)) (m_htif s)).

(** The scans of the device tree on the machine's memory and globals.  Their
    locals [scan] are set by each [open] before they are read. *)
Definition scan_htif {A} (m : M (scan_state htif_scan) A) : M mstate A :=
  zoom (fun s => mkScan (memory (m_k s)) (mkHtifScan 0 (m_htif s)))
       (fun sc s => mkMstate (mkKmem (heap (m_k s)) (sc_mem sc) (g_kernel_pagetable (m_k s))) (m_csr s) (hs_htif (sc_extra sc))) m.
Definition scan_memory {A} (m : M (scan_state mem_scan) A) : M mstate A :=
  zoom (fun s => mkScan (memory (m_k s)) (mkMemScan 0 0 0 (g_mem_size (heap (m_k s)))))
       (fun sc s => mkMstate (mkKmem (set_g_mem_size (ms_g_mem_size (sc_extra sc)) (heap (m_k s))) (sc_mem sc) (g_kernel_pagetable (m_k s)))
                             (m_csr s) (m_htif s)) m.

Definition init_dtb (dtb : Z) : M mstate unit :=
  scan_htif (query_htif lit dtb) ;;;
  scan_memory (query_mem lit (a_mem_done msym) dtb).

Definition supports_extension (ext : Z) : M mstate bool :=
  let* m := mcsr misa in ret (negb (Z.land m (Z.shiftl 1 (ext - 65)) =? 0)).

Definition interrupts : Z := Z.lor (Z.lor MIP_SSIP MIP_STIP) MIP_SEIP.
Definition exceptions : Z :=
  Z.lor (Z.lor (Z.lor (Z.lor (Z.lor (Z.shiftl 1 CAUSE_MISALIGNED_FETCH) (Z.shiftl 1 CAUSE_FETCH_PAGE_FAULT))
    (Z.shiftl 1 CAUSE_BREAKPOINT)) (Z.shiftl 1 CAUSE_LOAD_PAGE_FAULT)) (Z.shiftl 1 CAUSE_STORE_PAGE_FAULT)) (Z.shiftl 1 CAUSE_USER_ECALL).

(** The two checks after the writes only print. *)
Definition delegate_traps : M mstate unit :=
  let* s_mode := supports_extension 83 in
  if negb s_mode then ret tt
  else
    write_mcsr (set_mideleg (legal_mideleg interrupts)) ;;;
    let* actual_interrupts := mcsr mideleg in
    write_mcsr (set_medeleg (legal_medeleg exceptions)) ;;;
    let* actual_exceptions := mcsr medeleg in
    ret tt.

Definition timerinit (hartid : Z) : M mstate unit :=
  let* now := on_k (on_mem (load64 CLINT_MTIME)) in
  on_k (on_mem (store64 (CLINT_MTIMECMP hartid) (u64 (now + TIMER_INTERVAL)))) ;;;
  let* v := mcsr mie in
  write_mcsr (set_mie (Z.lor v MIE_MTIE)).

Definition m_start (hartid dtb : Z) : M mstate unit :=
  on_k (spike_file_init files) ;;;
  init_dtb dtb ;;;
  write_mcsr (set_mscratch (a_g_itrframe msym)) ;;;
  let* v := mcsr mstatus in
  write_mcsr (set_mstatus (Z.lor (Z.land v (u64 (Z.lnot MSTATUS_MPP_MASK))) MSTATUS_MPP_S)) ;;;
  write_mcsr (set_mepc (a_s_start msym)) ;;;
  write_mcsr (set_mtvec (a_mtrapvec msym)) ;;;
  let* v := mcsr mstatus in
  write_mcsr (set_mstatus (Z.lor v MSTATUS_MIE)) ;;;
  delegate_traps ;;;
  let* v := mcsr sie in
  write_mcsr (set_sie (Z.lor (Z.lor (Z.lor v SIE_SEIE) SIE_STIE) SIE_SSIE)) ;;;
  timerinit hartid ;;;
  write_mcsr do_mret.

(** ** mtrap.c *)
Definition handle_timer : M mstate unit :=
  let cpuid := 0 in
  let* v := on_k (on_mem (load64 (CLINT_MTIMECMP cpuid))) in
  on_k (on_mem (store64 (CLINT_MTIMECMP cpuid) (u64 (v + TIMER_INTERVAL)))) ;;;
  write_mcsr (set_sip SIP_SSIP).

Definition handle_instruction_access_fault : M mstate unit := panic "Instruction access fault!".
Definition handle_load_access_fault : M mstate unit := panic "Load access fault!".
Definition handle_store_access_fault : M mstate unit := panic "Store/AMO access fault!".
Definition handle_illegal_instruction : M mstate unit := panic "Illegal instruction!".
Definition handle_misaligned_load : M mstate unit := panic "Misaligned Load!".
Definition handle_misaligned_store : M mstate unit := panic "Misaligned AMO!".

Definition handle_mtrap : M mstate unit :=
  let* cause := mcsr mcause in
  if cause =? CAUSE_MTIMER then handle_timer
  else if cause =? CAUSE_FETCH_ACCESS then handle_instruction_access_fault
  else if cause =? CAUSE_LOAD_ACCESS then handle_load_access_fault ;;; handle_store_access_fault
  else if cause =? CAUSE_STORE_ACCESS then handle_store_access_fault
  else if cause =? CAUSE_ILLEGAL_INSTRUCTION then
    panic "call handle_illegal_instruction to accomplish illegal instruction interception for lab1_2."
  else if cause =? CAUSE_MISALIGNED_LOAD then handle_misaligned_load
  else if cause =? CAUSE_MISALIGNED_STORE then handle_misaligned_store
  else panic "unexpected exception happened in M-mode.".
End machine.
