(* ===== verification/MachineProofs.v ===== *)
(** * Machine mode: lemmas

    The bits of the CSRs the start-up code and the trap handler write, and a
    device tree that stays readable while other memory changes. *)
From stdpp Require Import base gmap list strings.
From Stdlib Require Import ZArith Lia.
From S2P Require Import Prelude Riscv PmmState Tiles Mem Str Dts DtsProofs DtsClients DtsMemory DtsTheorems Vmm ProcState Spike SpikeProofs SpikeFile SpikeFileProofs Machine.

#[local] Arguments load_le : simpl never.
#[local] Arguments store_le : simpl never.

(** ** Bits *)
Lemma testbit_field k i : 0 <= k -> 0 <= i -> Z.testbit (Z.shiftl 1 k) i = bool_decide (i = k).
Proof. intros Hk Hi. rewrite Z.shiftl_1_l. by apply testbit_pow2. Qed.

Lemma testbit_mpp i : 0 <= i -> Z.testbit MSTATUS_MPP_MASK i = bool_decide (i = 11) || bool_decide (i = 12).
Proof. intros Hi. change MSTATUS_MPP_MASK with (Z.lor (2 ^ 11) (2 ^ 12)). by rewrite Z.lor_spec, !testbit_pow2. Qed.

Lemma u64_high st i : is_u64 st -> 64 <= i -> Z.testbit st i = false.
Proof. intros Hst Hi. unfold is_u64 in Hst. rewrite <- (Z.mod_small st (2 ^ 64)) by lia. apply Z.mod_pow2_bits_high. lia. Qed.

Lemma clear_mpp st i : is_u64 st -> 0 <= i ->
  Z.testbit (Z.land st (u64 (Z.lnot MSTATUS_MPP_MASK))) i = Z.testbit st i && negb (bool_decide (i = 11) || bool_decide (i = 12)).
Proof.
  intros Hst Hi. rewrite Z.land_spec. unfold u64. destruct (decide (i < 64)) as [Hlt|Hge].
  - rewrite Z.mod_pow2_bits_low by lia. by rewrite Z.lnot_spec, testbit_mpp by done.
  - by rewrite (u64_high st i) by (done || lia).
Qed.

(** [mstatus] as start-up leaves it before [mret]. *)
Definition start_mstatus (st : Z) : Z :=
  Z.lor (Z.lor (Z.land st (u64 (Z.lnot MSTATUS_MPP_MASK))) MSTATUS_MPP_S) MSTATUS_MIE.

Lemma start_mstatus_bit st i : is_u64 st -> 0 <= i ->
  Z.testbit (start_mstatus st) i = (Z.testbit st i && negb (bool_decide (i = 12))) || bool_decide (i = 11) || bool_decide (i = 3).
Proof.
  intros Hst Hi. unfold start_mstatus, MSTATUS_MPP_S, MSTATUS_MIE. rewrite !Z.lor_spec, clear_mpp, !testbit_field by done.
  repeat case_bool_decide; cbn; rewrite ?andb_false_r, ?andb_true_r, ?orb_true_r, ?orb_false_r; done.
Qed.

Lemma start_mpp st : is_u64 st -> Z.land (Z.shiftr (start_mstatus st) 11) 3 = 1.
Proof.
  intros Hst. apply Z.bits_inj'. intros i Hi. rewrite Z.land_spec, Z.shiftr_spec, start_mstatus_bit by (done || lia).
  destruct (decide (i = 0)) as [->|]; [cbn; by rewrite orb_true_r|]. destruct (decide (i = 1)) as [->|]; [cbn; by rewrite andb_false_r|].
  change 3 with (Z.ones 2). change 1 with (Z.ones 1). rewrite !Z.ones_spec_high by lia. apply andb_false_r.
Qed.

(** After [mret]: the interrupt enable is the saved one. *)
Lemma mret_mstatus_bit c i : 0 <= i ->
  Z.testbit (mstatus (do_mret c)) i =
  if decide (i = 3) then Z.testbit (mstatus c) 7
  else if decide (i = 7) then true
  else if decide (i = 11 \/ i = 12) then false else Z.testbit (mstatus c) i.
Proof.
  intros Hi. cbn [do_mret mstatus]. unfold MSTATUS_MIE, MSTATUS_MPIE. rewrite !Z.lor_spec, Z.ldiff_spec, !Z.lor_spec, testbit_mpp by done.
  rewrite !testbit_field by done.
  assert (Eb : Z.testbit (if Z.testbit (mstatus c) 7 then Z.shiftl 1 3 else 0) i = Z.testbit (mstatus c) 7 && bool_decide (i = 3)).
  { destruct (Z.testbit (mstatus c) 7); [by apply testbit_field|]. by rewrite Z.bits_0. }
  rewrite Eb. repeat case_decide; repeat case_bool_decide; try lia; cbn; rewrite ?andb_false_r, ?andb_true_r, ?orb_true_r, ?orb_false_r; done.
Qed.

(** The supervisor interrupts the start-up code enables. *)
Lemma sie_bit c v i : 0 <= i ->
  Z.testbit (mie (set_sie v c)) i = (Z.testbit (mie c) i && negb (Z.testbit (mideleg c) i)) || (Z.testbit v i && Z.testbit (mideleg c) i).
Proof. intros Hi. cbn [set_sie set_mie mie]. by rewrite Z.lor_spec, Z.ldiff_spec, Z.land_spec. Qed.

Lemma start_sie_bit c i : 0 <= i ->
  Z.testbit (mie (set_sie (Z.lor (Z.lor (Z.lor (sie c) SIE_SEIE) SIE_STIE) SIE_SSIE) c)) i =
  Z.testbit (mie c) i || (Z.testbit (mideleg c) i && (bool_decide (i = 9) || bool_decide (i = 5) || bool_decide (i = 1))).
Proof.
  intros Hi. rewrite sie_bit by done. unfold sie, SIE_SEIE, SIE_STIE, SIE_SSIE. rewrite !Z.lor_spec, Z.land_spec, !testbit_field by done.
  by destruct (Z.testbit (mie c) i), (Z.testbit (mideleg c) i), (bool_decide (i = 9)), (bool_decide (i = 5)), (bool_decide (i = 1)).
Qed.

(** [sip]: only the software bit, and only when it is delegated. *)
Lemma sip_bit c i : 0 <= i ->
  Z.testbit (mip (set_sip SIP_SSIP c)) i = Z.testbit (mip c) i || (bool_decide (i = 1) && Z.testbit (mideleg c) 1).
Proof.
  intros Hi. cbn [set_sip set_mip mip]. unfold MIP_SSIP, SIP_SSIP, IRQ_S_SOFT. rewrite Z.lor_spec, Z.ldiff_spec, !Z.land_spec, !testbit_field by done.
  case_bool_decide as E; [subst i|]; cbn [andb negb orb]; rewrite ?andb_false_r, ?andb_true_r, ?orb_false_r; [|done].
  by destruct (Z.testbit (mip c) 1), (Z.testbit (mideleg c) 1).
Qed.

(** ** A device tree in a part of memory *)
Section part.
Context (m m' : mem) (Hsub : m ⊆ m').

Lemma bytes_at_part a l : bytes_at m a l -> bytes_at m' a l.
Proof. intros Hb i b Hi. eapply lookup_weaken; [by apply Hb|exact Hsub]. Qed.
Lemma cstr_part a l : cstr m a l -> cstr m' a l.
Proof. intros [H1 H2 H3]. split; [intros i c Hi; eapply lookup_weaken; [by apply H1|exact Hsub]|exact H2|by eapply lookup_weaken]. Qed.
Lemma lit_part a l : lit_ok m a l -> lit_ok m' a l.
Proof. intros [H1 H2 H3]. by split; [apply cstr_part|..]. Qed.
Lemma lits_part lit : lits_ok lit m -> lits_ok lit m'.
Proof. intros [H1 H2]. by split; apply lit_part. Qed.
Lemma item_part strings names it : item_ok strings names m it -> item_ok strings names m' it.
Proof.
  induction it as [|off val|name body IH] using item_nest_ind; [done| |].
  - intros (H1 & H2 & H3 & H4 & H5). exact (conj H1 (conj H2 (conj H3 (conj (cstr_part _ _ H4) H5)))).
  - intros [H1 H2]. split; [done|]. rewrite fold_and_ok in *. intros it Hit. rewrite Forall_forall in IH. by apply IH, H2.
Qed.
Lemma blob_part fdt strings names items lex : blob m fdt strings names items lex -> blob m' fdt strings names items lex.
Proof.
  intros [B1 B2 (v & B3 & B3r) (o & B4 & B4r) (x & B5 & B5r) B6 B7 B8].
  split; [done|by apply bytes_at_part|exists v|exists o|exists x|by apply bytes_at_part| |done].
  1, 2, 3: by split; [apply bytes_at_part|].
  intros it Hit. by apply item_part, B7.
Qed.
End part.

(** What the emulator hands over: a device tree in a part [dt] of memory, away
    from the tables of files, and a timer. *)
Record power_on (files : spike_symbols) (lit : literals) (msym : machine_symbols) (hartid dtb : Z) (dt : mem)
    (strings : Z) (names : Z -> list Z) (items : list item) (lex size now : Z) (kfd ref fds : Z -> Z) (s : mstate) : Prop := {
  po_placed : tables_placed files;
  po_tables : file_tables files (memory (m_k s)) kfd ref fds;
  po_fresh : forall j, 0 <= j < 3 -> ref j = 0 /\ fds j = 0;
  po_bytes : bytes_ok (memory (m_k s));
  po_tree : dt ⊆ memory (m_k s);
  po_apart : forall x, is_Some (dt !! x) -> outside_files files x;
  po_lits : lits_ok lit dt /\ lit_ok dt (lit_compatible lit) compatible_str /\ lit_ok dt (lit_htif lit) htif_str /\
            lit_ok dt (lit_device_type lit) device_type_str /\ lit_ok dt (lit_memory lit) memory_str /\ lit_ok dt (lit_reg lit) reg_str;
  po_blob : blob dt dtb strings names items lex;
  po_dtb : dtb < 2 ^ 63;
  po_well : items_well names false items;
  po_size : tree_memory names (a_mem_done msym) items = Some size /\ 0 < size;
  po_clint : forall x, CLINT <= x < CLINT + 65536 -> outside_files files x;
  po_clock : load_le 8 CLINT_MTIME (memory (m_k s)) = Some now;
  po_timer : 0 <= hartid < 4095 /\ has (memory (m_k s)) (CLINT_MTIMECMP hartid) 8;
  po_status : is_u64 (mstatus (m_csr s))
}.
