(* ===== verification/ExMachine.v ===== *)
(** * A concrete machine for the examples

    The board of DtsTheorems.v, file tables and timer all zero, and 128 MB of
    zeros at DRAM_BASE. *)
From stdpp Require Import base gmap list strings.
From Stdlib Require Import ZArith Lia.
From S2P Require Import Prelude Riscv PmmState Pmm PmmProofs PmmSpec Mem Str Dts DtsProofs DtsClients DtsMemory DtsTheorems Vmm VmTheorems ProcState Spike SpikeProofs SpikeFile SpikeFileProofs Machine MachineProofs.

#[local] Arguments load_le : simpl never.
#[local] Arguments store_le : simpl never.

Definition ex_files : spike_symbols := mkSpikeSymbols 0 0 0 0 0 0 20480 16384.
Definition ex_msym : machine_symbols := mkMachineSymbols 2147500000 2147490000 2147491000 2147484000.
Definition ex_ram : mem := zeros 16384 8192 ∪ (zeros CLINT 65536 ∪ zeros DRAM_BASE 134217728).
Definition ex_machine (cause : Z) : mstate :=
  mkMstate (mkKmem ex_boot (toy_mem ∪ ex_ram) 0) (mkMcsrs 262144 128 0 0 0 0 0 0 0 cause 0 3) 0.

Lemma toy_keys : map_Forall (fun x b => x < 16384 /\ 0 <= b < 256) toy_mem.
Proof. apply (bool_decide_unpack _). vm_compute. exact I. Qed.

Lemma ex_ram_zero x b : ex_ram !! x = Some b -> b = 0.
Proof.
  unfold ex_ram. intros [Hx|[_ [Hx|[_ Hx]]%lookup_union_Some_raw]]%lookup_union_Some_raw; rewrite zeros_lookup in Hx; by destruct (inside _ _ _); [injection Hx as <-|].
Qed.

Definition ram_region (x : Z) : Prop := 16384 <= x < 24576 \/ CLINT <= x < CLINT + 65536 \/ DRAM_BASE <= x < DRAM_BASE + 134217728.

Lemma ex_memory_zero x : ram_region x -> (toy_mem ∪ ex_ram) !! x = Some 0.
Proof.
  intros Hx. unfold ram_region, CLINT, DRAM_BASE in Hx. rewrite lookup_union_r.
  - assert (Hs : is_Some (ex_ram !! x)).
    { unfold ex_ram. rewrite !lookup_union, !zeros_lookup. unfold CLINT, DRAM_BASE.
      destruct (inside_spec 16384 8192 x), (inside_spec 33554432 65536 x), (inside_spec 2147483648 134217728 x); first [by eexists|lia]. }
    destruct Hs as [b Hb]. rewrite Hb. f_equal. by eapply ex_ram_zero.
  - destruct (toy_mem !! x) eqn:E; [|done]. apply toy_keys in E. lia.
Qed.

Lemma ex_bytes : bytes_ok (toy_mem ∪ ex_ram).
Proof.
  intros x b [Hx|[_ Hx]]%lookup_union_Some_raw; [by apply toy_keys in Hx as [_ ?]|]. apply ex_ram_zero in Hx as ->. done.
Qed.

Lemma ex_load n a : (forall x, a <= x < a + Z.of_nat n -> ram_region x) -> load_le n a (toy_mem ∪ ex_ram) = Some 0.
Proof.
  intros Ha. rewrite (load_le_bytes n a _ 0); [by rewrite Z.mod_0_l by (apply Z.pow_nonzero; lia)|]. intros x Hx. rewrite ex_memory_zero by auto.
  unfold byte_of. by rewrite Z.div_0_l by (apply Z.pow_nonzero; lia).
Qed.

Lemma ex_power_on cause : power_on ex_files toy_lit ex_msym 0 4096 toy_mem 4352 toy_names toy_items 4136 134217728 0 (fun _ => 0) (fun _ => 0) (fun _ => 0) (ex_machine cause).
Proof.
  split; cbn [m_k memory ex_machine m_csr mstatus].
  - split; cbn; unfold apart, sizeof_spike_file, MAX_FILES, MAX_FDS; lia.
  - split; intros i Hi; apply ex_load; intros x Hx; left; cbn in Hx; unfold sizeof_spike_file, F_KFD, F_REFCNT, MAX_FILES, MAX_FDS in *; lia.
  - done.
  - exact ex_bytes.
  - apply map_union_subseteq_l.
  - intros x [b Hx%toy_keys]. unfold outside_files. cbn. unfold sizeof_spike_file, MAX_FILES, MAX_FDS.
    destruct (inside_spec 16384 (8 * 128) x), (inside_spec 20480 (8 * 128) x); (done || lia).
  - split; [exact toy_lits|]. split_and!; (apply toy_str; [vm_compute; reflexivity|chars|by vm_compute|by vm_compute]).
  - exact toy_blob.
  - done.
  - exact toy_well.
  - split; [vm_compute; reflexivity|done].
  - intros x Hx. unfold CLINT in Hx. unfold outside_files. cbn. unfold sizeof_spike_file, MAX_FILES, MAX_FDS.
    destruct (inside_spec 16384 (8 * 128) x), (inside_spec 20480 (8 * 128) x); (done || lia).
  - apply ex_load. intros x Hx. right; left. unfold CLINT_MTIME in Hx. lia.
  - split; [lia|]. intros x Hx. exists 0. apply ex_memory_zero. right; left. change (CLINT_MTIMECMP 0) with (CLINT + 16384) in Hx. lia.
  - done.
Qed.

(** An implementation of the four operations. *)
#[export] Instance board_atomics : SpikeAtomics :=
  {| at_read a := let* v := load32 a in ret (s32 v);
     at_set a v := store32 a (u32 v);
     at_swap a v := let* old := load32 a in store32 a (u32 v) ;;; ret (s32 old);
     at_add a d := let* old := load32 a in store32 a (u32 (old + d)) ;;; ret (s32 old) |}.
#[export] Instance board_atomics_spec : AtomicsSpec.
Proof. done. Qed.
