(* ===== verification/MachineTheorems.v ===== *)
(** * Machine mode: the properties *)
From stdpp Require Import base gmap list strings.
From Stdlib Require Import ZArith Lia.
From S2P Require Import Prelude Riscv PmmState Tiles Mem Str Dts DtsProofs DtsClients DtsMemory DtsTheorems Vmm ProcState Spike SpikeProofs SpikeFile SpikeFileProofs Machine MachineProofs ExMachine.

#[local] Arguments load_le : simpl never.
#[local] Arguments store_le : simpl never.

(** The CSRs of a hart that enters [s_start], [c] before and [c'] after. *)
Record handed_over (msym : machine_symbols) (legal_mideleg legal_medeleg : Z -> Z) (c c' : mcsrs) : Prop := {
  ho_priv : priv c' = 1;
  ho_pc : pc c' = a_s_start msym;
  ho_vec : mtvec c' = a_mtrapvec msym;
  ho_scratch : mscratch c' = a_g_itrframe msym;
  ho_status i : 0 <= i -> Z.testbit (mstatus c') i =
    if decide (i = 3) then Z.testbit (mstatus c) 7 else if decide (i = 7) then true
    else if decide (i = 11 \/ i = 12) then false else Z.testbit (mstatus c) i;
  ho_mideleg : mideleg c' = if Z.testbit (misa c) 18 then legal_mideleg interrupts else mideleg c;
  ho_medeleg : medeleg c' = if Z.testbit (misa c) 18 then legal_medeleg exceptions else medeleg c;
  ho_mie i : 0 <= i -> Z.testbit (mie c') i =
    Z.testbit (mie c) i || (Z.testbit (mideleg c') i && (bool_decide (i = 9) || bool_decide (i = 5) || bool_decide (i = 1))) || bool_decide (i = 7);
  ho_mip : mip c' = mip c
}.

(** The machine that enters [s_start]. *)
Record started (files : spike_symbols) (msym : machine_symbols) (legal_mideleg legal_medeleg : Z -> Z) (hartid size now : Z)
    (names : Z -> list Z) (items : list item) (kfd ref fds : Z -> Z) (s s' : mstate) : Prop := {
  sd_csr : handed_over msym legal_mideleg legal_medeleg (m_csr s) (m_csr s');
  sd_heap : heap (m_k s') = set_g_mem_size size (heap (m_k s));
  sd_htif : m_htif s' = if tree_htif names items then 1 else m_htif s;
  sd_timer : load_le 8 (CLINT_MTIMECMP hartid) (memory (m_k s')) = Some (u64 (now + TIMER_INTERVAL));
  sd_files : exists kfd' ref' fds', file_tables files (memory (m_k s')) kfd' ref' fds' /\ opened files 3 kfd' ref' fds' kfd ref fds;
  sd_frame x : outside_files files x -> ~ (CLINT_MTIMECMP hartid <= x < CLINT_MTIMECMP hartid + 8) -> memory (m_k s') !! x = memory (m_k s) !! x;
  sd_bytes : bytes_ok (memory (m_k s'));
  sd_has x : is_Some (memory (m_k s) !! x) -> is_Some (memory (m_k s') !! x)
}.

Section start.
Context `{SpikeAtomics} `{!AtomicsSpec} (files : spike_symbols) (lit : literals) (msym : machine_symbols) (legal_mideleg legal_medeleg : Z -> Z).

Lemma wp_on_k {A} (f : M (kmem pmm_state) A) s (Q : A -> mstate -> Prop) E :
  wp f (fun a k => Q a (mkMstate k (m_csr s) (m_htif s))) (fun h k => E h (mkMstate k (m_csr s) (m_htif s))) (m_k s) -> wp (on_k f) Q E s.
Proof. exact (wp_zoom _ _ _ _ _ _). Qed.

Lemma wp_init_dtb hartid dtb dt strings names items lex size now kfd ref fds s0 s (Q : unit -> mstate -> Prop) E :
  power_on files lit msym hartid dtb dt strings names items lex size now kfd ref fds s0 ->
  dt ⊆ memory (m_k s) ->
  Q tt (mkMstate (mkKmem (set_g_mem_size size (heap (m_k s))) (memory (m_k s)) (g_kernel_pagetable (m_k s))) (m_csr s)
          (if tree_htif names items then 1 else m_htif s)) ->
  wp (init_dtb lit msym dtb) Q E s.
Proof.
  intros HP Hsub HQ. destruct (po_lits _ _ _ _ _ _ _ _ _ _ _ _ _ _ _ _ HP) as (L0 & L1 & L2 & L3 & L4 & L5).
  destruct (po_size _ _ _ _ _ _ _ _ _ _ _ _ _ _ _ _ HP) as [Hsize Hpos].
  pose proof (po_dtb _ _ _ _ _ _ _ _ _ _ _ _ _ _ _ _ HP) as Hd. pose proof (po_well _ _ _ _ _ _ _ _ _ _ _ _ _ _ _ _ HP) as Hw.
  pose proof (blob_part _ _ Hsub _ _ _ _ _ (po_blob _ _ _ _ _ _ _ _ _ _ _ _ _ _ _ _ HP)) as HB.
  unfold init_dtb. apply wp_bind, wp_zoom. cbn [sc_mem sc_extra].
  apply (query_htif_run lit dtb strings names items lex); cbn [sc_mem sc_extra hs_htif];
    [by apply (lits_part _ _ Hsub)|by apply (lit_part _ _ Hsub)|by apply (lit_part _ _ Hsub)|exact HB|exact Hd|exact Hw|].
  intros s1 Hm1 Hg1. apply wp_zoom. cbn [m_k heap memory g_kernel_pagetable m_csr m_htif]. rewrite Hm1, Hg1.
  apply (query_mem_run lit (a_mem_done msym) dtb strings names items lex size); cbn [sc_mem sc_extra];
    [by apply (lits_part _ _ Hsub)|by apply (lit_part _ _ Hsub)|by apply (lit_part _ _ Hsub)|by apply (lit_part _ _ Hsub)|exact HB|exact Hd|exact Hsize|].
  intros s2 Hm2 Hg2. rewrite (proj2 (Z.ltb_lt 0 size) Hpos). rewrite Hm2, Hg2. exact HQ.
Qed.

(** The CSR writes between the two scans and the timer. *)
Definition start_csrs (c : mcsrs) : mcsrs :=
  let s_mode := Z.testbit (misa c) 18 in
  let c := set_mscratch (a_g_itrframe msym) c in
  let c := set_mtvec (a_mtrapvec msym) (set_mepc (a_s_start msym) (set_mstatus (Z.lor (Z.land (mstatus c) (u64 (Z.lnot MSTATUS_MPP_MASK))) MSTATUS_MPP_S) c)) in
  let c := set_mstatus (Z.lor (mstatus c) MSTATUS_MIE) c in
  let c := if s_mode then set_medeleg (legal_medeleg exceptions) (set_mideleg (legal_mideleg interrupts) c) else c in
  set_sie (Z.lor (Z.lor (Z.lor (sie c) SIE_SEIE) SIE_STIE) SIE_SSIE) c.

Lemma start_csrs_hand c : is_u64 (mstatus c) ->
  handed_over msym legal_mideleg legal_medeleg c (do_mret (set_mie (Z.lor (mie (start_csrs c)) MIE_MTIE) (start_csrs c))).
Proof.
  intros Hst. assert (Es : mstatus (start_csrs c) = start_mstatus (mstatus c)) by (unfold start_csrs; by destruct (Z.testbit (misa c) 18)).
  split; try (unfold start_csrs; by destruct (Z.testbit (misa c) 18)).
  - cbn [do_mret priv set_mie mstatus]. rewrite Es. by apply start_mpp.
  - intros i Hi. rewrite mret_mstatus_bit by done. cbn [set_mie mstatus]. rewrite Es.
    repeat case_decide; try done; rewrite start_mstatus_bit by (done || lia); repeat case_bool_decide; try lia;
      cbn [andb orb negb]; by rewrite ?andb_true_r, ?orb_false_r.
  - intros i Hi. cbn [do_mret mie mideleg set_mie]. unfold MIE_MTIE. rewrite Z.lor_spec, testbit_field by done. f_equal.
    unfold start_csrs. cbv zeta. rewrite start_sie_bit by done. cbn [set_sie set_mie mideleg set_medeleg set_mideleg set_mstatus set_mtvec set_mepc set_mscratch misa].
    by destruct (Z.testbit (misa c) 18).
Qed.

Lemma s_mode_bit x : negb (Z.land x (Z.shiftl 1 (83 - 65)) =? 0) = Z.testbit x 18.
Proof.
  change (Z.shiftl 1 (83 - 65)) with (2 ^ 18). destruct (Z.testbit x 18) eqn:E.
  - destruct (Z.eqb_spec (Z.land x (2 ^ 18)) 0) as [E0|]; [|done]. apply (f_equal (fun y => Z.testbit y 18)) in E0.
    rewrite Z.land_spec, E, Z.bits_0 in E0. by vm_compute in E0.
  - rewrite (proj2 (Z.eqb_eq (Z.land x (2 ^ 18)) 0)); [done|]. apply Z.bits_inj'. intros i Hi.
    rewrite Z.land_spec, testbit_pow2, Z.bits_0 by done. case_bool_decide as Ei; [subst i; by rewrite E|apply andb_false_r].
Qed.

(** The writes up to the timer, as one step. *)
Lemma wp_start_csrs s (k : unit -> M mstate unit) (Q : unit -> mstate -> Prop) E :
  wp (k tt) Q E (mkMstate (m_k s) (start_csrs (m_csr s)) (m_htif s)) ->
  wp (write_mcsr (set_mscratch (a_g_itrframe msym)) ;;;
      let* v := mcsr mstatus in
      write_mcsr (set_mstatus (Z.lor (Z.land v (u64 (Z.lnot MSTATUS_MPP_MASK))) MSTATUS_MPP_S)) ;;;
      write_mcsr (set_mepc (a_s_start msym)) ;;;
      write_mcsr (set_mtvec (a_mtrapvec msym)) ;;;
      let* v := mcsr mstatus in
      write_mcsr (set_mstatus (Z.lor v MSTATUS_MIE)) ;;;
      delegate_traps legal_mideleg legal_medeleg ;;;
      let* v := mcsr sie in
      let* u := write_mcsr (set_sie (Z.lor (Z.lor (Z.lor v SIE_SEIE) SIE_STIE) SIE_SSIE)) in k u) Q E s.
Proof.
  intros HQ. unfold delegate_traps, supports_extension, mcsr, write_mcsr. wp_steps.
  cbn [m_csr m_k m_htif misa mstatus set_mstatus set_mepc set_mtvec set_mscratch]. rewrite s_mode_bit. unfold start_csrs in HQ. cbv zeta in HQ.
  cbn [mstatus set_mscratch set_mtvec set_mepc set_mstatus] in HQ.
  destruct (Z.testbit (misa (m_csr s)) 18); cbn [negb]; wp_steps; exact HQ.
Qed.

Lemma timer_addr hartid : 0 <= hartid < 4095 -> CLINT <= CLINT_MTIMECMP hartid /\ CLINT_MTIMECMP hartid + 8 <= CLINT + 65536.
Proof. intros Hh. unfold CLINT_MTIMECMP, CLINT. rewrite u64_id by (unfold is_u64; lia). lia. Qed.

Lemma m_start_run hartid dtb dt strings names items lex size now kfd ref fds s (Q : unit -> mstate -> Prop) E :
  power_on files lit msym hartid dtb dt strings names items lex size now kfd ref fds s ->
  (forall s', started files msym legal_mideleg legal_medeleg hartid size now names items kfd ref fds s s' -> Q tt s') ->
  wp (m_start files lit msym legal_mideleg legal_medeleg hartid dtb) Q E s.
Proof.
  intros HP HQ. pose proof HP as [P1 P2 P3 P4 P5 P6 _ _ _ _ _ P7 P8 [P9 P10] P11]. destruct (timer_addr hartid P9) as [T1 T2].
  unfold m_start. apply wp_bind, wp_on_k. eapply (wp_spike_file_init files P1); [exact P2|exact P4|exact P3|].
  intros k1 kfd' ref' fds' [R1 R2 R3 R4 R5 R6] HO. set (s1 := mkMstate k1 (m_csr s) (m_htif s)).
  assert (Hcl : forall x, CLINT <= x < CLINT + 65536 -> memory k1 !! x = memory (m_k s) !! x) by (intros x Hx; by apply R4, P7).
  apply wp_bind. eapply (wp_init_dtb hartid dtb dt strings names items lex size now kfd ref fds s); [exact HP| |].
  { apply map_subseteq_spec. intros x b Hx. cbn [m_k s1]. rewrite R4; [by apply (lookup_weaken _ _ _ _ Hx P5)|by apply P6]. }
  cbn [m_k m_csr m_htif heap memory g_kernel_pagetable s1]. apply wp_start_csrs. unfold timerinit. apply wp_bind, wp_bind, wp_on_k. cbn [m_k].
  apply wp_on_mem'. eapply (wp_load 8 _ _ now).
  { rewrite <- P8. apply load_le_ext. intros x Hx. apply Hcl. unfold CLINT_MTIME in Hx. lia. }
  rewrite with_memory_eta. cbn [m_k m_csr m_htif]. apply wp_bind, wp_on_k. cbn [m_k]. apply wp_put.
  { intros x Hx. apply R6, P10. exact Hx. }
  intros m' Hs Hu. apply wp_bind, wp_gets. cbn [m_csr]. unfold write_mcsr. apply wp_modify, wp_modify. cbn [m_k m_csr m_htif memory heap g_kernel_pagetable with_memory].
  apply HQ. split; cbn [m_k m_csr m_htif memory heap g_kernel_pagetable with_memory].
  - by apply start_csrs_hand.
  - by rewrite R2.
  - done.
  - rewrite (load_store_same _ _ _ _ _ Hs). f_equal. apply Z.mod_small. apply u64_range.
  - exists kfd', ref', fds'. split; [|exact HO]. eapply file_tables_ext; [|exact R1]. intros x. rewrite Hu.
    destruct (inside_spec (CLINT_MTIMECMP hartid) (Z.of_nat 8) x); [right; apply P7; lia|by left].
  - intros x Hx Ht. rewrite Hu. destruct (inside_spec (CLINT_MTIMECMP hartid) (Z.of_nat 8) x) as [Hi|_]; [change (Z.of_nat 8) with 8 in Hi; lia|]. by apply R4.
  - apply (store_bytes_ok _ _ _ _ _ Hs). by apply R5.
  - intros x Hx. rewrite Hu. destruct (inside _ _ x); [by eexists|]. by apply R6.
Qed.

(** C33: [m_start] hands the machine over to [s_start]: it returns, in S mode at
    [s_start], with stdin, stdout and stderr in the file tables, the size of
    memory and the presence of the host interface as the device tree says, the
    trap vector and its save area set, the traps delegated as far as the hart
    lets it, the delegated supervisor interrupts enabled, and the timer armed
    one interval ahead; everything else is as before. *)
Theorem m_start_hands_over hartid dtb dt strings names items lex size now kfd ref fds s :
  power_on files lit msym hartid dtb dt strings names items lex size now kfd ref fds s ->
  wp (m_start files lit msym legal_mideleg legal_medeleg hartid dtb)
     (fun _ s' => started files msym legal_mideleg legal_medeleg hartid size now names items kfd ref fds s s') no_stop s.
Proof. intros HP. by eapply m_start_run. Qed.

(** C34: In machine mode the kernel survives the timer interrupt only: the
    handler sets the next one an interval after the last and raises the
    supervisor's software interrupt if it is delegated, and nothing else
    changes; every other trap ends in a panic with the state as it was. *)
Theorem handle_mtrap_timer_only v s :
  load_le 8 (CLINT_MTIMECMP 0) (memory (m_k s)) = Some v ->
  wp handle_mtrap
     (fun _ s' => mcause (m_csr s) = CAUSE_MTIMER /\
        load_le 8 (CLINT_MTIMECMP 0) (memory (m_k s')) = Some (u64 (v + TIMER_INTERVAL)) /\
        (forall x, ~ (CLINT_MTIMECMP 0 <= x < CLINT_MTIMECMP 0 + 8) -> memory (m_k s') !! x = memory (m_k s) !! x) /\
        heap (m_k s') = heap (m_k s) /\ m_htif s' = m_htif s /\
        (forall i, 0 <= i -> Z.testbit (mip (m_csr s')) i = Z.testbit (mip (m_csr s)) i || (bool_decide (i = 1) && Z.testbit (mideleg (m_csr s)) 1)) /\
        m_csr s' = set_mip (mip (m_csr s')) (m_csr s))
     (fun h s' => mcause (m_csr s) <> CAUSE_MTIMER /\ s' = s /\ exists site, h = Panicked site) s.
Proof.
  intros Hl. unfold handle_mtrap. apply wp_bind, wp_gets. destruct (Z.eqb_spec (mcause (m_csr s)) CAUSE_MTIMER) as [Ec|Ec].
  - unfold handle_timer. apply wp_bind, wp_on_k, wp_on_mem'. eapply wp_load; [exact Hl|]. rewrite with_memory_eta. apply wp_bind, wp_on_k. cbn [m_k].
    apply wp_put; [by eapply load_has|]. intros m' Hs Hu. apply wp_modify. cbn [m_k m_csr m_htif memory heap with_memory].
    split; [done|]. split; [|split; [|split; [done|split; [done|split; [|done]]]]].
    + rewrite (load_store_same _ _ _ _ _ Hs). f_equal. apply Z.mod_small. apply u64_range.
    + intros x Hx. apply (store_frame _ _ _ _ _ _ Hs). by destruct (inside_spec (CLINT_MTIMECMP 0) (Z.of_nat 8) x).
    + apply sip_bit.
  - assert (Hp : forall site, wp (panic site : M mstate unit) (fun _ _ => False) (fun h s' => mcause (m_csr s) <> CAUSE_MTIMER /\ s' = s /\ exists site, h = Panicked site) s).
    { intros site. apply wp_halt. split; [done|]. split; [done|]. by exists site. }
    repeat case_match; try (eapply wp_mono; [apply Hp|by intros|done]).
Qed.
End start.

Lemma m_start_hands_over_witness :
  wp (m_start ex_files toy_lit ex_msym (fun v => v) (fun v => v) 0 4096)
     (fun _ s' => started ex_files ex_msym (fun v => v) (fun v => v) 0 134217728 0 toy_names toy_items (fun _ => 0) (fun _ => 0) (fun _ => 0) (ex_machine 0) s')
     no_stop (ex_machine 0).
Proof.
  apply (m_start_hands_over ex_files toy_lit ex_msym (fun v => v) (fun v => v) 0 4096 toy_mem 4352 toy_names toy_items 4136 134217728 0
    (fun _ => 0) (fun _ => 0) (fun _ => 0) (ex_machine 0)).
  exact (ex_power_on 0).
Defined.

Lemma handle_mtrap_timer_only_witness :
  let s := ex_machine CAUSE_MTIMER in
  wp handle_mtrap
     (fun _ s' => mcause (m_csr s) = CAUSE_MTIMER /\
        load_le 8 (CLINT_MTIMECMP 0) (memory (m_k s')) = Some (u64 (0 + TIMER_INTERVAL)) /\
        (forall x, ~ (CLINT_MTIMECMP 0 <= x < CLINT_MTIMECMP 0 + 8) -> memory (m_k s') !! x = memory (m_k s) !! x) /\
        heap (m_k s') = heap (m_k s) /\ m_htif s' = m_htif s /\
        (forall i, 0 <= i -> Z.testbit (mip (m_csr s')) i = Z.testbit (mip (m_csr s)) i || (bool_decide (i = 1) && Z.testbit (mideleg (m_csr s)) 1)) /\
        m_csr s' = set_mip (mip (m_csr s')) (m_csr s))
     (fun h s' => mcause (m_csr s) <> CAUSE_MTIMER /\ s' = s /\ exists site, h = Panicked site) s.
Proof.
  intros s. apply (handle_mtrap_timer_only 0 s). apply ex_load. intros x Hx. right; left.
  change (CLINT_MTIMECMP 0) with (CLINT + 16384) in Hx. lia.
Defined.
