(* ===== verification/KernelTheorems.v ===== *)
(** * Start-up, from power-on: the property *)
From stdpp Require Import base gmap list strings.
From Stdlib Require Import ZArith Lia.
From S2P Require Import Prelude Riscv PmmState Pmm PmmProofs PmmSpec Mem Str Vmm VmmProofs VmmSpec KernVm VmTheorems ProcState Sched Process SchedProofs TrapProofs Dts DtsProofs DtsTheorems Spike SpikeProofs SpikeFile SpikeFileProofs Elf Kernel Machine MachineProofs ExMachine MachineTheorems.

(** Start-up writes CSRs only: what [pmm_init] needs of the heap stays. *)
Lemma boot_fits_hart f (s : pmm_state) _end : boot_fits s _end -> boot_fits (with_hart f s) _end.
Proof. intros [E1 E2 E3 E4]; constructor; cbn [g_mem_size with_hart set_cpu]; assumption. Qed.

(** Supervisor start-up does not return: [s_start] never gets past
    [kern_vm_init].  After [pmm_init] the page cache holds PCPU_CACHE_SIZE
    pages, the kernel page table needs 66, and the call of [alloc_page] that
    finds the cache empty waits for [buddy_lock], which it holds itself. *)
Lemma s_start_spins `{Frontend pmm_state} `{SpikeAtomics} (files : spike_symbols) (bufs : elf_bufs) (sym : symbols) _etext _end
    (s : kstate pmm_state) c0 cnt :
  let h := heap (km s) in
  boot_fits h _end -> pcpu_caches h !! 0 = Some (mkCache c0 cnt) ->
  Z.of_nat (length c0) = PCPU_CACHE_SIZE -> tp (cpu h) = 0 ->
  has (memory (km s)) DRAM_BASE (managed h) -> bytes_ok (memory (km s)) -> text_ok _etext ->
  wp (s_start files bufs sym _etext _end) (fun _ _ => False) (fun h _ => h = Spins "main_buddy.buddy_lock") s.
Proof.
  intros h HB Hc Hl Htp Hm Hb Ht. unfold s_start. apply wp_bind, wp_modify.
  set (s1 := upd_hart (set_satp 0) s).
  pose proof (kernel_boot_spins (heap (km s1)) (memory (km s)) (g_kernel_pagetable (km s)) _end _etext c0 cnt) as Hw.
  apply wp_bind, wp_on_km. change (km s1) with (mkKmem (heap (km s1)) (memory (km s)) (g_kernel_pagetable (km s))).
  specialize (Hw (boot_fits_hart _ _ _ HB) Hc Hl Htp Hm Hb Ht). apply wp_bind_inv in Hw. eapply wp_mono; [exact Hw| |done].
  intros [] k Hk. cbv beta in Hk. apply wp_bind, wp_on_km. change (km (set_km k s1)) with k.
  eapply wp_mono; [exact Hk|intros ? ? []|intros ? ? Hh; exact Hh].
Qed.

(** C32: From power-on the kernel does not come up: [m_start] hands over to
    [s_start] in S mode with the size of memory the device tree says, and
    [s_start], whatever the remaining globals hold, ends waiting for
    [buddy_lock], which it holds itself, in the call of [alloc_page] that
    finds the page cache empty. *)
Theorem power_on_spins `{Frontend pmm_state} `{SpikeAtomics} `{!AtomicsSpec} (files : spike_symbols) (bufs : elf_bufs) (sym : symbols)
    (lit : literals) (msym : machine_symbols) (legal_mideleg legal_medeleg : Z -> Z) _etext _end
    hartid dtb dt strings names items lex size now kfd ref fds c0 cnt (s : mstate) :
  let h := set_g_mem_size size (heap (m_k s)) in
  power_on files lit msym hartid dtb dt strings names items lex size now kfd ref fds s ->
  boot_fits h _end -> pcpu_caches h !! 0 = Some (mkCache c0 cnt) ->
  Z.of_nat (length c0) = PCPU_CACHE_SIZE -> tp (cpu h) = 0 ->
  has (memory (m_k s)) DRAM_BASE (managed h) -> text_ok _etext ->
  wp (m_start files lit msym legal_mideleg legal_medeleg hartid dtb)
     (fun _ s' => priv (m_csr s') = 1 /\ pc (m_csr s') = a_s_start msym /\
        forall P cur q ticks,
          wp (s_start files bufs sym _etext _end) (fun _ _ => False) (fun h _ => h = Spins "main_buddy.buddy_lock") (mkKstate (m_k s') P cur q ticks))
     no_stop s.
Proof.
  intros h HP HB Hc Hl Htp Hm Ht. eapply m_start_run; [exact HP|].
  intros s' [[E1 E2 _ _ _ _ _ _ _] Hh _ _ _ _ Hb Hhas]. split; [exact E1|]. split; [exact E2|]. intros P cur q ticks.
  eapply (s_start_spins files bufs sym _etext _end (mkKstate (m_k s') P cur q ticks) c0 cnt); cbn [km]; rewrite ?Hh;
    [exact HB|exact Hc|exact Hl|exact Htp|intros x Hx; by apply Hhas, Hm|exact Hb|exact Ht].
Qed.

#[local] Instance no_host : Frontend pmm_state := {| fe_syscall _ _ _ _ _ _ := halt WildAccess |}.

Lemma ex_board_fits : boot_fits (set_g_mem_size 134217728 ex_boot) ex_end.
Proof. split; vm_compute; congruence. Qed.

Lemma power_on_spins_witness :
  wp (m_start ex_files toy_lit ex_msym (fun v => v) (fun v => v) 0 4096)
     (fun _ s' => priv (m_csr s') = 1 /\ pc (m_csr s') = a_s_start ex_msym /\
        forall P cur q ticks,
          wp (s_start ex_files (mkElfBufs 0 0 0) (mkSymbols 0 0 0 0) 2147549184 ex_end)
             (fun _ _ => False) (fun h _ => h = Spins "main_buddy.buddy_lock") (mkKstate (m_k s') P cur q ticks))
     no_stop (ex_machine 0).
Proof.
  apply (power_on_spins ex_files (mkElfBufs 0 0 0) (mkSymbols 0 0 0 0) toy_lit ex_msym (fun v => v) (fun v => v) 2147549184 ex_end
    0 4096 toy_mem 4352 toy_names toy_items 4136 134217728 0 (fun _ => 0) (fun _ => 0) (fun _ => 0)
    (replicate (Z.to_nat PCPU_CACHE_SIZE) None) 0 (ex_machine 0));
    [exact (ex_power_on 0)|exact ex_board_fits|reflexivity|reflexivity|reflexivity| |vm_compute; repeat split; congruence].
  intros x Hx. exists 0. apply ex_memory_zero. right; right. exact Hx.
Defined.
