(* ===== verification/ExKernel.v ===== *)
(** * A concrete kernel state for the examples

    The bump allocator of VmTheorems.v beside a hart, a fresh page directory,
    one page mapped copy-on-write, and a trap frame and a region table below
    the arena. *)
From stdpp Require Import base gmap list strings.
From Stdlib Require Import ZArith Lia.
From S2P Require Import Prelude Riscv PmmState Mem Str Vmm VmmProofs VmmSpec KernVm VmTheorems ProcState Sched Process Trap SchedProofs TrapProofs HeapProofs.

(** ** An allocator beside a hart *)
Definition beside_allocator {S} (A : Allocator S) : Allocator (S * hart) :=
  {| al_page := zoom fst (fun a s => (a, snd s)) (@al_page S A);
     al_free p := zoom fst (fun a s => (a, snd s)) (@al_free S A p) |}.

Program Definition beside_spec {S} (A : Allocator S) lo hi (P : @AllocatorSpec S A lo hi) :
  @AllocatorSpec (S * hart) (beside_allocator A) lo hi :=
  {| al_inv n U s := @al_inv S A lo hi P n U (fst s); al_stop := @al_stop S A lo hi P |}.
Next Obligation. intros S A lo hi P n U s Hal. exact (@al_arena S A lo hi P n U _ Hal). Qed.
Next Obligation.
  intros S A lo hi P n U s Hal. apply wp_zoom. eapply wp_mono; [exact (@al_page_ok S A lo hi P n U _ Hal)| |done].
  intros a h Ha. exact Ha.
Qed.
Next Obligation.
  intros S A lo hi P U s Hal. apply wp_zoom. exact (@al_page_empty S A lo hi P U _ Hal).
Qed.

#[export] Instance ex_allocator : Allocator (Z * hart) := beside_allocator bump_allocator.
#[export] Instance ex_spec : AllocatorSpec (Z * hart) bump_lo bump_hi := beside_spec bump_allocator bump_lo bump_hi bump_spec.
#[export] Instance ex_harts : Harts (Z * hart) := { hart_of := snd; with_hart f s := (fst s, f (snd s)) }.
#[export] Instance ex_harts_spec : HartsSpec (Z * hart).
Proof. done. Qed.

(** ** Memory: a small part below the arena, zeros in the arena *)
Definition arena_mem (small : mem) : mem := small ∪ zeros bump_lo (bump_hi - bump_lo).

Definition below (small : mem) : bool := bool_decide (map_Forall (fun x _ => x < bump_lo) small).

Lemma below_spec small x : below small = true -> bump_lo <= x -> small !! x = None.
Proof.
  intros Hb Hx. apply bool_decide_eq_true in Hb. destruct (small !! x) as [b|] eqn:E; [|done].
  specialize (Hb x b E). cbn in Hb. lia.
Qed.

Lemma arena_small small x b : small !! x = Some b -> arena_mem small !! x = Some b.
Proof. intros E. unfold arena_mem. by apply lookup_union_Some_l. Qed.

Lemma arena_zero small x : below small = true -> bump_lo <= x < bump_hi -> arena_mem small !! x = Some 0.
Proof.
  intros Hb Hx. unfold arena_mem. rewrite lookup_union_r by (apply below_spec; [done|lia]).
  rewrite zeros_lookup. by destruct (inside_spec bump_lo (bump_hi - bump_lo) x); [|lia].
Qed.

Lemma arena_has small : below small = true -> has (arena_mem small) bump_lo (bump_hi - bump_lo).
Proof. intros Hb x Hx. exists 0. apply arena_zero; [done|lia]. Qed.

Lemma arena_has_small small a n : has_b small a n = true -> has (arena_mem small) a n.
Proof. intros Hh x Hx. apply has_b_spec in Hh. destruct (Hh x Hx) as [b Hb]. exists b. by apply arena_small. Qed.

Lemma arena_bytes small : bytes_b small = true -> bytes_ok (arena_mem small).
Proof.
  intros Hb x b Hx. unfold arena_mem in Hx. apply lookup_union_Some_raw in Hx as [Hx|[_ Hx]].
  - by apply (bytes_b_spec _ Hb x).
  - by apply zeros_bytes in Hx.
Qed.

Lemma load_small small n a v m : load_le n a small = Some v -> (forall x, x < bump_lo -> m !! x = small !! x) ->
  a + Z.of_nat n <= bump_lo -> load_le n a m = Some v.
Proof. intros Hl Hm Ha. rewrite <- Hl. apply load_le_ext. intros x Hx. apply Hm. lia. Qed.

(** ** A directory, a data page, and room for more *)
Definition ex_root : Z := bump_lo.
Definition ex_data : Z := bump_lo + PGSIZE.
Definition ex_used : gset Z := {[ ex_root; ex_data ]}.
Definition ex_kmem (small : mem) (h : hart) : kmem (Z * hart) :=
  mkKmem (bump_lo + 2 * PGSIZE, h) (arena_mem small) 0.

Lemma ex_vinv small h : below small = true -> bytes_b small = true ->
  vinv bump_lo bump_hi ex_root (bump_pages - 2) ex_used (root_table ex_root) (ex_kmem small h).
Proof.
  intros Hb Hy. unfold ex_used. rewrite (union_comm_L {[ex_root]} {[ex_data]}).
  apply (vinv_root (S := Z * hart) bump_lo bump_hi (bump_pages - 2) {[ex_data]} (bump_lo + 2 * PGSIZE, h) (arena_mem small) ex_root 0).
  - split; [done|split; [vm_compute; congruence|split]].
    + unfold bump_pages. vm_compute. done.
    + intros u [->%elem_of_singleton| ->%elem_of_singleton]%elem_of_union; vm_compute; done.
  - done.
  - unfold ex_root. lia.
  - vm_compute. congruence.
  - by apply arena_has.
  - by apply arena_bytes.
  - intros x Hx. apply arena_zero; [done|]. unfold ex_root, bump_hi, bump_lo, PGSIZE in *. lia.
Qed.

Lemma ex_kmem_below small : below small = true -> forall x h, x < bump_lo -> memory (ex_kmem small h) !! x = small !! x.
Proof.
  intros Hb x h Hx. cbn [ex_kmem memory]. unfold arena_mem. destruct (small !! x) as [b|] eqn:E.
  - by apply lookup_union_Some_l.
  - rewrite lookup_union_r by done. rewrite zeros_lookup. destruct (inside_spec bump_lo (bump_hi - bump_lo) x); [lia|done].
Qed.

(** One page, [ex_data], shared copy-on-write at address 65536. *)
Definition ex_va : Z := 65536.
Definition ex_entry : Z := leaf_pte ex_data (Z.lor (Z.lor PTE_R PTE_U) PTE_COW).

Record ex_mapped_state (small : mem) (h : hart) (n : nat) (U : gset Z) (T : ptable) (k : kmem (Z * hart)) : Prop := {
  ex_inv : vinv bump_lo bump_hi ex_root n U T k;
  ex_view : pte_at T (memory k) ex_va = Some ex_entry;
  ex_page : data_page bump_lo bump_hi T U ex_data;
  ex_below x : x < bump_lo -> memory k !! x = small !! x;
  ex_hart : snd (heap k) = h;
  ex_tables_above a m : a + m <= bump_lo -> off_tables T a m
}.

Lemma root_table_lookup a π p : root_table a !! π = Some p -> π = [] /\ p = a.
Proof. intros Hp. unfold root_table in Hp. apply lookup_singleton_Some in Hp as [<- <-]. done. Qed.

Lemma ex_mapped small h : below small = true -> bytes_b small = true ->
  exists n U T k, ex_mapped_state small h n U T k.
Proof.
  intros Hb Hy. pose proof (ex_vinv small h Hb Hy) as HV.
  set (perm := Z.lor (Z.lor PTE_R PTE_U) PTE_COW).
  assert (Hw : wp (user_vm_map ex_root ex_va PGSIZE ex_data perm)
    (fun _ k => map_post bump_lo bump_hi ex_root (bump_pages - 2) ex_used (root_table ex_root) (ex_kmem small h)
       (first_page_of ex_va) (Z.to_nat (npages ex_va PGSIZE)) ex_data perm 0 k)
    (fun st _ => map_stop bump_lo bump_hi (bump_pages - 2) (root_table ex_root) (ex_kmem small h)
       (first_page_of ex_va) (Z.to_nat (npages ex_va PGSIZE)) st) (ex_kmem small h)).
  { apply wp_user_vm_map; [exact HV|vm_compute; congruence..|].
    split; vm_compute; congruence. }
  change (first_page_of ex_va) with ex_va in Hw. change (npages ex_va PGSIZE) with 1 in Hw. change (Z.to_nat 1) with 1%nat in Hw.
  unfold wp in Hw. destruct (user_vm_map _ _ _ _ _ _) as [[] k|st k].
  - destruct Hw as (_ & _ & n' & U' & T' & _ & D). change (Z.of_nat 1) with 1 in D.
    pose proof (ed_inv _ _ _ _ _ _ _ _ _ _ _ _ D) as HV2.
    exists n', U', T', (mkKmem (fst (heap k), h) (memory k) (g_kernel_pagetable k)). split; cbn [memory heap snd]; try done.
    + destruct HV2 as [V1 V2 V3 V4]. split; cbn [memory heap]; try done.
    + rewrite (ed_view _ _ _ _ _ _ _ _ _ _ _ _ D) by (vm_compute; split; congruence).
      unfold map_view. change (in_pages ex_va 1 ex_va) with true. cbv iota. unfold ex_entry. f_equal.
    + split; [|split; [vm_compute; congruence|split; [vm_compute; congruence|]]].
      * apply (ed_own _ _ _ _ _ _ _ _ _ _ _ _ D). unfold ex_used. apply elem_of_union_r, elem_of_singleton. done.
      * intros π q Hq ->. destruct (ed_fresh _ _ _ _ _ _ _ _ _ _ _ _ D π ex_data Hq) as [Hr|Hr].
        -- apply root_table_lookup in Hr as [_ Hr]. vm_compute in Hr. done.
        -- destruct Hr as [Hr _]. apply Hr. unfold ex_used. apply elem_of_union_r, elem_of_singleton. done.
    + intros x Hx. rewrite (ed_frame _ _ _ _ _ _ _ _ _ _ _ _ D).
      * by apply ex_kmem_below.
      * intros π p Hp Hin. destruct (ed_fresh _ _ _ _ _ _ _ _ _ _ _ _ D π p Hp) as [Hr|(_ & Hr & _)]; [|lia].
        apply root_table_lookup in Hr as [_ ->]. unfold ex_root in Hin. lia.
    + intros a m Ha π p Hp. left. destruct (ed_fresh _ _ _ _ _ _ _ _ _ _ _ _ D π p Hp) as [Hr|(_ & Hr & _)]; [|lia].
      apply root_table_lookup in Hr as [_ ->]. unfold ex_root. lia.
  - exfalso. destruct Hw as [[_ Hs]|[_ Hs]].
    + unfold short in Hs. revert Hs. apply Nat.le_ngt. cbn [page_tables].
      transitivity 3%nat; [|unfold bump_pages; lia].
      unfold tables, root_table. rewrite dom_singleton_L.
      etrans; [apply size_union_le|]. rewrite size_singleton. apply le_n_S.
      unfold tables_of. rewrite union_empty_r_L. etrans; [apply size_union_le|]. by rewrite !size_singleton.
    + apply Hs. intros va Hin. exists 0. split; [apply view_root|done].
Qed.
