(* ===== verification/ProcTheorems.v ===== *)
(** * Processes: the properties

    Creating an address space and copying one, with concrete instances. *)
From stdpp Require Import base gmap list strings.
From Stdlib Require Import ZArith Lia.
From S2P Require Import Prelude Riscv PmmState Mem Str Vmm VmmProofs VmmSpec KernVm VmTheorems ProcState Sched Process Trap SchedProofs TrapProofs HeapProofs SpaceProofs AllocProcess Fork ForkProofs ForkSpec ForkViews ExKernel.

(** C12: With a free entry in the pool and at least eleven pages to be had,
    [alloc_process] returns the first free entry: five distinct new pages, an
    address space in which exactly the user stack, the trap frame and the
    trap-vector page are mapped with their permissions, the four initial
    regions, a cleared trap frame with the stack pointer set, an empty heap;
    memory in use before, other processes and the queue are as they were. With
    no free entry it panics, and otherwise stops only for lack of pages. *)
Theorem alloc_process_builds {S} `{Allocator S} `{Harts S} (lo hi : Z) `{!AllocatorSpec S lo hi} (sym : symbols) n U (s : kstate S) :
  layout lo hi sym -> pool_ok (procs s) -> supply lo hi n U s ->
  wp (alloc_process sym)
     (fun i s' => 0 <= i < NPROC /\ (forall j y, 0 <= j < i -> procs s !! j = Some y -> status y <> FREE) /\
        exists x tf pt ks us info n' U' T', procs s !! i = Some x /\ status x = FREE /\
          created lo hi sym n U s i x tf pt ks us info n' U' T' s')
     (fun h s' => (h = no_process /\ s' = s /\ forall j y, 0 <= j < NPROC -> procs s !! j = Some y -> status y <> FREE) \/
                  (h = al_stop /\ (n < 11)%nat)) s.
Proof.
  intros HY HP HS. eapply (wp_alloc_process lo hi sym n U); [exact HY|exact HP|exact HS|..].
  - intros i x tf pt ks us info n' U' T' s' Hi Hx Hf Hleast HC. split; [exact Hi|]. split; [exact Hleast|].
    by exists x, tf, pt, ks, us, info, n', U', T'.
  - intros Hfull. by left.
  - intros Hn s'. by right.
Qed.

(** Entries after a fork: of the parent, and of the child whose trap frame is
    [tf] and whose first stack page is [us]. *)
Definition parent_pte (l : list (Z * Z * Z)) (g : Z -> option Z) (va : Z) : option Z :=
  if existsb (fun e => shares e && region_has e va) l then shared_entry <$> g va else g va.
Definition child_pte (sym : symbols) (l : list (Z * Z * Z)) (g : Z -> option Z) (tf us va : Z) : option Z :=
  match find (fun e => copies e && region_has e va) l with
  | Some e =>
      if shares e then match g va with
                       | Some v => if bit_set v PTE_V then Some (cow_entry v) else process_view sym tf us va
                       | None => process_view sym tf us va
                       end
      else Some (leaf_pte (lookup_spec (g va)) rx_user)
  | None => process_view sym tf us va
  end.

Lemma fork_views sym x l g y tf us va : regions_apart l ->
  let f := fold_left (fork_step x) l (fork_start sym g y tf us) in
  fg1 f va = parent_pte l g va /\ fg2 f va = child_pte sym l g tf us va.
Proof.
  intros Hl. cbv zeta. split; [by rewrite fork_fold_parent|]. unfold child_pte.
  destruct (find (fun e => copies e && region_has e va) l) as [e|] eqn:Ef.
  - apply find_some in Ef as [He%list_elem_of_In [Hc Hr]%andb_true_iff].
    destruct (fork_fold_at x l e va Hl He Hc Hr (fork_start sym g y tf us)) as [_ ->].
    destruct (fork_step_at x (fork_start sym g y tf us) e va) as [_ ->]. rewrite Hr, !andb_true_r. cbn [fork_start fg1 fg2].
    unfold copies in Hc. destruct (shares e); [done|]. cbn [orb] in Hc. by rewrite Hc.
  - assert (Ha : forall e, e ∈ l -> copies e && region_has e va = false).
    { intros e He%list_elem_of_In. exact (find_none _ _ Ef e He). }
    by destruct (fork_fold_away x l va (fork_start sym g y tf us) Ha) as [_ ->].
Qed.

(** What the caller of [do_fork] sees: the child [c], its record [y]. *)
Record fork_done {S} `{Allocator S} lo hi `{!AllocatorSpec S lo hi} (sym : symbols) (U : gset Z) (T1 : ptable)
    (p : Z) (x : process) (l : list (Z * Z * Z)) (ql : list Z) (s : kstate S) (c : Z) (y : process) (s' : kstate S) : Prop := {
  fd_child : c <> p /\ procs s' !! c = Some y /\ status y = READY /\ parent y = Some p;
  fd_others q z : q <> c -> procs s !! q = Some z -> exists nx, procs s' !! q = Some (with_next nx z);
  fd_queue : chain (procs s') (ready_queue_head s') (ql ++ [c]) /\ current s' = current s;
  fd_spaces : exists n' U' T2 us, vinv lo hi (pagetable x) n' U' T1 (km s') /\ vinv lo hi (pagetable y) n' U' T2 (km s') /\
    apart T1 T2 /\ (us ∉ U) /\ forall va, 0 <= va < MAXVA ->
      pte_at T1 (memory (km s')) va = parent_pte l (pte_at T1 (memory (km s))) va /\
      pte_at T2 (memory (km s')) va = child_pte sym l (pte_at T1 (memory (km s))) (trapframe y) us va;
  fd_frame k : 0 <= k < sizeof_trapframe -> own_field k = false ->
    memory (km s') !! (trapframe y + k) = memory (km s) !! (trapframe x + k);
  fd_registers : load_le 8 (trapframe y + TF_TP) (memory (km s')) = Some (u64 (procs_addr sym + c * sizeof_process)) /\
    load_le 8 (trapframe y + TF_A 0) (memory (km s')) = Some 0;
  fd_data a j : outside lo hi U a j -> kept lo hi T1 U a j -> forall z, a <= z < a + j -> memory (km s') !! z = memory (km s) !! z
}.


(** ** Concrete instances

    The trap-vector page lies just below the arena; the pool is the one of a
    freshly started kernel. *)
Definition ex_symbols : symbols := mkSymbols 2147480000 2147480256 USER_STACK_TOP 2147400000.

Lemma ex_layout : layout bump_lo bump_hi ex_symbols.
Proof. split; [split; [done|rewrite MAXVA_val; vm_compute; split; congruence]|done|done|rewrite MAXVA_val; vm_compute; congruence]. Qed.

Lemma zero_pool_ok : pool_ok zero_pool.
Proof.
  assert (Hall : forallb (fun i => match zero_pool !! i with Some _ => true | None => false end) (seqZ 0 NPROC) = true)
    by (vm_compute; reflexivity).
  intros i Hi. rewrite forallb_forall in Hall. specialize (Hall i).
  rewrite <- list_elem_of_In, elem_of_seqZ in Hall. specialize (Hall Hi). destruct (zero_pool !! i); [by eexists|done].
Qed.

Definition ex_hart0 : hart := mkHart 0 0 0 0 0 0 0.

Lemma alloc_process_builds_witness :
  let s : kstate (Z * hart) := mkKstate (mkKmem (bump_lo, ex_hart0) (arena_mem ∅) 0) zero_pool None None 0 in
  wp (alloc_process ex_symbols)
     (fun i s' => 0 <= i < NPROC /\ (forall j y, 0 <= j < i -> procs s !! j = Some y -> status y <> FREE) /\
        exists x tf pt ks us info n' U' T', procs s !! i = Some x /\ status x = FREE /\
          created bump_lo bump_hi ex_symbols bump_pages ∅ s i x tf pt ks us info n' U' T' s')
     (fun h s' => (h = no_process /\ s' = s /\ forall j y, 0 <= j < NPROC -> procs s !! j = Some y -> status y <> FREE) \/
                  (h = al_stop /\ (bump_pages < 11)%nat)) s.
Proof.
  apply (alloc_process_builds bump_lo bump_hi ex_symbols bump_pages ∅).
  - exact ex_layout.
  - exact zero_pool_ok.
  - split; [exact bump_start|by apply arena_has|by apply arena_bytes].
Defined.

(** A process with a heap page at 65536, a code page behind it, and its trap
    frame; its pages are the first five of the arena. *)
Definition ex_page_no (i : Z) : Z := bump_lo + i * PGSIZE.
Definition ex_regions : list (Z * Z * Z) :=
  [(65536, 1, HEAP_SEGMENT); (69632, 1, CODE_SEGMENT); (ex_page_no 3, 1, CONTEXT_SEGMENT)].
Definition le32 (v : Z) : list Z := (fun i => byte_of v i) <$> seqZ 0 4.
Definition le64b (v : Z) : list Z := (fun i => byte_of v i) <$> seqZ 0 8.
Definition ex_table : mem :=
  mem_at (ex_page_no 4) (ex_regions ≫= fun e => le64b (fst (fst e)) ++ le32 (snd (fst e)) ++ le32 (snd e)).
Definition ex_parent : process :=
  mkProcess (ex_page_no 200) (ex_page_no 0) (ex_page_no 3) (ex_page_no 4) 3
    (mkHeap (65536 + PGSIZE) 65536 (replicate 32 0) 0) 0 RUNNING None None 0.
Definition ex_rwx : Z := Z.lor (Z.lor PTE_R PTE_W) (Z.lor PTE_X PTE_U).

Lemma load_le_sub n : forall a m1 m2 v, m1 ⊆ m2 -> load_le n a m1 = Some v -> load_le n a m2 = Some v.
Proof.
  induction n as [|n IH]; intros a m1 m2 v Hm Hl; cbn in *; [done|].
  destruct (m1 !! a) as [b|] eqn:Hb; [|done]. rewrite (lookup_weaken _ _ _ _ Hb Hm). cbn in *.
  destruct (load_le n (a + 1) m1) as [w|] eqn:Hw; [|done]. by rewrite (IH _ _ _ _ Hm Hw).
Qed.

Lemma ex_table_regions : forall m, ex_table ⊆ m -> regions_at m (ex_page_no 4) ex_regions.
Proof.
  assert (Hc : forallb (fun i => match ex_regions !! i with
      | Some e => bool_decide (load_le 8 (ex_page_no 4 + 16 * Z.of_nat i) ex_table = Some (fst (fst e))) &&
                  bool_decide (load_le 4 (ex_page_no 4 + 16 * Z.of_nat i + 8) ex_table = Some (snd (fst e))) &&
                  bool_decide (load_le 4 (ex_page_no 4 + 16 * Z.of_nat i + 12) ex_table = Some (snd e))
      | None => true end) [0;1;2]%nat = true) by (vm_compute; reflexivity).
  intros m Hm i e He. pose proof (lookup_lt_Some _ _ _ He) as Hi. rewrite forallb_forall in Hc. specialize (Hc i).
  rewrite He in Hc. assert (Hin : In i [0;1;2]%nat) by (cbn in *; lia).
  apply Hc in Hin as [[H1%bool_decide_eq_true H2%bool_decide_eq_true]%andb_true_iff H3%bool_decide_eq_true]%andb_true_iff.
  split_and!; by eapply load_le_sub.
Qed.

Lemma ex_table_arena : ex_table ⊆ arena_mem ex_table.
Proof. unfold arena_mem. apply map_union_subseteq_l. Qed.

Lemma ex_arena x : bump_lo <= x < bump_hi -> is_Some (arena_mem ex_table !! x).
Proof.
  intros Hx. unfold arena_mem. destruct (ex_table !! x) as [b|] eqn:E; [exists b; by apply lookup_union_Some_l|].
  rewrite lookup_union_r by done. rewrite zeros_lookup. destruct (inside_spec bump_lo (bump_hi - bump_lo) x); [by eexists|lia].
Qed.

Lemma ex_dir_zero x : ex_page_no 0 <= x < ex_page_no 0 + PGSIZE -> arena_mem ex_table !! x = Some 0.
Proof.
  intros Hx. assert (Hb : map_Forall (fun y _ => ex_page_no 4 <= y) ex_table).
  { apply (bool_decide_unpack _). vm_compute. exact I. }
  unfold arena_mem. destruct (ex_table !! x) as [b|] eqn:E.
  - apply Hb in E. cbn in E. unfold ex_page_no, PGSIZE in *. lia.
  - rewrite lookup_union_r by done. rewrite zeros_lookup.
    destruct (inside_spec bump_lo (bump_hi - bump_lo) x); [done|]. unfold ex_page_no, bump_hi, bump_lo, PGSIZE in *. lia.
Qed.

Definition ex_kmem0 : kmem (Z * hart) := mkKmem (ex_page_no 5, ex_hart0) (arena_mem ex_table) 0.
Definition ex_used0 : gset Z := {[ ex_page_no 1; ex_page_no 2; ex_page_no 3; ex_page_no 4 ]} ∪ {[ ex_page_no 0 ]}.

Lemma ex_vinv0 : vinv bump_lo bump_hi (ex_page_no 0) (bump_pages - 5) ex_used0 (root_table (ex_page_no 0)) ex_kmem0.
Proof.
  apply (vinv_root (S := Z * hart) bump_lo bump_hi (bump_pages - 5) _ (ex_page_no 5, ex_hart0) (arena_mem ex_table) (ex_page_no 0) 0).
  - split; [done|split; [vm_compute; congruence|split]].
    + unfold bump_pages. vm_compute. done.
    + intros u Hu. rewrite !elem_of_union, !elem_of_singleton in Hu. destruct_or?; subst u; vm_compute; done.
  - done.
  - vm_compute. congruence.
  - vm_compute. congruence.
  - intros x Hx. apply ex_arena. lia.
  - apply arena_bytes. vm_compute. reflexivity.
  - exact ex_dir_zero.
Qed.

Record ex_forkable_state n U T (k : kmem (Z * hart)) : Prop := {
  ef_inv : vinv bump_lo bump_hi (ex_page_no 0) n U T k;
  ef_view va : 0 <= va < MAXVA -> pte_at T (memory k) va =
    if in_pages 65536 2 va then Some (leaf_pte (ex_page_no 1 + (va / PGSIZE - 16) * PGSIZE) ex_rwx) else Some 0;
  ef_used : ex_used0 ⊆ U;
  ef_tables i π q : 1 <= i < 5 -> T !! π = Some q -> q <> ex_page_no i;
  ef_regions : regions_at (memory k) (ex_page_no 4) ex_regions
}.

Lemma ex_forkable : exists n U T k, ex_forkable_state n U T k.
Proof.
  assert (Hw : wp (user_vm_map (ex_page_no 0) 65536 8192 (ex_page_no 1) ex_rwx)
    (fun _ k => map_post bump_lo bump_hi (ex_page_no 0) (bump_pages - 5) ex_used0 (root_table (ex_page_no 0)) ex_kmem0
       (first_page_of 65536) (Z.to_nat (npages 65536 8192)) (ex_page_no 1) ex_rwx 0 k)
    (fun st _ => map_stop bump_lo bump_hi (bump_pages - 5) (root_table (ex_page_no 0)) ex_kmem0
       (first_page_of 65536) (Z.to_nat (npages 65536 8192)) st) ex_kmem0).
  { apply wp_user_vm_map; [exact ex_vinv0|vm_compute; congruence..|]. split; vm_compute; congruence. }
  change (first_page_of 65536) with 65536 in Hw. change (Z.to_nat (npages 65536 8192)) with 2%nat in Hw.
  unfold wp in Hw. destruct (user_vm_map _ _ _ _ _ _) as [[] k|st k].
  - destruct Hw as (_ & _ & n' & U' & T' & _ & D). change (Z.of_nat 2) with 2 in D.
    assert (Htab : forall i π q, 1 <= i < 5 -> T' !! π = Some q -> q <> ex_page_no i).
    { intros i π q Hi Hq ->. destruct (ed_fresh _ _ _ _ _ _ _ _ _ _ _ _ D π _ Hq) as [Hr|(Hr & _)].
      - apply root_table_lookup in Hr as [_ Hr]. unfold ex_page_no, PGSIZE in Hr. lia.
      - apply Hr. unfold ex_used0. rewrite !elem_of_union, !elem_of_singleton. unfold ex_page_no, PGSIZE. lia. }
    exists n', U', T', k. split.
    + exact (ed_inv _ _ _ _ _ _ _ _ _ _ _ _ D).
    + intros va Hva. rewrite (ed_view _ _ _ _ _ _ _ _ _ _ _ _ D) by done. unfold map_view.
      destruct (in_pages 65536 2 va); [do 2 f_equal; unfold PGSIZE; lia|apply view_root].
    + exact (ed_own _ _ _ _ _ _ _ _ _ _ _ _ D).
    + exact Htab.
    + apply (regions_at_ext (ex_page_no 4) (arena_mem ex_table)); [cbn; lia| |exact (ex_table_regions _ ex_table_arena)].
      intros y Hy. apply (ed_frame _ _ _ _ _ _ _ _ _ _ _ _ D). intros π q Hq Hin.
      pose proof (pt_page _ _ _ (vi_tree _ _ _ _ _ _ _ (ed_inv _ _ _ _ _ _ _ _ _ _ _ _ D)) π q Hq) as Hok.
      pose proof (Htab 4 π q ltac:(lia) Hq) as Hne. destruct Hok as (Hal & _). unfold ex_page_no, bump_lo, PGSIZE in *. zlia.
  - exfalso. destruct Hw as [[_ Hs]|[_ Hs]].
    + unfold short in Hs. revert Hs. apply Nat.le_ngt. cbn [page_tables]. unfold tables, root_table. rewrite dom_singleton_L, union_empty_r_L.
      transitivity 5%nat; [|unfold bump_pages; lia]. etrans; [apply size_union_le|]. rewrite size_singleton. apply le_n_S.
      etrans; [apply size_union_le|]. apply (Nat.add_le_mono _ 2 _ 2); unfold tables_of; (etrans; [apply size_union_le|]; by rewrite !size_singleton).
    + apply Hs. intros va Hin. exists 0. split; [apply view_root|done].
Qed.

Definition ex_parent_state (k : kmem (Z * hart)) : kstate (Z * hart) :=
  mkKstate k (<[0 := ex_parent]> zero_pool) (Some 0) None 0.

Lemma ex_leaf_range i : 0 <= i < 2 -> 0 <= ex_page_no 1 + i * PGSIZE < 2 ^ 56.
Proof. unfold ex_page_no, bump_lo, PGSIZE. lia. Qed.

Lemma ex_in_run va : in_pages 65536 2 va = true -> 0 <= va / PGSIZE - 16 < 2 /\ 0 <= va < MAXVA.
Proof. intros Hin%in_pages_range. rewrite MAXVA_val. unfold PGSIZE in *. zlia. Qed.

Lemma ex_fits n U T k : ex_forkable_state n U T k ->
  forall e, e ∈ ex_regions -> region_fits T (pte_at T (memory k)) e.
Proof.
  intros [V1 V2 V3 V4 V5] e He. unfold ex_regions in He.
  assert (Hrun : forall first va, first = 65536 \/ first = 69632 -> in_pages first 1 va = true -> in_pages 65536 2 va = true).
  { intros first va Hf Hin%in_pages_range. unfold in_pages. destruct (inside_spec 65536 (2 * PGSIZE) va); [done|]. unfold PGSIZE in *. lia. }
  assert (Hseg : forall first, first = 65536 \/ first = 69632 -> segment_ok first 1).
  { intros first [->| ->]; (split_and!; [done|done|lia|rewrite MAXVA_val; done|done]). }
  repeat (apply elem_of_cons in He as [->|He]); [..|by apply elem_of_nil in He]; unfold region_fits; cbn [shares maps_code region_type snd Z.eqb orb].
  - split; [apply Hseg; by left|]. intros va Hva. apply Hrun in Hva; [|by left]. destruct (ex_in_run va Hva) as [Hi Hr].
    pose proof (V2 va Hr) as Hv. rewrite Hva in Hv. unfold pte_at in Hv. destruct (T !! [PX 2 va; PX 1 va]) as [q|]; [by eexists|].
    injection Hv as Hv. pose proof (leaf_pte_valid (ex_page_no 1 + (va / PGSIZE - 16) * PGSIZE) ex_rwx) as Hb.
    rewrite <- Hv in Hb. specialize (Hb ltac:(pose proof (ex_leaf_range _ Hi); lia) ltac:(done)). done.
  - split; [apply Hseg; by right|]. split; [done|]. split; [|done]. intros va Hva. apply Hrun in Hva; [|by right].
    destruct (ex_in_run va Hva) as [Hi Hr]. pose proof (ex_leaf_range _ Hi) as Hl.
    rewrite (V2 va Hr), Hva. unfold lookup_spec. destruct (_ && _); [|done].
    rewrite leaf_pte_page; [unfold ex_page_no, bump_lo, PGSIZE in *; lia|lia|done|].
    unfold ex_page_no, bump_lo, PGSIZE. rewrite Z.mod_add by done. done.
  - done.
Qed.

Lemma ex_fork_pages n U T k : ex_forkable_state n U T k ->
  forkable bump_lo bump_hi n U T 0 ex_parent ex_regions (ex_parent_state k).
Proof.
  intros [V1 V2 V3 V4 V5]. split; cbn [ex_parent_state km procs].
  - exact V1.
  - apply lookup_insert_eq.
  - done.
  - done.
  - exact V5.
  - intros a Ha. cbn [ex_parent trapframe mapped_info] in Ha. assert (Hi : exists i, 3 <= i < 5 /\ a = ex_page_no i).
    { repeat (apply elem_of_cons in Ha as [->|Ha]); [exists 3; by split|exists 4; by split|by apply elem_of_nil in Ha]. }
    destruct Hi as (i & Hi & ->). assert (Hi2 : i = 3 \/ i = 4) by lia. split_and!.
    + apply V3. unfold ex_used0. rewrite !elem_of_union, !elem_of_singleton. destruct Hi2 as [-> | ->]; tauto.
    + unfold page_ok, ex_page_no, bump_lo, PGSIZE. split_and!; [rewrite Z.mod_add by done; done|lia|lia].
    + unfold ex_page_no, PGSIZE. lia.
    + unfold ex_page_no, bump_hi, bump_lo, PGSIZE. lia.
    + intros π q Hq. apply (V4 i π q); [lia|exact Hq].
  - done.
Qed.

