(* ===== verification/TrapTheorems.v ===== *)
(** * Processes, scheduling and traps: the theorems *)
From stdpp Require Import base gmap list strings.
From Stdlib Require Import ZArith Lia.
From S2P Require Import Prelude Riscv PmmState Mem Str Vmm VmmProofs VmmSpec KernVm VmTheorems ProcState Sched Process Trap SchedProofs TrapProofs HeapProofs ExKernel.

(** ** Examples *)
Definition ex_symbols : symbols := mkSymbols 2147487744 2147488000 2147487744 2147491840.

(** A trap frame at 4096 with a0 .. a7 = 77, 65540, 0, ..., epc 65536; the
    region table at 8192. *)
Definition le64 (v : Z) : list Z := (fun i => byte_of v i) <$> seqZ 0 8.
Definition ex_regs : list Z := replicate 72 0 ++ le64 77 ++ le64 65540 ++ replicate 176 0 ++ le64 65536 ++ le64 0.
Definition ex_low : mem := mem_at 4096 (take 280 ex_regs) ∪ mem_at 8192 (replicate 96 0).

Lemma ex_low_below : below ex_low = true.
Proof. vm_compute. reflexivity. Qed.
Lemma ex_low_bytes : bytes_b ex_low = true.
Proof. vm_compute. reflexivity. Qed.

Definition ex_hart_at (cause : Z) : hart := mkHart 0 0 0 0 65536 cause 65540.

Definition ex_process (st : Z) (next : option Z) : process :=
  mkProcess 12288 ex_root 4096 8192 4 (mkHeap 4194304 4194304 (replicate 32 0) 0) 0 st None next 0.
Definition ex_procs : gmap Z process :=
  <[ 0 := ex_process RUNNING None ]> (<[ 1 := ex_process READY (Some 2) ]> (<[ 2 := ex_process READY None ]>
    (list_to_map ((fun i => (i, ex_process FREE None)) <$> seqZ 0 NPROC)))).

Definition ex_kernel (k : kmem (Z * hart)) : kstate (Z * hart) := mkKstate k ex_procs (Some 0) (Some 1) 0.

Lemma ex_chain k : chain (procs (ex_kernel k)) (ready_queue_head (ex_kernel k)) [1; 2].
Proof. split; [done|]. eexists. split; [reflexivity|]. split; [done|]. eexists. split; reflexivity. Qed.

Lemma ex_pool : pool_ok ex_procs.
Proof.
  assert (Hall : forallb (fun i => match ex_procs !! i with Some _ => true | None => false end) (seqZ 0 NPROC) = true)
    by (vm_compute; reflexivity).
  intros i Hi. rewrite forallb_forall in Hall. specialize (Hall i).
  rewrite <- list_elem_of_In, elem_of_seqZ in Hall. specialize (Hall Hi). destruct (ex_procs !! i); [by eexists|done].
Qed.

Lemma ex_frame (m : mem) : (forall x, x < bump_lo -> m !! x = ex_low !! x) -> frame_ok m 4096.
Proof.
  intros Hm. split; [lia|split; [unfold sizeof_trapframe; lia|]]. intros x Hx. unfold sizeof_trapframe in Hx.
  rewrite Hm by (unfold bump_lo; lia). assert (Hh : has_b ex_low 4096 280 = true) by (vm_compute; reflexivity).
  by apply (has_b_spec _ _ _ Hh).
Qed.

(** ** The ready queue *)

(** C18: [insert_to_ready_queue] always returns.  A process that is queued
    already is left where it is; any other process becomes READY and is put
    behind the last one, and nothing else of any process changes. *)
Theorem insert_to_ready_queue_fifo {S} `{Harts S} (s : kstate S) l p x :
  chain (procs s) (ready_queue_head s) l -> procs s !! p = Some x ->
  wp (insert_to_ready_queue p)
     (fun _ s' => km s' = km s /\ current s' = current s /\
        chain (procs s') (ready_queue_head s') (if decide (p ∈ l) then l else l ++ [p]) /\
        if decide (p ∈ l) then procs s' = procs s else relinked p (procs s) (procs s')) no_stop s.
Proof.
  intros Hc Hx. eapply wp_insert; [exact Hc|exact Hx|..].
  - intros Hin. by rewrite !decide_True.
  - intros Hin P' h' HP HR. by rewrite !decide_False.
Qed.

Lemma insert_to_ready_queue_fifo_witness :
  let s := ex_kernel (ex_kmem ex_low (ex_hart_at 8)) in
  wp (insert_to_ready_queue 0)
     (fun _ s' => km s' = km s /\ current s' = current s /\
        chain (procs s') (ready_queue_head s') (if decide (0 ∈ [1; 2]) then [1; 2] else [1; 2] ++ [0]) /\
        if decide (0 ∈ [1; 2]) then procs s' = procs s else relinked 0 (procs s) (procs s')) no_stop s.
Proof.
  apply (insert_to_ready_queue_fifo (ex_kernel (ex_kmem ex_low (ex_hart_at 8))) [1; 2] 0 (ex_process RUNNING None));
    [apply ex_chain|reflexivity].
Defined.

(** ** The scheduler *)

(** The head of the queue may run. *)
Definition head_ready {S} (s : kstate S) (l : list Z) : Prop :=
  match l with
  | [] => True
  | p :: _ => exists x, procs s !! p = Some x /\ status x = READY /\ frame_ok (memory (km s)) (trapframe x)
  end.

(** Where [schedule] leads from [s] with the queue [l]. *)
Definition dispatched {S} `{Harts S} (sym : symbols) (s : kstate S) (l : list Z) (h : stop) (s' : kstate S) : Prop :=
  match l with
  | [] => s' = s /\ (idle (procs s) /\ h = ShutDown 0 \/ ~ idle (procs s) /\ h = unfinished_panic)
  | p :: l' => exists x epc, procs s !! p = Some x /\
      load_le 8 (trapframe x + TF_EPC) (memory (km s)) = Some epc /\
      h = ToUser (trapframe x) (MAKE_SATP (pagetable x)) /\ chain (procs s') (ready_queue_head s') l' /\
      entered sym p (with_status RUNNING x) epc
        (mkKstate (km s) (<[p := with_status RUNNING x]> (procs s)) (Some p) (queue_next x) (g_ticks s)) s'
  end.

Lemma wp_dispatch {S} `{Harts S} `{!HartsSpec S} sym (s : kstate S) l :
  chain (procs s) (ready_queue_head s) l -> pool_ok (procs s) -> head_ready s l ->
  wp (schedule sym) (fun _ _ => False) (dispatched sym s l) s.
Proof.
  intros Hc Hp Hl. eapply (wp_schedule (S := S) sym l); [exact Hc|exact Hp|]. destruct l as [|p l].
  - split; intros Hi; (split; [done|]); [by left|by right].
  - destruct Hl as (x & Hx & Hr & Hf). pose proof Hf as (F1 & F2 & F3).
    destruct (load_le_has 8 (trapframe x + TF_EPC) (memory (km s))) as [epc He].
    { intros y Hy. apply F3. unfold TF_EPC, sizeof_trapframe in *. change (Z.of_nat 8) with 8 in Hy. lia. }
    exists x, epc. split; [done|]. split; [done|]. split; [done|]. split; [done|]. intros s' Hl' HI. by exists x, epc.
Qed.

(** C17: [schedule] never returns.  It takes the first process of the queue out
    of it, makes it [current] and RUNNING, and enters user mode at that
    process's saved pc with its page table, interrupts on and the registers
    its next trap needs in its trap frame.  With an empty queue it shuts the
    machine down when all processes are free or zombies, and panics
    otherwise. *)
Theorem schedule_runs_next {S} `{Harts S} `{!HartsSpec S} sym (s : kstate S) l :
  chain (procs s) (ready_queue_head s) l -> pool_ok (procs s) -> head_ready s l ->
  wp (schedule sym) (fun _ _ => False) (dispatched sym s l) s.
Proof. apply wp_dispatch. Qed.

Lemma schedule_runs_next_witness :
  wp (schedule ex_symbols) (fun _ _ => False)
     (dispatched ex_symbols (ex_kernel (ex_kmem ex_low (ex_hart_at 8))) [1; 2]) (ex_kernel (ex_kmem ex_low (ex_hart_at 8))).
Proof.
  apply (schedule_runs_next ex_symbols (ex_kernel (ex_kmem ex_low (ex_hart_at 8))) [1; 2]).
  - apply ex_chain.
  - exact ex_pool.
  - eexists. split; [reflexivity|]. split; [reflexivity|]. apply ex_frame. intros y Hy. apply (ex_kmem_below _ ex_low_below y _ Hy).
Defined.

(** C24: [sys_user_exit] never returns to the process that calls it: the
    process is a zombie from then on, and the scheduler goes on with the rest
    of the queue. *)
Theorem sys_user_exit_schedules {S} `{Harts S} `{!HartsSpec S} sym (s : kstate S) l c x code :
  current s = Some c -> procs s !! c = Some x -> c ∉ l ->
  chain (procs s) (ready_queue_head s) l -> pool_ok (procs s) -> head_ready s l ->
  wp (sys_user_exit sym code) (fun _ _ => False)
     (dispatched sym (set_procs (<[c := with_status ZOMBIE x]> (procs s)) s) l) s.
Proof.
  intros Hcur Hx Hc Hl Hp Hr. unfold sys_user_exit. apply wp_bind, wp_gets. rewrite Hcur. apply wp_bind.
  unfold free_process. apply wp_bind. eapply wp_upd_proc; [exact Hx|]. apply wp_ret. apply wp_bind.
  eapply wp_mono; [apply (wp_dispatch sym _ l)|done|done].
  - by apply chain_insert_out.
  - intros i Hi. cbn. destruct (decide (i = c)) as [->|]; [rewrite lookup_insert_eq; by eexists|].
    rewrite lookup_insert_ne by done. by apply Hp.
  - destruct l as [|p l]; [done|]. destruct Hr as (y & Hy & Hst & Hf). exists y. split; [|done].
    cbn. rewrite lookup_insert_ne; [done|]. intros <-. apply Hc. by left.
Qed.

Lemma sys_user_exit_schedules_witness :
  let s := ex_kernel (ex_kmem ex_low (ex_hart_at 8)) in
  wp (sys_user_exit ex_symbols 0) (fun _ _ => False)
     (dispatched ex_symbols (set_procs (<[0 := with_status ZOMBIE (ex_process RUNNING None)]> (procs s)) s) [1; 2]) s.
Proof.
  apply (sys_user_exit_schedules ex_symbols (ex_kernel (ex_kmem ex_low (ex_hart_at 8))) [1; 2] 0 (ex_process RUNNING None) 0).
  - reflexivity.
  - reflexivity.
  - intros [?|[?|?%not_elem_of_nil]%elem_of_cons]%elem_of_cons; done.
  - apply ex_chain.
  - exact ex_pool.
  - eexists. split; [reflexivity|]. split; [reflexivity|]. apply ex_frame. intros y Hy. apply (ex_kmem_below _ ex_low_below y _ Hy).
Defined.

(** ** Page faults *)



(** A load fault is not handled: the process is resumed at the
    instruction that faulted with everything as it was, and faults again. *)
Lemma load_fault_resumes {S} `{Allocator S} `{Harts S} `{!HartsSpec S} sym get_page get_page_ref host_write
    out stray (s : kstate S) p x pc :
  user_trap p x CAUSE_LOAD_PAGE_FAULT pc s ->
  wp (smode_trap_handler sym get_page get_page_ref host_write out stray) (fun _ _ => False)
     (fun h s' => h = ToUser (trapframe x) (MAKE_SATP (pagetable x)) /\ sepc (the_hart s') = pc /\
        current s' = current s /\ procs s' = procs s /\
        forall a, ~ (trapframe x + TF_KERNEL_SP <= a < trapframe x + sizeof_trapframe) ->
          memory (km s') !! a = memory (km s) !! a) s.
Proof.
  intros [U1 U2 U3 U4 [U5 U5'] U6]. unfold smode_trap_handler.
  apply wp_bind, wp_gets. rewrite U1. apply wp_bind, wp_ret, wp_bind, wp_gets. rewrite U2. apply wp_bind, wp_ret.
  apply wp_bind. eapply wp_proc; [exact U3|]. apply wp_bind, wp_gets. rewrite U5. apply wp_bind.
  apply wp_frame_store; [done|unfold TF_EPC; lia|unfold TF_EPC, sizeof_trapframe; lia|]. intros m0 S0 D0.
  apply wp_bind, wp_gets. change (the_hart (set_mem m0 s)) with (the_hart s). rewrite U6.
  cbn [Z.eqb Pos.eqb CAUSE_LOAD_PAGE_FAULT CAUSE_USER_ECALL CAUSE_MTIMER_S_TRAP CAUSE_STORE_PAGE_FAULT orb].
  apply wp_bind, wp_bind, wp_gets, wp_bind, wp_gets, wp_ret. apply wp_bind, wp_gets.
  change (current (set_mem m0 s)) with (current s). rewrite U2.
  eapply (wp_switch_to (S := S) sym p x pc); [exact U3|by eapply frame_ok_upd| |].
  - cbn [km set_mem set_km memory]. rewrite (load_store_same _ _ _ _ _ S0). f_equal. by apply Z.mod_small.
  - intros s' [I1 I2 I3 I4 I5 I6 I7 I8]. cbn [km set_mem set_km memory procs] in *. split; [done|]. split; [by rewrite I8|].
    split; [by rewrite I1|split; [done|]]. intros a Ha. unfold TF_KERNEL_SP, TF_KERNEL_SATP, TF_EPC, sizeof_trapframe in *.
    rewrite I7 by lia. rewrite D0. destruct (inside_spec (trapframe x + 264) 8 a); (lia || done).
Qed.

Lemma ex_user_trap cause k : snd (heap k) = ex_hart_at cause -> (forall x, x < bump_lo -> memory k !! x = ex_low !! x) ->
  user_trap 0 (ex_process RUNNING None) cause 65536 (ex_kernel k).
Proof.
  intros Hh Hm. assert (E : the_hart (ex_kernel k) = ex_hart_at cause) by exact Hh.
  split; rewrite ?E; try reflexivity; [by apply ex_frame|]. split; [done|unfold is_u64; lia].
Qed.

(** ** System calls *)



(** The traps the kernel gives up on, by cause and system call number. *)
Definition gives_up (st cause a0 : Z) : option stop :=
  if negb (Z.land st SSTATUS_SPP =? 0) then Some (Panicked "usertrap: not from user mode")
  else if cause =? CAUSE_USER_ECALL then
    if a0 =? SYS_user_yield then Some (Panicked "You need to implement the yield syscall in lab3_2.")
    else if (64 <=? a0) && (a0 <=? 68) || (74 <=? a0) && (a0 <=? 77) then None
    else Some (Panicked "Unknown syscall %ld")
  else if cause =? CAUSE_MTIMER_S_TRAP then
    Some (Panicked "lab1_3: increase g_ticks by one, and clear SIP field in sip register.")
  else if (cause =? CAUSE_STORE_PAGE_FAULT) || (cause =? CAUSE_LOAD_PAGE_FAULT) then None
  else Some (Panicked "unexpected exception happened.").

Lemma do_syscall_unknown {S} `{Allocator S} `{Harts S} sym get_page host_write out stray a0 a1 a2 (s : kstate S) w :
  gives_up 0 CAUSE_USER_ECALL a0 = Some w ->
  wp (do_syscall sym get_page host_write out stray a0 a1 a2) (fun _ _ => False) (fun h _ => h = w) s.
Proof.
  unfold gives_up, do_syscall. change (negb (Z.land 0 SSTATUS_SPP =? 0)) with false. cbv iota. rewrite Z.eqb_refl.
  unfold SYS_user_print, SYS_user_exit, SYS_user_allocate_page, SYS_user_free_page, SYS_user_fork, SYS_user_yield,
    SYS_user_sem_new, SYS_user_sem_P, SYS_user_sem_V, SYS_user_printpa, SYS_user_base. cbn [Z.add Pos.add Pos.succ Pos.add_carry].
  repeat match goal with |- context [a0 =? ?k] => destruct (Z.eqb_spec a0 k) as [->|?] end; cbn;
    try (intros [= <-]; by apply wp_halt); try done.
  destruct (Z.leb_spec 64 a0), (Z.leb_spec a0 68), (Z.leb_spec 74 a0), (Z.leb_spec a0 77); cbn;
    try (intros [= <-]; by apply wp_halt); lia.
Qed.

(** C28: timer interrupts, the yield system call, unknown system call numbers
    and every other exception end in a panic, whatever the state of the
    kernel. *)
Theorem unhandled_traps_panic {S} `{Allocator S} `{Harts S} sym get_page get_page_ref host_write out stray
    (s : kstate S) p x cause pc a0 a1 a2 w :
  user_trap p x cause pc s ->
  load_le 8 (trapframe x + TF_A 0) (memory (km s)) = Some a0 ->
  load_le 8 (trapframe x + TF_A 1) (memory (km s)) = Some a1 ->
  load_le 8 (trapframe x + TF_A 2) (memory (km s)) = Some a2 ->
  gives_up (sstatus (the_hart s)) cause a0 = Some w ->
  wp (smode_trap_handler sym get_page get_page_ref host_write out stray) (fun _ _ => False) (fun h _ => h = w) s.
Proof.
  intros HU L0 L1 L2 Hg. pose proof HU as [U1 U2 U3 U4 [U5 U5'] U6].
  destruct (Z.eqb_spec cause CAUSE_USER_ECALL) as [->|Hne].
  - eapply (wp_ecall sym get_page get_page_ref host_write); [exact HU|exact L0|exact L1|exact L2|]. intros m1 D1.
    assert (Hg0 : gives_up 0 CAUSE_USER_ECALL a0 = Some w) by (unfold gives_up in *; rewrite U1 in Hg; exact Hg).
    eapply wp_mono; [exact (do_syscall_unknown sym get_page host_write out stray a0 a1 a2 (set_mem m1 s) w Hg0)|done|done].
  - unfold gives_up in Hg. rewrite U1, (proj2 (Z.eqb_neq _ _) Hne) in Hg. cbn [negb Z.eqb] in Hg. unfold smode_trap_handler.
    apply wp_bind, wp_gets. rewrite U1. apply wp_bind, wp_ret, wp_bind, wp_gets. rewrite U2. apply wp_bind, wp_ret.
    apply wp_bind. eapply wp_proc; [exact U3|]. apply wp_bind, wp_gets. rewrite U5. apply wp_bind.
    apply wp_frame_store; [done|unfold TF_EPC; lia|unfold TF_EPC, sizeof_trapframe; lia|]. intros m0 S0 D0.
    apply wp_bind, wp_gets. change (the_hart (set_mem m0 s)) with (the_hart s). rewrite U6.
    rewrite (proj2 (Z.eqb_neq _ _) Hne). destruct (cause =? CAUSE_MTIMER_S_TRAP).
    + injection Hg as <-. by apply wp_bind, wp_bind, wp_halt.
    + destruct ((cause =? CAUSE_STORE_PAGE_FAULT) || (cause =? CAUSE_LOAD_PAGE_FAULT)); [done|].
      injection Hg as <-. by apply wp_bind, wp_halt.
Qed.

Lemma unhandled_traps_panic_witness :
  wp (smode_trap_handler ex_symbols (fun _ => ret tt) (fun _ => ret 1) (fun _ _ => ret tt) 0 []) (fun _ _ => False)
     (fun h _ => h = Panicked "lab1_3: increase g_ticks by one, and clear SIP field in sip register.")
     (ex_kernel (ex_kmem ex_low (ex_hart_at CAUSE_MTIMER_S_TRAP))).
Proof.
  assert (Hm : forall y, y < bump_lo -> memory (ex_kmem ex_low (ex_hart_at CAUSE_MTIMER_S_TRAP)) !! y = ex_low !! y)
    by (intros y Hy; by apply ex_kmem_below; [exact ex_low_below|]).
  apply (unhandled_traps_panic ex_symbols (fun _ => ret tt) (fun _ => ret 1) (fun _ _ => ret tt) 0 []
           (ex_kernel (ex_kmem ex_low (ex_hart_at CAUSE_MTIMER_S_TRAP))) 0 (ex_process RUNNING None)
           CAUSE_MTIMER_S_TRAP 65536 77 65540 0).
  - apply ex_user_trap; [reflexivity|exact Hm].
  - apply (load_small ex_low 8 (4096 + TF_A 0)); [vm_compute; reflexivity|exact Hm|vm_compute; congruence].
  - apply (load_small ex_low 8 (4096 + TF_A 1)); [vm_compute; reflexivity|exact Hm|vm_compute; congruence].
  - apply (load_small ex_low 8 (4096 + TF_A 2)); [vm_compute; reflexivity|exact Hm|vm_compute; congruence].
  - reflexivity.
Defined.

(** ** The user heap *)

(** C27: [sys_user_free_page] keeps no account of what it is given: with an
    empty list of reclaimed pages, 33 calls for one and the same page, which
    need never have been mapped, end in a store past the end of
    [free_pages_address]. *)
Theorem free_page_overruns {S} `{Allocator S} `{Harts S} root T (s : kstate S) p x va v :
  current s = Some p -> procs s !! p = Some x -> pagetable x = root -> ptree T root (memory (km s)) -> user_page va ->
  pte_at T (memory (km s)) va = Some v -> bit_set v PTE_V = false ->
  Z.of_nat (length (free_pages_address (user_heap x))) = MAX_HEAP_PAGES -> free_pages_count (user_heap x) = 0 ->
  wp (times 33 (sys_user_free_page va)) (fun _ _ => False) (fun h _ => h = WildAccess) s.
Proof.
  intros Hc Hx Hroot HT Hva Hv Eb Hl Hn.
  apply (wp_free_times root T va v 33 s p x); try done; rewrite Hn; unfold MAX_HEAP_PAGES; lia.
Qed.

Lemma ex_user_page va : va mod PGSIZE = 0 -> PGSIZE <= va -> va + PGSIZE <= 2 ^ 38 -> user_page va.
Proof. intros. split; [done|split; [done|]]. by rewrite MAXVA_val. Qed.

Lemma free_page_overruns_witness :
  wp (times 33 (sys_user_free_page 131072)) (fun _ _ => False) (fun h _ => h = WildAccess)
     (ex_kernel (ex_kmem ex_low (ex_hart_at 8))).
Proof.
  apply (free_page_overruns ex_root (root_table ex_root) (ex_kernel (ex_kmem ex_low (ex_hart_at 8))) 0
           (ex_process RUNNING None) 131072 0).
  - reflexivity.
  - reflexivity.
  - reflexivity.
  - exact (vi_tree _ _ _ _ _ _ _ (ex_vinv ex_low (ex_hart_at 8) ex_low_below ex_low_bytes)).
  - apply ex_user_page; [reflexivity|unfold PGSIZE; lia|unfold PGSIZE; lia].
  - apply view_root.
  - reflexivity.
  - reflexivity.
  - reflexivity.
Defined.

(** C21: [sys_user_allocate_page] gives the process a page nobody used,
    readable and writable, at the address reclaimed last, or at the top of
    the heap when nothing is reclaimed; only then does the heap grow, and its
    region with it.  Every other translation stays.  It stops only in the
    allocator. *)
Theorem allocate_page_grows_heap {S} `{Allocator S} `{Harts S} lo hi `{!AllocatorSpec S lo hi} root n U T
    (s : kstate S) p x va v :
  vinv lo hi root n U T (km s) -> current s = Some p -> procs s !! p = Some x -> pagetable x = root ->
  0 <= free_pages_count (user_heap x) -> next_va (user_heap x) = Some va -> user_page va ->
  (0 < free_pages_count (user_heap x) -> va < heap_top (user_heap x)) ->
  pte_at T (memory (km s)) va = Some v -> bit_set v PTE_V = false ->
  region_kept lo hi T U (memory (km s)) (mapped_info x) ->
  wp sys_user_allocate_page (fun r s' => r = va /\ heap_grown lo hi root U T s p x va s') (fun h _ => h = al_stop) s.
Proof.
  intros HV Hc Hx Hroot Hn Hnext Hva Htop Hv Eb HR.
  apply (wp_allocate_page lo hi root n U T s p x va v); try done.
Qed.

Lemma allocate_page_grows_heap_witness :
  let s := ex_kernel (ex_kmem ex_low (ex_hart_at 8)) in
  wp sys_user_allocate_page
     (fun r s' => r = 4194304 /\
        heap_grown bump_lo bump_hi ex_root ex_used (root_table ex_root) s 0 (ex_process RUNNING None) 4194304 s')
     (fun h _ => h = al_stop) s.
Proof.
  pose proof (ex_vinv ex_low (ex_hart_at 8) ex_low_below ex_low_bytes) as HV.
  apply (allocate_page_grows_heap bump_lo bump_hi ex_root (bump_pages - 2) ex_used (root_table ex_root)
           (ex_kernel (ex_kmem ex_low (ex_hart_at 8))) 0 (ex_process RUNNING None) 4194304 0).
  - exact HV.
  - reflexivity.
  - reflexivity.
  - reflexivity.
  - cbn. lia.
  - reflexivity.
  - apply ex_user_page; [reflexivity|unfold PGSIZE; lia|unfold PGSIZE; lia].
  - cbn. lia.
  - apply view_root.
  - reflexivity.
  - split; [cbn; lia|split; [cbn; lia|split]].
    + apply arena_has_small. vm_compute. reflexivity.
    + apply kept_below; [|vm_compute; congruence]. intros π q Hq. apply root_table_lookup in Hq as [_ ->].
      left. vm_compute. congruence.
Defined.
