(* ===== verification/ExHost.v ===== *)
(** * A concrete host and program file for the examples

    The bump allocator beside a hart, and a host with one open file, at
    descriptor 5. *)
From stdpp Require Import base gmap list strings.
From Stdlib Require Import ZArith Lia.
From S2P Require Import Prelude Riscv PmmState Mem Str Vmm VmmProofs VmmSpec KernVm VmTheorems ProcState Sched Process Trap SchedProofs TrapProofs HeapProofs SpaceProofs AllocProcess Spike SpikeFile Elf Hosted ElfProofs ElfSpec ExKernel.

#[local] Arguments load_le : simpl never.
#[local] Arguments store_le : simpl never.

(** The low [k] bytes of [v]. *)
Definition le_bytes (k : Z) (v : Z) : list Z := (fun i => byte_of v i) <$> seqZ 0 k.

(** An ELF file: header, one loadable segment of four bytes, one note. *)
Definition ex_elf_header : list Z :=
  le_bytes 4 ELF_MAGIC ++ replicate 20 0 ++ le_bytes 8 65536 ++ le_bytes 8 64 ++ replicate 16 0 ++ le_bytes 2 2 ++ replicate 6 0.
Definition ex_phdr (type flags off va filesz memsz : Z) : list Z :=
  le_bytes 4 type ++ le_bytes 4 flags ++ le_bytes 8 off ++ le_bytes 8 va ++ replicate 8 0 ++ le_bytes 8 filesz ++ le_bytes 8 memsz ++ replicate 8 0.
Definition ex_file : list Z :=
  ex_elf_header ++ ex_phdr ELF_PROG_LOAD 5 176 65536 4 4 ++ ex_phdr 4 0 0 0 0 0 ++ [19; 0; 0; 0].

(** [l] at [b], where there is memory. *)
Definition put_bytes (b : Z) (l : list Z) (m : mem) : mem := if has_b m b (lenZ l) then mem_at b l ∪ m else m.

Lemma has_b_complete m a n : has m a n -> has_b m a n = true.
Proof.
  intros Hh. unfold has_b. apply forallb_forall. intros x Hx. rewrite <- list_elem_of_In, elem_of_seqZ in Hx. by destruct (Hh x Hx) as [c ->].
Qed.
Lemma put_bytes_has b l m : has m b (lenZ l) -> put_bytes b l m = mem_at b l ∪ m.
Proof. intros Hh. unfold put_bytes. by rewrite has_b_complete. Qed.

#[export] Instance ex_frontend : Frontend (Z * hart) :=
  {| fe_syscall n fd buf size off _ := fun k =>
       if (n =? HTIFSYS_pread) && (fd =? 5) then
         let l := piece off size ex_file in
         Ret (lenZ l) (mkKmem (heap k) (put_bytes buf l (memory k)) (g_kernel_pagetable k))
       else Ret (-1) k |}.

Lemma ex_file_bytes b : b ∈ ex_file -> 0 <= b < 256.
Proof.
  assert (Hf : forallb (fun b => (0 <=? b) && (b <? 256)) ex_file = true) by (vm_compute; reflexivity).
  rewrite forallb_forall in Hf. intros Hb. specialize (Hf b). rewrite <- list_elem_of_In in Hf. specialize (Hf Hb). lia.
Qed.

Lemma piece_bytes off size data b : (forall b, b ∈ data -> 0 <= b < 256) -> b ∈ piece off size data -> 0 <= b < 256.
Proof.
  intros Hd Hb. apply Hd. unfold piece in Hb. apply elem_of_take in Hb as (i & Hi & _). rewrite lookup_drop in Hi.
  by eapply list_elem_of_lookup_2.
Qed.

#[export] Program Instance ex_frontend_spec : FrontendSpec (Z * hart) bump_lo bump_hi :=
  {| fe_idle := fun _ => True; fe_scratch := fun _ => false;
     fe_files := fun _ fd => if fd =? 5 then Some ex_file else None; fe_same := fun _ _ => True |}.
Solve Obligations with try (intros; first [exact I | reflexivity | discriminate]).
Next Obligation. intros s fd data Hf. cbn in Hf. destruct (fd =? 5); [injection Hf as <-; exact ex_file_bytes|done]. Qed.
Next Obligation.
  intros k fd buf size off data _ Hf Hb Hh _ Hb0 Hb1 Hs Ho. cbn in Hf. destruct (Z.eqb_spec fd 5) as [->|]; [injection Hf as <-|done].
  unfold wp. cbn [fe_syscall ex_frontend]. change ((HTIFSYS_pread =? HTIFSYS_pread) && (5 =? 5)) with true. cbv iota zeta.
  set (l := piece off size ex_file). pose proof (piece_len off size ex_file ltac:(lia) ltac:(lia)) as Hl. fold l in Hl.
  rewrite (put_bytes_has buf l) by (intros x Hx; apply Hh; lia).
  assert (Hlb : forall b, b ∈ l -> 0 <= b < 256) by (intros b; apply piece_bytes, ex_file_bytes). clearbody l. cbn [heap memory].
  split_and!; try done.
  - intros x b. rewrite mem_at_union. destruct (inside_spec buf (lenZ l) x); [|apply Hb].
    intros Hx. apply Hlb. by eapply list_elem_of_lookup_2.
  - intros x Hx. rewrite mem_at_union. destruct (inside_spec buf (lenZ l) x); [|exact Hx]. apply lookup_lt_is_Some_2. unfold lenZ in *. lia.
  - intros i b Hi. pose proof (lookup_lt_Some _ _ _ Hi). rewrite mem_at_union. destruct (inside_spec buf (lenZ l) (buf + Z.of_nat i)); [|unfold lenZ in *; lia].
    by replace (Z.to_nat (buf + Z.of_nat i - buf)) with i by lia.
  - intros x Hx _. rewrite mem_at_union. by destruct (inside_spec buf (lenZ l) x).
Qed.

(** The loader's buffers, below the arena. *)
Definition ex_bufs : elf_bufs := mkElfBufs 4096 8192 12288.

(** What [elf_load] makes of the file. *)
Lemma ex_plan : elf_plan ex_file 2 64 = ([mkSeg 65536 176 4 5], EL_OK).
Proof. vm_compute. reflexivity. Qed.

Lemma ex_fit : segs_fit ex_file (fun _ => Some 0) [] [mkSeg 65536 176 4 5].
Proof.
  split; [|done| |].
  - intros sg ->%list_elem_of_singleton. split; cbn.
    + split; [done|]. rewrite MAXVA_val. vm_compute. split; intros; discriminate.
    + vm_compute. split; [intros; discriminate|done].
    + lia.
    + vm_compute. intros; discriminate.
    + by left.
  - intros sg _. by exists 0.
  - apply NoDup_singleton.
Qed.
