(* ===== verification/User.v ===== *)
(** * user/user_lib.c and the sample programs

    A user program talks to the kernel by [ecall] and is otherwise a
    computation over its own memory: an interaction tree whose events are the
    traps.  An event carries the argument registers a0 .. a7 and the memory of
    the process, which the kernel may read and change; the answer is the new a0
    and the new memory.  Several processes, fork included, are then trees side
    by side: parent and child are two continuations of one event. *)
From ITree Require Import Core.ITreeDefinition.
From stdpp Require Import base gmap list strings.
From Stdlib Require Import ZArith Lia.
From S2P Require Import Prelude Mem Str Snprintf Trap.

Inductive ecallE : Type -> Type :=
  | Ecall (regs : list Z) (m : mem) : ecallE (Z * mem).

(** One run of user code from a memory. *)
Definition process (A : Type) : Type := itree ecallE (outcome mem A).
Definition user (A : Type) : Type := mem -> process A.

Definition local {A} (c : M mem A) : user A := fun m => go (RetF (c m)).
Definition uret {A} (a : A) : user A := local (ret a).
Definition ubind {A B} (u : user A) (k : A -> user B) : user B := fun m =>
  ITree.bind (u m) (fun o =>
    match o with Ret a m' => k a m' | Halt h m' => go (RetF (Halt h m')) end).

Notation "'do*' x ':=' u 'in' k" := (ubind u (fun x => k))
  (at level 10, x name, u at level 100, k at level 200) : user_scope.
Notation "u ';*' k" := (ubind u (fun _ => k)) (at level 100, right associativity) : user_scope.
#[local] Open Scope user_scope.

(** The instruction: the kernel answers with a0 and a memory. *)
Definition ecall (regs : list Z) : user Z := fun m =>
  go (VisF (Ecall regs m) (fun r => go (RetF (Ret (fst r) (snd r))))).

(** [for (int i = 0; i < n; i++) x = body(i, x)] *)
Fixpoint ufor {X} (n : nat) (i : Z) (body : Z -> X -> user X) (x : X) : user X :=
  match n with
  | O => uret x
  | S n => do* x := body i x in ufor n (i + 1) body x
  end.

(** [slot] is the address of [ret] in the frame of [do_user_call], [out] that
    of the buffer in the frame of [printu]. *)
Section user_lib.
Context (slot out : Z).

(** [sw a0, %0] stores four bytes of the eight that are then returned. *)
Definition do_user_call (sysnum a1 a2 a3 a4 a5 a6 a7 : Z) : user Z :=
  do* a0 := ecall [sysnum; a1; a2; a3; a4; a5; a6; a7] in
  local (store32 slot (u32 a0)) ;*
  do* ret := local (load64 slot) in
  uret (s64 ret).

Definition printu (s : Z) (vl : list Z) : user Z :=
  do* res := local (vsnprintf out 256 s vl) in
  let n := if u64 res <? 256 then u64 res else 256 in
  do* r := do_user_call SYS_user_print out n 0 0 0 0 0 in
  uret (s32 r).

Definition exit (code : Z) : user Z :=
  do* r := do_user_call SYS_user_exit (u64 code) 0 0 0 0 0 0 in
  uret (s32 r).

(** A pointer is the 64-bit word of the signed result. *)
Definition naive_malloc : user Z :=
  do* r := do_user_call SYS_user_allocate_page 0 0 0 0 0 0 0 in
  uret (u64 r).

Definition naive_free (va : Z) : user unit :=
  do_user_call SYS_user_free_page va 0 0 0 0 0 0 ;* uret tt.

Definition fork : user Z :=
  do* r := do_user_call SYS_user_fork 0 0 0 0 0 0 0 in
  uret (s32 r).

Definition yield : user unit :=
  do_user_call SYS_user_yield 0 0 0 0 0 0 0 ;* uret tt.

Definition sem_new (value : Z) : user Z :=
  do* r := do_user_call SYS_user_sem_new (u64 value) 0 0 0 0 0 0 in
  uret (s32 r).

Definition sem_P (sem_id : Z) : user unit :=
  do_user_call SYS_user_sem_P (u64 sem_id) 0 0 0 0 0 0 ;* uret tt.

Definition sem_V (sem_id : Z) : user unit :=
  do_user_call SYS_user_sem_V (u64 sem_id) 0 0 0 0 0 0 ;* uret tt.

Definition printpa (va : Z) : user Z :=
  do* r := do_user_call SYS_user_printpa va 0 0 0 0 0 0 in
  uret (u64 r).

(** ** app_semaphore.c: the addresses of its two string literals, and [main].
    [child_sem] is written before it is read; an index is 0 or 1. *)
Section app_semaphore.
Context (child_text parent_text : Z).

Definition is_zero (pid : Z) : Z := if pid =? 0 then 1 else 0.

Definition child_turn (main_sem : Z) (child_sem : list Z) (pid i : Z) (_ : unit) : user unit :=
  sem_P (nth (Z.to_nat (is_zero pid)) child_sem 0) ;*
  printu child_text [is_zero pid; i] ;*
  if negb (pid =? 0) then sem_V (nth 1 child_sem 0) else sem_V main_sem.

Definition parent_turn (main_sem : Z) (child_sem : list Z) (i : Z) (_ : unit) : user unit :=
  sem_P main_sem ;*
  printu parent_text [i] ;*
  sem_V (nth 0 child_sem 0).

Definition app_semaphore_main : user Z :=
  do* main_sem := sem_new 1 in
  do* child_sem := ufor 2 0 (fun i l => do* v := sem_new 0 in uret (<[Z.to_nat i := v]> l)) [0; 0] in
  do* pid := fork in
  (if pid =? 0 then
     do* pid := fork in ufor 10 0 (child_turn main_sem child_sem pid) tt
   else ufor 10 0 (parent_turn main_sem child_sem) tt) ;*
  exit 0 ;*
  uret 0.
End app_semaphore.

(** ** app_semaphore2.c: the addresses of its four string literals. *)
Section app_semaphore2.
Context (product_text got_text working_text finished_text : Z).

Definition app_semaphore2_main : user Z :=
  do* sem_resouce := sem_new 0 in
  do* pid := fork in
  (if pid =? 0 then
     fork ;* printu product_text [] ;* sem_V sem_resouce
   else
     ufor 2 0 (fun i _ => sem_P sem_resouce ;* printu got_text [i] ;* uret tt) tt ;*
     printu working_text [] ;*
     sem_V sem_resouce ;* sem_V sem_resouce ;*
     printu finished_text [] ;* uret tt) ;*
  exit 0 ;*
  uret 0.
End app_semaphore2.
End user_lib.
