(* ===== verification/UserProofs.v ===== *)
(** * User programs as the kernel sees them

    [serve] is the kernel's side of the traps as the theorems about processes
    and traps describe it: print shows the string at the address passed, the
    three semaphore calls answer 0, fork appends a copy of the caller to the
    ready queue and answers 0 in the copy and its pid in the caller, exit drops
    the caller and continues with the head of the queue, and the machine is
    shut down when the queue is empty.  [follows] relates a program to the
    script of its actions; [plays] runs scripts. *)
From ITree Require Import Core.ITreeDefinition.
From stdpp Require Import base gmap list strings.
From Stdlib Require Import ZArith Lia.
From S2P Require Import Prelude Mem Str Snprintf ProcState Trap User.

#[local] Open Scope user_scope.

(** The string at [a], if it ends. *)
Fixpoint read_cstr (fuel : nat) (m : mem) (a : Z) : option (list Z) :=
  match fuel with
  | O => None
  | S fuel =>
      c ← m !! a; if c =? 0 then Some [] else l ← read_cstr fuel m (a + 1); Some (c :: l)
  end.

(** The calls of semaphores. *)
Definition quiet (a0 : Z) : bool := (a0 =? SYS_user_sem_new) || (a0 =? SYS_user_sem_P) || (a0 =? SYS_user_sem_V).
(** No conversion: the kernel passes the string to [sprint] as its format. *)
Definition no_conversion (text : list Z) : bool := forallb (fun c => negb (c =? 37)) text.

(** A text that [printu] passes on whole and the kernel shows as it is. *)
Definition printable (text : list Z) : bool :=
  no_conversion text && (lenZ text <? 256) && forallb (fun c => (0 <? c) && (c <? 256)) text.

(** [next] is the pid of the next child, [q] the running process and the ready
    queue, [console] what the programs have printed. *)
Fixpoint serve (fuel : nat) (next : Z) (q : list (process Z)) (console : list (list Z)) : option (list (list Z)) :=
  match fuel with
  | O => None
  | S fuel =>
      match q with
      | [] => Some console
      | t :: q =>
          match observe t with
          | RetF _ => None
          | TauF t => serve fuel next (t :: q) console
          | VisF e k =>
              match e in ecallE X return (X -> process Z) -> option (list (list Z)) with
              | Ecall regs m => fun k =>
                  let a0 := nth 0 regs 0 in
                  if a0 =? SYS_user_print then
                    text ← read_cstr (S (size m)) m (nth 1 regs 0);
                    if no_conversion text then serve fuel next (k (0, m) :: q) (console ++ [text]) else None
                  else if a0 =? SYS_user_exit then serve fuel next q console
                  else if a0 =? SYS_user_fork then
                    if next <? NPROC then serve fuel (next + 1) (k (next, m) :: q ++ [k (0, m)]) console else None
                  else if quiet a0 then serve fuel next (k (0, m) :: q) console
                  else None
              end k
          end
      end
  end.

(** ** Scripts *)
Inductive action := Print (text : list Z) | Spawn (child : list action).

Inductive follows {A} (Q : A -> mem -> list action -> Prop) : process A -> list action -> Prop :=
  | fo_ret t a m acts : observe t = RetF (Ret a m) -> Q a m acts -> follows Q t acts
  | fo_quiet t regs m k acts :
      observe t = VisF (Ecall regs m) k -> quiet (nth 0 regs 0) = true ->
      follows Q (k (0, m)) acts -> follows Q t acts
  | fo_print t regs m k text acts :
      observe t = VisF (Ecall regs m) k -> nth 0 regs 0 = SYS_user_print ->
      cstr m (nth 1 regs 0) text -> no_conversion text = true ->
      follows Q (k (0, m)) acts -> follows Q t (Print text :: acts)
  | fo_fork t regs m k child acts :
      observe t = VisF (Ecall regs m) k -> nth 0 regs 0 = SYS_user_fork ->
      follows Q (k (0, m)) child -> (forall pid, 0 < pid < NPROC -> follows Q (k (pid, m)) acts) ->
      follows Q t (Spawn child :: acts)
  | fo_exit t regs m k :
      observe t = VisF (Ecall regs m) k -> nth 0 regs 0 = SYS_user_exit -> follows Q t [].

(** A program that leaves by [exit]. *)
Definition ends {A} : A -> mem -> list action -> Prop := fun _ _ _ => False.

(** The processes of the queue run one after the other, each to its end; [n]
    of them are spawned. *)
Inductive plays : nat -> list (list action) -> list (list Z) -> Prop :=
  | play_done : plays 0 [] []
  | play_exit n q out : plays n q out -> plays n ([] :: q) out
  | play_print n text acts q out : plays n (acts :: q) out -> plays n ((Print text :: acts) :: q) (text :: out)
  | play_spawn n child acts q out : plays n (acts :: q ++ [child]) out -> plays (S n) ((Spawn child :: acts) :: q) out.

Lemma read_cstr_ok l : forall fuel m a, cstr m a l -> (length l < fuel)%nat -> read_cstr fuel m a = Some l.
Proof.
  induction l as [|c l IH]; intros [|fuel] m a Hc Hf; cbn in Hf; try lia; cbn [read_cstr].
  - apply cstr_nil in Hc. by rewrite Hc.
  - apply cstr_cons in Hc as (-> & Hr & Hc). cbn. rewrite (proj2 (Z.eqb_neq c 0)) by lia. by rewrite (IH _ _ _ Hc) by lia.
Qed.

Lemma printable_ok text : printable text = true ->
  no_conversion text = true /\ Z.of_nat (length text) < 256 /\ forall c, c ∈ text -> 0 < c < 256.
Proof.
  unfold printable, lenZ. intros [[H1 H2%Z.ltb_lt]%andb_prop H3]%andb_prop. split_and!; [done|lia|].
  intros c Hc%list_elem_of_In. rewrite forallb_forall in H3. specialize (H3 c Hc). lia.
Qed.

(** ** Rules for user code *)
Lemma observe_bind_ret {A B} (t : process A) (k : outcome mem A -> process B) o :
  observe t = RetF o -> observe (ITree.bind t k) = observe (k o).
Proof. unfold observe. intros Ht. cbn. unfold observe. by rewrite Ht. Qed.

Lemma observe_bind_vis {A B X} (t : process A) (k : outcome mem A -> process B) (e : ecallE X) h :
  observe t = VisF e h -> observe (ITree.bind t k) = VisF e (fun x => ITree.bind (h x) k).
Proof. unfold observe. intros Ht. cbn. unfold observe. by rewrite Ht. Qed.

Section rules.
Context {A : Type}.
Implicit Types (Q : A -> mem -> list action -> Prop).

Lemma follows_observe Q (t t' : process A) acts : observe t = observe t' -> follows Q t acts -> follows Q t' acts.
Proof.
  intros Ho H. destruct H; rewrite Ho in *.
  - by eapply fo_ret.
  - by eapply fo_quiet.
  - by eapply fo_print.
  - by eapply fo_fork.
  - by eapply fo_exit.
Qed.

Lemma follows_local Q (c : M mem A) m acts : wp c (fun a m' => Q a m' acts) no_stop m -> follows Q (local c m) acts.
Proof. intros (a & m' & Hc & HQ)%wp_returns. eapply fo_ret; [cbn; by rewrite Hc|done]. Qed.

Lemma follows_ubind {B} (u : user B) (k : B -> user A) Q m acts :
  follows (fun b m' acts' => follows Q (k b m') acts') (u m) acts -> follows Q (ubind u k m) acts.
Proof.
  unfold ubind. generalize (u m). clear u m. intros t H.
  induction H as [t a m acts Ho HQ|t regs m h acts Ho Hq _ IH|t regs m h text acts Ho Hp Hc Hn _ IH
                 |t regs m h child acts Ho Hf _ IHc _ IH|t regs m h Ho He].
  - eapply follows_observe; [|exact HQ]. symmetry. by rewrite (observe_bind_ret _ _ _ Ho).
  - eapply fo_quiet; [by apply observe_bind_vis|done|exact IH].
  - eapply fo_print; [by apply observe_bind_vis|done..|exact IH].
  - eapply fo_fork; [by apply observe_bind_vis|done|exact IHc|exact IH].
  - eapply fo_exit; [by apply observe_bind_vis|done].
Qed.

Lemma follows_mono Q Q' (t : process A) acts :
  follows Q t acts -> (forall a m acts, Q a m acts -> Q' a m acts) -> follows Q' t acts.
Proof.
  intros H HQ. induction H; [eapply fo_ret|eapply fo_quiet|eapply fo_print|eapply fo_fork|eapply fo_exit]; eauto.
Qed.

Lemma follows_uret (a : A) Q m acts : Q a m acts -> follows Q (uret a m) acts.
Proof. intros HQ. by apply follows_local. Qed.
End rules.

Lemma follows_ufor {X} (Inv : X -> mem -> Prop) (body : Z -> X -> user X) (f : Z -> list action) n :
  forall i x m Q rest, Inv x m ->
  (forall j x m rest, i <= j < i + Z.of_nat n -> Inv x m ->
     follows (fun x' m' acts => Inv x' m' /\ acts = rest) (body j x m) (f j ++ rest)) ->
  (forall x' m', Inv x' m' -> Q x' m' rest) ->
  follows Q (ufor n i body x m) (concat (map f (seqZ i (Z.of_nat n))) ++ rest).
Proof.
  induction n as [|n IH]; intros i x m Q rest Hi Hb HQ; cbn [ufor].
  - by apply follows_uret, HQ.
  - rewrite seqZ_cons by lia. cbn [map concat]. rewrite <- app_assoc. apply follows_ubind.
    replace (Z.pred (Z.of_nat (S n))) with (Z.of_nat n) by lia. rewrite <- Z.add_1_r.
    eapply follows_mono; [apply Hb; [lia|done]|]. intros x' m' acts [Hi' ->].
    apply IH; [done| |done]. intros j y m1 r Hj. apply Hb. lia.
Qed.

(** ** Scripts against the kernel *)
Definition runs (next : Z) (q : list (process Z)) (console out : list (list Z)) : Prop :=
  exists fuel, serve fuel next q console = Some out.

(** What a program that follows a script does after some semaphore calls. *)
Inductive stands (t : process Z) : list action -> Prop :=
  | st_quiet regs m k acts :
      observe t = VisF (Ecall regs m) k -> quiet (nth 0 regs 0) = true -> stands (k (0, m)) acts -> stands t acts
  | st_exit regs m k : observe t = VisF (Ecall regs m) k -> nth 0 regs 0 = SYS_user_exit -> stands t []
  | st_print regs m k text acts :
      observe t = VisF (Ecall regs m) k -> nth 0 regs 0 = SYS_user_print ->
      cstr m (nth 1 regs 0) text -> no_conversion text = true ->
      follows ends (k (0, m)) acts -> stands t (Print text :: acts)
  | st_fork regs m k child acts :
      observe t = VisF (Ecall regs m) k -> nth 0 regs 0 = SYS_user_fork ->
      follows ends (k (0, m)) child -> (forall pid, 0 < pid < NPROC -> follows ends (k (pid, m)) acts) ->
      stands t (Spawn child :: acts).

Lemma follows_stands t acts : follows ends t acts -> stands t acts.
Proof. intros H. induction H; [done|eapply st_quiet|eapply st_print|eapply st_fork|eapply st_exit]; eauto. Qed.

Lemma quiet_kind a0 : quiet a0 = true ->
  (a0 =? SYS_user_print) = false /\ (a0 =? SYS_user_exit) = false /\ (a0 =? SYS_user_fork) = false.
Proof.
  unfold quiet, SYS_user_sem_new, SYS_user_sem_P, SYS_user_sem_V, SYS_user_print, SYS_user_exit, SYS_user_fork, SYS_user_base.
  intros H. apply orb_prop in H as [H|H]; [apply orb_prop in H as [H|H]|]; apply Z.eqb_eq in H as ->; done.
Qed.

(** One step of the kernel's side. *)
Lemma runs_trap next t regs m k q console out :
  observe t = VisF (Ecall regs m) k ->
  (let a0 := nth 0 regs 0 in
   if a0 =? SYS_user_print then exists text, cstr m (nth 1 regs 0) text /\ no_conversion text = true /\
     runs next (k (0, m) :: q) (console ++ [text]) out
   else if a0 =? SYS_user_exit then runs next q console out
   else if a0 =? SYS_user_fork then next < NPROC /\ runs (next + 1) (k (next, m) :: q ++ [k (0, m)]) console out
   else quiet a0 = true /\ runs next (k (0, m) :: q) console out) ->
  runs next (t :: q) console out.
Proof.
  intros Ho. cbn zeta. unfold runs. destruct (nth 0 regs 0 =? SYS_user_print) eqn:E1;
    [|destruct (nth 0 regs 0 =? SYS_user_exit) eqn:E2; [|destruct (nth 0 regs 0 =? SYS_user_fork) eqn:E3]].
  - intros (text & Hc & Hn & fuel & Hf). exists (S fuel). cbn [serve]. rewrite Ho. cbn zeta. rewrite E1.
    rewrite (read_cstr_ok _ _ _ _ Hc) by exact (cstr_fuel _ _ _ Hc). cbn. by rewrite Hn.
  - intros (fuel & Hf). exists (S fuel). cbn [serve]. rewrite Ho. cbn zeta. by rewrite E1, E2.
  - intros (Hn & fuel & Hf). exists (S fuel). cbn [serve]. rewrite Ho. cbn zeta. rewrite E1, E2, E3.
    by rewrite (proj2 (Z.ltb_lt _ _) Hn).
  - intros (Hq & fuel & Hf). exists (S fuel). cbn [serve]. rewrite Ho. cbn zeta. by rewrite E1, E2, E3, Hq.
Qed.

Lemma runs_exit next t q console out :
  stands t [] -> runs next q console out -> runs next (t :: q) console out.
Proof.
  intros H Hr. remember [] as acts eqn:E.
  induction H as [t regs m k acts Ho Hq _ IH|t regs m k Ho Ha| |]; try discriminate; eapply runs_trap; try exact Ho; cbn zeta.
  - destruct (quiet_kind _ Hq) as (-> & -> & ->). split; [done|]. by apply IH.
  - by rewrite Ha.
Qed.

Lemma runs_print next t text acts q console out :
  stands t (Print text :: acts) ->
  (forall t', follows ends t' acts -> runs next (t' :: q) (console ++ [text]) out) -> runs next (t :: q) console out.
Proof.
  intros H Hr. remember (Print text :: acts) as l eqn:E.
  induction H as [t regs m k acts' Ho Hq _ IH| |t regs m k text' acts' Ho Ha Hc Hn Hf|];
    try discriminate; eapply runs_trap; try exact Ho; cbn zeta.
  - destruct (quiet_kind _ Hq) as (-> & -> & ->). split; [done|]. by apply IH.
  - injection E as -> ->. rewrite Ha. exists text. split_and!; [done..|]. by apply Hr.
Qed.

Lemma runs_fork next t child acts q console out :
  stands t (Spawn child :: acts) -> 0 < next < NPROC ->
  (forall t' c, follows ends t' acts -> follows ends c child -> runs (next + 1) (t' :: q ++ [c]) console out) ->
  runs next (t :: q) console out.
Proof.
  intros H Hn Hr. remember (Spawn child :: acts) as l eqn:E.
  induction H as [t regs m k acts' Ho Hq _ IH| | |t regs m k child' acts' Ho Ha Hc Hf];
    try discriminate; eapply runs_trap; try exact Ho; cbn zeta.
  - destruct (quiet_kind _ Hq) as (-> & -> & ->). split; [done|]. by apply IH.
  - injection E as -> ->. rewrite Ha. split; [lia|]. apply Hr; auto.
Qed.

(** Processes that follow scripts print what the scripts play. *)
Lemma plays_runs n scripts out : plays n scripts out ->
  forall next q console, 0 < next -> next + Z.of_nat n <= NPROC -> Forall2 (follows ends) q scripts ->
  runs next q console (console ++ out).
Proof.
  induction 1 as [|n scripts out _ IH|n text acts scripts out _ IH|n child acts scripts out _ IH];
    intros next q console H0 Hn Hq.
  - apply Forall2_nil_inv_r in Hq as ->. exists 1%nat. by rewrite app_nil_r.
  - apply Forall2_cons_inv_r in Hq as (t & q' & Ht & Hq & ->). by eapply runs_exit, IH; [apply follows_stands|..].
  - apply Forall2_cons_inv_r in Hq as (t & q' & Ht & Hq & ->). eapply runs_print; [by apply follows_stands|].
    intros t' Ht'. replace (console ++ text :: out) with ((console ++ [text]) ++ out) by by rewrite <- app_assoc.
    apply IH; [done|done|]. by constructor.
  - apply Forall2_cons_inv_r in Hq as (t & q' & Ht & Hq & ->). eapply runs_fork; [by apply follows_stands|lia|].
    intros t' c Ht' Hc. apply IH; [lia|lia|]. constructor; [done|]. apply Forall2_app; [done|]. by constructor.
Qed.

(** ** The library *)
(** The two buffers on the stack of the program are objects, apart. *)
Section library.
Context (slot out : Z).

Definition in_frames (x : Z) : bool := inside slot 8 x || inside out 256 x.

(** Only the frames of the library changed. *)
Record scratch (m m' : mem) : Prop := {
  sc_same x : in_frames x = false -> m' !! x = m !! x;
  sc_has x : is_Some (m !! x) -> is_Some (m' !! x)
}.

(** A program image: room on the stack and the string literals [strs], which
    the stack does not overlap. *)
Record image (strs : list (Z * list Z)) (m : mem) : Prop := {
  im_out : room m out 256;
  im_slot : has m slot 8;
  im_sep : slot + 8 <= out \/ out + 256 <= slot;
  im_strs a l : (a, l) ∈ strs ->
    cstr m a l /\ 0 <= a /\ a + Z.of_nat (length l) < 2 ^ 64 /\
    forall x, a <= x <= a + Z.of_nat (length l) -> in_frames x = false
}.

Lemma scratch_refl m : scratch m m.
Proof. by split. Qed.

Lemma scratch_trans m1 m2 m3 : scratch m1 m2 -> scratch m2 m3 -> scratch m1 m3.
Proof.
  intros [A1 B1] [A2 B2]. split; [|by eauto]. intros x Hx. by rewrite A2, A1.
Qed.

Lemma scratch_upd m m' P f : upd m m' P f -> (forall x, P x = true -> in_frames x = true) -> scratch m m'.
Proof.
  intros Hu HP. split; intros x Hx; rewrite Hu; destruct (P x) eqn:E; eauto.
  rewrite (HP x E) in Hx. discriminate.
Qed.

Lemma scratch_image strs m m' : scratch m m' -> image strs m -> image strs m'.
Proof.
  intros [S1 S2] [I1 I2 I3 I4]. split.
  - destruct I1 as [R1 R2 R3 R4]. split; [done..|]. intros x Hx. by apply S2, R4.
  - intros x Hx. by apply S2, I2.
  - done.
  - intros a l Hal. destruct (I4 a l Hal) as (C & A0 & A1 & D). split_and!; [|done..].
    eapply cstr_frame; [exact C|]. intros x Hx. by apply S1, D.
Qed.

(** The four bytes stored are the low half of what is returned. *)
Lemma s32_low lo hi : s32 (s64 (lo mod 2 ^ 32 + 2 ^ 32 * hi)) = s32 lo.
Proof. unfold s32, s64. zlia. Qed.

Lemma load_le_split n k : forall a m lo hi,
  load_le n a m = Some lo -> load_le k (a + Z.of_nat n) m = Some hi ->
  load_le (n + k) a m = Some (lo + 2 ^ (8 * Z.of_nat n) * hi).
Proof.
  induction n as [|n IH]; intros a m lo hi Hl Hh; cbn [load_le Nat.add] in *.
  - injection Hl as <-. rewrite Z.add_0_r in Hh. rewrite Hh. f_equal. cbn. lia.
  - destruct (m !! a) as [b|]; [|discriminate]. cbn in *. destruct (load_le n (a + 1) m) as [r|] eqn:E; [|discriminate].
    injection Hl as <-. replace (a + Z.of_nat (S n)) with (a + 1 + Z.of_nat n) in Hh by lia.
    rewrite (IH _ _ _ _ E Hh). cbn. f_equal.
    replace (8 * Z.of_nat (S n)) with (8 + 8 * Z.of_nat n) by lia. rewrite Z.pow_add_r by lia. lia.
Qed.

Lemma frame_apart a (t : list Z) :
  (forall x, a <= x <= a + Z.of_nat (length t) -> in_frames x = false) ->
  a + Z.of_nat (length t) < out \/ out + 256 <= a.
Proof.
  intros Hin. pose proof (Hin a ltac:(lia)) as H1.
  pose proof (Hin (Z.max a (Z.min out (a + Z.of_nat (length t)))) ltac:(lia)) as H2.
  unfold in_frames in H1, H2. apply orb_false_elim in H1 as [_ H1], H2 as [_ H2].
  destruct (inside_spec out 256 a), (inside_spec out 256 (Z.max a (Z.min out (a + Z.of_nat (length t)))));
    (discriminate || lia).
Qed.

Lemma buffer_cstr m m' r : (forall c, c ∈ r -> 0 < c < 256) ->
  upd m m' (inside out (Z.of_nat (length (r ++ [0])))) (fun x => nth (Z.to_nat (x - out)) (r ++ [0]) 0) -> cstr m' out r.
Proof.
  intros Hc Hu. rewrite length_app in Hu. cbn [length] in Hu. split; [|exact Hc|].
  - intros i c Hi. pose proof (lookup_lt_Some _ _ _ Hi). rewrite Hu.
    destruct (inside_spec out (Z.of_nat (length r + 1)) (out + Z.of_nat i)); [|lia]. f_equal.
    replace (Z.to_nat _) with i by lia. apply nth_lookup_Some. by apply lookup_app_l_Some.
  - rewrite Hu. destruct (inside_spec out (Z.of_nat (length r + 1)) (out + Z.of_nat (length r))); [|lia]. f_equal.
    replace (Z.to_nat _) with (length r) by lia. rewrite app_nth2 by lia. by rewrite Nat.sub_diag.
Qed.

Section calls.
Context (Q : Z -> mem -> list action -> Prop).

(** [do_user_call] comes back with the answer [a0], up to its high half. *)
Definition answered (a0 : Z) (m : mem) (acts : list action) : Prop :=
  forall v m', s32 v = s32 a0 -> scratch m m' -> Q v m' acts.

Lemma follows_answer a0 m acts : has m slot 8 -> answered a0 m acts ->
  follows Q ((local (store32 slot (u32 a0)) ;* do* ret := local (load64 slot) in uret (s64 ret)) m) acts.
Proof.
  intros Hs HQ. apply follows_ubind, follows_local. apply wp_store; [intros x Hx; apply Hs; lia|].
  intros m1 S1 U1. apply follows_ubind, follows_local.
  destruct (load_le_has 4 (slot + Z.of_nat 4) m1) as [hi Hh].
  { eapply upd_has; [exact U1|]. intros x Hx. apply Hs. lia. }
  eapply wp_load; [exact (load_le_split 4 4 _ _ _ _ (load_store_same _ _ _ _ _ S1) Hh)|].
  apply follows_uret, HQ.
  - rewrite s32_low. unfold u32, s32. zlia.
  - eapply scratch_upd; [exact U1|]. intros x. unfold in_frames.
    destruct (inside_spec slot (Z.of_nat 4) x), (inside_spec slot 8 x); (done || lia).
Qed.

Lemma follows_quiet sysnum a1 m acts :
  quiet sysnum = true -> has m slot 8 -> answered 0 m acts ->
  follows Q (do_user_call slot sysnum a1 0 0 0 0 0 0 m) acts.
Proof.
  intros Hq Hs Hk. apply follows_ubind. eapply fo_quiet; [done..|]. eapply fo_ret; [done|]. by apply follows_answer.
Qed.

Lemma follows_print_call a1 n text m acts :
  cstr m a1 text -> no_conversion text = true -> has m slot 8 -> answered 0 m acts ->
  follows Q (do_user_call slot SYS_user_print a1 n 0 0 0 0 0 m) (Print text :: acts).
Proof.
  intros Hc Hn Hs Hk. apply follows_ubind. eapply fo_print; [done..|]. eapply fo_ret; [done|]. by apply follows_answer.
Qed.

Lemma follows_fork_call m child acts :
  has m slot 8 -> answered 0 m child -> (forall pid, 0 < pid < NPROC -> answered pid m acts) ->
  follows Q (do_user_call slot SYS_user_fork 0 0 0 0 0 0 0 m) (Spawn child :: acts).
Proof.
  intros Hs Hc Hk. apply follows_ubind. eapply fo_fork; [done..| |].
  - eapply fo_ret; [done|]. by apply follows_answer.
  - intros pid Hp. eapply fo_ret; [done|]. apply follows_answer; [done|]. by apply Hk.
Qed.

Lemma follows_exit_call a1 m : follows Q (do_user_call slot SYS_user_exit a1 0 0 0 0 0 0 m) [].
Proof. apply follows_ubind. by eapply fo_exit. Qed.
End calls.

(** ** Calls from an image to an image *)
Section image.
Context (strs : list (Z * list Z)).

Definition kept {A} (Q : A -> mem -> list action -> Prop) (a : A) (m : mem) (acts : list action) : Prop :=
  forall m', scratch m m' -> image strs m' -> Q a m' acts.

(** [printu] of a text that fits its buffer. *)
Lemma follows_printu (Q : Z -> mem -> list action -> Prop) s fmt args r m acts :
  image strs m -> (s, fmt) ∈ strs -> (forall a t, AStr a t ∈ args -> (a, t) ∈ strs) ->
  render fmt false false args = Some r -> printable r = true -> kept Q 0 m acts ->
  follows Q (printu slot out s (raw <$> args) m) (Print r :: acts).
Proof.
  intros HI Hs Ha Hr (Hn & Hl & Hc)%printable_ok Hk. pose proof HI as [I1 I2 I3 I4].
  destruct (I4 _ _ Hs) as (C & S0 & S1 & D).
  apply follows_ubind, follows_local. eapply wp_vsnprintf; [exact I1|exact C|done|done|by apply frame_apart| |exact Hr|lia|by left|].
  { apply Forall_forall. intros [z|a t] Hin; [done|]. destruct (I4 _ _ (Ha _ _ Hin)) as (C' & A0 & A1 & D').
    cbn. split_and!; [done..|by apply frame_apart]. }
  intros m1 U1.
  assert (Et : truncated 256 r = r ++ [0]) by (unfold truncated; cbn; by rewrite firstn_all2 by lia).
  assert (HS : scratch m m1).
  { eapply scratch_upd; [exact U1|]. intros x. unfold in_frames. rewrite Et, length_app. cbn [length].
    destruct (inside_spec out (Z.of_nat (length r + 1)) x), (inside_spec out 256 x); (lia || by rewrite orb_true_r). }
  rewrite u64_id by (unfold is_u64; lia). rewrite (proj2 (Z.ltb_lt _ _) Hl). cbv zeta.
  pose proof (scratch_image _ _ _ HS HI) as HI1.
  apply follows_ubind, follows_print_call; [|exact Hn|exact (im_slot _ _ HI1)|].
  - rewrite Et in U1. by eapply buffer_cstr.
  - intros v m2 Hv HS2. apply follows_uret. rewrite Hv. apply Hk; [by eapply scratch_trans|by eapply scratch_image].
Qed.

Lemma follows_sem_new (Q : Z -> mem -> list action -> Prop) value m acts :
  image strs m -> kept Q 0 m acts -> follows Q (sem_new slot value m) acts.
Proof.
  intros HI Hk. apply follows_ubind, follows_quiet; [done|exact (im_slot _ _ HI)|].
  intros v m' Hv HS. apply follows_uret. rewrite Hv. apply Hk; [done|by eapply scratch_image].
Qed.

Lemma follows_sem_P (Q : unit -> mem -> list action -> Prop) id m acts :
  image strs m -> kept Q tt m acts -> follows Q (sem_P slot id m) acts.
Proof.
  intros HI Hk. apply follows_ubind, follows_quiet; [done|exact (im_slot _ _ HI)|].
  intros v m' Hv HS. apply follows_uret, Hk; [done|by eapply scratch_image].
Qed.

Lemma follows_sem_V (Q : unit -> mem -> list action -> Prop) id m acts :
  image strs m -> kept Q tt m acts -> follows Q (sem_V slot id m) acts.
Proof.
  intros HI Hk. apply follows_ubind, follows_quiet; [done|exact (im_slot _ _ HI)|].
  intros v m' Hv HS. apply follows_uret, Hk; [done|by eapply scratch_image].
Qed.

Lemma follows_fork (Q : Z -> mem -> list action -> Prop) m child acts :
  image strs m -> kept Q 0 m child -> (forall pid, 0 < pid < NPROC -> kept Q pid m acts) ->
  follows Q (fork slot m) (Spawn child :: acts).
Proof.
  intros HI Hc Hk. apply follows_ubind, follows_fork_call; [exact (im_slot _ _ HI)| |].
  - intros v m' Hv HS. apply follows_uret. rewrite Hv. apply Hc; [done|by eapply scratch_image].
  - intros pid Hp v m' Hv HS. apply follows_uret. rewrite Hv, s32_id by (unfold NPROC in Hp; lia).
    apply Hk; [done..|by eapply scratch_image].
Qed.

Lemma follows_exit (Q : Z -> mem -> list action -> Prop) code m : follows Q (exit slot code m) [].
Proof. apply follows_ubind, follows_exit_call. Qed.
End image.
End library.
