(* ===== verification/UserTheorems.v ===== *)
(** * The sample programs

    app_semaphore.c and app_semaphore2.c on the kernel as it is: the semaphore
    calls answer 0 at once, so that nobody waits. *)
From ITree Require Import Core.ITreeDefinition.
From stdpp Require Import base gmap list strings.
From Stdlib Require Import ZArith Lia Ascii.
From S2P Require Import Prelude Mem Str Snprintf ProcState Trap User UserProofs.

#[local] Open Scope user_scope.

(** The bytes of a string, and of a line. *)
Definition bytes_of (s : string) : list Z := (fun c => Z.of_N (N_of_ascii c)) <$> String.list_ascii_of_string s.
Definition line (s : string) : list Z := bytes_of s ++ [10].

(** ** app_semaphore.c *)
Definition app_semaphore_strs (child_text parent_text : Z) : list (Z * list Z) :=
  [(child_text, line "Child%d print %d"); (parent_text, line "Parent print %d")].

Definition child_line (who i : Z) : list Z := bytes_of "Child" ++ decimal who ++ bytes_of " print " ++ decimal i ++ [10].
Definition parent_line (i : Z) : list Z := bytes_of "Parent print " ++ decimal i ++ [10].

(** Ten rounds of a line. *)
Definition rounds (f : Z -> list Z) : list (list Z) := map f (seqZ 0 10).
Definition round_script (f : Z -> list Z) : list action := concat (map (fun i => [Print (f i)]) (seqZ 0 10)) ++ [].

(** A format renders to a text the kernel shows, for each round. *)
Definition renders (fmt : list Z) (args : Z -> list arg) (f : Z -> list Z) (n : Z) : bool :=
  forallb (fun i => bool_decide (render fmt false false (args i) = Some (f i)) && printable (f i)) (seqZ 0 n).

Lemma renders_at fmt args f n i : renders fmt args f n = true -> 0 <= i < n ->
  render fmt false false (args i) = Some (f i) /\ printable (f i) = true.
Proof.
  unfold renders. rewrite forallb_forall. intros H Hi.
  destruct (andb_prop _ _ (H i ltac:(apply list_elem_of_In, elem_of_seqZ; lia))) as [H1%bool_decide_eq_true H2]. done.
Qed.

Lemma ints_only (zs : list Z) (strs : list (Z * list Z)) a t : AStr a t ∈ map AInt zs -> (a, t) ∈ strs.
Proof. intros (z & E & _)%list_elem_of_In%in_map_iff. discriminate. Qed.

Section programs.
Context (slot out : Z).

Section app_semaphore.
Context (child_text parent_text : Z).
Abbreviation strs := (app_semaphore_strs child_text parent_text).

Lemma child_loop main_sem child_sem pid (Q : unit -> mem -> list action -> Prop) m :
  image slot out strs m -> (forall m', image slot out strs m' -> Q tt m' []) ->
  follows Q (ufor 10 0 (child_turn slot out child_text main_sem child_sem pid) tt m)
    (round_script (child_line (is_zero pid))).
Proof.
  intros HI HQ. apply (follows_ufor (fun _ => image slot out strs)); [done| |by intros []; apply HQ].
  intros i [] m1 rest Hi HI1. unfold child_turn.
  assert (Hr : renders (line "Child%d print %d") (fun i => [AInt (is_zero pid); AInt i]) (child_line (is_zero pid)) 10 = true)
    by (unfold is_zero; destruct (pid =? 0); vm_compute; reflexivity).
  destruct (renders_at _ _ _ _ i Hr ltac:(lia)) as [Hr1 Hr2].
  apply follows_ubind, (follows_sem_P slot out strs); [done|]. intros m2 _ HI2. apply follows_ubind.
  eapply (follows_printu slot out strs _ _ _ [AInt (is_zero pid); AInt i]);
    [exact HI2|apply list_elem_of_here|exact (ints_only [_; _] _)|exact Hr1|exact Hr2|].
  intros m3 _ HI3. by destruct (pid =? 0); apply (follows_sem_V slot out strs).
Qed.

Lemma parent_loop main_sem child_sem (Q : unit -> mem -> list action -> Prop) m :
  image slot out strs m -> (forall m', image slot out strs m' -> Q tt m' []) ->
  follows Q (ufor 10 0 (parent_turn slot out parent_text main_sem child_sem) tt m) (round_script parent_line).
Proof.
  intros HI HQ. apply (follows_ufor (fun _ => image slot out strs)); [done| |by intros []; apply HQ].
  intros i [] m1 rest Hi HI1. unfold parent_turn.
  assert (Hr : renders (line "Parent print %d") (fun i => [AInt i]) parent_line 10 = true) by (vm_compute; reflexivity).
  destruct (renders_at _ _ _ _ i Hr ltac:(lia)) as [Hr1 Hr2].
  apply follows_ubind, (follows_sem_P slot out strs); [done|]. intros m2 _ HI2. apply follows_ubind.
  eapply (follows_printu slot out strs _ _ _ [AInt i]);
    [exact HI2|apply list_elem_of_further, list_elem_of_here|exact (ints_only [_] _)|exact Hr1|exact Hr2|].
  intros m3 _ HI3. by apply (follows_sem_V slot out strs).
Qed.

Lemma app_semaphore_script m : image slot out strs m ->
  follows ends (app_semaphore_main slot out child_text parent_text m)
    (Spawn (Spawn (round_script (child_line 1)) :: round_script (child_line 0)) :: round_script parent_line).
Proof.
  intros HI. apply follows_ubind, (follows_sem_new slot out strs); [done|]. intros m1 _ HI1. apply follows_ubind.
  cbn [ufor]. apply follows_ubind, follows_ubind, (follows_sem_new slot out strs); [done|]. intros m2 _ HI2.
  apply follows_uret, follows_ubind, follows_ubind, (follows_sem_new slot out strs); [done|]. intros m3 _ HI3.
  apply follows_uret, follows_uret, follows_ubind, (follows_fork slot out strs); [done| |].
  - intros m4 _ HI4. apply follows_ubind. change (0 =? 0) with true. cbv iota.
    apply follows_ubind, (follows_fork slot out strs); [done| |].
    + intros m5 _ HI5. change (child_line 1) with (child_line (is_zero 0)). apply child_loop; [done|]. intros m6 HI6. apply follows_ubind, follows_exit.
    + intros pid Hp m5 _ HI5. replace (child_line 0) with (child_line (is_zero pid))
        by (unfold is_zero; rewrite (proj2 (Z.eqb_neq pid 0)) by lia; done).
      apply child_loop; [done|]. intros m6 HI6. apply follows_ubind, follows_exit.
  - intros pid Hp m4 _ HI4. apply follows_ubind. rewrite (proj2 (Z.eqb_neq pid 0)) by lia.
    apply parent_loop; [done|]. intros m5 HI5. apply follows_ubind, follows_exit.
Qed.
End app_semaphore.

(** ** app_semaphore2.c *)
Section app_semaphore2.
Context (product_text got_text working_text finished_text : Z).

Definition app_semaphore2_strs : list (Z * list Z) :=
  [(product_text, line "Product resource"); (got_text, line "Parent got %d source");
   (working_text, line "Parent working"); (finished_text, line "Finished")].
Abbreviation strs := app_semaphore2_strs.

Definition got_line (i : Z) : list Z := bytes_of "Parent got " ++ decimal i ++ bytes_of " source" ++ [10].

(** A line without arguments. *)
Lemma follows_line (Q : Z -> mem -> list action -> Prop) s l m acts :
  image slot out strs m -> (s, l) ∈ strs -> render l false false [] = Some l -> printable l = true ->
  kept slot out strs Q 0 m acts -> follows Q (printu slot out s [] m) (Print l :: acts).
Proof.
  intros HI Hs Hr Hp HQ. eapply (follows_printu slot out strs _ s l []); [done|done| |done..].
  intros a t Ha. by apply elem_of_nil in Ha.
Qed.

Lemma got_loop sem (Q : unit -> mem -> list action -> Prop) m rest :
  image slot out strs m -> (forall m', image slot out strs m' -> Q tt m' rest) ->
  follows Q (ufor 2 0 (fun i _ => sem_P slot sem ;* printu slot out got_text [i] ;* uret tt) tt m)
    (Print (got_line 0) :: Print (got_line 1) :: rest).
Proof.
  intros HI HQ. apply (follows_ufor (fun _ => image slot out strs) _ (fun i => [Print (got_line i)]) 2 0); [done| |by intros []; apply HQ].
  intros i [] m1 r Hi HI1.
  assert (Hr : renders (line "Parent got %d source") (fun i => [AInt i]) got_line 2 = true) by (vm_compute; reflexivity).
  destruct (renders_at _ _ _ _ i Hr ltac:(lia)) as [Hr1 Hr2].
  apply follows_ubind, (follows_sem_P slot out strs); [done|]. intros m2 _ HI2. apply follows_ubind.
  eapply (follows_printu slot out strs _ _ _ [AInt i]);
    [exact HI2|apply list_elem_of_further, list_elem_of_here|exact (ints_only [_] _)|exact Hr1|exact Hr2|].
  intros m3 _ HI3. by apply follows_uret.
Qed.

Definition product_script : list action := [Print (line "Product resource")].

Lemma product_turn sem (Q : unit -> mem -> list action -> Prop) m :
  image slot out strs m -> (forall m', Q tt m' []) ->
  follows Q ((printu slot out product_text [] ;* sem_V slot sem) m) product_script.
Proof.
  intros HI HQ. apply follows_ubind. apply follows_line; [done|apply list_elem_of_here|vm_compute; reflexivity..|].
  intros m1 _ HI1. apply (follows_sem_V slot out strs); [done|]. intros m2 _ _. apply HQ.
Qed.

Lemma parent_work sem (Q : unit -> mem -> list action -> Prop) m :
  image slot out strs m -> (forall m', Q tt m' []) ->
  follows Q ((printu slot out working_text [] ;* sem_V slot sem ;* sem_V slot sem ;*
              printu slot out finished_text [] ;* uret tt) m)
    [Print (line "Parent working"); Print (line "Finished")].
Proof.
  intros HI HQ. apply follows_ubind.
  apply follows_line; [done|do 2 apply list_elem_of_further; apply list_elem_of_here|vm_compute; reflexivity..|].
  intros m1 _ HI1. do 2 (apply follows_ubind, (follows_sem_V slot out strs); [done|]; intros ? _ ?).
  apply follows_ubind. apply follows_line; [done|do 3 apply list_elem_of_further; apply list_elem_of_here|vm_compute; reflexivity..|].
  intros m4 _ HI4. by apply follows_uret.
Qed.

Lemma app_semaphore2_script m : image slot out strs m ->
  follows ends (app_semaphore2_main slot out product_text got_text working_text finished_text m)
    (Spawn (Spawn product_script :: product_script) ::
     Print (got_line 0) :: Print (got_line 1) :: [Print (line "Parent working"); Print (line "Finished")]).
Proof.
  intros HI. apply follows_ubind, (follows_sem_new slot out strs); [done|]. intros m1 _ HI1.
  apply follows_ubind, (follows_fork slot out strs); [done| |].
  - intros m2 _ HI2. apply follows_ubind. change (0 =? 0) with true. cbv iota.
    apply follows_ubind, (follows_fork slot out strs); [done| |];
      [intros m3 _ HI3|intros _ _ m3 _ HI3]; (apply product_turn; [done|]; intros m4; apply follows_ubind, follows_exit).
  - intros pid Hp m2 _ HI2. apply follows_ubind. rewrite (proj2 (Z.eqb_neq pid 0)) by lia.
    apply follows_ubind, got_loop; [done|]. intros m3 HI3. apply parent_work; [done|].
    intros m4. apply follows_ubind, follows_exit.
Qed.
End app_semaphore2.
End programs.

(** ** Theorems *)
Lemma plays_prints n texts rest q out :
  plays n (rest :: q) out -> plays n ((map Print texts ++ rest) :: q) (texts ++ out).
Proof. intros H. induction texts as [|x texts IH]; cbn; [done|by constructor]. Qed.

Lemma plays_rounds n f q out : plays n q out -> plays n (round_script f :: q) (rounds f ++ out).
Proof. intros H. replace (round_script f) with (map Print (rounds f) ++ []) by done. by apply plays_prints, play_exit. Qed.

(** A program with a script, from its start. *)
Lemma program_runs n t script out :
  follows ends t script -> plays n [script] out -> 1 + Z.of_nat n <= NPROC -> exists fuel, serve fuel 1 [t] [] = Some out.
Proof.
  intros Ht Hp Hn. apply (plays_runs n [script] out Hp 1 [t] []); [lia|done|]. by constructor.
Qed.

Definition ex_frames : mem := mem_at 8192 (replicate 8 170) ∪ mem_at 8448 (replicate 256 85).
Definition ex_app : mem :=
  mem_at 4096 (line "Child%d print %d" ++ [0]) ∪ mem_at 4160 (line "Parent print %d" ++ [0]) ∪ ex_frames.

Lemma ex_str m a l : a + Z.of_nat (length l) < 8192 -> 0 <= a ->
  cstr_b m a l = true ->
  cstr m a l /\ 0 <= a /\ a + Z.of_nat (length l) < 2 ^ 64 /\
  forall x, a <= x <= a + Z.of_nat (length l) -> in_frames 8192 8448 x = false.
Proof.
  intros Ha H0 Hc. split_and!; [by apply cstr_b_spec|done|lia|]. intros x Hx. unfold in_frames.
  destruct (inside_spec 8192 8 x), (inside_spec 8448 256 x); (done || lia).
Qed.

Lemma ex_app_image : image 8192 8448 (app_semaphore_strs 4096 4160) ex_app.
Proof.
  split.
  - split; [lia..|apply has_b_spec; vm_compute; reflexivity].
  - apply has_b_spec; vm_compute; reflexivity.
  - by left.
  - intros a l Hal. unfold app_semaphore_strs in Hal.
    apply elem_of_cons in Hal as [[= -> ->]|[[= -> ->]|[]%elem_of_nil]%elem_of_cons];
      (apply ex_str; [by vm_compute|done|vm_compute; reflexivity]).
Qed.



(** app_semaphore2.c: the parent is to wait for two resources; it gets both,
    works and finishes before anything is produced. *)
Lemma app_semaphore2_waits_for_nothing slot out product_text got_text working_text finished_text m :
  image slot out (app_semaphore2_strs product_text got_text working_text finished_text) m ->
  exists fuel, serve fuel 1 [app_semaphore2_main slot out product_text got_text working_text finished_text m] [] =
    Some [got_line 0; got_line 1; line "Parent working"; line "Finished"; line "Product resource"; line "Product resource"].
Proof.
  intros HI. eapply (program_runs 2); [exact (app_semaphore2_script _ _ _ _ _ _ _ HI)| |unfold NPROC; lia].
  apply play_spawn. do 4 apply play_print. apply play_exit, play_spawn. apply play_print, play_exit, play_print, play_exit, play_done.
Qed.
