(* ===== verification/TrapPrint.v ===== *)
(** * The system call print, from the trap to the return

    [sys_user_print] translates the address it is given and hands the string
    there to [sprint] as the format.  What reaches the host is the rendering of
    the user's text with whatever the argument registers of the kernel hold. *)
From stdpp Require Import base gmap list strings.
From Stdlib Require Import ZArith Lia.
From S2P Require Import Prelude Riscv PmmState Mem Str Snprintf Vmm VmmProofs VmmSpec KernVm VmTheorems ProcState Sched Process Trap SchedProofs TrapProofs HeapProofs ExKernel TrapTheorems.

(** A text without conversions renders to itself, whatever the arguments. *)
Lemma render_plain text args lg : forallb (fun c => negb (c =? 37)) text = true -> render text false lg args = Some text.
Proof.
  revert lg. induction text as [|c text IH]; intros lg; cbn [render forallb]; [done|].
  intros [Hc%negb_true_iff Ht]%andb_prop. rewrite Hc. by rewrite IH.
Qed.

(** How many characters [vprintk] passes on. *)
Definition shown_length (r : list Z) : Z := if Z.of_nat (length r) <? 256 then Z.of_nat (length r) else 256.

Section print.
Context {S : Type} `{Allocator S} `{Harts S} `{!HartsSpec S} (root : Z) (sym : symbols).
Context (get_page : Z -> M (kmem S) unit) (get_page_ref : Z -> M (kmem S) Z) (host_write : Z -> Z -> M mem unit).
Context (out tf : Z) (stray : list Z).

Definition in_buffer : Z -> bool := inside out 256.
Definition in_frame : Z -> bool := inside tf sizeof_trapframe.

(** The string at [pa], the buffer of [vprintk] and the trap frame are
    objects, apart. *)
Record print_layout (m : mem) (pa : Z) (text : list Z) : Prop := {
  pl_text : cstr m pa text;
  pl_range : 0 <= pa /\ pa + Z.of_nat (length text) < 2 ^ 64;
  pl_room : room m out 256;
  pl_buffer : pa + Z.of_nat (length text) < out \/ out + 256 <= pa;
  pl_text_frame x : pa <= x <= pa + Z.of_nat (length text) -> in_frame x = false;
  pl_buffer_frame x : in_buffer x = true -> in_frame x = false
}.

(** The text is a format that the stray arguments satisfy. *)
Record printed_as (text r : list Z) : Prop := {
  pa_render : render text false false (AInt <$> stray) = Some r;
  pa_length : Z.of_nat (length r) < 2 ^ 31;
  pa_chars : Z.of_nat (length r) < 256 \/ prints_char text false = false
}.

(** The host was called on a memory that is [m] but for the buffer, which
    holds [r]; it left [m2]. *)
Definition host_shown (m : mem) (r : list Z) (m2 : mem) : Prop :=
  exists m1, upd m m1 (inside out (Z.of_nat (length (truncated 256 r)))) (fun a => nth (Z.to_nat (a - out)) (truncated 256 r) 0) /\
    host_write out (shown_length r) m1 = Ret tt m2.

(** The host returns, and leaves the trap frame alone. *)
Definition host_returns (r : list Z) : Prop :=
  forall m1, wp (host_write out (shown_length r)) (fun _ m2 => forall a, in_frame a = true -> m2 !! a = m1 !! a) no_stop m1.

Lemma layout_frame m m1 pa text : (forall a, in_frame a = false -> m1 !! a = m !! a) ->
  print_layout m pa text -> print_layout m1 pa text.
Proof.
  intros Hm [L1 L2 [R1 R2 R3 R4] L4 L5 L6]. split; try done.
  - eapply cstr_frame; [exact L1|]. intros x Hx. by apply Hm, L5.
  - split; [done..|]. intros x Hx. rewrite Hm; [by apply R4|]. apply L6. unfold in_buffer.
    by destruct (inside_spec out 256 x).
Qed.

Lemma in_buffer_truncated r x : inside out (Z.of_nat (length (truncated 256 r))) x = true -> in_buffer x = true.
Proof.
  unfold in_buffer, truncated. cbn [Z.eqb]. rewrite length_app, length_take. cbn [length].
  destruct (inside_spec out (Z.of_nat (Nat.min (Z.to_nat (256 - 1)) (length r) + 1)) x), (inside_spec out 256 x); (done || lia).
Qed.

Lemma wp_vprintk m pa text r (Q : unit -> mem -> Prop) E :
  print_layout m pa text -> printed_as text r -> host_returns r ->
  (forall m2, host_shown m r m2 -> (forall a, in_frame a = true -> m2 !! a = m !! a) -> Q tt m2) ->
  wp (vprintk host_write out pa stray) Q E m.
Proof.
  intros [L1 [L2 L2'] L3 L4 L5 L6] [P1 P2 P3] Hh HQ. unfold vprintk. apply wp_bind.
  replace stray with (raw <$> (AInt <$> stray)) by by rewrite <- list_fmap_compose, list_fmap_id.
  eapply wp_vsnprintf; [exact L3|exact L1|done|done|exact L4| |exact P1|exact P2|exact P3|].
  { apply Forall_fmap, Forall_forall. by intros z _. }
  intros m1 U1. rewrite u64_id by (unfold is_u64; lia). fold (shown_length r).
  destruct (wp_returns _ _ _ (Hh m1)) as ([] & m2 & Hr & Hf). eapply wp_of_run; [exact Hr|]. apply HQ; [by exists m1|].
  intros a Ha. rewrite Hf by done. rewrite U1. destruct (inside out _ a) eqn:Ei; [|done].
  apply in_buffer_truncated, L6 in Ei. by rewrite Ha in Ei.
Qed.

Lemma wp_user_print T s p x va n text r (Q : Z -> kstate S -> Prop) E :
  current s = Some p -> procs s !! p = Some x -> pagetable x = root -> ptree T root (memory (km s)) -> va_ok va ->
  print_layout (memory (km s)) (default 0 (va_to_pa_spec (pte_at T (memory (km s)) va) va)) text ->
  printed_as text r -> host_returns r ->
  (forall m2, host_shown (memory (km s)) r m2 -> (forall a, in_frame a = true -> m2 !! a = memory (km s) !! a) ->
     Q 0 (set_mem m2 s)) ->
  wp (sys_user_print host_write out stray va n) Q E s.
Proof.
  intros Hc Hx Hroot HT Hva HL HP Hh HQ. unfold sys_user_print. apply wp_bind, wp_gets. rewrite Hc. apply wp_bind, wp_ret.
  apply wp_bind. eapply wp_proc; [exact Hx|]. rewrite Hroot. apply wp_bind, wp_on_km.
  eapply wp_user_va_to_pa; [exact HT|exact Hva|]. rewrite set_km_eta. apply wp_bind, wp_pmem.
  eapply wp_vprintk; [exact HL|exact HP|exact Hh|]. intros m2 H2 Hf. apply wp_ret, HQ; done.
Qed.
End print.

(** After the pc is advanced in the trap frame. *)
Lemma ecall_view root T m tf m1 v :
  ptree T root m -> off_tables T tf sizeof_trapframe ->
  upd m m1 (inside (tf + TF_EPC) 8) (fun y => byte_of v (y - (tf + TF_EPC))) ->
  ptree T root m1 /\ (forall vb, pte_at T m1 vb = pte_at T m vb) /\ forall a, in_frame tf a = false -> m1 !! a = m !! a.
Proof.
  intros HT Hoff D1. destruct (frame_store_tree root T m m1 tf TF_EPC v HT Hoff) as [HT1 V1];
    [unfold TF_EPC, sizeof_trapframe; lia..|exact D1|].
  split; [done|split; [done|]]. intros a Ha. rewrite D1. unfold in_frame in Ha. unfold TF_EPC, sizeof_trapframe in *.
  destruct (inside_spec (tf + 264) 8 a), (inside_spec tf 280 a); (done || lia).
Qed.

(** ** Theorem *)


(** The kernel state of the examples with the registers of the call, a buffer
    at 20480 and "n=%d" at the start of the page mapped at 65536; a stray
    register holds 42. *)
Definition ex_print_regs : list Z :=
  replicate 72 0 ++ le64 SYS_user_print ++ le64 65540 ++ le64 4 ++ replicate 168 0 ++ le64 65536 ++ le64 0.
Definition ex_print_low : mem := mem_at 4096 (take 280 ex_print_regs) ∪ mem_at 8192 (replicate 96 0) ∪ mem_at 20480 (replicate 256 0).
Definition ex_text : list Z := [110; 61; 37; 100].
Definition ex_shown : list Z := [110; 61; 52; 50].
Definition with_text (k : kmem (Z * hart)) : kmem (Z * hart) :=
  mkKmem (heap k) (mem_at (ex_data + 4) (ex_text ++ [0]) ∪ memory k) (g_kernel_pagetable k).

Lemma ex_print_below : below ex_print_low = true.
Proof. vm_compute. reflexivity. Qed.
Lemma ex_print_bytes : bytes_b ex_print_low = true.
Proof. vm_compute. reflexivity. Qed.

Lemma ex_text_range x : inside (ex_data + 4) 5 x = true ->
  ex_data <= x < ex_data + PGSIZE /\ 0 <= nth (Z.to_nat (x - (ex_data + 4))) (ex_text ++ [0]) 0 < 256.
Proof.
  destruct (inside_spec (ex_data + 4) 5 x) as [Hx|]; [|done]. intros _. split; [unfold PGSIZE; lia|].
  assert (E : x - (ex_data + 4) = 0 \/ x - (ex_data + 4) = 1 \/ x - (ex_data + 4) = 2 \/
              x - (ex_data + 4) = 3 \/ x - (ex_data + 4) = 4) by lia.
  destruct E as [E|[E|[E|[E|E]]]]; rewrite E; (split; [by vm_compute|vm_compute; reflexivity]).
Qed.

Lemma ex_print_view n U T k : ex_mapped_state ex_print_low (ex_hart_at 8) n U T k ->
  ptree T ex_root (memory (with_text k)) /\ pte_at T (memory (with_text k)) 65540 = Some ex_entry /\
  forall x, x < bump_lo -> memory (with_text k) !! x = ex_print_low !! x.
Proof.
  intros HM.
  assert (Hu : upd (memory k) (memory (with_text k)) (inside (ex_data + 4) 5) (fun x => nth (Z.to_nat (x - (ex_data + 4))) (ex_text ++ [0]) 0))
    by exact (overlay_upd (ex_data + 4) (ex_text ++ [0]) (memory k)).
  assert (Hal : ex_data mod PGSIZE = 0) by (vm_compute; reflexivity).
  destruct (data_page_off _ _ _ _ _ _ _ _ (ex_inv _ _ _ _ _ _ HM) Hal (ex_page _ _ _ _ _ _ HM)) as [_ Hoff].
  destruct (data_tree ex_root T _ _ _ _ (vi_tree _ _ _ _ _ _ _ (ex_inv _ _ _ _ _ _ HM)) Hu) as [HT HV].
  - intros x Hx. by destruct (ex_text_range x Hx).
  - intros x π q Hx Hq. destruct (ex_text_range x Hx) as [Hin _]. destruct (Hoff π q Hq); lia.
  - split; [exact HT|]. split; [etrans; [exact (HV 65540)|exact (ex_view _ _ _ _ _ _ HM)]|].
    intros x Hx. etrans; [exact (Hu x)|]. destruct (inside (ex_data + 4) 5 x) eqn:Hin.
    + apply ex_text_range in Hin as [Hin _]. unfold ex_data in Hin. unfold PGSIZE in Hin. lia.
    + exact (ex_below _ _ _ _ _ _ HM x Hx).
Qed.

Lemma ex_print_layout k : (forall x, x < bump_lo -> memory (with_text k) !! x = ex_print_low !! x) ->
  print_layout 20480 4096 (memory (with_text k)) (ex_data + 4) ex_text.
Proof.
  intros Hm. assert (Hn : forall x, ex_data + 4 <= x <= ex_data + 8 -> 2 ^ 31 + 4096 + 4 <= x <= 2 ^ 31 + 4096 + 8)
    by (intros x; unfold ex_data, bump_lo, PGSIZE; lia).
  split.
  - split.
    + intros i c Hi. pose proof (lookup_lt_Some _ _ _ Hi) as Hl. cbn [with_text memory]. rewrite mem_at_union.
      destruct (inside_spec (ex_data + 4) (lenZ (ex_text ++ [0])) (ex_data + 4 + Z.of_nat i)) as [_|Hx];
        [|unfold lenZ in Hx; rewrite length_app in Hx; cbn [length] in Hx; lia].
      replace (Z.to_nat _) with i by lia. by apply lookup_app_l_Some.
    + intros c Hc. unfold ex_text in Hc. set_unfold. lia.
    + cbn [with_text memory]. rewrite mem_at_union. by vm_compute.
  - split; [unfold ex_data, bump_lo, PGSIZE; lia|by vm_compute].
  - split; [lia..|]. intros x Hx. rewrite Hm by (unfold bump_lo; lia). by apply (has_b_spec ex_print_low 20480 256); [vm_compute|].
  - right. unfold ex_data, bump_lo, PGSIZE. lia.
  - intros x Hx. change (Z.of_nat (length ex_text)) with 4 in Hx. unfold in_frame.
    destruct (inside_spec 4096 sizeof_trapframe x) as [Hi|]; [|done]. pose proof (Hn x ltac:(lia)). unfold sizeof_trapframe in Hi. lia.
  - intros x. unfold in_buffer, in_frame. destruct (inside_spec 20480 256 x), (inside_spec 4096 sizeof_trapframe x) as [Hi|]; try done.
    unfold sizeof_trapframe in Hi. lia.
Qed.

