(* ===== verification/Loader.v ===== *)
(** * Loading the program of the command line: lemmas

    [LoaderHost]: what the host does with the two calls the loader makes before
    it reads the file.  Then [load_bincode_from_host_elf] step by step: the
    command line, opening the file, reading it into an address space
    (ElfSpec.v), the entry point. *)
From stdpp Require Import base gmap list strings.
From Stdlib Require Import ZArith Lia.
From S2P Require Import Prelude Riscv PmmState Mem Str Vmm VmmProofs VmmSpec KernVm VmTheorems ProcState Sched Process Trap SchedProofs TrapProofs HeapProofs SpaceProofs AllocProcess Spike SpikeProofs SpikeFile SpikeFileProofs Elf Hosted ElfProofs ElfSpec.

#[local] Arguments load_le : simpl never.
#[local] Arguments store_le : simpl never.

(** Words [w i] from [b] on, and the strings some of them point to. *)
Definition word_at (m : mem) (b i : Z) : option Z := load_le 8 (b + 8 * i) m.
Record main_vars (m : mem) (b : Z) (argv : list (list Z)) : Prop := {
  mv_count : word_at m b 0 = Some (lenZ argv);
  mv_fits : 8 * (lenZ argv + 2) <= 512;
  mv_arg (i : nat) arg : argv !! i = Some arg ->
    exists a, word_at m b (1 + Z.of_nat i) = Some a /\ cstr m a arg /\
      b + 8 * (lenZ argv + 2) <= a /\ a + lenZ arg < b + 512
}.

Section step.
Context {S : Type} `{Allocator S} `{Frontend S} {lo hi : Z} `{!AllocatorSpec S lo hi} `{!FrontendSpec S lo hi}.

(** From [k] to [k'] the allocator promises what it did, and memory changed
    only in the [len] bytes at [b] and in the host interface. *)
Record host_step (k k' : kmem S) (b len : Z) : Prop := {
  ho_idle : fe_idle k';
  ho_al n U : al_inv n U (heap k) -> al_inv n U (heap k');
  ho_dir : g_kernel_pagetable k' = g_kernel_pagetable k;
  ho_bytes : bytes_ok (memory k');
  ho_has y : is_Some (memory k !! y) -> is_Some (memory k' !! y);
  ho_frame y : ~ (b <= y < b + len) -> fe_scratch y = false -> memory k' !! y = memory k !! y
}.
End step.

Class LoaderHost (S : Type) `{Allocator S} `{Frontend S} (lo hi : Z) `{!AllocatorSpec S lo hi} `{!FrontendSpec S lo hi} := {
  lh_argv : list (list Z);
  lh_disk : list Z -> option (list Z);
  lh_argv_some : lh_argv <> [];
  (** The command line goes to the buffer. *)
  lh_mainvars k buf : fe_idle k -> bytes_ok (memory k) -> has (memory k) buf 512 ->
    (forall x, buf <= x < buf + 512 -> fe_scratch x = false) -> 0 <= buf -> buf + 512 < 2 ^ 63 ->
    wp (fe_syscall HTIFSYS_getmainvars buf 512 0 0 0)
       (fun r k' => r = 0 /\ host_step k k' buf 512 /\ main_vars (memory k') buf lh_argv) no_stop k;
  (** A descriptor of the file, or minus an error number. *)
  lh_openat k fn name : fe_idle k -> bytes_ok (memory k) -> cstr (memory k) fn name -> 0 <= fn -> fn + lenZ name < 2 ^ 63 ->
    wp (fe_syscall HTIFSYS_openat AT_FDCWD fn (lenZ name + 1) O_RDONLY 0)
       (fun r k' => host_step k k' 0 0 /\
          match lh_disk name with
          | Some data => 0 <= r < MAX_FDS /\ fe_files (heap k') r = Some data
          | None => - 4096 <= r < 0
          end) no_stop k
}.

Section load.
Context {S : Type} `{Allocator S} `{Harts S} `{!HartsLens S} `{Frontend S} `{SpikeAtomics} `{!AtomicsSpec} (lo hi : Z)
  `{!AllocatorSpec S lo hi} `{!FrontendSpec S lo hi} `{!LoaderHost S lo hi}.
Context (sym : spike_symbols) (bufs : elf_bufs) (p root mi : Z).
Implicit Types (T : ptable) (U : gset Z) (n : nat) (s : kstate S) (k : kmem S).

(** The loader's buffers and the tables of files lie in the kernel image,
    apart from each other and from the words of the host interface. *)
Definition locals : list (Z * Z) :=
  [(eb_args bufs, 512); (eb_ehdr bufs, sizeof_elf_header); (eb_ph bufs, sizeof_elf_prog_header);
   (a_spike_files sym, sizeof_spike_file * MAX_FILES); (a_spike_fds sym, 8 * MAX_FDS)].
Record layout : Prop := {
  ly_low a len : (a, len) ∈ locals -> 0 < a /\ a + len <= lo /\ forall x, a <= x < a + len -> fe_scratch x = false;
  ly_apart (i j : nat) a la b lb : i <> j -> locals !! i = Some (a, la) -> locals !! j = Some (b, lb) -> apart a la b lb;
  ly_regions : lo <= mi /\ mi + PGSIZE <= hi
}.
Context (HY : layout).

(** Before and between the steps: a process whose address space is [g], with
    regions [l], and the tables of files. *)
Record start n U T g l x kfds refs slots s : Prop := {
  sa_space : aspace lo hi root mi n U T g l s;
  sa_own : mi ∈ U;
  sa_tables π q : T !! π = Some q -> lo <= q;
  sa_free j : lenZ l <= j < 256 -> load_le 8 (mi + 16 * j) (memory (km s)) = Some 0;
  sa_used e : e ∈ l -> fst (fst e) <> 0;
  sa_length : lenZ l <= 256;
  sa_idle : fe_idle (km s);
  sa_proc : procs s !! p = Some x;
  sa_root : pagetable x = root;
  sa_info : mapped_info x = mi;
  sa_locals a len : (a, len) ∈ locals -> has (memory (km s)) a len;
  sa_files : file_tables sym (memory (km s)) kfds refs slots
}.

(** A step that changes only memory of the kernel image. *)
Lemma start_low n U T g l x kfds refs slots kfds' refs' slots' s k' :
  start n U T g l x kfds refs slots s -> fe_idle k' -> al_inv n U (heap k') -> bytes_ok (memory k') ->
  (forall y, is_Some (memory (km s) !! y) -> is_Some (memory k' !! y)) ->
  (forall y, lo <= y -> memory k' !! y = memory (km s) !! y) -> file_tables sym (memory k') kfds' refs' slots' ->
  start n U T g l x kfds' refs' slots' (set_km k' s).
Proof.
  intros [A1 A2 A3 A4 A5 A6 A7 A8 A9 A10 A11 A12] Hi Hal Hb Hh Hm HF. destruct (ly_regions HY) as [R1 R2].
  split; cbn [km set_km]; try done.
  - eapply aspace_frame; [exact A1|unfold lenZ in A6; lia|exact Hal|exact Hb|exact Hh| |].
    + intros π q y Hq Hy. apply Hm. pose proof (A3 π q Hq). lia.
    + intros y Hy. apply Hm. lia.
  - intros j Hj. rewrite <- (A4 j Hj). apply load_le_ext. intros y Hy. apply Hm. unfold lenZ in Hj. lia.
  - intros a len Ha y Hy. apply Hh. by apply (A11 a len).
Qed.

Lemma lo_56 n U T g l x kfds refs slots s : start n U T g l x kfds refs slots s -> lo <= 2 ^ 56.
Proof.
  intros HA. destruct (al_arena _ _ _ (vi_al _ _ _ _ _ _ _ (as_inv _ _ _ _ _ _ _ _ _ _ (sa_space _ _ _ _ _ _ _ _ _ _ HA)))) as [Hlo Hhi].
  destruct (ly_regions HY). unfold PGSIZE in *. lia.
Qed.

(** The file tables and the buffer at index [i] of [locals] do not meet. *)
Lemma tables_off (i : nat) a len y : (i < 3)%nat -> locals !! i = Some (a, len) -> a <= y < a + len -> outside_files sym y.
Proof.
  intros Hi Ha Hy. pose proof (ly_apart HY i 3 a len _ _ ltac:(lia) Ha eq_refl) as A1.
  pose proof (ly_apart HY i 4 a len _ _ ltac:(lia) Ha eq_refl) as A2. unfold apart in A1, A2. split.
  - destruct (inside_spec (a_spike_files sym) (sizeof_spike_file * MAX_FILES) y); [lia|done].
  - destruct (inside_spec (a_spike_fds sym) (8 * MAX_FDS) y); [lia|done].
Qed.

Lemma scratch_outside y : fe_scratch y = true -> outside_files sym y.
Proof.
  intros Hs. destruct (ly_low HY _ _ (list_elem_of_lookup_2 locals 3 _ eq_refl)) as (_ & _ & S1).
  destruct (ly_low HY _ _ (list_elem_of_lookup_2 locals 4 _ eq_refl)) as (_ & _ & S2). split.
  - destruct (inside_spec (a_spike_files sym) (sizeof_spike_file * MAX_FILES) y) as [Hi|]; [|done]. by rewrite S1 in Hs.
  - destruct (inside_spec (a_spike_fds sym) (8 * MAX_FDS) y) as [Hi|]; [|done]. by rewrite S2 in Hs.
Qed.

(** A step of the host into one of the three buffers. *)
Lemma start_host n U T g l x kfds refs slots s k' (i : nat) a len :
  start n U T g l x kfds refs slots s -> (i < 3)%nat -> locals !! i = Some (a, len) -> host_step (km s) k' a len ->
  start n U T g l x kfds refs slots (set_km k' s).
Proof.
  intros HA Hi Ha [B1 B2 B3 B4 B5 B6]. destruct (ly_low HY a len (list_elem_of_lookup_2 _ _ _ Ha)) as (_ & Hlo & _).
  eapply start_low; [exact HA|exact B1| |exact B4|exact B5| |].
  - apply B2, (vi_al _ _ _ _ _ _ _ (as_inv _ _ _ _ _ _ _ _ _ _ (sa_space _ _ _ _ _ _ _ _ _ _ HA))).
  - intros y Hy. apply B6; [lia|]. destruct (fe_scratch y) eqn:Es; [apply (fe_below y) in Es; lia|done].
  - eapply file_tables_ext; [|exact (sa_files _ _ _ _ _ _ _ _ _ _ HA)]. intros y.
    destruct (fe_scratch y) eqn:Es; [right; by apply scratch_outside|].
    destruct (inside_spec a len y); [right; by eapply tables_off|left; by apply B6].
Qed.

(** *** The command line *)
Lemma word_has m b i : word_at m b i <> None -> has m (b + 8 * i) 8.
Proof. unfold word_at. destruct (load_le 8 (b + 8 * i) m) eqn:E; [|done]. intros _. exact (load_has 8 _ _ _ E). Qed.

(** The words move down by two; the first of them is then the third. *)
Lemma wp_args_loop (d : nat) : forall fuel i argc s (Q : unit -> kstate S -> Prop) E,
  0 <= i -> 1 + i + Z.of_nat d = argc -> 8 * (argc + 2) <= 512 -> (d <= fuel)%nat -> 0 < eb_args bufs -> eb_args bufs + 512 < 2 ^ 63 ->
  has (memory (km s)) (eb_args bufs) 512 -> bytes_ok (memory (km s)) ->
  (forall m', bytes_ok m' -> (forall y, is_Some (memory (km s) !! y) -> is_Some (m' !! y)) ->
     (forall y, ~ (eb_args bufs + 8 * i <= y < eb_args bufs + 8 * (argc + 1)) -> m' !! y = memory (km s) !! y) ->
     ((0 < d)%nat -> word_at m' (eb_args bufs) i = word_at (memory (km s)) (eb_args bufs) (2 + i)) -> Q tt (set_mem m' s)) ->
  wp (args_loop bufs fuel i argc) Q E s.
Proof.
  induction d as [|d IH]; intros fuel i argc s Q E Hi Hd Hfit Hf H1' H2' Hh Hb HQ.
  - destruct fuel; cbn [args_loop]; rewrite u64_id by (unfold is_u64; lia); rewrite (proj2 (Z.ltb_ge _ _)) by lia; apply wp_ret;
      rewrite <- (set_mem_eta s); apply HQ; try done; lia.
  - destruct fuel as [|fuel]; [lia|]. cbn [args_loop]. rewrite u64_id by (unfold is_u64; lia). rewrite (proj2 (Z.ltb_lt _ _)) by lia.
    destruct (load_le_has 8 (eb_args bufs + 8 * (2 + i)) (memory (km s))) as [v Hv].
    { intros y Hy. apply Hh. lia. }
    replace (eb_args bufs + 8 * (1 + (1 + i))) with (eb_args bufs + 8 * (2 + i)) by lia. rewrite !u64_id by (unfold is_u64; lia).
    apply wp_bind. eapply (wp_pmem_load s 8); [exact Hv|]. apply wp_bind, wp_pmem, wp_store; [intros y Hy; apply Hh; lia|].
    intros m1 S1 U1. apply (IH fuel (i + 1) argc); [lia|lia|exact Hfit|lia|exact H1'|exact H2'| | |].
    { eapply upd_has; [exact U1|exact Hh]. }
    { by apply (store_bytes_ok _ _ _ _ _ S1). }
    cbn [km set_mem set_km memory]. intros m' B1 B2 B3 B4. change (set_mem m' (set_mem m1 s)) with (set_mem m' s). apply HQ; [done| | |].
    + intros y Hy. apply B2. by apply (store_some _ _ _ _ _ _ S1).
    + intros y Hy. rewrite B3 by lia. rewrite U1. by destruct (inside_spec (eb_args bufs + 8 * i) (Z.of_nat 8) y); [lia|].
    + intros _. unfold word_at. rewrite Hv. transitivity (load_le 8 (eb_args bufs + 8 * i) m1).
      * apply load_le_ext. intros y Hy. apply B3. change (Z.of_nat 8) with 8 in Hy. lia.
      * rewrite (load_store_same _ _ _ _ _ S1). f_equal. apply Z.mod_small. by apply (load_le_range 8 _ _ _ Hb Hv).
Qed.

(** The words the command line leaves. *)
Lemma wp_parse_args n U T g l x kfds refs slots s (Q : Z -> kstate S -> Prop) E :
  start n U T g l x kfds refs slots s ->
  (forall k', let s' := set_km k' s in start n U T g l x kfds refs slots s' -> host_step (km s) k' (eb_args bufs) 512 ->
     (forall name, lh_argv !! 1%nat = Some name ->
        exists a, load_le 8 (eb_args bufs) (memory k') = Some a /\ cstr (memory k') a name /\ eb_args bufs <= a /\ a + lenZ name < eb_args bufs + 512) ->
     Q (lenZ lh_argv - 1) s') ->
  wp (parse_args bufs) Q E s.
Proof.
  intros HA HQ. destruct (ly_low HY _ _ (list_elem_of_lookup_2 locals 0 _ eq_refl)) as (A1 & A2 & A3). pose proof (lo_56 _ _ _ _ _ _ _ _ _ _ HA) as Hlo.
  pose proof (pt_bytes _ _ _ (vi_tree _ _ _ _ _ _ _ (as_inv _ _ _ _ _ _ _ _ _ _ (sa_space _ _ _ _ _ _ _ _ _ _ HA)))) as Hb.
  pose proof (sa_locals _ _ _ _ _ _ _ _ _ _ HA _ _ (list_elem_of_lookup_2 locals 0 _ eq_refl)) as Hh.
  unfold parse_args. change (8 * MAX_CMDLINE_ARGS) with 512. apply wp_bind, wp_on_km.
  eapply wp_mono; [apply (lh_mainvars (km s) (eb_args bufs)); [exact (sa_idle _ _ _ _ _ _ _ _ _ _ HA)|exact Hb|exact Hh|exact A3|lia|lia]| |done].
  intros r k1 (-> & K & [M1 M2 M3]).
  assert (Hpos : 0 < lenZ lh_argv) by (pose proof lh_argv_some; unfold lenZ; destruct lh_argv; [done|cbn; lia]).
  apply wp_bind, wp_kassert; [done|]. unfold word_at in M1. rewrite Z.mul_0_r, Z.add_0_r in M1.
  apply wp_bind. eapply (wp_pmem_load _ 8); [exact M1|]. apply wp_bind.
  eapply (wp_args_loop (Z.to_nat (lenZ lh_argv - 1)) _ 0); [lia|lia|lia|lia|lia|lia| |exact (ho_bytes _ _ _ _ K)|].
  { intros y Hy. apply (ho_has _ _ _ _ K). by apply Hh. }
  cbn [km set_km]. intros m' B1 B2 B3 B4. apply wp_ret. rewrite u64_id by (unfold is_u64; lia).
  change (set_mem m' (set_km k1 s)) with (set_km (mkKmem (heap k1) m' (g_kernel_pagetable k1)) s).
  assert (K2 : host_step (km s) (mkKmem (heap k1) m' (g_kernel_pagetable k1)) (eb_args bufs) 512).
  { destruct K as [K1 K2 K3 K4 K5 K6]. split; cbn [heap memory g_kernel_pagetable]; [|done|done|done|auto|].
    - eapply fe_idle_ext; [exact K1|apply fe_same_refl|]. intros y Hy. cbn [memory]. apply B3. intros Hy2. rewrite A3 in Hy; [done|lia].
    - intros y Hy Hs. rewrite B3 by lia. by apply K6. }
  apply HQ; [by eapply (start_host _ _ _ _ _ _ _ _ _ _ _ 0); [exact HA|lia|done|]|exact K2|].
  intros name Hn. destruct (M3 1%nat name Hn) as (a & W & C & Ca & Ca2). pose proof (lookup_lt_Some _ _ _ Hn) as Hl.
  exists a. cbn [memory]. split_and!; [| |lia|lia].
  - rewrite <- (Z.add_0_r (eb_args bufs)). change (eb_args bufs + 0) with (eb_args bufs + 8 * 0).
    etrans; [apply B4; unfold lenZ in *; lia|exact W].
  - eapply cstr_frame; [exact C|]. intros y Hy. apply B3. lia.
Qed.

(** *** Opening the file *)
Lemma layout_tables : lo <= 2 ^ 56 -> tables_placed sym.
Proof.
  intros Hlo. destruct (ly_low HY _ _ (list_elem_of_lookup_2 locals 3 _ eq_refl)) as (F1 & F2 & _).
  destruct (ly_low HY _ _ (list_elem_of_lookup_2 locals 4 _ eq_refl)) as (G1 & G2 & _).
  split; [lia|lia|exact (ly_apart HY 3 4 _ _ _ _ ltac:(lia) eq_refl eq_refl)].
Qed.

Lemma tables_low y : lo <= y -> outside_files sym y.
Proof.
  intros Hy. destruct (ly_low HY _ _ (list_elem_of_lookup_2 locals 3 _ eq_refl)) as (_ & F2 & _).
  destruct (ly_low HY _ _ (list_elem_of_lookup_2 locals 4 _ eq_refl)) as (_ & G2 & _). split.
  - by destruct (inside_spec (a_spike_files sym) (sizeof_spike_file * MAX_FILES) y); [lia|].
  - by destruct (inside_spec (a_spike_fds sym) (8 * MAX_FDS) y); [lia|].
Qed.

Lemma retabled_idle k k' kfds refs slots : fe_idle k -> retabled sym k k' kfds refs slots -> fe_idle k'.
Proof.
  intros Hi [R1 R2 R3 R4 R5 R6]. eapply fe_idle_ext; [exact Hi|rewrite R2; apply fe_same_refl|].
  intros y Hy. by apply R4, scratch_outside.
Qed.

Lemma start_retabled n U T g l x kfds refs slots kfds' refs' slots' s k' :
  start n U T g l x kfds refs slots s -> retabled sym (km s) k' kfds' refs' slots' -> start n U T g l x kfds' refs' slots' (set_km k' s).
Proof.
  intros HA HR. pose proof (retabled_idle _ _ _ _ _ (sa_idle _ _ _ _ _ _ _ _ _ _ HA) HR) as Hi. destruct HR as [R1 R2 R3 R4 R5 R6].
  pose proof (as_inv _ _ _ _ _ _ _ _ _ _ (sa_space _ _ _ _ _ _ _ _ _ _ HA)) as HV.
  eapply start_low; [exact HA|exact Hi| | |exact R6| |exact R1].
  - rewrite R2. exact (vi_al _ _ _ _ _ _ _ HV).
  - apply R5, (pt_bytes _ _ _ (vi_tree _ _ _ _ _ _ _ HV)).
  - intros y Hy. by apply R4, tables_low.
Qed.

Lemma start_call n U T g l x kfds refs slots s k' :
  start n U T g l x kfds refs slots s -> host_step (km s) k' 0 0 -> start n U T g l x kfds refs slots (set_km k' s).
Proof.
  intros HA HS. apply (start_host _ _ _ _ _ _ _ _ _ _ _ 0 _ _ HA ltac:(lia) eq_refl).
  destruct HS as [S1 S2 S3 S4 S5 S6]. split; try done. intros y Hy. apply S6. lia.
Qed.

(** Memory but for the tables of files and the host interface. *)
Definition tables_only (k k' : kmem S) : Prop :=
  g_kernel_pagetable k' = g_kernel_pagetable k /\
  forall y, fe_scratch y = false -> outside_files sym y -> memory k' !! y = memory k !! y.

Lemma wp_open n U T g l x kfds refs slots s fn name (Q : Z -> kstate S -> Prop) E :
  start n U T g l x kfds refs slots s -> cstr (memory (km s)) fn name -> eb_args bufs <= fn -> fn + lenZ name < eb_args bufs + 512 ->
  (exists j, 0 <= j < MAX_FILES /\ refs j = 0) ->
  (forall data j r k', let s' := set_km k' s in lh_disk name = Some data -> 0 <= j < MAX_FILES -> refs j = 0 -> 0 <= r < MAX_FDS ->
     start n U T g l x (put_at j r kfds) (put_at j INIT_FILE_REF refs) slots s' -> fe_files (heap k') r = Some data ->
     tables_only (km s) k' -> Q (file_at sym j) s') ->
  (forall e k', lh_disk name = None -> - 4096 <= e < 0 -> Q (ERR_PTR e) (set_km k' s)) ->
  wp (on_km (spike_file_open sym fn O_RDONLY 0)) Q E s.
Proof.
  intros HA Hc Hf1 Hf2 (j0 & Hj0 & Hr0) Hok Herr. pose proof (lo_56 _ _ _ _ _ _ _ _ _ _ HA) as Hlo. pose proof (layout_tables Hlo) as HP.
  destruct (ly_low HY _ _ (list_elem_of_lookup_2 locals 0 _ eq_refl)) as (A1 & A2 & A3).
  pose proof (as_inv _ _ _ _ _ _ _ _ _ _ (sa_space _ _ _ _ _ _ _ _ _ _ HA)) as HV. pose proof (pt_bytes _ _ _ (vi_tree _ _ _ _ _ _ _ HV)) as Hb.
  apply wp_on_km. unfold spike_file_open, spike_file_openat. apply wp_bind. unfold spike_file_get_free.
  replace (a_spike_files sym) with (file_at sym 0) by (unfold file_at; lia).
  apply (wp_get_free_loop sym HP (Z.to_nat MAX_FILES) 0 (km s) kfds refs slots); [exact (sa_files _ _ _ _ _ _ _ _ _ _ HA)|exact Hb|lia|done| |intros Hall; by destruct (Hall j0 Hj0)].
  intros j k1 Hj Hrj _ HR1. pose proof (start_retabled _ _ _ _ _ _ _ _ _ _ _ _ _ _ HA HR1) as HA1.
  rewrite (proj2 (Z.eqb_neq (file_at sym j) 0)) by (destruct HP as [Hp _ _]; unfold file_at, sizeof_spike_file in *; lia).
  assert (Hfn : forall y, fn <= y <= fn + Z.of_nat (length name) -> memory k1 !! y = memory (km s) !! y).
  { intros y Hy. apply (rt_frame _ _ _ _ _ _ HR1). eapply (tables_off 0); [lia|done|unfold lenZ in *; lia]. }
  assert (Hc1 : cstr (memory k1) fn name) by (eapply cstr_frame; [exact Hc|exact Hfn]).
  apply wp_bind, wp_on_mem'.
  eapply wp_strlen; [exact Hc1|lia|unfold lenZ in *; lia|]. rewrite with_memory_eta. apply wp_bind.
  rewrite u64_id by (unfold is_u64, lenZ in *; lia).
  eapply wp_mono; [apply (lh_openat k1 fn name); [exact (sa_idle _ _ _ _ _ _ _ _ _ _ HA1)|exact (rt_bytes _ _ _ _ _ _ HR1 Hb)|exact Hc1|lia|lia]| |done].
  intros r k2 [HS2 Hr]. pose proof (start_call _ _ _ _ _ _ _ _ _ _ _ HA1 HS2) as HA2. cbn [set_km km] in HA2.
  destruct (lh_disk name) as [data|].
  - destruct Hr as [Hr Hfile]. rewrite (proj2 (Z.leb_le 0 r)) by lia. apply wp_bind.
    rewrite (file_field sym HP j F_KFD Hj) by (unfold F_KFD, sizeof_spike_file; lia).
    pose proof (ft_kfd _ _ _ _ _ (sa_files _ _ _ _ _ _ _ _ _ _ HA2) j Hj) as Hl.
    replace (a_spike_files sym + F_KFD + sizeof_spike_file * j) with (file_at sym j + F_KFD) in Hl by (unfold file_at; lia).
    apply wp_put; [by eapply load_has|]. intros m3 S3 _. apply wp_ret. rewrite u32_id in S3 by (unfold MAX_FDS in Hr; lia).
    pose proof (retabled_file sym HP k2 _ _ _ F_KFD j r m3 (sa_files _ _ _ _ _ _ _ _ _ _ HA2) Hj (or_introl eq_refl) ltac:(unfold MAX_FDS in Hr; lia) S3) as HR3.
    change (F_KFD =? F_KFD) with true in HR3. cbv iota in HR3.
    apply (Hok data j r); [done|exact Hj|exact Hrj|exact Hr|exact (start_retabled _ _ _ _ _ _ _ _ _ _ _ _ _ _ HA2 HR3)|exact Hfile|].
    split; [by rewrite (rt_dir _ _ _ _ _ _ HR3), (ho_dir _ _ _ _ HS2), (rt_dir _ _ _ _ _ _ HR1)|].
    intros y Hy Ho. rewrite (rt_frame _ _ _ _ _ _ HR3 y Ho), (ho_frame _ _ _ _ HS2) by (done || lia). by apply (rt_frame _ _ _ _ _ _ HR1).
  - rewrite (proj2 (Z.leb_gt 0 r)) by lia. apply wp_bind. unfold spike_file_decref.
    rewrite (file_field sym HP j F_REFCNT Hj) by (unfold F_REFCNT, sizeof_spike_file; lia).
    pose proof (ref_load sym k2 _ _ _ j (sa_files _ _ _ _ _ _ _ _ _ _ HA2) Hj) as Hl.
    apply wp_bind, wp_on_mem'. rewrite as_add. apply wp_bind. eapply wp_load; [exact Hl|].
    apply wp_bind, wp_store; [by eapply load_has|]. intros m3 S3 _. apply wp_ret. unfold put_at. rewrite Z.eqb_refl.
    change (s32 INIT_FILE_REF =? 2) with false. cbv iota. apply wp_ret, wp_ret. by apply Herr.
Qed.

(** *** Closing it *)
Lemma wp_close k kfds refs slots j (Q : Z -> kmem S -> Prop) E : tables_placed sym ->
  file_tables sym (memory k) kfds refs slots -> 0 <= j < MAX_FILES -> 0 <= kfds j < MAX_FDS -> refs j = INIT_FILE_REF ->
  slots (kfds j) <> file_at sym j ->
  (forall k', retabled sym k k' kfds (put_at j 2 refs) slots -> Q (-1) k') -> wp (spike_file_close sym (file_at sym j)) Q E k.
Proof.
  intros HP HT Hj Hk Hr Hne HQ. unfold spike_file_close. pose proof HP as [Hp _ _].
  rewrite (proj2 (Z.eqb_neq (file_at sym j) 0)) by (unfold file_at, sizeof_spike_file in *; lia).
  apply wp_bind. unfold file_kfd. rewrite (file_field sym HP j F_KFD Hj) by (unfold F_KFD, sizeof_spike_file; lia).
  pose proof (ft_kfd _ _ _ _ _ HT j Hj) as Hl. replace (a_spike_files sym + F_KFD + sizeof_spike_file * j) with (file_at sym j + F_KFD) in Hl by (unfold file_at; lia).
  apply wp_bind, wp_on_mem'. eapply wp_load; [exact Hl|]. rewrite with_memory_eta. apply wp_ret.
  rewrite s32_id by (unfold MAX_FDS in Hk; lia). apply wp_bind. rewrite (slot_addr sym HP _ Hk).
  eapply wp_atomic_cas; [exact (ft_fds _ _ _ _ _ HT _ Hk)|done|]. intros _. apply wp_bind. unfold spike_file_decref.
  rewrite (file_field sym HP j F_REFCNT Hj) by (unfold F_REFCNT, sizeof_spike_file; lia).
  pose proof (ref_load sym k _ _ _ j HT Hj) as Hlr. rewrite Hr in Hlr.
  apply wp_bind, wp_on_mem'. rewrite as_add. apply wp_bind. eapply wp_load; [exact Hlr|].
  apply wp_bind, wp_store; [by eapply load_has|]. intros m3 S3 _. apply wp_ret.
  change (s32 INIT_FILE_REF =? 2) with false. cbv iota. apply wp_ret. rewrite (proj2 (Z.eqb_neq _ _)) by done. cbn [negb].
  apply wp_ret, HQ. exact (retabled_file sym HP k _ _ _ F_REFCNT j 2 m3 HT Hj (or_intror eq_refl) ltac:(done) S3).
Qed.

(** *** Between the loader's own steps *)
Definition open_info (j : Z) : elf_info := mkElfInfo (file_at sym j) (Some p).

Lemma open_placed j data : 0 <= j < MAX_FILES -> lenZ data < 2 ^ 62 -> placed lo hi bufs (open_info j) data.
Proof.
  intros Hj Hd. destruct (ly_low HY _ _ (list_elem_of_lookup_2 locals 1 _ eq_refl)) as (E1 & E2 & E3).
  destruct (ly_low HY _ _ (list_elem_of_lookup_2 locals 2 _ eq_refl)) as (P1 & P2 & P3).
  destruct (ly_low HY _ _ (list_elem_of_lookup_2 locals 3 _ eq_refl)) as (F1 & F2 & F3).
  pose proof (ly_apart HY 1 2 _ _ _ _ ltac:(lia) eq_refl eq_refl) as A12. pose proof (ly_apart HY 1 3 _ _ _ _ ltac:(lia) eq_refl eq_refl) as A13.
  pose proof (ly_apart HY 2 3 _ _ _ _ ltac:(lia) eq_refl eq_refl) as A23. unfold apart in *.
  unfold sizeof_spike_file, MAX_FILES in *. split; cbn [open_info ei_f]; unfold file_at, sizeof_spike_file; try done; try lia.
  - split; [lia|split; [lia|done]].
  - split; [lia|split; [lia|done]].
  - split; [lia|split; [lia|]]. intros y Hy. apply F3. lia.
Qed.

Lemma bytes_of_has m a len : 0 <= len -> has m a len -> exists hdr, lenZ hdr = len /\ bytes_at m a hdr.
Proof.
  intros Hl Hh. exists (map (fun i => default 0 (m !! (a + i))) (seqZ 0 len)).
  assert (Hlen : lenZ (map (fun i => default 0 (m !! (a + i))) (seqZ 0 len)) = len) by (unfold lenZ; rewrite length_map, length_seqZ; lia).
  split; [exact Hlen|]. intros i c Hc. pose proof (lookup_lt_Some _ _ _ Hc) as Hlt. unfold lenZ in Hlen.
  rewrite list_lookup_fmap, lookup_seqZ_lt in Hc by lia. injection Hc as <-. rewrite Z.add_0_l.
  destruct (Hh (a + Z.of_nat i)) as [d Hd]; [lia|]. by rewrite Hd.
Qed.

Lemma start_loading n U T g l x kfds refs slots s j data :
  start n U T g l x kfds refs slots s -> 0 <= j < MAX_FILES -> 0 <= kfds j < MAX_FDS -> fe_files (heap (km s)) (kfds j) = Some data ->
  exists hdr, length hdr = 64%nat /\ loading lo hi bufs (open_info j) p root mi (kfds j) data hdr n U T g l x s.
Proof.
  intros [A1 A2 A3 A4 A5 A6 A7 A8 A9 A10 A11 A12] Hj Hk Hf.
  destruct (bytes_of_has _ _ sizeof_elf_header ltac:(done) (A11 _ _ (list_elem_of_lookup_2 locals 1 _ eq_refl))) as (hdr & Hl & Hb).
  exists hdr. split; [unfold lenZ, sizeof_elf_header in Hl; lia|]. split; try done.
  - exists (kfds j). split; [|apply s32_id; unfold MAX_FDS in Hk; lia]. rewrite <- (ft_kfd _ _ _ _ _ A12 j Hj).
    f_equal. cbn [open_info ei_f]. unfold file_at, F_KFD. lia.
  - exact (A11 _ _ (list_elem_of_lookup_2 locals 2 _ eq_refl)).
Qed.

Lemma loading_start n U T g l x kfds refs slots s j kfd data hdr n' U' T' g' l' x' s' :
  start n U T g l x kfds refs slots s -> length hdr = 64%nat -> lenZ l' <= 256 ->
  loading lo hi bufs (open_info j) p root mi kfd data hdr n' U' T' g' l' x' s' ->
  (forall (i : nat) a len y, i <> 1%nat -> i <> 2%nat -> locals !! i = Some (a, len) -> a <= y < a + len -> memory (km s') !! y = memory (km s) !! y) ->
  start n' U' T' g' l' x' kfds refs slots s'.
Proof.
  intros HA Hh Hl' [L1 L2 L3 L4 L5 L6 L7 L8 L9 L10 L11 L12 L13] Hm. split; try done.
  - intros a len Ha. pose proof (sa_locals _ _ _ _ _ _ _ _ _ _ HA a len Ha) as Hs. apply list_elem_of_lookup in Ha as [i Hi].
    destruct (decide (i = 1%nat)) as [->|]; [|destruct (decide (i = 2%nat)) as [->|]].
    + injection Hi as <- <-. intros y Hy. destruct (lookup_lt_is_Some_2 hdr (Z.to_nat (y - eb_ehdr bufs))) as [c Hc]; [unfold sizeof_elf_header in Hy; lia|].
      exists c. apply L12 in Hc. by replace (eb_ehdr bufs + Z.of_nat (Z.to_nat (y - eb_ehdr bufs))) with y in Hc by lia.
    + injection Hi as <- <-. exact L13.
    + intros y Hy. rewrite (Hm i a len y) by done. by apply Hs.
  - eapply file_tables_ext; [|exact (sa_files _ _ _ _ _ _ _ _ _ _ HA)]. intros y.
    destruct (inside (a_spike_files sym) (sizeof_spike_file * MAX_FILES) y) eqn:E1.
    + left. apply (Hm 3%nat _ _ y ltac:(lia) ltac:(lia) eq_refl). by destruct (inside_spec (a_spike_files sym) (sizeof_spike_file * MAX_FILES) y).
    + destruct (inside (a_spike_fds sym) (8 * MAX_FDS) y) eqn:E2.
      * left. apply (Hm 4%nat _ _ y ltac:(lia) ltac:(lia) eq_refl). by destruct (inside_spec (a_spike_fds sym) (8 * MAX_FDS) y).
      * by right.
Qed.

(** A store of the kernel into data of the process. *)
Lemma start_store n U T g l x kfds refs slots s (w : nat) a v m' :
  start n U T g l x kfds refs slots s -> off_tables T a (Z.of_nat w) -> lo <= a -> (a + Z.of_nat w <= mi \/ mi + PGSIZE <= a) ->
  store_le w a v (memory (km s)) = Some m' -> start n U T g l x kfds refs slots (set_mem m' s).
Proof.
  intros [A1 A2 A3 A4 A5 A6 A7 A8 A9 A10 A11 A12] Hoff Ha Hmi Hs.
  assert (Hfr : forall y, ~ (a <= y < a + Z.of_nat w) -> m' !! y = memory (km s) !! y).
  { intros y Hy. apply (store_frame _ _ _ _ _ _ Hs). by destruct (inside_spec a (Z.of_nat w) y). }
  pose proof (as_inv _ _ _ _ _ _ _ _ _ _ A1) as HV. destruct (ly_regions HY) as [R1 R2].
  assert (Hlow : forall b len y, (b, len) ∈ locals -> b <= y < b + len -> m' !! y = memory (km s) !! y).
  { intros b len y Hb Hy. destruct (ly_low HY b len Hb) as (_ & Hlo & _). apply Hfr. lia. }
  change (set_mem m' s) with (set_km (mkKmem (heap (km s)) m' (g_kernel_pagetable (km s))) s).
  split; cbn [km set_km heap memory]; try done.
  - eapply aspace_frame; [exact A1|unfold lenZ in A6; lia|exact (vi_al _ _ _ _ _ _ _ HV)| | | |]; cbn [memory].
    + apply (store_bytes_ok _ _ _ _ _ Hs), (pt_bytes _ _ _ (vi_tree _ _ _ _ _ _ _ HV)).
    + intros y. apply (store_some _ _ _ _ _ _ Hs).
    + intros π q y Hq Hy. apply Hfr. destruct (Hoff π q Hq); lia.
    + intros y Hy. apply Hfr. lia.
  - intros j Hj. rewrite <- (A4 j Hj). apply load_le_ext. intros y Hy. apply Hfr. unfold lenZ, PGSIZE in *. lia.
  - eapply fe_idle_ext; [exact A7|apply fe_same_refl|]. intros y Hy. apply (fe_below y) in Hy. cbn [memory]. apply Hfr. lia.
  - intros b len Hb y Hy. rewrite (Hlow b len y Hb Hy). by apply (A11 b len).
  - eapply file_tables_ext; [|exact A12]. intros y. destruct (decide (a <= y < a + Z.of_nat w)); [right; apply tables_low; lia|left; by apply Hfr].
Qed.

(** *** The end of the loader: the entry point, and closing the file *)
Definition finish (f : Z) : M (kstate S) unit :=
  let* x := proc (Some p) in
  let* entry := pmem (load64 (u64 (eb_ehdr bufs + EH_ENTRY))) in
  pmem (store64 (u64 (trapframe x + TF_EPC)) entry) ;;;
  let* _ := on_km (spike_file_close sym f) in
  let* x := proc (Some p) in
  let* _ := pmem (load64 (u64 (trapframe x + TF_EPC))) in
  ret tt.

(** The trap frame is data of the process in the arena. *)
Record frame_placed U T (x : process) : Prop := {
  fp_tables : kept lo hi T U (trapframe x) sizeof_trapframe;
  fp_range : lo <= trapframe x /\ trapframe x + sizeof_trapframe <= hi;
  fp_regions : trapframe x + sizeof_trapframe <= mi \/ mi + PGSIZE <= trapframe x
}.

Lemma wp_finish n U T g l x kfds refs slots s j e (Q : unit -> kstate S -> Prop) E :
  start n U T g l x kfds refs slots s -> frame_placed U T x -> 0 <= j < MAX_FILES -> 0 <= kfds j < MAX_FDS -> refs j = INIT_FILE_REF ->
  slots (kfds j) <> file_at sym j -> load_le 8 (eb_ehdr bufs + EH_ENTRY) (memory (km s)) = Some e ->
  (forall s', start n U T g l x kfds (put_at j 2 refs) slots s' -> load_le 8 (trapframe x + TF_EPC) (memory (km s')) = Some e ->
     procs s' = procs s /\ current s' = current s /\ ready_queue_head s' = ready_queue_head s /\ g_ticks s' = g_ticks s /\
       g_kernel_pagetable (km s') = g_kernel_pagetable (km s) ->
     (forall y, ~ (trapframe x + TF_EPC <= y < trapframe x + TF_EPC + 8) -> outside_files sym y -> memory (km s') !! y = memory (km s) !! y) ->
     Q tt s') ->
  wp (finish (file_at sym j)) Q E s.
Proof.
  intros HA [[F1 _] [F2 F2'] F3] Hj Hk Hr Hne He HQ. pose proof (lo_56 _ _ _ _ _ _ _ _ _ _ HA) as Hlo. pose proof (sa_proc _ _ _ _ _ _ _ _ _ _ HA) as Hx.
  pose proof (as_inv _ _ _ _ _ _ _ _ _ _ (sa_space _ _ _ _ _ _ _ _ _ _ HA)) as HV. destruct (al_arena _ _ _ (vi_al _ _ _ _ _ _ _ HV)) as [Hlo0 Hhi].
  destruct (ly_low HY _ _ (list_elem_of_lookup_2 locals 1 _ eq_refl)) as (E1 & E2 & _).
  pose proof (load_le_range 8 _ _ _ (pt_bytes _ _ _ (vi_tree _ _ _ _ _ _ _ HV)) He) as Her. change (2 ^ (8 * Z.of_nat 8)) with (2 ^ 64) in Her.
  unfold EH_ENTRY, TF_EPC, sizeof_trapframe, sizeof_elf_header in *.
  unfold finish. apply wp_bind. eapply wp_proc; [exact Hx|]. apply wp_bind. unfold EH_ENTRY, TF_EPC.
  rewrite !u64_id by (unfold is_u64; lia). eapply (wp_pmem_load s 8); [exact He|].
  apply wp_bind, wp_pmem, wp_store; [intros y Hy; apply (vi_arena _ _ _ _ _ _ _ HV); lia|]. intros m' Hs _.
  assert (HA' : start n U T g l x kfds refs slots (set_mem m' s)).
  { eapply (start_store n U T g l x kfds refs slots s 8 (trapframe x + 264) e); [exact HA|intros π q Hq; destruct (F1 π q Hq); [left|right]; lia|lia|lia|exact Hs]. }
  apply wp_bind, wp_on_km. eapply (wp_close _ _ _ _ j); [exact (layout_tables Hlo)|exact (sa_files _ _ _ _ _ _ _ _ _ _ HA')|exact Hj|exact Hk|exact Hr|exact Hne|].
  intros k' HR. pose proof (start_retabled _ _ _ _ _ _ _ _ _ _ _ _ _ _ HA' HR) as HA2.
  apply wp_bind. eapply wp_proc; [exact Hx|].
  assert (Hepc : load_le 8 (trapframe x + 264) (memory k') = Some e).
  { rewrite <- (Z.mod_small e (2 ^ 64) Her). etrans; [|exact (load_store_same _ _ _ _ _ Hs)]. apply load_le_ext. intros y Hy.
    apply (rt_frame _ _ _ _ _ _ HR), tables_low. lia. }
  apply wp_bind. rewrite u64_id by (unfold is_u64; lia). eapply (wp_pmem_load _ 8); [exact Hepc|]. apply wp_ret. apply HQ; [exact HA2|exact Hepc| |].
  - split_and!; try done. exact (rt_dir _ _ _ _ _ _ HR).
  - intros y Hy Ho. etrans; [exact (rt_frame _ _ _ _ _ _ HR y Ho)|]. cbn [km set_mem set_km memory].
    apply (store_frame _ _ _ _ _ _ Hs). by destruct (inside_spec (trapframe x + 264) (Z.of_nat 8) y); [lia|].
Qed.
End load.
