(* ===== verification/LoaderSpec.v ===== *)
(** * Loading the program of the command line: the specification

    What [load_bincode_from_host_elf] adds to a process, and why it refuses a
    program; the whole of it, in terms of the steps of Loader.v. *)
From stdpp Require Import base gmap list strings.
From Stdlib Require Import ZArith Lia.
From S2P Require Import Prelude Riscv PmmState Mem Str Vmm VmmProofs VmmSpec KernVm VmTheorems ProcState Sched Process Trap SchedProofs TrapProofs HeapProofs SpaceProofs AllocProcess Spike SpikeProofs SpikeFile SpikeFileProofs Elf Hosted ElfProofs ElfSpec Loader.

#[local] Arguments load_le : simpl never.
#[local] Arguments store_le : simpl never.

(** What the loader makes of a file. *)
Definition header_status (data : list Z) : elf_status :=
  if lenZ data <? sizeof_elf_header then EL_EIO
  else if negb (le_at data EH_MAGIC 4 =? ELF_MAGIC) then EL_NOTELF else EL_OK.
Definition plan_of (data : list Z) : list seg * elf_status :=
  elf_plan data (Z.to_nat (le_at data EH_PHNUM 2)) (le_at data EH_PHOFF 8).
Definition file_ok (g : Z -> option Z) (l : list (Z * Z * Z)) (data : list Z) : Prop :=
  lenZ data < 2 ^ 62 /\
  (header_status data = EL_OK ->
     le_at data EH_PHOFF 8 + sizeof_elf_prog_header * le_at data EH_PHNUM 2 < 2 ^ 31 /\ segs_fit data g l (fst (plan_of data))).

Section load.
Context {S : Type} `{Allocator S} `{Harts S} `{!HartsLens S} `{Frontend S} `{SpikeAtomics} `{!AtomicsSpec} (lo hi : Z)
  `{!AllocatorSpec S lo hi} `{!FrontendSpec S lo hi} `{!LoaderHost S lo hi}.
Context (sym : spike_symbols) (bufs : elf_bufs) (p root mi : Z).
Implicit Types (T : ptable) (U : gset Z) (n : nat) (s : kstate S).

(** The file named on the command line, and why it is refused. *)
Definition program : option (list Z) := name ← lh_argv !! 1%nat; lh_disk name.
Definition refusal : option stop :=
  match lh_argv !! 1%nat with
  | None => Some (Panicked "You need to specify the application program!")
  | Some name =>
      match lh_disk name with
      | None => Some (Panicked "Fail on openning the input application program.")
      | Some data =>
          if decide (header_status data = EL_OK) then
            if decide (snd (plan_of data) = EL_OK) then None else Some (Panicked "Fail on loading elf.")
          else Some (Panicked "fail to init elfloader.")
      end
  end.

(** The process with the program [data] in its address space. *)
Record loaded n U T g l x s data pages n' U' T' s' : Prop := {
  ld_space : aspace lo hi root mi n' U' T' (seg_views g (fst (plan_of data)) pages) (l ++ map seg_region (fst (plan_of data))) s';
  ld_count : (n <= n' + 3 * length (fst (plan_of data)))%nat;
  ld_length : length pages = length (fst (plan_of data));
  ld_pages : NoDup pages /\ forall a, a ∈ pages -> (a ∉ U) /\ a ∈ U' /\ page_ok a /\ lo <= a /\ a + PGSIZE <= hi;
  ld_holds (i : nat) sg a : fst (plan_of data) !! i = Some sg -> pages !! i = Some a -> holds_seg data (memory (km s')) a sg;
  ld_entry : load_le 8 (trapframe x + TF_EPC) (memory (km s')) = Some (le_at data EH_ENTRY 8);
  ld_proc : procs s' !! p = Some (more_regions (lenZ (fst (plan_of data))) x);
  ld_others q : q <> p -> procs s' !! q = procs s !! q;
  ld_rest : current s' = current s /\ ready_queue_head s' = ready_queue_head s /\ g_ticks s' = g_ticks s /\
            g_kernel_pagetable (km s') = g_kernel_pagetable (km s);
  ld_frame : frame_placed lo hi mi U' T' x;
  ld_kept a k : kept lo hi T U a k -> a + k <= mi \/ mi + PGSIZE <= a ->
    a + k <= trapframe x + TF_EPC \/ trapframe x + TF_EPC + 8 <= a ->
    (forall b len, (b, len) ∈ locals sym bufs -> a + k <= b \/ b + len <= a) -> (forall y, a <= y < a + k -> fe_scratch y = false) ->
    forall y, a <= y < a + k -> memory (km s') !! y = memory (km s) !! y
}.

Context (HY : layout lo hi sym bufs mi).

#[local] Abbreviation start := (start lo hi sym bufs p root mi).

(** The tables of files and the command line survive the loading. *)
Lemma segs_start n U T g l x kfds refs slots s j data s1 segs pages n' U' T' s2 :
  start n U T g l x kfds refs slots s -> loading lo hi bufs (open_info sym p j) p root mi (kfds j) data (take 64 data) n U T g l x s1 ->
  length (take 64 data) = 64%nat -> lenZ l + lenZ segs <= 256 ->
  (forall y, ~ (eb_ehdr bufs <= y < eb_ehdr bufs + sizeof_elf_header) -> fe_scratch y = false -> memory (km s1) !! y = memory (km s) !! y) ->
  segs_loaded lo hi bufs (open_info sym p j) p root mi (kfds j) data (take 64 data) n U T g l x s1 segs pages n' U' T' s2 ->
  start n' U' T' (seg_views g segs pages) (l ++ map seg_region segs) (more_regions (lenZ segs) x) kfds refs slots s2.
Proof.
  intros HA HL1 Hh Hroom M1 HS. pose proof HS as [_ HL2 _ _ _ _ HC].
  eapply loading_start; [exact HA|exact Hh| |exact HL2|].
  { rewrite lenZ_app. unfold lenZ in *. rewrite length_map. lia. }
  intros i a len y Hi1 Hi2 Ha Hy. pose proof (list_elem_of_lookup_2 _ _ _ Ha) as Hin. destruct (ly_low _ _ _ _ _ HY a len Hin) as (_ & Hlo & Hs).
  destruct (ly_regions _ _ _ _ _ HY) as [R1 _].
  destruct (cm_kept _ _ _ _ _ _ _ _ _ _ _ HC a len) as [_ Hm]; [eapply low_kept; [exact HL1|exact Hlo]| |].
  - split_and!; [left; lia|exact (ly_apart _ _ _ _ _ HY i 2 a len _ _ Hi2 Ha eq_refl)|exact Hs].
  - rewrite Hm by done. apply M1; [|by apply Hs]. pose proof (ly_apart _ _ _ _ _ HY i 1 a len _ _ Hi1 Ha eq_refl) as Hap. unfold apart in Hap. lia.
Qed.

Lemma frame_away a len : lo <= a -> (a + len <= mi \/ mi + PGSIZE <= a) -> away lo hi bufs mi a len.
Proof.
  intros Ha Hmi. destruct (ly_low _ _ _ _ _ HY _ _ (list_elem_of_lookup_2 (locals sym bufs) 2 _ eq_refl)) as (_ & P2 & _).
  split_and!; [exact Hmi|right; lia|]. intros y Hy. destruct (fe_scratch y) eqn:Es; [apply (fe_below y) in Es; lia|done].
Qed.

(** Data of the kernel image apart from the loader's stays as it is. *)
Lemma locals_outside a k y : (forall b len, (b, len) ∈ locals sym bufs -> a + k <= b \/ b + len <= a) -> a <= y < a + k -> outside_files sym y.
Proof.
  intros Ha Hy. pose proof (Ha _ _ (list_elem_of_lookup_2 (locals sym bufs) 3 _ eq_refl)) as A3.
  pose proof (Ha _ _ (list_elem_of_lookup_2 (locals sym bufs) 4 _ eq_refl)) as A4. split.
  - by destruct (inside_spec (a_spike_files sym) (sizeof_spike_file * MAX_FILES) y); [lia|].
  - by destruct (inside_spec (a_spike_fds sym) (8 * MAX_FDS) y); [lia|].
Qed.

Lemma loaded_end n U T g l x s j kfd hdr s1 data pages n' U' T' s2 kfds refs slots s' :
  frame_placed lo hi mi U T x -> frame_placed lo hi mi U' T' (more_regions (lenZ (fst (plan_of data))) x) ->
  (forall y, ~ (eb_ehdr bufs <= y < eb_ehdr bufs + sizeof_elf_header) -> fe_scratch y = false -> memory (km s1) !! y = memory (km s) !! y) ->
  procs s1 = procs s /\ current s1 = current s /\ ready_queue_head s1 = ready_queue_head s /\ g_ticks s1 = g_ticks s /\
    g_kernel_pagetable (km s1) = g_kernel_pagetable (km s) ->
  segs_loaded lo hi bufs (open_info sym p j) p root mi kfd data hdr n U T g l x s1 (fst (plan_of data)) pages n' U' T' s2 ->
  start n' U' T' (seg_views g (fst (plan_of data)) pages) (l ++ map seg_region (fst (plan_of data)))
    (more_regions (lenZ (fst (plan_of data))) x) kfds refs slots s' ->
  load_le 8 (trapframe x + TF_EPC) (memory (km s')) = Some (le_at data EH_ENTRY 8) ->
  procs s' = procs s2 /\ current s' = current s2 /\ ready_queue_head s' = ready_queue_head s2 /\ g_ticks s' = g_ticks s2 /\
    g_kernel_pagetable (km s') = g_kernel_pagetable (km s2) ->
  (forall y, ~ (trapframe x + TF_EPC <= y < trapframe x + TF_EPC + 8) -> outside_files sym y -> memory (km s') !! y = memory (km s2) !! y) ->
  loaded n U T g l x s data pages n' U' T' s'.
Proof.
  intros [[F1 F1'] [F2 F2'] F3] HF' M1 (P1 & C1 & W1 & G1 & D1) [S1 S2 S3 S4 S5 S6 [K1 K2 K3 K4 K5]] HA3 Hepc (P3 & C3 & W3 & G3 & D3) Hfr.
  destruct K2 as (C2 & W2 & G2 & D2). split.
  - exact (sa_space _ _ _ _ _ _ _ _ _ _ _ _ _ _ _ _ _ HA3).
  - exact S1.
  - exact S3.
  - by split.
  - intros i sg a Hsg Ha y Hy. destruct (S4 a (list_elem_of_lookup_2 _ _ _ Ha)) as (Hn & _ & [Hal _] & Hlo & Hhi).
    rewrite Hfr; [by apply (S6 i sg a)| |apply (tables_low lo hi sym bufs mi HY); lia].
    destruct (F1' a Hal ltac:(by split)); unfold TF_EPC, sizeof_trapframe in *; lia.
  - exact Hepc.
  - exact (sa_proc _ _ _ _ _ _ _ _ _ _ _ _ _ _ _ _ _ HA3).
  - intros q Hq. by rewrite P3, K3, P1.
  - split_and!; congruence.
  - destruct HF'. by split.
  - intros a k Hk Hmi Htf Hl Hs y Hy. rewrite Hfr; [|lia|by eapply locals_outside].
    destruct (K4 a k Hk) as [_ Hm].
    { split_and!; [exact Hmi|exact (Hl _ _ (list_elem_of_lookup_2 (locals sym bufs) 2 _ eq_refl))|exact Hs]. }
    rewrite Hm by done. apply M1; [|by apply Hs].
    pose proof (Hl _ _ (list_elem_of_lookup_2 (locals sym bufs) 1 _ eq_refl)). lia.
Qed.

Lemma loaded_before n U T g l x s1 s2 data pages n' U' T' s' :
  procs s2 = procs s1 /\ current s2 = current s1 /\ ready_queue_head s2 = ready_queue_head s1 /\ g_ticks s2 = g_ticks s1 /\
    g_kernel_pagetable (km s2) = g_kernel_pagetable (km s1) ->
  (forall y, ~ (eb_args bufs <= y < eb_args bufs + 512) -> fe_scratch y = false -> outside_files sym y ->
     memory (km s2) !! y = memory (km s1) !! y) ->
  loaded n U T g l x s2 data pages n' U' T' s' -> loaded n U T g l x s1 data pages n' U' T' s'.
Proof.
  intros (P & C & W & G & D) M [L1 L2 L3 L4 L5 L6 L7 L8 (L9 & L10 & L11 & L12) L12' L13]. split; try done.
  - intros q Hq. by rewrite L8, P.
  - split_and!; congruence.
  - intros a k Hk Hmi Htf Hl Hs y Hy. rewrite (L13 a k) by done. apply M; [|by apply Hs|by eapply locals_outside].
    pose proof (Hl _ _ (list_elem_of_lookup_2 (locals sym bufs) 0 _ eq_refl)). lia.
Qed.

(** From the opened file on. *)
Lemma wp_load_opened n U T g l x kfds refs slots s j data (Q : unit -> kstate S -> Prop) E :
  start n U T g l x kfds refs slots s -> frame_placed lo hi mi U T x -> file_ok g l data ->
  0 <= j < MAX_FILES -> 0 <= kfds j < MAX_FDS -> refs j = INIT_FILE_REF -> slots (kfds j) <> file_at sym j ->
  fe_files (heap (km s)) (kfds j) = Some data ->
  (header_status data <> EL_OK -> forall s', E (Panicked "fail to init elfloader.") s') ->
  (header_status data = EL_OK -> snd (plan_of data) <> EL_OK -> forall s', E (Panicked "Fail on loading elf.") s') ->
  ((n < 3 * length (fst (plan_of data)))%nat -> forall s', E al_stop s') ->
  (forall pages n' U' T' s', header_status data = EL_OK -> snd (plan_of data) = EL_OK -> loaded n U T g l x s data pages n' U' T' s' -> Q tt s') ->
  wp (let info := mkElfInfo (file_at sym j) (Some p) in
      let* st := elf_init bufs info in
      (if decide (st = EL_OK) then ret tt else panic "fail to init elfloader.") ;;;
      let* st := elf_load bufs info in
      (if decide (st = EL_OK) then ret tt else panic "Fail on loading elf.") ;;;
      finish sym bufs p (file_at sym j)) Q E s.
Proof.
  intros HA HF [Hd Hok] Hj Hk Hr Hne Hfile Ehdr Eplan Epages HQ. destruct (ly_regions _ _ _ _ _ HY) as [R1 R2].
  destruct (start_loading lo hi sym bufs p root mi _ _ _ _ _ _ _ _ _ _ j data HA Hj Hk Hfile) as (hdr & Hh & HL).
  pose proof (open_placed lo hi sym bufs p mi HY j data Hj Hd) as HPl. cbv zeta.
  change (mkElfInfo (file_at sym j) (Some p)) with (open_info sym p j).
  apply wp_bind. eapply wp_mono; [apply (elf_init_checks lo hi bufs _ p root mi (kfds j) data hdr n U T g l x s R1 R2 HPl Hh (sa_length _ _ _ _ _ _ _ _ _ _ _ _ _ _ _ _ _ HA) HL)| |done].
  intros st s1 (-> & HL1 & P1 & C1 & W1 & G1 & D1 & M1). fold (header_status data).
  destruct (decide (header_status data = EL_OK)) as [Eh|Eh]; [|by apply wp_bind, wp_halt, Ehdr].
  apply wp_bind, wp_ret. destruct (Hok Eh) as [Hoff Hfit].
  assert (Hlen : sizeof_elf_header <= lenZ data).
  { unfold header_status in Eh. destruct (Z.ltb_spec (lenZ data) sizeof_elf_header); [done|lia]. }
  specialize (HL1 Hlen). assert (Hh2 : length (take 64 data) = 64%nat) by (rewrite length_take; unfold lenZ, sizeof_elf_header in Hlen; lia).
  assert (Hfield : forall k j, 0 <= k -> k + Z.of_nat j <= 64 -> le_at (take 64 data) k j = le_at data k j).
  { intros k i Hk1 Hk2. change (take 64 data) with (piece 0 64 data). by rewrite piece_le_at by lia. }
  apply wp_bind. unfold plan_of in *.
  pose proof (elf_load_run lo hi bufs (open_info sym p j) p root mi (kfds j) data (take 64 data) n U T g l x s1 R1 R2 eq_refl HPl Hh2 HL1) as Hrun.
  cbv zeta in Hrun. rewrite !Hfield in Hrun by (unfold EH_PHNUM, EH_PHOFF; lia).
  eapply wp_mono; [exact (Hrun Hoff Hfit)| |].
  2: { intros h s' [-> Hn]. by apply Epages. }
  intros st s2 (-> & pages & n' & U' & T' & HS). fold (plan_of data) in *.
  destruct (decide (snd (plan_of data) = EL_OK)) as [Ep|Ep]; [|by apply wp_bind, wp_halt, Eplan].
  pose proof (sf_room _ _ _ _ Hfit) as Hroom.
  pose proof (segs_start _ _ _ _ _ _ _ _ _ _ _ _ _ _ _ _ _ _ _ HA HL1 Hh2 Hroom M1 HS) as HA2.
  pose proof HS as [S1 S2 S3 S4 S5 S6 [C1' C2 C3 C4 C5]].
  assert (Hentry : load_le 8 (eb_ehdr bufs + EH_ENTRY) (memory (km s2)) = Some (le_at data EH_ENTRY 8)).
  { rewrite <- (Hfield EH_ENTRY 8%nat) by (unfold EH_ENTRY; lia). apply load_le_at; [exact (lg_hdr _ _ _ _ _ _ _ _ _ _ _ _ _ _ _ _ _ S2)|done|].
    unfold lenZ. by rewrite Hh2. }
  apply wp_bind, wp_ret.
  assert (HF2 : frame_placed lo hi mi U' T' (more_regions (lenZ (fst (plan_of data))) x)).
  { destruct HF as [F1 [F2 F2'] F3]. split; [|done|done]. apply (C4 _ _ F1). by apply frame_away. }
  eapply (wp_finish lo hi sym bufs p root mi HY); [exact HA2|exact HF2|exact Hj|exact Hk|exact Hr|exact Hne|exact Hentry|].
  intros s' HA3 Hepc Hrest Hfr. apply (HQ pages n' U' T'); [done|done|].
  eapply loaded_end; [exact HF|exact HF2|exact M1|by split_and!|exact HS|exact HA3|exact Hepc|exact Hrest|exact Hfr].
Qed.
End load.

(** ** The whole of it *)
Lemma wp_load_bincode {S} `{Allocator S} `{Harts S} `{!HartsLens S} `{Frontend S} `{SpikeAtomics} `{!AtomicsSpec} (lo hi : Z)
    `{!AllocatorSpec S lo hi} `{!FrontendSpec S lo hi} `{!LoaderHost S lo hi}
    (sym : spike_symbols) (bufs : elf_bufs) (p root mi : Z) n U T g l x kfds refs slots (s : kstate S) (Q : unit -> kstate S -> Prop) E :
  layout lo hi sym bufs mi -> start lo hi sym bufs p root mi n U T g l x kfds refs slots s -> frame_placed lo hi mi U T x ->
  (exists j, 0 <= j < MAX_FILES /\ refs j = 0) ->
  (forall i j, 0 <= i < MAX_FDS -> 0 <= j < MAX_FILES -> slots i = file_at sym j -> refs j <> 0) ->
  (forall data, program lo hi = Some data -> file_ok g l data) ->
  (forall data pages n' U' T' s', refusal lo hi = None -> program lo hi = Some data ->
     loaded lo hi sym bufs p root mi n U T g l x s data pages n' U' T' s' -> Q tt s') ->
  (forall h s', refusal lo hi = Some h -> E h s') ->
  (forall data s', program lo hi = Some data -> (n < 3 * length (fst (plan_of data)))%nat -> E al_stop s') ->
  wp (load_bincode_from_host_elf sym bufs (Some p)) Q E s.
Proof.
  intros HY HA HF Hfree Hslots Hfile HQ Hno Hfew. unfold load_bincode_from_host_elf. apply wp_bind.
  eapply (wp_parse_args lo hi sym bufs p root mi HY); [exact HA|]. intros k1 s1 HA1 HS1 Hname. unfold program, refusal in *.
  assert (Hpos : 0 < lenZ lh_argv) by (pose proof lh_argv_some; unfold lenZ; destruct lh_argv; [done|cbn; lia]).
  destruct (lh_argv !! 1%nat) as [name|] eqn:En; cbn [mbind option_bind] in *.
  2: { apply lookup_ge_None in En. replace (lenZ lh_argv - 1) with 0 by (unfold lenZ in *; lia). by apply wp_bind, wp_halt, Hno. }
  apply lookup_lt_Some in En. rewrite (proj2 (Z.eqb_neq _ _)) by (unfold lenZ in *; lia). apply wp_bind, wp_ret.
  destruct (Hname name eq_refl) as (a & La & Ca & Ra & Ra2). apply wp_bind. eapply (wp_pmem_load s1 8); [exact La|].
  apply wp_bind. eapply (wp_open lo hi sym bufs p root mi HY); [exact HA1|exact Ca|exact Ra|exact Ra2|exact Hfree| |].
  2: { intros e k' Hd He. rewrite Hd in Hno. assert (Eerr : IS_ERR_VALUE (ERR_PTR e) = true) by (unfold IS_ERR_VALUE, ERR_PTR, u64; apply Z.leb_le; zlia).
       rewrite Eerr. by apply wp_bind, wp_halt, Hno. }
  intros data j r k2 s2 Hd Hj Hrj Hr HA2 Hfd HT2. rewrite Hd in Hno, HQ, Hfew. specialize (Hfile data Hd).
  assert (Eerr : IS_ERR_VALUE (file_at sym j) = false).
  { destruct (layout_tables lo hi sym bufs mi HY) as [Hp _ _]; [by eapply (lo_56 lo hi sym bufs p root mi HY)|]. pose proof (lo_56 lo hi sym bufs p root mi HY _ _ _ _ _ _ _ _ _ _ HA).
    destruct (ly_low _ _ _ _ _ HY _ _ (list_elem_of_lookup_2 (locals sym bufs) 3 _ eq_refl)) as (_ & Hlo & _).
    unfold IS_ERR_VALUE, file_at, u64, sizeof_spike_file, MAX_FILES in *. apply Z.leb_gt. zlia. }
  rewrite Eerr. apply wp_bind, wp_ret.
  assert (Hk : put_at j r kfds j = r /\ put_at j INIT_FILE_REF refs j = INIT_FILE_REF) by (unfold put_at; by rewrite Z.eqb_refl).
  destruct Hk as [Hk1 Hk2]. eapply (wp_load_opened lo hi sym bufs p root mi HY n U T g l x); [exact HA2|exact HF|exact Hfile|exact Hj|by rewrite Hk1|exact Hk2| |by rewrite Hk1|..].
  - rewrite Hk1. intros Heq. by apply (Hslots r j Hr Hj Heq).
  - intros Eh s'. apply Hno. by rewrite decide_False.
  - intros Eh Ep s'. apply Hno. by rewrite decide_True, decide_False.
  - intros Hn s'. by apply (Hfew data).
  - intros pages n' U' T' s' Eh Ep HL. apply (HQ data pages n' U' T'); [by rewrite !decide_True|done|].
    destruct HT2 as [G2 M2]. eapply (loaded_before lo hi sym bufs p root mi); [ | |exact HL].
    + split_and!; try done. transitivity (g_kernel_pagetable k1); [exact G2|exact (ho_dir _ _ _ _ HS1)].
    + intros y Hy Hs Ho. transitivity (memory k1 !! y); [by apply M2|by apply (ho_frame _ _ _ _ HS1)].
Qed.
