(* ===== verification/FirstProcess.v ===== *)
(** * The first process: lemmas

    [alloc_process], the loader, the ready queue and the scheduler in the order
    of kernel/kernel.c, over any allocator and host that keep their promises:
    what the allocation of a process leaves of the host, how its result meets
    what the loader asks for, and the pool at start. *)
From stdpp Require Import base gmap list strings.
From Stdlib Require Import ZArith Lia.
From S2P Require Import Prelude Riscv PmmState Mem Str Vmm VmmProofs VmmSpec KernVm ProcState Sched Process SchedProofs TrapProofs HeapProofs SpaceProofs AllocProcess Fork Spike SpikeProofs SpikeFile SpikeFileProofs Elf Hosted ElfProofs ElfSpec Loader LoaderSpec Kernel.

#[local] Arguments load_le : simpl never.
#[local] Arguments store_le : simpl never.

(** ** The pool *)
Section pool.
Context {S : Type} `{Allocator S}.
Implicit Types (s : kstate S) (P : gmap Z process).

Definition initialised (i : Z) (x : process) : process := with_pid i (with_status FREE x).

Lemma wp_init_pool_loop n : forall i s (Q : unit -> kstate S -> Prop) E,
  (forall j, i <= j < i + Z.of_nat n -> is_Some (procs s !! j)) ->
  (forall P, (forall j x, procs s !! j = Some x -> P !! j = Some (if decide (i <= j < i + Z.of_nat n) then initialised j x else x)) -> Q tt (set_procs P s)) ->
  wp (init_pool_loop n i) Q E s.
Proof.
  induction n as [|n IH]; intros i s Q E Hs HQ; cbn [init_pool_loop].
  - apply wp_ret. destruct s as [k P c h t]. apply (HQ P). intros j x Hx. by rewrite decide_False by lia.
  - destruct (Hs i ltac:(lia)) as [x Hx]. apply wp_bind. eapply wp_upd_proc; [exact Hx|].
    apply wp_bind. eapply wp_upd_proc; [cbn; apply lookup_insert_eq|]. cbn [procs set_procs]. rewrite insert_insert_eq.
    apply IH.
    + cbn [procs set_procs]. intros j Hj. rewrite lookup_insert_ne by lia. apply Hs. lia.
    + cbn [procs set_procs]. intros P HP. apply (HQ P). intros j y Hy. destruct (decide (j = i)) as [->|Hne].
      * rewrite (HP i (initialised i x)) by apply lookup_insert_eq. rewrite decide_False by lia. rewrite decide_True by lia. congruence.
      * rewrite (HP j y) by (by rewrite lookup_insert_ne). by destruct (decide (i + 1 <= j < i + 1 + Z.of_nat n)), (decide (i <= j < i + Z.of_nat (Datatypes.S n))); try lia.
Qed.

Lemma zero_pool_lookup i : 0 <= i < NPROC -> zero_pool !! i = Some zero_process.
Proof.
  intros Hi. unfold zero_pool. apply elem_of_list_to_map_1.
  - rewrite <- list_fmap_compose. cbn. rewrite list_fmap_id. apply NoDup_seqZ.
  - apply list_elem_of_fmap. exists i. split; [done|]. apply elem_of_seqZ. lia.
Qed.

(** The pool after [init_proc_pool]. *)
Definition fresh_pool P : Prop := forall i, 0 <= i < NPROC -> P !! i = Some (initialised i zero_process).

Lemma wp_init_proc_pool s (Q : unit -> kstate S -> Prop) E :
  (forall P, fresh_pool P -> Q tt (set_procs P s)) -> wp init_proc_pool Q E s.
Proof.
  intros HQ. unfold init_proc_pool. apply wp_bind, wp_modify. apply wp_init_pool_loop.
  - intros j Hj. cbn [procs set_procs]. rewrite zero_pool_lookup by (unfold NPROC in *; lia). by eexists.
  - cbn [procs set_procs]. intros P HP. apply HQ. intros i Hi. rewrite (HP i zero_process) by (by apply zero_pool_lookup).
    by rewrite decide_True by (unfold NPROC in *; lia).
Qed.
End pool.

(** ** The host is not touched by the allocation of a process *)
Section untouched.
Context {S : Type} `{Allocator S} `{Harts S} `{Frontend S} {lo hi : Z} `{!AllocatorSpec S lo hi} `{!FrontendSpec S lo hi}.

Definition hostless {A} (m : M (kstate S) A) : Prop :=
  forall s, match m s with Ret _ s' => fe_same (heap (km s)) (heap (km s')) | Halt _ _ => True end.

Lemma hostless_ret {A} (a : A) : hostless (ret a).
Proof. intros s. apply fe_same_refl. Qed.
Lemma hostless_halt {A} h : hostless (A := A) (halt h).
Proof. by intros s. Qed.
Lemma hostless_bind {A B} (m : M (kstate S) A) (f : A -> M (kstate S) B) : hostless m -> (forall a, hostless (f a)) -> hostless (bind m f).
Proof.
  intros Hm Hf s. unfold bind. specialize (Hm s). destruct (m s) as [a s1|]; [|done]. specialize (Hf a s1).
  destruct (f a s1); [|done]. by eapply fe_same_trans.
Qed.
Lemma hostless_km {A} (m : M (kmem S) A) : steady m -> hostless (on_km m).
Proof. intros Hm s. unfold on_km, zoom. specialize (Hm (km s)). by destruct (m (km s)). Qed.
Lemma hostless_proc p : hostless (proc p).
Proof. intros s. unfold proc, read_opt. destruct (p ≫= _); [apply fe_same_refl|done]. Qed.
Lemma hostless_upd f p : hostless (upd_proc f p).
Proof. apply hostless_bind; [apply hostless_proc|]. intros x s. destruct p; apply fe_same_refl. Qed.

Ltac hostless :=
  repeat first
    [ apply hostless_ret | apply hostless_halt | apply hostless_proc | apply hostless_upd
    | apply hostless_km; first [apply steady_mem | apply steady_page | apply steady_user_vm_map]
    | apply hostless_bind; [|intros ?] | match goal with |- hostless (if ?b then _ else _) => destruct b end ].

Lemma hostless_find_free n : forall i, hostless (find_free n i).
Proof. induction n as [|n IH]; intros i; cbn [find_free]; [apply hostless_ret|]. apply hostless_bind; [hostless|]. intros x. by destruct (status x =? FREE); [apply hostless_ret|]. Qed.

Lemma hostless_set_region info j va np ty : hostless (set_region info j va np ty).
Proof. unfold set_region. hostless. Qed.

Lemma hostless_alloc_process sym : hostless (alloc_process sym).
Proof.
  unfold alloc_process. apply hostless_bind; [apply hostless_find_free|]. intros i.
  repeat first [progress hostless | apply hostless_set_region].
Qed.

Lemma wp_hostless {A} (m : M (kstate S) A) (Q : A -> kstate S -> Prop) E s :
  hostless m -> wp m (fun a s' => fe_same (heap (km s)) (heap (km s')) -> Q a s') E s -> wp m Q E s.
Proof. intros Hm. unfold wp. specialize (Hm s). destruct (m s); auto. Qed.
End untouched.

(** ** From a new process to the loader *)
Section first.
Context {S : Type} `{Allocator S} `{Harts S} `{!HartsLens S} `{!HartsSpec S} `{Frontend S} `{SpikeAtomics} `{!AtomicsSpec} (lo hi : Z)
  `{!AllocatorSpec S lo hi} `{!FrontendSpec S lo hi} `{!LoaderHost S lo hi}.
Context (files : spike_symbols) (bufs : elf_bufs) (sym : symbols).
Implicit Types (T : ptable) (U : gset Z) (n : nat) (s : kstate S).

(** The kernel image and the arena; a program that a new process has room for:
    its segments lie below the arena, on pages of their own. *)
Context (HY : AllocProcess.layout lo hi sym) (HL : forall mi, lo <= mi -> mi + PGSIZE <= hi -> layout lo hi files bufs mi).

Record fits_user (data : list Z) : Prop := {
  fu_headers : le_at data EH_PHOFF 8 + sizeof_elf_prog_header * le_at data EH_PHNUM 2 < 2 ^ 31;
  fu_segs sg : sg ∈ fst (plan_of data) -> seg_ok data sg /\ sg_va sg + PGSIZE <= lo /\
    sg_va sg <> stack_page /\ sg_va sg <> trap_sec_start sym;
  fu_count : lenZ (fst (plan_of data)) <= 252;
  fu_apart : NoDup (map sg_va (fst (plan_of data)))
}.

Lemma fits_file_ok data tf us : lenZ data < 2 ^ 62 -> (header_status data = EL_OK -> fits_user data) -> lo <= tf -> file_ok (process_view sym tf us) (new_regions sym tf) data.
Proof.
  intros Hsize HF Htf. split; [exact Hsize|]. intros Hh. destruct (HF Hh) as [F2 F3 F4 F5]. split; [exact F2|]. split.
  - intros sg Hsg. by apply F3.
  - change (lenZ (new_regions sym tf)) with 4. lia.
  - intros sg Hsg. destruct (F3 sg Hsg) as ([(Sal & S0 & S1) _ _ _ _] & L1 & L2 & L3). destruct (ly_trap _ _ _ HY) as (Tal & T0 & _).
    exists 0. split; [|done]. pose proof stack_user_page as (Kal & K0 & _). unfold process_view, PGSIZE in *.
    rewrite !decide_False; [done|zlia..].
  - exact F5.
Qed.

Record host_ready kfds refs slots s : Prop := {
  hr_idle : fe_idle (km s);
  hr_locals a len : (a, len) ∈ locals files bufs -> has (memory (km s)) a len;
  hr_files : file_tables files (memory (km s)) kfds refs slots;
  hr_free : exists j, 0 <= j < MAX_FILES /\ refs j = 0;
  hr_slots i j : 0 <= i < MAX_FDS -> 0 <= j < MAX_FILES -> slots i = file_at files j -> refs j <> 0
}.

(** Below the arena the new process changed nothing. *)
Lemma created_low n U s i x tf pt ks us info n' U' T' s1 : created lo hi sym n U s i x tf pt ks us info n' U' T' s1 ->
  forall y, y < lo -> memory (km s1) !! y = memory (km s) !! y.
Proof. intros HC y Hy. destruct (cr_outside _ _ _ _ _ _ _ _ _ _ _ _ _ _ _ _ _ HC y 1) as [_ Hm]; [split; [lia|left; lia]|apply Hm; lia]. Qed.

Lemma created_start n U s i x tf pt ks us info n' U' T' s1 kfds refs slots :
  created lo hi sym n U s i x tf pt ks us info n' U' T' s1 -> fe_same (heap (km s)) (heap (km s1)) -> host_ready kfds refs slots s ->
  start lo hi files bufs i pt info n' U' T' (process_view sym tf us) (new_regions sym tf) (new_process x tf pt ks info) kfds refs slots s1.
Proof.
  intros HC Hsame [R1 R2 R3 R4 R5]. pose proof (created_low _ _ _ _ _ _ _ _ _ _ _ _ _ _ HC) as Hlow.
  pose proof (cr_fresh _ _ _ _ _ _ _ _ _ _ _ _ _ _ _ _ _ HC) as Hfresh. destruct (Hfresh info ltac:(in_list)) as (_ & _ & Li & Ri).
  destruct (Hfresh tf ltac:(in_list)) as (_ & _ & Lt & Rt). specialize (HL info Li Ri).
  pose proof (cr_inv _ _ _ _ _ _ _ _ _ _ _ _ _ _ _ _ _ HC) as HV. destruct (al_arena _ _ _ (vi_al _ _ _ _ _ _ _ HV)) as [Hlo0 _].
  assert (Hloc : forall a len y, (a, len) ∈ locals files bufs -> a <= y < a + len -> memory (km s1) !! y = memory (km s) !! y).
  { intros a len y Ha Hy. destruct (ly_low _ _ _ _ _ HL a len Ha) as (_ & Hle & _). apply Hlow. lia. }
  split.
  - split; [exact HV|exact (cr_view _ _ _ _ _ _ _ _ _ _ _ _ _ _ _ _ _ HC)|apply (cr_tables _ _ _ _ _ _ _ _ _ _ _ _ _ _ _ _ _ HC); in_list
           |exact (cr_regions _ _ _ _ _ _ _ _ _ _ _ _ _ _ _ _ _ HC)].
  - apply (cr_own _ _ _ _ _ _ _ _ _ _ _ _ _ _ _ _ _ HC). unfold pages5. set_solver.
  - exact (cr_arena _ _ _ _ _ _ _ _ _ _ _ _ _ _ _ _ _ HC).
  - change (lenZ (new_regions sym tf)) with 4. intros j Hj. rewrite <- (cr_spare _ _ _ _ _ _ _ _ _ _ _ _ _ _ _ _ _ HC j Hj). done.
  - pose proof (ly_stack _ _ _ HY) as Hst. intros e He. unfold new_regions in He.
    repeat (apply elem_of_cons in He as [->|He]; [cbn [fst]; (done || (assert (0 < USER_STACK_TOP) by done; lia))|]). by apply elem_of_nil in He.
  - done.
  - eapply fe_idle_ext; [exact R1|exact Hsame|]. intros y Hy. apply (fe_below y) in Hy. by apply Hlow.
  - rewrite (cr_procs _ _ _ _ _ _ _ _ _ _ _ _ _ _ _ _ _ HC). apply lookup_insert_eq.
  - done.
  - done.
  - intros a len Ha y Hy. rewrite (Hloc a len y Ha Hy). by apply (R2 a len Ha).
  - eapply file_tables_ext; [|exact R3]. intros y. destruct (decide (y < lo)); [left; by apply Hlow|right]. apply (tables_low lo hi files bufs info HL). lia.
Qed.

Lemma created_frame n U s i x tf pt ks us info n' U' T' s1 : created lo hi sym n U s i x tf pt ks us info n' U' T' s1 ->
  frame_placed lo hi info U' T' (new_process x tf pt ks info).
Proof.
  intros HC. pose proof (cr_fresh _ _ _ _ _ _ _ _ _ _ _ _ _ _ _ _ _ HC) as Hf. destruct (Hf info ltac:(in_list)) as (_ & Oi & Li & Ri).
  destruct (Hf tf ltac:(in_list)) as (_ & Ot & Lt & Rt). pose proof (cr_distinct _ _ _ _ _ _ _ _ _ _ _ _ _ _ _ _ _ HC) as HN.
  assert (Hne : tf <> info) by (intros ->; rewrite !NoDup_cons, !not_elem_of_cons in HN; by destruct_and?).
  split; cbn [trapframe new_process].
  - eapply kept_sub; [apply (cr_tables _ _ _ _ _ _ _ _ _ _ _ _ _ _ _ _ _ HC tf); in_list|lia|unfold sizeof_trapframe, PGSIZE; lia].
  - unfold sizeof_trapframe, PGSIZE in *. lia.
  - pose proof (pages_apart tf info Ot Oi Hne). unfold sizeof_trapframe, PGSIZE in *. lia.
Qed.
(** ** User mode *)
Definition segments (data : list Z) : list seg := fst (plan_of data).

Record in_user n U s data tf pt ks us info pages n' U' T' h s' : Prop := {
  iu_stop : h = ToUser tf (MAKE_SATP pt);
  iu_count : (n <= n' + (11 + 3 * length (segments data)))%nat;
  iu_length : length pages = length (segments data);
  iu_pages : NoDup ([tf; pt; ks; us; info] ++ pages) /\
    forall a, a ∈ [tf; pt; ks; us; info] ++ pages -> a ∉ U /\ page_ok a /\ lo <= a /\ a + PGSIZE <= hi;
  iu_queue : current s' = Some 0 /\ ready_queue_head s' = None;
  iu_proc : exists x, procs s' !! 0 = Some x /\ status x = RUNNING /\ pid x = 0 /\ trapframe x = tf /\ pagetable x = pt /\
    kstack x = ks + PGSIZE /\ mapped_info x = info /\ total_mapped_region x = 4 + lenZ (segments data);
  iu_others i : 0 < i < NPROC -> exists x, procs s' !! i = Some x /\ status x = FREE;
  iu_tree : ptree T' pt (memory (km s'));
  iu_view vb : 0 <= vb < MAXVA -> pte_at T' (memory (km s')) vb = seg_views (process_view sym tf us) (segments data) pages vb;
  iu_regions : regions_at (memory (km s')) info (new_regions sym tf ++ map seg_region (segments data));
  iu_holds (i : nat) sg a : segments data !! i = Some sg -> pages !! i = Some a -> holds_seg data (memory (km s')) a sg;
  iu_sp : load_le 8 (tf + TF_SP) (memory (km s')) = Some USER_STACK_TOP;
  iu_hart : sepc (the_hart s') = le_at data EH_ENTRY 8 /\ stvec (the_hart s') = smode_trap_vector sym /\
    Z.land (sstatus (the_hart s')) SSTATUS_SPP = 0 /\ Z.land (sstatus (the_hart s')) SSTATUS_SPIE = SSTATUS_SPIE;
  iu_frame a k : outside lo hi U a k -> (forall b len, (b, len) ∈ locals files bufs -> a + k <= b \/ b + len <= a) ->
    (forall y, a <= y < a + k -> fe_scratch y = false) -> forall y, a <= y < a + k -> memory (km s') !! y = memory (km s) !! y
}.

Lemma user_status x : Z.land (Z.lor (Z.ldiff x SSTATUS_SPP) SSTATUS_SPIE) SSTATUS_SPP = 0 /\
  Z.land (Z.lor (Z.ldiff x SSTATUS_SPP) SSTATUS_SPIE) SSTATUS_SPIE = SSTATUS_SPIE.
Proof.
  split.
  - rewrite Z.land_lor_distr_l, Z.land_ldiff. done.
  - rewrite Z.land_comm, Z.lor_comm. apply Z.bits_inj. intros i. rewrite Z.land_spec, Z.lor_spec. by destruct (Z.testbit SSTATUS_SPIE i).
Qed.
(** From the loader's end [s2] to user mode [s']: only the four words of the
    trap frame that the next trap needs have changed. *)
Definition first_running (nx : option Z) (k tf pt ks info : Z) : process :=
  with_status RUNNING (with_next nx (with_status READY (more_regions k (new_process (initialised 0 zero_process) tf pt ks info)))).

Section last.
Context (n : nat) (U : gset Z) (s : kstate S) (data : list Z) (tf pt ks us info : Z) (pages : list Z) (P' : gmap Z process) (nx : option Z)
  (n1 n2 : nat) (U1 U2 : gset Z) (T1 T2 : ptable) (s1 s2 s3 s' : kstate S).
#[local] Abbreviation x := (initialised 0 zero_process).
#[local] Abbreviation y := (first_running nx (lenZ (segments data)) tf pt ks info).
Context (HP : fresh_pool (procs s)).
Context (HC : created lo hi sym n U s 0 x tf pt ks us info n1 U1 T1 s1).
Context (HLd : loaded lo hi files bufs 0 pt info n1 U1 T1 (process_view sym tf us) (new_regions sym tf) (new_process x tf pt ks info) s1 data pages n2 U2 T2 s2).
Context (HR : relinked 0 (procs s2) P') (HK : km s3 = km s2) (HP3 : procs s3 = <[0 := y]> P').
Context (HE : entered sym 0 y (le_at data EH_ENTRY 8) s3 s').

Lemma last_frame a : ~ (tf + TF_KERNEL_SP <= a < tf + sizeof_trapframe) \/ tf + TF_EPC <= a < tf + TF_KERNEL_SATP ->
  memory (km s') !! a = memory (km s2) !! a.
Proof.
  intros Ha. rewrite <- HK. change (trapframe y) with tf in *. apply (en_frame _ _ _ _ _ _ HE); change (trapframe y) with tf;
    unfold TF_KERNEL_SP, TF_EPC, TF_KERNEL_SATP, sizeof_trapframe in *; lia.
Qed.

Lemma last_page a : page_ok a -> a <> tf -> forall z, a <= z < a + PGSIZE -> memory (km s') !! z = memory (km s2) !! z.
Proof.
  intros Ha Hne z Hz. apply last_frame. left. destruct (cr_fresh _ _ _ _ _ _ _ _ _ _ _ _ _ _ _ _ _ HC tf ltac:(in_list)) as (_ & Ot & _ & _).
  pose proof (pages_apart a tf Ha Ot Hne). unfold TF_KERNEL_SP, sizeof_trapframe, PGSIZE in *. lia.
Qed.

Lemma last_tree : ptree T2 pt (memory (km s')) /\ forall va, pte_at T2 (memory (km s')) va = pte_at T2 (memory (km s2)) va.
Proof.
  pose proof (vi_tree _ _ _ _ _ _ _ (as_inv _ _ _ _ _ _ _ _ _ _ (ld_space _ _ _ _ _ _ _ _ _ _ _ _ _ _ _ _ _ _ _ _ HLd))) as HT.
  apply tree_stays; [exact HT| |].
  - intros π q z Hq Hz. destruct (fp_tables _ _ _ _ _ _ (ld_frame _ _ _ _ _ _ _ _ _ _ _ _ _ _ _ _ _ _ _ _ HLd)) as [Hoff _].
    change (trapframe (new_process x tf pt ks info)) with tf in Hoff. apply last_frame. left.
    destruct (Hoff π q Hq); unfold TF_KERNEL_SP in *; lia.
  - apply (en_bytes _ _ _ _ _ _ HE). rewrite HK. exact (pt_bytes _ _ _ HT).
Qed.

Lemma last_pages : NoDup ([tf; pt; ks; us; info] ++ pages) /\
  forall a, a ∈ [tf; pt; ks; us; info] ++ pages -> a ∉ U /\ page_ok a /\ lo <= a /\ a + PGSIZE <= hi.
Proof.
  destruct (ld_pages _ _ _ _ _ _ _ _ _ _ _ _ _ _ _ _ _ _ _ _ HLd) as [N2 F2].
  pose proof (cr_own _ _ _ _ _ _ _ _ _ _ _ _ _ _ _ _ _ HC) as Hown. pose proof (cr_fresh _ _ _ _ _ _ _ _ _ _ _ _ _ _ _ _ _ HC) as F1. split.
  - apply NoDup_app. split_and!; [exact (cr_distinct _ _ _ _ _ _ _ _ _ _ _ _ _ _ _ _ _ HC)| |exact N2].
    intros a Ha Ha2. destruct (F2 a Ha2) as (Hn & _). apply Hn, Hown. unfold pages5. set_solver +Ha.
  - intros a [Ha|Ha]%elem_of_app; [by apply F1|]. destruct (F2 a Ha) as (Hn & _ & Hr). split; [|exact Hr]. intros HU. apply Hn, Hown. set_solver +HU.
Qed.

Lemma last_proc q z : procs s2 !! q = Some z -> q <> 0 -> exists nz, procs s' !! q = Some (with_next nz z).
Proof.
  intros Hz Hq. destruct (HR q z Hz) as [nz Hnz]. exists nz. rewrite (en_procs _ _ _ _ _ _ HE), HP3, lookup_insert_ne by done.
  by rewrite Hnz, decide_False.
Qed.

(** The stack pointer set by [alloc_process] is still there. *)
Lemma last_sp : load_le 8 (tf + TF_SP) (memory (km s')) = Some USER_STACK_TOP.
Proof.
  destruct (cr_fresh _ _ _ _ _ _ _ _ _ _ _ _ _ _ _ _ _ HC tf ltac:(in_list)) as (_ & Ot & Lt & Rt).
  destruct (created_frame _ _ _ _ _ _ _ _ _ _ _ _ _ _ HC) as [Fk _ Fi]. change (trapframe _) with tf in Fk, Fi.
  change (Some USER_STACK_TOP) with (Some (USER_STACK_TOP mod 2 ^ (8 * Z.of_nat 8))). apply load_le_bytes. intros z Hz. change (Z.of_nat 8) with 8 in Hz.
  assert (Ha : memory (km s2) !! z = memory (km s1) !! z).
  { apply (ld_kept _ _ _ _ _ _ _ _ _ _ _ _ _ _ _ _ _ _ _ _ HLd (tf + TF_SP) 8).
    - eapply kept_sub; [exact Fk|unfold TF_SP; lia|unfold TF_SP, sizeof_trapframe; lia].
    - unfold TF_SP, sizeof_trapframe in *. lia.
    - change (trapframe _) with tf. unfold TF_SP, TF_EPC. lia.
    - intros b len Hb. destruct (cr_fresh _ _ _ _ _ _ _ _ _ _ _ _ _ _ _ _ _ HC info ltac:(in_list)) as (_ & _ & Li & Ri).
      destruct (ly_low _ _ _ _ _ (HL info Li Ri) b len Hb) as (_ & Hle & _). unfold TF_SP. lia.
    - intros w Hw. destruct (fe_scratch w) eqn:Es; [|done]. apply (fe_below w) in Es. unfold TF_SP in *. lia.
    - exact Hz. }
  rewrite last_frame by (left; unfold TF_SP, TF_KERNEL_SP in *; lia). rewrite Ha.
  rewrite (cr_frame _ _ _ _ _ _ _ _ _ _ _ _ _ _ _ _ _ HC) by (unfold TF_SP, sizeof_trapframe in *; lia).
  destruct (inside_spec (tf + TF_SP) 8 z); [done|lia].
Qed.
Lemma last_status i : 0 < i < NPROC -> exists z, procs s' !! i = Some z /\ status z = FREE.
Proof.
  intros Hi. destruct (last_proc i (initialised i zero_process)) as [nz Hz]; [|lia|by eexists].
  rewrite (ld_others _ _ _ _ _ _ _ _ _ _ _ _ _ _ _ _ _ _ _ _ HLd i) by lia.
  rewrite (cr_procs _ _ _ _ _ _ _ _ _ _ _ _ _ _ _ _ _ HC), lookup_insert_ne by lia. apply HP. lia.
Qed.

Lemma last_outside a k : outside lo hi U a k -> (forall b len, (b, len) ∈ locals files bufs -> a + k <= b \/ b + len <= a) ->
  (forall z, a <= z < a + k -> fe_scratch z = false) -> forall z, a <= z < a + k -> memory (km s') !! z = memory (km s) !! z.
Proof.
  intros Ho Hl Hs z Hz. pose proof (cr_fresh _ _ _ _ _ _ _ _ _ _ _ _ _ _ _ _ _ HC) as F.
  pose proof (outside_apart lo hi U a k tf Ho (F tf ltac:(in_list))) as At. pose proof (outside_apart lo hi U a k info Ho (F info ltac:(in_list))) as Ai.
  destruct (cr_outside _ _ _ _ _ _ _ _ _ _ _ _ _ _ _ _ _ HC a k Ho) as [Hk Hm].
  rewrite last_frame by (unfold TF_KERNEL_SP, sizeof_trapframe, PGSIZE in *; lia).
  rewrite (ld_kept _ _ _ _ _ _ _ _ _ _ _ _ _ _ _ _ _ _ _ _ HLd a k Hk Ai); [by apply Hm| |exact Hl|exact Hs|exact Hz].
  change (trapframe _) with tf. unfold TF_EPC, PGSIZE in *. lia.
Qed.

Lemma last_in_user : ready_queue_head s' = None -> lenZ (segments data) <= 252 ->
  in_user n U s data tf pt ks us info pages n2 U2 T2 (ToUser tf (MAKE_SATP pt)) s'.
Proof.
  intros Hq Hc. destruct last_tree as [HT HV]. destruct last_pages as [HN HF].
  destruct (cr_fresh _ _ _ _ _ _ _ _ _ _ _ _ _ _ _ _ _ HC info ltac:(in_list)) as (_ & Oi & _).
  destruct (ld_space _ _ _ _ _ _ _ _ _ _ _ _ _ _ _ _ _ _ _ _ HLd) as [_ Sv _ Sr]. rewrite NoDup_app, !NoDup_cons, !not_elem_of_cons in HN.
  split; [done| | |exact last_pages| | | |exact HT| | | |exact last_sp| |exact last_outside].
  - pose proof (cr_count _ _ _ _ _ _ _ _ _ _ _ _ _ _ _ _ _ HC). pose proof (ld_count _ _ _ _ _ _ _ _ _ _ _ _ _ _ _ _ _ _ _ _ HLd). unfold segments. lia.
  - exact (ld_length _ _ _ _ _ _ _ _ _ _ _ _ _ _ _ _ _ _ _ _ HLd).
  - split; [exact (en_current _ _ _ _ _ _ HE)|exact Hq].
  - exists y. rewrite (en_procs _ _ _ _ _ _ HE), HP3, lookup_insert_eq. split_and!; done.
  - exact last_status.
  - intros vb Hvb. rewrite HV. by apply Sv.
  - eapply regions_at_ext; [|exact (last_page info Oi ltac:(intros ->; destruct_and?; done))|exact Sr]. rewrite length_app, length_map. unfold segments, lenZ in *. cbn [length new_regions]. lia.
  - intros i sg a Hsg Ha z Hz. pose proof (list_elem_of_lookup_2 _ _ _ Ha) as Hin.
    destruct (HF a ltac:(apply elem_of_app; by right)) as (_ & Oa & _).
    rewrite (last_page a Oa) by (lia || (intros ->; destruct HN as (_ & HN & _); by apply (HN tf ltac:(in_list)))).
    by apply (ld_holds _ _ _ _ _ _ _ _ _ _ _ _ _ _ _ _ _ _ _ _ HLd i sg a).
  - rewrite (en_hart _ _ _ _ _ _ HE). split_and!; [done|done|exact (proj1 (user_status _))|exact (proj2 (user_status _))].
Qed.
End last.

(** ** The whole of it *)
Definition needed : nat := match program lo hi with Some data => 11 + 3 * length (segments data) | None => 11 end.

Lemma refusal_none data : refusal lo hi = None -> program lo hi = Some data -> header_status data = EL_OK.
Proof.
  unfold refusal, program. destruct (lh_argv !! 1%nat) as [name|]; [|done]. cbn. intros Hr Hd. rewrite Hd in Hr. by destruct (decide (header_status data = EL_OK)).
Qed.

Lemma wp_queue_first s2 z (Q : Z -> kstate S -> Prop) E : ready_queue_head s2 = None -> procs s2 !! 0 = Some z -> (forall i, 0 <= i < NPROC -> is_Some (procs s2 !! i)) ->
  frame_ok (memory (km s2)) (trapframe z) ->
  (forall P' nx epc s3 s', relinked 0 (procs s2) P' -> km s3 = km s2 -> procs s3 = <[0 := with_status RUNNING (with_next nx (with_status READY z))]> P' ->
     load_le 8 (trapframe z + TF_EPC) (memory (km s2)) = Some epc -> ready_queue_head s' = None ->
     entered sym 0 (with_status RUNNING (with_next nx (with_status READY z))) epc s3 s' -> E (ToUser (trapframe z) (MAKE_SATP (pagetable z))) s') ->
  wp (insert_to_ready_queue 0 ;;; schedule sym ;;; ret 0) Q E s2.
Proof.
  intros Hq Hz Hp Hf HE. apply wp_bind. eapply (wp_insert 0 z []); [exact Hq|exact Hz|by intros ?%elem_of_nil|].
  intros _ P' h' Hch Hrel. destruct (Hrel 0 z Hz) as [nx Hnx]. rewrite decide_True in Hnx by done. cbn [app] in Hch.
  destruct (load_le_has 8 (trapframe z + TF_EPC) (memory (km s2))) as [epc He].
  { intros y Hy. destruct Hf as (_ & _ & Hf). apply Hf. unfold TF_EPC, sizeof_trapframe in *. change (Z.of_nat 8) with 8 in Hy. lia. }
  apply wp_bind. eapply (wp_schedule sym [0]); [exact Hch| |].
  - intros i Hi. destruct (Hp i Hi) as [w Hw]. destruct (Hrel i w Hw) as [nw Hnw]. cbn [procs]. rewrite Hnw. by eexists.
  - exists (with_next nx (with_status READY z)), epc. cbn [procs km]. split; [exact Hnx|]. split; [done|]. split; [exact Hf|]. split; [exact He|].
    intros s' Hl' Hent. cbn [procs km] in Hent. eapply (HE P' nx epc); [exact Hrel| | |exact He|exact Hl'|exact Hent]; done.
Qed.

(** What follows the loader. *)
Lemma loaded_runs n U s data tf pt ks us info pages n1 U1 T1 n2 U2 T2 s1 s2 (Q : Z -> kstate S -> Prop) E :
  fresh_pool (procs s) -> created lo hi sym n U s 0 (initialised 0 zero_process) tf pt ks us info n1 U1 T1 s1 ->
  loaded lo hi files bufs 0 pt info n1 U1 T1 (process_view sym tf us) (new_regions sym tf) (new_process (initialised 0 zero_process) tf pt ks info) s1 data pages n2 U2 T2 s2 ->
  ready_queue_head s = None -> fits_user data ->
  (forall s', in_user n U s data tf pt ks us info pages n2 U2 T2 (ToUser tf (MAKE_SATP pt)) s' -> E (ToUser tf (MAKE_SATP pt)) s') ->
  wp (insert_to_ready_queue 0 ;;; schedule sym ;;; ret 0) Q E s2.
Proof.
  intros HP HC HLd Hq HF HE. destruct (created_frame _ _ _ _ _ _ _ _ _ _ _ _ _ _ HC) as [_ [F1 F2] _]. change (trapframe _) with tf in F1, F2.
  pose proof (as_inv _ _ _ _ _ _ _ _ _ _ (ld_space _ _ _ _ _ _ _ _ _ _ _ _ _ _ _ _ _ _ _ _ HLd)) as HV.
  destruct (al_arena _ _ _ (vi_al _ _ _ _ _ _ _ HV)) as [Hlo0 Hhi]. pose proof (ld_proc _ _ _ _ _ _ _ _ _ _ _ _ _ _ _ _ _ _ _ _ HLd) as Hz.
  destruct (ld_rest _ _ _ _ _ _ _ _ _ _ _ _ _ _ _ _ _ _ _ _ HLd) as (_ & Q2 & _). destruct (cr_rest _ _ _ _ _ _ _ _ _ _ _ _ _ _ _ _ _ HC) as (_ & Q1 & _).
  eapply wp_queue_first; [by rewrite Q2, Q1|exact Hz| | |].
  - intros i Hi. destruct (decide (i = 0)) as [->|Hne]; [rewrite Hz; by eexists|].
    rewrite (ld_others _ _ _ _ _ _ _ _ _ _ _ _ _ _ _ _ _ _ _ _ HLd) by done.
    rewrite (cr_procs _ _ _ _ _ _ _ _ _ _ _ _ _ _ _ _ _ HC), lookup_insert_ne by done. rewrite (HP i Hi). by eexists.
  - change (trapframe _) with tf. unfold sizeof_trapframe in *. split; [lia|]. split; [unfold sizeof_trapframe; lia|].
    intros y Hy. unfold sizeof_trapframe in Hy. apply (vi_arena _ _ _ _ _ _ _ HV). lia.
  - intros P' nx epc s3 s' Hrel HK HP3 He Hl' Hent. pose proof (ld_entry _ _ _ _ _ _ _ _ _ _ _ _ _ _ _ _ _ _ _ _ HLd) as Hentry.
    change (trapframe _) with tf in He, Hentry. rewrite Hentry in He. injection He as <-.
    apply HE. eapply last_in_user; [exact HP|exact HC|exact HLd|exact Hrel|exact HK|exact HP3|exact Hent|exact Hl'|exact (fu_count _ HF)].
Qed.
End first.

(** Composition: what [first_process] does, and where it stops. *)
Lemma wp_first_process {S} `{Allocator S} `{Harts S} `{!HartsLens S} `{!HartsSpec S} `{Frontend S} `{SpikeAtomics} `{!AtomicsSpec}
    (lo hi : Z) `{!AllocatorSpec S lo hi} `{!FrontendSpec S lo hi} `{!LoaderHost S lo hi}
    (files : spike_symbols) (bufs : elf_bufs) (sym : symbols) n U kfds refs slots (s : kstate S) :
  AllocProcess.layout lo hi sym -> (forall mi, lo <= mi -> mi + PGSIZE <= hi -> layout lo hi files bufs mi) ->
  supply lo hi n U s -> ready_queue_head s = None -> host_ready lo hi files bufs kfds refs slots s ->
  (forall data, program lo hi = Some data -> lenZ data < 2 ^ 62 /\ (header_status data = EL_OK -> fits_user lo sym data)) ->
  wp (first_process files bufs sym) (fun _ _ => False)
     (fun h s' => refusal lo hi = Some h \/ (h = al_stop /\ (n < needed lo hi)%nat) \/
        refusal lo hi = None /\ exists data tf pt ks us info pages n' U' T', program lo hi = Some data /\
          in_user lo hi files bufs sym n U s data tf pt ks us info pages n' U' T' h s') s.
Proof.
  intros HY HL HS Hq HR Hfit. unfold first_process, load_user_program. apply wp_bind, wp_init_proc_pool. intros P HP.
  apply wp_bind, wp_bind, wp_hostless; [apply hostless_alloc_process|].
  eapply (wp_alloc_process lo hi sym n U); [exact HY|intros i Hi; eexists; exact (HP i Hi)|by apply supply_procs| | |].
  2: { intros Hfull. exfalso. by apply (Hfull 0 _ ltac:(done) (HP 0 ltac:(done))). }
  2: { intros Hn s'. right; left. split; [done|]. unfold needed. destruct (program lo hi); lia. }
  intros i x tf pt ks us info n1 U1 T1 s1 Hi Hx Hf Hleast HC Hsame.
  assert (i = 0) as ->. { destruct (decide (i = 0)); [done|]. exfalso. by apply (Hleast 0 _ ltac:(lia) (HP 0 ltac:(done))). }
  cbn [procs set_procs] in Hx. rewrite (HP 0) in Hx by done. injection Hx as <-.
  destruct (cr_fresh _ _ _ _ _ _ _ _ _ _ _ _ _ _ _ _ _ HC tf ltac:(in_list)) as (_ & Ot & Lt & Rt).
  destruct (cr_fresh _ _ _ _ _ _ _ _ _ _ _ _ _ _ _ _ _ HC info ltac:(in_list)) as (_ & _ & Li & Ri).
  assert (HR' : host_ready lo hi files bufs kfds refs slots (set_procs P s)) by (destruct HR; by split).
  pose proof HR as [_ _ _ Hfree Hslots].
  apply wp_bind. eapply (wp_load_bincode lo hi files bufs 0 pt info);
    [exact (HL info Li Ri)|eapply (created_start lo hi files bufs sym HY HL); [exact HC|exact Hsame|exact HR']
    |eapply created_frame; exact HC|exact Hfree|exact Hslots| | | |].
  - intros data Hd. destruct (Hfit data Hd) as [Hsize Hok]. by eapply (fits_file_ok lo hi).
  - intros data pages n2 U2 T2 s2 Hr Hd HLd. apply wp_ret.
    eapply (loaded_runs lo hi files bufs sym HL n U (set_procs P s)); [exact HP|exact HC|exact HLd|exact Hq| |].
    { by apply (Hfit data Hd), (refusal_none lo hi). }
    intros s' HI. right; right. split; [exact Hr|]. exists data, tf, pt, ks, us, info, pages, n2, U2, T2.
    split; [exact Hd|]. destruct HI. by split.
  - intros h s' Hr. by left.
  - intros data s' Hd Hn. right; left. split; [done|]. unfold needed. rewrite Hd. pose proof (cr_count _ _ _ _ _ _ _ _ _ _ _ _ _ _ _ _ _ HC). unfold segments. lia.
Qed.
