(* ===== verification/ExLoader.v ===== *)
(** * A concrete kernel about to load the program of its command line

    The host of ExHost.v with a command line and one file by name; three pages
    in use: a page directory, a region table, a trap frame. *)
From stdpp Require Import base gmap list strings.
From Stdlib Require Import ZArith Lia.
From S2P Require Import Prelude Riscv PmmState Mem Str Vmm VmmProofs VmmSpec KernVm VmTheorems ProcState Sched Process Trap SchedProofs TrapProofs HeapProofs SpaceProofs AllocProcess Spike SpikeProofs SpikeFile SpikeFileProofs Elf Hosted ElfProofs ElfSpec Loader ExKernel ExHost.

#[local] Arguments load_le : simpl never.
#[local] Arguments store_le : simpl never.

#[export] Instance ex_harts_lens : HartsLens (Z * hart).
Proof. split; [done| |done]. intros f [a h] E. cbn in *. by rewrite E. Qed.

#[export] Instance ex_file_atomics : SpikeAtomics :=
  {| at_read a := let* v := load32 a in ret (s32 v);
     at_set a v := store32 a (u32 v);
     at_swap a v := let* old := load32 a in store32 a (u32 v) ;;; ret (s32 old);
     at_add a d := let* old := load32 a in store32 a (u32 (old + d)) ;;; ret (s32 old) |}.
#[export] Instance ex_file_atomics_spec : AtomicsSpec.
Proof. done. Qed.

(** ** The host: "pke app", and the file "app" as descriptor 5 *)
Definition ex_pke : list Z := [112; 107; 101].
Definition ex_app_name : list Z := [97; 112; 112].
Definition vars_mem (b : Z) (m : mem) : mem :=
  mem_at b (le_bytes 8 2) ∪ (mem_at (b + 8) (le_bytes 8 (b + 32)) ∪ (mem_at (b + 16) (le_bytes 8 (b + 36)) ∪
    (mem_at (b + 32) (ex_pke ++ 0 :: ex_app_name ++ [0]) ∪ m))).

Definition loader_frontend : Frontend (Z * hart) :=
  {| fe_syscall n a0 a1 a2 a3 a4 := fun k =>
       if n =? HTIFSYS_getmainvars then
         Ret 0 (mkKmem (heap k) (if has_b (memory k) a0 512 then vars_mem a0 (memory k) else memory k) (g_kernel_pagetable k))
       else if n =? HTIFSYS_openat then Ret (if cstr_b (memory k) a1 ex_app_name then 5 else -2) k
       else @fe_syscall _ ex_frontend n a0 a1 a2 a3 a4 k |}.

Program Definition loader_frontend_spec : @FrontendSpec (Z * hart) ex_allocator loader_frontend bump_lo bump_hi ex_spec :=
  {| fe_idle := fun _ => True; fe_scratch := fun _ => false;
     fe_files := fun _ fd => if fd =? 5 then Some ex_file else None; fe_same := fun _ _ => True |}.
Solve Obligations with try (intros; first [exact I | reflexivity | discriminate]).
Next Obligation. intros s fd data Hf. cbn in Hf. destruct (fd =? 5); [injection Hf as <-; exact ex_file_bytes|done]. Qed.
Next Obligation.
  intros k fd buf size off data Hi Hf Hb Hh Hoff Hb0 Hb1 Hs Ho.
  exact (@fe_pread _ _ ex_frontend _ _ _ ex_frontend_spec k fd buf size off data I Hf Hb Hh (fun _ _ => eq_refl) Hb0 Hb1 Hs Ho).
Qed.

Lemma le_bytes_lookup v (i : nat) : (i < 8)%nat -> le_bytes 8 v !! i = Some (byte_of v (Z.of_nat i)).
Proof. intros Hi. unfold le_bytes. rewrite list_lookup_fmap, lookup_seqZ_lt by lia. done. Qed.

Lemma word_here a v m : 0 <= v < 2 ^ 64 -> load_le 8 a (mem_at a (le_bytes 8 v) ∪ m) = Some v.
Proof.
  intros Hv. rewrite <- (Z.mod_small v (2 ^ 64) Hv) at 2. apply (load_le_bytes 8). intros x Hx. change (Z.of_nat 8) with 8 in Hx.
  rewrite mem_at_union. change (lenZ (le_bytes 8 v)) with 8. destruct (inside_spec a 8 x); [|lia].
  rewrite le_bytes_lookup by lia. by rewrite Z2Nat.id by lia.
Qed.

Lemma word_apart a l m b n : a + lenZ l <= b \/ b + Z.of_nat n <= a -> load_le n b (mem_at a l ∪ m) = load_le n b m.
Proof.
  intros Ha. apply load_le_ext. intros x Hx. rewrite mem_at_union. by destruct (inside_spec a (lenZ l) x); [lia|].
Qed.

Lemma cstr_unique l : forall l' m a, cstr m a l -> cstr m a l' -> l = l'.
Proof.
  induction l as [|c l IH]; intros [|c' l'] m a H1 H2; [done| | |].
  - apply cstr_nil in H1. apply cstr_cons in H2 as (E & R & _). rewrite H1 in E. injection E as <-. lia.
  - apply cstr_nil in H2. apply cstr_cons in H1 as (E & R & _). rewrite H2 in E. injection E as <-. lia.
  - apply cstr_cons in H1 as (E1 & _ & H1). apply cstr_cons in H2 as (E2 & _ & H2). rewrite E1 in E2. injection E2 as <-. f_equal. by eapply IH.
Qed.

Lemma cstr_b_complete l : forall m a, cstr m a l -> cstr_b m a l = true.
Proof.
  induction l as [|c l IH]; intros m a Hc; cbn [cstr_b].
  - apply cstr_nil in Hc. unfold byte_is. by rewrite Hc.
  - apply cstr_cons in Hc as (E & R & Hc). unfold byte_is. rewrite E, Z.eqb_refl, (IH _ _ Hc).
    by rewrite (proj2 (Z.ltb_lt 0 c)), (proj2 (Z.ltb_lt c 256)) by lia.
Qed.

Lemma vars_frame b m x : ~ (b <= x < b + 512) -> vars_mem b m !! x = m !! x.
Proof.
  intros Hx. unfold vars_mem. rewrite !mem_at_union. change (lenZ (ex_pke ++ 0 :: ex_app_name ++ [0])) with 8.
  change (lenZ (le_bytes 8 2)) with 8. change (lenZ (le_bytes 8 (b + 32))) with 8. change (lenZ (le_bytes 8 (b + 36))) with 8.
  repeat match goal with |- context [inside ?a ?l x] => destruct (inside_spec a l x); [lia|] end. done.
Qed.

(** [argc] = 2, and the words of [argv]: "pke" at offset 32, "app" at 36. *)
Lemma vars_main b m : 0 <= b -> b + 512 < 2 ^ 63 -> main_vars (vars_mem b m) b [ex_pke; ex_app_name].
Proof.
  intros Hb Hb2.
  assert (Hstr : forall x, b + 32 <= x < b + 40 -> vars_mem b m !! x = (ex_pke ++ 0 :: ex_app_name ++ [0]) !! Z.to_nat (x - (b + 32))).
  { intros x Hx. unfold vars_mem. rewrite !mem_at_union. change (lenZ (le_bytes 8 2)) with 8. change (lenZ (le_bytes 8 (b + 32))) with 8.
    change (lenZ (le_bytes 8 (b + 36))) with 8. change (lenZ (ex_pke ++ 0 :: ex_app_name ++ [0])) with 8.
    repeat match goal with |- context [inside ?a ?l x] => destruct (inside_spec a l x); try lia end. done. }
  split; unfold word_at.
  - rewrite Z.mul_0_r, Z.add_0_r. unfold vars_mem. change (lenZ [ex_pke; ex_app_name]) with 2. apply word_here. lia.
  - done.
  - intros i arg Hi. destruct i as [|[|i]]; [| |done]; injection Hi as <-; [exists (b + 32)|exists (b + 36)]; cbn [Z.of_nat].
    + split_and!; [|apply cstr_b_spec|unfold lenZ; cbn [length]; lia|unfold lenZ; cbn; lia].
      * unfold vars_mem. rewrite word_apart by (change (lenZ (le_bytes 8 2)) with 8; lia). change (b + 8 * (1 + 0)) with (b + 8). apply word_here. lia.
      * cbn [cstr_b ex_pke]. unfold byte_is. rewrite !Hstr by lia.
        replace (b + 32 - (b + 32)) with 0 by lia. replace (b + 32 + 1 - (b + 32)) with 1 by lia.
        replace (b + 32 + 1 + 1 - (b + 32)) with 2 by lia. replace (b + 32 + 1 + 1 + 1 - (b + 32)) with 3 by lia. reflexivity.
    + split_and!; [|apply cstr_b_spec|unfold lenZ; cbn [length]; lia|unfold lenZ; cbn; lia].
      * unfold vars_mem. rewrite word_apart by (change (lenZ (le_bytes 8 2)) with 8; lia).
        rewrite word_apart by (change (lenZ (le_bytes 8 (b + 32))) with 8; lia). apply word_here. lia.
      * cbn [cstr_b ex_app_name]. unfold byte_is. rewrite !Hstr by lia.
        replace (b + 36 - (b + 32)) with 4 by lia. replace (b + 36 + 1 - (b + 32)) with 5 by lia.
        replace (b + 36 + 1 + 1 - (b + 32)) with 6 by lia. replace (b + 36 + 1 + 1 + 1 - (b + 32)) with 7 by lia. reflexivity.
Qed.

Lemma vars_bytes b m : bytes_ok m -> bytes_ok (vars_mem b m).
Proof.
  intros Hm. unfold vars_mem.
  assert (Hput : forall a l m', (forall c, c ∈ l -> 0 <= c < 256) -> bytes_ok m' -> bytes_ok (mem_at a l ∪ m')).
  { intros a l m' Hl Hb x c. rewrite mem_at_union. destruct (inside a (lenZ l) x); [|apply Hb]. intros Hc. by apply Hl, (list_elem_of_lookup_2 _ _ _ Hc). }
  assert (Hle : forall v c, c ∈ le_bytes 8 v -> 0 <= c < 256).
  { intros v c Hc. unfold le_bytes in Hc. apply list_elem_of_fmap in Hc as (i & -> & _). unfold byte_of. apply Z.mod_pos_bound. lia. }
  repeat apply Hput; try apply Hle; [|done]. intros c Hc.
  repeat (apply elem_of_cons in Hc as [->|Hc]; [lia|]). by apply elem_of_nil in Hc.
Qed.

Lemma vars_has b m y : is_Some (m !! y) -> is_Some (vars_mem b m !! y).
Proof.
  intros Hy. unfold vars_mem. rewrite !mem_at_union.
  repeat (match goal with |- context [inside ?a ?l y] => destruct (inside_spec a l y) end; [apply lookup_lt_is_Some_2; unfold lenZ in *; lia|]). done.
Qed.

Lemma host_step_refl k b len : bytes_ok (memory k) -> @host_step _ ex_allocator loader_frontend bump_lo bump_hi ex_spec loader_frontend_spec k k b len.
Proof. intros Hb. split; try done. Qed.

Program Definition loader_host : @LoaderHost (Z * hart) ex_allocator loader_frontend bump_lo bump_hi ex_spec loader_frontend_spec :=
  {| lh_argv := [ex_pke; ex_app_name]; lh_disk := fun name => if decide (name = ex_app_name) then Some ex_file else None |}.
Next Obligation. done. Qed.
Next Obligation.
  intros k buf _ Hb Hh _ Hb0 Hb1. unfold wp. cbn [fe_syscall loader_frontend].
  change (HTIFSYS_getmainvars =? HTIFSYS_getmainvars) with true. cbv iota. rewrite (has_b_complete _ _ 512) by exact Hh.
  split; [done|]. cbn [memory]. split; [|by apply vars_main].
  split; cbn [memory heap g_kernel_pagetable]; [done|done|done|by apply vars_bytes|by apply vars_has|].
  intros y Hy _. by apply vars_frame.
Qed.
Next Obligation.
  intros k fn name _ Hb Hc _ _. unfold wp. cbn [fe_syscall loader_frontend].
  change (HTIFSYS_openat =? HTIFSYS_getmainvars) with false. change (HTIFSYS_openat =? HTIFSYS_openat) with true. cbv iota.
  destruct (decide (name = ex_app_name)) as [->|Hne].
  - rewrite (cstr_b_complete _ _ _ Hc). split; [by apply host_step_refl|]. split; [unfold MAX_FDS; lia|done].
  - destruct (cstr_b (memory k) fn ex_app_name) eqn:E.
    + apply cstr_b_spec in E. by rewrite (cstr_unique _ _ _ _ Hc E) in Hne.
    + split; [by apply host_step_refl|lia].
Qed.

(** ** The kernel: its data in 17408 bytes of zeros at 4096, three pages *)
Definition ex_sym : spike_symbols := mkSpikeSymbols 32768 32776 32832 32784 32840 32848 20480 16384.
Definition ex_image : mem := zeros 4096 17408.
Definition ex_trapframe : Z := bump_lo + 2 * PGSIZE.
Definition ex_pages : gset Z := {[ ex_data; ex_trapframe ]} ∪ {[ ex_root ]}.
Definition ex_kstart : kmem (Z * hart) := mkKmem (bump_lo + 3 * PGSIZE, mkHart 0 0 0 0 0 0 0) (arena_mem ex_image) 0.
Definition ex_proc : process := mkProcess 0 ex_root ex_trapframe ex_data 0 (mkHeap 0 0 (replicate 32 0) 0) 0 FREE None None 0.
Definition ex_start_state : kstate (Z * hart) := mkKstate ex_kstart {[ 0 := ex_proc ]} None None 0.

Lemma ex_image_below : below ex_image = true.
Proof.
  apply bool_decide_eq_true_2. intros x b. unfold ex_image. rewrite zeros_lookup.
  destruct (inside_spec 4096 17408 x); [|done]. intros _. unfold bump_lo. lia.
Qed.

Lemma ex_start_zero x : 4096 <= x < 21504 \/ bump_lo <= x < bump_hi -> arena_mem ex_image !! x = Some 0.
Proof.
  intros [Hx|Hx].
  - apply arena_small. unfold ex_image. rewrite zeros_lookup. by destruct (inside_spec 4096 17408 x); [|lia].
  - apply arena_zero; [exact ex_image_below|exact Hx].
Qed.

Lemma ex_start_load n a : 4096 <= a /\ a + Z.of_nat n <= 21504 \/ bump_lo <= a /\ a + Z.of_nat n <= bump_hi -> load_le n a (arena_mem ex_image) = Some 0.
Proof.
  intros Ha. replace 0 with (0 mod 2 ^ (8 * Z.of_nat n)) by (apply Z.mod_0_l; pose proof (pow2_pos (8 * Z.of_nat n)); lia).
  apply load_le_bytes. intros x Hx. rewrite ex_start_zero by lia. unfold byte_of. by rewrite Z.div_0_l, Z.mod_0_l by (try apply Z.pow_nonzero; lia).
Qed.

Lemma bytes_union m1 m2 : bytes_ok m1 -> bytes_ok m2 -> bytes_ok (m1 ∪ m2).
Proof. intros Hb1 Hb2 x b Hx. apply lookup_union_Some_raw in Hx as [Hx|[_ Hx]]; [exact (Hb1 x b Hx)|exact (Hb2 x b Hx)]. Qed.

Lemma ex_image_bytes : bytes_ok (arena_mem ex_image).
Proof. unfold arena_mem, ex_image. apply bytes_union; apply zeros_bytes. Qed.

Lemma ex_pages_inv : al_inv (lo := bump_lo) (hi := bump_hi) (bump_pages - 3) ex_pages (bump_lo + 3 * PGSIZE, mkHart 0 0 0 0 0 0 0).
Proof.
  split; [done|split; [vm_compute; congruence|split; [unfold bump_pages; vm_compute; done|]]].
  intros u Hu. unfold ex_pages in Hu. rewrite !elem_of_union, !elem_of_singleton in Hu. unfold ex_data, ex_trapframe, ex_root, PGSIZE in *. cbn [fst]. lia.
Qed.

Lemma ex_root_zero x : ex_root <= x < ex_root + PGSIZE -> arena_mem ex_image !! x = Some 0.
Proof. intros Hx. apply ex_start_zero. right. unfold ex_root, bump_hi, bump_lo, PGSIZE in *. lia. Qed.

Lemma ex_start_vinv : vinv bump_lo bump_hi ex_root (bump_pages - 3) ex_pages (root_table ex_root) ex_kstart.
Proof.
  refine (vinv_root bump_lo bump_hi (bump_pages - 3) {[ ex_data; ex_trapframe ]} (bump_lo + 3 * PGSIZE, mkHart 0 0 0 0 0 0 0) (arena_mem ex_image) ex_root 0
    ex_pages_inv _ _ _ (arena_has _ ex_image_below) ex_image_bytes ex_root_zero); [done|unfold ex_root; lia|vm_compute; congruence].
Qed.

#[export] Existing Instances loader_frontend loader_frontend_spec loader_host.

Lemma ex_loader_layout mi : bump_lo <= mi -> mi + PGSIZE <= bump_hi -> layout bump_lo bump_hi ex_sym ex_bufs mi.
Proof.
  intros H1 H2. split.
  - intros a len Ha. unfold locals in Ha. cbn in Ha.
    repeat (apply elem_of_cons in Ha as [[= -> ->]|Ha]; [split; [done|split; [vm_compute; intros; discriminate|done]]|]). by apply elem_of_nil in Ha.
  - intros i j a la b lb Hij Hi Hj. unfold apart.
    destruct i as [|[|[|[|[|i]]]]]; [injection Hi as <- <-..|done]; destruct j as [|[|[|[|[|j]]]]]; try done; injection Hj as <- <-; vm_compute; (left; congruence) || (right; congruence).
  - by split.
Qed.

(** The loader's data: zeros. *)
Lemma ex_locals a len : (a, len) ∈ locals ex_sym ex_bufs -> has (arena_mem ex_image) a len.
Proof.
  intros Ha x Hx. exists 0. apply ex_start_zero. left. unfold locals in Ha. cbn in Ha.
  unfold sizeof_elf_header, sizeof_elf_prog_header, sizeof_spike_file, MAX_FILES, MAX_FDS in Ha.
  repeat (apply elem_of_cons in Ha as [[= -> ->]|Ha]; [lia|]). by apply elem_of_nil in Ha.
Qed.

Lemma ex_tables : file_tables ex_sym (arena_mem ex_image) (fun _ => 0) (fun _ => 0) (fun _ => 0).
Proof.
  assert (Hcol : forall b st w k, 4096 <= b -> 0 <= st -> b + st * k <= 21504 -> Z.of_nat w <= st -> column (arena_mem ex_image) b st w k (fun _ => 0)).
  { intros b st w k H1 H2 H3 H4 i Hi. apply ex_start_load. left. nia. }
  split; apply Hcol; vm_compute; congruence.
Qed.

Lemma ex_root_only π q : root_table ex_root !! π = Some q -> q = ex_root.
Proof. intros Hq. by apply root_table_lookup in Hq as [_ ->]. Qed.

Lemma ex_page_kept a : a ∈ [ex_data; ex_trapframe] -> kept bump_lo bump_hi (root_table ex_root) ex_pages a PGSIZE.
Proof.
  intros Ha. eapply kept_used; [exact ex_start_vinv| | |].
  - repeat (apply elem_of_cons in Ha as [->|Ha]; [split; [vm_compute; done|vm_compute; split; congruence]|]). by apply elem_of_nil in Ha.
  - unfold ex_pages. repeat (apply elem_of_cons in Ha as [->|Ha]; [set_solver|]). by apply elem_of_nil in Ha.
  - intros π q ->%ex_root_only. unfold ex_root, ex_data, ex_trapframe in *.
    repeat (apply elem_of_cons in Ha as [->|Ha]; [unfold PGSIZE; lia|]). by apply elem_of_nil in Ha.
Qed.

Lemma ex_frame_placed : frame_placed bump_lo bump_hi ex_data ex_pages (root_table ex_root) ex_proc.
Proof.
  split; cbn [trapframe ex_proc].
  - eapply kept_sub; [apply (ex_page_kept ex_trapframe); set_solver|lia|unfold sizeof_trapframe, PGSIZE; lia].
  - unfold ex_trapframe, sizeof_trapframe, bump_lo, bump_hi, PGSIZE. lia.
  - unfold ex_trapframe, ex_data, sizeof_trapframe, PGSIZE. lia.
Qed.

Lemma ex_start : start bump_lo bump_hi ex_sym ex_bufs 0 ex_root ex_data (bump_pages - 3) ex_pages (root_table ex_root) (fun _ => Some 0) [] ex_proc
  (fun _ => 0) (fun _ => 0) (fun _ => 0) ex_start_state.
Proof.
  split.
  - split.
    + exact ex_start_vinv.
    + intros vb _. apply view_root.
    + apply (ex_page_kept ex_data), list_elem_of_here.
    + intros j e He. by rewrite lookup_nil in He.
  - unfold ex_pages. apply elem_of_union_l, elem_of_union_l, elem_of_singleton. reflexivity.
  - intros π q ->%ex_root_only. unfold ex_root. lia.
  - intros j Hj. unfold lenZ in Hj. cbn in Hj. apply ex_start_load. right. unfold ex_data, bump_hi, bump_lo, PGSIZE in *. lia.
  - intros e He. by apply elem_of_nil in He.
  - done.
  - done.
  - apply lookup_singleton_eq.
  - reflexivity.
  - reflexivity.
  - exact ex_locals.
  - exact ex_tables.
Qed.
