(* ===== verification/LoaderTheorems.v ===== *)
(** * Loading the program of the command line: the property, with a concrete
    host and kernel *)
From stdpp Require Import base gmap list strings.
From Stdlib Require Import ZArith Lia.
From S2P Require Import Prelude Riscv PmmState Mem Str Vmm VmmProofs VmmSpec KernVm VmTheorems ProcState Sched Process Trap SchedProofs TrapProofs HeapProofs SpaceProofs AllocProcess Spike SpikeProofs SpikeFile SpikeFileProofs Elf Hosted ElfProofs ElfSpec Loader LoaderSpec ExKernel ExHost ExLoader.


