(* ===== verification/FirstTheorems.v ===== *)
(** * From the kernel's page table to user mode: the property, with a concrete
    host, command line and kernel *)
From stdpp Require Import base gmap list strings.
From Stdlib Require Import ZArith Lia.
From S2P Require Import Prelude Riscv PmmState Mem Str Vmm VmmProofs VmmSpec KernVm VmTheorems ProcState Sched Process SchedProofs TrapProofs HeapProofs SpaceProofs AllocProcess Fork Spike SpikeProofs SpikeFile SpikeFileProofs Elf Hosted ElfProofs ElfSpec Loader LoaderSpec Kernel FirstProcess ExKernel ExHost ProcTheorems ExLoader.

#[local] Arguments load_le : simpl never.
#[local] Arguments store_le : simpl never.


Lemma ex_first_fits : fits_user bump_lo ex_symbols ex_file.
Proof.
  assert (Hpl : plan_of ex_file = ([mkSeg 65536 176 4 5], EL_OK)) by exact ex_plan.
  split; rewrite ?Hpl; cbn [fst].
  - vm_compute. reflexivity.
  - intros sg Hsg. split; [exact (sf_ok _ _ _ _ ex_fit sg Hsg)|]. apply list_elem_of_singleton in Hsg as ->. vm_compute. split_and!; congruence.
  - done.
  - apply NoDup_singleton.
Qed.

Definition ex_first_state : kstate (Z * hart) := mkKstate (mkKmem (bump_lo, mkHart 0 0 0 0 0 0 0) (arena_mem ex_image) 0) zero_pool None None 0.

Lemma ex_first_supply : supply bump_lo bump_hi bump_pages ∅ ex_first_state.
Proof. split; [exact bump_start|exact (arena_has _ ex_image_below)|exact ex_image_bytes]. Qed.
Lemma ex_first_ready : host_ready bump_lo bump_hi ex_sym ex_bufs (fun _ => 0) (fun _ => 0) (fun _ => 0) ex_first_state.
Proof.
  split; [done|exact ex_locals|exact ex_tables|by exists 0|]. intros i j Hi Hj. unfold file_at, ex_sym, sizeof_spike_file. cbn [a_spike_files]. lia.
Qed.
Lemma ex_first_sized data : program bump_lo bump_hi = Some data ->
  lenZ data < 2 ^ 62 /\ (header_status data = EL_OK -> fits_user bump_lo ex_symbols data).
Proof. intros [= <-]. split; [vm_compute; reflexivity|intros _; exact ex_first_fits]. Qed.
Lemma ex_first_enough : refusal bump_lo bump_hi = None /\ program bump_lo bump_hi = Some ex_file /\ (needed bump_lo bump_hi <= bump_pages)%nat.
Proof.
  split; [vm_compute; reflexivity|]. split; [reflexivity|]. unfold needed. change (program bump_lo bump_hi) with (Some ex_file).
  assert (Hpl : plan_of ex_file = ([mkSeg 65536 176 4 5], EL_OK)) by exact ex_plan.
  unfold segments. rewrite Hpl. cbn. unfold bump_pages. lia.
Qed.

