(* ===== verification/TypesTheorems.v ===== *)
(** * The kernel keeps its state well typed: the property

    The life of the system as a step relation: start-up, then user mode and
    traps in turn. *)
From stdpp Require Import base gmap list strings.
From Stdlib Require Import ZArith Lia.
From S2P Require Import Prelude Riscv PmmState Pmm Mem Str Sync Typing Vmm VmmProofs VmTheorems ProcState Sched Process Trap SchedProofs Spike SpikeProofs SpikeFile Elf ElfSpec Hosted Loader LoaderSpec Kernel FirstProcess KernelTypes PmmTypes ProcTypes StartTypes ExKernel ProcTheorems ExHost ExLoader FirstTheorems.

#[local] Arguments load_le : simpl never.
#[local] Arguments store_le : simpl never.

(** With the repository's allocator, all of supervisor start-up. *)
Lemma types_s_start `{Frontend pmm_state} `{SpikeAtomics} D `{!TypedAtomics D} `{!TypedHost pmm_state D} files bufs sym _etext _end :
  is_u64 (smode_trap_vector sym) -> types (typed D) (exits D) (s_start files bufs sym _etext _end) (fun _ => False).
Proof.
  intros Hvec. pose proof (typed_closed (S := pmm_state) D) as KC. unfold s_start.
  apply (types_bind _ _ _ _ any); [apply types_write_csr; [done|intros h []; by split]|]. intros _ _.
  apply (types_bind _ _ _ _ any); [apply types_on_km, types_on_heap, types_pmm_init; done|]. intros _ _.
  apply (types_bind _ _ _ _ any); [by apply types_on_km, types_kern_vm_init|]. intros _ _.
  apply (types_bind _ _ _ _ any); [|intros _ _; by apply types_first_process].
  unfold enable_paging. apply (types_bind _ _ _ _ is_u64); [by apply types_gets; intros s [[] ]|]. intros root Hr.
  apply types_write_csr; [done|]. intros h []. split; cbn; try done. apply u64_lor; [by vm_compute|].
  rewrite Z.shiftr_div_pow2 by lia. unfold is_u64 in *. zlia.
Qed.

Section life.
Context {S : Type} `{Allocator S} `{Harts S} `{!TypedMachine S} `{Frontend S} `{SpikeAtomics} (D : Z -> Prop)
  (files : spike_symbols) (bufs : elf_bufs) (sym : symbols)
  (get_page : Z -> M (kmem S) unit) (get_page_ref : Z -> M (kmem S) Z) (host_write : Z -> Z -> M mem unit) (out : Z) (stray : list Z).
Implicit Types (s : kstate S).

(** From the return to user mode to the next trap: the registers and the bytes
    of memory may have any value of their type. *)
Definition user_runs s s' : Prop :=
  exists f m, hart_typed (f (hart_of (heap (km s)))) /\ mem_typed D m /\
    s' = set_km (mkKmem (with_hart f (heap (km s))) m (g_kernel_pagetable (km s))) s.

Inductive life (s0 : kstate S) : stop -> kstate S -> Prop :=
  | life_start h s : first_process files bufs sym s0 = Halt h s -> life s0 h s
  | life_trap tf satp s s1 h s2 : life s0 (ToUser tf satp) s -> user_runs s s1 ->
      smode_trap_handler sym get_page get_page_ref host_write out stray s1 = Halt h s2 -> life s0 h s2.

Lemma user_runs_running s s' tf satp : exits D (ToUser tf satp) s -> user_runs s s' -> exists c, running D c s'.
Proof.
  intros [[[T1 T2 T3] TP TX TC TH] (c & x & Hc & Hx & Hs & _ & _)] (f & m & Hf & Hm & ->). exists c.
  split; [|split; [done|by exists x]]. split; try done. split; cbn [km set_km heap memory g_kernel_pagetable]; try done. by apply tm_with.
Qed.

Lemma life_exits `{!TypedAtomics D} `{!TypedHost S D} s0 h s :
  is_u64 (smode_trap_vector sym) ->
  (forall p, types (kmem_typed D) (plain (kmem_typed D)) (get_page p) any) ->
  (forall p, types (kmem_typed D) (plain (kmem_typed D)) (get_page_ref p) any) ->
  (forall a n, types (mem_typed D) (plain (mem_typed D)) (host_write a n) any) ->
  typed D s0 -> life s0 h s -> exits D h s.
Proof.
  intros Hvec Hg Hr Hw HT. induction 1 as [h s Hs|tf satp s s1 h s2 _ IH Hu Hs].
  - pose proof (types_first_process D files bufs sym Hvec s0 HT) as Hf. unfold wp in Hf. by rewrite Hs in Hf.
  - destruct (user_runs_running _ _ _ _ IH Hu) as [c HR].
    pose proof (wp_trap D sym Hvec c get_page get_page_ref host_write Hg Hr Hw out stray s1 HR) as Hf. unfold wp in Hf. by rewrite Hs in Hf.
Qed.

End life.

(** ** Example: the kernel of ExLoader.v and its host *)
#[local] Program Instance ex_typed_machine : TypedMachine (Z * hart) := {| tm_ok s := 0 <= fst s /\ hart_typed (snd s) |}.
Next Obligation.
  intros [a h] [Ha Hh]. cbn [fst snd] in *. change (wp (zoom fst (fun a s => (a, snd s)) bump_page)
    (fun v s' => (0 <= fst s' /\ hart_typed (snd s')) /\ is_u64 v) (plain (fun s => 0 <= fst s /\ hart_typed (snd s))) (a, h)).
  apply wp_zoom. cbn [fst snd]. unfold bump_page, id. apply wp_bind, wp_gets.
  destruct (Z.leb_spec (a + PGSIZE) bump_hi) as [Hle|]; [|by apply wp_halt].
  apply wp_bind, wp_modify, wp_ret. cbn [fst snd]. unfold is_u64, PGSIZE, bump_hi in *. split; [split; [lia|done]|lia].
Qed.
Next Obligation. by intros p [a h] [Ha Hh]. Qed.
Next Obligation. by intros s []. Qed.
Next Obligation. by intros f s []. Qed.

Definition ex_D (a : Z) : Prop := is_Some (arena_mem ex_image !! a).

Lemma put_typed D b l m : (forall c, c ∈ l -> 0 <= c < 256) -> mem_typed D m -> mem_typed D (put_bytes b l m).
Proof.
  intros Hl HT. unfold put_bytes. destruct (has_b m b (lenZ l)) eqn:Hh; [|done]. apply has_b_spec in Hh. destruct HT as [Hb Hd]. split.
  - intros x c. rewrite mem_at_union. destruct (inside b (lenZ l) x); [|apply Hb]. intros Hc. by apply Hl, (list_elem_of_lookup_2 _ _ _ Hc).
  - intros x. rewrite <- Hd, mem_at_union. destruct (inside_spec b (lenZ l) x) as [Hx|]; [|done]. split; intros _; [by apply Hh|].
    apply lookup_lt_is_Some_2. unfold lenZ in *. lia.
Qed.
Lemma vars_typed D b m : has m b 512 -> mem_typed D m -> mem_typed D (vars_mem b m).
Proof.
  intros Hh [Hb Hd]. split; [by apply vars_bytes|]. intros x. rewrite <- Hd. split; [|apply vars_has].
  destruct (decide (b <= x < b + 512)) as [Hx|Hx]; [intros _; by apply Hh|by rewrite vars_frame].
Qed.
#[local] Instance ex_host_typed D : TypedHost (Z * hart) D.
Proof.
  intros n a0 a1 a2 a3 a4 k [K1 K2 K3]. unfold wp. cbn [fe_syscall loader_frontend ex_frontend].
  destruct (n =? HTIFSYS_getmainvars).
  { split; [|done]. split; cbn [heap memory g_kernel_pagetable]; try done. destruct (has_b (memory k) a0 512) eqn:E; [|done]. by apply vars_typed, K2; apply has_b_spec. }
  destruct (n =? HTIFSYS_openat); [done|]. destruct ((n =? HTIFSYS_pread) && (a0 =? 5)); [|done].
  split; [|done]. split; cbn [heap memory g_kernel_pagetable]; try done. apply put_typed; [|done]. intros c. apply piece_bytes, ex_file_bytes.
Qed.

Lemma ex_first_typed : typed ex_D ex_first_state.
Proof.
  split.
  - split; cbn [km heap memory g_kernel_pagetable ex_first_state]; [|split; [exact ex_image_bytes|done]|by vm_compute].
    split; [by vm_compute|by split].
  - intros i. cbn [procs ex_first_state]. split; [by intros [x [Hi _]%zero_pool_slots]|]. intros Hi. exists zero_process. by apply zero_pool_slots.
  - cbn [procs ex_first_state]. intros i x [_ ->]%zero_pool_slots. apply zero_process_typed.
  - done.
  - done.
Qed.

Lemma ex_enters : exists tf satp s, first_process ex_sym ex_bufs ex_symbols ex_first_state = Halt (ToUser tf satp) s.
Proof.
  destruct ex_first_enough as (Hre & Hpr & Hn).
  pose proof (wp_first_process bump_lo bump_hi ex_sym ex_bufs ex_symbols bump_pages ∅ (fun _ => 0) (fun _ => 0) (fun _ => 0) ex_first_state
    ex_layout ex_loader_layout ex_first_supply eq_refl ex_first_ready ex_first_sized) as Hw.
  unfold wp in Hw. destruct (first_process ex_sym ex_bufs ex_symbols ex_first_state) as [a s|h s]; [done|].
  destruct Hw as [Hr|[(_ & Hl)|(_ & data & tf & pt & ks & us & info & pages & n' & U' & T' & _ & HI)]]; [by rewrite Hre in Hr|lia|].
  exists tf, (MAKE_SATP pt), s. by apply iu_stop in HI as ->.
Qed.

